(* ===== verification/_CoqProject ===== *)
-Q . S2P
Prelude.v
Text.v
PacketTypes.v
Utf8.v
PacketData.v
PacketHandshake.v
PacketControl.v
Time.v
CryptoKeys.v
CryptoContext.v
Options.v
Display.v
Cipher.v
Pacing.v
Sender.v
LossList.v
Receiver.v
ReceiverTotal.v
CoreHandshake.v
Connection.v
ConnectionLife.v
WireTypes.v
ConnectionTrace.v
Recovery.v
Integrity.v
Completeness.v
Channel.v
Net.v
ListenerDriver.v
SocketDriver.v
Url.v
ExampleCommon.v
ExampleSend.v
ExampleRecv.v
System.v
Testing.v
TestPacket.v
TestTime.v
TestSender.v
TestReceiver.v
TestHandshake.v
TestConnection.v
TestOptions.v
TestCrypto.v
