(* ===== verification/Prelude.v ===== *)
(** * A live-mode SRT endpoint: verification of the protocol and its drivers

    The program is a Rust implementation of the SRT protocol in live mode
    (sources under [src/src/]).  A caller or listener negotiates a
    connection with a handshake; afterwards a _connection_ drives a
    _sender_ (buffers payloads, sends and retransmits them), a _receiver_
    (buffers arriving packets, reports losses, delivers at the play time)
    and, when a passphrase is set, a _crypto engine_ shared by the two.
    All of that is written without I/O: each operation takes the current
    time and returns what to send.  Asynchronous tasks around it own the
    UDP sockets: a _socket driver_ per connection, which drains what the
    connection owes and feeds it datagrams, commands and timers, and a
    _listener driver_, which routes the datagrams of one socket to the
    accepted connections and accepts new callers.  Two example programs
    (under [src/examples/]) send a file over a socket and write what they
    receive to a file.  This development models all of it, from the packet
    codec to the drivers and the programs; for a driver or a program, what
    the operating system and the runtime answer is an input and what it
    does to them an output.

    ** Files, in dependency order

    - [Prelude]: panics and results, record update, machine integers, byte
      strings, the clock, tactics and generic lemmas.
    - [Text]: what is used of Rust's strings: splitting, parsing and writing
      numbers, as functions on UTF-8 bytes.
    - [PacketTypes] ([packet/types.rs], [packet/mod.rs]): sequence, message
      numbers, word access.
    - [Utf8]: the part of Rust's UTF-8 decoder the handshake parser uses.
    - [PacketData] ([packet/data.rs]), [PacketHandshake]
      ([packet/handshake.rs]), [PacketControl] ([packet/control.rs],
      [packet/mod.rs]): parser and encoder of every packet.
    - [Time] ([core/time.rs]): wire timestamps, their extension to 64 bits,
      the drift tracer.
    - [CryptoKeys] ([crypto/keys.rs], [crypto/ctr.rs], [crypto/km.rs]): key
      derivation and wrapping, AES-CTR, the key material messages;
      [CryptoContext] ([crypto/context.rs]): the per-connection engine with
      its key refresh.
    - [Options] ([options.rs], [error.rs]): options, their validation,
      errors; [Display]: the messages of the errors and the redacting [Debug]
      implementations ([error.rs], [options.rs], [packet/types.rs],
      [packet/mod.rs], [crypto/context.rs], [crypto/keys.rs]).
    - [Cipher]: the interface [PayloadCipher] the sender and the receiver
      need of the engine, with its instance [Crypto].
    - [Pacing] ([core/pacing.rs]): input rate estimate and send schedule.
    - [Sender] ([core/sender.rs]).
    - [LossList], [Receiver] ([core/receiver.rs]); [ReceiverTotal]: the
      receiver's operations return on every input, in reach or not.
    - [CoreHandshake] ([core/handshake.rs]): the caller and the listener
      side of the handshake, and their exchange over the wire.
    - [Connection] ([core/mod.rs]): the dispatch of packets to handshake,
      sender, receiver and crypto engine, the timers, what is owed to the
      peer; [ConnectionLife]: its well-formedness and life cycle, with the
      calls of a driver as the events [conn_event] of one step function
      [conn_step]; [WireTypes]: the types of everything a connection sends;
      [ConnectionTrace]: what one step does to the parts.
    - [Recovery]: a sender and a receiver through one round of loss recovery.
    - [Integrity]: two connections and the network between them;
      [Completeness]: what becomes of every payload; [Channel]: the same from
      the options of the two ends on, through the handshake.
    - [Net] ([net.rs]): address lookup, random ids, the UDP socket.
    - [ListenerDriver] ([listener.rs]) and [SocketDriver] ([socket.rs]): the
      tasks and the handles of the application.
    - [Url] ([examples/common/url.rs]), [ExampleCommon], [ExampleSend]
      ([examples/send.rs]) and [ExampleRecv] ([examples/recv.rs]): the
      example programs.
    - [System]: two sockets, two programs and the network between them.
    - [Testing], [TestPacket], [TestTime], [TestSender], [TestReceiver],
      [TestHandshake], [TestConnection], [TestOptions], [TestCrypto]: the unit
      tests of the sources as programs over the model, named after the test
      functions with the part they belong to in front.

    ** How the code is modelled

    A struct is a record with the struct's fields, an enum an inductive
    type, a method [T::m] the function [T_m] that takes the state and
    returns the new one with the result.  A [Result] is [result], a panic
    (index out of range, [expect], division by zero) the value [Panic] of
    [panicking], so that "returns" in a theorem excludes both panics and
    non-termination.  Long methods are split in the order of the code, each
    part mapped to its lines.

    Integers are [Z].  Sequence and message numbers, words of the wire,
    timestamps and RTT values keep their width with the wrap-around written
    out.  Counters of events and the 64-bit packet indices of the sender
    are unbounded: they cannot overflow in the life of a connection.
    Instants and durations are nanoseconds, and an instant may be any
    integer.  [f64] in the pacer and in the sending program is IEEE binary64 from the Standard
    Library's [SpecFloat].  Logging and [debug_assert!] are left out.

    Loops over a [Vec] are recursions on the list.  Loops that are not
    structural carry fuel and return [Panic] without it; the fuel is the
    length of what the loop consumes plus one (the loss list of the sender,
    the slots of the receiver, the words of a NAK, the bytes of an extension
    block, the items of an input in store and its bytes), and the theorems
    show that it is enough.  The two draining
    loops of the socket driver carry [owed_packets] and [owed_payloads]: the
    queued control packets, the loss list, the unsent packets, the handshake
    due, and the slots of the receive buffer; each call of the connection
    that returns something takes one of them away.  The loops that draw a
    random number until it fits end when one of the next draws fits, which
    is a hypothesis on the draws.

    A task is a function of the list of its turns.  A turn of [drive] takes
    the clock readings and the kernel's answers to its sends, then the
    branch [select!] takes; the theorems are about every such list, so about
    every interleaving the runtime may choose.  The effects of a task are
    its output, in order: datagrams sent or forwarded, payloads offered to
    the application, connections spawned, the signal to a waiting
    [connect].  A full channel loses what is offered to it ([deliver]); its
    answers are inputs, too.  A program is a function of what its waits
    yield: the items of the input, the messages, the deadlines that passed.

    A unit test is a program that returns when its assertions hold and panics
    otherwise; that it passes is computed.  The tests say nothing the theorems
    do not quantify over; they hold the definitions against what the authors
    of the code wrote down, byte vectors and instants included.  Where a test
    encrypts, the primitives are toy ones.

    Third-party code is a parameter: the block cipher, PBKDF2 and AES key
    wrap are the operations of the class [CryptoPrimitives], their
    documented behaviour (lengths, unwrap after wrap) the class
    [CryptoLaws]; random bytes are function arguments; the hash behind
    the listener's cookies is the class [CookieHash], of which nothing is
    assumed; the socket calls are the class [UdpApi], with what POSIX says of
    them in [UdpLaws].  Witnesses use instances with toy primitives.

    ** What the theorems show

    - Whole program: over a network that loses, reorders and repeats, what
      one application receives is a subsequence of what the other sent,
      byte for byte, encrypted or not (encrypted: up to the first key
      refresh; the refresh itself is verified on the engines).  This is shown
      for two connections ([Integrity]); a task is then shown to be a run of
      its connection, which gives it for two sockets and the bytes of their
      datagrams, and for the files of the two programs ([System]).  The
      hypotheses on the two ends follow from the handshake ([Channel]).
    - Completeness: payloads delivered and packets counted as dropped account
      for everything up to the last delivery; what has arrived is delivered;
      a gap is reported, resent and closed in one round.  An empty payload
      on an encrypted link is the exception: it is accepted and never
      delivered.
    - Types: every packet a connection sends has its fields in range and in
      wire form, whatever the peer sent before, so it parses back.
    - Programs: the reading thread is the splitting of its input into
      chunks; the sender sends exactly its input; the receiver reports
      success only for a complete file; the URL parser names its error.  Two
      rates that pass the sender's check make it panic.
    - Texts: an error's message identifies the error, and no [Debug] text
      depends on a secret.
    - Drivers: neither task panics or hangs, over every interleaving; a
      [connect] is answered exactly once and at the latest at its timeout;
      closing sends one SHUTDOWN and drains the receive buffer; the
      handle's size check is the core's.  A UDP socket is alone on its
      address, and none is left open by a failure.  The listener's routing tables stay
      inverse to each other, a datagram reaches a connection exactly when it
      is its own, and a spawned connection is fresh and well-formed.
    - Connection: no sequence of calls panics; the state only moves forward
      and for a stated cause; a silent peer is detected; before the
      announced deadline there is nothing to do.
    - Handshake: two ends with valid options and the same passphrase
      agree on latencies, sizes, ids and keys through the encoded packets;
      the listener accepts only what its cookie and encryption policy
      allow, the caller reports one outcome and enforces its own policy.
    - Codec: every parser returns on every byte string; parse and encode
      are inverse in both directions where the format allows it.
    - Sequence numbers: [diff] is the shortest distance, and the sender's
      and receiver's window arithmetic is exact within [2^29] or [2^30].
    - Crypto: the two ends of a key exchange hold the same keys, what one
      encrypts the other decrypts, also across key refreshes; the number of
      packets under one key is bounded; counter blocks never repeat.
    - Pacing: the schedule keeps the configured rate over every busy run.
    - Sender: an invariant over all operations; ACKs release, NAKs queue
      exactly what they name; a retransmission repeats the original packet;
      retransmissions go first, new data only inside the flow window.
    - Receiver: an invariant over all operations, with the loss list a
      refinement of a set of positions; deliveries are in order, without
      duplicates and never before the deadline; acknowledgements never go
      back; NAKs fit the negotiated payload.

    The receiver's theorems about drop requests assume that the range named
    is within [2^29] of the receiver's base: a request further away wraps
    around the 31-bit circle and means something else.

    ** Not modelled

    The system calls themselves; the scheduling of tasks and the capacity of channels,
    which belong to the runtime; derived [Debug] texts, logging, what the
    programs print on the terminal, and the scrubbing of key memory on drop;
    the re-exports of [lib.rs].  What a file holds after a failed write is
    left open.  Unit tests that compare memory addresses, texts of derived
    [Debug] or the published vectors of AES, AES key wrap and PBKDF2 are not
    translated, nor are those of the drivers, most of which open sockets, of
    the example programs, and the simulated networks of [core/sim_tests.rs]
    and [core/encrypted_sim_tests.rs].  The stream guarantee is not stated across a key refresh: a
    packet delayed until its key's slot holds a newer key is decrypted with
    that key, so the guarantee does not hold there. *)
From stdpp Require Export prelude list gmap.
From Stdlib Require Export ZArith Lia.

#[global] Open Scope Z_scope.

(** ** Panics and results

    Rust code has two ways of not returning its value: [Err], a value of
    [Result], and a panic (an index out of range, [unwrap] of [None]).  The
    first is data, the second must never happen; they are kept apart. *)

Inductive panicking (A : Type) : Type :=
| Ret (a : A)
| Panic.
Arguments Ret {A} a.
Arguments Panic {A}.

Inductive result (E A : Type) : Type :=
| Ok (a : A)
| Err (e : E).
Arguments Ok {E A} a.
Arguments Err {E A} e.

#[export] Instance panicking_ret : MRet panicking := @Ret.
#[export] Instance panicking_bind : MBind panicking := fun A B f m =>
  match m with Ret a => f a | Panic => Panic end.
#[export] Instance panicking_fmap : FMap panicking := fun A B f m =>
  match m with Ret a => Ret (f a) | Panic => Panic end.

(** The code shape [let x = m?; k] where [m] may also panic. *)
Abbreviation presult E A := (panicking (result E A)).

Definition pok {E A} (a : A) : presult E A := Ret (Ok a).

Definition perr {E A} (e : E) : presult E A := Ret (Err e).

Definition qbind {E A B} (m : presult E A) (k : A -> presult E B) : presult E B :=
  match m with
  | Ret (Ok a) => k a
  | Ret (Err e) => Ret (Err e)
  | Panic => Panic
  end.

Notation "x '←?' m ; k" := (qbind m (fun x => k))
  (at level 20, m at level 100, k at level 200, only parsing) : stdpp_scope.

(** Out-of-range slice index, [unwrap]/[expect] of an option. *)
Definition expect {A} (o : option A) : panicking A :=
  match o with Some a => Ret a | None => Panic end.

Definition returns {A} (m : panicking A) : Prop := exists a, m = Ret a.

(** ** Record update [r <| field := v |>] *)

Class Etable (R : Type) := eta_record : R -> R.
Class Setter {R T : Type} (proj : R -> T) := set_field : (T -> T) -> R -> R.
Arguments set_field {R T} proj {_} _ _.

Ltac solve_setter :=
  match goal with
  | |- @Setter ?R ?T ?proj =>
      let inst := constr:(_ : Etable R) in
      let eta := eval hnf in inst in
      lazymatch eta with context [proj] => idtac end;
      let p := eval pattern proj in eta in
      match p with
      | ?g _ =>
          exact (fun (f : T -> T) (r : R) =>
            ltac:(let t := eval cbv beta in (g (fun x => f (proj x)) r) in exact t))
      end
  end.

#[export] Hint Extern 1 (Setter _) => solve_setter : typeclass_instances.

#[warnings="-postfix-notation-not-level-1"]
Notation "r <| proj := v |>" := (set_field proj (fun _ => v) r)
  (at level 12, proj at level 0, v at level 200, left associativity,
   format "r  <| proj  :=  v |>").

(** Writes updated records out as constructor applications. *)
Ltac unfold_set := cbv beta delta [set_field] in *.

(** ** Machine integers

    A value of an unsigned type of width [w] is a [Z] in [[0, 2^w)]; the
    casts and wrapping operations write their wrap-around out. *)

Definition as_u8 (z : Z) : Z := z mod 2 ^ 8.

Definition as_u16 (z : Z) : Z := z mod 2 ^ 16.

Definition as_u32 (z : Z) : Z := z mod 2 ^ 32.

Definition as_u64 (z : Z) : Z := z mod 2 ^ 64.

Definition as_i32 (z : Z) : Z :=
  let w := z mod 2 ^ 32 in if w <? 2 ^ 31 then w else w - 2 ^ 32.

Definition as_i64 (z : Z) : Z :=
  let w := z mod 2 ^ 64 in if w <? 2 ^ 63 then w else w - 2 ^ 64.

Definition U32_MAX : Z := 2 ^ 32 - 1.

Definition U64_MAX : Z := 2 ^ 64 - 1.

(** [u64::saturating_add_signed], [saturating_mul] and [saturating_sub]. *)
Definition saturating_add_signed_u64 (a d : Z) : Z := Z.max 0 (Z.min U64_MAX (a + d)).

Definition saturating_mul_u64 (a b : Z) : Z := Z.min U64_MAX (a * b).

Definition saturating_sub (a b : Z) : Z := Z.max 0 (a - b).

(** Ranges. *)
Definition is_u8 (z : Z) : Prop := 0 <= z < 2 ^ 8.

Definition is_u16 (z : Z) : Prop := 0 <= z < 2 ^ 16.

Definition is_u32 (z : Z) : Prop := 0 <= z < 2 ^ 32.

Definition is_u64 (z : Z) : Prop := 0 <= z < 2 ^ 64.

(** ** Bytes

    A byte string is a list of [Z]; [to_be n]/[of_be] are
    [uN::to_be_bytes]/[from_be_bytes] for [n]-byte words. *)

Abbreviation bytes := (list Z) (only parsing).

Fixpoint to_be (n : nat) (v : Z) : bytes :=
  match n with
  | O => []
  | S m => (v / 2 ^ (8 * Z.of_nat m)) mod 2 ^ 8 :: to_be m v
  end.

Definition of_be (l : bytes) : Z := fold_left (fun acc b => acc * 2 ^ 8 + b) l 0.

(** Slice [buf[lo .. hi]] and element [buf[i]]; both panic out of range. *)
Definition slice {A} (buf : list A) (lo hi : nat) : panicking (list A) :=
  if (lo <=? hi)%nat && (hi <=? length buf)%nat
  then Ret (take (hi - lo) (drop lo buf))
  else Panic.

Definition index {A} (buf : list A) (i : nat) : panicking A := expect (buf !! i).

(** [Iterator::find_map]. *)
Fixpoint find_map {A B} (f : A -> option B) (l : list A) : option B :=
  match l with
  | [] => None
  | x :: r => match f x with Some y => Some y | None => find_map f r end
  end.

(** ** Clock

    [Instant] and [Duration] count nanoseconds. *)

Definition from_micros (us : Z) : Z := us * 1000.

Definition from_millis (ms : Z) : Z := ms * 1000000.

Definition from_secs (s : Z) : Z := s * 1000000000.

Definition as_micros (d : Z) : Z := d / 1000.

Definition as_millis (d : Z) : Z := d / 1000000.

Definition as_secs (d : Z) : Z := d / 1000000000.

(** [Instant::duration_since] saturates at zero, like
    [saturating_duration_since]. *)
Definition duration_since (a b : Z) : Z := Z.max 0 (a - b).

(** [Instant::checked_sub]: the earliest instant is the least 64-bit signed
    number of seconds. *)
Definition INSTANT_MIN : Z := - (2 ^ 63) * 1000000000.

Definition instant_checked_sub (a d : Z) : option Z :=
  if a - d <? INSTANT_MIN then None else Some (a - d).

(** ** Tactics *)

Ltac zify_divmod := Z.to_euclidean_division_equations; lia.

Ltac case_if :=
  match goal with
  | |- context [if ?b then _ else _] => destruct b eqn:?
  | H : context [if ?b then _ else _] |- _ => destruct b eqn:?
  end.

(** Turns boolean comparisons in hypotheses into propositions. *)
Ltac to_prop :=
  repeat match goal with
  | H : (_ && _) = true |- _ => apply andb_true_iff in H; destruct H
  | H : (_ || _) = false |- _ => apply orb_false_iff in H; destruct H
  | H : negb _ = true |- _ => apply negb_true_iff in H
  | H : negb _ = false |- _ => apply negb_false_iff in H
  | H : (_ <? _) = true |- _ => apply Z.ltb_lt in H
  | H : (_ <? _) = false |- _ => apply Z.ltb_ge in H
  | H : (_ <=? _) = true |- _ => apply Z.leb_le in H
  | H : (_ <=? _) = false |- _ => apply Z.leb_gt in H
  | H : (_ =? _) = true |- _ => apply Z.eqb_eq in H
  | H : (_ =? _) = false |- _ => apply Z.eqb_neq in H
  | H : (_ <=? _)%nat = true |- _ => apply Nat.leb_le in H
  | H : (_ <=? _)%nat = false |- _ => apply Nat.leb_gt in H
  | H : (_ <? _)%nat = true |- _ => apply Nat.ltb_lt in H
  | H : (_ <? _)%nat = false |- _ => apply Nat.ltb_ge in H
  | H : (_ =? _)%nat = true |- _ => apply Nat.eqb_eq in H
  | H : (_ =? _)%nat = false |- _ => apply Nat.eqb_neq in H
  end.

(** ** Generic lemmas *)

Create HintDb ints.
#[export] Hint Unfold is_u8 is_u16 is_u32 is_u64 : ints.

Lemma length_to_be n v : length (to_be n v) = n.
Proof. induction n; simpl; lia. Qed.

Lemma to_be_bytes n v : Forall is_u8 (to_be n v).
Proof.
  induction n; simpl; constructor; auto. apply Z.mod_pos_bound. lia.
Qed.

Lemma of_be_snoc l b : of_be (l ++ [b]) = of_be l * 2 ^ 8 + b.
Proof. unfold of_be. rewrite fold_left_app. done. Qed.

Lemma to_be_snoc n v : to_be (S n) v = to_be n (v / 2 ^ 8) ++ [v mod 2 ^ 8].
Proof.
  induction n as [|n IH].
  - simpl. by rewrite Z.div_1_r.
  - change (to_be (S (S n)) v) with
      ((v / 2 ^ (8 * Z.of_nat (S n))) mod 2 ^ 8 :: to_be (S n) v).
    rewrite IH. simpl. f_equal. rewrite Z.div_div by lia. f_equal. f_equal.
    replace (8 * Z.of_nat (S n)) with (8 + 8 * Z.of_nat n) by lia.
    rewrite Z.pow_add_r by lia. done.
Qed.

Lemma of_be_to_be n v : 0 <= v < 2 ^ (8 * Z.of_nat n) -> of_be (to_be n v) = v.
Proof.
  revert v. induction n as [|n IH]; intros v Hv.
  - simpl in *. unfold of_be. simpl. lia.
  - rewrite to_be_snoc, of_be_snoc, IH.
    + rewrite (Z.div_mod v (2 ^ 8)) at 3 by lia. lia.
    + replace (8 * Z.of_nat (S n)) with (8 + 8 * Z.of_nat n) in Hv by lia.
      rewrite Z.pow_add_r in Hv by lia. split.
      * apply Z.div_pos; lia.
      * apply Z.div_lt_upper_bound; lia.
Qed.

Lemma of_be_range l : Forall is_u8 l -> 0 <= of_be l < 2 ^ (8 * Z.of_nat (length l)).
Proof.
  induction l as [|b l IH] using rev_ind; intros H.
  - done.
  - rewrite of_be_snoc, length_app. simpl.
    apply Forall_app in H as [Hl Hb]. rewrite Forall_singleton in Hb. specialize (IH Hl).
    replace (8 * Z.of_nat (length l + 1)) with (8 * Z.of_nat (length l) + 8) by lia.
    rewrite Z.pow_add_r by lia. unfold is_u8 in Hb. revert IH Hb.
    generalize (2 ^ (8 * Z.of_nat (length l))) (of_be l). lia.
Qed.

Lemma to_be_of_be l : Forall is_u8 l -> to_be (length l) (of_be l) = l.
Proof.
  induction l as [|b l IH] using rev_ind; intros H; [done|].
  apply Forall_app in H as [Hl Hb]. rewrite Forall_singleton in Hb. unfold is_u8 in Hb.
  rewrite length_app, of_be_snoc. simpl. rewrite Nat.add_1_r, to_be_snoc.
  rewrite Z.div_add_l, (Z.div_small b), Z.add_0_r, IH by (done || lia).
  rewrite Z.add_comm, Z.mod_add, Z.mod_small by lia. done.
Qed.

Lemma slice_ret {A} (buf : list A) lo hi :
  (lo <= hi)%nat -> (hi <= length buf)%nat -> slice buf lo hi = Ret (take (hi - lo) (drop lo buf)).
Proof.
  intros. unfold slice. destruct (Nat.leb_spec lo hi), (Nat.leb_spec hi (length buf)); done || lia.
Qed.

(** Masks and shifts as division and remainder. *)
Lemma land_mask z n : 0 <= n -> Z.land z (2 ^ n - 1) = z mod 2 ^ n.
Proof. intros. rewrite <- Z.land_ones by done. by rewrite Z.ones_equiv. Qed.

Lemma lor_disjoint a b n : 0 <= n -> 0 <= b < 2 ^ n -> Z.lor (a * 2 ^ n) b = a * 2 ^ n + b.
Proof.
  intros Hn Hb. rewrite <- Z.shiftl_mul_pow2 by done.
  rewrite Z.add_nocarry_lxor.
  - rewrite Z.lxor_lor; [done|].
    apply Z.bits_inj'. intros i Hi. rewrite Z.land_spec, Z.bits_0.
    destruct (Z.lt_ge_cases i n).
    + rewrite Z.shiftl_spec_low by done. done.
    + rewrite <- (Z.mod_small b (2 ^ n)) by done.
      rewrite Z.mod_pow2_bits_high by lia. by rewrite andb_false_r.
  - apply Z.bits_inj'. intros i Hi. rewrite Z.land_spec, Z.bits_0.
    destruct (Z.lt_ge_cases i n).
    + rewrite Z.shiftl_spec_low by done. done.
    + rewrite <- (Z.mod_small b (2 ^ n)) by done.
      rewrite Z.mod_pow2_bits_high by lia. by rewrite andb_false_r.
Qed.

Lemma testbit_land z n : 0 <= n -> (Z.land z (2 ^ n) =? 0) = negb (Z.testbit z n).
Proof.
  intros Hn. destruct (Z.testbit z n) eqn:E; simpl.
  - apply Z.eqb_neq. intros H0. apply (f_equal (fun x => Z.testbit x n)) in H0.
    rewrite Z.land_spec, E, Z.pow2_bits_true, Z.bits_0 in H0 by done. done.
  - apply Z.eqb_eq. apply Z.bits_inj'. intros i Hi.
    rewrite Z.land_spec, Z.pow2_bits_eqb, Z.bits_0 by done.
    destruct (Z.eqb_spec n i); subst; [by rewrite E | by rewrite andb_false_r].
Qed.

Lemma as_u32_small z : is_u32 z -> as_u32 z = z.
Proof. apply Z.mod_small. Qed.

Lemma as_u32_range z : is_u32 (as_u32 z).
Proof. apply Z.mod_pos_bound. lia. Qed.

#[global] Arguments to_be : simpl never.
#[global] Arguments of_be : simpl never.
