(* ===== verification/Text.v ===== *)
(** * Text: the string functions of the Rust standard library

    Text is its UTF-8 bytes.  Every separator is an ASCII character, whose
    byte occurs in UTF-8 only as that character, so that splitting at the
    character is splitting at the byte. *)

From Stdlib Require Import SpecFloat.
From Stdlib Require Ascii String.
From S2P Require Import Prelude.
Export Ascii.AsciiSyntax String.StringSyntax.

(** ** Literals *)

Definition char (c : Ascii.ascii) : Z := Z.of_N (Ascii.N_of_ascii c).
Arguments char c%_char_scope.

Definition str (s : String.string) : bytes := char <$> String.list_ascii_of_string s.
Arguments str s%_string_scope.

(** ** Splitting *)

Fixpoint strip_prefix (p s : bytes) : option bytes :=
  match p, s with
  | [], _ => Some s
  | a :: p, b :: s => if a =? b then strip_prefix p s else None
  | _ :: _, [] => None
  end.

Fixpoint split_once (c : Z) (s : bytes) : option (bytes * bytes) :=
  match s with
  | [] => None
  | b :: s =>
      if b =? c then Some ([], s) else
      match split_once c s with
      | Some (l, r) => Some (b :: l, r)
      | None => None
      end
  end.

Fixpoint rsplit_once (c : Z) (s : bytes) : option (bytes * bytes) :=
  match s with
  | [] => None
  | b :: s =>
      match rsplit_once c s with
      | Some (l, r) => Some (b :: l, r)
      | None => if b =? c then Some ([], s) else None
      end
  end.

(** [split]: never empty. *)
Fixpoint split (c : Z) (s : bytes) : list bytes :=
  match s with
  | [] => [[]]
  | b :: s =>
      if b =? c then [] :: split c s else
      match split c s with
      | w :: ws => (b :: w) :: ws
      | [] => [[b]]
      end
  end.

(** ** Decimal numbers *)

Definition is_digit (c : Z) : bool := (48 <=? c) && (c <=? 57).

Fixpoint parse_digits (max acc : Z) (s : bytes) : option Z :=
  match s with
  | [] => Some acc
  | c :: s =>
      if is_digit c then
        let acc := acc * 10 + (c - 48) in
        if max <? acc then None else parse_digits max acc s
      else None
  end.

(** [str::parse] for an unsigned type with largest value [max]. *)
Definition parse_unsigned (max : Z) (s : bytes) : option Z :=
  match s with
  | [] => None
  | [c] => if c =? char "+" then None else parse_digits max 0 s
  | c :: r => if c =? char "+" then parse_digits max 0 r else parse_digits max 0 s
  end.

Fixpoint decimal_loop (fuel : nat) (n : Z) (acc : bytes) : bytes :=
  match fuel with
  | O => acc
  | S fuel =>
      let acc := 48 + n mod 10 :: acc in
      if n <? 10 then acc else decimal_loop fuel (n / 10) acc
  end.

(** [Display] of an unsigned number; its binary digits bound its decimal
    ones. *)
Definition decimal (n : Z) : bytes := decimal_loop (S (Z.to_nat (Z.log2 n))) n [].

(** ** Binary64 numbers *)

Fixpoint span_digits (s : bytes) : bytes * bytes :=
  match s with
  | c :: r => if is_digit c then let '(ds, rest) := span_digits r in (c :: ds, rest) else ([], s)
  | [] => ([], [])
  end.

Definition digits_value (s : bytes) : Z := fold_left (fun acc c => acc * 10 + (c - 48)) s 0.

(** The exponent after the digits; [None] where the text goes on in another
    way. *)
Definition parse_exponent (s : bytes) : option Z :=
  match s with
  | [] => Some 0
  | c :: r =>
      if (c =? char "e") || (c =? char "E") then
        let '(neg, r) := match r with
                         | d :: r' => if d =? char "-" then (true, r') else if d =? char "+" then (false, r') else (false, r)
                         | [] => (false, r)
                         end in
        match span_digits r with
        | ((_ :: _) as ds, []) => Some (if neg then - digits_value ds else digits_value ds)
        | _ => None
        end
      else None
  end.

(** Digits with at most one point, and an exponent: [(m, e)] for [m * 10^e]. *)
Definition parse_number (s : bytes) : option (Z * Z) :=
  let '(int, s) := span_digits s in
  let '(frac, s) := match s with
                    | c :: r => if c =? char "." then span_digits r else ([], s)
                    | [] => ([], s)
                    end in
  match int ++ frac with
  | [] => None
  | ds =>
      match parse_exponent s with
      | Some e => Some (digits_value ds, e - Z.of_nat (length frac))
      | None => None
      end
  end.

(** The nearest binary64 number, ties to even. *)
Definition f64_of_decimal (neg : bool) (m e : Z) : spec_float :=
  match m with
  | Zpos _ =>
      if 0 <=? e then binary_normalize 53 1024 (if neg then - (m * 10 ^ e) else m * 10 ^ e) 0 neg
      else let '(q, e', l) := SFdiv_core_binary 53 1024 m 0 (10 ^ (- e)) 0 in
           binary_round_aux 53 1024 neg q e' l
  | _ => S754_zero neg
  end.

Definition ascii_lower (s : bytes) : bytes :=
  (fun c => if (65 <=? c) && (c <=? 90) then c + 32 else c) <$> s.

(** [str::parse::<f64>]. *)
Definition parse_f64 (s : bytes) : option spec_float :=
  let '(neg, r) := match s with
                   | c :: r => if c =? char "-" then (true, r) else if c =? char "+" then (false, r) else (false, s)
                   | [] => (false, s)
                   end in
  match parse_number r with
  | Some (m, e) => Some (f64_of_decimal neg m e)
  | None =>
      let w := ascii_lower r in
      if decide (w = str "nan") then Some S754_nan
      else if decide (w = str "inf" \/ w = str "infinity") then Some (S754_infinity neg) else None
  end.

(** ** Lemmas *)

Lemma strip_prefix_app p s : strip_prefix p (p ++ s) = Some s.
Proof. induction p as [|a p IH]; cbn; [done|]. by rewrite Z.eqb_refl. Qed.

Lemma strip_prefix_Some p s r : strip_prefix p s = Some r -> s = p ++ r.
Proof.
  revert s. induction p as [|a p IH]; intros s; cbn; [by intros [= ->]|].
  destruct s as [|b s]; [done|]. destruct (Z.eqb_spec a b) as [->|]; [|done]. intros Hs. by rewrite (IH s Hs).
Qed.

Lemma split_once_None c s : split_once c s = None <-> c ∉ s.
Proof.
  induction s as [|b s IH]; cbn; [split; [intros _ Hc; by apply elem_of_nil in Hc|done]|].
  rewrite not_elem_of_cons. destruct (Z.eqb_spec b c) as [->|Hne]; [split; [done|by intros []]|].
  rewrite <- IH. destruct (split_once c s) as [[l r]|]; split; [done|by intros []| |done]. intros _. by split; [intros ->|].
Qed.

Lemma split_once_app c l r : c ∉ l -> split_once c (l ++ c :: r) = Some (l, r).
Proof.
  induction l as [|b l IH]; cbn; [by rewrite Z.eqb_refl|]. rewrite not_elem_of_cons. intros [Hne Hl].
  destruct (Z.eqb_spec b c); [congruence|]. by rewrite IH.
Qed.

Lemma split_once_Some c s l r : split_once c s = Some (l, r) -> s = l ++ c :: r /\ c ∉ l.
Proof.
  revert l. induction s as [|b s IH]; intros l; cbn; [done|].
  destruct (Z.eqb_spec b c) as [->|Hne].
  - intros [= <- <-]. split; [done|]. intros Hc. by apply elem_of_nil in Hc.
  - destruct (split_once c s) as [[l' r']|]; [|done]. intros [= <- <-]. destruct (IH l' eq_refl) as [-> Hl].
    split; [done|]. rewrite not_elem_of_cons. by split; [intros ->|].
Qed.

Lemma rsplit_once_None c s : rsplit_once c s = None <-> c ∉ s.
Proof.
  induction s as [|b s IH]; cbn; [split; [intros _ Hc; by apply elem_of_nil in Hc|done]|].
  rewrite not_elem_of_cons. destruct (rsplit_once c s) as [[l r]|].
  - split; [done|]. intros [_ Hs]. by apply IH in Hs.
  - destruct (Z.eqb_spec b c) as [->|Hne]; [split; [done|by intros []]|].
    split; [intros _|done]. split; [by intros ->|by apply IH].
Qed.

Lemma rsplit_once_app c l r : c ∉ r -> rsplit_once c (l ++ c :: r) = Some (l, r).
Proof.
  intros Hr. induction l as [|b l IH]; cbn; [|by rewrite IH].
  apply rsplit_once_None in Hr. by rewrite Hr, Z.eqb_refl.
Qed.

Lemma rsplit_once_Some c s l r : rsplit_once c s = Some (l, r) -> s = l ++ c :: r /\ c ∉ r.
Proof.
  revert l. induction s as [|b s IH]; intros l; cbn; [done|].
  destruct (rsplit_once c s) as [[l' r']|] eqn:Hs.
  - intros [= <- <-]. destruct (IH l' eq_refl) as [-> Hr]. done.
  - destruct (Z.eqb_spec b c) as [->|]; [|done]. intros [= <- <-]. split; [done|]. by apply rsplit_once_None.
Qed.

Lemma split_word c s : c ∉ s -> split c s = [s].
Proof.
  induction s as [|b s IH]; cbn; [done|]. rewrite not_elem_of_cons. intros [Hne Hs].
  destruct (Z.eqb_spec b c); [congruence|]. by rewrite IH.
Qed.

Lemma split_app c w s : c ∉ w -> split c (w ++ c :: s) = w :: split c s.
Proof.
  induction w as [|b w IH]; cbn; [by rewrite Z.eqb_refl|]. rewrite not_elem_of_cons. intros [Hne Hw].
  destruct (Z.eqb_spec b c); [congruence|]. by rewrite IH.
Qed.

Lemma parse_digits_range max s : forall acc n,
  0 <= acc <= max -> parse_digits max acc s = Some n -> 0 <= n <= max.
Proof.
  induction s as [|c s IH]; intros acc n Hacc; cbn; [by intros [= <-]|].
  unfold is_digit. case_if; [|done]. to_prop. case_if; [done|]. to_prop. apply IH. lia.
Qed.

Lemma parse_unsigned_range max s n : 0 <= max -> parse_unsigned max s = Some n -> 0 <= n <= max.
Proof.
  intros Hm. unfold parse_unsigned. destruct s as [|c [|d s]]; [done| |];
    case_if; try done; apply parse_digits_range; lia.
Qed.

(** A number is read back from its decimal digits. *)
Lemma decimal_loop_parses max : forall fuel n acc,
  0 <= n <= max -> n < 2 ^ Z.of_nat fuel ->
  exists ds, decimal_loop fuel n acc = ds ++ acc /\ Forall (fun c => is_digit c = true) ds /\
    (fuel <> O -> ds <> []) /\ forall r, parse_digits max 0 (ds ++ r) = parse_digits max n r.
Proof.
  induction fuel as [|fuel IH]; intros n acc Hn Hf.
  { exists []. split; [done|]. split; [constructor|]. split; [done|]. intros r. cbn in *. f_equal. lia. }
  cbn [decimal_loop]. assert (Hd : is_digit (48 + n mod 10) = true).
  { unfold is_digit. apply andb_true_intro. split; apply Z.leb_le; zify_divmod. }
  assert (Hstep : forall m r, 0 <= m -> n = m * 10 + n mod 10 ->
    parse_digits max m (48 + n mod 10 :: r) = parse_digits max n r).
  { intros m r Hm Hnm. cbn [parse_digits]. rewrite Hd. replace (m * 10 + (48 + n mod 10 - 48)) with n by lia.
    destruct (Z.ltb_spec max n); [lia|done]. }
  destruct (Z.ltb_spec n 10).
  - exists [48 + n mod 10]. split; [done|]. split; [by constructor|]. split; [done|]. intros r.
    cbn [app]. apply (Hstep 0 r); [done|]. zify_divmod.
  - destruct (IH (n / 10) (48 + n mod 10 :: acc)) as (ds & Hds & Hall & _ & Hp).
    + zify_divmod.
    + rewrite Nat2Z.inj_succ, Z.pow_succ_r in Hf by lia. zify_divmod.
    + exists (ds ++ [48 + n mod 10]). rewrite Hds, <- app_assoc. split; [done|].
      split; [apply Forall_app; by split; [|constructor]|]. split; [by destruct ds|]. intros r.
      rewrite <- app_assoc, Hp. apply Hstep; zify_divmod.
Qed.

Lemma decimal_parses max n : 0 <= n <= max ->
  exists ds, decimal n = ds /\ ds <> [] /\ Forall (fun c => is_digit c = true) ds /\ parse_digits max 0 ds = Some n.
Proof.
  intros Hn. unfold decimal. destruct (decimal_loop_parses max (S (Z.to_nat (Z.log2 n))) n []) as (ds & Hds & Hall & Hne & Hp).
  - done.
  - rewrite Nat2Z.inj_succ, Z2Nat.id by apply Z.log2_nonneg.
    destruct (Z.eq_dec n 0) as [->|]; [done|]. apply Z.log2_spec. lia.
  - rewrite app_nil_r in Hds. exists ds. split; [done|]. split; [by apply Hne|]. split; [done|].
    rewrite <- (app_nil_r ds). by rewrite Hp.
Qed.

Lemma parse_decimal max n : 0 <= n <= max -> parse_unsigned max (decimal n) = Some n.
Proof.
  intros Hn. destruct (decimal_parses max n Hn) as (ds & -> & Hne & Hall & Hp).
  destruct ds as [|c ds]; [done|]. apply Forall_cons in Hall as [Hc _].
  assert (Hplus : (c =? char "+") = false) by (apply Z.eqb_neq; unfold is_digit in Hc; to_prop; change (char "+") with 43; lia).
  unfold parse_unsigned. rewrite Hplus. by destruct ds.
Qed.

Lemma decimal_no_char n c : 0 <= n -> is_digit c = false -> c ∉ decimal n.
Proof.
  intros Hn Hc. destruct (decimal_parses n n) as (ds & -> & _ & Hall & _); [lia|].
  rewrite Forall_forall in Hall. intros Hin. apply Hall in Hin. congruence.
Qed.

Lemma decimal_inj n m : 0 <= n -> 0 <= m -> decimal n = decimal m -> n = m.
Proof.
  intros Hn Hm E. pose proof (parse_decimal (Z.max n m) n ltac:(lia)) as E1.
  pose proof (parse_decimal (Z.max n m) m ltac:(lia)) as E2. congruence.
Qed.
