(* ===== verification/PacketTypes.v ===== *)
(** * Packet types: [src/packet/types.rs] and the helpers of [src/packet/mod.rs]

    Sequence numbers (31-bit, wrapping), message numbers (26-bit, wrapping),
    socket ids and timestamps (plain 32-bit words), the error type of the
    codec and its big-endian word readers and writer. *)

From S2P Require Import Prelude.

(** ** [SeqNumber] *)

Definition SeqNumber_MASK : Z := 0x7FFFFFFF.

Definition SeqNumber_new (value : Z) : Z := Z.land value SeqNumber_MASK.

Definition SeqNumber_add (s n : Z) : Z := Z.land (as_u32 (s + as_u32 n)) SeqNumber_MASK.

Definition SeqNumber_next (s : Z) : Z := SeqNumber_add s 1.

Definition SeqNumber_prev (s : Z) : Z := SeqNumber_add s (-1).

Definition SeqNumber_diff (s other : Z) : Z :=
  let d := Z.land (as_u32 (s - other)) SeqNumber_MASK in
  if SeqNumber_MASK / 2 <? d then as_i32 (d - Z.shiftl 1 31) else as_i32 d.

(** The values a [SeqNumber] can hold. *)
Definition SeqNumber_wf (s : Z) : Prop := 0 <= s < 2 ^ 31.

(** ** [MsgNumber] *)

Definition MsgNumber_MASK : Z := 0x03FFFFFF.

Definition MsgNumber_new (value : Z) : Z := Z.land value MsgNumber_MASK.

Definition MsgNumber_next (m : Z) : Z := Z.land (as_u32 (m + 1)) MsgNumber_MASK.

Definition MsgNumber_wf (m : Z) : Prop := 0 <= m < 2 ^ 26.

(** ** [SocketId], [Timestamp] *)

Definition SocketId_HANDSHAKE : Z := 0.

(** ** [PacketError]

    The string carried by the two structural errors is kept as a tag. *)

Inductive bad_handshake :=
| IsnOutsideValidRange
| UnknownHandshakeType
| HsExtShorterThan3Words
| TruncatedExtensionBlock.

Inductive bad_cif :=
| DropreqShorterThan2Words
| AckShorterThan4Words
| EmptyNakLossList
| NakRangeMissingEndWord
| NakRangeStartAfterEnd.

Inductive PacketError :=
| TooShort
| UnknownControlType (t : Z)
| BadHandshake (msg : bad_handshake)
| BadCif (msg : bad_cif).

(** ** Header size and word access *)

Definition HEADER_SIZE : nat := 16.

Definition read_u32 (buf : bytes) (off : nat) : panicking Z :=
  w ← slice buf off (off + 4);
  Ret (of_be w).

Definition read_u16 (buf : bytes) (off : nat) : panicking Z :=
  w ← slice buf off (off + 2);
  Ret (of_be w).

Definition put_u32 (out : bytes) (value : Z) : bytes := out ++ to_be 4 value.

(** ** Lemmas *)

Create HintDb seq.

Lemma SeqNumber_new_mod v : SeqNumber_new v = v mod 2 ^ 31.
Proof. apply (land_mask v 31). lia. Qed.

Lemma MsgNumber_new_mod v : MsgNumber_new v = v mod 2 ^ 26.
Proof. apply (land_mask v 26). lia. Qed.

Lemma MsgNumber_next_mod m : MsgNumber_next m = (m + 1) mod 2 ^ 26.
Proof.
  unfold MsgNumber_next, as_u32. rewrite (land_mask _ 26) by lia. zify_divmod.
Qed.

Lemma SeqNumber_add_mod s n : SeqNumber_add s n = (s + n) mod 2 ^ 31.
Proof.
  unfold SeqNumber_add, as_u32. rewrite (land_mask _ 31) by lia. zify_divmod.
Qed.

Lemma SeqNumber_diff_mod a b :
  SeqNumber_diff a b = (a - b + 2 ^ 30) mod 2 ^ 31 - 2 ^ 30.
Proof.
  unfold SeqNumber_diff, as_u32, as_i32. rewrite (land_mask _ 31) by lia.
  change (SeqNumber_MASK / 2) with (2 ^ 30 - 1). change (Z.shiftl 1 31) with (2 ^ 31).
  repeat case_if; to_prop; zify_divmod.
Qed.

Lemma SeqNumber_new_wf v : SeqNumber_wf (SeqNumber_new v).
Proof. rewrite SeqNumber_new_mod. apply Z.mod_pos_bound. lia. Qed.

Lemma SeqNumber_new_id v : SeqNumber_wf v -> SeqNumber_new v = v.
Proof. rewrite SeqNumber_new_mod. apply Z.mod_small. Qed.

Lemma MsgNumber_new_wf v : MsgNumber_wf (MsgNumber_new v).
Proof. rewrite MsgNumber_new_mod. apply Z.mod_pos_bound. lia. Qed.

Lemma MsgNumber_new_id v : MsgNumber_wf v -> MsgNumber_new v = v.
Proof. rewrite MsgNumber_new_mod. apply Z.mod_small. Qed.

Lemma SeqNumber_add_wf s n : SeqNumber_wf (SeqNumber_add s n).
Proof. rewrite SeqNumber_add_mod. apply Z.mod_pos_bound. lia. Qed.

Lemma SeqNumber_next_wf s : SeqNumber_wf (SeqNumber_next s).
Proof. apply SeqNumber_add_wf. Qed.

Lemma SeqNumber_prev_wf s : SeqNumber_wf (SeqNumber_prev s).
Proof. apply SeqNumber_add_wf. Qed.

Lemma SeqNumber_add_add s n m : SeqNumber_add (SeqNumber_add s n) m = SeqNumber_add s (n + m).
Proof. rewrite !SeqNumber_add_mod. zify_divmod. Qed.

Lemma SeqNumber_add_0 s : SeqNumber_wf s -> SeqNumber_add s 0 = s.
Proof. rewrite SeqNumber_add_mod, Z.add_0_r. apply Z.mod_small. Qed.

Lemma SeqNumber_diff_range a b : - 2 ^ 30 <= SeqNumber_diff a b < 2 ^ 30.
Proof. rewrite SeqNumber_diff_mod. zify_divmod. Qed.

(** The distance between two positions counted from one base. *)
Lemma SeqNumber_diff_add s n m :
  - 2 ^ 30 <= n - m < 2 ^ 30 -> SeqNumber_diff (SeqNumber_add s n) (SeqNumber_add s m) = n - m.
Proof. rewrite SeqNumber_diff_mod, !SeqNumber_add_mod. zify_divmod. Qed.

Lemma SeqNumber_add_diff a b : SeqNumber_wf a -> SeqNumber_add b (SeqNumber_diff a b) = a.
Proof. unfold SeqNumber_wf. rewrite SeqNumber_diff_mod, SeqNumber_add_mod. zify_divmod. Qed.

Lemma SeqNumber_add_inj s n m :
  - 2 ^ 31 < n - m < 2 ^ 31 -> SeqNumber_add s n = SeqNumber_add s m -> n = m.
Proof. rewrite !SeqNumber_add_mod. zify_divmod. Qed.

#[export] Hint Resolve SeqNumber_new_wf SeqNumber_add_wf SeqNumber_next_wf SeqNumber_prev_wf
  MsgNumber_new_wf : seq.

(** Reading a word inside the buffer never panics. *)
Lemma read_u32_ret buf off :
  (off + 4 <= length buf)%nat -> read_u32 buf off = Ret (of_be (take 4 (drop off buf))).
Proof.
  intros. unfold read_u32. rewrite slice_ret by lia. cbn. do 3 f_equal. lia.
Qed.

Lemma read_u16_ret buf off :
  (off + 2 <= length buf)%nat -> read_u16 buf off = Ret (of_be (take 2 (drop off buf))).
Proof.
  intros. unfold read_u16. rewrite slice_ret by lia. cbn. do 3 f_equal. lia.
Qed.

Lemma read_u32_here v l : is_u32 v -> read_u32 (to_be 4 v ++ l) 0 = Ret v.
Proof.
  intros Hv. rewrite read_u32_ret by (rewrite length_app, length_to_be; lia).
  rewrite drop_0, take_app_le by (rewrite length_to_be; lia).
  rewrite take_ge by (rewrite length_to_be; lia). by rewrite of_be_to_be.
Qed.

Lemma read_u16_here v l : is_u16 v -> read_u16 (to_be 2 v ++ l) 0 = Ret v.
Proof.
  intros Hv. rewrite read_u16_ret by (rewrite length_app, length_to_be; lia).
  rewrite drop_0, take_app_le by (rewrite length_to_be; lia).
  rewrite take_ge by (rewrite length_to_be; lia). by rewrite of_be_to_be.
Qed.

Lemma slice_app_r {A} (l1 l2 : list A) lo hi :
  (length l1 <= lo)%nat -> (lo <= hi)%nat ->
  slice (l1 ++ l2) lo hi = slice l2 (lo - length l1) (hi - length l1).
Proof.
  intros H1 H2. unfold slice. rewrite length_app.
  replace (hi - length l1 <=? length l2)%nat with (hi <=? length l1 + length l2)%nat
    by (apply eq_true_iff_eq; rewrite !Nat.leb_le; lia).
  replace (lo - length l1 <=? hi - length l1)%nat with (lo <=? hi)%nat
    by (apply eq_true_iff_eq; rewrite !Nat.leb_le; lia).
  case_if; [|done]. rewrite drop_app_ge by lia. do 2 f_equal. lia.
Qed.

Lemma slice_mid {A} (pre mid post : list A) n m :
  length pre = n -> m = (n + length mid)%nat -> slice (pre ++ mid ++ post) n m = Ret mid.
Proof.
  intros <- ->. rewrite slice_app_r by lia. rewrite slice_ret by (rewrite ?length_app; lia).
  rewrite Nat.sub_diag, drop_0. rewrite take_app_le by lia. by rewrite take_ge by lia.
Qed.

Lemma slice_tail {A} (pre post : list A) n m :
  length pre = n -> m = (n + length post)%nat -> slice (pre ++ post) n m = Ret post.
Proof. intros Hn Hm. rewrite <- (app_nil_r post) at 1. by apply slice_mid. Qed.

Lemma read_u32_app l1 l2 off :
  (length l1 <= off)%nat -> read_u32 (l1 ++ l2) off = read_u32 l2 (off - length l1).
Proof.
  intros. unfold read_u32. rewrite slice_app_r by lia.
  replace (off + 4 - length l1)%nat with (off - length l1 + 4)%nat by lia. done.
Qed.

Lemma read_u16_app l1 l2 off :
  (length l1 <= off)%nat -> read_u16 (l1 ++ l2) off = read_u16 l2 (off - length l1).
Proof.
  intros. unfold read_u16. rewrite slice_app_r by lia.
  replace (off + 2 - length l1)%nat with (off - length l1 + 2)%nat by lia. done.
Qed.

(** Reads the word at a position that is a constant number of encoded words
    into the buffer. *)
Ltac read_word_step rd app here n v l off :=
  lazymatch off with
  | O => rewrite (here v l) by (unfold is_u32, is_u16 in *; lia)
  | _ =>
      let o := eval compute in (off - n)%nat in
      replace (rd (to_be n v ++ l) off) with (rd l o)
        by (rewrite (app (to_be n v) l off) by (rewrite length_to_be; lia);
            rewrite length_to_be; reflexivity)
  end.

Ltac read_word :=
  repeat match goal with
  | |- context [read_u32 (to_be ?n ?v ++ ?l) ?off] =>
      read_word_step read_u32 read_u32_app read_u32_here n v l off
  | |- context [read_u16 (to_be ?n ?v ++ ?l) ?off] =>
      read_word_step read_u16 read_u16_app read_u16_here n v l off
  end.

(** ** Properties *)

(** [SeqNumber::diff] is the shortest signed distance: it is the one
    [n] in [[-2^30, 2^30)] that [SeqNumber::add] takes from [other] to
    [self]. *)
Theorem seq_diff_is_shortest_distance (a b n : Z) :
  SeqNumber_wf a -> SeqNumber_wf b ->
  SeqNumber_diff a b = n <-> (- 2 ^ 30 <= n < 2 ^ 30 /\ SeqNumber_add b n = a).
Proof.
  intros Ha Hb. split.
  - intros <-. split; [apply SeqNumber_diff_range | by apply SeqNumber_add_diff].
  - intros [Hn <-]. rewrite <- (SeqNumber_add_0 b Hb) at 2.
    rewrite SeqNumber_diff_add; lia.
Qed.

Lemma seq_diff_is_shortest_distance_witness :
  SeqNumber_diff 1 0x7FFFFFFE = 3 /\ SeqNumber_add 0x7FFFFFFE 3 = 1.
Proof.
  split; [reflexivity|].
  refine (proj2 (proj1 (seq_diff_is_shortest_distance 1 0x7FFFFFFE 3 _ _) _));
    [split; lia | split; lia | reflexivity].
Defined.
