(* ===== verification/Utf8.v ===== *)
(** * [String::from_utf8_lossy] of the Rust standard library

    A Rust [String] is a byte list that is valid UTF-8.  The lossy decoder
    replaces every maximal invalid prefix by U+FFFD; the codec applies it to
    the two strings a handshake carries. *)

From S2P Require Import Prelude.

(** U+FFFD in UTF-8. *)
Definition REPLACEMENT : bytes := [0xEF; 0xBF; 0xBD].

Definition between (lo hi b : Z) : bool := (lo <=? b) && (b <=? hi).

(** [utf8_char_width]: the length a lead byte announces, 0 when it is none. *)
Definition utf8_char_width (b : Z) : nat :=
  if b <? 0x80 then 1 else
  if between 0xC2 0xDF b then 2 else
  if between 0xE0 0xEF b then 3 else
  if between 0xF0 0xF4 b then 4 else 0.

(** A byte past the end reads as 0. *)
Definition safe_get (l : bytes) (i : nat) : Z := default 0 (l !! i).

Definition is_cont (b : Z) : bool := between 0x80 0xBF b.

(** The second byte a three- or four-byte lead allows. *)
Definition second_ok (lead b : Z) : bool :=
  if lead =? 0xE0 then between 0xA0 0xBF b else
  if lead =? 0xED then between 0x80 0x9F b else
  if lead =? 0xF0 then between 0x90 0xBF b else
  if lead =? 0xF4 then between 0x80 0x8F b else is_cont b.

(** One character at the head of [b :: l]: whether it is valid, and how many
    bytes are inspected. *)
Definition utf8_step (b : Z) (l : bytes) : bool * nat :=
  match utf8_char_width b with
  | 1%nat => (true, 1%nat)
  | 2%nat => if is_cont (safe_get l 0) then (true, 2%nat) else (false, 1%nat)
  | 3%nat =>
      if negb (second_ok b (safe_get l 0)) then (false, 1%nat) else
      if is_cont (safe_get l 1) then (true, 3%nat) else (false, 2%nat)
  | 4%nat =>
      if negb (second_ok b (safe_get l 0)) then (false, 1%nat) else
      if negb (is_cont (safe_get l 1)) then (false, 2%nat) else
      if is_cont (safe_get l 2) then (true, 4%nat) else (false, 3%nat)
  | _ => (false, 1%nat)
  end.

Fixpoint from_utf8_lossy_fuel (fuel : nat) (s : bytes) : bytes :=
  match fuel, s with
  | S n, b :: l =>
      let '(ok, k) := utf8_step b l in
      (if ok then take k (b :: l) else REPLACEMENT) ++ from_utf8_lossy_fuel n (drop k (b :: l))
  | _, _ => []
  end.

Definition from_utf8_lossy (s : bytes) : bytes := from_utf8_lossy_fuel (length s) s.

(** Validity: every character decodes. *)
Fixpoint utf8_valid_fuel (fuel : nat) (s : bytes) : bool :=
  match fuel, s with
  | _, [] => true
  | S n, b :: l =>
      let '(ok, k) := utf8_step b l in
      ok && utf8_valid_fuel n (drop k (b :: l))
  | O, _ :: _ => false
  end.

Definition utf8_valid (s : bytes) : bool := utf8_valid_fuel (length s) s.

(** ** Lemmas *)

Lemma from_utf8_lossy_fuel_valid n s :
  utf8_valid_fuel n s = true -> from_utf8_lossy_fuel n s = s.
Proof.
  revert s. induction n as [|n IH]; intros [|b l]; simpl; try done.
  destruct (utf8_step b l) as [[] k]; simpl; [|done].
  intros H. by rewrite IH, take_drop.
Qed.

(** Decoding a valid string is the identity. *)
Lemma from_utf8_lossy_valid s : utf8_valid s = true -> from_utf8_lossy s = s.
Proof. apply from_utf8_lossy_fuel_valid. Qed.

Example lossy_example : from_utf8_lossy [0x61; 0xE2; 0x82; 0x62; 0xFF] =
  [0x61] ++ REPLACEMENT ++ [0x62] ++ REPLACEMENT.
Proof. reflexivity. Qed.

Example valid_example : utf8_valid [0x61; 0xC3; 0xA9; 0xE2; 0x82; 0xAC; 0xF0; 0x9F; 0x98; 0x80] = true.
Proof. reflexivity. Qed.
