(* ===== verification/PacketData.v ===== *)
(** * Data packets: [src/packet/data.rs] *)

From S2P Require Import Prelude PacketTypes.

(** ** Data *)

Inductive PacketPosition := Middle | Last | First | Only.

Definition PacketPosition_bits (p : PacketPosition) : Z :=
  match p with Middle => 0 | Last => 1 | First => 2 | Only => 3 end.

Definition PacketPosition_from_bits (bits : Z) : PacketPosition :=
  let b := Z.land bits 3 in
  if b =? 0 then Middle else if b =? 1 then Last else if b =? 2 then First else Only.

Inductive EncryptionFlags := EncNone | EncEven | EncOdd | EncBoth.

Definition EncryptionFlags_bits (e : EncryptionFlags) : Z :=
  match e with EncNone => 0 | EncEven => 1 | EncOdd => 2 | EncBoth => 3 end.

Definition EncryptionFlags_from_bits (bits : Z) : EncryptionFlags :=
  let b := Z.land bits 3 in
  if b =? 0 then EncNone else if b =? 1 then EncEven else if b =? 2 then EncOdd else EncBoth.

#[export] Instance EncryptionFlags_eq_dec : EqDecision EncryptionFlags.
Proof. solve_decision. Defined.

Record DataPacket := mkDataPacket {
  dp_seq : Z;
  dp_position : PacketPosition;
  dp_order : bool;
  dp_encryption : EncryptionFlags;
  dp_retransmitted : bool;
  dp_msg_number : Z;
  dp_timestamp : Z;
  dp_dst_socket_id : Z;
  dp_payload : bytes
}.

#[export] Instance DataPacket_eta : Etable DataPacket := fun p =>
  mkDataPacket (dp_seq p) (dp_position p) (dp_order p) (dp_encryption p) (dp_retransmitted p)
    (dp_msg_number p) (dp_timestamp p) (dp_dst_socket_id p) (dp_payload p).

(** The field ranges the Rust types enforce. *)
Definition DataPacket_wf (p : DataPacket) : Prop :=
  SeqNumber_wf (dp_seq p) /\ MsgNumber_wf (dp_msg_number p) /\
  is_u32 (dp_timestamp p) /\ is_u32 (dp_dst_socket_id p).

(** ** Operations *)

Definition DataPacket_parse (buf : bytes) : presult PacketError DataPacket :=
  if (length buf <? HEADER_SIZE)%nat then perr TooShort else
  word0 ← read_u32 buf 0;
  word1 ← read_u32 buf 4;
  ts ← read_u32 buf 8;
  dst ← read_u32 buf 12;
  payload ← slice buf HEADER_SIZE (length buf);
  pok (mkDataPacket
    (SeqNumber_new (Z.land word0 SeqNumber_MASK))
    (PacketPosition_from_bits (Z.shiftr word1 30))
    (negb (Z.land word1 0x20000000 =? 0))
    (EncryptionFlags_from_bits (Z.shiftr word1 27))
    (negb (Z.land word1 0x04000000 =? 0))
    (MsgNumber_new (Z.land word1 MsgNumber_MASK))
    ts dst payload).

Definition DataPacket_encode_header (p : DataPacket) : bytes :=
  let word1 :=
    Z.lor (Z.lor (Z.lor (Z.lor
      (as_u32 (Z.shiftl (PacketPosition_bits (dp_position p)) 30))
      (Z.shiftl (Z.b2z (dp_order p)) 29))
      (Z.shiftl (EncryptionFlags_bits (dp_encryption p)) 27))
      (Z.shiftl (Z.b2z (dp_retransmitted p)) 26))
      (dp_msg_number p) in
  to_be 4 (dp_seq p) ++ to_be 4 word1 ++ to_be 4 (dp_timestamp p) ++ to_be 4 (dp_dst_socket_id p).

Definition DataPacket_encode (p : DataPacket) (out : bytes) : bytes :=
  out ++ DataPacket_encode_header p ++ dp_payload p.

(** ** Lemmas *)

(** Header word 1 as a sum of its five fields. *)
Definition header_word (pp : PacketPosition) (o : bool) (kk : EncryptionFlags) (r : bool)
    (msg : Z) : Z :=
  PacketPosition_bits pp * 2 ^ 30 + Z.b2z o * 2 ^ 29 + EncryptionFlags_bits kk * 2 ^ 27 +
  Z.b2z r * 2 ^ 26 + msg.

Lemma PacketPosition_bits_range p : 0 <= PacketPosition_bits p < 4.
Proof. destruct p; simpl; lia. Qed.

Lemma EncryptionFlags_bits_range e : 0 <= EncryptionFlags_bits e < 4.
Proof. destruct e; simpl; lia. Qed.

Lemma b2z_range b : 0 <= Z.b2z b < 2.
Proof. destruct b; simpl; lia. Qed.

Lemma land_3 z : Z.land z 3 = z mod 4.
Proof. apply (land_mask z 2). lia. Qed.

Lemma PacketPosition_from_bits_eq z p :
  z mod 4 = PacketPosition_bits p -> PacketPosition_from_bits z = p.
Proof.
  unfold PacketPosition_from_bits. rewrite land_3.
  intros ->. by destruct p.
Qed.

Lemma EncryptionFlags_from_bits_eq z e :
  z mod 4 = EncryptionFlags_bits e -> EncryptionFlags_from_bits z = e.
Proof.
  unfold EncryptionFlags_from_bits. rewrite land_3.
  intros ->. by destruct e.
Qed.

Lemma PacketPosition_bits_from z : PacketPosition_bits (PacketPosition_from_bits z) = z mod 4.
Proof.
  unfold PacketPosition_from_bits. rewrite land_3.
  repeat case_if; to_prop; simpl; zify_divmod.
Qed.

Lemma EncryptionFlags_bits_from z : EncryptionFlags_bits (EncryptionFlags_from_bits z) = z mod 4.
Proof.
  unfold EncryptionFlags_from_bits. rewrite land_3.
  repeat case_if; to_prop; simpl; zify_divmod.
Qed.

(** The flag test [word & (1 << n) != 0] reads one bit. *)
Lemma flag_bit w n : 0 <= n -> Z.b2z (negb (Z.land w (2 ^ n) =? 0)) = (w / 2 ^ n) mod 2.
Proof.
  intros. rewrite testbit_land by done. rewrite negb_involutive.
  by rewrite Z.testbit_spec'.
Qed.

Lemma flag_eq w n b : 0 <= n -> (w / 2 ^ n) mod 2 = Z.b2z b -> negb (Z.land w (2 ^ n) =? 0) = b.
Proof.
  intros Hn H. rewrite <- flag_bit in H by done. by apply Z.b2z_inj.
Qed.

Lemma encode_word1 pp o kk r msg :
  MsgNumber_wf msg ->
  Z.lor (Z.lor (Z.lor (Z.lor (as_u32 (Z.shiftl (PacketPosition_bits pp) 30))
    (Z.shiftl (Z.b2z o) 29)) (Z.shiftl (EncryptionFlags_bits kk) 27))
    (Z.shiftl (Z.b2z r) 26)) msg = header_word pp o kk r msg.
Proof.
  intros Hm. unfold MsgNumber_wf in Hm.
  rewrite as_u32_small by (destruct pp; split; vm_compute; congruence).
  assert (Hs : forall a n, 0 <= n -> Z.shiftl a n = a * 2 ^ n) by (intros; by apply Z.shiftl_mul_pow2).
  rewrite !Hs by lia. rewrite <- !Z.lor_assoc.
  pose proof (b2z_range o). pose proof (b2z_range r). pose proof (EncryptionFlags_bits_range kk).
  rewrite (lor_disjoint (Z.b2z r) msg 26) by lia.
  rewrite (lor_disjoint (EncryptionFlags_bits kk) _ 27) by lia.
  rewrite (lor_disjoint (Z.b2z o) _ 29) by lia.
  rewrite (lor_disjoint (PacketPosition_bits pp) _ 30) by lia.
  unfold header_word. lia.
Qed.

Lemma header_word_range pp o kk r msg :
  MsgNumber_wf msg -> is_u32 (header_word pp o kk r msg).
Proof.
  unfold MsgNumber_wf, is_u32, header_word. intros.
  pose proof (PacketPosition_bits_range pp). pose proof (EncryptionFlags_bits_range kk).
  pose proof (b2z_range o). pose proof (b2z_range r). lia.
Qed.

Lemma header_word_fields pp o kk r msg :
  MsgNumber_wf msg ->
  let w := header_word pp o kk r msg in
  PacketPosition_from_bits (Z.shiftr w 30) = pp /\
  negb (Z.land w 0x20000000 =? 0) = o /\
  EncryptionFlags_from_bits (Z.shiftr w 27) = kk /\
  negb (Z.land w 0x04000000 =? 0) = r /\
  MsgNumber_new (Z.land w MsgNumber_MASK) = msg.
Proof.
  intros Hm w. unfold MsgNumber_wf in Hm.
  pose proof (PacketPosition_bits_range pp). pose proof (EncryptionFlags_bits_range kk).
  pose proof (b2z_range o). pose proof (b2z_range r).
  rewrite !Z.shiftr_div_pow2 by lia. repeat split.
  - apply PacketPosition_from_bits_eq. unfold w, header_word. zify_divmod.
  - apply (flag_eq w 29); [lia|]. unfold w, header_word. zify_divmod.
  - apply EncryptionFlags_from_bits_eq. unfold w, header_word. zify_divmod.
  - apply (flag_eq w 26); [lia|]. unfold w, header_word. zify_divmod.
  - change (Z.land w MsgNumber_MASK) with (MsgNumber_new w).
    rewrite !MsgNumber_new_mod. unfold w, header_word. zify_divmod.
Qed.

Lemma header_word_of_fields w :
  is_u32 w ->
  header_word (PacketPosition_from_bits (Z.shiftr w 30)) (negb (Z.land w 0x20000000 =? 0))
    (EncryptionFlags_from_bits (Z.shiftr w 27)) (negb (Z.land w 0x04000000 =? 0))
    (MsgNumber_new (Z.land w MsgNumber_MASK)) = w.
Proof.
  unfold is_u32, header_word. intros Hw.
  rewrite PacketPosition_bits_from, EncryptionFlags_bits_from.
  change 0x20000000 with (2 ^ 29). change 0x04000000 with (2 ^ 26).
  rewrite !flag_bit by lia.
  change (Z.land w MsgNumber_MASK) with (MsgNumber_new w).
  rewrite !MsgNumber_new_mod, !Z.shiftr_div_pow2 by lia. zify_divmod.
Qed.

Lemma length_encode_header p : length (DataPacket_encode_header p) = HEADER_SIZE.
Proof. unfold DataPacket_encode_header. rewrite !length_app, !length_to_be. done. Qed.

(** The four header words and the payload, read back out of a buffer of at
    least a header. *)
Lemma DataPacket_parse_words buf :
  (HEADER_SIZE <= length buf)%nat ->
  exists w0 w1 w2 w3,
    read_u32 buf 0 = Ret w0 /\ read_u32 buf 4 = Ret w1 /\
    read_u32 buf 8 = Ret w2 /\ read_u32 buf 12 = Ret w3 /\
    slice buf HEADER_SIZE (length buf) = Ret (drop HEADER_SIZE buf) /\
    w0 = of_be (take 4 buf) /\ w1 = of_be (take 4 (drop 4 buf)) /\
    w2 = of_be (take 4 (drop 8 buf)) /\ w3 = of_be (take 4 (drop 12 buf)).
Proof.
  unfold HEADER_SIZE. intros H. do 4 eexists.
  rewrite !read_u32_ret, slice_ret by lia.
  repeat split. f_equal. apply take_ge. rewrite length_drop. lia.
Qed.

Lemma DataPacket_parse_returns buf : returns (DataPacket_parse buf).
Proof.
  unfold DataPacket_parse. destruct (Nat.ltb_spec (length buf) HEADER_SIZE); [by eexists|].
  destruct (DataPacket_parse_words buf) as (w0 & w1 & w2 & w3 & -> & -> & -> & -> & -> & _); [lia|].
  by eexists.
Qed.

Lemma DataPacket_parse_app_header p pre :
  DataPacket_wf p -> pre = DataPacket_encode_header p ++ dp_payload p ->
  DataPacket_parse pre = pok p.
Proof.
  intros (Hs & Hm & Ht & Hd) ->. unfold DataPacket_parse.
  assert (Hlen : (length (DataPacket_encode_header p ++ dp_payload p)
    = HEADER_SIZE + length (dp_payload p))%nat) by (rewrite length_app, length_encode_header; done).
  destruct (Nat.ltb_spec (length (DataPacket_encode_header p ++ dp_payload p)) HEADER_SIZE); [lia|].
  rewrite slice_app_r by (rewrite ?length_encode_header; lia).
  rewrite length_encode_header, Hlen, slice_ret by (unfold HEADER_SIZE; lia).
  unfold DataPacket_encode_header. rewrite <- !app_assoc.
  rewrite encode_word1 by done.
  pose proof (header_word_range (dp_position p) (dp_order p) (dp_encryption p)
    (dp_retransmitted p) (dp_msg_number p) Hm) as Hw.
  unfold SeqNumber_wf, is_u32 in Hs, Ht, Hd, Hw. read_word. cbn [mbind panicking_bind].
  destruct (header_word_fields (dp_position p) (dp_order p) (dp_encryption p)
    (dp_retransmitted p) (dp_msg_number p) Hm) as (-> & -> & -> & -> & ->).
  change (Z.land (dp_seq p) SeqNumber_MASK) with (SeqNumber_new (dp_seq p)).
  rewrite !SeqNumber_new_id by (apply SeqNumber_new_wf || (unfold SeqNumber_wf; lia)).
  rewrite !Nat.sub_diag, drop_0, take_ge by lia. by destruct p.
Qed.

Lemma DataPacket_parse_ok buf p :
  DataPacket_parse buf = pok p ->
  (HEADER_SIZE <= length buf)%nat /\
  let w1 := of_be (take 4 (drop 4 buf)) in
  p = mkDataPacket
    (SeqNumber_new (SeqNumber_new (of_be (take 4 buf))))
    (PacketPosition_from_bits (Z.shiftr w1 30))
    (negb (Z.land w1 0x20000000 =? 0))
    (EncryptionFlags_from_bits (Z.shiftr w1 27))
    (negb (Z.land w1 0x04000000 =? 0))
    (MsgNumber_new (Z.land w1 MsgNumber_MASK))
    (of_be (take 4 (drop 8 buf))) (of_be (take 4 (drop 12 buf)))
    (drop HEADER_SIZE buf).
Proof.
  unfold DataPacket_parse. destruct (Nat.ltb_spec (length buf) HEADER_SIZE); [done|].
  destruct (DataPacket_parse_words buf)
    as (w0 & w1 & w2 & w3 & -> & -> & -> & -> & -> & -> & -> & -> & ->); [lia|].
  intros [= <-]. split; [lia|done].
Qed.

Lemma header_words_eq buf :
  Forall is_u8 buf -> (HEADER_SIZE <= length buf)%nat ->
  buf = to_be 4 (of_be (take 4 buf)) ++ to_be 4 (of_be (take 4 (drop 4 buf))) ++
        to_be 4 (of_be (take 4 (drop 8 buf))) ++ to_be 4 (of_be (take 4 (drop 12 buf))) ++
        drop HEADER_SIZE buf.
Proof.
  unfold HEADER_SIZE. intros Hb Hlen.
  assert (Hw : forall k, (k + 4 <= length buf)%nat ->
    to_be 4 (of_be (take 4 (drop k buf))) = take 4 (drop k buf)).
  { intros k Hk. rewrite <- (to_be_of_be (take 4 (drop k buf))) at 2
      by (by apply Forall_take, Forall_drop).
    rewrite length_take, length_drop. replace (4 `min` (length buf - k))%nat with 4%nat by lia. done. }
  rewrite <- (drop_0 buf) at 2. rewrite !Hw by lia. rewrite drop_0.
  replace (drop 16 buf) with (drop 4 (drop 12 buf)) by (rewrite drop_drop; done).
  rewrite take_drop. replace (drop 12 buf) with (drop 4 (drop 8 buf)) by (rewrite drop_drop; done).
  rewrite take_drop. replace (drop 8 buf) with (drop 4 (drop 4 buf)) by (rewrite drop_drop; done).
  by rewrite !take_drop.
Qed.

(** The F bit of the first byte is the top bit of the first word. *)
Lemma first_word_msb b buf :
  Forall is_u8 (b :: buf) -> (3 <= length buf)%nat ->
  of_be (take 4 (b :: buf)) / 2 ^ 24 = b.
Proof.
  intros Hb Hlen. destruct buf as [|b1 [|b2 [|b3 buf]]]; simpl in Hlen; try lia.
  rewrite !Forall_cons in Hb. destruct Hb as (H0 & H1 & H2 & H3 & _). unfold is_u8 in *.
  unfold of_be. simpl. zify_divmod.
Qed.

(** ** Properties *)

(** encoding a data packet and parsing the bytes gives the packet back:
    every header field (position, order, KK and R flags, message number,
    timestamp, destination) and the payload survive. *)
Theorem data_packet_parse_encode (p : DataPacket) :
  DataPacket_wf p -> DataPacket_parse (DataPacket_encode p []) = pok p.
Proof. intros Hp. by apply DataPacket_parse_app_header. Qed.

Lemma data_packet_parse_encode_witness :
  let p := mkDataPacket 0x7FFFFFFF Only true EncOdd true 0x3FFFFFF 7 9 [1; 2; 3] in
  DataPacket_parse (DataPacket_encode p []) = pok p.
Proof. apply data_packet_parse_encode. repeat split; simpl; lia. Defined.

(** the data header has no redundant bits: a datagram whose F bit is
    clear and that parses is exactly the encoding of the parsed packet,
    which is well formed. *)
Theorem data_packet_encode_parse (b : Z) (rest : bytes) (p : DataPacket) :
  Forall is_u8 (b :: rest) -> b < 128 -> DataPacket_parse (b :: rest) = pok p ->
  DataPacket_wf p /\ DataPacket_encode p [] = b :: rest.
Proof.
  intros Hb Hf Hp. apply DataPacket_parse_ok in Hp as [Hlen ->].
  assert (Hw : forall k, (k + 4 <= length (b :: rest))%nat ->
    is_u32 (of_be (take 4 (drop k (b :: rest))))).
  { intros k Hk. pose proof (of_be_range (take 4 (drop k (b :: rest)))) as H.
    rewrite length_take, length_drop in H.
    replace (4 `min` (length (b :: rest) - k))%nat with 4%nat in H by lia.
    apply H. by apply Forall_take, Forall_drop. }
  unfold HEADER_SIZE in Hlen.
  pose proof (first_word_msb b rest Hb ltac:(simpl in Hlen; lia)) as Hmsb.
  pose proof (Hw 0%nat ltac:(lia)) as H0. pose proof (Hw 4%nat ltac:(lia)) as H4.
  pose proof (Hw 8%nat ltac:(lia)) as H8. pose proof (Hw 12%nat ltac:(lia)) as H12.
  rewrite drop_0 in H0. unfold is_u32 in H0. split.
  { repeat split; simpl; apply SeqNumber_new_wf || apply MsgNumber_new_wf || apply H8 || apply H12. }
  unfold DataPacket_encode, DataPacket_encode_header.
  cbn [dp_seq dp_position dp_order dp_encryption dp_retransmitted dp_msg_number dp_timestamp
    dp_dst_socket_id dp_payload app].
  rewrite encode_word1 by apply MsgNumber_new_wf. rewrite header_word_of_fields by done.
  rewrite !SeqNumber_new_id by (apply SeqNumber_new_wf || (unfold SeqNumber_wf; zify_divmod)).
  rewrite <- !app_assoc. symmetry. by apply header_words_eq.
Qed.

Lemma data_packet_encode_parse_witness :
  let buf := [0; 0; 0; 5; 0xE4; 0; 0; 7; 0; 0; 0; 1; 0; 0; 0; 2; 42] in
  let p := mkDataPacket 5 Only true EncNone true 7 1 2 [42] in
  DataPacket_wf p /\ DataPacket_encode p [] = buf.
Proof.
  apply data_packet_encode_parse;
    [repeat constructor; unfold is_u8; simpl; lia | lia | reflexivity].
Defined.
