(* ===== verification/PacketHandshake.v ===== *)
(** * Handshake CIF and extensions: [src/packet/handshake.rs] *)

From S2P Require Import Prelude PacketTypes Utf8.

(** ** Constants *)

Definition SRT_VERSION : Z := 0x00010404.

Definition SRT_MAGIC : Z := 0x4A17.

Definition HS_EXT_HSREQ : Z := 0x1.

Definition HS_EXT_KMREQ : Z := 0x2.

Definition HS_EXT_CONFIG : Z := 0x4.

Definition CIF_SIZE : nat := 48.

Definition SRT_CMD_HSREQ : Z := 1.

Definition SRT_CMD_HSRSP : Z := 2.

Definition SRT_CMD_KMREQ : Z := 3.

Definition SRT_CMD_KMRSP : Z := 4.

Definition SRT_CMD_SID : Z := 5.

Definition SRT_CMD_CONGESTION : Z := 6.

Definition SRT_CMD_FILTER : Z := 7.

Definition SRT_CMD_GROUP : Z := 8.

(** The rejection reasons the program produces ([reject] module). *)
Definition REJ_PEER : Z := 1002.

Definition REJ_ROGUE : Z := 1004.

Definition REJ_BACKLOG : Z := 1005.

Definition REJ_CLOSE : Z := 1007.

Definition REJ_VERSION : Z := 1008.

Definition REJ_BADSECRET : Z := 1010.

Definition REJ_UNSECURE : Z := 1011.

Definition REJ_MESSAGEAPI : Z := 1012.

Definition REJ_CONGESTION : Z := 1013.

Definition REJ_FILTER : Z := 1014.

(** ** [HandshakeType] *)

Inductive HandshakeType :=
| Waveahand
| Induction
| Conclusion
| Agreement
| Rejection (code : Z).

#[export] Instance HandshakeType_eq_dec : EqDecision HandshakeType.
Proof. solve_decision. Defined.

Definition HandshakeType_from_u32 (value : Z) : result PacketError HandshakeType :=
  if value =? 0 then Ok Waveahand else
  if value =? 1 then Ok Induction else
  if value =? 0xFFFFFFFF then Ok Conclusion else
  if value =? 0xFFFFFFFE then Ok Agreement else
  if (1000 <=? value) && (value <=? 0x7FFFFFFF) then Ok (Rejection value) else
  Err (BadHandshake UnknownHandshakeType).

Definition HandshakeType_to_u32 (t : HandshakeType) : Z :=
  match t with
  | Waveahand => 0
  | Induction => 1
  | Conclusion => 0xFFFFFFFF
  | Agreement => 0xFFFFFFFE
  | Rejection code => code
  end.

(** ** [HsFlags], [HsExtFields] *)

Definition HsFlags_TSBPDSND : Z := 0x01.

Definition HsFlags_TSBPDRCV : Z := 0x02.

Definition HsFlags_CRYPT : Z := 0x04.

Definition HsFlags_TLPKTDROP : Z := 0x08.

Definition HsFlags_PERIODICNAK : Z := 0x10.

Definition HsFlags_REXMITFLG : Z := 0x20.

Definition HsFlags_STREAM : Z := 0x40.

Definition HsFlags_contains (flags bits : Z) : bool := Z.land flags bits =? bits.

Definition HsFlags_live_defaults : Z :=
  Z.lor (Z.lor (Z.lor (Z.lor (Z.lor HsFlags_TSBPDSND HsFlags_TSBPDRCV) HsFlags_CRYPT)
    HsFlags_TLPKTDROP) HsFlags_PERIODICNAK) HsFlags_REXMITFLG.

Record HsExtFields := mkHsExtFields {
  hx_srt_version : Z;
  hx_flags : Z;
  hx_recv_latency_ms : Z;
  hx_send_latency_ms : Z
}.

Definition HsExtFields_parse (content : bytes) : presult PacketError HsExtFields :=
  if (length content <? 12)%nat then perr (BadHandshake HsExtShorterThan3Words) else
  latency ← read_u32 content 8;
  v ← read_u32 content 0;
  f ← read_u32 content 4;
  pok (mkHsExtFields v f (as_u16 (Z.shiftr latency 16)) (as_u16 latency)).

Definition HsExtFields_encode (f : HsExtFields) (out : bytes) : bytes :=
  let latency := Z.lor (Z.shiftl (hx_recv_latency_ms f) 16) (hx_send_latency_ms f) in
  out ++ to_be 4 (hx_srt_version f) ++ to_be 4 (hx_flags f) ++ to_be 4 latency.

(** ** Word-swapped strings *)

(** [bytes.chunks(4)] *)
Fixpoint chunks4 (l : bytes) : list bytes :=
  match l with
  | [] => []
  | a :: b :: c :: d :: r => [a; b; c; d] :: chunks4 r
  | l => [l]
  end.

Definition pack_word (chunk : bytes) : bytes :=
  reverse (chunk ++ replicate (4 - length chunk) 0).

Definition pack_bytes_words (l out : bytes) : bytes := out ++ concat (map pack_word (chunks4 l)).

(** [while bytes.last() == Some(&0) { bytes.pop(); }] *)
Fixpoint drop_zeros (l : bytes) : bytes :=
  match l with
  | b :: r => if b =? 0 then drop_zeros r else l
  | [] => []
  end.

Definition trim_zeros (l : bytes) : bytes := reverse (drop_zeros (reverse l)).

Definition unpack_bytes_words (content : bytes) : bytes := trim_zeros (pack_bytes_words content []).

(** ** [HsExtension] *)

Inductive HsExtension :=
| HsReq (f : HsExtFields)
| HsRsp (f : HsExtFields)
| StreamId (s : bytes)
| ExtKmReq (data : bytes)
| ExtKmRsp (data : bytes)
| Congestion (s : bytes)
| Invalid (cmd : Z) (data : bytes)
| Unknown (cmd : Z) (data : bytes).

Definition HsExtension_cmd (e : HsExtension) : Z :=
  match e with
  | HsReq _ => SRT_CMD_HSREQ
  | HsRsp _ => SRT_CMD_HSRSP
  | StreamId _ => SRT_CMD_SID
  | ExtKmReq _ => SRT_CMD_KMREQ
  | ExtKmRsp _ => SRT_CMD_KMRSP
  | Congestion _ => SRT_CMD_CONGESTION
  | Invalid cmd _ | Unknown cmd _ => cmd
  end.

Definition HsExtension_content (e : HsExtension) : bytes :=
  match e with
  | HsReq f | HsRsp f => HsExtFields_encode f []
  | StreamId s | Congestion s => pack_bytes_words s []
  | ExtKmReq data | ExtKmRsp data | Invalid _ data | Unknown _ data => data
  end.

(** The length word is written last in the source; the content does not
    depend on it. *)
Definition HsExtension_encode (e : HsExtension) (out : bytes) : bytes :=
  let content := HsExtension_content e in
  out ++ to_be 2 (HsExtension_cmd e) ++
    to_be 2 (as_u16 (Z.of_nat (length content) / 4)) ++ content.

Definition parse_extension (cmd : Z) (content : bytes) : panicking HsExtension :=
  if (cmd =? SRT_CMD_HSREQ) || (cmd =? SRT_CMD_HSRSP) then
    r ← HsExtFields_parse content;
    Ret match r with
        | Ok fields => if cmd =? SRT_CMD_HSREQ then HsReq fields else HsRsp fields
        | Err _ => Invalid cmd content
        end
  else if cmd =? SRT_CMD_KMREQ then Ret (ExtKmReq content)
  else if cmd =? SRT_CMD_KMRSP then Ret (ExtKmRsp content)
  else if cmd =? SRT_CMD_SID then
    if (length content =? 0)%nat || (512 <? length content)%nat then Ret (Invalid cmd content)
    else Ret (StreamId (from_utf8_lossy (unpack_bytes_words content)))
  else if cmd =? SRT_CMD_CONGESTION then
    Ret (Congestion (from_utf8_lossy (unpack_bytes_words content)))
  else Ret (Unknown cmd content).

(** The loop [while buf.len() >= 4]; [Panic] when the fuel runs out. *)
Fixpoint parse_extensions_loop (fuel : nat) (buf : bytes) (extensions : list HsExtension)
    : presult PacketError (list HsExtension) :=
  match fuel with
  | O => Panic
  | S n =>
      if (length buf <? 4)%nat then pok extensions else
      cmd ← read_u16 buf 0;
      len ← read_u16 buf 2;
      let content_len := (Z.to_nat len * 4)%nat in
      if (length buf - 4 <? content_len)%nat then perr (BadHandshake TruncatedExtensionBlock) else
      content ← slice buf 4 (4 + content_len);
      ext ← parse_extension cmd content;
      rest ← slice buf (4 + content_len) (length buf);
      parse_extensions_loop n rest (extensions ++ [ext])
  end.

Definition parse_extensions (buf : bytes) : presult PacketError (list HsExtension) :=
  parse_extensions_loop (S (length buf)) buf [].

(** ** [HandshakeCif] *)

Record HandshakeCif := mkHandshakeCif {
  hs_version : Z;
  hs_encryption : Z;
  hs_extension_field : Z;
  hs_initial_seq : Z;
  hs_mss : Z;
  hs_flow_window : Z;
  hs_handshake_type : HandshakeType;
  hs_socket_id : Z;
  hs_cookie : Z;
  hs_peer_ip : bytes;
  hs_extensions : list HsExtension
}.

#[export] Instance HandshakeCif_eta : Etable HandshakeCif := fun c =>
  mkHandshakeCif (hs_version c) (hs_encryption c) (hs_extension_field c) (hs_initial_seq c)
    (hs_mss c) (hs_flow_window c) (hs_handshake_type c) (hs_socket_id c) (hs_cookie c)
    (hs_peer_ip c) (hs_extensions c).

Definition HandshakeCif_parse_cif (buf : bytes) : presult PacketError HandshakeCif :=
  if (length buf <? CIF_SIZE)%nat then perr TooShort else
  isn ← read_u32 buf 8;
  if SeqNumber_MASK <=? isn then perr (BadHandshake IsnOutsideValidRange) else
  ty ← read_u32 buf 20;
  handshake_type ←? Ret (HandshakeType_from_u32 ty);
  peer_ip ← slice buf 32 48;
  tail ← slice buf CIF_SIZE (length buf);
  extensions ←? parse_extensions tail;
  version ← read_u32 buf 0;
  encryption ← read_u16 buf 4;
  extension_field ← read_u16 buf 6;
  mss ← read_u32 buf 12;
  flow_window ← read_u32 buf 16;
  socket_id ← read_u32 buf 24;
  cookie ← read_u32 buf 28;
  pok (mkHandshakeCif version encryption extension_field (SeqNumber_new isn) mss flow_window
    handshake_type socket_id cookie peer_ip extensions).

Definition extension_bit (e : HsExtension) : Z :=
  match e with
  | HsReq _ | HsRsp _ => HS_EXT_HSREQ
  | ExtKmReq _ | ExtKmRsp _ => HS_EXT_KMREQ
  | StreamId _ | Congestion _ | Unknown _ _ => HS_EXT_CONFIG
  | Invalid cmd _ =>
      if (cmd =? SRT_CMD_HSREQ) || (cmd =? SRT_CMD_HSRSP) then HS_EXT_HSREQ else
      if (cmd =? SRT_CMD_KMREQ) || (cmd =? SRT_CMD_KMRSP) then HS_EXT_KMREQ else HS_EXT_CONFIG
  end.

Definition HandshakeCif_extension_bits (c : HandshakeCif) : Z :=
  fold_left (fun bits e => Z.lor bits (extension_bit e)) (hs_extensions c) 0.

Definition HandshakeCif_encode_cif (c : HandshakeCif) (out : bytes) : bytes :=
  let ext_field :=
    match hs_extensions c with
    | [] => hs_extension_field c
    | _ => HandshakeCif_extension_bits c
    end in
  fold_left (fun out e => HsExtension_encode e out) (hs_extensions c)
    (out ++ to_be 4 (hs_version c) ++ to_be 2 (hs_encryption c) ++ to_be 2 ext_field ++
     to_be 4 (hs_initial_seq c) ++ to_be 4 (hs_mss c) ++ to_be 4 (hs_flow_window c) ++
     to_be 4 (HandshakeType_to_u32 (hs_handshake_type c)) ++ to_be 4 (hs_socket_id c) ++
     to_be 4 (hs_cookie c) ++ hs_peer_ip c).

(** [octets] are the four bytes of the address in network order. *)
Definition HandshakeCif_encode_peer_ip (octets : bytes) : bytes :=
  reverse octets ++ replicate 12 0.

Definition HandshakeCif_hs_ext (c : HandshakeCif) : option HsExtFields :=
  find_map (fun e => match e with HsReq f | HsRsp f => Some f | _ => None end) (hs_extensions c).

Definition HandshakeCif_stream_id (c : HandshakeCif) : option bytes :=
  find_map (fun e => match e with StreamId s => Some s | _ => None end) (hs_extensions c).

(** ** Well-formedness: the values the encoder accepts (its debug assertions
    and the ranges of the Rust types) *)

Definition words_ok (data : bytes) : Prop :=
  (length data mod 4 = 0)%nat /\ Z.of_nat (length data) < 4 * 2 ^ 16.

Definition no_trailing_nul (s : bytes) : Prop := last s <> Some 0.

Definition HsExtFields_wf (f : HsExtFields) : Prop :=
  is_u32 (hx_srt_version f) /\ is_u32 (hx_flags f) /\
  is_u16 (hx_recv_latency_ms f) /\ is_u16 (hx_send_latency_ms f).

Definition HsExtension_wf (e : HsExtension) : Prop :=
  match e with
  | HsReq f | HsRsp f => HsExtFields_wf f
  | StreamId s => utf8_valid s = true /\ no_trailing_nul s /\ (0 < length s <= 512)%nat
  | Congestion s => utf8_valid s = true /\ no_trailing_nul s /\ Z.of_nat (length s) <= 4 * 65535
  | ExtKmReq data | ExtKmRsp data => words_ok data
  | Invalid cmd data =>
      words_ok data /\
      ((cmd = SRT_CMD_HSREQ \/ cmd = SRT_CMD_HSRSP) /\ (length data < 12)%nat \/
       cmd = SRT_CMD_SID /\ (length data = 0 \/ 512 < length data)%nat)
  | Unknown cmd data => words_ok data /\ is_u16 cmd /\ ~ (1 <= cmd <= 6)
  end.

Definition HandshakeType_wf (t : HandshakeType) : Prop :=
  match t with Rejection code => 1000 <= code <= 0x7FFFFFFF | _ => True end.

Definition HandshakeCif_wf (c : HandshakeCif) : Prop :=
  is_u32 (hs_version c) /\ is_u16 (hs_encryption c) /\ is_u16 (hs_extension_field c) /\
  0 <= hs_initial_seq c < SeqNumber_MASK /\ is_u32 (hs_mss c) /\ is_u32 (hs_flow_window c) /\
  HandshakeType_wf (hs_handshake_type c) /\ is_u32 (hs_socket_id c) /\ is_u32 (hs_cookie c) /\
  length (hs_peer_ip c) = 16%nat /\ Forall HsExtension_wf (hs_extensions c) /\
  (hs_extensions c <> [] -> hs_extension_field c = HandshakeCif_extension_bits c).

(** ** Lemmas *)

(** *** Word-swapped strings *)

Lemma bytes_ind4 (P : bytes -> Prop) :
  P [] -> (forall a, P [a]) -> (forall a b, P [a; b]) -> (forall a b c, P [a; b; c]) ->
  (forall a b c d l, P l -> P (a :: b :: c :: d :: l)) -> forall l, P l.
Proof.
  intros H0 H1 H2 H3 H4. fix IH 1.
  intros [|a [|b [|c [|d l]]]]; [apply H0|apply H1|apply H2|apply H3|apply H4, IH].
Qed.

Lemma pack_nil_acc l out : pack_bytes_words l out = out ++ pack_bytes_words l [].
Proof. done. Qed.

Lemma pack_cons4 a b c d l :
  pack_bytes_words (a :: b :: c :: d :: l) [] = d :: c :: b :: a :: pack_bytes_words l [].
Proof. done. Qed.

Lemma length_pack l : (length (pack_bytes_words l []) mod 4 = 0)%nat /\
  (length l <= length (pack_bytes_words l []) < length l + 4)%nat.
Proof.
  induction l as [| | | |a b c d l [IH1 IH2]] using bytes_ind4; try (simpl; lia).
  rewrite pack_cons4. simpl length. split; [|lia].
  replace (S (S (S (S (length (pack_bytes_words l []))))))
    with (length (pack_bytes_words l []) + 1 * 4)%nat by lia.
  by rewrite Nat.Div0.mod_add.
Qed.

(** Packing twice pads with NULs to whole words. *)
Lemma pack_pack l : exists n, pack_bytes_words (pack_bytes_words l []) [] = l ++ replicate n 0.
Proof.
  induction l as [|a|a b|a b c|a b c d l [n IH]] using bytes_ind4.
  - by exists 0%nat.
  - by exists 3%nat.
  - by exists 2%nat.
  - by exists 1%nat.
  - exists n. by rewrite pack_cons4, pack_cons4, IH.
Qed.

Lemma drop_zeros_replicate n l : drop_zeros (replicate n 0 ++ l) = drop_zeros l.
Proof. induction n; done. Qed.

Lemma trim_zeros_pad l n : no_trailing_nul l -> trim_zeros (l ++ replicate n 0) = l.
Proof.
  unfold no_trailing_nul, trim_zeros. intros Hl.
  rewrite reverse_app, reverse_replicate, drop_zeros_replicate.
  destruct l as [|b l _] using rev_ind; [done|].
  rewrite last_snoc in Hl. rewrite reverse_snoc. simpl.
  destruct (Z.eqb_spec b 0); [congruence|]. rewrite <- reverse_snoc. by rewrite reverse_involutive.
Qed.

Lemma unpack_pack s : no_trailing_nul s -> unpack_bytes_words (pack_bytes_words s []) = s.
Proof.
  intros Hs. unfold unpack_bytes_words. destruct (pack_pack s) as [n ->]. by apply trim_zeros_pad.
Qed.

(** *** Extension blocks *)

#[global] Arguments HsExtFields_encode : simpl never.
#[global] Arguments HsExtFields_parse : simpl never.
#[global] Arguments pack_bytes_words : simpl never.
#[global] Arguments unpack_bytes_words : simpl never.
#[global] Arguments from_utf8_lossy : simpl never.

Lemma HsExtFields_parse_encode f :
  HsExtFields_wf f -> HsExtFields_parse (HsExtFields_encode f []) = pok f.
Proof.
  intros (Hv & Hf & Hr & Hs). unfold HsExtFields_parse, HsExtFields_encode. cbn [app].
  rewrite !length_app, !length_to_be. simpl (_ <? _)%nat. cbv iota.
  unfold is_u32, is_u16 in *.
  rewrite Z.shiftl_mul_pow2 by lia. rewrite lor_disjoint by lia.
  rewrite <- (app_nil_r (to_be 4 (_ + _))). read_word. cbn [mbind panicking_bind].
  unfold as_u16. rewrite Z.shiftr_div_pow2 by lia. destruct f; simpl in *.
  unfold pok. do 3 f_equal; zify_divmod.
Qed.

Lemma HsExtFields_parse_returns content : returns (HsExtFields_parse content).
Proof.
  unfold HsExtFields_parse. destruct (Nat.ltb_spec (length content) 12); [by eexists|].
  rewrite !read_u32_ret by lia. by eexists.
Qed.

Lemma parse_extension_returns cmd content : returns (parse_extension cmd content).
Proof.
  unfold parse_extension. destruct (HsExtFields_parse_returns content) as [r ->].
  repeat case_if; by eexists.
Qed.

Lemma length_HsExtFields_encode f : length (HsExtFields_encode f []) = 12%nat.
Proof. unfold HsExtFields_encode. cbn [app]. by rewrite !length_app, !length_to_be. Qed.

Lemma HsExtension_content_words e : HsExtension_wf e -> words_ok (HsExtension_content e).
Proof.
  unfold words_ok. destruct e as [f|f|s|d|d|s|c d|c d]; simpl;
    rewrite ?length_HsExtFields_encode; try (simpl; lia); try (unfold words_ok; tauto);
    pose proof (length_pack s) as [? ?]; intros (? & ? & ?); split; try done; lia.
Qed.

Ltac eval_cmds :=
  unfold SRT_CMD_HSREQ, SRT_CMD_HSRSP, SRT_CMD_KMREQ, SRT_CMD_KMRSP, SRT_CMD_SID,
    SRT_CMD_CONGESTION; cbn [Z.eqb Pos.eqb orb].

Lemma parse_extension_content e :
  HsExtension_wf e -> parse_extension (HsExtension_cmd e) (HsExtension_content e) = Ret e.
Proof.
  unfold parse_extension. destruct e as [f|f|s|d|d|s|c d|c d];
    cbn [HsExtension_wf HsExtension_cmd HsExtension_content]; eval_cmds; try done.
  - intros Hf. by rewrite HsExtFields_parse_encode.
  - intros Hf. by rewrite HsExtFields_parse_encode.
  - intros (Hu & Hn & Hl). pose proof (length_pack s) as [H1 H2].
    assert (length (pack_bytes_words s []) <= 512)%nat.
    { destruct (Nat.le_gt_cases (length (pack_bytes_words s [])) 512); [done|].
      pose proof (Nat.div_mod_eq (length (pack_bytes_words s [])) 4). lia. }
    destruct (Nat.eqb_spec (length (pack_bytes_words s [])) 0); [lia|].
    destruct (Nat.ltb_spec 512 (length (pack_bytes_words s []))); [lia|].
    simpl. by rewrite unpack_pack, from_utf8_lossy_valid.
  - intros (Hu & Hn & Hl). by rewrite unpack_pack, from_utf8_lossy_valid.
  - intros [Hw [[Hc Hl]|[-> Hl]]].
    + unfold HsExtFields_parse. destruct (Nat.ltb_spec (length d) 12); [|lia].
      by destruct Hc as [-> | ->].
    + cbn [Z.eqb Pos.eqb orb]. destruct (Nat.eqb_spec (length d) 0), (Nat.ltb_spec 512 (length d)); simpl; try done; lia.
  - intros (Hw & Hc & Hn). unfold SRT_CMD_HSREQ, SRT_CMD_HSRSP, SRT_CMD_KMREQ, SRT_CMD_KMRSP,
      SRT_CMD_SID, SRT_CMD_CONGESTION.
    repeat match goal with |- context [?a =? ?b] => destruct (Z.eqb_spec a b); [lia|] end. done.
Qed.

Lemma HsExtension_cmd_u16 e : HsExtension_wf e -> is_u16 (HsExtension_cmd e).
Proof.
  destruct e as [f|f|s|d|d|s|c d|c d]; simpl; unfold is_u16, SRT_CMD_HSREQ, SRT_CMD_HSRSP,
    SRT_CMD_KMREQ, SRT_CMD_KMRSP, SRT_CMD_SID, SRT_CMD_CONGESTION in *; lia.
Qed.

(** One block at the head of the region is read and the loop goes on. *)
Lemma parse_extensions_step n e rest acc :
  HsExtension_wf e ->
  parse_extensions_loop (S n) (HsExtension_encode e [] ++ rest) acc =
  parse_extensions_loop n rest (acc ++ [e]).
Proof.
  intros He. destruct (HsExtension_content_words e He) as [Hm Hl].
  pose proof (HsExtension_cmd_u16 e He) as Hc.
  assert (Hlen : (Z.to_nat (as_u16 (Z.of_nat (length (HsExtension_content e)) / 4)) * 4
    = length (HsExtension_content e))%nat).
  { pose proof (Nat.div_mod_eq (length (HsExtension_content e)) 4).
    unfold as_u16. rewrite Z.mod_small; zify_divmod. }
  assert (Hu : is_u16 (as_u16 (Z.of_nat (length (HsExtension_content e)) / 4)))
    by (apply Z.mod_pos_bound; lia).
  unfold HsExtension_encode. cbn [app]. rewrite <- !app_assoc.
  cbn [parse_extensions_loop]. rewrite !length_app, !length_to_be.
  destruct (Nat.ltb_spec (2 + (2 + (length (HsExtension_content e) + length rest))) 4); [lia|].
  read_word. cbn [mbind panicking_bind]. cbv zeta. rewrite Hlen.
  destruct (Nat.ltb_spec (2 + (2 + (length (HsExtension_content e) + length rest)) - 4)
    (length (HsExtension_content e))); [lia|].
  rewrite (app_assoc (to_be 2 _)).
  rewrite (slice_mid _ (HsExtension_content e) rest 4)
    by (rewrite ?length_app, ?length_to_be; lia). cbn [mbind panicking_bind].
  rewrite parse_extension_content by done. cbn [mbind panicking_bind].
  rewrite app_assoc. rewrite slice_tail by (rewrite ?length_app, ?length_to_be; lia). done.
Qed.

Definition encode_extensions (es : list HsExtension) : bytes :=
  concat (map (fun e => HsExtension_encode e []) es).

Lemma parse_extensions_encode es : forall n acc,
  Forall HsExtension_wf es -> (length es < n)%nat ->
  parse_extensions_loop n (encode_extensions es) acc = pok (acc ++ es).
Proof.
  induction es as [|e es IH]; intros [|n] acc Hes Hn; simpl in Hn; try lia.
  - by rewrite app_nil_r.
  - apply Forall_cons in Hes as [He Hes].
    change (encode_extensions (e :: es)) with (HsExtension_encode e [] ++ encode_extensions es).
    rewrite parse_extensions_step, IH by (done || lia). by rewrite <- app_assoc.
Qed.

Lemma fold_encode es : forall out,
  fold_left (fun out e => HsExtension_encode e out) es out = out ++ encode_extensions es.
Proof.
  induction es as [|e es IH]; intros out; simpl; [by rewrite app_nil_r|].
  rewrite IH. unfold HsExtension_encode, encode_extensions. simpl. by rewrite <- !app_assoc.
Qed.

Lemma length_encode_extensions es : (length es <= length (encode_extensions es))%nat.
Proof.
  induction es as [|e es IH]; [done|].
  change (encode_extensions (e :: es)) with (HsExtension_encode e [] ++ encode_extensions es).
  unfold HsExtension_encode. cbn [app]. rewrite !length_app, !length_to_be. simpl. lia.
Qed.

(** The parsing loop never panics: a block is only sliced out after its
    length was checked, and every turn consumes at least four bytes. *)
Lemma parse_extensions_loop_returns n : forall buf acc,
  (length buf < n)%nat -> returns (parse_extensions_loop n buf acc).
Proof.
  induction n as [|n IH]; intros buf acc Hn; [lia|]. cbn [parse_extensions_loop].
  destruct (Nat.ltb_spec (length buf) 4); [by eexists|].
  rewrite !read_u16_ret by lia. cbn [mbind panicking_bind].
  set (len := (Z.to_nat _ * 4)%nat).
  destruct (Nat.ltb_spec (length buf - 4) len); [by eexists|].
  rewrite !slice_ret by lia. cbn [mbind panicking_bind].
  destruct (parse_extension_returns (of_be (take 2 (drop 0 buf))) (take (4 + len - 4) (drop 4 buf)))
    as [ext ->]. cbn [mbind panicking_bind].
  apply IH. rewrite length_take, length_drop. lia.
Qed.

(** *** The CIF *)

Lemma HandshakeType_from_to t :
  HandshakeType_wf t -> HandshakeType_from_u32 (HandshakeType_to_u32 t) = Ok t.
Proof.
  destruct t as [| | | |code]; try done. simpl. intros Hc. unfold HandshakeType_from_u32.
  repeat match goal with |- context [?a =? ?b] => destruct (Z.eqb_spec a b); [lia|] end.
  destruct (Z.leb_spec 1000 code), (Z.leb_spec code 0x7FFFFFFF); done || lia.
Qed.

Lemma HandshakeType_to_from v t :
  HandshakeType_from_u32 v = Ok t -> HandshakeType_to_u32 t = v /\ HandshakeType_wf t.
Proof.
  unfold HandshakeType_from_u32. intros H. repeat case_if; to_prop; simplify_eq; simpl; done || lia.
Qed.

Lemma HandshakeType_to_u32_range t : HandshakeType_wf t -> is_u32 (HandshakeType_to_u32 t).
Proof. destruct t; simpl; unfold is_u32; lia. Qed.

Lemma extension_bits_u16 c : is_u16 (HandshakeCif_extension_bits c).
Proof.
  unfold HandshakeCif_extension_bits, is_u16.
  assert (forall es b, 0 <= b < 8 ->
    0 <= fold_left (fun bits e => Z.lor bits (extension_bit e)) es b < 8) as H.
  { induction es as [|e es IH]; intros b Hb; simpl; [done|]. apply IH.
    assert (Hbit : 0 <= extension_bit e < 8)
      by (destruct e; simpl; unfold HS_EXT_HSREQ, HS_EXT_KMREQ, HS_EXT_CONFIG; repeat case_if; lia).
    split; [apply Z.lor_nonneg; lia|].
    destruct (Z.eq_dec (Z.lor b (extension_bit e)) 0); [lia|].
    apply Z.log2_lt_cancel. rewrite Z.log2_lor by lia. change (Z.log2 8) with 3.
    pose proof (Z.log2_le_mono b 7). pose proof (Z.log2_le_mono (extension_bit e) 7).
    change (Z.log2 7) with 2 in *. lia. }
  specialize (H (hs_extensions c) 0). lia.
Qed.

(** The Extension Field the encoder writes. *)
Definition encoded_ext_field (c : HandshakeCif) : Z :=
  match hs_extensions c with
  | [] => hs_extension_field c
  | _ => HandshakeCif_extension_bits c
  end.

Lemma encoded_ext_field_wf c : HandshakeCif_wf c -> encoded_ext_field c = hs_extension_field c.
Proof.
  unfold HandshakeCif_wf, encoded_ext_field. intros Hc.
  destruct (hs_extensions c) eqn:E; [done|]. symmetry. by apply Hc.
Qed.

(** The eight fixed words before the peer address. *)
Definition cif_words (c : HandshakeCif) : bytes :=
  to_be 4 (hs_version c) ++ to_be 2 (hs_encryption c) ++ to_be 2 (encoded_ext_field c) ++
  to_be 4 (hs_initial_seq c) ++ to_be 4 (hs_mss c) ++ to_be 4 (hs_flow_window c) ++
  to_be 4 (HandshakeType_to_u32 (hs_handshake_type c)) ++ to_be 4 (hs_socket_id c) ++
  to_be 4 (hs_cookie c).

Lemma length_cif_words c : length (cif_words c) = 32%nat.
Proof. unfold cif_words. by rewrite !length_app, !length_to_be. Qed.

Lemma HandshakeCif_encode_words c out :
  HandshakeCif_encode_cif c out =
  out ++ cif_words c ++ hs_peer_ip c ++ encode_extensions (hs_extensions c).
Proof.
  unfold HandshakeCif_encode_cif, cif_words. rewrite fold_encode, <- !app_assoc. done.
Qed.

Lemma HandshakeCif_parse_encode c :
  HandshakeCif_wf c -> HandshakeCif_parse_cif (HandshakeCif_encode_cif c []) = pok c.
Proof.
  intros Hc. rewrite HandshakeCif_encode_words. cbn [app].
  pose proof (encoded_ext_field_wf c Hc) as Hef.
  destruct Hc as (Hv & He & Hx & Hi & Hm & Hf & Ht & Hs & Hk & Hp & Hes & _).
  pose proof (HandshakeType_to_u32_range _ Ht) as Htr.
  set (ext := encode_extensions (hs_extensions c)).
  assert (Hlen : length (cif_words c ++ hs_peer_ip c ++ ext) = (48 + length ext)%nat)
    by (rewrite !length_app, length_cif_words, Hp; lia).
  unfold HandshakeCif_parse_cif.
  destruct (Nat.ltb_spec (length (cif_words c ++ hs_peer_ip c ++ ext)) CIF_SIZE);
    [unfold CIF_SIZE in *; lia|].
  rewrite (slice_mid (cif_words c) (hs_peer_ip c) ext 32 48) by (rewrite ?length_cif_words, ?Hp; lia).
  rewrite (app_assoc (cif_words c)), slice_tail
    by (rewrite ?length_app, ?length_cif_words, ?Hp; done).
  rewrite <- app_assoc. unfold cif_words. rewrite <- !app_assoc, Hef.
  unfold SeqNumber_MASK in *. read_word. cbn [mbind panicking_bind].
  destruct (Z.leb_spec 0x7FFFFFFF (hs_initial_seq c)); [lia|].
  rewrite HandshakeType_from_to by done. cbn [qbind].
  unfold parse_extensions, ext. rewrite parse_extensions_encode
    by (done || pose proof (length_encode_extensions (hs_extensions c)); lia).
  cbn [qbind app pok]. rewrite SeqNumber_new_id by (unfold SeqNumber_wf; lia). by destruct c.
Qed.

Lemma HandshakeCif_parse_returns buf : returns (HandshakeCif_parse_cif buf).
Proof.
  unfold HandshakeCif_parse_cif. destruct (Nat.ltb_spec (length buf) CIF_SIZE); [by eexists|].
  unfold CIF_SIZE in *. rewrite !read_u32_ret, !read_u16_ret, !slice_ret by lia.
  cbn [mbind panicking_bind]. case_if; [by eexists|].
  destruct (HandshakeType_from_u32 _); cbn [qbind]; [|by eexists].
  destruct (parse_extensions_loop_returns (S (length (take (length buf - 48) (drop 48 buf))))
    (take (length buf - 48) (drop 48 buf)) []) as [r Hr]; [lia|].
  unfold parse_extensions. rewrite Hr. by destruct r; eexists.
Qed.

Lemma parse_cif_seq buf c : HandshakeCif_parse_cif buf = pok c -> SeqNumber_wf (hs_initial_seq c).
Proof.
  unfold HandshakeCif_parse_cif. destruct (Nat.ltb_spec (length buf) CIF_SIZE); [done|].
  unfold CIF_SIZE in *. rewrite !read_u32_ret, !read_u16_ret, !slice_ret by lia.
  cbn [mbind panicking_bind]. case_if; [done|].
  destruct (HandshakeType_from_u32 _); cbn [qbind]; [|done].
  destruct (parse_extensions _) as [[es|]|]; cbn [qbind]; [|done..]. intros [= <-]. apply SeqNumber_new_wf.
Qed.

(** ** Properties *)

(** the string codec of StreamID and congestion names (each 32-bit word
    NUL-padded and byte-reversed, trailing NULs trimmed on decode) gives
    back every string that does not end in NUL, and the wire form is whole
    words that exceed the string by at most three bytes. *)
Theorem word_swapped_string_roundtrip (s : bytes) :
  no_trailing_nul s ->
  unpack_bytes_words (pack_bytes_words s []) = s /\
  (length (pack_bytes_words s []) mod 4 = 0)%nat /\
  (length s <= length (pack_bytes_words s []) < length s + 4)%nat.
Proof. intros Hs. split; [by apply unpack_pack | apply length_pack]. Qed.

Lemma word_swapped_string_roundtrip_witness :
  let s := [0x61; 0x62; 0x63; 0x64; 0x65; 0x66; 0x67] in
  pack_bytes_words s [] = [0x64; 0x63; 0x62; 0x61; 0; 0x67; 0x66; 0x65] /\
  unpack_bytes_words (pack_bytes_words s []) = s.
Proof.
  split; [reflexivity|].
  refine (proj1 (word_swapped_string_roundtrip [0x61; 0x62; 0x63; 0x64; 0x65; 0x66; 0x67] _)).
  vm_compute. congruence.
Defined.

(** a handshake CIF with its extension blocks survives encoding and
    parsing, whenever its Extension Field agrees with its blocks. *)
Theorem handshake_cif_parse_encode (c : HandshakeCif) :
  HandshakeCif_wf c -> HandshakeCif_parse_cif (HandshakeCif_encode_cif c []) = pok c.
Proof. apply HandshakeCif_parse_encode. Qed.

Lemma handshake_cif_parse_encode_witness :
  let c := mkHandshakeCif 5 0 7 100 1500 8192 Conclusion 9 77
    (HandshakeCif_encode_peer_ip [127; 0; 0; 1])
    [HsReq (mkHsExtFields SRT_VERSION HsFlags_live_defaults 120 0); StreamId [0x61; 0x62];
     ExtKmReq [1; 2; 3; 4]] in
  HandshakeCif_parse_cif (HandshakeCif_encode_cif c []) = pok c.
Proof.
  apply handshake_cif_parse_encode.
  unfold HandshakeCif_wf, is_u32, is_u16, SeqNumber_MASK. cbn.
  repeat match goal with |- _ /\ _ => split end; try lia; try done.
  apply Forall_cons. split; [repeat split; vm_compute; congruence|].
  apply Forall_cons. split; [repeat split; [vm_compute; congruence | simpl; lia | simpl; lia]|].
  apply Forall_singleton. split; [reflexivity | simpl; lia].
Defined.
