(* ===== verification/PacketControl.v ===== *)
(** * Control packets: [src/packet/control.rs], and [Packet] of [src/packet/mod.rs] *)

From S2P Require Import Prelude PacketTypes PacketData PacketHandshake.

(** ** Data *)

Record AckCif := mkAckCif {
  ack_last_ack_seq : Z;
  ack_rtt_us : option Z;
  ack_rtt_var_us : option Z;
  ack_avail_buf_pkts : option Z;
  ack_recv_rate_pkts : option Z;
  ack_link_capacity_pkts : option Z;
  ack_recv_rate_bytes : option Z
}.

#[export] Instance AckCif_eta : Etable AckCif := fun a =>
  mkAckCif (ack_last_ack_seq a) (ack_rtt_us a) (ack_rtt_var_us a) (ack_avail_buf_pkts a)
    (ack_recv_rate_pkts a) (ack_link_capacity_pkts a) (ack_recv_rate_bytes a).

Record LossRange := mkLossRange { lr_first : Z; lr_last : Z }.

Definition NAK_RANGE_FLAG : Z := 0x80000000.

Inductive ControlType :=
| Handshake (cif : HandshakeCif)
| KeepAlive
| Ack (ack_number : Z) (cif : AckCif)
| Nak (ranges : list LossRange)
| CongestionWarning
| Shutdown
| AckAck (ack_number : Z)
| DropRequest (msg_number first last : Z)
| PeerError (code : Z)
| KmReq (payload : bytes)
| KmRsp (payload : bytes).

Record ControlPacket := mkControlPacket {
  cp_timestamp : Z;
  cp_dst_socket_id : Z;
  cp_control_type : ControlType
}.

#[export] Instance ControlPacket_eta : Etable ControlPacket := fun p =>
  mkControlPacket (cp_timestamp p) (cp_dst_socket_id p) (cp_control_type p).

Definition ControlType_type_code (t : ControlType) : Z :=
  match t with
  | Handshake _ => 0x0000
  | KeepAlive => 0x0001
  | Ack _ _ => 0x0002
  | Nak _ => 0x0003
  | CongestionWarning => 0x0004
  | Shutdown => 0x0005
  | AckAck _ => 0x0006
  | DropRequest _ _ _ => 0x0007
  | PeerError _ => 0x0008
  | KmReq _ | KmRsp _ => 0x7FFF
  end.

Definition ControlType_subtype (t : ControlType) : Z :=
  match t with
  | KmReq _ => SRT_CMD_KMREQ
  | KmRsp _ => SRT_CMD_KMRSP
  | _ => 0
  end.

Definition ControlType_type_specific_info (t : ControlType) : Z :=
  match t with
  | Ack ack_number _ => ack_number
  | AckAck ack_number => ack_number
  | DropRequest msg_number _ _ => msg_number
  | PeerError code => code
  | _ => 0
  end.

(** ** ACK CIF *)

Definition light_ack (seq : Z) : AckCif := mkAckCif seq None None None None None None.

Definition parse_ack_cif (cif : bytes) : presult PacketError AckCif :=
  if (length cif =? 4)%nat then
    seq ← read_u32 cif 0;
    pok (light_ack (SeqNumber_new seq))
  else if (length cif <? 16)%nat then perr (BadCif AckShorterThan4Words)
  else
    let words := (length cif / 4)%nat in
    seq ← read_u32 cif 0;
    rtt ← read_u32 cif 4;
    rtt_var ← read_u32 cif 8;
    avail ← read_u32 cif 12;
    let ack := mkAckCif (SeqNumber_new seq) (Some rtt) (Some rtt_var) (Some avail) None None None in
    ack ← (if (6 <=? words)%nat then
             rate ← read_u32 cif 16;
             cap ← read_u32 cif 20;
             Ret (ack <| ack_recv_rate_pkts := Some rate |> <| ack_link_capacity_pkts := Some cap |>)
           else Ret ack);
    ack ← (if (7 <=? words)%nat then
             rate ← read_u32 cif 24;
             Ret (ack <| ack_recv_rate_bytes := Some rate |>)
           else Ret ack);
    pok ack.

(** The loop [for field in [...] { match field { Some(v) => put, None => break } }]. *)
Fixpoint put_some_prefix (fields : list (option Z)) (out : bytes) : bytes :=
  match fields with
  | Some value :: r => put_some_prefix r (put_u32 out value)
  | _ => out
  end.

Definition encode_ack_cif (cif : AckCif) (out : bytes) : bytes :=
  put_some_prefix
    [ack_rtt_us cif; ack_rtt_var_us cif; ack_avail_buf_pkts cif; ack_recv_rate_pkts cif;
     ack_link_capacity_pkts cif; ack_recv_rate_bytes cif]
    (put_u32 out (ack_last_ack_seq cif)).

(** ** NAK loss list *)

Fixpoint parse_loss_loop (fuel : nat) (cif : bytes) (words i : nat) (found : list LossRange)
    : presult PacketError (list LossRange) :=
  match fuel with
  | O => Panic
  | S n =>
      if (i <? words)%nat then
        word ← read_u32 cif (i * 4);
        if negb (Z.land word NAK_RANGE_FLAG =? 0) then
          if (words <=? i + 1)%nat then perr (BadCif NakRangeMissingEndWord) else
          let first := SeqNumber_new word in
          last_word ← read_u32 cif ((i + 1) * 4);
          let last := SeqNumber_new last_word in
          if 0 <? SeqNumber_diff first last then perr (BadCif NakRangeStartAfterEnd) else
          parse_loss_loop n cif words (i + 2) (found ++ [mkLossRange first last])
        else
          let seq := SeqNumber_new word in
          parse_loss_loop n cif words (i + 1) (found ++ [mkLossRange seq seq])
      else pok found
  end.

Definition parse_loss_list (cif : bytes) : presult PacketError (list LossRange) :=
  let words := (length cif / 4)%nat in
  if (words =? 0)%nat then perr (BadCif EmptyNakLossList) else
  parse_loss_loop (S words) cif words 0 [].

Definition encode_loss_range (range : LossRange) (out : bytes) : bytes :=
  if lr_first range =? lr_last range then put_u32 out (lr_first range)
  else put_u32 (put_u32 out (Z.lor (lr_first range) NAK_RANGE_FLAG)) (lr_last range).

Definition encode_loss_list (ranges : list LossRange) (out : bytes) : bytes :=
  fold_left (fun out range => encode_loss_range range out) ranges out.

(** ** Control packets *)

Definition parse_dropreq (info : Z) (cif : bytes) : presult PacketError ControlType :=
  if (length cif <? 8)%nat then perr (BadCif DropreqShorterThan2Words) else
  first ← read_u32 cif 0;
  last ← read_u32 cif 4;
  pok (DropRequest (MsgNumber_new info) (SeqNumber_new first) (SeqNumber_new last)).

Definition ControlPacket_parse (buf : bytes) : presult PacketError ControlPacket :=
  if (length buf <? HEADER_SIZE)%nat then perr TooShort else
  word0 ← read_u32 buf 0;
  let type_code := Z.land (Z.shiftr word0 16) 0x7FFF in
  let subtype := Z.land word0 0xFFFF in
  info ← read_u32 buf 4;
  cif ← slice buf HEADER_SIZE (length buf);
  control_type ←?
    (if type_code =? 0x0000 then
       c ←? HandshakeCif_parse_cif cif; pok (Handshake c)
     else if type_code =? 0x0001 then pok KeepAlive
     else if type_code =? 0x0002 then
       c ←? parse_ack_cif cif; pok (Ack info c)
     else if type_code =? 0x0003 then
       l ←? parse_loss_list cif; pok (Nak l)
     else if type_code =? 0x0004 then pok CongestionWarning
     else if type_code =? 0x0005 then pok Shutdown
     else if type_code =? 0x0006 then pok (AckAck info)
     else if type_code =? 0x0007 then parse_dropreq info cif
     else if type_code =? 0x0008 then pok (PeerError info)
     else if type_code =? 0x7FFF then
       if subtype =? SRT_CMD_KMREQ then pok (KmReq cif)
       else if subtype =? SRT_CMD_KMRSP then pok (KmRsp cif)
       else perr (UnknownControlType subtype)
     else perr (UnknownControlType type_code));
  ts ← read_u32 buf 8;
  dst ← read_u32 buf 12;
  pok (mkControlPacket ts dst control_type).

Definition ControlPacket_encode (p : ControlPacket) (out : bytes) : bytes :=
  let ct := cp_control_type p in
  let out := put_u32 out (Z.lor (Z.lor 0x80000000 (Z.shiftl (ControlType_type_code ct) 16))
                            (ControlType_subtype ct)) in
  let out := put_u32 out (ControlType_type_specific_info ct) in
  let out := put_u32 out (cp_timestamp p) in
  let out := put_u32 out (cp_dst_socket_id p) in
  match ct with
  | Handshake cif => HandshakeCif_encode_cif cif out
  | Ack _ cif => encode_ack_cif cif out
  | Nak list => encode_loss_list list out
  | DropRequest _ first last => put_u32 (put_u32 out first) last
  | KmReq blob | KmRsp blob => out ++ blob
  | KeepAlive | CongestionWarning | Shutdown | AckAck _ | PeerError _ => put_u32 out 0
  end.

(** ** Packets *)

Inductive Packet :=
| Data (p : DataPacket)
| Control (p : ControlPacket).

Definition Packet_parse (buf : bytes) : presult PacketError Packet :=
  match buf with
  | b :: _ =>
      if Z.land b 0x80 =? 0 then p ←? DataPacket_parse buf; pok (Data p)
      else p ←? ControlPacket_parse buf; pok (Control p)
  | [] => p ←? ControlPacket_parse buf; pok (Control p)
  end.

Definition Packet_encode (p : Packet) (out : bytes) : bytes :=
  match p with
  | Data p => DataPacket_encode p out
  | Control p => ControlPacket_encode p out
  end.

Definition Packet_timestamp (p : Packet) : Z :=
  match p with
  | Data p => dp_timestamp p
  | Control p => cp_timestamp p
  end.

Definition Packet_dst_socket_id (p : Packet) : Z :=
  match p with
  | Data p => dp_dst_socket_id p
  | Control p => cp_dst_socket_id p
  end.

(** ** Well-formedness *)

(** A light, small or full ACK: the shapes the wire lengths stand for. *)
Definition AckCif_wf (c : AckCif) : Prop :=
  SeqNumber_wf (ack_last_ack_seq c) /\
  match c with
  | mkAckCif _ None None None None None None => True
  | mkAckCif _ (Some a) (Some b) (Some d) None None None => is_u32 a /\ is_u32 b /\ is_u32 d
  | mkAckCif _ (Some a) (Some b) (Some d) (Some e) (Some f) None =>
      is_u32 a /\ is_u32 b /\ is_u32 d /\ is_u32 e /\ is_u32 f
  | mkAckCif _ (Some a) (Some b) (Some d) (Some e) (Some f) (Some g) =>
      is_u32 a /\ is_u32 b /\ is_u32 d /\ is_u32 e /\ is_u32 f /\ is_u32 g
  | _ => False
  end.

Definition LossRange_wf (r : LossRange) : Prop :=
  SeqNumber_wf (lr_first r) /\ SeqNumber_wf (lr_last r) /\
  SeqNumber_diff (lr_first r) (lr_last r) <= 0.

Definition ControlType_wf (t : ControlType) : Prop :=
  match t with
  | Handshake cif => HandshakeCif_wf cif
  | Ack n cif => is_u32 n /\ AckCif_wf cif
  | Nak l => l <> [] /\ Forall LossRange_wf l
  | AckAck n => is_u32 n
  | DropRequest m first last => MsgNumber_wf m /\ SeqNumber_wf first /\ SeqNumber_wf last
  | PeerError code => is_u32 code
  | KeepAlive | CongestionWarning | Shutdown | KmReq _ | KmRsp _ => True
  end.

Definition ControlPacket_wf (p : ControlPacket) : Prop :=
  is_u32 (cp_timestamp p) /\ is_u32 (cp_dst_socket_id p) /\ ControlType_wf (cp_control_type p).

Definition Packet_wf (p : Packet) : Prop :=
  match p with
  | Data p => DataPacket_wf p
  | Control p => ControlPacket_wf p
  end.

(** ** Lemmas *)

(** *** ACK CIF *)

Lemma parse_ack_encode c : AckCif_wf c -> parse_ack_cif (encode_ack_cif c []) = pok c.
Proof.
  destruct c as [s a b d e f g]. intros [Hs Hc]. cbn in Hs.
  rewrite <- (app_nil_r (encode_ack_cif _ _)). unfold encode_ack_cif, parse_ack_cif.
  cbn [ack_last_ack_seq ack_rtt_us ack_rtt_var_us ack_avail_buf_pkts ack_recv_rate_pkts
    ack_link_capacity_pkts ack_recv_rate_bytes].
  pose proof (SeqNumber_new_id s Hs) as Hnew. unfold SeqNumber_wf in Hs.
  destruct a as [a|], b as [b|], d as [d|], e as [e|], f as [f|], g as [g|]; try done;
    cbn [put_some_prefix]; unfold put_u32; cbn [app]; rewrite <- ?app_assoc;
    rewrite !length_app, ?length_to_be; cbn [length Nat.add Nat.eqb Nat.ltb Nat.leb Nat.div Nat.divmod fst];
    unfold is_u32 in *; read_word; cbn [mbind panicking_bind]; rewrite Hnew; reflexivity.
Qed.

Lemma parse_ack_returns cif : returns (parse_ack_cif cif).
Proof.
  unfold parse_ack_cif. destruct (Nat.eqb_spec (length cif) 4) as [H4|_].
  { rewrite read_u32_ret by lia. by eexists. }
  destruct (Nat.ltb_spec (length cif) 16); [by eexists|].
  pose proof (Nat.div_mod_eq (length cif) 4).
  rewrite !(read_u32_ret cif 0), !(read_u32_ret cif 4), !(read_u32_ret cif 8),
    !(read_u32_ret cif 12) by lia. cbn [mbind panicking_bind].
  destruct (Nat.leb_spec 6 (length cif / 4)).
  - rewrite !(read_u32_ret cif 16), !(read_u32_ret cif 20) by lia. cbn [mbind panicking_bind].
    destruct (Nat.leb_spec 7 (length cif / 4)); [|by eexists].
    rewrite !(read_u32_ret cif 24) by lia. by eexists.
  - destruct (Nat.leb_spec 7 (length cif / 4)); [lia|by eexists].
Qed.

(** *** NAK loss list *)

Definition encode_ranges (l : list LossRange) : bytes := encode_loss_list l [].

Lemma encode_loss_acc l : forall out, encode_loss_list l out = out ++ encode_ranges l.
Proof.
  unfold encode_ranges, encode_loss_list.
  assert (forall r out, encode_loss_range r out = out ++ encode_loss_range r []) as H.
  { intros r out. unfold encode_loss_range, put_u32. case_if; cbn [app]; by rewrite ?app_assoc. }
  induction l as [|r l IH]; intros out; simpl; [by rewrite app_nil_r|].
  rewrite IH, (IH (encode_loss_range r [])), (H r out). by rewrite app_assoc.
Qed.

Lemma encode_ranges_cons r l : encode_ranges (r :: l) = encode_loss_range r [] ++ encode_ranges l.
Proof. unfold encode_ranges at 1. simpl. apply encode_loss_acc. Qed.

Lemma length_encode_range r :
  length (encode_loss_range r []) = if lr_first r =? lr_last r then 4%nat else 8%nat.
Proof.
  unfold encode_loss_range, put_u32. case_if; cbn [app]; by rewrite ?length_app, ?length_to_be.
Qed.

Lemma range_flag_lor v :
  SeqNumber_wf v -> Z.lor v NAK_RANGE_FLAG = v + 2 ^ 31 /\ is_u32 (v + 2 ^ 31).
Proof.
  unfold SeqNumber_wf, NAK_RANGE_FLAG, is_u32. intros H. split; [|lia].
  rewrite Z.lor_comm. change 0x80000000 with (1 * 2 ^ 31). rewrite lor_disjoint; lia.
Qed.

Lemma range_flag_test v b w : SeqNumber_wf v -> w = v + Z.b2z b * 2 ^ 31 ->
  negb (Z.land w NAK_RANGE_FLAG =? 0) = b.
Proof.
  unfold SeqNumber_wf, NAK_RANGE_FLAG. intros H ->. apply (flag_eq _ 31); [lia|].
  rewrite Z.div_add, Z.div_small by lia. destruct b; done.
Qed.

Lemma read_u32_at cif pre v post off :
  cif = pre ++ to_be 4 v ++ post -> off = length pre -> is_u32 v -> read_u32 cif off = Ret v.
Proof.
  intros -> -> Hv. rewrite read_u32_app, Nat.sub_diag by lia. by apply read_u32_here.
Qed.

(** One round of the loop on an encoded range. *)
Lemma parse_loss_step n pre r post i acc cif words :
  LossRange_wf r -> length pre = (4 * i)%nat ->
  cif = pre ++ encode_loss_range r [] ++ post -> words = (length cif / 4)%nat ->
  parse_loss_loop (S n) cif words i acc =
  parse_loss_loop n cif words (i + length (encode_loss_range r []) / 4) (acc ++ [r]).
Proof.
  intros (Hf & Hl & Hd) Hpre Hcif Hwords. cbn [parse_loss_loop].
  assert (Hw : (i + length (encode_loss_range r []) / 4 <= words)%nat).
  { rewrite Hwords, Hcif, !length_app, Hpre, length_encode_range.
    destruct (lr_first r =? lr_last r); apply Nat.div_le_lower_bound; try done;
      [change (4 / 4)%nat with 1%nat | change (8 / 4)%nat with 2%nat]; lia. }
  clear Hwords. destruct r as [f l]. rewrite length_encode_range in *.
  unfold encode_loss_range, put_u32 in Hcif. cbn [lr_first lr_last app] in *.
  revert Hcif Hw. destruct (Z.eqb_spec f l) as [<-|Hne]; intros Hcif Hw;
    [change (4 / 4)%nat with 1%nat in * | change (8 / 4)%nat with 2%nat in *];
    destruct (Nat.ltb_spec i words); try lia.
  - rewrite (read_u32_at cif pre f post (i * 4)) by (done || (unfold SeqNumber_wf, is_u32 in *; lia)).
    cbn [mbind panicking_bind].
    rewrite (range_flag_test f false) by (done || (simpl; lia)).
    by rewrite SeqNumber_new_id.
  - destruct (range_flag_lor f Hf) as [Hlor Hr]. rewrite Hlor, <- (app_assoc _ (to_be 4 l)) in Hcif.
    rewrite (read_u32_at cif _ _ _ (i * 4) Hcif) by (done || lia). cbn [mbind panicking_bind].
    rewrite (range_flag_test f true) by done.
    destruct (Nat.leb_spec words (i + 1)); [lia|]. rewrite app_assoc in Hcif.
    rewrite (read_u32_at cif _ _ _ ((i + 1) * 4) Hcif) by
      (rewrite ?length_app, ?length_to_be; unfold SeqNumber_wf, is_u32 in *; lia).
    cbn [mbind panicking_bind]. rewrite (SeqNumber_new_id l) by done.
    replace (SeqNumber_new (f + 2 ^ 31)) with f
      by (rewrite SeqNumber_new_mod; unfold SeqNumber_wf in *; zify_divmod).
    destruct (Z.ltb_spec 0 (SeqNumber_diff f l)); [lia|done].
Qed.

Lemma parse_loss_encode l : forall n pre i acc,
  Forall LossRange_wf l -> length pre = (4 * i)%nat -> (length l < n)%nat ->
  parse_loss_loop n (pre ++ encode_ranges l) (length (pre ++ encode_ranges l) / 4) i acc =
  pok (acc ++ l).
Proof.
  induction l as [|r l IH]; intros [|n] pre i acc Hl Hpre Hn; simpl in Hn; try lia.
  - cbn [parse_loss_loop encode_ranges encode_loss_list fold_left].
    rewrite !app_nil_r, Hpre. rewrite (Nat.mul_comm 4 i), Nat.div_mul by done.
    by rewrite Nat.ltb_irrefl.
  - apply Forall_cons in Hl as [Hr Hl]. rewrite encode_ranges_cons.
    erewrite parse_loss_step by done. rewrite app_assoc.
    rewrite (IH n _ _ (acc ++ [r])); [by rewrite <- app_assoc | done | | lia].
    rewrite length_app, Hpre, length_encode_range. case_if; simpl; lia.
Qed.

Lemma length_encode_ranges l : (4 * length l <= length (encode_ranges l))%nat.
Proof.
  induction l as [|r l IH]; [done|].
  rewrite encode_ranges_cons, length_app, length_encode_range. case_if; simpl length; lia.
Qed.

Lemma parse_loss_list_encode l :
  l <> [] -> Forall LossRange_wf l -> parse_loss_list (encode_ranges l) = pok l.
Proof.
  intros Hne Hl. unfold parse_loss_list. pose proof (length_encode_ranges l) as Hlen.
  assert (length l <= length (encode_ranges l) / 4)%nat as Hw
    by (apply Nat.div_le_lower_bound; lia).
  destruct (Nat.eqb_spec (length (encode_ranges l) / 4) 0) as [H0|_].
  { destruct l; simpl in *; [done|lia]. }
  apply (parse_loss_encode l _ [] 0 []); [done|done|lia].
Qed.

(** The loop returns, every range it adds is well formed, and it adds one
    when a word is left. *)
Lemma parse_loss_loop_ok n : forall cif words i acc,
  words = (length cif / 4)%nat -> (i <= words)%nat -> (words < i + n)%nat ->
  Forall LossRange_wf acc ->
  exists r, parse_loss_loop n cif words i acc = Ret r /\
    match r with
    | Ok l => Forall LossRange_wf l /\ (i = words \/ l <> []) /\ (length acc <= length l)%nat
    | Err _ => True
    end.
Proof.
  induction n as [|n IH]; intros cif words i acc Hwords Hi Hn Hacc; [lia|].
  cbn [parse_loss_loop]. pose proof (Nat.div_mod_eq (length cif) 4) as Hdm.
  assert (Hadd : forall j x, (i < j <= words)%nat -> LossRange_wf x ->
    exists r, parse_loss_loop n cif words j (acc ++ [x]) = Ret r /\
      match r with
      | Ok l => Forall LossRange_wf l /\ (i = words \/ l <> []) /\ (length acc <= length l)%nat
      | Err _ => True
      end).
  { intros j x Hj Hx. destruct (IH cif words j (acc ++ [x])) as (r & -> & Hr); try (done || lia).
    { apply Forall_app. by rewrite Forall_singleton. }
    exists r. split; [done|]. destruct r as [l|]; [|done]. destruct Hr as (? & _ & Hlen).
    rewrite length_app in Hlen. simpl in Hlen. split_and!; [done| |lia].
    right. intros ->. simpl in Hlen. lia. }
  destruct (Nat.ltb_spec i words).
  2: { eexists; split; [done|]. split_and!; [done|left; lia|lia]. }
  rewrite (read_u32_ret cif (i * 4)) by lia. cbn [mbind panicking_bind]. case_if.
  - destruct (Nat.leb_spec words (i + 1)); [by eexists|].
    rewrite (read_u32_ret cif ((i + 1) * 4)) by lia. cbn [mbind panicking_bind].
    case_if; [by eexists|]. to_prop. apply Hadd; [lia|].
    repeat split; cbn [lr_first lr_last]; (done || apply SeqNumber_new_wf).
  - apply Hadd; [lia|]. repeat split; cbn [lr_first lr_last]; try apply SeqNumber_new_wf.
    rewrite SeqNumber_diff_mod. zify_divmod.
Qed.

Lemma parse_loss_list_ok cif :
  exists r, parse_loss_list cif = Ret r /\
    match r with Ok l => l <> [] /\ Forall LossRange_wf l | Err _ => True end.
Proof.
  unfold parse_loss_list. destruct (Nat.eqb_spec (length cif / 4) 0); [by eexists|].
  destruct (parse_loss_loop_ok (S (length cif / 4)) cif _ 0 [] eq_refl) as (r & -> & Hr);
    try (done || lia).
  exists r. split; [done|]. destruct r; [|done]. destruct Hr as (? & [?|?] & _); [lia|done].
Qed.

(** *** Header *)

Definition control_word0 (t : ControlType) : Z :=
  2 ^ 31 + ControlType_type_code t * 2 ^ 16 + ControlType_subtype t.

Definition control_cif (t : ControlType) : bytes :=
  match t with
  | Handshake cif => HandshakeCif_encode_cif cif []
  | Ack _ cif => encode_ack_cif cif []
  | Nak l => encode_ranges l
  | DropRequest _ first last => to_be 4 first ++ to_be 4 last
  | KmReq blob | KmRsp blob => blob
  | KeepAlive | CongestionWarning | Shutdown | AckAck _ | PeerError _ => to_be 4 0
  end.

Lemma encode_ack_acc c out : encode_ack_cif c out = out ++ encode_ack_cif c [].
Proof.
  unfold encode_ack_cif. generalize [ack_rtt_us c; ack_rtt_var_us c; ack_avail_buf_pkts c;
    ack_recv_rate_pkts c; ack_link_capacity_pkts c; ack_recv_rate_bytes c] as l.
  assert (forall l out out', put_some_prefix l (out ++ out') = out ++ put_some_prefix l out') as H.
  { induction l as [|[v|] l IH]; intros; simpl; [done| |done].
    unfold put_u32. by rewrite <- app_assoc, IH. }
  intros l. unfold put_u32. by rewrite H.
Qed.

Lemma ControlPacket_encode_words p :
  ControlPacket_encode p [] =
  to_be 4 (control_word0 (cp_control_type p)) ++
  to_be 4 (ControlType_type_specific_info (cp_control_type p)) ++
  to_be 4 (cp_timestamp p) ++ to_be 4 (cp_dst_socket_id p) ++ control_cif (cp_control_type p).
Proof.
  unfold ControlPacket_encode. set (w := Z.lor (Z.lor _ _) _).
  assert (w = control_word0 (cp_control_type p)) as -> by (by destruct (cp_control_type p)).
  unfold put_u32. cbn [app].
  destruct (cp_control_type p); cbn [control_cif];
    rewrite ?HandshakeCif_encode_words, ?encode_loss_acc, ?(encode_ack_acc _ (_ ++ _)), <- !app_assoc;
    done.
Qed.

Lemma ControlType_type_code_range t : 0 <= ControlType_type_code t < 2 ^ 15.
Proof. destruct t; simpl; lia. Qed.

Lemma ControlType_subtype_range t : 0 <= ControlType_subtype t < 2 ^ 16.
Proof. destruct t; cbn [ControlType_subtype]; unfold SRT_CMD_KMREQ, SRT_CMD_KMRSP; lia. Qed.

Lemma control_word0_fields t :
  is_u32 (control_word0 t) /\
  Z.land (Z.shiftr (control_word0 t) 16) 0x7FFF = ControlType_type_code t /\
  Z.land (control_word0 t) 0xFFFF = ControlType_subtype t.
Proof.
  pose proof (ControlType_type_code_range t). pose proof (ControlType_subtype_range t).
  change 0x7FFF with (2 ^ 15 - 1). change 0xFFFF with (2 ^ 16 - 1).
  rewrite !land_mask, Z.shiftr_div_pow2 by lia. unfold control_word0, is_u32.
  split; [lia|]. split; zify_divmod.
Qed.

Lemma type_specific_info_u32 t :
  ControlType_wf t -> is_u32 (ControlType_type_specific_info t).
Proof.
  destruct t; cbn [ControlType_wf ControlType_type_specific_info]; unfold MsgNumber_wf, is_u32; lia.
Qed.

Lemma parse_dropreq_encode m first last :
  MsgNumber_wf m -> SeqNumber_wf first -> SeqNumber_wf last ->
  parse_dropreq m (to_be 4 first ++ to_be 4 last) = pok (DropRequest m first last).
Proof.
  intros Hm Hf Hl. unfold parse_dropreq. rewrite <- (app_nil_r (to_be 4 last)).
  rewrite !length_app, !length_to_be. cbn [length Nat.add Nat.ltb Nat.leb].
  pose proof (SeqNumber_new_id first Hf). pose proof (SeqNumber_new_id last Hl).
  pose proof (MsgNumber_new_id m Hm). unfold SeqNumber_wf in *. read_word.
  cbn [mbind panicking_bind]. congruence.
Qed.

Lemma ControlPacket_parse_encode p :
  ControlPacket_wf p -> ControlPacket_parse (ControlPacket_encode p []) = pok p.
Proof.
  intros (Hts & Hdst & Ht). rewrite ControlPacket_encode_words. unfold ControlPacket_parse.
  destruct p as [ts dst t]. cbn [cp_timestamp cp_dst_socket_id cp_control_type] in *.
  pose proof (control_word0_fields t) as (Hw & Hcode & Hsub).
  pose proof (type_specific_info_u32 t Ht) as Hinfo.
  destruct (Nat.ltb_spec (length (to_be 4 (control_word0 t) ++ to_be 4 (ControlType_type_specific_info t)
    ++ to_be 4 ts ++ to_be 4 dst ++ control_cif t)) HEADER_SIZE) as [Hlt|_].
  { rewrite !length_app, !length_to_be in Hlt. unfold HEADER_SIZE in Hlt. lia. }
  replace (slice _ HEADER_SIZE _) with (Ret (control_cif t)).
  2: { rewrite !app_assoc. symmetry. apply slice_tail;
         rewrite ?length_app, !length_to_be; unfold HEADER_SIZE; lia. }
  read_word. cbn [mbind panicking_bind]. rewrite Hcode, Hsub.
  destruct t; cbn [ControlType_type_code ControlType_subtype ControlType_type_specific_info
    control_cif ControlType_wf] in *; eval_cmds; cbv iota.
  - by rewrite HandshakeCif_parse_encode.
  - done.
  - by rewrite parse_ack_encode by apply Ht.
  - by rewrite parse_loss_list_encode by apply Ht.
  - done.
  - done.
  - done.
  - by rewrite parse_dropreq_encode by apply Ht.
  - done.
  - done.
  - done.
Qed.

Lemma parse_dropreq_returns info cif : returns (parse_dropreq info cif).
Proof.
  unfold parse_dropreq. destruct (Nat.ltb_spec (length cif) 8); [by eexists|].
  rewrite !read_u32_ret by lia. by eexists.
Qed.

Lemma qbind_returns {E A B} (m : presult E A) (k : A -> presult E B) :
  returns m -> (forall a, returns (k a)) -> returns (qbind m k).
Proof. intros [[a|e] ->] Hk; simpl; [apply Hk|by eexists]. Qed.

Lemma ControlPacket_parse_returns buf : returns (ControlPacket_parse buf).
Proof.
  unfold ControlPacket_parse. destruct (Nat.ltb_spec (length buf) HEADER_SIZE) as [|Hlen];
    [by eexists|]. unfold HEADER_SIZE in *.
  rewrite !read_u32_ret, slice_ret by lia. cbn [mbind panicking_bind].
  apply qbind_returns; [|by eexists].
  repeat case_if; try (by eexists); try apply parse_dropreq_returns;
    (apply qbind_returns; [|by eexists]).
  - apply HandshakeCif_parse_returns.
  - apply parse_ack_returns.
  - by destruct (parse_loss_list_ok (take (length buf - 16) (drop 16 buf))) as (r & -> & _); eexists.
Qed.

Lemma first_byte_to_be4 v l :
  is_u32 v -> exists r, to_be 4 v ++ l = v / 2 ^ 24 :: r.
Proof.
  intros Hv. eexists. unfold to_be. cbn [app]. f_equal. unfold is_u32 in Hv.
  change (2 ^ (8 * Z.of_nat 3)) with (2 ^ 24). zify_divmod.
Qed.

Lemma f_bit b : is_u8 b -> (Z.land b 0x80 =? 0) = (b <? 128).
Proof.
  intros Hb. change 0x80 with (2 ^ 7). unfold is_u8 in Hb.
  pose proof (flag_bit b 7 ltac:(lia)) as H. destruct (Z.land b (2 ^ 7) =? 0); cbn in H;
    symmetry; [apply Z.ltb_lt | apply Z.ltb_ge]; zify_divmod.
Qed.

Lemma Packet_parse_encode p : Packet_wf p -> Packet_parse (Packet_encode p []) = pok p.
Proof.
  destruct p as [p|p]; intros Hp; cbn [Packet_wf Packet_encode] in *.
  - pose proof (DataPacket_parse_app_header p _ Hp eq_refl) as Hparse.
    unfold DataPacket_encode. cbn [app]. destruct Hp as (Hs & _).
    destruct (first_byte_to_be4 (dp_seq p) (drop 4 (DataPacket_encode_header p ++ dp_payload p)))
      as [r Hr]; [unfold SeqNumber_wf, is_u32 in *; lia|].
    change (drop 4 _) with (drop 4 (to_be 4 (dp_seq p) ++ drop 4 (DataPacket_encode_header p)
      ++ dp_payload p)) in Hr. rewrite drop_app_length' in Hr by (by rewrite length_to_be).
    change (DataPacket_encode_header p ++ dp_payload p) with
      (to_be 4 (dp_seq p) ++ drop 4 (DataPacket_encode_header p) ++ dp_payload p) in *.
    rewrite Hr in *. cbn [Packet_parse]. rewrite f_bit by (unfold is_u8, SeqNumber_wf in *; zify_divmod).
    destruct (Z.ltb_spec (dp_seq p / 2 ^ 24) 128); [by rewrite Hparse|].
    unfold SeqNumber_wf in *. zify_divmod.
  - pose proof (ControlPacket_parse_encode p Hp) as Hparse. rewrite ControlPacket_encode_words in *.
    pose proof (control_word0_fields (cp_control_type p)) as [Hw _].
    destruct (first_byte_to_be4 _ (to_be 4 (ControlType_type_specific_info (cp_control_type p)) ++
      to_be 4 (cp_timestamp p) ++ to_be 4 (cp_dst_socket_id p) ++
      control_cif (cp_control_type p)) Hw) as [r Hr].
    rewrite Hr in *. cbn [Packet_parse]. rewrite f_bit by (unfold is_u8, is_u32 in *; zify_divmod).
    destruct (Z.ltb_spec (control_word0 (cp_control_type p) / 2 ^ 24) 128); [|by rewrite Hparse].
    pose proof (ControlType_type_code_range (cp_control_type p)).
    pose proof (ControlType_subtype_range (cp_control_type p)). unfold control_word0 in *. zify_divmod.
Qed.

Lemma Packet_parse_returns buf : returns (Packet_parse buf).
Proof.
  destruct buf as [|b buf].
  - by eexists.
  - cbn [Packet_parse]. case_if; apply qbind_returns; try (by eexists).
    + apply DataPacket_parse_returns.
    + apply ControlPacket_parse_returns.
Qed.

Lemma parsed_data_seq dg d : Packet_parse dg = pok (Data d) -> SeqNumber_wf (dp_seq d).
Proof.
  unfold Packet_parse. destruct dg as [|b rest]; [by destruct (ControlPacket_parse _) as [[p|]|]|]. case_if.
  2: { by destruct (ControlPacket_parse _) as [[p|]|]. }
  destruct (DataPacket_parse _) as [[p|]|] eqn:Hp; cbn [qbind]; try done. intros [= <-]. revert Hp.
  unfold DataPacket_parse. destruct (Nat.ltb_spec (length (b :: rest)) HEADER_SIZE) as [|Hlen]; [done|].
  unfold HEADER_SIZE in *. rewrite !read_u32_ret, slice_ret by lia. cbn [mbind panicking_bind].
  intros [= <-]. apply SeqNumber_new_wf.
Qed.

Lemma parsed_handshake_seq dg ctrl cif :
  Packet_parse dg = pok (Control ctrl) -> cp_control_type ctrl = Handshake cif -> SeqNumber_wf (hs_initial_seq cif).
Proof.
  unfold Packet_parse. destruct dg as [|b rest]; [done|]. case_if.
  { destruct (DataPacket_parse _) as [[p|]|]; cbn [qbind]; try done. }
  destruct (ControlPacket_parse _) as [[p|]|] eqn:Hp; cbn [qbind]; try done. intros [= <-] Hct. revert Hp.
  unfold ControlPacket_parse. destruct (Nat.ltb_spec (length (b :: rest)) HEADER_SIZE) as [|Hlen]; [done|].
  unfold HEADER_SIZE in *. rewrite !read_u32_ret, slice_ret by lia. cbn [mbind panicking_bind].
  set (type_code := Z.land (Z.shiftr _ 16) _).
  destruct (if type_code =? 0 then _ else _) as [[ct|]|] eqn:Hq; cbn [qbind]; try done.
  intros [= <-]. cbn in Hct. subst ct. revert Hq. repeat case_if; try done.
  - destruct (HandshakeCif_parse_cif _) as [[c|]|] eqn:Hc; cbn [qbind]; try done.
    intros [= <-]. by apply parse_cif_seq in Hc.
  - destruct (parse_ack_cif _) as [[c|]|]; done.
  - destruct (parse_loss_list _) as [[c|]|]; done.
  - unfold parse_dropreq. destruct (Nat.ltb_spec (length (take (length (b :: rest) - 16) (drop 16 (b :: rest)))) 8);
      [done|]. by rewrite !read_u32_ret by lia.
Qed.

(** ** Properties *)

(** the NAK loss list round-trips: what [encode_loss_list] writes for a
    non-empty list of ranges is what [parse_loss_list] reads back. *)
Theorem nak_list_roundtrip (l : list LossRange) :
  l <> [] -> Forall LossRange_wf l -> parse_loss_list (encode_loss_list l []) = pok l.
Proof. apply parse_loss_list_encode. Qed.

Lemma nak_list_roundtrip_witness :
  let l := [mkLossRange 5 5; mkLossRange 0x7FFFFFFE 3] in
  parse_loss_list (encode_loss_list l []) = pok l.
Proof.
  apply nak_list_roundtrip; [done|].
  repeat (constructor; [split; [split; simpl; lia | split; [split; simpl; lia | by vm_compute]]|]).
  constructor.
Defined.

(** every NAK that parses is usable by the sender: at least one range,
    31-bit ends, and no range starts after its end on the circle; and the
    parser's loop always comes to a result. *)
Theorem nak_list_parses_to_valid_ranges (cif : bytes) :
  exists r, parse_loss_list cif = Ret r /\
    match r with
    | Ok l => l <> [] /\ Forall LossRange_wf l
    | Err _ => True
    end.
Proof. apply parse_loss_list_ok. Qed.

(** every packet round-trips on the wire: [Packet::parse] of
    [Packet::encode] is the packet itself, data or control, for packets
    whose fields are in range. *)
Theorem packet_parse_encode (p : Packet) :
  Packet_wf p -> Packet_parse (Packet_encode p []) = pok p.
Proof. apply Packet_parse_encode. Qed.

Lemma packet_parse_encode_witness :
  let p := Control (mkControlPacket 7 9
    (Ack 3 (mkAckCif 0x7FFFFFFF (Some 1) (Some 2) (Some 3) (Some 4) (Some 5) None))) in
  Packet_parse (Packet_encode p []) = pok p.
Proof.
  apply packet_parse_encode.
  cbn [Packet_wf ControlPacket_wf ControlType_wf cp_control_type cp_timestamp cp_dst_socket_id].
  unfold ControlPacket_wf, ControlType_wf, AckCif_wf, SeqNumber_wf, is_u32. simpl. lia.
Defined.

(** C32: no datagram panics the codec: whatever bytes arrive,
    [Packet::parse] returns a packet or a [PacketError] (every index is in
    range and every loop ends). *)
Theorem packet_parse_never_panics (buf : bytes) : returns (Packet_parse buf).
Proof. apply Packet_parse_returns. Qed.
