(* ===== verification/Time.v ===== *)
(** * Time base, timestamp extension and drift tracer: [src/core/time.rs] *)

From S2P Require Import Prelude.

(** ** [Timebase] *)

Record Timebase := mkTimebase { tb_start : Z }.

Definition Timebase_new (start : Z) : Timebase := mkTimebase start.

Definition Timebase_timestamp (tb : Timebase) (now : Z) : Z :=
  let us := as_micros (duration_since now (tb_start tb)) in
  as_u32 us.

(** ** [TimestampExtender] *)

Record TimestampExtender := mkTimestampExtender { te_anchor : option (Z * Z) }.

Definition TimestampExtender_new : TimestampExtender := mkTimestampExtender None.

Definition TimestampExtender_extend (te : TimestampExtender) (ts now : Z)
    : TimestampExtender * Z :=
  match te_anchor te with
  | None => (mkTimestampExtender (Some (now, ts)), ts)
  | Some (anchor_instant, anchor_ext) =>
      let elapsed := as_u64 (as_micros (duration_since now anchor_instant)) in
      let expected := as_u64 (anchor_ext + elapsed) in
      let delta := as_i32 (as_u32 (ts - as_u32 expected)) in
      (te, saturating_add_signed_u64 expected delta)
  end.

(** ** [DriftTracer] *)

Definition TSBPD_DRIFT_MAX_SAMPLES : Z := 1000.

Definition TSBPD_DRIFT_MAX_VALUE_US : Z := 5000.

Record DriftTracer := mkDriftTracer {
  dt_sum_us : Z;
  dt_samples : Z;
  dt_drift_us : Z;
  dt_base_shift_us : Z
}.

#[export] Instance DriftTracer_eta : Etable DriftTracer := fun d =>
  mkDriftTracer (dt_sum_us d) (dt_samples d) (dt_drift_us d) (dt_base_shift_us d).

Definition DriftTracer_new : DriftTracer := mkDriftTracer 0 0 0 0.

(** [i64] division truncates towards zero: [Z.quot]. *)
Definition DriftTracer_sample (d : DriftTracer) (offset_us : Z) : DriftTracer * bool :=
  let d := d <| dt_sum_us := dt_sum_us d + (offset_us - dt_base_shift_us d) |> in
  let d := d <| dt_samples := dt_samples d + 1 |> in
  if dt_samples d <? TSBPD_DRIFT_MAX_SAMPLES then (d, false) else
  let avg := Z.quot (dt_sum_us d) (dt_samples d) in
  let d := d <| dt_sum_us := 0 |> <| dt_samples := 0 |> in
  let shift :=
    if TSBPD_DRIFT_MAX_VALUE_US <? Z.abs avg
    then Z.max (- TSBPD_DRIFT_MAX_VALUE_US) (Z.min TSBPD_DRIFT_MAX_VALUE_US avg)
    else 0 in
  let d := d <| dt_base_shift_us := dt_base_shift_us d + shift |> in
  (d <| dt_drift_us := avg - shift |>, true).

Definition DriftTracer_correction_us (d : DriftTracer) : Z :=
  dt_base_shift_us d + dt_drift_us d.

(** ** Runs *)

(** Feeds the extender a stream of [(timestamp, arrival)] pairs. *)
Fixpoint extend_all (te : TimestampExtender) (l : list (Z * Z)) : list Z :=
  match l with
  | [] => []
  | (ts, now) :: r =>
      let (te, v) := TimestampExtender_extend te ts now in v :: extend_all te r
  end.

(** Feeds the tracer a list of offsets; the last flag says whether the last
    sample completed a batch. *)
Definition sample_all (d : DriftTracer) (offsets : list Z) : DriftTracer * bool :=
  fold_left (fun acc o => DriftTracer_sample (fst acc) o) offsets (d, false).

(** Where the local clock puts the peer's wire clock. *)
Definition expected_time (anchor : Z * Z) (now : Z) : Z :=
  snd anchor + as_micros (duration_since now (fst anchor)).

(** A peer time [T] seen at [now] within the tolerance the extender states:
    less than [2^31] us from where the local clock expects it. *)
Definition within_tolerance (anchor : Z * Z) (T now : Z) : Prop :=
  0 <= T < 2 ^ 63 /\ 0 <= expected_time anchor now < 2 ^ 63 /\
  - 2 ^ 31 <= T - expected_time anchor now < 2 ^ 31.

(** ** Lemmas *)

Lemma extend_exact anchor T now :
  0 <= snd anchor -> within_tolerance anchor T now ->
  TimestampExtender_extend (mkTimestampExtender (Some anchor)) (as_u32 T) now =
  (mkTimestampExtender (Some anchor), T).
Proof.
  destruct anchor as [a e]. unfold within_tolerance, expected_time. cbn [fst snd].
  intros He (HT & Hexp & Hd). unfold TimestampExtender_extend. cbn [te_anchor].
  set (el := as_micros (duration_since now a)) in *.
  assert (0 <= el) as Hel
    by (unfold el, as_micros, duration_since; apply Z.div_pos; lia).
  f_equal. unfold as_u64. rewrite (Z.mod_small el), (Z.mod_small (e + el)) by lia.
  unfold saturating_add_signed_u64, U64_MAX.
  replace (as_i32 (as_u32 (as_u32 T - as_u32 (e + el)))) with (T - (e + el)); [lia|].
  unfold as_i32, as_u32. case_if; to_prop; zify_divmod.
Qed.

Lemma quot_bounds s n lo hi : 0 < n -> lo * n <= s <= hi * n -> lo <= Z.quot s n <= hi.
Proof. intros. Z.to_euclidean_division_equations. nia. Qed.

(** Samples before the batch is complete only add up. *)
Lemma sample_all_partial offsets : forall d b,
  0 <= dt_samples d -> dt_samples d + Z.of_nat (length offsets) < TSBPD_DRIFT_MAX_SAMPLES ->
  fold_left (fun acc o => DriftTracer_sample (fst acc) o) offsets (d, b) =
  (mkDriftTracer
     (dt_sum_us d + foldr Z.add 0 offsets - Z.of_nat (length offsets) * dt_base_shift_us d)
     (dt_samples d + Z.of_nat (length offsets)) (dt_drift_us d) (dt_base_shift_us d),
   if decide (offsets = []) then b else false).
Proof.
  induction offsets as [|o l IH]; intros d b Hd Hlen.
  - destruct d. cbn. f_equal. f_equal; lia.
  - cbn [length] in Hlen. cbn [fold_left fst].
    unfold DriftTracer_sample at 2. unfold_set; cbn [dt_samples dt_sum_us dt_base_shift_us dt_drift_us].
    destruct (Z.ltb_spec (dt_samples d + 1) TSBPD_DRIFT_MAX_SAMPLES); [|lia].
    rewrite IH by (cbn [dt_samples]; lia). cbn [dt_samples dt_sum_us dt_base_shift_us dt_drift_us foldr length].
    f_equal; [f_equal; lia|]. by case_decide.
Qed.

Lemma sum_bounds lo hi l :
  Forall (fun o => lo <= o <= hi) l ->
  lo * Z.of_nat (length l) <= foldr Z.add 0 l <= hi * Z.of_nat (length l).
Proof. induction 1; cbn [foldr length]; lia. Qed.

(** One whole batch. *)
Lemma sample_all_batch d offsets :
  dt_samples d = 0 -> dt_sum_us d = 0 -> Z.of_nat (length offsets) = TSBPD_DRIFT_MAX_SAMPLES ->
  let avg := Z.quot (foldr Z.add 0 offsets - TSBPD_DRIFT_MAX_SAMPLES * dt_base_shift_us d)
               TSBPD_DRIFT_MAX_SAMPLES in
  let shift := if TSBPD_DRIFT_MAX_VALUE_US <? Z.abs avg
    then Z.max (- TSBPD_DRIFT_MAX_VALUE_US) (Z.min TSBPD_DRIFT_MAX_VALUE_US avg) else 0 in
  sample_all d offsets = (mkDriftTracer 0 0 (avg - shift) (dt_base_shift_us d + shift), true).
Proof.
  intros Hs Hsum Hlen. unfold sample_all.
  destruct offsets as [|o l _] using rev_ind; [done|].
  rewrite length_app in Hlen. cbn [length] in Hlen. rewrite fold_left_app.
  rewrite sample_all_partial by lia. cbn [fold_left fst].
  unfold DriftTracer_sample. unfold_set; cbn [dt_samples dt_sum_us dt_base_shift_us dt_drift_us].
  rewrite Hs, Hsum. destruct (Z.ltb_spec (0 + Z.of_nat (length l) + 1) TSBPD_DRIFT_MAX_SAMPLES); [lia|].
  assert (foldr Z.add 0 (l ++ [o]) = foldr Z.add 0 l + o) as ->.
  { clear. induction l; cbn [foldr app]; lia. }
  replace (0 + Z.of_nat (length l) + 1) with TSBPD_DRIFT_MAX_SAMPLES by lia.
  replace (0 + foldr Z.add 0 l - Z.of_nat (length l) * dt_base_shift_us d + (o - dt_base_shift_us d))
    with (foldr Z.add 0 l + o - TSBPD_DRIFT_MAX_SAMPLES * dt_base_shift_us d) by lia.
  done.
Qed.

(** ** Properties *)

(** whatever gaps, wraps and reordering the stream has, the extender
    puts every timestamp where the peer's clock was: if the peer's times
    [T] (microseconds, unwrapped, counted from the wrap period of the first
    packet) stay within [2^31] us of the local clock's expectation, the
    values of [extend] on the 32-bit wire timestamps are exactly the [T]s. *)
Theorem extend_recovers_peer_clock (T0 now0 : Z) (l : list (Z * Z)) :
  is_u32 T0 ->
  Forall (fun x => within_tolerance (now0, T0) (fst x) (snd x)) l ->
  extend_all TimestampExtender_new (map (fun x => (as_u32 (fst x), snd x)) ((T0, now0) :: l)) =
  T0 :: map fst l.
Proof.
  intros HT0 Hl. cbn [map fst snd extend_all]. rewrite as_u32_small by done.
  cbn [TimestampExtender_extend TimestampExtender_new te_anchor]. f_equal.
  induction Hl as [|[T now] l Hx _ IH]; [done|].
  cbn [map fst snd extend_all]. rewrite extend_exact by (done || (cbn; unfold is_u32 in *; lia)).
  by rewrite IH.
Qed.

Lemma extend_recovers_peer_clock_witness :
  extend_all TimestampExtender_new
    (map (fun x => (as_u32 (fst x), snd x))
       [(2 ^ 32 - 10, 0); (2 ^ 32 + 5, 20000); (2 ^ 32 - 3, 21000);
        (3 * 2 ^ 32, 2 * 2 ^ 32 * 1000)]) =
  [2 ^ 32 - 10; 2 ^ 32 + 5; 2 ^ 32 - 3; 3 * 2 ^ 32].
Proof.
  apply (extend_recovers_peer_clock (2 ^ 32 - 10) 0
    [(2 ^ 32 + 5, 20000); (2 ^ 32 - 3, 21000); (3 * 2 ^ 32, 2 * 2 ^ 32 * 1000)]).
  - unfold is_u32; lia.
  - repeat (apply Forall_cons; split; [vm_compute; repeat split; discriminate|]).
    by apply Forall_nil.
Defined.

(** the drift tracer is a bounded, unbiased corrector: over each batch
    of 1000 samples, (1) only the last sample reports a new correction and
    the batch state is empty again, (2) the time base moves by at most
    5 ms, (3) the correction lies between the smallest and the largest
    offset measured in the batch, so a constant offset is corrected
    exactly. *)
Theorem drift_batch_correction (d : DriftTracer) (offsets : list Z) (lo hi : Z) :
  dt_samples d = 0 -> dt_sum_us d = 0 ->
  Z.of_nat (length offsets) = TSBPD_DRIFT_MAX_SAMPLES ->
  Forall (fun o => lo <= o <= hi) offsets ->
  let (d', done_) := sample_all d offsets in
  done_ = true /\ dt_samples d' = 0 /\ dt_sum_us d' = 0 /\
  Z.abs (dt_base_shift_us d' - dt_base_shift_us d) <= TSBPD_DRIFT_MAX_VALUE_US /\
  lo <= DriftTracer_correction_us d' <= hi.
Proof.
  intros Hs Hsum Hlen Hoff. rewrite sample_all_batch by done.
  apply sum_bounds in Hoff. rewrite Hlen in Hoff. set (b := dt_base_shift_us d).
  assert (lo - b <= Z.quot (foldr Z.add 0 offsets - TSBPD_DRIFT_MAX_SAMPLES * b)
            TSBPD_DRIFT_MAX_SAMPLES <= hi - b) as Havg
    by (apply quot_bounds; unfold TSBPD_DRIFT_MAX_SAMPLES in *; lia).
  unfold DriftTracer_correction_us, TSBPD_DRIFT_MAX_VALUE_US.
  cbn [dt_samples dt_sum_us dt_base_shift_us dt_drift_us]. case_if; to_prop; lia.
Qed.

Lemma drift_batch_correction_witness :
  let (d', done_) := sample_all (mkDriftTracer 0 0 7 100) (replicate 1000 (-9000)) in
  done_ = true /\ dt_samples d' = 0 /\ dt_sum_us d' = 0 /\
  Z.abs (dt_base_shift_us d' - 100) <= TSBPD_DRIFT_MAX_VALUE_US /\
  -9000 <= DriftTracer_correction_us d' <= -9000.
Proof.
  apply (drift_batch_correction (mkDriftTracer 0 0 7 100) (replicate 1000 (-9000)) (-9000) (-9000));
    try reflexivity.
  apply Forall_replicate. lia.
Defined.
