(* ===== verification/CryptoKeys.v ===== *)
(** * Key material, AES-CTR payload cipher and KM messages:
    [src/crypto/keys.rs], [src/crypto/ctr.rs], [src/crypto/km.rs]

    The cryptographic primitives come from other crates (the [aes], [ctr],
    [aes-kw] and [pbkdf2] packages); they are the operations of the class
    [CryptoPrimitives], and [CryptoLaws] states what those crates document
    of them.  Random bytes are explicit arguments. *)

From S2P Require Import Prelude PacketTypes.

(** ** Primitives *)

Class CryptoPrimitives := {
  (** [pbkdf2::pbkdf2_hmac::<Sha1>(passphrase, salt, iterations, out)], [out] of the given length. *)
  pbkdf2_hmac_sha1 : bytes -> bytes -> Z -> nat -> bytes;
  (** [aes_kw::KwAes*::wrap_key]; [None] is its error. *)
  kw_wrap : bytes -> bytes -> option bytes;
  (** [aes_kw::KwAes*::unwrap_key]; [None] is [IntegrityCheckFailed]. *)
  kw_unwrap : bytes -> bytes -> option bytes;
  (** The first [n] keystream bytes of [CtrCore<Aes*Enc, Ctr128BE>] from an initial block. *)
  ctr128be_keystream : bytes -> bytes -> nat -> bytes
}.

Definition key_length_ok (n : nat) : Prop := (n = 16 \/ n = 24 \/ n = 32)%nat.

Class CryptoLaws `{CryptoPrimitives} := {
  length_pbkdf2 : forall pw salt it n, length (pbkdf2_hmac_sha1 pw salt it n) = n;
  kw_wrap_ok : forall kek p,
    key_length_ok (length kek) -> p <> [] -> (length p mod 8 = 0)%nat ->
    exists w, kw_wrap kek p = Some w /\ length w = (length p + 8)%nat /\ kw_unwrap kek w = Some p;
  length_kw_unwrap : forall kek w p, kw_unwrap kek w = Some p -> (length p + 8 = length w)%nat;
  length_keystream : forall key iv n, length (ctr128be_keystream key iv n) = n
}.

(** ** Errors *)

Inductive bad_km :=
| KmNotLongerThanHeader
| KmKeyLengthZero
| PayloadTypeNotKm
| BadSignature
| KmCarriesNoKey
| SaltLongerThan16
| SekLengthInvalid
| KmLengthMismatch
| WrappedKeyLength
| KmrspShorterThanWord.

Inductive unsupported_km :=
| VersionNot1
| SeNotTssrt
| SaltShorterThan16
| CipherNotAesCtr
| AuthNotNone.

Inductive CryptoError :=
| BadKmMessage (why : bad_km)
| WrongSecret
| Unsupported (why : unsupported_km)
| NoKey.

(** ** [keys.rs] *)

Definition PASSPHRASE_MIN : nat := 10.

Definition PASSPHRASE_MAX : nat := 80.

Definition PBKDF2_ITERATIONS : Z := 2048.

Inductive KeyLength := Aes128 | Aes192 | Aes256.

#[export] Instance KeyLength_eq_dec : EqDecision KeyLength.
Proof. solve_decision. Defined.

Definition KeyLength_bytes (k : KeyLength) : nat :=
  match k with Aes128 => 16 | Aes192 => 24 | Aes256 => 32 end.

Definition KeyLength_from_bytes (n : nat) : option KeyLength :=
  if (n =? 16)%nat then Some Aes128
  else if (n =? 24)%nat then Some Aes192
  else if (n =? 32)%nat then Some Aes256
  else None.

(** [SecretKey] and [Kek] are their bytes. *)
Abbreviation SecretKey := bytes (only parsing).

(** [SecretKey::key_len]. *)
Definition SecretKey_key_len (key : SecretKey) : panicking KeyLength :=
  expect (KeyLength_from_bytes (length key)).

Definition derive_kek `{CryptoPrimitives} (passphrase km_salt : bytes) (key_len : KeyLength)
    : panicking bytes :=
  tail ← slice km_salt 8 (length km_salt);
  Ret (pbkdf2_hmac_sha1 passphrase tail PBKDF2_ITERATIONS (KeyLength_bytes key_len)).

Definition wrap_key `{CryptoPrimitives} (kek plaintext : bytes) : panicking bytes :=
  _ ← SecretKey_key_len kek;
  expect (kw_wrap kek plaintext).

Definition unwrap_key `{CryptoPrimitives} (kek wrapped : bytes) : presult CryptoError SecretKey :=
  if (length wrapped <? 24)%nat || negb (length wrapped mod 8 =? 0)%nat
  then perr (BadKmMessage WrappedKeyLength) else
  _ ← SecretKey_key_len kek;
  match kw_unwrap kek wrapped with
  | Some out => pok out
  | None => perr WrongSecret
  end.

(** ** [ctr.rs] *)

(** A [CtrCipher] is the key schedule of one key: it is the key. *)
Record CtrCipher := mkCtrCipher { cipher_key : SecretKey }.

Definition CtrCipher_new (key : SecretKey) : panicking CtrCipher :=
  _ ← SecretKey_key_len key;
  Ret (mkCtrCipher key).

(** [iv[.. 14] ^= salt[.. 14]] over sixteen zero bytes with [seq] at 10..14. *)
Definition counter_block (salt : bytes) (seq : Z) : bytes :=
  let iv := replicate 10 0 ++ to_be 4 seq ++ [0; 0] in
  zip_with Z.lxor (take 14 iv) (take 14 salt) ++ drop 14 iv.

Definition xor_keystream `{CryptoPrimitives} (key iv payload : bytes) : bytes :=
  zip_with Z.lxor payload (ctr128be_keystream key iv (length payload)).

Definition CtrCipher_apply_keystream `{CryptoPrimitives} (c : CtrCipher) (salt : bytes) (seq : Z)
    (payload : bytes) : bytes :=
  let iv := counter_block salt seq in
  xor_keystream (cipher_key c) iv payload.

(** ** [km.rs] *)

Definition KM_HEADER_LEN : nat := 16.

Definition KM_SALT_LEN : nat := 16.

Definition WRAP_ICV_LEN : nat := 8.

Definition KM_SIGN : bytes := [0x20; 0x29].

Inductive KmState := Unsecured | Securing | Secured | NoSecret | BadSecret.

#[export] Instance KmState_eq_dec : EqDecision KmState.
Proof. solve_decision. Defined.

Definition KmState_from_u32 (v : Z) : option KmState :=
  if v =? 0 then Some Unsecured
  else if v =? 1 then Some Securing
  else if v =? 2 then Some Secured
  else if v =? 3 then Some NoSecret
  else if v =? 4 then Some BadSecret
  else None.

Inductive KmKeys := KmEven | KmOdd | KmBoth.

(** The discriminants are the wire bits. *)
Definition KmKeys_bits (k : KmKeys) : Z := match k with KmEven => 1 | KmOdd => 2 | KmBoth => 3 end.

Definition KmKeys_count (k : KmKeys) : nat := match k with KmEven | KmOdd => 1 | KmBoth => 2 end.

Record KmMessage := mkKmMessage {
  km_keys : KmKeys;
  km_key_len : KeyLength;
  km_salt : bytes;
  km_wrapped : bytes
}.

Definition KmMessage_parse (buf : bytes) : presult CryptoError KmMessage :=
  if (length buf <=? KM_HEADER_LEN)%nat then perr (BadKmMessage KmNotLongerThanHeader) else
  b15 ← index buf 15;
  let sek_len := (Z.to_nat b15 * 4)%nat in
  if (sek_len =? 0)%nat then perr (BadKmMessage KmKeyLengthZero) else
  b0 ← index buf 0;
  if negb (Z.shiftr b0 4 =? 1) then perr (Unsupported VersionNot1) else
  if negb (Z.land b0 0x0F =? 2) then perr (BadKmMessage PayloadTypeNotKm) else
  sign ← slice buf 1 3;
  if negb (bool_decide (sign = KM_SIGN)) then perr (BadKmMessage BadSignature) else
  b10 ← index buf 10;
  if negb (b10 =? 2) then perr (Unsupported SeNotTssrt) else
  b3 ← index buf 3;
  keys ←?
    (let kk := Z.land b3 3 in
     if kk =? 1 then pok KmEven
     else if kk =? 2 then pok KmOdd
     else if kk =? 3 then pok KmBoth
     else perr (BadKmMessage KmCarriesNoKey));
  b14 ← index buf 14;
  let salt_len := (Z.to_nat b14 * 4)%nat in
  if (KM_SALT_LEN <? salt_len)%nat then perr (BadKmMessage SaltLongerThan16) else
  if negb (salt_len =? KM_SALT_LEN)%nat then perr (Unsupported SaltShorterThan16) else
  match KeyLength_from_bytes sek_len with
  | None => perr (BadKmMessage SekLengthInvalid)
  | Some key_len =>
      if negb (length buf =? KM_HEADER_LEN + salt_len + WRAP_ICV_LEN + KmKeys_count keys * sek_len)%nat
      then perr (BadKmMessage KmLengthMismatch) else
      b8 ← index buf 8;
      if negb (b8 =? 2) then perr (Unsupported CipherNotAesCtr) else
      b9 ← index buf 9;
      if negb (b9 =? 0) then perr (Unsupported AuthNotNone) else
      salt ← slice buf 16 32;
      wrapped ← slice buf 32 (length buf);
      pok (mkKmMessage keys key_len salt wrapped)
  end.

Definition KmMessage_encode (m : KmMessage) : bytes :=
  [0x12] ++ KM_SIGN ++ [KmKeys_bits (km_keys m)] ++ [0; 0; 0; 0] ++ [2] ++ [0] ++ [2] ++ [0] ++
  [0; 0] ++ [as_u8 (Z.of_nat (KM_SALT_LEN / 4))] ++
  [as_u8 (Z.of_nat (KeyLength_bytes (km_key_len m) / 4))] ++ km_salt m ++ km_wrapped m.

(** A decoded KMRSP: a byte echo, or one status word. *)
Inductive KmResponse :=
| Echo (echo : bytes)
| Status (state : option KmState).

(** [u32::from_le_bytes]. *)
Definition of_le (l : bytes) : Z := of_be (reverse l).

Definition KmResponse_parse (buf : bytes) : result CryptoError KmResponse :=
  if (length buf <=? 3)%nat then Err (BadKmMessage KmrspShorterThanWord)
  else if (length buf =? 4)%nat then Ok (Status (KmState_from_u32 (of_le buf)))
  else Ok (Echo buf).

(** What [encode] asserts of its fields. *)
Definition KmMessage_wf (m : KmMessage) : Prop :=
  length (km_salt m) = KM_SALT_LEN /\
  length (km_wrapped m) =
    (WRAP_ICV_LEN + KmKeys_count (km_keys m) * KeyLength_bytes (km_key_len m))%nat.

(** ** Lemmas *)

Lemma KeyLength_from_to k : KeyLength_from_bytes (KeyLength_bytes k) = Some k.
Proof. by destruct k. Qed.

Lemma KeyLength_to_from n k : KeyLength_from_bytes n = Some k -> n = KeyLength_bytes k.
Proof. unfold KeyLength_from_bytes. intros. repeat case_if; to_prop; simplify_eq; done. Qed.

Lemma KeyLength_bytes_ok k : key_length_ok (KeyLength_bytes k).
Proof. unfold key_length_ok. destruct k; simpl; lia. Qed.

Lemma SecretKey_key_len_ok key k :
  length key = KeyLength_bytes k -> SecretKey_key_len key = Ret k.
Proof. unfold SecretKey_key_len. intros ->. by rewrite KeyLength_from_to. Qed.

Lemma CtrCipher_new_ok key k :
  length key = KeyLength_bytes k -> CtrCipher_new key = Ret (mkCtrCipher key).
Proof. intros H. unfold CtrCipher_new. by rewrite (SecretKey_key_len_ok key k). Qed.

Section Laws.
Context `{CryptoLaws}.

Lemma derive_kek_ok pw salt k :
  length salt = 16%nat -> exists kek, derive_kek pw salt k = Ret kek /\ length kek = KeyLength_bytes k.
Proof.
  intros Hs. unfold derive_kek. rewrite slice_ret by lia. cbn [mbind panicking_bind].
  eexists. split; [done|]. apply length_pbkdf2.
Qed.

Lemma xor_keystream_involutive key iv p : xor_keystream key iv (xor_keystream key iv p) = p.
Proof.
  unfold xor_keystream. rewrite length_zip_with, length_keystream, Nat.min_id.
  pose proof (length_keystream key iv (length p)) as Hk.
  revert Hk. generalize (ctr128be_keystream key iv (length p)). clear.
  induction p as [|b p IH]; intros [|k ks] Hk; simpl in *; try done.
  rewrite Z.lxor_assoc, Z.lxor_nilpotent, Z.lxor_0_r. f_equal. apply IH. lia.
Qed.

Lemma length_apply_keystream c salt seq p :
  length (CtrCipher_apply_keystream c salt seq p) = length p.
Proof.
  unfold CtrCipher_apply_keystream, xor_keystream.
  by rewrite length_zip_with, length_keystream, Nat.min_id.
Qed.

Lemma apply_keystream_involutive c salt seq p :
  CtrCipher_apply_keystream c salt seq (CtrCipher_apply_keystream c salt seq p) = p.
Proof. apply xor_keystream_involutive. Qed.

Lemma wrap_unwrap kek k p :
  length kek = KeyLength_bytes k -> (16 <= length p)%nat -> (length p mod 8 = 0)%nat ->
  exists w, wrap_key kek p = Ret w /\ length w = (length p + 8)%nat /\ unwrap_key kek w = pok p.
Proof.
  intros Hk Hp Hmod. unfold wrap_key, unwrap_key. rewrite (SecretKey_key_len_ok kek k) by done.
  destruct (kw_wrap_ok kek p) as (w & -> & Hw & Hu); [|destruct p; [simpl in Hp; lia|done]|done|].
  { rewrite Hk. apply KeyLength_bytes_ok. }
  exists w. split; [done|]. split; [done|]. rewrite Hw.
  destruct (Nat.ltb_spec (length p + 8) 24); [lia|].
  replace ((length p + 8) mod 8)%nat with 0%nat.
  2: { rewrite <- (Nat.Div0.add_mod_idemp_l), Hmod. done. }
  cbn. by rewrite Hu.
Qed.

Lemma unwrap_key_returns kek k w :
  length kek = KeyLength_bytes k ->
  exists r, unwrap_key kek w = Ret r /\
    match r with Ok p => (length p + 8 = length w)%nat | Err _ => True end.
Proof.
  intros Hk. unfold unwrap_key. case_if; [by eexists|].
  rewrite (SecretKey_key_len_ok kek k) by done. cbn [mbind panicking_bind].
  destruct (kw_unwrap kek w) eqn:E; eexists; (split; [done|]); [|done].
  by apply length_kw_unwrap in E.
Qed.

End Laws.

Lemma KmMessage_parse_encode m : KmMessage_wf m -> KmMessage_parse (KmMessage_encode m) = pok m.
Proof.
  destruct m as [keys kl salt wrapped]. intros [Hs Hw]. cbn [km_salt km_wrapped km_keys km_key_len] in *.
  unfold KmMessage_encode, KmMessage_parse. cbn [km_salt km_wrapped km_keys km_key_len].
  set (hdr := [0x12] ++ KM_SIGN ++ [KmKeys_bits keys] ++ [0; 0; 0; 0] ++ [2] ++ [0] ++ [2] ++ [0] ++
    [0; 0] ++ [as_u8 (Z.of_nat (KM_SALT_LEN / 4))] ++
    [as_u8 (Z.of_nat (KeyLength_bytes kl / 4))]).
  replace ([0x12] ++ _) with (hdr ++ salt ++ wrapped) by done.
  assert (Hlen : length (hdr ++ salt ++ wrapped) = (32 + length wrapped)%nat)
    by (rewrite !length_app, Hs; done).
  assert (Hidx : forall i b, hdr !! i = Some b -> index (hdr ++ salt ++ wrapped) i = Ret b).
  { intros i b Hi. unfold index. by rewrite (lookup_app_l_Some _ _ _ _ Hi). }
  rewrite Hlen. destruct (Nat.leb_spec (32 + length wrapped) KM_HEADER_LEN) as [Hl|_];
    [unfold KM_HEADER_LEN in Hl; lia|].
  rewrite (Hidx 15%nat (as_u8 (Z.of_nat (KeyLength_bytes kl / 4)))) by done.
  rewrite (Hidx 0%nat 0x12), (Hidx 10%nat 2), (Hidx 14%nat 4), (Hidx 8%nat 2), (Hidx 9%nat 0),
    (Hidx 3%nat (KmKeys_bits keys)) by done.
  assert (Hsek : (Z.to_nat (as_u8 (Z.of_nat (KeyLength_bytes kl / 4))) * 4)%nat = KeyLength_bytes kl)
    by (by destruct kl).
  cbn [mbind panicking_bind]. rewrite Hsek.
  replace (slice (hdr ++ salt ++ wrapped) 1 3) with (Ret KM_SIGN).
  2: { symmetry. rewrite slice_ret by (rewrite ?Hlen; lia). done. }
  rewrite KeyLength_from_to. change (Z.to_nat 4 * 4)%nat with KM_SALT_LEN.
  rewrite (slice_mid hdr salt wrapped 16 32) by (done || by rewrite Hs).
  replace (slice (hdr ++ salt ++ wrapped) 32 (32 + length wrapped)) with (Ret wrapped).
  2: { symmetry. rewrite app_assoc. apply slice_tail; [by rewrite length_app, Hs|done]. }
  cbv zeta. replace (if Z.land (KmKeys_bits keys) 3 =? 1 then _ else _)
    with (pok keys : presult CryptoError KmKeys) by (by destruct keys).
  cbn [mbind panicking_bind pok qbind].
  replace (32 + length wrapped =? KM_HEADER_LEN + KM_SALT_LEN + WRAP_ICV_LEN +
    KmKeys_count keys * KeyLength_bytes kl)%nat with true.
  2: { symmetry. apply Nat.eqb_eq. rewrite Hw. unfold KM_HEADER_LEN, KM_SALT_LEN, WRAP_ICV_LEN. lia. }
  rewrite bool_decide_true by done. by destruct kl.
Qed.

(** Whatever parses has the lengths its fields say. *)
Lemma KmMessage_parse_ok buf :
  exists r, KmMessage_parse buf = Ret r /\
    match r with Ok m => KmMessage_wf m | Err _ => True end.
Proof.
  unfold KmMessage_parse. destruct (Nat.leb_spec (length buf) KM_HEADER_LEN) as [|Hlen];
    [by eexists|]. unfold KM_HEADER_LEN in *.
  assert (Hidx : forall i, (i <= 16)%nat -> exists b, index buf i = Ret b).
  { intros i Hi. unfold index. destruct (lookup_lt_is_Some_2 buf i) as [b ->]; [lia|]. by exists b. }
  destruct (Hidx 15%nat ltac:(lia)) as [b15 ->], (Hidx 0%nat ltac:(lia)) as [b0 ->],
    (Hidx 10%nat ltac:(lia)) as [b10 ->], (Hidx 3%nat ltac:(lia)) as [b3 ->],
    (Hidx 14%nat ltac:(lia)) as [b14 ->], (Hidx 8%nat ltac:(lia)) as [b8 ->],
    (Hidx 9%nat ltac:(lia)) as [b9 ->].
  rewrite (slice_ret buf 1 3) by lia. cbn [mbind panicking_bind].
  repeat (case_if; [by eexists|]).
  assert (Hk : forall (k : KmKeys -> presult CryptoError KmMessage),
    (forall keys, exists r, k keys = Ret r /\ match r with Ok m => KmMessage_wf m | Err _ => True end) ->
    exists r, qbind (let kk := Z.land b3 3 in
      if kk =? 1 then pok KmEven else if kk =? 2 then pok KmOdd
      else if kk =? 3 then pok KmBoth else perr (BadKmMessage KmCarriesNoKey)) k = Ret r /\
      match r with Ok m => KmMessage_wf m | Err _ => True end).
  { intros k Hk. cbv zeta. repeat case_if; cbn [qbind]; try apply Hk. by eexists. }
  apply Hk. intros keys. repeat (case_if; [by eexists|]).
  destruct (KeyLength_from_bytes (Z.to_nat b15 * 4)) as [kl|] eqn:Hkl; [|by eexists].
  apply KeyLength_to_from in Hkl. repeat (case_if; [by eexists|]). to_prop.
  unfold KM_SALT_LEN, WRAP_ICV_LEN in *.
  rewrite !slice_ret by lia. cbn [mbind panicking_bind]. eexists. split; [done|].
  unfold KmMessage_wf, KM_SALT_LEN, WRAP_ICV_LEN. cbn [km_salt km_wrapped km_keys km_key_len].
  rewrite !length_take, !length_drop. lia.
Qed.

(** ** Counter blocks *)

Lemma of_be_app l1 l2 : of_be (l1 ++ l2) = of_be l1 * 2 ^ (8 * Z.of_nat (length l2)) + of_be l2.
Proof.
  induction l2 as [|b l2 IH] using rev_ind.
  - rewrite app_nil_r. simpl. change (of_be []) with 0. lia.
  - rewrite app_assoc, !of_be_snoc, IH, length_app. simpl (length [b]).
    replace (8 * Z.of_nat (length l2 + 1)) with (8 * Z.of_nat (length l2) + 8) by lia.
    rewrite Z.pow_add_r by lia. lia.
Qed.

Lemma lxor_u8 a b : is_u8 a -> is_u8 b -> is_u8 (Z.lxor a b).
Proof.
  unfold is_u8. intros Ha Hb. assert (0 <= Z.lxor a b) by (apply Z.lxor_nonneg; lia).
  split; [done|]. destruct (Z.eq_dec (Z.lxor a b) 0) as [->|]; [lia|].
  apply Z.log2_lt_pow2; [lia|].
  pose proof (Z.log2_lxor a b ltac:(lia) ltac:(lia)).
  assert (forall x, 0 <= x < 2 ^ 8 -> Z.log2 x < 8) as Hlog.
  { intros x Hx. destruct (Z.eq_dec x 0) as [->|]; [done|]. apply Z.log2_lt_pow2; lia. }
  pose proof (Hlog a Ha). pose proof (Hlog b Hb). lia.
Qed.

Lemma zip_lxor_inj a b s :
  length a = length s -> length b = length s ->
  zip_with Z.lxor a s = zip_with Z.lxor b s -> a = b.
Proof.
  revert b s. induction a as [|x a IH]; intros [|y b] [|z s] Ha Hb Heq; simpl in *; try done.
  injection Heq as Hx Hr. f_equal; [|apply (IH b s); [lia|lia|done]].
  rewrite <- (Z.lxor_0_r x), <- (Z.lxor_0_r y), <- (Z.lxor_nilpotent z), <- !Z.lxor_assoc. congruence.
Qed.

Lemma zip_lxor_bytes a s :
  Forall is_u8 a -> Forall is_u8 s -> Forall is_u8 (zip_with Z.lxor a s).
Proof.
  intros Ha. revert s. induction Ha as [|x a Hx Ha IH]; intros [|z s] Hs; simpl; constructor.
  - apply Forall_cons in Hs as [Hz _]. by apply lxor_u8.
  - apply Forall_cons in Hs as [_ Hs]. by apply IH.
Qed.

Lemma of_be_inj a b :
  Forall is_u8 a -> Forall is_u8 b -> length a = length b -> of_be a = of_be b -> a = b.
Proof.
  intros Ha Hb Hlen Heq. rewrite <- (to_be_of_be a), <- (to_be_of_be b) by done. congruence.
Qed.

(** The counter block as a 112-bit nonce and a 16-bit block counter at 0. *)
Lemma counter_block_split salt seq :
  length salt = 16%nat ->
  counter_block salt seq =
  zip_with Z.lxor (replicate 10 0 ++ to_be 4 seq) (take 14 salt) ++ [0; 0].
Proof.
  intros Hs. unfold counter_block. rewrite app_assoc.
  rewrite take_app_length', drop_app_length' by done. done.
Qed.

(** ** Properties *)

(** KM messages round-trip on the wire. *)
Theorem km_message_parse_encode (m : KmMessage) :
  KmMessage_wf m -> KmMessage_parse (KmMessage_encode m) = pok m.
Proof. apply KmMessage_parse_encode. Qed.

Lemma km_message_parse_encode_witness :
  let m := mkKmMessage KmBoth Aes192 (replicate 16 3) (replicate 56 9) in
  KmMessage_parse (KmMessage_encode m) = pok m.
Proof. apply km_message_parse_encode. split; reflexivity. Defined.

(** [KmMessage::parse] never panics, and whatever it accepts has a
    16-byte salt and a wrap of exactly the length its KK and KLen fields
    announce. *)
Theorem km_message_parse_checked (buf : bytes) :
  exists r, KmMessage_parse buf = Ret r /\
    match r with Ok m => KmMessage_wf m | Err _ => True end.
Proof. apply KmMessage_parse_ok. Qed.

(** no keystream block is used twice under one key and salt: the AES
    input blocks of two packets with different sequence words are all
    different, for payloads of up to [2^16] blocks (1 MiB; SRT payloads
    have at most 91), the block number being added to the counter block as
    a big-endian 128-bit integer. *)
Theorem counter_blocks_never_overlap (salt : bytes) (seq1 seq2 i j : Z) :
  length salt = 16%nat -> Forall is_u8 salt -> is_u32 seq1 -> is_u32 seq2 ->
  0 <= i < 2 ^ 16 -> 0 <= j < 2 ^ 16 ->
  (seq1, i) <> (seq2, j) ->
  of_be (counter_block salt seq1) + i <> of_be (counter_block salt seq2) + j.
Proof.
  intros Hlen Hs H1 H2 Hi Hj Hne. rewrite !counter_block_split, !of_be_app by done.
  change (of_be [0; 0]) with 0. change (8 * Z.of_nat (length [0; 0])) with 16.
  intros Heq. apply Hne.
  assert (Hu : forall s, Forall is_u8 (replicate 10 0 ++ to_be 4 s)).
  { intros s. apply Forall_app. split; [|apply to_be_bytes]. apply Forall_replicate. unfold is_u8. lia. }
  assert (Ht : Forall is_u8 (take 14 salt)) by (by apply Forall_take).
  assert (Hn : of_be (zip_with Z.lxor (replicate 10 0 ++ to_be 4 seq1) (take 14 salt)) =
               of_be (zip_with Z.lxor (replicate 10 0 ++ to_be 4 seq2) (take 14 salt))) by lia.
  f_equal; [|lia].
  assert (Hl : forall s, length (replicate 10 0 ++ to_be 4 s) = length (take 14 salt)).
  { intros s. rewrite length_app, length_to_be, length_take, Hlen. done. }
  apply of_be_inj in Hn; [|by apply zip_lxor_bytes..|by rewrite !length_zip_with, !Hl].
  apply zip_lxor_inj in Hn; [|done..]. apply app_inv_head in Hn.
  rewrite <- (of_be_to_be 4 seq1), <- (of_be_to_be 4 seq2) by done. congruence.
Qed.

Lemma counter_blocks_never_overlap_witness :
  of_be (counter_block (replicate 16 0xA5) 7) + 90 <>
  of_be (counter_block (replicate 16 0xA5) 0x7FFFFFFF) + 3.
Proof.
  apply (counter_blocks_never_overlap (replicate 16 0xA5) 7 0x7FFFFFFF 90 3);
    try (split; reflexivity || discriminate); try reflexivity; try discriminate.
  apply Forall_replicate. split; [discriminate | reflexivity].
Defined.
