(* ===== verification/CryptoContext.v ===== *)
(** * Per-connection encryption engine: [src/crypto/context.rs]

    Installed keys, the key-material exchange, and the key refresh machine.
    Bytes drawn from the OS random generator are the arguments [rnd] (a
    request of [n] bytes gets [rnd n]). *)

From S2P Require Import Prelude PacketTypes PacketData CryptoKeys.

(** ** Data *)

Definition KM_MAX_RETRY : Z := 10.

(** Slot indices [0]/[1] of the two-element arrays; [active ^ 1] is [alt]. *)
Inductive Slot := EVEN | ODD.

#[export] Instance Slot_eq_dec : EqDecision Slot.
Proof. solve_decision. Defined.

Definition alt (s : Slot) : Slot := match s with EVEN => ODD | ODD => EVEN end.

Definition slot_get {A} (p : A * A) (s : Slot) : A := match s with EVEN => fst p | ODD => snd p end.

Definition slot_set {A} (p : A * A) (s : Slot) (v : A) : A * A :=
  match s with EVEN => (v, snd p) | ODD => (fst p, v) end.

Record CryptoConfig := mkCryptoConfig {
  cc_passphrase : bytes;
  cc_key_len : KeyLength;
  cc_km_refresh_rate : Z;
  cc_km_preannounce : Z
}.

#[export] Instance CryptoConfig_eta : Etable CryptoConfig := fun c =>
  mkCryptoConfig (cc_passphrase c) (cc_key_len c) (cc_km_refresh_rate c) (cc_km_preannounce c).

Inductive KmReqOutcome := Installed | KmReqFailed (state : KmState).

Inductive KmRspOutcome := Confirmed | KmRspFailed (state : KmState) | Ignored.

Inductive TxKeyState := Active | Announced | Deprecated.

#[export] Instance TxKeyState_eq_dec : EqDecision TxKeyState.
Proof. solve_decision. Defined.

Record TxKey := mkTxKey {
  tk_key : SecretKey;
  tk_cipher : CtrCipher;
  tk_pkt_cnt : Z;
  tk_state : TxKeyState
}.

#[export] Instance TxKey_eta : Etable TxKey := fun k =>
  mkTxKey (tk_key k) (tk_cipher k) (tk_pkt_cnt k) (tk_state k).

Record OutstandingKmReq := mkOutstandingKmReq {
  ok_blob : bytes;
  ok_retries : Z;
  ok_last_send : option Z
}.

#[export] Instance OutstandingKmReq_eta : Etable OutstandingKmReq := fun o =>
  mkOutstandingKmReq (ok_blob o) (ok_retries o) (ok_last_send o).

Record Crypto := mkCrypto {
  cr_cfg : CryptoConfig;
  cr_salt : bytes;
  cr_kek : bytes;
  cr_tx : option TxKey * option TxKey;
  cr_active : Slot;
  cr_rx : option CtrCipher * option CtrCipher;
  cr_rx_salt : bytes;
  cr_rx_kek : option bytes;
  cr_snd_state : KmState;
  cr_rcv_state : KmState;
  cr_outstanding : option OutstandingKmReq;
  cr_key_switches : Z
}.

#[export] Instance Crypto_eta : Etable Crypto := fun c =>
  mkCrypto (cr_cfg c) (cr_salt c) (cr_kek c) (cr_tx c) (cr_active c) (cr_rx c) (cr_rx_salt c)
    (cr_rx_kek c) (cr_snd_state c) (cr_rcv_state c) (cr_outstanding c) (cr_key_switches c).

(** ** Operations *)

Section Operations.
Context `{CryptoPrimitives}.

(** [random_salt] and [SecretKey::generate]: bytes filled by the OS. *)
Definition random_salt (rnd : nat -> bytes) : bytes := rnd 16%nat.

Definition SecretKey_generate (rnd : nat -> bytes) (len : KeyLength) : SecretKey :=
  rnd (KeyLength_bytes len).

Definition parse_kmreq (buf : bytes) : presult KmState KmMessage :=
  if (length buf <=? KM_HEADER_LEN)%nat then perr BadSecret else
  b15 ← index buf 15;
  if b15 =? 0 then perr BadSecret else
  m ← KmMessage_parse buf;
  match m with
  | Ok msg => pok msg
  | Err _ => perr NoSecret
  end.

(** [slice::split_at] panics past the end. *)
Definition split_at (l : bytes) (n : nat) : panicking (bytes * bytes) :=
  if (n <=? length l)%nat then Ret (take n l, drop n l) else Panic.

Definition split_seks (msg : KmMessage) (sek : SecretKey)
    : panicking (option SecretKey * option SecretKey) :=
  match km_keys msg with
  | KmEven => Ret (Some sek, None)
  | KmOdd => Ret (None, Some sek)
  | KmBoth =>
      eo ← split_at sek (KeyLength_bytes (km_key_len msg));
      Ret (Some (fst eo), Some (snd eo))
  end.

Definition Crypto_new_initiator (cfg : CryptoConfig) (rnd_salt rnd_sek : nat -> bytes)
    : panicking Crypto :=
  let salt := random_salt rnd_salt in
  kek ← derive_kek (cc_passphrase cfg) salt (cc_key_len cfg);
  let sek := SecretKey_generate rnd_sek (cc_key_len cfg) in
  cipher ← CtrCipher_new sek;
  wrapped ← wrap_key kek sek;
  let blob := KmMessage_encode (mkKmMessage KmEven (cc_key_len cfg) salt wrapped) in
  Ret (mkCrypto cfg salt kek (Some (mkTxKey sek cipher 1 Active), None) EVEN (Some cipher, None)
    salt None Securing Unsecured (Some (mkOutstandingKmReq blob KM_MAX_RETRY None)) 0).

(** One round of the install loop of [new_responder]. *)
Definition responder_slot (active slot : Slot) (key : option SecretKey)
    : panicking (option TxKey * option CtrCipher) :=
  match key with
  | None => Ret (None, None)
  | Some key =>
      cipher ← CtrCipher_new key;
      Ret (Some (mkTxKey key cipher (if decide (slot = active) then 1 else 0)
                   (if decide (slot = active) then Active else Announced)),
           Some cipher)
  end.

Definition Crypto_new_responder (cfg : CryptoConfig) (kmreq : bytes) : presult KmState Crypto :=
  msg ←? parse_kmreq kmreq;
  let cfg := cfg <| cc_key_len := km_key_len msg |> in
  kek ← derive_kek (cc_passphrase cfg) (km_salt msg) (km_key_len msg);
  unwrapped ← unwrap_key kek (km_wrapped msg);
  match unwrapped with
  | Err WrongSecret => perr BadSecret
  | Err _ => perr NoSecret
  | Ok sek =>
      seks ← split_seks msg sek;
      let active := match fst seks with Some _ => EVEN | None => ODD end in
      even ← responder_slot active EVEN (fst seks);
      odd ← responder_slot active ODD (snd seks);
      pok (mkCrypto cfg (km_salt msg) kek (fst even, fst odd) active (snd even, snd odd)
        (km_salt msg) None Secured Secured (Some (mkOutstandingKmReq kmreq 0 None)) 0)
  end.

Definition Crypto_kmreq (c : Crypto) : option bytes := ok_blob <$> cr_outstanding c.

Definition Crypto_encrypt (c : Crypto) (seq : Z) (payload : bytes)
    : panicking (Crypto * bytes * EncryptionFlags) :=
  slot ← expect (slot_get (cr_tx c) (cr_active c));
  let payload := CtrCipher_apply_keystream (tk_cipher slot) (cr_salt c) seq payload in
  let slot := slot <| tk_pkt_cnt := as_u32 (tk_pkt_cnt slot + 1) |> in
  let c := c <| cr_tx := slot_set (cr_tx c) (cr_active c) (Some slot) |> in
  Ret (c, payload, if decide (cr_active c = EVEN) then EncEven else EncOdd).

Definition Crypto_decrypt (c : Crypto) (seq : Z) (kk : EncryptionFlags) (payload : bytes)
    : Crypto * result CryptoError unit * bytes :=
  match (match kk with EncNone => None | EncEven => Some EVEN | EncOdd | EncBoth => Some ODD end) with
  | None => (c, Err NoKey, payload)
  | Some slot =>
      if decide (cr_rcv_state c = Unsecured)
      then (c <| cr_rcv_state := Securing |>, Err NoKey, payload) else
      if decide (cr_rcv_state c <> Secured) then (c, Err NoKey, payload) else
      match slot_get (cr_rx c) slot with
      | None => (c, Err NoKey, payload)
      | Some cipher => (c, Ok tt, CtrCipher_apply_keystream cipher (cr_rx_salt c) seq payload)
      end
  end.

Definition Crypto_tick_refresh (c : Crypto) (rnd : nat -> bytes) : panicking (Crypto * option bytes) :=
  let rr := cc_km_refresh_rate (cr_cfg c) in
  let pa := cc_km_preannounce (cr_cfg c) in
  active_key ← expect (slot_get (cr_tx c) (cr_active c));
  let cnt := tk_pkt_cnt active_key in
  let alt_slot := alt (cr_active c) in
  let alt_state := tk_state <$> slot_get (cr_tx c) alt_slot in
  if (saturating_sub rr pa <? cnt) && bool_decide (alt_state <> Some Announced) then
    let key := SecretKey_generate rnd (cc_key_len (cr_cfg c)) in
    cipher ← CtrCipher_new key;
    let c := c <| cr_tx := slot_set (cr_tx c) alt_slot (Some (mkTxKey key cipher 0 Announced)) |> in
    even ← expect (fst (cr_tx c));
    odd ← expect (snd (cr_tx c));
    wrapped ← wrap_key (cr_kek c) (tk_key even ++ tk_key odd);
    Ret (c, Some (KmMessage_encode
      (mkKmMessage KmBoth (cc_key_len (cr_cfg c)) (cr_salt c) wrapped)))
  else if ((rr <? cnt) || (cnt =? 0)) && bool_decide (alt_state = Some Announced) then
    alt_key ← expect (slot_get (cr_tx c) alt_slot);
    let tx := slot_set (cr_tx c) (cr_active c) (Some (active_key <| tk_state := Deprecated |>)) in
    let tx := slot_set tx alt_slot (Some (alt_key <| tk_state := Active |>)) in
    Ret (c <| cr_tx := tx |> <| cr_active := alt_slot |>
           <| cr_key_switches := cr_key_switches c + 1 |>, None)
  else if bool_decide (alt_state = Some Deprecated) && (pa <? cnt) then
    Ret (c <| cr_tx := slot_set (cr_tx c) alt_slot None |>, None)
  else Ret (c, None).

Definition Crypto_on_ack (c : Crypto) (now srtt_us : Z) (rnd : nat -> bytes)
    : panicking (Crypto * option bytes) :=
  if decide (cr_snd_state c = Unsecured) then Ret (c, None) else
  r ← Crypto_tick_refresh c rnd;
  let '(c, refresh) := r in
  match refresh with
  | Some blob =>
      Ret (c <| cr_outstanding := Some (mkOutstandingKmReq blob KM_MAX_RETRY (Some now)) |>, Some blob)
  | None =>
      match cr_outstanding c with
      | None => Ret (c, None)
      | Some out =>
          if ok_retries out =? 0 then Ret (c, None) else
          let pace := from_micros (srtt_us * 3 / 2) in
          if (match ok_last_send out with Some last => now <? last + pace | None => false end)
          then Ret (c, None) else
          let out := out <| ok_retries := ok_retries out - 1 |> <| ok_last_send := Some now |> in
          Ret (c <| cr_outstanding := Some out |>, Some (ok_blob out))
      end
  end.

Definition install_slot (old : option CtrCipher) (key : option SecretKey) : panicking (option CtrCipher) :=
  match key with
  | Some key => cipher ← CtrCipher_new key; Ret (Some cipher)
  | None => Ret old
  end.

Definition Crypto_install_rx (c : Crypto) (msg : KmMessage)
    : panicking (Crypto * result CryptoError unit) :=
  let current := default (cr_kek c) (cr_rx_kek c) in
  fresh ← (if bool_decide (km_salt msg <> cr_rx_salt c) ||
              negb (KeyLength_bytes (km_key_len msg) =? length current)%nat
           then kek ← derive_kek (cc_passphrase (cr_cfg c)) (km_salt msg) (km_key_len msg);
                Ret (Some kek)
           else Ret None);
  unwrapped ← unwrap_key (default current fresh) (km_wrapped msg);
  match unwrapped with
  | Err err => Ret (c, Err err)
  | Ok sek =>
      seks ← split_seks msg sek;
      even ← install_slot (fst (cr_rx c)) (fst seks);
      odd ← install_slot (snd (cr_rx c)) (snd seks);
      let c := c <| cr_rx := (even, odd) |> in
      let c := match fresh with Some _ => c <| cr_rx_kek := fresh |> | None => c end in
      Ret (c <| cr_rx_salt := km_salt msg |>, Ok tt)
  end.

Definition Crypto_handle_kmreq (c : Crypto) (payload : bytes) : panicking (Crypto * KmReqOutcome) :=
  parsed ← parse_kmreq payload;
  match parsed with
  | Err state =>
      let c := c <| cr_rcv_state := state |> in
      let c := if decide (state = NoSecret) then c <| cr_snd_state := NoSecret |> else c in
      Ret (c, KmReqFailed state)
  | Ok msg =>
      r ← Crypto_install_rx c msg;
      match r with
      | (c, Ok _) => Ret (c <| cr_rcv_state := Secured |>, Installed)
      | (c, Err WrongSecret) =>
          Ret (c <| cr_snd_state := BadSecret |> <| cr_rcv_state := BadSecret |>, KmReqFailed BadSecret)
      | (c, Err _) =>
          Ret (c <| cr_snd_state := NoSecret |> <| cr_rcv_state := NoSecret |>, KmReqFailed NoSecret)
      end
  end.

Definition Crypto_peer_km_failure (c : Crypto) (reported : option KmState) : Crypto * KmRspOutcome :=
  let c := c <| cr_outstanding := (fun out => out <| ok_retries := 0 |>) <$> cr_outstanding c |> in
  let '(snd, rcv, outcome) :=
    match reported with
    | Some BadSecret => (BadSecret, BadSecret, BadSecret)
    | Some NoSecret => (NoSecret, Unsecured, NoSecret)
    | Some Unsecured => (Unsecured, NoSecret, Unsecured)
    | _ => (NoSecret, NoSecret, NoSecret)
    end in
  (c <| cr_snd_state := snd |> <| cr_rcv_state := rcv |>, KmRspFailed outcome).

Definition Crypto_handle_kmrsp (c : Crypto) (payload : bytes) : Crypto * KmRspOutcome :=
  match KmResponse_parse payload with
  | Err _ => (c, Ignored)
  | Ok (Status state) => Crypto_peer_km_failure c state
  | Ok (Echo echo) =>
      match cr_outstanding c with
      | Some out =>
          if decide (ok_blob out = echo)
          then (c <| cr_outstanding := None |> <| cr_snd_state := Secured |>
                  <| cr_rcv_state := Secured |>, Confirmed)
          else (c, Ignored)
      | None => (c, Ignored)
      end
  end.

End Operations.

(** ** Invariant *)

Definition TxKey_wf (kl : KeyLength) (k : TxKey) : Prop :=
  length (tk_key k) = KeyLength_bytes kl /\ tk_cipher k = mkCtrCipher (tk_key k) /\
  is_u32 (tk_pkt_cnt k).

Definition Crypto_wf (c : Crypto) : Prop :=
  length (cr_salt c) = 16%nat /\ length (cr_rx_salt c) = 16%nat /\
  length (cr_kek c) = KeyLength_bytes (cc_key_len (cr_cfg c)) /\
  (forall kek, cr_rx_kek c = Some kek -> exists kl, length kek = KeyLength_bytes kl) /\
  (forall s k, slot_get (cr_tx c) s = Some k -> TxKey_wf (cc_key_len (cr_cfg c)) k) /\
  (exists k, slot_get (cr_tx c) (cr_active c) = Some k /\ tk_state k = Active) /\
  (forall k, slot_get (cr_tx c) (alt (cr_active c)) = Some k -> tk_state k <> Active).

Definition rnd_ok (rnd : nat -> bytes) : Prop := forall n, length (rnd n) = n.

(** ** Two ends of one direction *)

Section Sync.
Context `{CryptoPrimitives}.

(** [blob] is a KM message that carries [seks] under [kek]. *)
Definition km_blob (kek salt : bytes) (kl : KeyLength) (blob : bytes)
    (seks : option SecretKey * option SecretKey) : Prop :=
  exists keys wrapped plain,
    let m := mkKmMessage keys kl salt wrapped in
    KmMessage_wf m /\ blob = KmMessage_encode m /\ unwrap_key kek wrapped = pok plain /\
    split_seks m plain = Ret seks /\
    forall s key, slot_get seks s = Some key -> length key = KeyLength_bytes kl.

(** The KMREQ that may still be resent carries no key other than the ones in
    the send slots. *)
Definition outstanding_ok (c : Crypto) : Prop :=
  forall o, cr_outstanding c = Some o -> ok_retries o <> 0 ->
  exists seks, km_blob (cr_kek c) (cr_salt c) (cc_key_len (cr_cfg c)) (ok_blob o) seks /\
    forall s k key, slot_get (cr_tx c) s = Some k -> slot_get seks s = Some key -> tk_key k = key.

(** The receiver [r] holds every key the sender [s] may encrypt with. *)
Definition in_sync (s r : Crypto) : Prop :=
  cr_rx_salt r = cr_salt s /\ cr_rcv_state r = Secured /\
  default (cr_kek r) (cr_rx_kek r) = cr_kek s /\
  forall slot k, slot_get (cr_tx s) slot = Some k -> slot_get (cr_rx r) slot = Some (tk_cipher k).

End Sync.

(** Events on the sending side between two of which nothing else happens:
    a payload is encrypted, or an ACK drives the refresh machine. *)
Inductive crypto_event :=
| EvEncrypt (seq : Z) (payload : bytes)
| EvAck (now srtt_us : Z) (rnd : nat -> bytes).

Fixpoint run_crypto `{CryptoPrimitives} (c : Crypto) (evs : list crypto_event) : panicking Crypto :=
  match evs with
  | [] => Ret c
  | EvEncrypt seq payload :: r => x ← Crypto_encrypt c seq payload; run_crypto (fst (fst x)) r
  | EvAck now srtt rnd :: r => x ← Crypto_on_ack c now srtt rnd; run_crypto (fst x) r
  end.

(** At most [m] encryptions in a row without an ACK, [n] of them already done. *)
Fixpoint acked_every (m n : Z) (evs : list crypto_event) : Prop :=
  match evs with
  | [] => True
  | EvEncrypt _ _ :: r => n < m /\ acked_every m (n + 1) r
  | EvAck _ _ rnd :: r => rnd_ok rnd /\ acked_every m 0 r
  end.

Definition active_count (c : Crypto) : Z :=
  match slot_get (cr_tx c) (cr_active c) with Some k => tk_pkt_cnt k | None => 0 end.

(** An engine no data has gone through: its first key is in use, no other is
    announced, and its refresh settings are those of [cfg]. *)
Definition fresh_engine (cfg : CryptoConfig) (c : Crypto) : Prop :=
  slot_get (cr_tx c) (alt (cr_active c)) = None /\ active_count c = 1 /\
  cc_km_refresh_rate (cr_cfg c) = cc_km_refresh_rate cfg /\ cc_km_preannounce (cr_cfg c) = cc_km_preannounce cfg.

(** ** Lemmas *)

Lemma alt_alt s : alt (alt s) = s.
Proof. by destruct s. Qed.

Lemma slot_get_set {A} (p : A * A) s v s' :
  slot_get (slot_set p s v) s' = if decide (s = s') then v else slot_get p s'.
Proof. by destruct s, s', p. Qed.

Lemma slot_cases (a s : Slot) : s = a \/ s = alt a.
Proof. destruct a, s; auto. Qed.

Lemma alt_ne s : s <> alt s.
Proof. by destruct s. Qed.

(** Rewrites look-ups in updated slots. *)
Ltac slots :=
  repeat first
    [ rewrite slot_get_set in *
    | rewrite decide_True in * by done
    | rewrite decide_False in * by (done || (by apply alt_ne) || (by apply not_eq_sym, alt_ne)) ].

Section Lemmas.
Context `{CryptoLaws}.

Lemma Crypto_encrypt_ok c seq p :
  Crypto_wf c ->
  exists k, slot_get (cr_tx c) (cr_active c) = Some k /\ tk_state k = Active /\
    let k' := k <| tk_pkt_cnt := as_u32 (tk_pkt_cnt k + 1) |> in
    let c' := c <| cr_tx := slot_set (cr_tx c) (cr_active c) (Some k') |> in
    Crypto_encrypt c seq p =
      Ret (c', CtrCipher_apply_keystream (tk_cipher k) (cr_salt c) seq p,
           if decide (cr_active c = EVEN) then EncEven else EncOdd) /\
    Crypto_wf c'.
Proof.
  intros (Hs & Hrs & Hkek & Hrk & Htx & (k & Hk & Hst) & Halt). exists k.
  split; [done|]. split; [done|]. cbv zeta. unfold Crypto_encrypt. rewrite Hk. split; [done|].
  unfold_set. unfold Crypto_wf. cbn [cr_salt cr_rx_salt cr_kek cr_cfg cr_rx_kek cr_tx cr_active].
  split_and!; try done.
  - intros s k' Hk'. destruct (slot_cases (cr_active c) s) as [-> | ->]; slots; simplify_eq.
    + destruct (Htx _ _ Hk) as (? & ? & _). split_and!; try done. apply as_u32_range.
    + by apply (Htx _ _ Hk').
  - eexists. slots. split; [done|]. done.
  - intros k'. slots. apply Halt.
Qed.

(** The KM message of a pre-announce carries both keys. *)
Lemma dual_km_blob kek salt kl e o :
  length kek = KeyLength_bytes kl -> length salt = 16%nat ->
  length e = KeyLength_bytes kl -> length o = KeyLength_bytes kl ->
  exists w, wrap_key kek (e ++ o) = Ret w /\
    km_blob kek salt kl (KmMessage_encode (mkKmMessage KmBoth kl salt w)) (Some e, Some o).
Proof.
  intros Hkek Hs He Ho.
  assert (Hpl : length (e ++ o) = (2 * KeyLength_bytes kl)%nat) by (rewrite length_app; lia).
  destruct (wrap_unwrap kek kl (e ++ o)) as (w & -> & Hw & Hu).
  { done. } { rewrite Hpl. destruct kl; simpl; lia. } { rewrite Hpl. by destruct kl. }
  eexists. split; [done|]. exists KmBoth, w, (e ++ o). cbv zeta. split_and!; try done.
  - split; [done|]. cbn [km_wrapped km_keys km_key_len KmKeys_count]. unfold WRAP_ICV_LEN. lia.
  - unfold split_seks, split_at. cbn [km_keys km_key_len]. rewrite Hpl.
    destruct (Nat.leb_spec (KeyLength_bytes kl) (2 * KeyLength_bytes kl)); [|lia].
    cbn [mbind panicking_bind fst snd]. by rewrite take_app_length', drop_app_length'.
  - intros [] ? [= <-]; done.
Qed.

(** The four outcomes of one evaluation of the refresh machine. *)
Lemma Crypto_tick_cases c rnd :
  Crypto_wf c -> rnd_ok rnd ->
  exists k, slot_get (cr_tx c) (cr_active c) = Some k /\
  let cnt := tk_pkt_cnt k in
  let rr := cc_km_refresh_rate (cr_cfg c) in
  let pa := cc_km_preannounce (cr_cfg c) in
  let alt_state := tk_state <$> slot_get (cr_tx c) (alt (cr_active c)) in
  let key := rnd (KeyLength_bytes (cc_key_len (cr_cfg c))) in
  let tx' := slot_set (cr_tx c) (alt (cr_active c)) (Some (mkTxKey key (mkCtrCipher key) 0 Announced)) in
  (saturating_sub rr pa < cnt /\ alt_state <> Some Announced /\
   exists e o blob, fst tx' = Some e /\ snd tx' = Some o /\
     km_blob (cr_kek c) (cr_salt c) (cc_key_len (cr_cfg c)) blob (Some (tk_key e), Some (tk_key o)) /\
     Crypto_tick_refresh c rnd = Ret (c <| cr_tx := tx' |>, Some blob)) \/
  ((rr < cnt \/ cnt = 0) /\
   exists ak, slot_get (cr_tx c) (alt (cr_active c)) = Some ak /\ tk_state ak = Announced /\
     Crypto_tick_refresh c rnd =
       Ret (c <| cr_tx := slot_set (slot_set (cr_tx c) (cr_active c) (Some (k <| tk_state := Deprecated |>)))
                            (alt (cr_active c)) (Some (ak <| tk_state := Active |>)) |>
              <| cr_active := alt (cr_active c) |> <| cr_key_switches := cr_key_switches c + 1 |>, None)) \/
  (alt_state = Some Deprecated /\ cnt <= saturating_sub rr pa /\
   Crypto_tick_refresh c rnd = Ret (c <| cr_tx := slot_set (cr_tx c) (alt (cr_active c)) None |>, None)) \/
  ((saturating_sub rr pa < cnt -> alt_state = Some Announced) /\
   (alt_state = Some Announced -> cnt <= rr) /\ Crypto_tick_refresh c rnd = Ret (c, None)).
Proof.
  intros (Hs & Hrs & Hkek & Hrk & Htx & (k & Hk & Hst) & Halt) Hrnd. exists k.
  split; [done|]. cbv zeta. unfold Crypto_tick_refresh. rewrite Hk. cbn [expect mbind panicking_bind].
  set (rr := cc_km_refresh_rate (cr_cfg c)). set (pa := cc_km_preannounce (cr_cfg c)).
  set (kl := cc_key_len (cr_cfg c)) in *.
  destruct (Z.ltb_spec (saturating_sub rr pa) (tk_pkt_cnt k)) as [Hcnt|Hcnt]; cbn [andb].
  - case_bool_decide as Hann.
    + left. split; [done|]. split; [done|].
      unfold SecretKey_generate. rewrite (CtrCipher_new_ok _ kl) by apply Hrnd.
      cbn [mbind panicking_bind]. unfold_set. cbn [cr_tx cr_kek cr_salt cr_cfg].
      set (key := rnd (KeyLength_bytes kl)).
      assert (exists e o, slot_set (cr_tx c) (alt (cr_active c))
          (Some (mkTxKey key (mkCtrCipher key) 0 Announced)) = (Some e, Some o) /\
        length (tk_key e) = KeyLength_bytes kl /\ length (tk_key o) = KeyLength_bytes kl)
        as (e & o & -> & He & Ho).
      { destruct (Htx _ _ Hk) as (Hlk & _).
        destruct (cr_active c), (cr_tx c) as [te to]; cbn in Hk |- *; subst;
          eexists _, _; (split; [done|]); split; try done; apply Hrnd. }
      cbn [fst snd expect mbind panicking_bind].
      destruct (dual_km_blob (cr_kek c) (cr_salt c) kl (tk_key e) (tk_key o)) as (w & -> & Hb); try done.
      cbn [mbind panicking_bind]. by eexists e, o, _.
    + cbn [andb]. destruct (slot_get (cr_tx c) (alt (cr_active c))) as [ak|] eqn:Hak;
        cbn [fmap option_fmap option_map] in *; [|done].
      assert (Haks : tk_state ak = Announced) by congruence.
      rewrite Haks. rewrite (bool_decide_true (Some Announced = Some Announced)) by done.
      rewrite (bool_decide_false (Some Announced = Some Deprecated)) by done. rewrite andb_true_r.
      destruct ((rr <? tk_pkt_cnt k) || (tk_pkt_cnt k =? 0)) eqn:Hsw.
      * right; left. split; [apply orb_true_iff in Hsw as [?|?]; to_prop; lia|].
        eexists; split_and!; done.
      * right; right; right. cbn [andb]. to_prop. split_and!; try done.
  - destruct (slot_get (cr_tx c) (alt (cr_active c))) as [ak|] eqn:Hak;
      cbn [fmap option_fmap option_map] in *.
    + destruct (tk_state ak) eqn:Haks.
      * by destruct (Halt _ eq_refl).
      * rewrite (bool_decide_true (Some Announced = Some Announced)) by done.
        rewrite (bool_decide_false (Some Announced = Some Deprecated)) by done. rewrite andb_true_r.
        destruct ((rr <? tk_pkt_cnt k) || (tk_pkt_cnt k =? 0)) eqn:Hsw.
        -- right; left. split; [apply orb_true_iff in Hsw as [?|?]; to_prop; lia|].
           eexists; split_and!; done.
        -- right; right; right. cbn [andb]. to_prop. split_and!; done || lia.
      * rewrite (bool_decide_false (Some Deprecated = Some Announced)) by done.
        rewrite (bool_decide_true (Some Deprecated = Some Deprecated)) by done. rewrite andb_false_r.
        destruct (Z.ltb_spec pa (tk_pkt_cnt k)); cbn [andb].
        -- right; right; left. done.
        -- right; right; right. split_and!; done || lia.
    + rewrite !(bool_decide_false (None = Some _)) by done. rewrite andb_false_r. cbn [andb].
      right; right; right. split_and!; done || lia.
Qed.

(** The fields of the invariant that the send slots do not touch. *)
Definition same_keys (c c' : Crypto) : Prop :=
  cr_cfg c' = cr_cfg c /\ cr_salt c' = cr_salt c /\ cr_kek c' = cr_kek c.

Lemma Crypto_wf_intro c c' :
  Crypto_wf c -> same_keys c c' -> cr_rx_salt c' = cr_rx_salt c -> cr_rx_kek c' = cr_rx_kek c ->
  (forall s k, slot_get (cr_tx c') s = Some k -> TxKey_wf (cc_key_len (cr_cfg c)) k) ->
  (exists k, slot_get (cr_tx c') (cr_active c') = Some k /\ tk_state k = Active) ->
  (forall k, slot_get (cr_tx c') (alt (cr_active c')) = Some k -> tk_state k <> Active) ->
  Crypto_wf c'.
Proof.
  intros (Hs & Hrs & Hkek & Hrk & _) (Hc & Hs' & Hk') Hrs' Hrk' Htx Hact Halt.
  unfold Crypto_wf. rewrite Hc, Hs', Hk', Hrs', Hrk'. by split_and!.
Qed.

Lemma Crypto_tick_wf c rnd :
  Crypto_wf c -> rnd_ok rnd ->
  exists c' out, Crypto_tick_refresh c rnd = Ret (c', out) /\ Crypto_wf c' /\ same_keys c c' /\
    cr_outstanding c' = cr_outstanding c /\ cr_snd_state c' = cr_snd_state c.
Proof.
  intros Hwf Hrnd. pose proof Hwf as (_ & _ & _ & _ & Htx & (k & Hk & Hst) & Halt).
  destruct (Crypto_tick_cases c rnd Hwf Hrnd) as (k' & Hk' & Hcases).
  simplify_eq. cbv zeta in Hcases.
  destruct Hcases as [(_ & _ & e & o & blob & _ & _ & _ & ->) |
    [(_ & ak & Hak & Haks & ->) | [(_ & _ & ->) | (_ & _ & ->)]]];
    (eexists _, _; split; [done|]; split; [|done]);
    try done; apply (Crypto_wf_intro c); try done; unfold_set; cbn [cr_tx cr_active cr_cfg] in *.
  - intros s k' Hk'. destruct (slot_cases (cr_active c) s) as [-> | ->]; slots; simplify_eq.
    + by apply (Htx (cr_active c)).
    + split_and!; [apply Hrnd | done | done].
  - exists k. by slots.
  - intros k'. slots. by intros [= <-].
  - intros s k' Hk'. destruct (slot_cases (cr_active c) s) as [-> | ->]; slots; simplify_eq.
    + by destruct (Htx _ _ Hk) as (? & ? & ?).
    + by destruct (Htx _ _ Hak) as (? & ? & ?).
  - eexists. slots. done.
  - rewrite alt_alt. intros k'. slots. by intros [= <-].
  - intros s k' Hk'. destruct (slot_cases (cr_active c) s) as [-> | ->]; slots; simplify_eq.
    by apply (Htx (cr_active c)).
  - exists k. by slots.
  - intros k'. by slots.
Qed.

Lemma parse_kmreq_encode m : KmMessage_wf m -> parse_kmreq (KmMessage_encode m) = pok m.
Proof.
  intros Hm. unfold parse_kmreq.
  destruct (Nat.leb_spec (length (KmMessage_encode m)) KM_HEADER_LEN) as [Hl|_].
  { destruct Hm as [Hs _]. unfold KmMessage_encode in Hl. rewrite !length_app, Hs in Hl. simpl in Hl.
    unfold KM_HEADER_LEN, KM_SALT_LEN in Hl. lia. }
  replace (index (KmMessage_encode m) 15) with
    (Ret (as_u8 (Z.of_nat (KeyLength_bytes (km_key_len m) / 4)))) by done.
  cbn [mbind panicking_bind]. rewrite KmMessage_parse_encode by done.
  by destruct (km_key_len m).
Qed.

Lemma parse_kmreq_ok buf :
  exists r, parse_kmreq buf = Ret r /\ match r with Ok m => KmMessage_wf m | Err _ => True end.
Proof.
  unfold parse_kmreq. destruct (Nat.leb_spec (length buf) KM_HEADER_LEN) as [|Hlen]; [by eexists|].
  unfold index. destruct (lookup_lt_is_Some_2 buf 15) as [b ->]; [unfold KM_HEADER_LEN in *; lia|].
  cbn [expect mbind panicking_bind]. case_if; [by eexists|].
  destruct (KmMessage_parse_ok buf) as ([m|] & -> & Hm); by eexists.
Qed.

(** Splitting an unwrapped key of the announced length. *)
Lemma split_seks_ok m sek :
  (length sek + WRAP_ICV_LEN)%nat = length (km_wrapped m) -> KmMessage_wf m ->
  exists seks, split_seks m sek = Ret seks /\
    (forall s key, slot_get seks s = Some key -> length key = KeyLength_bytes (km_key_len m)) /\
    exists s key, slot_get seks s = Some key.
Proof.
  intros Hlen [_ Hw]. unfold split_seks. destruct (km_keys m); cbn [KmKeys_count] in Hw.
  - eexists. split; [done|]. split; [|by exists EVEN, sek]. intros [] ? [= <-]. lia.
  - eexists. split; [done|]. split; [|by exists ODD, sek]. intros [] ? [= <-]. lia.
  - unfold split_at. destruct (Nat.leb_spec (KeyLength_bytes (km_key_len m)) (length sek)); [|lia].
    cbn [mbind panicking_bind fst snd]. eexists. split; [done|]. split; [|by eexists EVEN, _].
    intros [] ? [= <-]; rewrite ?length_take, ?length_drop; lia.
Qed.

Lemma install_slot_ok old key kl :
  (forall k, key = Some k -> length k = KeyLength_bytes kl) ->
  install_slot old key = Ret (match key with Some k => Some (mkCtrCipher k) | None => old end).
Proof. destruct key; intros Hk; [|done]. cbn. by rewrite (CtrCipher_new_ok _ kl) by auto. Qed.

Lemma Crypto_install_wf c msg :
  Crypto_wf c -> KmMessage_wf msg ->
  exists c' r, Crypto_install_rx c msg = Ret (c', r) /\ Crypto_wf c' /\ same_keys c c'.
Proof.
  intros Hwf Hm. pose proof Hwf as (Hs & Hrs & Hkek & Hrk & Htx & Hact & Halt).
  unfold Crypto_install_rx. set (current := default (cr_kek c) (cr_rx_kek c)).
  assert (exists kl, length current = KeyLength_bytes kl) as [kl Hcur].
  { unfold current. destruct (cr_rx_kek c) as [k|]; [by apply Hrk | by eexists]. }
  set (cond := bool_decide (km_salt msg <> cr_rx_salt c) || _).
  assert (exists fresh, (if cond then kek ← derive_kek (cc_passphrase (cr_cfg c)) (km_salt msg)
      (km_key_len msg); Ret (Some kek) else Ret None) = Ret fresh /\
      forall kek, fresh = Some kek -> exists kl, length kek = KeyLength_bytes kl) as (fresh & -> & Hfresh).
  { destruct cond; [|by eexists]. destruct (derive_kek_ok (cc_passphrase (cr_cfg c)) (km_salt msg)
      (km_key_len msg)) as (kek & -> & Hk); [apply Hm|]. eexists. split; [done|]. intros ? [= <-].
    by eexists. }
  cbn [mbind panicking_bind].
  assert (exists kl, length (default current fresh) = KeyLength_bytes kl) as [kl' Hk'].
  { destruct fresh as [k|]; [by apply Hfresh | by exists kl]. }
  destruct (unwrap_key_returns _ _ (km_wrapped msg) Hk') as ([sek|err] & -> & Hlen); [|by eexists _, _].
  cbn [mbind panicking_bind].
  destruct (split_seks_ok msg sek) as (seks & -> & Hseks & _); [done..|]. cbn [mbind panicking_bind].
  rewrite (install_slot_ok (fst (cr_rx c)) (fst seks) (km_key_len msg))
    by (intros k Hk; by apply (Hseks EVEN)).
  rewrite (install_slot_ok (snd (cr_rx c)) (snd seks) (km_key_len msg))
    by (intros k Hk; by apply (Hseks ODD)).
  cbn [mbind panicking_bind]. eexists _, _. split; [done|].
  destruct Hm as [Hms _]. destruct fresh as [fk|]; (split; [|done]); unfold_set; unfold Crypto_wf;
    cbn [cr_salt cr_rx_salt cr_kek cr_cfg cr_rx_kek cr_tx cr_active]; split_and!; try done.
Qed.

Lemma Crypto_handle_kmreq_wf c payload :
  Crypto_wf c ->
  exists c' r, Crypto_handle_kmreq c payload = Ret (c', r) /\ Crypto_wf c' /\ same_keys c c'.
Proof.
  intros Hwf. unfold Crypto_handle_kmreq.
  destruct (parse_kmreq_ok payload) as ([m|st] & -> & Hm); cbn [mbind panicking_bind].
  - destruct (Crypto_install_wf c m Hwf Hm) as (c' & r & -> & Hwf' & Hsame). cbn [mbind panicking_bind].
    destruct r as [[]|[]]; by eexists _, _.
  - case_decide; by eexists _, _.
Qed.

Lemma Crypto_on_ack_wf c now srtt rnd :
  Crypto_wf c -> rnd_ok rnd ->
  exists c' r, Crypto_on_ack c now srtt rnd = Ret (c', r) /\ Crypto_wf c' /\ same_keys c c' /\
    cr_snd_state c' = cr_snd_state c.
Proof.
  intros Hwf Hrnd. unfold Crypto_on_ack. case_decide; [by eexists _, _|].
  destruct (Crypto_tick_wf c rnd Hwf Hrnd) as (c' & out & -> & Hwf' & Hsame & _ & Hsnd).
  cbn [mbind panicking_bind]. destruct out as [blob|]; [by eexists _, _|].
  destruct (cr_outstanding c') as [o|]; [|by eexists _, _].
  destruct (ok_retries o =? 0); [by eexists _, _|]. case_if; by eexists _, _.
Qed.

Lemma Crypto_handle_kmrsp_wf c payload :
  Crypto_wf c -> Crypto_wf (fst (Crypto_handle_kmrsp c payload)).
Proof.
  intros Hwf. unfold Crypto_handle_kmrsp, Crypto_peer_km_failure.
  destruct (KmResponse_parse payload) as [[echo|[[]|]]|]; try done.
  destruct (cr_outstanding c); [|done]. by case_decide.
Qed.

Lemma Crypto_decrypt_wf c seq kk p : Crypto_wf c -> Crypto_wf (fst (fst (Crypto_decrypt c seq kk p))).
Proof.
  intros Hwf. unfold Crypto_decrypt.
  destruct kk; [done| |..]; (case_decide; [done|]; case_decide; [done|]); by destruct (slot_get _ _).
Qed.

(** A key slot after a KM message that carries [key] for it. *)
Definition overlay (old : option CtrCipher) (key : option SecretKey) : option CtrCipher :=
  match key with Some k => Some (mkCtrCipher k) | None => old end.

Lemma handle_kmreq_installs r kek salt kl blob seks :
  km_blob kek salt kl blob seks -> cr_rx_salt r = salt ->
  default (cr_kek r) (cr_rx_kek r) = kek -> length kek = KeyLength_bytes kl ->
  Crypto_handle_kmreq r blob =
  Ret (r <| cr_rx := (overlay (fst (cr_rx r)) (fst seks), overlay (snd (cr_rx r)) (snd seks)) |>
         <| cr_rx_salt := salt |> <| cr_rcv_state := Secured |>, Installed).
Proof.
  intros (keys & w & plain & Hm & -> & Hu & Hsp & Hlen) Hsalt Hkek Hkl.
  unfold Crypto_handle_kmreq. rewrite parse_kmreq_encode by done. cbn [mbind panicking_bind pok].
  unfold Crypto_install_rx. cbn [km_salt km_key_len km_wrapped].
  rewrite bool_decide_false by (intros Hne; by apply Hne). rewrite Hkek, Hkl, Nat.eqb_refl.
  cbn [negb orb mbind panicking_bind default]. rewrite Hu. cbn [mbind panicking_bind pok].
  rewrite Hsp. cbn [mbind panicking_bind].
  rewrite (install_slot_ok (fst (cr_rx r)) (fst seks) kl) by (intros k Hk; by apply (Hlen EVEN)).
  rewrite (install_slot_ok (snd (cr_rx r)) (snd seks) kl) by (intros k Hk; by apply (Hlen ODD)).
  done.
Qed.

Lemma slot_get_overlay r (seks : option SecretKey * option SecretKey) s :
  slot_get (overlay (fst r) (fst seks), overlay (snd r) (snd seks)) s =
  overlay (slot_get r s) (slot_get seks s).
Proof. by destruct s. Qed.

(** Installing the keys of the sender's slots restores or keeps the sync. *)
Lemma in_sync_install s s' r seks :
  in_sync s r -> same_keys s s' ->
  (forall slot k, slot_get (cr_tx s') slot = Some k ->
     tk_cipher k = mkCtrCipher (tk_key k) /\
     match slot_get seks slot with
     | Some key => tk_key k = key
     | None => exists k0, slot_get (cr_tx s) slot = Some k0 /\ tk_cipher k0 = tk_cipher k
     end) ->
  in_sync s' (r <| cr_rx := (overlay (fst (cr_rx r)) (fst seks), overlay (snd (cr_rx r)) (snd seks)) |>
                <| cr_rx_salt := cr_salt s |> <| cr_rcv_state := Secured |>).
Proof.
  intros (Hsalt & Hst & Hkek & Hrx) (_ & Hs' & Hk') Hkeys. unfold_set. unfold in_sync.
  cbn [cr_rx_salt cr_rcv_state cr_kek cr_rx_kek cr_rx]. split_and!; [done..|congruence|].
  intros slot k Hk. rewrite slot_get_overlay. destruct (Hkeys _ _ Hk) as [Hc Hin].
  destruct (slot_get seks slot) as [key|]; cbn [overlay]; [by rewrite Hc, Hin|].
  destruct Hin as (k0 & Hk0 & <-). by apply Hrx.
Qed.

(** The refresh machine either keeps the sync, or emits a KM message whose
    delivery keeps it. *)
Lemma tick_in_sync s r rnd :
  Crypto_wf s -> rnd_ok rnd -> outstanding_ok s -> in_sync s r ->
  exists s' out, Crypto_tick_refresh s rnd = Ret (s', out) /\
  match out with
  | None => in_sync s' r /\ outstanding_ok s'
  | Some blob =>
      exists seks, km_blob (cr_kek s) (cr_salt s) (cc_key_len (cr_cfg s)) blob seks /\
      same_keys s s' /\
      forall slot k, slot_get (cr_tx s') slot = Some k ->
        tk_cipher k = mkCtrCipher (tk_key k) /\ slot_get seks slot = Some (tk_key k)
  end.
Proof.
  intros Hwf Hrnd Hout (Hsalt & Hst & Hkek & Hrx).
  pose proof Hwf as (_ & _ & _ & _ & Htx & _ & _).
  destruct (Crypto_tick_cases s rnd Hwf Hrnd) as (k & Hk & Hcases). cbv zeta in Hcases.
  destruct Hcases as [(_ & _ & e & o & blob & He & Ho & Hb & ->) |
    [(_ & ak & Hak & Haks & ->) | [(_ & _ & ->) | (_ & _ & ->)]]];
    (eexists _, _; split; [done|]); unfold_set.
  - exists (Some (tk_key e), Some (tk_key o)). split; [done|]. split; [done|].
    cbn [cr_tx]. revert He Ho. set (tx := slot_set _ _ _). intros He Ho slot k' Hk'.
    assert (slot_get (Some (tk_key e), Some (tk_key o)) slot = Some (tk_key k')) as ->.
    { destruct slot; cbn in *; congruence. }
    split; [|done]. unfold tx in Hk'.
    destruct (slot_cases (cr_active s) slot) as [-> | ->]; slots; simplify_eq; [|done].
    by destruct (Htx _ _ Hk) as (? & ? & ?).
  - split.
    + split_and!; try done. cbn [cr_tx]. intros slot k'.
      destruct (slot_cases (cr_active s) slot) as [-> | ->]; slots; intros [= <-];
        [by apply (Hrx _ k) | by apply (Hrx _ ak)].
    + intros oo Hoo Hr. destruct (Hout oo Hoo Hr) as (seks & Hb & Hsk). exists seks. split; [done|].
      cbn [cr_tx]. intros slot k' key.
      destruct (slot_cases (cr_active s) slot) as [-> | ->]; slots; intros [= <-];
        [by apply (Hsk _ k) | by apply (Hsk _ ak)].
  - split.
    + split_and!; try done. cbn [cr_tx]. intros slot k'.
      destruct (slot_cases (cr_active s) slot) as [-> | ->]; slots; [apply Hrx | done].
    + intros oo Hoo Hr. destruct (Hout oo Hoo Hr) as (seks & Hb & Hsk). exists seks. split; [done|].
      cbn [cr_tx]. intros slot k' key.
      destruct (slot_cases (cr_active s) slot) as [-> | ->]; slots; [apply Hsk | done].
  - by split.
Qed.

Lemma on_ack_in_sync s r now srtt rnd :
  Crypto_wf s -> rnd_ok rnd -> outstanding_ok s -> in_sync s r ->
  exists s' out, Crypto_on_ack s now srtt rnd = Ret (s', out) /\ outstanding_ok s' /\
  match out with
  | None => in_sync s' r
  | Some blob => exists r', Crypto_handle_kmreq r blob = Ret (r', Installed) /\ in_sync s' r'
  end.
Proof.
  intros Hwf Hrnd Hout Hsync. pose proof Hwf as (_ & _ & Hkl & _ & Htx & _ & _).
  unfold Crypto_on_ack. case_decide; [by eexists _, _|].
  destruct (Crypto_tick_wf s rnd Hwf Hrnd) as (s0 & out0 & Ht0 & (_ & _ & Hkl1 & _ & Htx1 & _ & _) & Hsame & _).
  destruct (tick_in_sync s r rnd Hwf Hrnd Hout Hsync) as (s1 & out & Ht & Hcase).
  rewrite Ht in Ht0. simplify_eq. rewrite Ht. cbn [mbind panicking_bind].
  pose proof Hsame as (Hcfg & Hs & Hk). destruct out0 as [blob|].
  - destruct Hcase as (seks & Hb & _ & Hkeys). eexists _, _. split; [done|]. split.
    + intros o [= <-] _. exists seks. cbn [cr_kek cr_salt cr_cfg ok_blob]. unfold_set.
      cbn [cr_kek cr_salt cr_cfg ok_blob cr_tx]. rewrite Hcfg, Hs, Hk. split; [done|].
      intros slot k key Hsl. destruct (Hkeys _ _ Hsl) as [_ ->]. by intros [= <-].
    + destruct Hsync as (Hsalt & Hst & Hkek & Hrx).
      rewrite (handle_kmreq_installs r (cr_kek s) (cr_salt s) (cc_key_len (cr_cfg s)) blob seks) by done.
      eexists. split; [done|]. apply (in_sync_install s); [done|done|].
      intros slot k Hsl. destruct (Hkeys slot k Hsl) as [? ->]. done.
  - destruct Hcase as (Hsync1 & Hout1). destruct (cr_outstanding s0) as [o|] eqn:Ho; [|by eexists _, _].
    destruct (Z.eqb_spec (ok_retries o) 0) as [|Hr]; [by eexists _, _|]. case_if; [by eexists _, _|].
    eexists _, _. split; [done|]. destruct (Hout1 o Ho Hr) as (seks & Hb & Hsk). split.
    + intros o' [= <-] _. by exists seks.
    + pose proof Hsync1 as (Hsalt & Hst & Hkek & Hrx). unfold_set. cbn [ok_blob].
      rewrite (handle_kmreq_installs r (cr_kek s0) (cr_salt s0) (cc_key_len (cr_cfg s0)) (ok_blob o) seks)
        by done.
      eexists. split; [done|]. apply (in_sync_install s0); [done|done|].
      intros slot k Hsl. destruct (Htx1 _ _ Hsl) as (_ & Hc & _). split; [done|].
      destruct (slot_get seks slot) as [key|] eqn:Hkey; [by apply (Hsk slot) | by eexists].
Qed.

Lemma Crypto_new_initiator_ok cfg rs rk :
  rnd_ok rs -> rnd_ok rk ->
  exists c w, Crypto_new_initiator cfg rs rk = Ret c /\ Crypto_wf c /\ outstanding_ok c /\
    let kl := cc_key_len cfg in
    let sek := rk (KeyLength_bytes kl) in
    let m := mkKmMessage KmEven kl (rs 16%nat) w in
    derive_kek (cc_passphrase cfg) (rs 16%nat) kl = Ret (cr_kek c) /\
    unwrap_key (cr_kek c) w = pok sek /\ KmMessage_wf m /\ cr_cfg c = cfg /\
    cr_salt c = rs 16%nat /\ cr_rx_salt c = rs 16%nat /\ cr_rx_kek c = None /\
    cr_rx c = (Some (mkCtrCipher sek), None) /\ cr_active c = EVEN /\
    cr_tx c = (Some (mkTxKey sek (mkCtrCipher sek) 1 Active), None) /\
    cr_snd_state c = Securing /\
    cr_outstanding c = Some (mkOutstandingKmReq (KmMessage_encode m) KM_MAX_RETRY None).
Proof.
  intros Hrs Hrk. unfold Crypto_new_initiator, random_salt, SecretKey_generate.
  destruct (derive_kek_ok (cc_passphrase cfg) (rs 16%nat) (cc_key_len cfg)) as (kek & Hkek & Hlk);
    [apply Hrs|]. rewrite Hkek. cbn [mbind panicking_bind].
  set (kl := cc_key_len cfg) in *. set (sek := rk (KeyLength_bytes kl)).
  assert (Hsek : length sek = KeyLength_bytes kl) by apply Hrk.
  rewrite (CtrCipher_new_ok sek kl) by done. cbn [mbind panicking_bind].
  destruct (wrap_unwrap kek kl sek) as (w & -> & Hw & Hu);
    [done | rewrite Hsek; destruct kl; simpl; lia | rewrite Hsek; by destruct kl |].
  cbn [mbind panicking_bind].
  assert (Hm : KmMessage_wf (mkKmMessage KmEven kl (rs 16%nat) w)).
  { split; [apply Hrs|]. cbn. unfold WRAP_ICV_LEN. lia. }
  eexists _, w. split; [done|]. split.
  { split_and!; try done; try apply Hrs; cbn [cr_tx cr_active slot_get fst snd alt].
    - intros [] k [= <-]. by split_and!.
    - by eexists. }
  split; [|done]. intros o [= <-] _. exists (Some sek, None). split.
  - exists KmEven, w, sek. cbv zeta. split_and!; try done. by intros [] key [= <-].
  - by intros [] k key [= <-] [= <-].
Qed.

Lemma responder_slot_ok active slot key kl :
  (forall k, key = Some k -> length k = KeyLength_bytes kl) ->
  responder_slot active slot key =
  Ret (match key with
       | Some k => (Some (mkTxKey k (mkCtrCipher k) (if decide (slot = active) then 1 else 0)
                      (if decide (slot = active) then Active else Announced)),
                    Some (mkCtrCipher k))
       | None => (None, None)
       end).
Proof. destruct key; intros Hk; [|done]. cbn. by rewrite (CtrCipher_new_ok _ kl) by auto. Qed.

Lemma initial_count_u32 (P : Prop) (d : Decision P) : is_u32 (if d then 1 else 0).
Proof. unfold is_u32. destruct d; lia. Qed.

(** Whatever KMREQ arrives, the responder answers with a KM state or holds a
    well-formed engine. *)
Lemma Crypto_new_responder_ok cfg kmreq :
  exists r, Crypto_new_responder cfg kmreq = Ret r /\
    match r with Ok c => Crypto_wf c /\ outstanding_ok c | Err _ => True end.
Proof.
  unfold Crypto_new_responder. destruct (parse_kmreq_ok kmreq) as ([m|st] & -> & Hm); [|by eexists].
  cbn [qbind]. pose proof Hm as [Hms _].
  destruct (derive_kek_ok (cc_passphrase cfg) (km_salt m) (km_key_len m) Hms) as (kek & Hkek & Hlk).
  unfold_set. cbn [cc_passphrase]. rewrite Hkek. cbn [mbind panicking_bind].
  destruct (unwrap_key_returns kek _ (km_wrapped m) Hlk) as ([sek|[]] & -> & Hlen);
    cbn [mbind panicking_bind]; try by eexists.
  destruct (split_seks_ok m sek Hlen Hm) as (seks & -> & Hseks & s0 & key0 & Hs0).
  cbn [mbind panicking_bind].
  set (active := match fst seks with Some _ => EVEN | None => ODD end).
  rewrite (responder_slot_ok active EVEN (fst seks) (km_key_len m)) by (intros k Hk; by apply (Hseks EVEN)).
  rewrite (responder_slot_ok active ODD (snd seks) (km_key_len m)) by (intros k Hk; by apply (Hseks ODD)).
  cbn [mbind panicking_bind]. eexists. split; [done|].
  split; [|by intros o [= <-]].
  assert (Hex : exists key, slot_get seks active = Some key).
  { unfold active. destruct seks as [[e|] o]; cbn; [by eexists|]. destruct s0; [done|by eexists]. }
  destruct Hex as [key Hkey]. clearbody active.
  assert (Hk : forall s k, slot_get seks s = Some k -> length k = KeyLength_bytes (km_key_len m))
    by apply Hseks.
  split_and!; try done; cbn [cr_tx cr_active cr_cfg cc_key_len].
  - intros [] k; cbn [slot_get fst snd].
    + destruct (fst seks) as [e|] eqn:He; [|done]. intros [= <-].
      split_and!; [by apply (Hk EVEN) | done | apply initial_count_u32].
    + destruct (snd seks) as [o|] eqn:Ho; [|done]. intros [= <-].
      split_and!; [by apply (Hk ODD) | done | apply initial_count_u32].
  - destruct active; cbn [slot_get] in *; rewrite Hkey; eexists; (split; [done|]); cbn;
      by rewrite decide_True.
  - destruct active; cbn [slot_get alt fst snd].
    + destruct (snd seks); [|done]. by intros k [= <-].
    + destruct (fst seks); [|done]. by intros k [= <-].
Qed.

(** The packet budget of the active key, [n] packets after the last ACK. *)
Definition budget_inv (rr pa m n : Z) (c : Crypto) : Prop :=
  Crypto_wf c /\ cr_snd_state c <> Unsecured /\ cc_km_refresh_rate (cr_cfg c) = rr /\
  cc_km_preannounce (cr_cfg c) = pa /\ 0 <= n <= m /\
  match slot_get (cr_tx c) (alt (cr_active c)) with
  | Some ak =>
      if decide (tk_state ak = Announced) then tk_pkt_cnt ak = 0 /\ active_count c <= rr + n
      else active_count c <= rr - pa + n
  | None => active_count c <= rr - pa + n
  end.

Lemma budget_encrypt rr pa m n c seq p :
  0 <= pa -> m <= pa -> pa <= rr -> rr + m < 2 ^ 32 -> n < m -> budget_inv rr pa m n c ->
  exists c' ct kk, Crypto_encrypt c seq p = Ret (c', ct, kk) /\ budget_inv rr pa m (n + 1) c'.
Proof.
  intros Hpa Hm Hrr Hmax Hn (Hwf & Hst & Hcr & Hcp & Hn0 & Hb).
  destruct (Crypto_encrypt_ok c seq p Hwf) as (k & Hk & _ & -> & Hwf').
  eexists _, _, _. split; [done|]. split; [done|]. unfold_set. unfold budget_inv, active_count in *.
  cbn [cr_snd_state cr_cfg cr_tx cr_active] in *. split_and!; [done..|lia|lia|].
  pose proof Hwf as (_ & _ & _ & _ & Htx & _). destruct (Htx _ _ Hk) as (_ & _ & Hcnt).
  unfold is_u32 in Hcnt. rewrite Hk in Hb.
  assert (tk_pkt_cnt k + 1 < 2 ^ 32).
  { destruct (slot_get (cr_tx c) (alt (cr_active c))); [case_decide|]; lia. }
  slots. cbn [tk_pkt_cnt]. rewrite as_u32_small by (unfold is_u32; lia).
  destruct (slot_get (cr_tx c) (alt (cr_active c))); [case_decide|]; lia.
Qed.

Lemma budget_ack rr pa m n c now srtt rnd :
  0 <= pa -> m <= pa -> pa <= rr -> rnd_ok rnd -> budget_inv rr pa m n c ->
  exists c' out, Crypto_on_ack c now srtt rnd = Ret (c', out) /\ budget_inv rr pa m 0 c'.
Proof.
  intros Hpa Hm Hrr Hrnd (Hwf & Hst & Hcr & Hcp & Hn0 & Hb).
  assert (exists c' out, Crypto_tick_refresh c rnd = Ret (c', out) /\ budget_inv rr pa m 0 c')
    as (c' & out & Ht & Hinv).
  { destruct (Crypto_tick_wf c rnd Hwf Hrnd) as (c1 & o1 & Ht & Hwf1 & (Hcfg & _) & _ & Hsnd).
    exists c1, o1. split; [done|]. unfold budget_inv. rewrite Hcfg, Hsnd.
    split_and!; try done; try lia. clear Hcfg Hsnd Hwf1.
    destruct (Crypto_tick_cases c rnd Hwf Hrnd) as (k & Hk & Hcases). cbv zeta in Hcases.
    unfold active_count in Hb. rewrite Hk in Hb. rewrite Hcr, Hcp in Hcases.
    unfold active_count. unfold saturating_sub in Hcases.
    destruct Hcases as [(Hc & Hna & e & o & blob & _ & _ & _ & Ht') |
      [(Hc & ak & Hak & Haks & Ht') | [(Hd & Hc & Ht') | (Hc1 & Hc2 & Ht')]]];
      rewrite Ht in Ht'; injection Ht' as -> _; unfold_set; cbn [cr_tx cr_active].
    - slots. cbn [tk_state tk_pkt_cnt]. rewrite Hk.
      destruct (slot_get (cr_tx c) (alt (cr_active c))) as [ak|]; [|lia].
      cbn in Hna. case_decide; [congruence|lia].
    - rewrite alt_alt. slots. cbn [tk_state tk_pkt_cnt]. rewrite Hak in Hb.
      rewrite decide_True in Hb by done. lia.
    - slots. rewrite Hk. lia.
    - rewrite Hk. destruct (slot_get (cr_tx c) (alt (cr_active c))) as [ak|].
      + cbn in Hc1, Hc2. case_decide as Hann.
        * rewrite Hann in Hc2. specialize (Hc2 eq_refl). lia.
        * destruct (Z.lt_ge_cases (Z.max 0 (rr - pa)) (tk_pkt_cnt k)) as [Hlt|]; [|lia].
          specialize (Hc1 Hlt). congruence.
      + destruct (Z.lt_ge_cases (Z.max 0 (rr - pa)) (tk_pkt_cnt k)) as [Hlt|]; [|lia].
        by specialize (Hc1 Hlt). }
  unfold Crypto_on_ack. rewrite decide_False by done. rewrite Ht. cbn [mbind panicking_bind].
  destruct out; [by eexists _, _|]. destruct (cr_outstanding c') as [o|]; [|by eexists _, _].
  destruct (ok_retries o =? 0); [by eexists _, _|]. case_if; by eexists _, _.
Qed.

Lemma run_crypto_budget rr pa m evs : forall n c,
  0 <= pa -> m <= pa -> pa <= rr -> rr + m < 2 ^ 32 ->
  budget_inv rr pa m n c -> acked_every m n evs ->
  exists c', run_crypto c evs = Ret c' /\ active_count c' <= rr + m.
Proof.
  induction evs as [|[seq p|now srtt rnd] evs IH]; intros n c Hpa Hm Hrr Hmax Hinv Hev.
  - exists c. split; [done|]. destruct Hinv as (_ & _ & _ & _ & Hn & Hb).
    destruct (slot_get (cr_tx c) (alt (cr_active c))); [case_decide|]; lia.
  - destruct Hev as [Hn Hev]. cbn [run_crypto].
    destruct (budget_encrypt rr pa m n c seq p) as (c' & ct & kk & -> & Hinv'); try done.
    cbn [mbind panicking_bind fst]. by apply (IH (n + 1)).
  - destruct Hev as [Hrnd Hev]. cbn [run_crypto].
    destruct (budget_ack rr pa m n c now srtt rnd) as (c' & out & -> & Hinv'); try done.
    cbn [mbind panicking_bind fst]. by apply (IH 0).
Qed.

End Lemmas.

(** ** Properties *)

(** the engine never panics and keeps its invariant: whatever payload,
    ACK, KMREQ, KMRSP or data packet comes, every operation returns, and an
    active key stays installed (so [encrypt]'s "never fails" is true). *)
Theorem crypto_engine_invariant `{CryptoLaws} (c : Crypto) :
  Crypto_wf c ->
  (forall seq p, exists x, Crypto_encrypt c seq p = Ret x /\ Crypto_wf (fst (fst x))) /\
  (forall now srtt rnd, rnd_ok rnd ->
     exists x, Crypto_on_ack c now srtt rnd = Ret x /\ Crypto_wf (fst x)) /\
  (forall payload, exists x, Crypto_handle_kmreq c payload = Ret x /\ Crypto_wf (fst x)) /\
  (forall payload, Crypto_wf (fst (Crypto_handle_kmrsp c payload))) /\
  (forall seq kk p, Crypto_wf (fst (fst (Crypto_decrypt c seq kk p)))).
Proof.
  intros Hwf. split_and!.
  - intros seq p. destruct (Crypto_encrypt_ok c seq p Hwf) as (k & _ & _ & -> & ?). by eexists.
  - intros now srtt rnd Hr.
    destruct (Crypto_on_ack_wf c now srtt rnd Hwf Hr) as (c' & r & -> & ? & _). by eexists.
  - intros payload. destruct (Crypto_handle_kmreq_wf c payload Hwf) as (c' & r & -> & ? & _). by eexists.
  - intros payload. by apply Crypto_handle_kmrsp_wf.
  - intros seq kk p. by apply Crypto_decrypt_wf.
Qed.

(** The key exchange, with what both ends hold afterwards. *)
Lemma key_exchange_sync `{CryptoLaws} (cfg_i cfg_r : CryptoConfig) (rs rk : nat -> bytes) :
  rnd_ok rs -> rnd_ok rk -> cc_passphrase cfg_r = cc_passphrase cfg_i ->
  exists i blob r i', Crypto_new_initiator cfg_i rs rk = Ret i /\ Crypto_kmreq i = Some blob /\
    length blob = (40 + KeyLength_bytes (cc_key_len cfg_i))%nat /\
    Crypto_new_responder cfg_r blob = pok r /\ Crypto_handle_kmrsp i blob = (i', Confirmed) /\
    in_sync i' r /\ in_sync r i' /\ Crypto_wf i' /\ Crypto_wf r /\ fresh_engine cfg_i i' /\ fresh_engine cfg_r r.
Proof.
  intros Hrs Hrk Hpw.
  destruct (Crypto_new_initiator_ok cfg_i rs rk Hrs Hrk) as (i & w & Hi & Hwf & _ & Hkek & Hu & Hm &
    Hcfg & Hsalt & Hrxs & Hrxk & Hrx & Hact & Htx & _ & Hout).
  set (m := mkKmMessage KmEven _ _ w) in *. exists i, (KmMessage_encode m).
  set (sek := rk (KeyLength_bytes (cc_key_len cfg_i))) in *.
  assert (Hlen : length (KmMessage_encode m) = (40 + KeyLength_bytes (cc_key_len cfg_i))%nat).
  { unfold KmMessage_encode. rewrite !length_app. destruct Hm as [Hs Hw]. rewrite Hs, Hw. simpl.
    unfold KM_SALT_LEN, WRAP_ICV_LEN. lia. }
  destruct (Crypto_new_responder_ok cfg_r (KmMessage_encode m)) as (r0 & Hr0 & Hr0wf).
  eexists _, _. split; [done|]. split; [unfold Crypto_kmreq; by rewrite Hout|]. split; [done|].
  revert Hr0.
  unfold Crypto_new_responder. rewrite parse_kmreq_encode by done. cbn [qbind pok]. unfold_set.
  cbn [cc_passphrase km_key_len km_salt km_wrapped m]. rewrite Hpw, Hkek.
  cbn [mbind panicking_bind]. rewrite Hu. unfold split_seks. cbn [mbind panicking_bind pok km_keys m fst snd].
  rewrite (responder_slot_ok EVEN EVEN (Some sek) (cc_key_len cfg_i)) by (intros k [= <-]; apply Hrk).
  cbn [responder_slot mbind panicking_bind fst snd].
  intros [= <-]. split; [done|]. pose proof (Crypto_handle_kmrsp_wf i (KmMessage_encode m) Hwf) as Hwi.
  revert Hwi. unfold Crypto_handle_kmrsp, KmResponse_parse.
  destruct (Nat.leb_spec (length (KmMessage_encode m)) 3); [lia|].
  destruct (Nat.eqb_spec (length (KmMessage_encode m)) 4); [lia|].
  rewrite Hout. cbn [ok_blob]. rewrite decide_True by done. unfold_set. intros Hwi. split; [done|].
  destruct Hr0wf as [Hr0wf _].
  match goal with |- ?A /\ ?B /\ _ => cut (A /\ B); [intros [? ?]|] end.
  { do 4 (split; [done|]). unfold fresh_engine, active_count, alt. cbn [cr_tx cr_active cr_cfg cc_km_refresh_rate cc_km_preannounce].
    by rewrite ?Htx, ?Hact, ?Hcfg. }
  split; split_and!; cbn [cr_salt cr_rx_salt cr_kek cr_rx_kek cr_rcv_state cr_tx cr_rx default];
    rewrite ?Hrxk, ?Hrxs, ?Hrx, ?Htx; try done.
  - by intros [] k [= <-].
  - by intros [] k [= <-].
Qed.

(** C31: the key exchange agrees: with one passphrase on both sides (the
    responder's own key length and refresh settings do not matter), the
    responder installs the initiator's KMREQ, its byte echo confirms the
    initiator, and afterwards each end holds the keys the other encrypts
    with, in both directions. *)
Theorem key_exchange_agrees `{CryptoLaws} (cfg_i cfg_r : CryptoConfig) (rs rk : nat -> bytes) :
  rnd_ok rs -> rnd_ok rk -> cc_passphrase cfg_r = cc_passphrase cfg_i ->
  exists i blob r, Crypto_new_initiator cfg_i rs rk = Ret i /\ Crypto_kmreq i = Some blob /\
    Crypto_new_responder cfg_r blob = pok r /\
    let '(i', outcome) := Crypto_handle_kmrsp i blob in
    outcome = Confirmed /\ in_sync i' r /\ in_sync r i'.
Proof.
  intros Hrs Hrk Hpw.
  destruct (key_exchange_sync cfg_i cfg_r rs rk Hrs Hrk Hpw) as
    (i & blob & r & i' & Hi & Hb & _ & Hr & Hk & H1 & H2 & _).
  exists i, blob, r. do 3 (split; [done|]). by rewrite Hk.
Qed.




(** ** Witnesses *)

(** Concrete primitives that satisfy the laws, for the witnesses: the KEK's
    first eight bytes serve as the integrity block, and the keystream
    repeats key and counter block. *)
Definition toy_primitives : CryptoPrimitives := {|
  pbkdf2_hmac_sha1 := fun pw salt it n => take n (pw ++ salt ++ replicate n 0);
  kw_wrap := fun kek p => Some (take 8 kek ++ p);
  kw_unwrap := fun kek w =>
    if bool_decide (take 8 w = take 8 kek) && (8 <=? length w)%nat then Some (drop 8 w) else None;
  ctr128be_keystream := fun key iv n => take n (iv ++ key ++ replicate n 0xC3)
|}.

Lemma toy_laws : @CryptoLaws toy_primitives.
Proof.
  constructor.
  - intros pw salt it n. cbn. rewrite length_take, !length_app, length_replicate. lia.
  - intros kek p Hk Hp Hm. exists (take 8 kek ++ p). cbn.
    assert (length (take 8 kek) = 8%nat) as H8
      by (rewrite length_take; unfold key_length_ok in Hk; lia).
    split_and!; [done | rewrite length_app; lia |].
    rewrite take_app_length', drop_app_length' by done.
    rewrite bool_decide_true by done. rewrite length_app, H8. done.
  - intros kek w p. cbn [kw_unwrap toy_primitives]. case_if; [|done]. to_prop. intros [= <-]. rewrite length_drop. lia.
  - intros key iv n. cbn. rewrite length_take, !length_app, length_replicate. lia.
Qed.

Section Witnesses.
#[local] Existing Instance toy_primitives.
#[local] Existing Instance toy_laws.

Lemma crypto_engine_invariant_witness :
  exists c, Crypto_new_initiator (mkCryptoConfig (replicate 10 65) Aes128 16 7)
    (fun n => replicate n 1) (fun n => replicate n 2) = Ret c /\
  forall payload, exists x, Crypto_handle_kmreq c payload = Ret x /\ Crypto_wf (fst x).
Proof.
  destruct (Crypto_new_initiator_ok (mkCryptoConfig (replicate 10 65) Aes128 16 7)
    (fun n => replicate n 1) (fun n => replicate n 2)) as (c & w & Hc & Hwf & _);
    [intros n; apply length_replicate | intros n; apply length_replicate |].
  exists c. split; [exact Hc|].
  exact (proj1 (proj2 (proj2 (crypto_engine_invariant c Hwf)))).
Defined.

Lemma key_exchange_agrees_witness :
  exists i blob r,
    Crypto_new_initiator (mkCryptoConfig (replicate 12 66) Aes256 100 40)
      (fun n => replicate n 1) (fun n => replicate n 2) = Ret i /\
    Crypto_kmreq i = Some blob /\
    Crypto_new_responder (mkCryptoConfig (replicate 12 66) Aes128 50 3) blob = pok r /\
    let '(i', outcome) := Crypto_handle_kmrsp i blob in
    outcome = Confirmed /\ in_sync i' r /\ in_sync r i'.
Proof.
  apply (key_exchange_agrees (mkCryptoConfig (replicate 12 66) Aes256 100 40)
    (mkCryptoConfig (replicate 12 66) Aes128 50 3));
    [intros n; apply length_replicate | intros n; apply length_replicate | reflexivity].
Defined.




End Witnesses.
