(* ===== verification/Options.v ===== *)
(** * Options and errors: [src/options.rs], [src/error.rs] *)

From S2P Require Import Prelude CryptoKeys CryptoContext.

(** ** [error.rs] *)

Inductive CloseReason :=
| CloseShutdown
| PeerIdle
| DataIdle
| CloseLocal
| CloseConnectTimeout
| CloseRejected (code : Z)
| SequenceDiscrepancy.

#[export] Instance CloseReason_eq_dec : EqDecision CloseReason.
Proof. solve_decision. Defined.

Inductive invalid_km := KmRefreshRateTooLarge | KmPreannounceTooLarge.

Inductive invalid_bandwidth := MaxBandwidthZero | InputRateZero | OverheadOutOfRange.

(** An I/O error is only passed through; it is its OS error number. *)
Inductive SrtError :=
| Io (os_error : Z)
| ConnectTimeout
| Rejected (code : Z)
| EncryptionUnsupported
| WrongPassphrase
| PayloadTooLarge (len : nat)
| Closed (reason : CloseReason)
| NoIpv4Address
| StreamIdTooLong
| InvalidPassphrase
| InvalidKmParameters (why : invalid_km)
| InvalidBandwidth (why : invalid_bandwidth).

(** ** [options.rs] *)

Inductive Bandwidth :=
| Unlimited
| Max (bytes_per_sec : Z)
| Input (bytes_per_sec overhead_pct : Z)
| Estimated (min_bytes_per_sec overhead_pct : Z).

Definition Bandwidth_DEFAULT_OVERHEAD_PCT : Z := 25.

(** [(5 ..= 100).contains(&overhead_pct)]. *)
Definition overhead_ok (overhead_pct : Z) : bool := (5 <=? overhead_pct) && (overhead_pct <=? 100).

Definition Bandwidth_validate (b : Bandwidth) : result SrtError unit :=
  match b with
  | Max bytes_per_sec =>
      if bytes_per_sec =? 0 then Err (InvalidBandwidth MaxBandwidthZero) else Ok tt
  | Input bytes_per_sec overhead_pct =>
      if bytes_per_sec =? 0 then Err (InvalidBandwidth InputRateZero)
      else if negb (overhead_ok overhead_pct) then Err (InvalidBandwidth OverheadOutOfRange)
      else Ok tt
  | Estimated _ overhead_pct =>
      if negb (overhead_ok overhead_pct) then Err (InvalidBandwidth OverheadOutOfRange) else Ok tt
  | Unlimited => Ok tt
  end.

Record SrtOptions := mkSrtOptions {
  so_latency : Z;
  so_peer_latency : Z;
  so_streamid : option bytes;
  so_mss : Z;
  so_flow_window : Z;
  so_recv_buffer_pkts : nat;
  so_send_buffer_pkts : nat;
  so_connect_timeout : Z;
  so_peer_idle_timeout : Z;
  so_data_idle_timeout : option Z;
  so_bandwidth : Bandwidth;
  so_udp_recv_buffer : option Z;
  so_local_addr : option (bytes * Z);
  so_passphrase : option bytes;
  so_pbkeylen : option KeyLength;
  so_km_refresh_rate : option Z;
  so_km_preannounce : option Z
}.

#[export] Instance SrtOptions_eta : Etable SrtOptions := fun o =>
  mkSrtOptions (so_latency o) (so_peer_latency o) (so_streamid o) (so_mss o) (so_flow_window o)
    (so_recv_buffer_pkts o) (so_send_buffer_pkts o) (so_connect_timeout o) (so_peer_idle_timeout o)
    (so_data_idle_timeout o) (so_bandwidth o) (so_udp_recv_buffer o) (so_local_addr o)
    (so_passphrase o) (so_pbkeylen o) (so_km_refresh_rate o) (so_km_preannounce o).

Definition SrtOptions_default : SrtOptions :=
  mkSrtOptions (from_millis 120) 0 None 1500 8192 (Z.to_nat 8192) (Z.to_nat 8192) (from_secs 3)
    (from_secs 5) None Unlimited None None None None None None.

Definition SrtOptions_max_payload (o : SrtOptions) : Z := saturating_sub (so_mss o) 44.

(** The builder. *)
Definition SrtOptions_latency (o : SrtOptions) (latency : Z) : SrtOptions := o <| so_latency := latency |>.

Definition SrtOptions_peer_latency (o : SrtOptions) (latency : Z) : SrtOptions := o <| so_peer_latency := latency |>.

Definition SrtOptions_streamid (o : SrtOptions) (streamid : bytes) : SrtOptions := o <| so_streamid := Some streamid |>.

Definition SrtOptions_connect_timeout (o : SrtOptions) (timeout : Z) : SrtOptions := o <| so_connect_timeout := timeout |>.

Definition SrtOptions_peer_idle_timeout (o : SrtOptions) (timeout : Z) : SrtOptions := o <| so_peer_idle_timeout := timeout |>.

Definition SrtOptions_data_idle_timeout (o : SrtOptions) (timeout : Z) : SrtOptions := o <| so_data_idle_timeout := Some timeout |>.

Definition SrtOptions_bandwidth (o : SrtOptions) (bandwidth : Bandwidth) : SrtOptions := o <| so_bandwidth := bandwidth |>.

Definition SrtOptions_passphrase (o : SrtOptions) (passphrase : bytes) : SrtOptions := o <| so_passphrase := Some passphrase |>.

Definition SrtOptions_local_addr (o : SrtOptions) (addr : bytes * Z) : SrtOptions := o <| so_local_addr := Some addr |>.

Definition SrtOptions_pbkeylen (o : SrtOptions) (len : KeyLength) : SrtOptions := o <| so_pbkeylen := Some len |>.

Definition SrtOptions_crypto_config (o : SrtOptions) : result SrtError (option CryptoConfig) :=
  match so_passphrase o with
  | None | Some [] => Ok None
  | Some pw =>
      if (length pw <? PASSPHRASE_MIN)%nat || (PASSPHRASE_MAX <? length pw)%nat
      then Err InvalidPassphrase else
      let rr_explicit :=
        match so_km_refresh_rate o with None => false | Some r => negb (r =? 0) end in
      let rate :=
        match so_km_refresh_rate o with
        | None => Ok 0x01000000
        | Some rr =>
            if rr =? 0 then Ok 0x01000000
            else if 0x80000000 <=? rr then Err (InvalidKmParameters KmRefreshRateTooLarge)
            else Ok rr
        end in
      match rate with
      | Err e => Err e
      | Ok rr =>
          let max_pa := saturating_sub rr 1 / 2 in
          let default_pa := if rr_explicit then max_pa else 0x10000 in
          let announce :=
            match so_km_preannounce o with
            | None => Ok default_pa
            | Some pa =>
                if pa =? 0 then Ok default_pa
                else if max_pa <? pa then Err (InvalidKmParameters KmPreannounceTooLarge)
                else Ok pa
            end in
          match announce with
          | Err e => Err e
          | Ok pa => Ok (Some (mkCryptoConfig pw (default Aes128 (so_pbkeylen o)) rr pa))
          end
      end
  end.

(** ** Properties *)

(** every encryption configuration that validates is one the refresh
    machine is safe with: the passphrase has 10 to 80 bytes, the refresh
    rate is in [1 .. 2^31), and the pre-announce window is at most
    [(rr - 1) / 2], also for the defaults. *)
Theorem crypto_config_is_safe (o : SrtOptions) (cfg : CryptoConfig) :
  (forall r, so_km_refresh_rate o = Some r -> is_u32 r) ->
  (forall p, so_km_preannounce o = Some p -> is_u32 p) ->
  SrtOptions_crypto_config o = Ok (Some cfg) ->
  so_passphrase o = Some (cc_passphrase cfg) /\ (10 <= length (cc_passphrase cfg) <= 80)%nat /\
  0 < cc_km_refresh_rate cfg < 2 ^ 31 /\
  0 <= cc_km_preannounce cfg <= (cc_km_refresh_rate cfg - 1) / 2.
Proof.
  unfold SrtOptions_crypto_config, saturating_sub, PASSPHRASE_MIN, PASSPHRASE_MAX, is_u32.
  intros Hr Hp H. destruct (so_passphrase o) as [[|b pw]|]; try done.
  destruct ((length (b :: pw) <? 10)%nat || (80 <? length (b :: pw))%nat) eqn:Hlen; [done|]. to_prop.
  destruct (so_km_refresh_rate o) as [rr|]; [specialize (Hr rr eq_refl)|clear Hr];
    destruct (so_km_preannounce o) as [pa|]; [specialize (Hp pa eq_refl)|clear Hp| |clear Hp];
    try specialize (Hp pa eq_refl); repeat case_if; to_prop; simplify_eq;
    cbn [cc_passphrase cc_km_refresh_rate cc_km_preannounce]; split_and!; try done; try lia;
    zify_divmod.
Qed.

Lemma crypto_config_is_safe_witness :
  let o := SrtOptions_default <| so_passphrase := Some (replicate 10 65) |>
             <| so_km_refresh_rate := Some 9 |> in
  exists cfg, SrtOptions_crypto_config o = Ok (Some cfg) /\ 0 < cc_km_refresh_rate cfg < 2 ^ 31 /\
    0 <= cc_km_preannounce cfg <= (cc_km_refresh_rate cfg - 1) / 2.
Proof.
  intros o. eexists. split; [reflexivity|].
  refine (proj2 (proj2 (crypto_config_is_safe o _ _ _ _))); [| |reflexivity].
  - intros r [= <-]. split; [discriminate | reflexivity].
  - intros p Hp. discriminate Hp.
Defined.
