(* ===== verification/Display.v ===== *)
(** * Texts: the [Display] and [Debug] implementations

    [src/error.rs], [src/packet/types.rs], [src/packet/mod.rs] and the
    hand-written, redacting [Debug] implementations of [src/options.rs],
    [src/crypto/context.rs] and [src/crypto/keys.rs].  A [Debug] structure is
    the tree the formatter is given; what is derived is its value. *)

From S2P Require Import Prelude Text PacketTypes CryptoKeys CryptoContext Options.

(** ** Errors *)

Definition CloseReason_fmt (r : CloseReason) : bytes :=
  match r with
  | CloseShutdown => str "peer shutdown"
  | PeerIdle => str "peer idle timeout"
  | DataIdle => str "data idle timeout"
  | CloseLocal => str "closed locally"
  | CloseConnectTimeout => str "connect timeout"
  | CloseRejected code => str "rejected by peer (code " ++ decimal code ++ str ")"
  | SequenceDiscrepancy => str "sequence discrepancy: reception no longer possible"
  end.

(** The texts given where the errors are made. *)
Definition invalid_km_why (w : invalid_km) : bytes :=
  match w with
  | KmRefreshRateTooLarge => str "km_refresh_rate must be < 2^31 (CTR keystream reuse)"
  | KmPreannounceTooLarge => str "km_preannounce must be <= (km_refresh_rate - 1) / 2"
  end.

Definition invalid_bandwidth_why (w : invalid_bandwidth) : bytes :=
  match w with
  | MaxBandwidthZero => str "max bandwidth must be nonzero"
  | InputRateZero => str "explicit input rate must be nonzero (use Bandwidth::Estimated for auto)"
  | OverheadOutOfRange => str "overhead_pct must be within 5..=100"
  end.

(** [io_text] is the operating system's text for an error. *)
Definition SrtError_fmt (io_text : Z -> bytes) (e : SrtError) : bytes :=
  match e with
  | Io e => str "io error: " ++ io_text e
  | ConnectTimeout => str "connect timeout"
  | Rejected code => str "connection rejected by peer (code " ++ decimal code ++ str ")"
  | EncryptionUnsupported => str "encryption mismatch: passphrase missing on one side or key exchange failed"
  | WrongPassphrase => str "encryption mismatch: wrong passphrase"
  | PayloadTooLarge len => str "payload of " ++ decimal (Z.of_nat len) ++ str " bytes exceeds live-mode maximum"
  | Closed reason => str "connection closed: " ++ CloseReason_fmt reason
  | NoIpv4Address => str "no IPv4 address for target"
  | StreamIdTooLong => str "stream id longer than 512 bytes"
  | InvalidPassphrase => str "passphrase must be 10..=80 bytes"
  | InvalidKmParameters why => str "invalid key-refresh parameters: " ++ invalid_km_why why
  | InvalidBandwidth why => str "invalid bandwidth parameters: " ++ invalid_bandwidth_why why
  end.

Definition SrtError_source (e : SrtError) : option Z := match e with Io e => Some e | _ => None end.

Definition SrtError_from (e : Z) : SrtError := Io e.

(** ** Packet types *)

Definition hex_digit (d : Z) : Z := if d <? 10 then 48 + d else 87 + d.

(** [{:#0w$x}] for a number of at most [n] hexadecimal digits. *)
Fixpoint hex_digits (n : nat) (v : Z) : bytes :=
  match n with
  | O => []
  | S n => hex_digit (v / 16 ^ Z.of_nat n mod 16) :: hex_digits n v
  end.

Definition hex (n : nat) (v : Z) : bytes := str "0x" ++ hex_digits n v.

Definition bad_handshake_msg (m : bad_handshake) : bytes :=
  match m with
  | UnknownHandshakeType => str "unknown handshake type"
  | IsnOutsideValidRange => str "ISN outside valid range"
  | HsExtShorterThan3Words => str "HSREQ/HSRSP shorter than 3 words"
  | TruncatedExtensionBlock => str "truncated extension block"
  end.

Definition bad_cif_msg (m : bad_cif) : bytes :=
  match m with
  | AckShorterThan4Words => str "ACK CIF shorter than 4 words"
  | EmptyNakLossList => str "empty NAK loss list"
  | NakRangeMissingEndWord => str "NAK range missing end word"
  | NakRangeStartAfterEnd => str "NAK range start after end"
  | DropreqShorterThan2Words => str "DROPREQ CIF shorter than 2 words"
  end.

Definition PacketError_fmt (e : PacketError) : bytes :=
  match e with
  | TooShort => str "datagram too short"
  | UnknownControlType t => str "unknown control type " ++ hex 4 t
  | BadHandshake msg => str "bad handshake CIF: " ++ bad_handshake_msg msg
  | BadCif msg => str "bad control CIF: " ++ bad_cif_msg msg
  end.

Definition SeqNumber_debug (s : Z) : bytes := str "#" ++ decimal s.

Definition SeqNumber_display (s : Z) : bytes := decimal s.

Definition MsgNumber_debug (m : Z) : bytes := str "msg#" ++ decimal m.

Definition SocketId_debug (id : Z) : bytes := str "sid:" ++ hex 8 id.

(** ** Redaction *)

Inductive debug :=
| DbgDuration (ns : Z)
| DbgInt (n : Z)
| DbgStr (s : bytes)
| DbgBandwidth (b : Bandwidth)
| DbgAddr (a : bytes * Z)
| DbgKeyLength (k : KeyLength)
| DbgOption (o : option debug)
| DbgStruct (name : bytes) (fields : list (bytes * debug)).

Definition SrtOptions_debug (o : SrtOptions) : debug :=
  DbgStruct (str "SrtOptions")
    [(str "latency", DbgDuration (so_latency o));
     (str "peer_latency", DbgDuration (so_peer_latency o));
     (str "streamid", DbgOption (DbgStr <$> so_streamid o));
     (str "mss", DbgInt (so_mss o));
     (str "flow_window", DbgInt (so_flow_window o));
     (str "recv_buffer_pkts", DbgInt (Z.of_nat (so_recv_buffer_pkts o)));
     (str "send_buffer_pkts", DbgInt (Z.of_nat (so_send_buffer_pkts o)));
     (str "connect_timeout", DbgDuration (so_connect_timeout o));
     (str "peer_idle_timeout", DbgDuration (so_peer_idle_timeout o));
     (str "data_idle_timeout", DbgOption (DbgDuration <$> so_data_idle_timeout o));
     (str "bandwidth", DbgBandwidth (so_bandwidth o));
     (str "udp_recv_buffer", DbgOption (DbgInt <$> so_udp_recv_buffer o));
     (str "local_addr", DbgOption (DbgAddr <$> so_local_addr o));
     (str "passphrase", DbgOption ((fun _ => DbgStr (str "<redacted>")) <$> so_passphrase o));
     (str "pbkeylen", DbgOption (DbgKeyLength <$> so_pbkeylen o));
     (str "km_refresh_rate", DbgOption (DbgInt <$> so_km_refresh_rate o));
     (str "km_preannounce", DbgOption (DbgInt <$> so_km_preannounce o))].

Definition CryptoConfig_debug (c : CryptoConfig) : debug :=
  DbgStruct (str "CryptoConfig")
    [(str "passphrase", DbgStr (str "<redacted>"));
     (str "key_len", DbgKeyLength (cc_key_len c));
     (str "km_refresh_rate", DbgInt (cc_km_refresh_rate c));
     (str "km_preannounce", DbgInt (cc_km_preannounce c))].

Definition SecretKey_debug (k : SecretKey) : bytes :=
  str "SecretKey(" ++ decimal (Z.of_nat (length k)) ++ str " bytes)".

Definition Crypto_debug (c : Crypto) : bytes := str "Crypto(..)".

(** ** Lemmas *)

Lemma str_app_inj p a b : str p ++ a = str p ++ b -> a = b.
Proof. apply app_inv_head. Qed.

(** A number between two fixed texts is determined. *)
Lemma decimal_between_inj p q n m : 0 <= n -> 0 <= m ->
  str p ++ decimal n ++ str q = str p ++ decimal m ++ str q -> n = m.
Proof. intros Hn Hm E. apply app_inv_head, app_inv_tail in E. by apply decimal_inj. Qed.

Definition reason_wf (r : CloseReason) : Prop := match r with CloseRejected code => is_u32 code | _ => True end.

Definition error_wf (e : SrtError) : Prop :=
  match e with Rejected code => is_u32 code | Closed r => reason_wf r | _ => True end.

Lemma CloseReason_fmt_inj r1 r2 : reason_wf r1 -> reason_wf r2 -> CloseReason_fmt r1 = CloseReason_fmt r2 -> r1 = r2.
Proof.
  intros H1 H2. destruct r1, r2; try done. cbn in H1, H2. unfold is_u32 in *.
  intros E. apply decimal_between_inj in E; [by subst|lia|lia].
Qed.

(** ** Properties *)

(** an error's message identifies the error: two errors of the public
    interface with the same message are equal, operating system errors apart,
    for which the system's texts are the same; so a wrong passphrase, a peer
    without encryption, a rejection code and each reason of a close can be
    told apart from the message alone. *)
Theorem error_messages_identify (io_text : Z -> bytes) (e1 e2 : SrtError) :
  error_wf e1 -> error_wf e2 -> SrtError_fmt io_text e1 = SrtError_fmt io_text e2 ->
  match e1, e2 with
  | Io a, Io b => io_text a = io_text b
  | _, _ => e1 = e2
  end.
Proof.
  intros H1 H2. destruct e1, e2; try done; cbn [SrtError_fmt error_wf] in *; intros E.
  - by apply str_app_inj in E.
  - unfold is_u32 in *. apply decimal_between_inj in E; [by subst|lia|lia].
  - apply decimal_between_inj in E; [f_equal; lia|lia|lia].
  - apply str_app_inj, CloseReason_fmt_inj in E; [by subst|done|done].
  - apply str_app_inj in E. by destruct why, why0.
  - apply str_app_inj in E. by destruct why, why0.
Qed.

(** Nothing printed depends on a secret: the texts of two options, of two
    configurations, of two keys of one length and of two engines that differ
    only in secrets are the same. *)
Theorem debug_hides_secrets :
  (forall o p p', SrtOptions_debug (o <| so_passphrase := Some p |>) = SrtOptions_debug (o <| so_passphrase := Some p' |>)) /\
  (forall c p, CryptoConfig_debug (c <| cc_passphrase := p |>) = CryptoConfig_debug c) /\
  (forall k k' : SecretKey, length k = length k' -> SecretKey_debug k = SecretKey_debug k') /\
  (forall c c', Crypto_debug c = Crypto_debug c').
Proof. split_and!; try done. intros k k' E. unfold SecretKey_debug. by rewrite E. Qed.

Lemma error_messages_identify_witness : Rejected 1002 = Rejected 1002.
Proof.
  apply (error_messages_identify (fun _ => []) (Rejected 1002) (Rejected 1002)); [by split|by split|reflexivity].
Defined.

(** The module's own tests. *)
Example rejection_texts :
  SrtError_fmt (fun _ => []) (Closed (CloseRejected 1011)) = str "connection closed: rejected by peer (code 1011)" /\
  PacketError_fmt (UnknownControlType 11) = str "unknown control type 0x000b" /\
  SocketId_debug 0xABCD = str "sid:0x0000abcd".
Proof. split_and!; reflexivity. Qed.
