(* ===== verification/Cipher.v ===== *)
(** * The payload cipher as the sender and the receiver see it

    The data path only uses [Crypto::encrypt] and [Crypto::decrypt]; this is
    the interface its theorems are proved against, with the engine of
    [CryptoContext] as the implementation. *)

From S2P Require Import Prelude PacketTypes PacketData CryptoKeys CryptoContext.

Class PayloadCipher (C : Type) := {
  cipher_encrypt : C -> Z -> bytes -> panicking (C * bytes * EncryptionFlags);
  cipher_decrypt : C -> Z -> EncryptionFlags -> bytes -> C * result CryptoError unit * bytes
}.

(** What the data path relies on: encryption of a well-formed engine returns,
    keeps the length and sets the KK bits; a failed decryption leaves the
    payload alone, and cleartext never decrypts. *)
Class PayloadCipherLaws (C : Type) `{PayloadCipher C} := {
  cipher_wf : C -> Prop;
  cipher_encrypt_ok : forall c seq p, cipher_wf c ->
    exists c' ct kk, cipher_encrypt c seq p = Ret (c', ct, kk) /\ cipher_wf c' /\
      length ct = length p /\ kk <> EncNone;
  cipher_decrypt_wf : forall c seq kk p, cipher_wf c -> cipher_wf (fst (fst (cipher_decrypt c seq kk p)));
  cipher_decrypt_length : forall c seq kk p, length (snd (cipher_decrypt c seq kk p)) = length p;
  cipher_decrypt_err : forall c seq kk p c' e p',
    cipher_decrypt c seq kk p = (c', Err e, p') -> p' = p;
  cipher_decrypt_cleartext : forall c seq p,
    exists c' e, cipher_decrypt c seq EncNone p = (c', Err e, p)
}.

#[export] Instance Crypto_cipher `{CryptoPrimitives} : PayloadCipher Crypto := {
  cipher_encrypt := Crypto_encrypt;
  cipher_decrypt := Crypto_decrypt
}.

#[export] Instance Crypto_cipher_laws `{CryptoLaws} : PayloadCipherLaws Crypto.
Proof.
  refine {| cipher_wf := Crypto_wf |}; cbn [cipher_encrypt cipher_decrypt Crypto_cipher].
  - intros c seq p Hwf. destruct (Crypto_encrypt_ok c seq p Hwf) as (k & _ & _ & -> & Hwf').
    eexists _, _, _. split; [done|]. split; [done|].
    split; [apply length_apply_keystream | by case_decide].
  - intros. by apply Crypto_decrypt_wf.
  - intros c seq kk p. unfold Crypto_decrypt.
    destruct kk; [done|..]; (case_decide; [done|]; case_decide; [done|]);
      destruct (slot_get _ _); cbn; try done; apply length_apply_keystream.
  - intros c seq kk p c' e p'. unfold Crypto_decrypt.
    destruct kk; [by intros [= <- <- <-]|..];
      (case_decide; [by intros [= <- <- <-]|]; case_decide; [by intros [= <- <- <-]|]);
      destruct (slot_get _ _); [done|by intros [= <- <- <-] | done | by intros [= <- <- <-]|done|by intros [= <- <- <-]].
  - intros c seq p. by eexists _, _.
Defined.
