(* ===== verification/Pacing.v ===== *)
(** * LiveCC pacing: [src/core/pacing.rs]

    The send interval is computed in binary64 arithmetic, which is the
    Standard Library's executable [SpecFloat] model at precision 53. *)

From Stdlib Require Import SpecFloat.
From S2P Require Import Prelude Options.

(** ** Binary64 *)

(** [n as f64], the operators and [x as u64] (which truncates and saturates). *)
Definition f64_of_u64 (n : Z) : spec_float := binary_normalize 53 1024 n 0 false.

Definition f64_mul (x y : spec_float) : spec_float := SFmul 53 1024 x y.

Definition f64_div (x y : spec_float) : spec_float := SFdiv 53 1024 x y.

Definition f64_as_u64 (x : spec_float) : Z :=
  match x with
  | S754_zero _ | S754_nan => 0
  | S754_infinity s => if s then 0 else U64_MAX
  | S754_finite s m e => if s then 0 else Z.min U64_MAX (Z.shiftl (Zpos m) e)
  end.

(** Integer division panics on a zero divisor. *)
Definition div_u64 (a b : Z) : panicking Z := if b =? 0 then Panic else Ret (a / b).

(** ** Constants *)

Definition BW_INFINITE : Z := 125000000.

Definition DATA_HDR_SIZE : Z := 44.

Definition LIVE_DEF_PAYLOAD : Z := 1316.

Definition INPUTRATE_FAST_START : Z := from_millis 500.

Definition INPUTRATE_RUNNING : Z := from_secs 1.

Definition INPUTRATE_MAX_PACKETS : Z := 2000.

Definition avg_iir (N old sample : Z) : Z := (old * (N - 1) + sample) / N.

Definition with_overhead (base pct : Z) : Z := saturating_mul_u64 base (100 + pct) / 100.

(** ** [InputRateEstimator] *)

Record InputRateEstimator := mkInputRateEstimator {
  ire_period : Z;
  ire_window_start : option Z;
  ire_pkts : Z;
  ire_bytes : Z;
  ire_rate : option Z
}.

#[export] Instance InputRateEstimator_eta : Etable InputRateEstimator := fun e =>
  mkInputRateEstimator (ire_period e) (ire_window_start e) (ire_pkts e) (ire_bytes e) (ire_rate e).

Definition InputRateEstimator_new : InputRateEstimator :=
  mkInputRateEstimator INPUTRATE_FAST_START None 0 0 None.

Definition InputRateEstimator_on_input (e : InputRateEstimator) (now payload_len : Z)
    : panicking InputRateEstimator :=
  match ire_window_start e with
  | None => Ret (e <| ire_window_start := Some now |>)
  | Some start =>
      let e := e <| ire_pkts := ire_pkts e + 1 |> <| ire_bytes := ire_bytes e + payload_len |> in
      let early := (ire_period e <? INPUTRATE_RUNNING) && (INPUTRATE_MAX_PACKETS <? ire_pkts e) in
      let elapsed_us := as_u64 (as_micros (duration_since now start)) in
      if (early || (as_u64 (as_micros (ire_period e)) <? elapsed_us)) && (1 <=? elapsed_us) then
        let total := ire_bytes e + ire_pkts e * DATA_HDR_SIZE in
        rate ← div_u64 (saturating_mul_u64 total 1000000) elapsed_us;
        Ret (e <| ire_rate := Some rate |> <| ire_pkts := 0 |> <| ire_bytes := 0 |>
               <| ire_window_start := Some now |> <| ire_period := INPUTRATE_RUNNING |>)
      else Ret e
  end.

Definition InputRateEstimator_ceiling_input (e : InputRateEstimator) : Z :=
  default BW_INFINITE (ire_rate e).

Definition InputRateEstimator_measured (e : InputRateEstimator) : Z := default 0 (ire_rate e).

(** ** [Pacer] *)

Inductive PacerMode :=
| PacerFixed
| PacerEstimated (est : InputRateEstimator) (min overhead_pct : Z).

Record Pacer := mkPacer {
  pc_mode : PacerMode;
  pc_max_bw : Z;
  pc_avg_payload : Z;
  pc_period : Z;
  pc_next_send_time : option Z;
  pc_credit : Z
}.

#[export] Instance Pacer_eta : Etable Pacer := fun p =>
  mkPacer (pc_mode p) (pc_max_bw p) (pc_avg_payload p) (pc_period p) (pc_next_send_time p)
    (pc_credit p).

Definition Pacer_recompute_period (p : Pacer) : Pacer :=
  p <| pc_period :=
    from_micros (f64_as_u64
      (f64_div (f64_mul (f64_of_u64 1000000) (f64_of_u64 (pc_avg_payload p + DATA_HDR_SIZE)))
         (f64_of_u64 (Z.max (pc_max_bw p) 1)))) |>.

Definition Pacer_new (bw : Bandwidth) (max_payload : Z) : option Pacer :=
  let make mode max_bw :=
    Some (Pacer_recompute_period (mkPacer mode max_bw (Z.min LIVE_DEF_PAYLOAD max_payload) 0 None 0)) in
  match bw with
  | Unlimited => None
  | Max bytes_per_sec => make PacerFixed bytes_per_sec
  | Input bytes_per_sec overhead_pct => make PacerFixed (with_overhead bytes_per_sec overhead_pct)
  | Estimated min_bytes_per_sec overhead_pct =>
      make (PacerEstimated InputRateEstimator_new min_bytes_per_sec overhead_pct) BW_INFINITE
  end.

Definition Pacer_on_input (p : Pacer) (now payload_len : Z) : panicking Pacer :=
  match pc_mode p with
  | PacerEstimated est min overhead_pct =>
      est ← InputRateEstimator_on_input est now payload_len;
      Ret (p <| pc_mode := PacerEstimated est min overhead_pct |>)
  | PacerFixed => Ret p
  end.

Definition Pacer_refresh (p : Pacer) : Pacer :=
  let p :=
    match pc_mode p with
    | PacerEstimated est min overhead_pct =>
        let bw := with_overhead (Z.max min (InputRateEstimator_ceiling_input est)) overhead_pct in
        if 0 <? bw then p <| pc_max_bw := bw |> else p
    | PacerFixed => p
    end in
  Pacer_recompute_period p.

Definition Pacer_on_send (p : Pacer) (now payload_len : Z) (probe : bool) : Pacer :=
  let p := p <| pc_avg_payload := avg_iir 128 (pc_avg_payload p) payload_len |> in
  if probe then p <| pc_next_send_time := Some now |>
  else if pc_period p <=? pc_credit p then
    p <| pc_next_send_time := Some now |> <| pc_credit := pc_credit p - pc_period p |>
  else
    p <| pc_next_send_time := Some (now + (pc_period p - pc_credit p)) |> <| pc_credit := 0 |>.

Definition Pacer_on_nothing_to_send (p : Pacer) : Pacer :=
  p <| pc_next_send_time := None |> <| pc_credit := 0 |>.

Definition Pacer_deadline (p : Pacer) : option Z := pc_next_send_time p.

Definition Pacer_period_us (p : Pacer) : Z := as_micros (pc_period p).

Definition Pacer_input_rate (p : Pacer) : Z :=
  match pc_mode p with
  | PacerEstimated est _ _ => InputRateEstimator_measured est
  | PacerFixed => 0
  end.

(** The gate at the head of [Sender::poll_transmit]: [None] while the
    schedule is in the future, else the lateness is credited. *)
Definition Pacer_gate (p : Pacer) (now : Z) : option Pacer :=
  match pc_next_send_time p with
  | Some t => if now <? t then None else Some (p <| pc_credit := pc_credit p + (now - t) |>)
  | None => Some p
  end.

(** ** Runs and invariant *)

(** A busy run: each packet [(now, payload_len, probe)] passes the gate and
    is sent; [None] when the gate blocks one. *)
Fixpoint paced_run (p : Pacer) (sends : list (Z * Z * bool)) : option Pacer :=
  match sends with
  | [] => Some p
  | (now, len, probe) :: r =>
      match Pacer_gate p now with
      | Some p => paced_run (Pacer_on_send p now len probe) r
      | None => None
      end
  end.

(** The packets of a run that take a paced slot. *)
Definition paced_slots (sends : list (Z * Z * bool)) : Z :=
  Z.of_nat (length (filter (fun x => snd x = false) sends)).

Definition overhead_valid (pct : Z) : Prop := 5 <= pct <= 100.

Definition InputRateEstimator_wf (e : InputRateEstimator) : Prop :=
  0 <= ire_pkts e /\ 0 <= ire_bytes e /\ 0 <= ire_period e /\
  match ire_rate e with Some r => is_u64 r | None => True end.

Definition Pacer_wf (p : Pacer) : Prop :=
  0 < pc_max_bw p <= U64_MAX /\ 0 <= pc_avg_payload p /\ 0 <= pc_period p /\ 0 <= pc_credit p /\
  match pc_mode p with
  | PacerEstimated est min pct => InputRateEstimator_wf est /\ is_u64 min /\ overhead_valid pct
  | PacerFixed => True
  end.

(** Rates and percentages in the range of their Rust types. *)
Definition Bandwidth_wf (b : Bandwidth) : Prop :=
  match b with
  | Unlimited => True
  | Max r => is_u64 r
  | Input r pct | Estimated r pct => is_u64 r /\ is_u8 pct
  end.

(** ** Lemmas *)

Lemma with_overhead_range base pct :
  0 <= base -> 0 <= pct -> 0 <= with_overhead base pct <= U64_MAX.
Proof.
  intros. unfold with_overhead, saturating_mul_u64, U64_MAX. split.
  - apply Z.div_pos; [|lia]. apply Z.min_glb; [lia|]. apply Z.mul_nonneg_nonneg; lia.
  - apply Z.div_le_upper_bound; lia.
Qed.

Lemma with_overhead_pos base pct : 1 <= base -> 0 <= pct -> 0 < with_overhead base pct.
Proof.
  intros. unfold with_overhead, saturating_mul_u64, U64_MAX.
  apply Z.lt_le_trans with 1; [lia|]. apply Z.div_le_lower_bound; [lia|]. apply Z.min_glb; nia.
Qed.

Lemma f64_as_u64_nonneg x : 0 <= f64_as_u64 x.
Proof.
  destruct x as [s|s| |s m e]; cbn; try lia; destruct s; try (unfold U64_MAX; lia).
  apply Z.min_glb; [unfold U64_MAX; lia|]. apply Z.shiftl_nonneg. lia.
Qed.

Lemma recompute_period_fields p :
  pc_mode (Pacer_recompute_period p) = pc_mode p /\ pc_max_bw (Pacer_recompute_period p) = pc_max_bw p /\
  pc_avg_payload (Pacer_recompute_period p) = pc_avg_payload p /\
  pc_next_send_time (Pacer_recompute_period p) = pc_next_send_time p /\
  pc_credit (Pacer_recompute_period p) = pc_credit p /\ 0 <= pc_period (Pacer_recompute_period p).
Proof.
  repeat (split; [done|]). unfold Pacer_recompute_period. unfold_set. cbn [pc_period].
  unfold from_micros.
  match goal with |- context [f64_as_u64 ?x] => pose proof (f64_as_u64_nonneg x) end. lia.
Qed.

Lemma recompute_period_wf p :
  0 < pc_max_bw p <= U64_MAX -> 0 <= pc_avg_payload p -> 0 <= pc_credit p ->
  match pc_mode p with
  | PacerEstimated est min pct => InputRateEstimator_wf est /\ is_u64 min /\ overhead_valid pct
  | PacerFixed => True
  end -> Pacer_wf (Pacer_recompute_period p).
Proof.
  intros Hbw Havg Hcr Hm. destruct (recompute_period_fields p) as (Em & Eb & Ea & _ & Ec & Hp).
  unfold Pacer_wf. rewrite Em, Eb, Ea, Ec. done.
Qed.

Lemma on_input_ok e now len :
  InputRateEstimator_wf e -> 0 <= len ->
  exists e', InputRateEstimator_on_input e now len = Ret e' /\ InputRateEstimator_wf e'.
Proof.
  intros (Hp & Hb & Hper & Hr) Hlen. unfold InputRateEstimator_on_input.
  destruct (ire_window_start e) as [start|]; [|by eexists]. unfold_set.
  cbn [ire_pkts ire_bytes ire_period ire_rate]. case_if.
  - to_prop. unfold div_u64. set (el := as_u64 (as_micros (duration_since now start))) in *.
    destruct (Z.eqb_spec el 0); [lia|]. cbn [mbind panicking_bind]. eexists. split; [done|].
    assert (0 <= saturating_mul_u64 (ire_bytes e + len + (ire_pkts e + 1) * DATA_HDR_SIZE) 1000000
      <= U64_MAX) by (unfold saturating_mul_u64, DATA_HDR_SIZE, U64_MAX; lia).
    set (sat := saturating_mul_u64 _ _) in *. clearbody sat el.
    unfold InputRateEstimator_wf, is_u64. cbn [ire_pkts ire_bytes ire_period ire_rate].
    split_and!; try done.
    + apply Z.div_pos; lia.
    + apply Z.div_lt_upper_bound; unfold U64_MAX in *; nia.
  - eexists. split; [done|]. by split_and!; cbn; try lia.
Qed.

Lemma Pacer_new_wf bw max_payload p :
  Bandwidth_validate bw = Ok tt -> Bandwidth_wf bw -> 0 <= max_payload ->
  Pacer_new bw max_payload = Some p -> Pacer_wf p.
Proof.
  unfold Bandwidth_validate, Pacer_new, overhead_ok, Bandwidth_wf, is_u64, is_u8, LIVE_DEF_PAYLOAD.
  intros Hv Hwf Hmp Hp. destruct bw as [|r|r pct|r pct]; simplify_eq; repeat case_if; to_prop; try done;
    apply recompute_period_wf; cbn [pc_max_bw pc_avg_payload pc_credit pc_mode]; try done; try lia.
  - unfold U64_MAX. lia.
  - split; [apply with_overhead_pos; lia | apply with_overhead_range; lia].
  - split_and!; unfold is_u64, overhead_valid; try lia; cbn; try done.
Qed.

Lemma Pacer_on_input_wf p now len :
  Pacer_wf p -> 0 <= len -> exists p', Pacer_on_input p now len = Ret p' /\ Pacer_wf p'.
Proof.
  intros (Hbw & Havg & Hper & Hcr & Hm) Hlen. unfold Pacer_on_input.
  destruct (pc_mode p) as [|est min pct] eqn:Em.
  - eexists. split; [done|]. unfold Pacer_wf. by rewrite Em.
  - destruct Hm as (He & Hmin & Hpct). destruct (on_input_ok est now len He Hlen) as (e' & -> & He').
    eexists. split; [done|]. unfold_set. unfold Pacer_wf.
    by cbn [pc_max_bw pc_avg_payload pc_period pc_credit pc_mode].
Qed.

Lemma Pacer_refresh_wf p : Pacer_wf p -> Pacer_wf (Pacer_refresh p).
Proof.
  intros (Hbw & Havg & Hper & Hcr & Hm). unfold Pacer_refresh.
  destruct (pc_mode p) as [|est min pct] eqn:Em; [apply recompute_period_wf; try done; by rewrite Em|].
  destruct Hm as ((Hp & Hb & Hpe & Hr) & Hmin & Hpct).
  set (base := Z.max min _). assert (0 <= base).
  { unfold base, is_u64 in *. lia. }
  pose proof (with_overhead_range base pct) as Hrange. unfold overhead_valid in *.
  case_if; to_prop; apply recompute_period_wf; unfold_set; cbn [pc_max_bw pc_avg_payload pc_credit pc_mode];
    try done; try lia; rewrite ?Em; by split_and!.
Qed.

Lemma avg_iir_nonneg old sample : 0 <= old -> 0 <= sample -> 0 <= avg_iir 128 old sample.
Proof. intros. unfold avg_iir. apply Z.div_pos; lia. Qed.

Lemma Pacer_on_send_wf p now len probe :
  Pacer_wf p -> 0 <= len -> Pacer_wf (Pacer_on_send p now len probe).
Proof.
  intros (Hbw & Havg & Hper & Hcr & Hm) Hlen. unfold Pacer_on_send. unfold_set.
  pose proof (avg_iir_nonneg _ _ Havg Hlen). cbn [pc_period pc_credit pc_mode].
  destruct probe; [|case_if]; to_prop; split_and!; cbn [pc_max_bw pc_avg_payload pc_period pc_credit pc_mode];
    done || lia.
Qed.

Lemma Pacer_gate_wf p now p' : Pacer_wf p -> Pacer_gate p now = Some p' -> Pacer_wf p'.
Proof.
  intros (Hbw & Havg & Hper & Hcr & Hm). unfold Pacer_gate.
  destruct (pc_next_send_time p); [case_if; [done|]|]; intros [= <-]; to_prop; unfold_set;
    split_and!; cbn [pc_max_bw pc_avg_payload pc_period pc_credit pc_mode]; done || lia.
Qed.

(** The virtual schedule [next_send_time - credit] after one gated send. *)
Lemma gated_send_advances p t now len probe p1 :
  pc_next_send_time p = Some t -> Pacer_gate p now = Some p1 ->
  let p2 := Pacer_on_send p1 now len probe in
  t <= now /\ pc_period p2 = pc_period p /\
  exists t2, pc_next_send_time p2 = Some t2 /\ now <= Z.max t2 now /\
    t2 - pc_credit p2 = t - pc_credit p + (if probe then 0 else pc_period p).
Proof.
  intros Ht. unfold Pacer_gate. rewrite Ht. case_if; [done|]. intros [= <-]. to_prop.
  unfold Pacer_on_send. unfold_set. cbn [pc_period pc_credit].
  split; [lia|]. destruct probe; [|case_if]; to_prop; cbn [pc_period pc_credit pc_next_send_time];
    (split; [done|]); eexists; (split; [done|]); lia.
Qed.

Lemma paced_run_schedule sends : forall p t p',
  pc_next_send_time p = Some t -> paced_run p sends = Some p' ->
  pc_period p' = pc_period p /\
  exists t', pc_next_send_time p' = Some t' /\
    t' - pc_credit p' = t - pc_credit p + paced_slots sends * pc_period p.
Proof.
  induction sends as [|[[now len] probe] sends IH]; intros p t p' Ht Hrun.
  - injection Hrun as <-. split; [done|]. exists t. split; [done|]. unfold paced_slots. cbn. lia.
  - cbn [paced_run] in Hrun. destruct (Pacer_gate p now) as [p1|] eqn:Hg; [|done].
    destruct (gated_send_advances p t now len probe p1 Ht Hg) as (_ & Hper & t2 & Ht2 & _ & Hv).
    destruct (IH _ _ _ Ht2 Hrun) as (Hper' & t' & Ht' & Hv').
    split; [congruence|]. exists t'. split; [done|]. rewrite Hv', Hv, Hper.
    unfold paced_slots. rewrite filter_cons. cbn [snd]. destruct probe.
    + rewrite decide_False by done. lia.
    + rewrite decide_True by done. cbn [length]. lia.
Qed.

Lemma paced_run_snoc sends x p :
  paced_run p (sends ++ [x]) =
  match paced_run p sends with Some p1 => paced_run p1 [x] | None => None end.
Proof.
  revert p. induction sends as [|[[now len] probe] sends IH]; intros p; [done|].
  cbn [app paced_run]. destruct (Pacer_gate p now); [apply IH|done].
Qed.

Lemma paced_run_wf sends : forall p p',
  Pacer_wf p -> Forall (fun x => 0 <= snd (fst x)) sends -> paced_run p sends = Some p' -> Pacer_wf p'.
Proof.
  induction sends as [|[[now len] probe] sends IH]; intros p p' Hwf Hl Hrun; [by injection Hrun as <-|].
  cbn [paced_run] in Hrun. apply Forall_cons in Hl as [Hlen Hl]. cbn in Hlen.
  destruct (Pacer_gate p now) as [p1|] eqn:Hg; [|done].
  apply (IH _ _ (Pacer_on_send_wf _ now _ probe (Pacer_gate_wf _ _ _ Hwf Hg) Hlen) Hl Hrun).
Qed.

(** ** Properties *)

(** C35: the pacer enforces its rate over any busy run: if every packet of a
    run passed the gate, then by the time [now] of the last one, the paced
    packets before it account for no more than the time since the start of
    the schedule (less the credit it began with), one whole send interval
    each.  Lateness is caught up but never more than that, and probe
    packets (sent back-to-back) do not take a slot. *)
Theorem paced_run_keeps_rate (p : Pacer) (t : Z) (sends : list (Z * Z * bool)) (now len : Z)
    (probe : bool) (p' : Pacer) :
  Pacer_wf p -> Forall (fun x => 0 <= snd (fst x)) sends -> pc_next_send_time p = Some t ->
  paced_run p (sends ++ [(now, len, probe)]) = Some p' ->
  paced_slots sends * pc_period p <= now - (t - pc_credit p).
Proof.
  intros Hwf Hl Ht. rewrite paced_run_snoc.
  destruct (paced_run p sends) as [p1|] eqn:Hrun; [|done]. cbn [paced_run].
  destruct (paced_run_schedule _ _ _ _ Ht Hrun) as (_ & t1 & Ht1 & Hv).
  destruct (paced_run_wf _ _ _ Hwf Hl Hrun) as (_ & _ & _ & Hcr & _).
  unfold Pacer_gate. rewrite Ht1. case_if; [done|]. to_prop. intros _. lia.
Qed.

Lemma paced_run_keeps_rate_witness :
  let p := mkPacer PacerFixed 1000000 1316 1000 (Some 5000) 0 in
  paced_slots [(6500, 100, false); (6500, 100, false)] * 1000 <= 7600 - (5000 - 0).
Proof.
  intros p.
  refine (paced_run_keeps_rate p 5000 [(6500, 100, false); (6500, 100, false)] 7600 100 false _
    _ _ _ _); [| |reflexivity|vm_compute; reflexivity].
  - unfold Pacer_wf, U64_MAX; cbn; lia.
  - repeat constructor; cbn; lia.
Defined.

(** a pacer built from options that validate never has a zero ceiling:
    the input estimator's window division and the interval's division are
    always by a positive number, and every operation keeps the invariant. *)
Theorem pacer_invariant (bw : Bandwidth) (max_payload : Z) (p : Pacer) :
  Bandwidth_validate bw = Ok tt -> Bandwidth_wf bw -> 0 <= max_payload ->
  Pacer_new bw max_payload = Some p ->
  Pacer_wf p /\
  (forall q now len probe, Pacer_wf q -> 0 <= len ->
     (exists q', Pacer_on_input q now len = Ret q' /\ Pacer_wf q') /\ Pacer_wf (Pacer_refresh q) /\
     Pacer_wf (Pacer_on_send q now len probe) /\ Pacer_wf (Pacer_on_nothing_to_send q) /\
     match Pacer_gate q now with Some q' => Pacer_wf q' | None => True end).
Proof.
  intros Hv Hwf Hmp Hp. split; [by apply (Pacer_new_wf bw max_payload)|].
  intros q now len probe Hq Hlen. split_and!.
  - by apply Pacer_on_input_wf.
  - by apply Pacer_refresh_wf.
  - by apply Pacer_on_send_wf.
  - destruct Hq as (? & ? & ? & ? & ?). unfold Pacer_on_nothing_to_send. unfold_set.
    unfold Pacer_wf. cbn [pc_max_bw pc_avg_payload pc_period pc_credit pc_mode].
    split_and!; done || lia.
  - destruct (Pacer_gate q now) eqn:Hg; [by apply (Pacer_gate_wf q now)|done].
Qed.

Lemma pacer_invariant_witness :
  exists p, Pacer_new (Estimated 0 25) 1456 = Some p /\ Pacer_wf p /\ Pacer_wf (Pacer_refresh p).
Proof.
  eexists. split; [reflexivity|].
  destruct (pacer_invariant (Estimated 0 25) 1456 _ eq_refl ltac:(split; split; done)
    ltac:(done) eq_refl) as [Hwf Hops].
  split; [exact Hwf|]. exact (proj1 (proj2 (Hops _ 0 0 false Hwf ltac:(done)))).
Defined.
