(* ===== verification/Sender.v ===== *)
(** * Live-mode data sender: [src/core/sender.rs]

    Send buffer, ARQ, flow window, too-late drop and pacing.  The extended
    indices are [u64]s that count packets from 0 and are unbounded integers
    here; time and durations are nanoseconds.  Operations that index the
    buffer may panic, which the invariant excludes. *)

From S2P Require Import Prelude PacketTypes PacketData PacketHandshake PacketControl Time CryptoKeys CryptoContext Cipher Options Pacing.

(** ** Data *)

Definition ACKACK_THROTTLE : Z := from_millis 10.

Definition TLPKTDROP_MIN_THRESHOLD : Z := from_millis 1000.

Definition TLPKTDROP_REACTION : Z := from_millis 20.

Definition INITIAL_RTT_US : Z := 100000.

Definition INITIAL_RTT_VAR_US : Z := 50000.

Record SenderConfig := mkSenderConfig {
  sc_initial_seq : Z;
  sc_flow_window : Z;
  sc_snd_latency : Z;
  sc_max_payload : nat;
  sc_buffer_pkts : nat;
  sc_bandwidth : Bandwidth;
  sc_timebase : Timebase
}.

Record SenderStats := mkSenderStats {
  ss_pkts_sent : Z;
  ss_bytes_sent : Z;
  ss_pkts_retransmitted : Z;
  ss_pkts_dropped : Z;
  ss_snd_period_us : Z;
  ss_snd_max_bw : Z;
  ss_snd_input_rate : Z
}.

#[export] Instance SenderStats_eta : Etable SenderStats := fun s =>
  mkSenderStats (ss_pkts_sent s) (ss_bytes_sent s) (ss_pkts_retransmitted s) (ss_pkts_dropped s)
    (ss_snd_period_us s) (ss_snd_max_bw s) (ss_snd_input_rate s).

Record BufEntry := mkBufEntry {
  be_msg : Z;
  be_origin : Z;
  be_ts : Z;
  be_last_rexmit : option Z;
  be_encryption : EncryptionFlags;
  be_payload : bytes
}.

#[export] Instance BufEntry_eta : Etable BufEntry := fun e =>
  mkBufEntry (be_msg e) (be_origin e) (be_ts e) (be_last_rexmit e) (be_encryption e) (be_payload e).

(** The loss list is a [BTreeSet<u64>]: a finite set of indices. *)
Record Sender := mkSender {
  sn_cfg : SenderConfig;
  sn_buffer : list BufEntry;
  sn_base_index : Z;
  sn_next_send_index : Z;
  sn_last_ack_index : Z;
  sn_next_msg : Z;
  sn_advertised_window : Z;
  sn_loss_list : gset Z;
  sn_control_queue : list ControlType;
  sn_last_ackack_number : Z;
  sn_last_ackack_time : option Z;
  sn_rtt_us : Z;
  sn_rtt_var_us : Z;
  sn_rtt_adopted : bool;
  sn_protocol_violation : bool;
  sn_pacer : option Pacer;
  sn_stats : SenderStats
}.

#[export] Instance Sender_eta : Etable Sender := fun s =>
  mkSender (sn_cfg s) (sn_buffer s) (sn_base_index s) (sn_next_send_index s) (sn_last_ack_index s)
    (sn_next_msg s) (sn_advertised_window s) (sn_loss_list s) (sn_control_queue s)
    (sn_last_ackack_number s) (sn_last_ackack_time s) (sn_rtt_us s) (sn_rtt_var_us s)
    (sn_rtt_adopted s) (sn_protocol_violation s) (sn_pacer s) (sn_stats s).

(** ** Standard collections *)

(** [VecDeque::drain(.. n)] panics past the end. *)
Definition drain_front {A} (l : list A) (n : nat) : panicking (list A) :=
  if (n <=? length l)%nat then Ret (drop n l) else Panic.

(** [BTreeSet::pop_first] and [split_off]. *)
Definition pop_first (s : gset Z) : option (Z * gset Z) :=
  match elements s with
  | [] => None
  | x :: l => let m := foldr Z.min x l in Some (m, s ∖ {[ m ]})
  end.

Definition split_off (s : gset Z) (at_ : Z) : gset Z := filter (fun i => at_ <= i) s.

(** The loop [for i in lo ..= hi { set.insert(i) }]. *)
Definition insert_range (s : gset Z) (lo hi : Z) : gset Z :=
  fold_left (fun s i => {[ i ]} ∪ s) (seqZ lo (hi - lo + 1)) s.

(** [Iterator::take_while(..).count()]. *)
Fixpoint count_while {A} (f : A -> bool) (l : list A) : nat :=
  match l with
  | x :: r => if f x then S (count_while f r) else O
  | [] => O
  end.

(** ** Operations *)

Definition Sender_new (cfg : SenderConfig) : Sender :=
  mkSender cfg [] 0 0 0 (MsgNumber_new 1) (sc_flow_window cfg) ∅ [] 0 None INITIAL_RTT_US
    INITIAL_RTT_VAR_US false false
    (Pacer_new (sc_bandwidth cfg) (Z.of_nat (sc_max_payload cfg))) (mkSenderStats 0 0 0 0 0 0 0).

Definition Sender_flight (s : Sender) : Z :=
  saturating_sub (sn_next_send_index s) (sn_last_ack_index s).

Definition Sender_effective_window (s : Sender) : Z :=
  Z.min (sc_flow_window (sn_cfg s)) (sn_advertised_window s).

Definition Sender_seq_at (s : Sender) (idx : Z) : Z :=
  SeqNumber_new (as_u32 (sc_initial_seq (sn_cfg s) + idx)).

Definition Sender_ext_of (s : Sender) (seq : Z) : Z :=
  sn_base_index s + SeqNumber_diff seq (Sender_seq_at s (sn_base_index s)).

Definition Sender_packet_at (s : Sender) (idx : Z) (retransmitted : bool) : panicking DataPacket :=
  entry ← index (sn_buffer s) (Z.to_nat (idx - sn_base_index s));
  Ret (mkDataPacket (Sender_seq_at s idx) Only false (be_encryption entry) retransmitted
    (be_msg entry) (be_ts entry) 0 (be_payload entry)).

Definition Sender_drop_threshold (s : Sender) : Z :=
  Z.max (sc_snd_latency (sn_cfg s)) TLPKTDROP_MIN_THRESHOLD + TLPKTDROP_REACTION.

Definition Sender_drop_front (s : Sender) (n : nat) (announce : bool) : panicking Sender :=
  let first := Sender_seq_at s (sn_base_index s) in
  let last := Sender_seq_at s (sn_base_index s + Z.of_nat n - 1) in
  buffer ← drain_front (sn_buffer s) n;
  let s := s <| sn_buffer := buffer |> <| sn_base_index := sn_base_index s + Z.of_nat n |> in
  let s := if sn_next_send_index s <? sn_base_index s
           then s <| sn_next_send_index := sn_base_index s |> else s in
  let s := if sn_last_ack_index s <? sn_base_index s
           then s <| sn_last_ack_index := sn_base_index s |> else s in
  let s := s <| sn_loss_list := split_off (sn_loss_list s) (sn_base_index s) |> in
  let s := s <| sn_stats := sn_stats s <| ss_pkts_dropped := ss_pkts_dropped (sn_stats s) + Z.of_nat n |> |> in
  Ret (if announce
       then s <| sn_control_queue := sn_control_queue s ++ [DropRequest (MsgNumber_new 0) first last] |>
       else s).

Definition Sender_check_tlpktdrop (s : Sender) (now : Z) : panicking Sender :=
  match head (sn_buffer s), list.last (sn_buffer s) with
  | Some front, Some back =>
      let threshold := Sender_drop_threshold s in
      if duration_since (be_origin back) (be_origin front) <=? threshold then Ret s else
      let n := count_while (fun e => threshold <=? duration_since now (be_origin e)) (sn_buffer s) in
      if (0 <? n)%nat then Sender_drop_front s n true else Ret s
  | _, _ => Ret s
  end.

(** [while !self.buffer.is_empty() && cond { self.drop_front(1, false, ..) }]. *)
Fixpoint Sender_drop_while (fuel : nat) (cond : Sender -> bool) (s : Sender) : panicking Sender :=
  match fuel with
  | O => Panic
  | S fuel =>
      if negb (length (sn_buffer s) =? 0)%nat && cond s
      then s ← Sender_drop_front s 1 false; Sender_drop_while fuel cond s
      else Ret s
  end.

Definition pacer_map (f : Pacer -> Pacer) (s : Sender) : Sender := s <| sn_pacer := f <$> sn_pacer s |>.

Definition Sender_push {C} `{PayloadCipher C} (s : Sender) (now : Z) (payload : bytes)
    (crypto : option C) : panicking (Sender * option C * result SrtError unit) :=
  if (sc_max_payload (sn_cfg s) <? length payload)%nat
  then Ret (s, crypto, Err (PayloadTooLarge (length payload))) else
  s ← (match sn_pacer s with
       | Some p => p ← Pacer_on_input p now (Z.of_nat (length payload));
                   Ret (s <| sn_pacer := Some p |>)
       | None => Ret s
       end);
  s ← Sender_check_tlpktdrop s now;
  s ← Sender_drop_while (S (length (sn_buffer s)))
        (fun s => (sc_buffer_pkts (sn_cfg s) <=? length (sn_buffer s))%nat) s;
  s ← Sender_drop_while (S (length (sn_buffer s)))
        (fun s => Sender_effective_window s <=? Sender_flight s) s;
  let idx := sn_base_index s + Z.of_nat (length (sn_buffer s)) in
  let msg := sn_next_msg s in
  let succ := MsgNumber_next msg in
  let s := s <| sn_next_msg := if succ =? 0 then MsgNumber_new 1 else succ |> in
  enc ← (match crypto with
         | Some c =>
             if negb (length payload =? 0)%nat then
               x ← cipher_encrypt c (Sender_seq_at s idx) payload;
               let '(c, payload, kk) := x in Ret (Some c, payload, kk)
             else Ret (Some c, payload, EncNone)
         | None => Ret (None, payload, EncNone)
         end);
  let '(crypto, payload, encryption) := enc in
  let ts := Timebase_timestamp (sc_timebase (sn_cfg s)) now in
  Ret (s <| sn_buffer := sn_buffer s ++ [mkBufEntry msg now ts None encryption payload] |>,
       crypto, Ok tt).

Definition is_none {A} (o : option A) : bool := match o with None => true | Some _ => false end.

(** The steps of [handle_ack]: releasing the buffer, adopting the peer's RTT
    pair, deciding on the ACKACK, and moving the window. *)
Definition Sender_release (s : Sender) (ack_ext : Z) : panicking Sender :=
  if sn_base_index s <? ack_ext then
    let n := Z.min (ack_ext - sn_base_index s) (Z.of_nat (length (sn_buffer s))) in
    buffer ← drain_front (sn_buffer s) (Z.to_nat n);
    let s := s <| sn_buffer := buffer |> <| sn_base_index := sn_base_index s + n |> in
    Ret (s <| sn_loss_list := split_off (sn_loss_list s) (sn_base_index s) |>)
  else Ret s.

Definition Sender_light_ack (s : Sender) (ack_ext : Z) : Sender :=
  if sn_last_ack_index s <=? ack_ext then
    let off := ack_ext - sn_last_ack_index s in
    s <| sn_advertised_window := saturating_sub (sn_advertised_window s) (Z.min off U32_MAX) |>
      <| sn_last_ack_index := ack_ext |>
  else s.

Definition Sender_adopt_rtt (s : Sender) (cif : AckCif) : Sender :=
  match ack_rtt_us cif, ack_rtt_var_us cif with
  | Some rtt, Some rtt_var =>
      if sn_rtt_adopted s || (negb (rtt =? INITIAL_RTT_US) && negb (rtt_var =? INITIAL_RTT_VAR_US))
      then s <| sn_rtt_us := rtt |> <| sn_rtt_var_us := rtt_var |> <| sn_rtt_adopted := true |>
      else s
  | _, _ => s
  end.

Definition Sender_reply_ackack (s : Sender) (now ack_number : Z) : Sender * option Z :=
  let throttle_open :=
    match sn_last_ackack_time s with
    | None => true
    | Some t => ACKACK_THROTTLE <? duration_since now t
    end in
  if throttle_open || (ack_number =? sn_last_ackack_number s)
  then (s <| sn_last_ackack_number := ack_number |> <| sn_last_ackack_time := Some now |>,
        Some ack_number)
  else (s, None).

Definition Sender_adopt_window (s : Sender) (cif : AckCif) (ack_ext : Z) : Sender :=
  if sn_last_ack_index s <=? ack_ext then
    let s := match ack_avail_buf_pkts cif with
             | Some avail => s <| sn_advertised_window := avail |>
             | None => s
             end in
    s <| sn_last_ack_index := ack_ext |>
  else s.

Definition Sender_handle_ack (s : Sender) (now ack_number : Z) (cif : AckCif)
    : panicking (Sender * result SrtError (option Z)) :=
  let ack_ext := Sender_ext_of s (ack_last_ack_seq cif) in
  let is_light := is_none (ack_rtt_us cif) in
  if sn_next_send_index s <? ack_ext
  then Ret (s <| sn_protocol_violation := true |>, Err (Closed CloseLocal)) else
  s ← Sender_release s ack_ext;
  if is_light then Ret (Sender_light_ack s ack_ext, Ok None) else
  let s := Sender_adopt_rtt s cif in
  let '(s, ackack) := Sender_reply_ackack s now ack_number in
  let s := Sender_adopt_window s cif ack_ext in
  Ret (pacer_map Pacer_refresh s, Ok ackack).

(** The loop over the NAK's ranges; [false] when it returned early. *)
Fixpoint Sender_nak_loop (s : Sender) (ranges : list LossRange) : Sender * bool :=
  match ranges with
  | [] => (s, true)
  | range :: rest =>
      let lo := Sender_ext_of s (lr_first range) in
      let hi := Sender_ext_of s (lr_last range) in
      if (hi <? lo) || (sn_next_send_index s <=? hi)
      then (s <| sn_protocol_violation := true |>, false) else
      let last_ack := sn_last_ack_index s in
      let s :=
        if last_ack <=? lo then s <| sn_loss_list := insert_range (sn_loss_list s) lo hi |>
        else if last_ack <=? hi then s <| sn_loss_list := insert_range (sn_loss_list s) last_ack hi |>
        else if negb (lr_first range =? lr_last range) then
          s <| sn_control_queue :=
            sn_control_queue s ++ [DropRequest (MsgNumber_new 0) (lr_first range) (lr_last range)] |>
        else s in
      Sender_nak_loop s rest
  end.

Definition Sender_handle_nak (s : Sender) (ranges : list LossRange) : Sender :=
  let '(s, completed) := Sender_nak_loop s ranges in
  if completed then pacer_map Pacer_refresh s else s.

Definition Sender_on_timer (s : Sender) (now : Z) : panicking Sender :=
  s ← Sender_check_tlpktdrop s now;
  Ret (pacer_map Pacer_refresh s).

Definition count_sent (s : Sender) (pkt : DataPacket) (rexmit : bool) : Sender :=
  let st := sn_stats s in
  let st := st <| ss_pkts_sent := ss_pkts_sent st + 1 |>
               <| ss_bytes_sent := ss_bytes_sent st + Z.of_nat (length (dp_payload pkt)) |> in
  s <| sn_stats := if rexmit then st <| ss_pkts_retransmitted := ss_pkts_retransmitted st + 1 |> else st |>.

(** The retransmission loop [while let Some(index) = self.loss_list.pop_first()]. *)
Fixpoint Sender_rexmit_loop (fuel : nat) (s : Sender) (now rexmit_window : Z)
    : panicking (Sender * option DataPacket) :=
  match fuel with
  | O => Panic
  | S fuel =>
      match pop_first (sn_loss_list s) with
      | None => Ret (s, None)
      | Some (idx, rest) =>
          let s := s <| sn_loss_list := rest |> in
          if (idx <? sn_base_index s) || (sn_next_send_index s <=? idx)
          then Sender_rexmit_loop fuel s now rexmit_window else
          let slot := Z.to_nat (idx - sn_base_index s) in
          entry ← index (sn_buffer s) slot;
          if (match be_last_rexmit entry with
              | Some last => duration_since now last <? rexmit_window
              | None => false
              end)
          then Sender_rexmit_loop fuel s now rexmit_window else
          let s := s <| sn_buffer := <[ slot := entry <| be_last_rexmit := Some now |> ]> (sn_buffer s) |> in
          pkt ← Sender_packet_at s idx true;
          let s := count_sent s pkt true in
          let s := pacer_map
            (fun p => Pacer_on_send p now (Z.of_nat (length (dp_payload pkt))) false) s in
          Ret (s, Some pkt)
      end
  end.

Definition Sender_poll_transmit (s : Sender) (now : Z) : panicking (Sender * option DataPacket) :=
  match (match sn_pacer s with
         | Some p => match Pacer_gate p now with Some p => Some (Some p) | None => None end
         | None => Some None
         end) with
  | None => Ret (s, None)
  | Some pacer =>
      let s := s <| sn_pacer := pacer |> in
      let rexmit_window := from_micros (saturating_sub (sn_rtt_us s) (4 * sn_rtt_var_us s)) in
      r ← Sender_rexmit_loop (S (size (sn_loss_list s))) s now rexmit_window;
      let '(s, pkt) := r in
      match pkt with
      | Some pkt => Ret (s, Some pkt)
      | None =>
          let end_index := sn_base_index s + Z.of_nat (length (sn_buffer s)) in
          if (sn_next_send_index s <? end_index) && (Sender_flight s <? Sender_effective_window s) then
            let idx := sn_next_send_index s in
            let s := s <| sn_next_send_index := sn_next_send_index s + 1 |> in
            pkt ← Sender_packet_at s idx false;
            let s := count_sent s pkt false in
            let probe := Z.land (dp_seq pkt) 0xF =? 0 in
            let s := pacer_map
              (fun p => Pacer_on_send p now (Z.of_nat (length (dp_payload pkt))) probe) s in
            Ret (s, Some pkt)
          else Ret (pacer_map Pacer_on_nothing_to_send s, None)
      end
  end.

Definition Sender_poll_control (s : Sender) : Sender * option ControlType :=
  match sn_control_queue s with
  | [] => (s, None)
  | c :: r => (s <| sn_control_queue := r |>, Some c)
  end.

Definition Sender_next_deadline (s : Sender) : option Z :=
  let threshold := Sender_drop_threshold s in
  let drop :=
    match head (sn_buffer s), list.last (sn_buffer s) with
    | Some front, Some back =>
        if threshold <? duration_since (be_origin back) (be_origin front)
        then Some (be_origin front + threshold) else None
    | _, _ => None
    end in
  let pace := sn_pacer s ≫= Pacer_deadline in
  match drop, pace with
  | Some d, Some p => Some (Z.min d p)
  | Some d, None => Some d
  | None, p => p
  end.

Definition Sender_get_stats (s : Sender) : SenderStats :=
  let stats := sn_stats s in
  match sn_pacer s with
  | Some p => stats <| ss_snd_period_us := Pacer_period_us p |> <| ss_snd_max_bw := pc_max_bw p |>
                    <| ss_snd_input_rate := Pacer_input_rate p |>
  | None => stats
  end.

Definition Sender_rtt (s : Sender) : Z * Z := (sn_rtt_us s, sn_rtt_var_us s).

(** ** Invariant *)

Definition BufEntry_wf (max_payload : nat) (e : BufEntry) : Prop :=
  1 <= be_msg e < 2 ^ 26 /\ is_u32 (be_ts e) /\ (length (be_payload e) <= max_payload)%nat.

Definition Sender_end (s : Sender) : Z := sn_base_index s + Z.of_nat (length (sn_buffer s)).

Definition SenderConfig_wf (c : SenderConfig) : Prop :=
  SeqNumber_wf (sc_initial_seq c) /\ 0 <= sc_flow_window c.

Definition Sender_wf (s : Sender) : Prop :=
  SenderConfig_wf (sn_cfg s) /\ 0 <= sn_base_index s /\
  sn_last_ack_index s = sn_base_index s /\
  sn_base_index s <= sn_next_send_index s <= Sender_end s /\
  sn_next_send_index s - sn_base_index s <= sc_flow_window (sn_cfg s) /\
  (forall i, i ∈ sn_loss_list s -> sn_base_index s <= i < sn_next_send_index s) /\
  (length (sn_buffer s) <= Nat.max 1 (sc_buffer_pkts (sn_cfg s)))%nat /\
  1 <= sn_next_msg s < 2 ^ 26 /\
  Forall (BufEntry_wf (sc_max_payload (sn_cfg s))) (sn_buffer s) /\
  match sn_pacer s with Some p => Pacer_wf p | None => True end.

(** What never changes about a buffered packet: everything but the time of
    its last retransmission. *)
Definition content (s : Sender) (idx : Z) : option (Z * Z * EncryptionFlags * bytes) :=
  if idx <? sn_base_index s then None
  else (fun e => (be_msg e, be_ts e, be_encryption e, be_payload e)) <$>
       sn_buffer s !! Z.to_nat (idx - sn_base_index s).

Definition packet_of (s : Sender) (idx : Z) (c : Z * Z * EncryptionFlags * bytes) (rexmit : bool)
    : DataPacket :=
  let '(msg, ts, enc, payload) := c in
  mkDataPacket (Sender_seq_at s idx) Only false enc rexmit msg ts 0 payload.

(** [s'] still has every packet of [s] that it has not released. *)
Definition extends (s s' : Sender) : Prop :=
  sn_cfg s' = sn_cfg s /\ sn_base_index s <= sn_base_index s' /\ Sender_end s <= Sender_end s' /\
  sn_next_send_index s <= sn_next_send_index s' /\
  forall idx, sn_base_index s' <= idx < Sender_end s -> content s' idx = content s idx.

(** ** Collections *)

Lemma elem_of_insert_range s lo hi i :
  i ∈ insert_range s lo hi <-> i ∈ s \/ lo <= i <= hi.
Proof.
  unfold insert_range.
  assert (forall (l : list Z) (s0 : gset Z), i ∈ fold_left (fun s i => {[ i ]} ∪ s) l s0 <-> i ∈ s0 \/ i ∈ l) as H.
  { induction l as [|x l IH]; intros s0; cbn; [set_solver|]. rewrite IH. set_solver. }
  rewrite H, elem_of_seqZ. split; (intros [?|?]; [by left | right; lia]).
Qed.

Lemma elem_of_split_off s b i : i ∈ split_off s b <-> i ∈ s /\ b <= i.
Proof. unfold split_off. rewrite elem_of_filter. tauto. Qed.

Lemma pop_first_spec s :
  match pop_first s with
  | None => s = ∅
  | Some (m, rest) => m ∈ s /\ (forall i, i ∈ s -> m <= i) /\ rest = s ∖ {[ m ]} /\
      (size rest < size s)%nat
  end.
Proof.
  unfold pop_first. destruct (elements s) as [|x l] eqn:He.
  { by apply elements_empty_inv, leibniz_equiv in He. }
  assert (Hm : foldr Z.min x l ∈ x :: l /\ forall i, i ∈ x :: l -> foldr Z.min x l <= i).
  { clear He. induction l as [|y l [IH1 IH2]]; cbn.
    - split; [set_solver|]. intros i Hi. apply list_elem_of_singleton in Hi. lia.
    - split.
      + destruct (Z.min_spec y (foldr Z.min x l)) as [[_ ->]|[_ ->]]; set_solver.
      + intros i Hi. apply elem_of_cons in Hi as [->|Hi].
        * specialize (IH2 x ltac:(set_solver)). lia.
        * apply elem_of_cons in Hi as [->|Hi]; [lia|]. specialize (IH2 i ltac:(set_solver)). lia. }
  destruct Hm as [Hin Hmin]. rewrite <- He in *.
  assert (foldr Z.min x l ∈ s) by (by apply elem_of_elements).
  split_and!; [done| |done|].
  - intros i Hi. apply Hmin. by apply elem_of_elements.
  - apply subset_size. set_solver.
Qed.

Lemma drain_front_ok {A} (l : list A) n : (n <= length l)%nat -> drain_front l n = Ret (drop n l).
Proof. intros. unfold drain_front. by destruct (Nat.leb_spec n (length l)); [|lia]. Qed.

Lemma count_while_le {A} (f : A -> bool) l : (count_while f l <= length l)%nat.
Proof. induction l as [|x l IH]; cbn; [lia|]. case_if; cbn; lia. Qed.

(** ** Indices and sequence numbers *)

Lemma Sender_seq_at_mod s idx :
  Sender_seq_at s idx = (sc_initial_seq (sn_cfg s) + idx) mod 2 ^ 31.
Proof. unfold Sender_seq_at, as_u32. rewrite SeqNumber_new_mod. zify_divmod. Qed.

Lemma Sender_seq_at_wf s idx : SeqNumber_wf (Sender_seq_at s idx).
Proof. apply SeqNumber_new_wf. Qed.

(** The extended index is recovered from the wire within half the circle. *)
Lemma Sender_ext_of_seq_at s idx :
  - 2 ^ 30 <= idx - sn_base_index s < 2 ^ 30 -> Sender_ext_of s (Sender_seq_at s idx) = idx.
Proof.
  intros H. unfold Sender_ext_of. rewrite !Sender_seq_at_mod, SeqNumber_diff_mod. zify_divmod.
Qed.

(** ** Preservation *)

Lemma content_in s idx :
  sn_base_index s <= idx < Sender_end s ->
  exists e, sn_buffer s !! Z.to_nat (idx - sn_base_index s) = Some e /\
    content s idx = Some (be_msg e, be_ts e, be_encryption e, be_payload e).
Proof.
  unfold Sender_end, content. intros H.
  destruct (lookup_lt_is_Some_2 (sn_buffer s) (Z.to_nat (idx - sn_base_index s))) as [e He]; [lia|].
  exists e. split; [done|]. destruct (Z.ltb_spec idx (sn_base_index s)); [lia|]. by rewrite He.
Qed.

Lemma extends_refl s : extends s s.
Proof. split_and!; done || lia. Qed.

Lemma extends_trans s1 s2 s3 : extends s1 s2 -> extends s2 s3 -> extends s1 s3.
Proof.
  intros (C1 & B1 & E1 & N1 & H1) (C2 & B2 & E2 & N2 & H2). split_and!; try congruence; try lia.
  intros idx Hidx. rewrite H2, H1 by lia. done.
Qed.

(** Same buffer, same base: same contents. *)
Lemma extends_same s s' :
  sn_cfg s' = sn_cfg s -> sn_buffer s' = sn_buffer s -> sn_base_index s' = sn_base_index s ->
  sn_next_send_index s <= sn_next_send_index s' -> extends s s'.
Proof.
  intros Hc Hb Hi Hn. unfold extends, Sender_end, content. rewrite Hc, Hb, Hi.
  split_and!; done || lia.
Qed.

(** Releasing [n] packets from the front. *)
Lemma content_drop s s' n :
  sn_buffer s' = drop n (sn_buffer s) -> sn_base_index s' = sn_base_index s + Z.of_nat n ->
  forall idx, sn_base_index s' <= idx -> content s' idx = content s idx.
Proof.
  intros Hb Hi idx Hidx. unfold content. rewrite Hb, Hi in *.
  destruct (Z.ltb_spec idx (sn_base_index s + Z.of_nat n)); [lia|].
  destruct (Z.ltb_spec idx (sn_base_index s)); [lia|]. rewrite lookup_drop. do 2 f_equal. lia.
Qed.

(** Reads the fields of updated states. *)
Ltac sn := cbn [set_field sn_cfg sn_buffer sn_base_index sn_next_send_index sn_last_ack_index
  sn_next_msg sn_advertised_window sn_loss_list sn_control_queue sn_last_ackack_number
  sn_last_ackack_time sn_rtt_us sn_rtt_var_us sn_rtt_adopted sn_protocol_violation sn_pacer sn_stats
  pacer_map count_sent] in *.

(** The state after the first [n] packets are dropped. *)
Lemma Sender_drop_front_fields s n announce :
  (0 < n <= length (sn_buffer s))%nat -> sn_last_ack_index s = sn_base_index s ->
  exists s', Sender_drop_front s n announce = Ret s' /\
    sn_cfg s' = sn_cfg s /\ sn_buffer s' = drop n (sn_buffer s) /\
    sn_base_index s' = sn_base_index s + Z.of_nat n /\
    sn_next_send_index s' = Z.max (sn_next_send_index s) (sn_base_index s + Z.of_nat n) /\
    sn_last_ack_index s' = sn_base_index s + Z.of_nat n /\ sn_next_msg s' = sn_next_msg s /\
    sn_advertised_window s' = sn_advertised_window s /\
    sn_loss_list s' = split_off (sn_loss_list s) (sn_base_index s + Z.of_nat n) /\
    sn_pacer s' = sn_pacer s /\
    sn_control_queue s' = sn_control_queue s ++
      (if announce then [DropRequest 0 (Sender_seq_at s (sn_base_index s))
                           (Sender_seq_at s (sn_base_index s + Z.of_nat n - 1))] else []).
Proof.
  intros Hn Hack. unfold Sender_drop_front. rewrite drain_front_ok by lia. cbn [mbind panicking_bind].
  eexists. split; [done|]. sn.
  destruct (Z.ltb_spec (sn_next_send_index s) (sn_base_index s + Z.of_nat n)); sn;
    destruct (Z.ltb_spec (sn_last_ack_index s) (sn_base_index s + Z.of_nat n)); sn; try lia;
    destruct announce; sn; rewrite ?app_nil_r; split_and!; done || lia.
Qed.

Lemma Sender_drop_front_ok s n announce :
  Sender_wf s -> (0 < n <= length (sn_buffer s))%nat ->
  exists s', Sender_drop_front s n announce = Ret s' /\ Sender_wf s' /\ extends s s' /\
    sn_buffer s' = drop n (sn_buffer s) /\ sn_base_index s' = sn_base_index s + Z.of_nat n /\
    sn_pacer s' = sn_pacer s /\ sn_advertised_window s' = sn_advertised_window s /\
    sn_control_queue s' = sn_control_queue s ++
      (if announce then [DropRequest 0 (Sender_seq_at s (sn_base_index s))
                           (Sender_seq_at s (sn_base_index s + Z.of_nat n - 1))] else []).
Proof.
  intros (Hcfg & Hb0 & Hack & Hnext & Hfl & Hloss & Hlen & Hmsg & Hbuf & Hp) Hn.
  destruct (Sender_drop_front_fields s n announce Hn Hack) as
    (s' & -> & Ecfg & Ebuf & Ebase & Enext & Eack & Emsg & Eadv & Eloss & Epc & Eq).
  pose proof (length_drop (sn_buffer s) n) as Hd. pose proof (proj2 Hcfg) as Hfw.
  exists s'. split; [done|]. split; [|split; [|done]].
  - unfold Sender_wf, Sender_end in *. rewrite Ecfg, Ebuf, Ebase, Enext, Eack, Emsg, Eloss, Epc, Hd.
    split_and!; try done; try lia; [|by apply Forall_drop].
    intros i. rewrite elem_of_split_off. intros [Hi ?]. specialize (Hloss i Hi). lia.
  - unfold extends, Sender_end in *. rewrite Ecfg, Ebase, Enext, Ebuf, Hd.
    split_and!; try done; try lia. intros idx Hidx. apply (content_drop s s' n); [done|done|lia].
Qed.

(** [s'] differs from the well-formed [s] only in fields the invariant does
    not mention. *)
Lemma Sender_wf_same s s' :
  Sender_wf s -> sn_cfg s' = sn_cfg s -> sn_buffer s' = sn_buffer s ->
  sn_base_index s' = sn_base_index s -> sn_next_send_index s' = sn_next_send_index s ->
  sn_last_ack_index s' = sn_last_ack_index s -> sn_loss_list s' ⊆ sn_loss_list s ->
  sn_next_msg s' = sn_next_msg s ->
  match sn_pacer s' with Some p => Pacer_wf p | None => True end -> Sender_wf s'.
Proof.
  intros (Hcfg & Hb0 & Hack & Hnext & Hfl & Hloss & Hlen & Hmsg & Hbuf & Hp) E1 E2 E3 E4 E5 E6 E7 Hp'.
  unfold Sender_wf, Sender_end in *. rewrite E1, E2, E3, E4, E5, E7. split_and!; try done; try lia.
  intros i Hi. apply Hloss. by apply E6.
Qed.

Lemma pacer_map_wf f s :
  Sender_wf s -> (forall p, Pacer_wf p -> Pacer_wf (f p)) -> Sender_wf (pacer_map f s).
Proof.
  intros Hwf Hf. apply (Sender_wf_same s); try done.
  destruct Hwf as (_ & _ & _ & _ & _ & _ & _ & _ & _ & Hp). sn.
  destruct (sn_pacer s); cbn; [by apply Hf|done].
Qed.

Lemma pacer_map_extends f s : extends s (pacer_map f s).
Proof. by apply extends_same. Qed.

Lemma Sender_check_tlpktdrop_ok s now :
  Sender_wf s ->
  exists s', Sender_check_tlpktdrop s now = Ret s' /\ Sender_wf s' /\ extends s s' /\
    Sender_end s' = Sender_end s.
Proof.
  intros Hwf. unfold Sender_check_tlpktdrop.
  assert (Hsame : exists s', Ret s = Ret s' /\ Sender_wf s' /\ extends s s' /\
    Sender_end s' = Sender_end s)
    by (exists s; do 2 (split; [done|]); split; [apply extends_refl|done]).
  destruct (head (sn_buffer s)); [|done]. destruct (list.last (sn_buffer s)); [|done].
  case_if; [done|]. set (n := count_while _ _). destruct (Nat.ltb_spec 0 n) as [Hn|]; [|done].
  assert (Hle : (n <= length (sn_buffer s))%nat) by apply count_while_le.
  destruct (Sender_drop_front_ok s n true Hwf) as (s' & -> & Hwf' & Hext & Hb & Hi & _); [done|].
  exists s'. do 3 (split; [done|]). unfold Sender_end. rewrite Hb, Hi, length_drop. lia.
Qed.

Lemma Sender_drop_while_ok fuel cond : forall s,
  Sender_wf s -> (length (sn_buffer s) < fuel)%nat ->
  exists s', Sender_drop_while fuel cond s = Ret s' /\ Sender_wf s' /\ extends s s' /\
    Sender_end s' = Sender_end s /\ sn_pacer s' = sn_pacer s /\
    (sn_buffer s' = [] \/ cond s' = false).
Proof.
  induction fuel as [|fuel IH]; intros s Hwf Hf; [lia|]. cbn [Sender_drop_while].
  destruct (Nat.eqb_spec (length (sn_buffer s)) 0) as [H0|H0]; cbn [negb andb].
  { exists s. do 2 (split; [done|]). split; [apply extends_refl|]. do 2 (split; [done|]).
    left. by apply nil_length_inv. }
  destruct (cond s) eqn:Hc.
  - destruct (Sender_drop_front_ok s 1 false Hwf) as (s1 & -> & Hwf1 & Hext1 & Hb1 & Hi1 & Hp1 & _); [lia|].
    cbn [mbind panicking_bind]. destruct (IH s1 Hwf1) as (s' & -> & Hwf' & Hext & Hl & Hp & Hstop).
    { rewrite Hb1, length_drop. lia. }
    exists s'. do 2 (split; [done|]). split; [by apply (extends_trans s s1)|].
    split; [|split; [congruence|done]]. rewrite Hl. unfold Sender_end. rewrite Hb1, Hi1, length_drop. lia.
  - exists s. do 2 (split; [done|]). split; [apply extends_refl|]. do 2 (split; [done|]). by right.
Qed.

(** Appending one packet behind the last. *)
Lemma Sender_append_ok s e msg :
  Sender_wf s -> BufEntry_wf (sc_max_payload (sn_cfg s)) e -> 1 <= msg < 2 ^ 26 ->
  (sn_buffer s = [] \/ (length (sn_buffer s) < sc_buffer_pkts (sn_cfg s))%nat) ->
  let s' := s <| sn_next_msg := msg |> <| sn_buffer := sn_buffer s ++ [e] |> in
  Sender_wf s' /\ extends s s'.
Proof.
  intros (Hcfg & Hb0 & Hack & Hnext & Hfl & Hloss & Hlen & Hmsg & Hbuf & Hp) He Hm Hroom s'.
  assert (Hl : length (sn_buffer s ++ [e]) = S (length (sn_buffer s))) by (rewrite length_app; cbn; lia).
  unfold s', Sender_wf, extends, Sender_end, content in *. sn. rewrite Hl. split.
  - split_and!; try done; try lia.
    + destruct Hroom as [->|]; cbn; lia.
    + apply Forall_app. split; [done|]. by apply Forall_singleton.
  - split_and!; try done; try lia. intros idx Hidx.
    destruct (Z.ltb_spec idx (sn_base_index s)); [done|]. rewrite lookup_app_l; [done|lia].
Qed.

Lemma next_msg_ok m : 1 <= m < 2 ^ 26 ->
  1 <= (if MsgNumber_next m =? 0 then MsgNumber_new 1 else MsgNumber_next m) < 2 ^ 26.
Proof.
  intros Hm. rewrite MsgNumber_next_mod, MsgNumber_new_mod. case_if; to_prop; zify_divmod.
Qed.

Section Push.
Context {C : Type} `{PayloadCipherLaws C}.

Definition option_cipher_wf (c : option C) : Prop :=
  match c with Some c => cipher_wf c | None => True end.

(** What is buffered for a payload: the payload itself, or its encryption
    under the sequence number of its index. *)
Definition buffered (s : Sender) (crypto : option C) (payload : bytes)
    (crypto' : option C) (ct : bytes) (kk : EncryptionFlags) : Prop :=
  match crypto with
  | Some c =>
      if decide (payload = []) then crypto' = Some c /\ ct = payload /\ kk = EncNone
      else exists c', crypto' = Some c' /\
             cipher_encrypt c (Sender_seq_at s (Sender_end s)) payload = Ret (c', ct, kk)
  | None => crypto' = None /\ ct = payload /\ kk = EncNone
  end.

Lemma Sender_make_room s now (payload : bytes) :
  Sender_wf s -> (length payload <= sc_max_payload (sn_cfg s))%nat ->
  exists s1 s2 s3 s4,
    (match sn_pacer s with
     | Some p => p ← Pacer_on_input p now (Z.of_nat (length payload)); Ret (s <| sn_pacer := Some p |>)
     | None => Ret s
     end) = Ret s1 /\
    Sender_check_tlpktdrop s1 now = Ret s2 /\
    Sender_drop_while (S (length (sn_buffer s2)))
      (fun s => (sc_buffer_pkts (sn_cfg s) <=? length (sn_buffer s))%nat) s2 = Ret s3 /\
    Sender_drop_while (S (length (sn_buffer s3)))
      (fun s => Sender_effective_window s <=? Sender_flight s) s3 = Ret s4 /\
    Sender_wf s4 /\ extends s s4 /\ Sender_end s4 = Sender_end s /\
    (sn_buffer s4 = [] \/ (length (sn_buffer s4) < sc_buffer_pkts (sn_cfg s4))%nat).
Proof.
  intros Hwf Hlen.
  assert (exists s1, (match sn_pacer s with
     | Some p => p ← Pacer_on_input p now (Z.of_nat (length payload)); Ret (s <| sn_pacer := Some p |>)
     | None => Ret s end) = Ret s1 /\ Sender_wf s1 /\ extends s s1 /\ Sender_end s1 = Sender_end s)
    as (s1 & -> & Hwf1 & Hext1 & He1).
  { pose proof Hwf as (_ & _ & _ & _ & _ & _ & _ & _ & _ & Hp). destruct (sn_pacer s) as [p|].
    - destruct (Pacer_on_input_wf p now (Z.of_nat (length payload)) Hp) as (p' & -> & Hp'); [lia|].
      eexists. split; [done|]. split; [by apply (Sender_wf_same s)|]. split; [by apply extends_same|done].
    - exists s. do 2 (split; [done|]). split; [apply extends_refl|done]. }
  destruct (Sender_check_tlpktdrop_ok s1 now Hwf1) as (s2 & Ht & Hwf2 & Hext2 & He2).
  destruct (Sender_drop_while_ok (S (length (sn_buffer s2)))
    (fun s => (sc_buffer_pkts (sn_cfg s) <=? length (sn_buffer s))%nat) s2 Hwf2)
    as (s3 & Hd3 & Hwf3 & Hext3 & He3 & _ & Hstop3); [lia|].
  destruct (Sender_drop_while_ok (S (length (sn_buffer s3)))
    (fun s => Sender_effective_window s <=? Sender_flight s) s3 Hwf3)
    as (s4 & Hd4 & Hwf4 & Hext4 & He4 & _ & _); [lia|].
  exists s1, s2, s3, s4. do 5 (split; [done|]).
  split; [by do 3 (eapply extends_trans; [done|])|]. split; [congruence|].
  destruct Hext4 as (Hc4 & Hb4 & _). unfold Sender_end in He4. rewrite Hc4.
  destruct Hstop3 as [Hnil|Hc].
  - left. apply nil_length_inv. rewrite Hnil in He4. cbn in He4. lia.
  - to_prop. right. lia.
Qed.

Lemma Sender_push_ok s now payload crypto :
  Sender_wf s -> option_cipher_wf crypto -> (length payload <= sc_max_payload (sn_cfg s))%nat ->
  exists s' crypto', Sender_push s now payload crypto = Ret (s', crypto', Ok tt) /\
    Sender_wf s' /\ extends s s' /\ option_cipher_wf crypto' /\
    Sender_end s' = Sender_end s + 1 /\
    exists msg ct kk,
      content s' (Sender_end s) =
        Some (msg, Timebase_timestamp (sc_timebase (sn_cfg s)) now, kk, ct) /\
      length ct = length payload /\ buffered s crypto payload crypto' ct kk.
Proof.
  intros Hwf Hc Hlen. unfold Sender_push.
  destruct (Nat.ltb_spec (sc_max_payload (sn_cfg s)) (length payload)); [lia|].
  destruct (Sender_make_room s now payload Hwf Hlen) as
    (s1 & s2 & s3 & s4 & -> & H2 & H3 & H4 & Hwf4 & Hext4 & He4 & Hroom).
  cbn [mbind panicking_bind]. rewrite H2. cbn [mbind panicking_bind]. rewrite H3.
  cbn [mbind panicking_bind]. rewrite H4. cbn [mbind panicking_bind].
  pose proof Hext4 as (Hcfg4 & _). change (sn_base_index s4 + _) with (Sender_end s4).
  set (msg' := if MsgNumber_next (sn_next_msg s4) =? 0 then _ else _).
  assert (Hseq : Sender_seq_at (s4 <| sn_next_msg := msg' |>) (Sender_end s4) =
    Sender_seq_at s (Sender_end s)) by (rewrite !Sender_seq_at_mod; sn; by rewrite Hcfg4, He4).
  set (enc := match crypto with Some c => _ | None => _ end).
  assert (exists crypto' ct kk, enc = Ret (crypto', ct, kk) /\ option_cipher_wf crypto' /\
    length ct = length payload /\ buffered s crypto payload crypto' ct kk)
    as (crypto' & ct & kk & -> & Hc' & Hct & Hbuf).
  { unfold enc, buffered. destruct crypto as [c|]; [|by eexists _, _, _].
    rewrite Hseq. destruct payload as [|b pl]; cbn [length Nat.eqb negb].
    - by eexists (Some c), [], EncNone.
    - destruct (cipher_encrypt_ok c (Sender_seq_at s (Sender_end s)) (b :: pl) Hc)
        as (c' & ct & kk & -> & Hc' & Hl & _).
      eexists (Some c'), ct, kk. do 3 (split; [done|]). by exists c'. }
  cbn [mbind panicking_bind].
  destruct (Sender_append_ok s4 (mkBufEntry (sn_next_msg s4) now
    (Timebase_timestamp (sc_timebase (sn_cfg s)) now) None kk ct) msg') as [Hwf' Hext'].
  { done. }
  { pose proof Hwf4 as (_ & _ & _ & _ & _ & _ & _ & Hm & _ & _).
    split; [apply Hm|]. split; [apply as_u32_range|]. cbn. by rewrite Hct, Hcfg4. }
  { apply next_msg_ok. apply Hwf4. }
  { done. }
  eexists _, _. split; [by sn; rewrite Hcfg4|]. split; [done|].
  split; [by apply (extends_trans s s4)|]. split; [done|].
  split. { unfold Sender_end in *. sn. rewrite length_app. cbn. lia. }
  exists (sn_next_msg s4), ct, kk. split; [|done]. unfold content. sn.
  unfold Sender_end in He4. rewrite <- He4 at 1.
  destruct (Z.ltb_spec (sn_base_index s4 + Z.of_nat (length (sn_buffer s4))) (sn_base_index s4)); [lia|].
  replace (Z.to_nat (Sender_end s - sn_base_index s4)) with (length (sn_buffer s4))
    by (unfold Sender_end in *; lia).
  by rewrite list_lookup_middle.
Qed.

(** [push] of any payload. *)
Lemma Sender_push_total s now payload crypto :
  Sender_wf s -> option_cipher_wf crypto ->
  exists s' crypto' r, Sender_push s now payload crypto = Ret (s', crypto', r) /\
    Sender_wf s' /\ extends s s' /\ option_cipher_wf crypto'.
Proof.
  intros Hwf Hc. destruct (decide (length payload <= sc_max_payload (sn_cfg s))%nat) as [Hl|Hl].
  - destruct (Sender_push_ok s now payload crypto Hwf Hc Hl) as (s' & c' & -> & Hwf' & Hext & Hc' & _).
    by eexists _, _, _.
  - unfold Sender_push. destruct (Nat.ltb_spec (sc_max_payload (sn_cfg s)) (length payload)); [|lia].
    eexists _, _, _. split; [done|]. split; [done|]. split; [apply extends_refl|done].
Qed.

End Push.

(** [s'] differs from [s] at most in the peer's window, the RTT pair, the
    ACKACK bookkeeping and the pacer. *)
Definition same_data (s s' : Sender) : Prop :=
  sn_cfg s' = sn_cfg s /\ sn_base_index s' = sn_base_index s /\ sn_buffer s' = sn_buffer s /\
  sn_next_send_index s' = sn_next_send_index s /\ sn_next_msg s' = sn_next_msg s /\
  sn_loss_list s' = sn_loss_list s.

Lemma Sender_release_ok s a :
  Sender_wf s -> a <= sn_next_send_index s ->
  exists s1, Sender_release s a = Ret s1 /\
    sn_cfg s1 = sn_cfg s /\ sn_base_index s1 = Z.max (sn_base_index s) a /\
    sn_buffer s1 = drop (Z.to_nat (a - sn_base_index s)) (sn_buffer s) /\
    sn_next_send_index s1 = sn_next_send_index s /\ sn_last_ack_index s1 = sn_base_index s /\
    sn_next_msg s1 = sn_next_msg s /\ sn_pacer s1 = sn_pacer s /\
    sn_loss_list s1 = split_off (sn_loss_list s) (sn_base_index s1).
Proof.
  intros (Hcfg & Hb0 & Hack & Hnext & Hfl & Hloss & Hlen & Hmsg & Hbuf & Hp) Ha.
  unfold Sender_release, Sender_end in *. destruct (Z.ltb_spec (sn_base_index s) a) as [Hlt|Hge].
  - rewrite Z.min_l by lia. rewrite drain_front_ok by lia. cbn [mbind panicking_bind].
    eexists. split; [done|]. sn. split_and!; try done; try lia.
  - exists s. split_and!; try done; try lia.
    + by replace (Z.to_nat (a - sn_base_index s)) with 0%nat by lia.
    + apply leibniz_equiv. intros i. rewrite elem_of_split_off. split; [|tauto].
      intros Hi. split; [done|]. by apply Hloss.
Qed.

(** From the released state back to the invariant, once the window base has
    moved up. *)
Lemma Sender_released_wf s a s1 s' :
  Sender_wf s -> a <= sn_next_send_index s ->
  sn_cfg s1 = sn_cfg s -> sn_base_index s1 = Z.max (sn_base_index s) a ->
  sn_buffer s1 = drop (Z.to_nat (a - sn_base_index s)) (sn_buffer s) ->
  sn_next_send_index s1 = sn_next_send_index s -> sn_next_msg s1 = sn_next_msg s ->
  sn_loss_list s1 = split_off (sn_loss_list s) (sn_base_index s1) ->
  same_data s1 s' -> sn_last_ack_index s' = Z.max (sn_base_index s) a ->
  match sn_pacer s' with Some p => Pacer_wf p | None => True end ->
  Sender_wf s' /\ extends s s'.
Proof.
  intros (Hcfg & Hb0 & Hack & Hnext & Hfl & Hloss & Hlen & Hmsg & Hbuf & Hp) Ha
    E1 E2 E3 E4 E5 E6 (F1 & F2 & F3 & F4 & F5 & F6) F7 Hp'.
  unfold Sender_wf, extends, Sender_end in *.
  rewrite F1, F2, F3, F4, F5, F6, F7, E6, E1, E2, E3, E4, E5. rewrite !length_drop. split.
  - split_and!; try done; try lia.
    + intros i. rewrite elem_of_split_off. intros [Hi ?]. specialize (Hloss i Hi). lia.
    + by apply Forall_drop.
  - split_and!; try done; try lia. intros idx Hidx.
    apply (content_drop s s' (Z.to_nat (a - sn_base_index s))); rewrite ?F2, ?F3, ?E2, ?E3; try done; lia.
Qed.

Lemma Sender_light_ack_fields s a :
  same_data s (Sender_light_ack s a) /\ sn_pacer (Sender_light_ack s a) = sn_pacer s /\
  sn_last_ack_index (Sender_light_ack s a) = Z.max (sn_last_ack_index s) a.
Proof.
  unfold Sender_light_ack. destruct (Z.leb_spec (sn_last_ack_index s) a); sn; split_and!; done || lia.
Qed.

Lemma Sender_adopt_rtt_fields s cif :
  same_data s (Sender_adopt_rtt s cif) /\ sn_pacer (Sender_adopt_rtt s cif) = sn_pacer s /\
  sn_last_ack_index (Sender_adopt_rtt s cif) = sn_last_ack_index s.
Proof.
  unfold Sender_adopt_rtt. destruct (ack_rtt_us cif), (ack_rtt_var_us cif); try done. by case_if.
Qed.

Lemma Sender_reply_ackack_fields s now n :
  let s' := fst (Sender_reply_ackack s now n) in
  same_data s s' /\ sn_pacer s' = sn_pacer s /\ sn_last_ack_index s' = sn_last_ack_index s.
Proof. unfold Sender_reply_ackack. by case_if. Qed.

Lemma Sender_adopt_window_fields s cif a :
  same_data s (Sender_adopt_window s cif a) /\ sn_pacer (Sender_adopt_window s cif a) = sn_pacer s /\
  sn_last_ack_index (Sender_adopt_window s cif a) = Z.max (sn_last_ack_index s) a.
Proof.
  unfold Sender_adopt_window. destruct (Z.leb_spec (sn_last_ack_index s) a), (ack_avail_buf_pkts cif);
    sn; split_and!; done || lia.
Qed.

Lemma same_data_trans s1 s2 s3 : same_data s1 s2 -> same_data s2 s3 -> same_data s1 s3.
Proof. intros (? & ? & ? & ? & ? & ?) (? & ? & ? & ? & ? & ?). split_and!; congruence. Qed.

Lemma Sender_handle_ack_ok s now ack_number cif :
  Sender_wf s ->
  let a := Sender_ext_of s (ack_last_ack_seq cif) in
  exists s' r, Sender_handle_ack s now ack_number cif = Ret (s', r) /\ Sender_wf s' /\ extends s s' /\
    if sn_next_send_index s <? a
    then r = Err (Closed CloseLocal) /\ sn_buffer s' = sn_buffer s /\ sn_protocol_violation s' = true
    else (exists ackack, r = Ok ackack) /\ sn_base_index s' = Z.max (sn_base_index s) a /\
      sn_buffer s' = drop (Z.to_nat (a - sn_base_index s)) (sn_buffer s).
Proof.
  intros Hwf a. unfold Sender_handle_ack. fold a.
  destruct (Z.ltb_spec (sn_next_send_index s) a) as [Hv|Hv].
  { eexists _, _. split; [done|]. split; [|split; [by apply extends_same|done]].
    apply (Sender_wf_same s); try done. apply Hwf. }
  destruct (Sender_release_ok s a Hwf Hv) as
    (s1 & -> & Ecfg & Ebase & Ebuf & Enext & Eack & Emsg & Epc & Eloss).
  pose proof Hwf as (_ & _ & _ & _ & _ & _ & _ & _ & _ & Hp).
  assert (Hfin : forall s' (x : option Z), same_data s1 s' ->
    sn_last_ack_index s' = Z.max (sn_base_index s) a ->
    match sn_pacer s' with Some p => Pacer_wf p | None => True end ->
    Sender_wf s' /\ extends s s' /\
    (exists ackack, Ok (E := SrtError) x = Ok ackack) /\ sn_base_index s' = Z.max (sn_base_index s) a /\
    sn_buffer s' = drop (Z.to_nat (a - sn_base_index s)) (sn_buffer s)).
  { intros s' x Hd Hl Hp'. destruct (Sender_released_wf s a s1 s') as [? ?]; try done.
    destruct Hd as (_ & D2 & D3 & _). split_and!; try done; [by eexists|congruence..]. }
  cbn [mbind panicking_bind]. destruct (is_none (ack_rtt_us cif)).
  - destruct (Sender_light_ack_fields s1 a) as (D & P & L). eexists _, _. split; [done|].
    apply Hfin; [done|congruence|by rewrite P, Epc].
  - destruct (Sender_adopt_rtt_fields s1 cif) as (D2 & P2 & L2).
    set (s2 := Sender_adopt_rtt s1 cif) in *.
    pose proof (Sender_reply_ackack_fields s2 now ack_number) as (D3 & P3 & L3).
    destruct (Sender_reply_ackack s2 now ack_number) as [s3 ackack]. cbn [fst] in *.
    destruct (Sender_adopt_window_fields s3 cif a) as (D4 & P4 & L4).
    eexists _, _. split; [done|]. apply Hfin.
    + apply (same_data_trans s1 s2); [done|]. by apply (same_data_trans s2 s3).
    + sn. congruence.
    + sn. rewrite P4, P3, P2, Epc. destruct (sn_pacer s); [by apply Pacer_refresh_wf|done].
Qed.

Lemma Sender_ext_of_same s s' q :
  sn_cfg s' = sn_cfg s -> sn_base_index s' = sn_base_index s -> Sender_ext_of s' q = Sender_ext_of s q.
Proof. intros H1 H2. unfold Sender_ext_of, Sender_seq_at. by rewrite H1, H2. Qed.

(** A NAK range the sender accepts: in order, and of packets already sent. *)
Definition nak_range_ok (s : Sender) (r : LossRange) : bool :=
  (Sender_ext_of s (lr_first r) <=? Sender_ext_of s (lr_last r)) &&
  (Sender_ext_of s (lr_last r) <? sn_next_send_index s).

(** The ranges before the first one the sender does not accept. *)
Fixpoint accepted_ranges (s : Sender) (ranges : list LossRange) : list LossRange :=
  match ranges with
  | r :: rest => if nak_range_ok s r then r :: accepted_ranges s rest else []
  | [] => []
  end.

Lemma accepted_ranges_same s s' ranges :
  sn_cfg s' = sn_cfg s -> sn_base_index s' = sn_base_index s ->
  sn_next_send_index s' = sn_next_send_index s ->
  accepted_ranges s' ranges = accepted_ranges s ranges.
Proof.
  intros H1 H2 H3. induction ranges as [|r l IH]; [done|]. cbn. rewrite IH. unfold nak_range_ok.
  by rewrite !(Sender_ext_of_same s s'), H3.
Qed.

(** One accepted range queues exactly its unacknowledged packets. *)
Lemma Sender_nak_range_ok s r q :
  Sender_wf s -> nak_range_ok s r = true ->
  let last_ack := sn_last_ack_index s in
  let lo := Sender_ext_of s (lr_first r) in
  let hi := Sender_ext_of s (lr_last r) in
  let s' :=
    if last_ack <=? lo then s <| sn_loss_list := insert_range (sn_loss_list s) lo hi |>
    else if last_ack <=? hi then s <| sn_loss_list := insert_range (sn_loss_list s) last_ack hi |>
    else if negb (lr_first r =? lr_last r) then s <| sn_control_queue := q |>
    else s in
  Sender_wf s' /\ same_data s (s' <| sn_loss_list := sn_loss_list s |>) /\
  forall i, i ∈ sn_loss_list s' <-> i ∈ sn_loss_list s \/ (sn_base_index s <= i /\ lo <= i <= hi).
Proof.
  intros Hwf Hok last_ack lo hi. unfold nak_range_ok in Hok. fold lo hi in Hok. to_prop.
  pose proof Hwf as (Hcfg & Hb0 & Hack & Hnext & Hfl & Hloss & Hlen & Hmsg & Hbuf & Hp).
  fold last_ack in Hack. destruct (Z.leb_spec last_ack lo) as [Hlo|Hlo].
  { assert (Hin : forall i, i ∈ insert_range (sn_loss_list s) lo hi <->
      i ∈ sn_loss_list s \/ (sn_base_index s <= i /\ lo <= i <= hi)).
    { intros i. rewrite elem_of_insert_range. split; (intros [?|?]; [by left|right; lia]). }
    split; [|split; [done|exact Hin]]. split_and!; sn; try done; try lia; try apply Hnext.
    intros i Hi. apply Hin in Hi as [Hi|Hi]; [by apply Hloss|lia]. }
  destruct (Z.leb_spec last_ack hi) as [Hhi|Hhi].
  { assert (Hin : forall i, i ∈ insert_range (sn_loss_list s) last_ack hi <->
      i ∈ sn_loss_list s \/ (sn_base_index s <= i /\ lo <= i <= hi)).
    { intros i. rewrite elem_of_insert_range. split; (intros [?|?]; [by left|right; lia]). }
    split; [|split; [done|exact Hin]]. split_and!; sn; try done; try lia; try apply Hnext.
    intros i Hi. apply Hin in Hi as [Hi|Hi]; [by apply Hloss|lia]. }
  assert (Hin : forall i, i ∈ sn_loss_list s <->
    i ∈ sn_loss_list s \/ (sn_base_index s <= i /\ lo <= i <= hi)).
  { intros i. split; [by left|]. intros [?|?]; [done|lia]. }
  case_if; (split; [|split; [done|exact Hin]]); [by apply (Sender_wf_same s)|done].
Qed.

Lemma Sender_nak_loop_ok ranges : forall s,
  Sender_wf s ->
  let s' := fst (Sender_nak_loop s ranges) in
  Sender_wf s' /\ same_data s (s' <| sn_loss_list := sn_loss_list s |>) /\
  forall i, i ∈ sn_loss_list s' <->
     i ∈ sn_loss_list s \/
     (sn_base_index s <= i /\ exists r, r ∈ accepted_ranges s ranges /\
        Sender_ext_of s (lr_first r) <= i <= Sender_ext_of s (lr_last r)).
Proof.
  induction ranges as [|r ranges IH]; intros s Hwf.
  { split; [done|]. split; [done|]. intros i. split; [by left|].
    intros [?|(_ & r & Hr & _)]; [done|]. by apply not_elem_of_nil in Hr. }
  cbn [Sender_nak_loop accepted_ranges]. pose proof (Sender_nak_range_ok s r
    (sn_control_queue s ++ [DropRequest (MsgNumber_new 0) (lr_first r) (lr_last r)]) Hwf) as Hstep.
  unfold nak_range_ok in *. 
  rewrite (Z.ltb_antisym (Sender_ext_of s (lr_first r)) (Sender_ext_of s (lr_last r))),
    (Z.leb_antisym (Sender_ext_of s (lr_last r)) (sn_next_send_index s)).
  destruct (Sender_ext_of s (lr_first r) <=? Sender_ext_of s (lr_last r)) eqn:Hle; cbn [negb orb andb].
  2: { cbn [fst]. split; [|split; [done|]].
       - apply (Sender_wf_same s); try done. apply Hwf.
       - intros i. sn. split; [by left|]. intros [?|(_ & r' & Hr & _)]; [done|].
         by apply not_elem_of_nil in Hr. }
  destruct (Sender_ext_of s (lr_last r) <? sn_next_send_index s) eqn:Hlt; cbn [negb andb] in *.
  2: { cbn [fst]. split; [|split; [done|]].
       - apply (Sender_wf_same s); try done. apply Hwf.
       - intros i. sn. split; [by left|]. intros [?|(_ & r' & Hr & _)]; [done|].
         by apply not_elem_of_nil in Hr. }
  specialize (Hstep eq_refl). cbv zeta in Hstep. revert Hstep. set (s1 := if _ <=? _ then _ else _).
  intros (Hwf1 & (D1 & D2 & D3 & D4 & D5 & _) & Hin1). sn.
  destruct (IH s1 Hwf1) as (Hwf' & (F1 & F2 & F3 & F4 & F5 & _) & Hin'). sn.
  split; [done|]. split; [split_and!; sn; congruence|].
  intros i. rewrite Hin', Hin1, D2, (accepted_ranges_same s s1) by done.
  split.
  - intros [[?|?]|(? & r' & Hr' & Hi)]; [by left| |].
    + right. split; [tauto|]. exists r. split; [apply elem_of_cons; by left|tauto].
    + right. split; [done|]. exists r'. rewrite !(Sender_ext_of_same s s1) in Hi by done.
      split; [apply elem_of_cons; by right|done].
  - intros [?|(? & r' & Hr' & Hi)]; [by left; left|]. apply elem_of_cons in Hr' as [->|Hr'].
    + left; right. tauto.
    + right. split; [done|]. exists r'. rewrite !(Sender_ext_of_same s s1) by done. done.
Qed.

Lemma Sender_handle_nak_ok s ranges :
  Sender_wf s ->
  let s' := Sender_handle_nak s ranges in
  Sender_wf s' /\ extends s s' /\ sn_buffer s' = sn_buffer s /\ sn_base_index s' = sn_base_index s /\
  sn_next_send_index s' = sn_next_send_index s /\
  forall i, i ∈ sn_loss_list s' <->
     i ∈ sn_loss_list s \/
     (sn_base_index s <= i /\ exists r, r ∈ accepted_ranges s ranges /\
        Sender_ext_of s (lr_first r) <= i <= Sender_ext_of s (lr_last r)).
Proof.
  intros Hwf. unfold Sender_handle_nak. pose proof (Sender_nak_loop_ok ranges s Hwf) as
    (Hwf' & (D1 & D2 & D3 & D4 & D5 & _) & Hin).
  destruct (Sender_nak_loop s ranges) as [s1 completed]. cbn [fst] in *. sn.
  destruct completed; (split; [|split; [by apply extends_same; sn; rewrite ?D4|done]]); [|done].
  apply pacer_map_wf; [done|]. apply Pacer_refresh_wf.
Qed.

Lemma Sender_on_timer_ok s now :
  Sender_wf s -> exists s', Sender_on_timer s now = Ret s' /\ Sender_wf s' /\ extends s s'.
Proof.
  intros Hwf. unfold Sender_on_timer.
  destruct (Sender_check_tlpktdrop_ok s now Hwf) as (s1 & -> & Hwf1 & Hext1 & _).
  eexists. split; [done|]. split; [apply pacer_map_wf; [done|apply Pacer_refresh_wf]|].
  eapply extends_trans; [done|]. apply pacer_map_extends.
Qed.

(** A retransmission of [idx] at [now] comes too soon after the last one. *)
Definition throttled (s : Sender) (now window idx : Z) : Prop :=
  exists e last, sn_buffer s !! Z.to_nat (idx - sn_base_index s) = Some e /\
    be_last_rexmit e = Some last /\ duration_since now last < window.

(** Stamping the retransmission time changes no content. *)
Lemma Sender_stamp_ok s slot e now rest :
  Sender_wf s -> sn_buffer s !! slot = Some e -> rest ⊆ sn_loss_list s ->
  let s' := s <| sn_loss_list := rest |>
              <| sn_buffer := <[ slot := e <| be_last_rexmit := Some now |> ]> (sn_buffer s) |> in
  Sender_wf s' /\ extends s s' /\
  forall idx, content s' idx = content s idx.
Proof.
  intros Hwf He Hsub s'.
  pose proof Hwf as (Hcfg & Hb0 & Hack & Hnext & Hfl & Hloss & Hlen & Hmsg & Hbuf & Hp).
  assert (Hc : forall idx, content s' idx = content s idx).
  { intros idx. unfold content, s'. sn. case_if; [done|].
    destruct (decide (Z.to_nat (idx - sn_base_index s) = slot)) as [<-|Hne].
    - rewrite list_lookup_insert_eq by (by eapply lookup_lt_Some). by rewrite He.
    - by rewrite list_lookup_insert_ne by done. }
  assert (Hl : length (sn_buffer s') = length (sn_buffer s)) by (unfold s'; sn; apply length_insert).
  split; [|split; [|done]].
  - unfold Sender_wf, Sender_end in *. rewrite Hl. unfold s'. sn. split_and!; try done; try lia.
    + intros i Hi. apply Hloss. set_solver.
    + apply Forall_insert; [done|].
      exact (Forall_lookup_1 _ _ _ _ Hbuf He).
  - unfold extends, Sender_end. rewrite Hl. split_and!; try done.
Qed.

Lemma Sender_packet_at_ok s idx rexmit c :
  content s idx = Some c -> Sender_packet_at s idx rexmit = Ret (packet_of s idx c rexmit).
Proof.
  unfold content, Sender_packet_at, index. case_if; [done|].
  destruct (sn_buffer s !! Z.to_nat (idx - sn_base_index s)) as [e|]; [|done].
  cbn. by intros [= <-].
Qed.

Lemma Sender_rexmit_loop_ok fuel now window : forall s,
  Sender_wf s -> (size (sn_loss_list s) < fuel)%nat ->
  exists s' r, Sender_rexmit_loop fuel s now window = Ret (s', r) /\ Sender_wf s' /\ extends s s' /\
    sn_next_send_index s' = sn_next_send_index s /\ sn_base_index s' = sn_base_index s /\
    length (sn_buffer s') = length (sn_buffer s) /\
    sn_advertised_window s' = sn_advertised_window s /\
    match r with
    | None => (forall i, i ∈ sn_loss_list s -> throttled s now window i) /\
        sn_buffer s' = sn_buffer s /\ sn_pacer s' = sn_pacer s
    | Some pkt => exists idx c, idx ∈ sn_loss_list s /\ content s idx = Some c /\
        pkt = packet_of s idx c true /\ ~ throttled s now window idx /\
        (forall i, i ∈ sn_loss_list s -> i < idx -> throttled s now window i)
    end.
Proof.
  induction fuel as [|fuel IH]; intros s Hwf Hf; [lia|]. cbn [Sender_rexmit_loop].
  pose proof (pop_first_spec (sn_loss_list s)) as Hpop.
  destruct (pop_first (sn_loss_list s)) as [[idx rest]|].
  2: { exists s, None. do 2 (split; [done|]). split; [apply extends_refl|]. do 4 (split; [done|]).
       split; [|done]. rewrite Hpop. set_solver. }
  destruct Hpop as (Hin & Hmin & Hrest & Hsize).
  pose proof Hwf as (_ & _ & _ & Hnext & _ & Hloss & _ & _ & _ & Hp). specialize (Hloss idx Hin). sn.
  destruct (Z.ltb_spec idx (sn_base_index s)); [lia|].
  destruct (Z.leb_spec (sn_next_send_index s) idx); [lia|]. cbn [orb].
  destruct (content_in s idx) as (e & He & Hc); [unfold Sender_end in *; lia|].
  unfold index at 1. rewrite He. cbn [expect mbind panicking_bind].
  assert (Hthr : throttled s now window idx <->
    match be_last_rexmit e with Some last => duration_since now last <? window | None => false end = true).
  { unfold throttled. rewrite He. split.
    - intros (e' & last & [= <-] & -> & Hd). by apply Z.ltb_lt.
    - destruct (be_last_rexmit e) as [last|] eqn:Hl; [|done]. intros Hd. to_prop. by exists e, last. }
  assert (Hwf0 : Sender_wf (s <| sn_loss_list := rest |>))
    by (apply (Sender_wf_same s); sn; try done; set_solver).
  case_if.
  - destruct (IH (s <| sn_loss_list := rest |>) Hwf0) as (s' & r & -> & Hwf' & Hext & Hrest'); [sn; lia|].
    exists s', r. split; [done|]. split; [done|]. split; [by apply (extends_trans _ (s <| sn_loss_list := rest |>));
      [apply extends_same|]|]. sn. destruct Hrest' as (? & ? & ? & ? & Hr). do 4 (split; [done|]).
    destruct r as [pkt|].
    + destruct Hr as (j & c & Hj & Hcj & Hpk & Hnt & Hlow). exists j, c.
      split; [set_solver|]. do 3 (split; [done|]). intros i Hi Hlt.
      destruct (decide (i = idx)) as [->|]; [by apply Hthr|]. apply Hlow; [set_solver|done].
    + destruct Hr as (Hall & Hb & Hpc). split; [|done]. intros i Hi.
      destruct (decide (i = idx)) as [->|]; [by apply Hthr|]. apply Hall. set_solver.
  - destruct (Sender_stamp_ok s (Z.to_nat (idx - sn_base_index s)) e now rest Hwf He) as (Hwf1 & Hext1 & Hc1);
      [set_solver|].
    set (s1 := s <| sn_loss_list := rest |> <| sn_buffer := _ |>) in *.
    rewrite (Sender_packet_at_ok s1 idx true _ (eq_trans (Hc1 idx) Hc)). cbn [mbind panicking_bind].
    eexists _, _. split; [done|].
    split; [|split; [|split; [done|split; [done|split; [|split; [done|]]]]]].
    + apply pacer_map_wf.
      * by apply (Sender_wf_same s1).
      * intros p Hpw. apply Pacer_on_send_wf; [done|lia].
    + apply (extends_trans _ s1); [done|]. by apply extends_same.
    + unfold s1. sn. apply length_insert.
    + exists idx, (be_msg e, be_ts e, be_encryption e, be_payload e). split; [done|]. split; [done|].
      split; [done|]. split; [rewrite Hthr; congruence|].
      intros i Hi Hlt. specialize (Hmin i Hi). lia.
Qed.

Lemma packet_of_cfg s s' idx c b : sn_cfg s' = sn_cfg s -> packet_of s' idx c b = packet_of s idx c b.
Proof. intros E. unfold packet_of, Sender_seq_at. by rewrite E. Qed.

Definition rexmit_window (s : Sender) : Z :=
  from_micros (saturating_sub (sn_rtt_us s) (4 * sn_rtt_var_us s)).

(** A first transmission, with the window open. *)
Lemma Sender_first_send_ok s :
  Sender_wf s -> sn_next_send_index s < sn_base_index s + Z.of_nat (length (sn_buffer s)) ->
  Sender_flight s < Sender_effective_window s ->
  let idx := sn_next_send_index s in
  let s' := s <| sn_next_send_index := idx + 1 |> in
  Sender_wf s' /\ extends s s' /\
  exists c, content s idx = Some c /\ Sender_packet_at s' idx false = Ret (packet_of s idx c false).
Proof.
  intros (Hcfg & Hb0 & Hack & Hnext & Hfl & Hloss & Hlen & Hmsg & Hbw & Hp) Hend Hwin idx s'.
  unfold Sender_flight, Sender_effective_window, saturating_sub in Hwin.
  split; [|split].
  - unfold Sender_wf, Sender_end, s', idx in *. sn. split_and!; try done; try lia.
    intros i Hi. specialize (Hloss i Hi). lia.
  - apply extends_same; try done. unfold s', idx. sn. lia.
  - destruct (content_in s idx) as (e & He & Hc); [unfold Sender_end, idx in *; lia|].
    eexists. split; [done|]. rewrite <- (packet_of_cfg s s') by done.
    by apply (Sender_packet_at_ok s').
Qed.

(** What [poll_transmit] emits: the oldest queued loss that is not throttled,
    else the next new packet if the window has room. *)
Lemma Sender_poll_transmit_ok s now :
  Sender_wf s ->
  exists s' r, Sender_poll_transmit s now = Ret (s', r) /\ Sender_wf s' /\ extends s s' /\
    match r with
    | None => True
    | Some pkt => exists idx c, content s idx = Some c /\ sn_base_index s' = sn_base_index s /\
        sn_base_index s <= idx /\
        ((idx < sn_next_send_index s /\ idx ∈ sn_loss_list s /\ pkt = packet_of s idx c true /\
          ~ throttled s now (rexmit_window s) idx /\
          (forall i, i ∈ sn_loss_list s -> i < idx -> throttled s now (rexmit_window s) i) /\
          sn_next_send_index s' = sn_next_send_index s) \/
         (idx = sn_next_send_index s /\ pkt = packet_of s idx c false /\
          (forall i, i ∈ sn_loss_list s -> throttled s now (rexmit_window s) i) /\
          Sender_flight s < Sender_effective_window s /\
          sn_next_send_index s' = sn_next_send_index s + 1))
    end.
Proof.
  intros Hwf. unfold Sender_poll_transmit.
  set (gate := match sn_pacer s with Some p => _ | None => _ end).
  assert (Hgate : forall pc, gate = Some pc -> match pc with Some p => Pacer_wf p | None => True end).
  { pose proof Hwf as (_ & _ & _ & _ & _ & _ & _ & _ & _ & Hp). unfold gate. intros pc.
    destruct (sn_pacer s) as [p|]; [|by intros [= <-]]. destruct (Pacer_gate p now) eqn:Hg; [|done].
    intros [= <-]. by apply (Pacer_gate_wf p now). }
  destruct gate as [pc|]; [specialize (Hgate pc eq_refl)|].
  2: { exists s, None. do 2 (split; [done|]). split; [apply extends_refl|done]. }
  set (s0 := s <| sn_pacer := pc |>).
  assert (Hwf0 : Sender_wf s0) by (by apply (Sender_wf_same s)).
  assert (Hext0 : extends s s0) by (by apply extends_same).
  change (from_micros _) with (rexmit_window s).
  destruct (Sender_rexmit_loop_ok (S (size (sn_loss_list s0))) now (rexmit_window s) s0 Hwf0) as
    (s1 & r & -> & Hwf1 & Hext1 & En & Eb & El & Ea & Hr); [lia|]. cbn [mbind panicking_bind].
  assert (Hext01 : extends s s1) by (by apply (extends_trans s s0)).
  destruct r as [pkt|].
  - exists s1, (Some pkt). do 3 (split; [done|]). destruct Hr as (idx & c & Hin & Hc & Hpk & Hnt & Hlow).
    pose proof Hwf as (_ & _ & _ & _ & _ & Hloss & _). specialize (Hloss idx Hin).
    exists idx, c. split; [done|]. split; [done|]. split; [lia|]. left. split_and!; try done; lia.
  - destruct Hr as (Hall & Hbuf & Hpc).
    destruct ((sn_next_send_index s1 <? _) && _) eqn:Hgo.
    + apply andb_true_iff in Hgo as [Hend Hwin]. to_prop.
      destruct (Sender_first_send_ok s1 Hwf1 Hend Hwin) as (Hwf2 & Hext2 & c & Hc & Hpk).
      rewrite Hpk. cbn [mbind panicking_bind]. eexists _, _. split; [done|].
      split; [|split].
      * apply pacer_map_wf; [apply (Sender_wf_same _ _ Hwf2); try done; apply Hwf2|].
        intros p Hpw. apply Pacer_on_send_wf; [done|lia].
      * apply (extends_trans s s1); [done|]. apply (extends_trans s1 _ _ Hext2). by apply extends_same.
      * pose proof Hext01 as (Ecfg & _ & _ & _ & Hsame). exists (sn_next_send_index s1), c.
        split. { rewrite <- Hc. symmetry. apply Hsame. pose proof Hwf1 as (_ & _ & _ & Hnext & _).
          unfold Sender_end in *. rewrite El, Eb in *. unfold s0 in *. sn. lia. }
        split; [done|].
        split. { rewrite En. unfold s0. sn. pose proof Hwf as (_ & _ & _ & Hn & _). lia. }
        right.
        split; [done|]. split; [by apply packet_of_cfg|]. split; [done|].
        split; [|sn; by rewrite En].
        unfold Sender_flight, Sender_effective_window in *. rewrite Ecfg, Ea, En in Hwin.
        pose proof Hwf1 as (_ & _ & Hack1 & _). pose proof Hwf as (_ & _ & Hack & _).
        rewrite Hack1, Eb in Hwin. by rewrite Hack.
    + eexists _, _. split; [done|]. split; [|split; [|done]].
      * apply pacer_map_wf; [done|]. intros p (? & ? & ? & ? & ?). unfold Pacer_on_nothing_to_send, Pacer_wf.
        unfold_set. cbn [pc_max_bw pc_avg_payload pc_period pc_credit pc_mode]. split_and!; done || lia.
      * apply (extends_trans s s1); [done|]. apply pacer_map_extends.
Qed.

(** ** A sender with nothing to send *)

(** The pacer holds the next packet back, or no loss is queued and there is
    no new packet or no room for one in the window. *)
Definition sender_idle (s : Sender) (t : Z) : Prop :=
  (exists p next, sn_pacer s = Some p /\ pc_next_send_time p = Some next /\ t < next) \/
  (sn_loss_list s = ∅ /\ (Sender_end s <= sn_next_send_index s \/ Sender_effective_window s <= Sender_flight s)).

Lemma rexmit_loop_empties fuel now w : forall s s',
  Sender_rexmit_loop fuel s now w = Ret (s', None) ->
  sn_loss_list s' = ∅ /\ sn_cfg s' = sn_cfg s /\ sn_buffer s' = sn_buffer s /\ sn_base_index s' = sn_base_index s /\
  sn_pacer s' = sn_pacer s.
Proof.
  induction fuel as [|fuel IH]; intros s s'; [done|]. cbn [Sender_rexmit_loop].
  pose proof (pop_first_spec (sn_loss_list s)) as Hp. destruct (pop_first (sn_loss_list s)) as [[idx rest]|].
  2: { by intros [= <-]. }
  case_if; [intros Hr; by apply IH in Hr|]. sn.
  destruct (index (sn_buffer s) _) as [e|]; [|done]. cbn [mbind panicking_bind].
  destruct (match be_last_rexmit e with Some _ => _ | None => _ end); [intros Hr; by apply IH in Hr|].
  by destruct (Sender_packet_at _ _ _).
Qed.

Lemma rexmit_loop_control fuel now w : forall s s' pk,
  Sender_rexmit_loop fuel s now w = Ret (s', pk) -> sn_control_queue s' = sn_control_queue s.
Proof.
  induction fuel as [|fuel IH]; intros s s' pk; [done|]. cbn [Sender_rexmit_loop].
  destruct (pop_first (sn_loss_list s)) as [[idx rest]|]; [|by intros [= <- _]].
  case_if; [intros Hr; by apply IH in Hr|]. sn.
  destruct (index (sn_buffer s) _) as [e|]; [|done]. cbn [mbind panicking_bind].
  destruct (match be_last_rexmit e with Some _ => _ | None => _ end); [intros Hr; by apply IH in Hr|].
  destruct (Sender_packet_at _ _ _); [|done]. cbn [mbind panicking_bind]. by intros [= <- _].
Qed.

Lemma Sender_poll_transmit_control s now s' pk :
  Sender_poll_transmit s now = Ret (s', pk) -> sn_control_queue s' = sn_control_queue s.
Proof.
  unfold Sender_poll_transmit. destruct (match sn_pacer s with Some _ => _ | None => _ end) as [pc|]; [|by intros [= <- _]].
  match goal with |- context [Sender_rexmit_loop ?f ?x ?n ?w] =>
    destruct (Sender_rexmit_loop f x n w) as [[s1 [p|]]|] eqn:Hr end; [| |done];
    apply rexmit_loop_control in Hr; cbn [mbind panicking_bind]; [by intros [= <- _]|].
  case_if; [|by intros [= <- _]]. destruct (Sender_packet_at _ _ _); [|done]. cbn [mbind panicking_bind].
  by intros [= <- _].
Qed.

(** After [poll_transmit] found nothing the sender is idle until its
    deadline. *)
Lemma poll_none_idle s now s' :
  Sender_poll_transmit s now = Ret (s', None) ->
  forall t, (match Sender_next_deadline s' with Some d => t < d | None => True end) -> sender_idle s' t.
Proof.
  unfold Sender_poll_transmit. intros Hp t Ht.
  set (gate := match sn_pacer s with Some p => _ | None => _ end) in Hp.
  destruct gate as [pc|] eqn:Hg; subst gate.
  - match type of Hp with context [Sender_rexmit_loop ?f ?x ?n ?w] =>
      destruct (Sender_rexmit_loop f x n w) as [[s1 [pk|]]|] eqn:Hr end; [done| |done].
    apply rexmit_loop_empties in Hr as (Hl & _). cbn [mbind panicking_bind] in Hp.
    destruct (_ && _) eqn:Hc; [by destruct (Sender_packet_at _ _ _)|]. injection Hp as <-. right. sn.
    split; [done|]. unfold Sender_end, Sender_effective_window, Sender_flight in *. sn.
    apply andb_false_iff in Hc as [Hc|Hc]; to_prop; [by left|by right].
  - destruct (sn_pacer s) as [p|] eqn:Hpc; [|done]. injection Hp as <-.
    unfold Pacer_gate in Hg. destruct (pc_next_send_time p) as [next|] eqn:Hn; [|done]. left.
    exists p, next. split; [done|]. split; [done|]. unfold Sender_next_deadline in Ht. rewrite Hpc in Ht.
    cbn in Ht. unfold Pacer_deadline in Ht. rewrite Hn in Ht.
    destruct (match head (sn_buffer s) with Some _ => _ | None => _ end); lia.
Qed.

Lemma idle_polls_none s t : sender_idle s t -> exists s', Sender_poll_transmit s t = Ret (s', None).
Proof.
  unfold Sender_poll_transmit. intros [(p & next & -> & Hn & Ht)|[Hl Hw]].
  { unfold Pacer_gate. rewrite Hn. replace (t <? next) with true by (symmetry; by apply Z.ltb_lt). by eexists. }
  destruct (match sn_pacer s with Some p => _ | None => _ end) as [pc|]; [|by eexists].
  sn. rewrite Hl, size_empty. cbn [Sender_rexmit_loop]. sn. rewrite Hl. change (pop_first ∅) with (@None (Z * gset Z)).
  cbn [mbind panicking_bind]. sn. unfold Sender_flight, Sender_effective_window, Sender_end in *. sn.
  replace (_ && _) with false; [by eexists|]. symmetry. apply andb_false_iff.
  destruct Hw; [left|right]; by apply Z.ltb_ge.
Qed.

(** Before its deadline the sender's timer drops nothing. *)
Lemma sender_before_deadline s t :
  (match Sender_next_deadline s with Some d => t < d | None => True end) -> sender_idle s t ->
  Sender_on_timer s t = Ret (pacer_map Pacer_refresh s) /\ sender_idle (pacer_map Pacer_refresh s) t.
Proof.
  intros Ht Hi. split.
  - unfold Sender_on_timer. replace (Sender_check_tlpktdrop s t) with (Ret s); [done|].
    unfold Sender_check_tlpktdrop, Sender_next_deadline in *.
    destruct (sn_buffer s) as [|front buf]; [done|]. cbn [head] in *.
    destruct (list.last (front :: buf)) as [back|]; [|done]. cbv zeta.
    destruct (Z.leb_spec (duration_since (be_origin back) (be_origin front)) (Sender_drop_threshold s)); [done|].
    destruct (Z.ltb_spec (Sender_drop_threshold s) (duration_since (be_origin back) (be_origin front))); [|lia].
    assert (Hf : t < be_origin front + Sender_drop_threshold s) by (destruct (sn_pacer s ≫= Pacer_deadline); lia).
    cbn [count_while]. assert (0 < Sender_drop_threshold s)
      by (unfold Sender_drop_threshold, TLPKTDROP_MIN_THRESHOLD, TLPKTDROP_REACTION, from_millis; lia).
    assert (Hc : (Sender_drop_threshold s <=? duration_since t (be_origin front)) = false)
      by (apply Z.leb_gt; unfold duration_since; lia).
    by rewrite Hc.
  - destruct Hi as [(p & next & Hp & Hn & Hlt)|Hi]; [left|by right]. sn. rewrite Hp.
    eexists _, next. split; [done|]. split; [|done]. unfold Pacer_refresh, Pacer_recompute_period.
    destruct (pc_mode p); [done|]. by case_if.
Qed.

(** ** Runs *)

(** One call on the sender; an emitted packet is labelled with its extended
    index. *)
Inductive sender_step {C : Type} `{PayloadCipherLaws C} (s : Sender)
    : option (Z * DataPacket) -> Sender -> Prop :=
| StepPush now payload (crypto crypto' : option C) s' r :
    option_cipher_wf crypto -> Sender_push s now payload crypto = Ret (s', crypto', r) ->
    sender_step s None s'
| StepAck now ack_number cif s' r :
    Sender_handle_ack s now ack_number cif = Ret (s', r) -> sender_step s None s'
| StepNak ranges : sender_step s None (Sender_handle_nak s ranges)
| StepTimer now s' : Sender_on_timer s now = Ret s' -> sender_step s None s'
| StepControl : sender_step s None (fst (Sender_poll_control s))
| StepIdle now s' : Sender_poll_transmit s now = Ret (s', None) -> sender_step s None s'
| StepEmit now s' pkt :
    Sender_poll_transmit s now = Ret (s', Some pkt) ->
    sender_step s (Some (Sender_ext_of s (dp_seq pkt), pkt)) s'.

Inductive sender_run {C : Type} `{PayloadCipherLaws C} : Sender -> list (Z * DataPacket) -> Sender -> Prop :=
| RunNil s : sender_run s [] s
| RunStep s1 s2 s3 e tr :
    sender_run s1 tr s2 -> sender_step s2 e s3 ->
    sender_run s1 (match e with Some x => tr ++ [x] | None => tr end) s3.

(** Two wire packets that differ at most in the R flag. *)
Definition same_but_R (p q : DataPacket) : Prop :=
  p <| dp_retransmitted := false |> = q <| dp_retransmitted := false |>.

Definition index_window_ok (s : Sender) : Prop := Z.of_nat (sc_buffer_pkts (sn_cfg s)) < 2 ^ 30.

Section Runs.
Context {C : Type} `{PayloadCipherLaws C}.

(** The packets emitted so far agree with the buffer. *)
Definition trace_ok (s : Sender) (tr : list (Z * DataPacket)) : Prop :=
  forall i p, (i, p) ∈ tr -> i < sn_next_send_index s /\
    (sn_base_index s <= i -> exists c, content s i = Some c /\ same_but_R p (packet_of s i c false)).

Lemma sender_step_ok s e s' :
  Sender_wf s -> index_window_ok s -> sender_step s e s' ->
  Sender_wf s' /\ extends s s' /\
  match e with
  | None => True
  | Some (i, p) => sn_base_index s <= i < sn_next_send_index s' /\
      exists c, content s i = Some c /\ same_but_R p (packet_of s i c false)
  end.
Proof.
  intros Hwf Hwin Hstep. destruct Hstep as
    [now payload crypto crypto' s' r Hc Hp | now n cif s' r Ha | ranges | now s' Ht | | now s' Hi
    | now s' pkt He].
  - destruct (Sender_push_total s now payload crypto Hwf Hc) as (s1 & c1 & r1 & Hp' & Hwf' & Hext & _).
    rewrite Hp in Hp'. by simplify_eq.
  - destruct (Sender_handle_ack_ok s now n cif Hwf) as (s1 & r1 & Ha' & Hwf' & Hext & _).
    rewrite Ha in Ha'. by simplify_eq.
  - destruct (Sender_handle_nak_ok s ranges Hwf) as (Hwf' & Hext & _). done.
  - destruct (Sender_on_timer_ok s now Hwf) as (s1 & Ht' & Hwf' & Hext). rewrite Ht in Ht'. by simplify_eq.
  - unfold Sender_poll_control. destruct (sn_control_queue s); cbn [fst].
    + split; [done|]. split; [apply extends_refl|done].
    + split; [apply (Sender_wf_same s); try done; apply Hwf|]. split; [by apply extends_same|done].
  - destruct (Sender_poll_transmit_ok s now Hwf) as (s1 & r & Hi' & Hwf' & Hext & _).
    rewrite Hi in Hi'. by simplify_eq.
  - destruct (Sender_poll_transmit_ok s now Hwf) as (s1 & r & He' & Hwf' & Hext & Hr).
    rewrite He in He'. injection He' as <- <-. destruct Hr as (idx & c & Hc & Hb & Hlo & Hcase).
    pose proof Hwf as (_ & _ & _ & Hnext & _ & _ & Hlen & _). unfold Sender_end, index_window_ok in *.
    assert (Hpk : same_but_R pkt (packet_of s idx c false) /\ dp_seq pkt = Sender_seq_at s idx /\
      idx < sn_next_send_index s' /\ idx <= sn_next_send_index s).
    { destruct c as [[[msg ts] enc] pl]. destruct Hcase as
        [(Hlt & _ & -> & _ & _ & En) | (-> & -> & _ & _ & En)]; split_and!; try done; lia. }
    destruct Hpk as (Hsame & Hseq & Hlt & Hle).
    assert (Hidx : idx < Sender_end s).
    { unfold content in Hc. destruct (Z.ltb_spec idx (sn_base_index s)); [done|].
      destruct (sn_buffer s !! _) eqn:El; [|done]. apply lookup_lt_Some in El. unfold Sender_end. lia. }
    unfold Sender_end in Hidx. rewrite Hseq, Sender_ext_of_seq_at by lia.
    split; [done|]. split; [done|]. split; [lia|]. by exists c.
Qed.

Lemma sender_run_ok s tr s' :
  Sender_wf s -> index_window_ok s -> sender_run s tr s' ->
  Sender_wf s' /\ index_window_ok s' /\ trace_ok s' tr /\
  forall i p q, (i, p) ∈ tr -> (i, q) ∈ tr -> same_but_R p q.
Proof.
  intros Hwf Hwin Hrun. induction Hrun as [s | s1 s2 s3 e tr Hrun IH Hstep].
  { do 2 (split; [done|]).
    split; [intros i p Hin | intros i p q Hin]; by apply not_elem_of_nil in Hin. }
  destruct (IH Hwf Hwin) as (Hwf2 & Hwin2 & Htr & Hsame).
  destruct (sender_step_ok s2 e s3 Hwf2 Hwin2 Hstep) as (Hwf3 & Hext & He).
  destruct Hext as (Ecfg & Eb & Ee & En & Hcont).
  assert (Hwin3 : index_window_ok s3) by (unfold index_window_ok; by rewrite Ecfg).
  assert (Htr3 : trace_ok s3 tr).
  { intros i p Hin. destruct (Htr i p Hin) as [Hlt Hc]. split; [lia|]. intros Hge.
    destruct Hc as (c & Hc & Hp); [lia|]. exists c. rewrite (packet_of_cfg s2 s3) by done.
    split; [|done]. rewrite Hcont; [done|]. pose proof Hwf2 as (_ & _ & _ & Hn & _).
    unfold Sender_end in *. lia. }
  split; [done|]. split; [done|]. destruct e as [[i0 p0]|]; [|done].
  destruct He as [[Hlo Hhi] (c & Hc & Hp)].
  assert (Hend : i0 < Sender_end s2).
  { unfold content in Hc. destruct (Z.ltb_spec i0 (sn_base_index s2)); [done|].
    destruct (sn_buffer s2 !! _) eqn:El; [|done]. apply lookup_lt_Some in El. unfold Sender_end. lia. }
  assert (Hold : forall p, (i0, p) ∈ tr -> same_but_R p p0).
  { intros p Hin. destruct (Htr i0 p Hin) as [_ Hc']. destruct Hc' as (c' & Hc' & Hp'); [done|].
    rewrite Hc in Hc'. simplify_eq. unfold same_but_R in *. congruence. }
  split.
  - intros i p Hin. apply elem_of_app in Hin as [Hin|Hin]; [by apply Htr3|].
    apply list_elem_of_singleton in Hin. simplify_eq. split; [done|]. intros Hge. exists c.
    rewrite (packet_of_cfg s2 s3) by done. split; [|done]. by rewrite Hcont.
  - intros i p q Hp1 Hq1. apply elem_of_app in Hp1 as [Hp1|Hp1], Hq1 as [Hq1|Hq1];
      try apply list_elem_of_singleton in Hp1; try apply list_elem_of_singleton in Hq1; simplify_eq.
    + by apply (Hsame i).
    + by apply Hold.
    + unfold same_but_R. symmetry. by apply Hold.
    + done.
Qed.

End Runs.

Lemma Sender_new_wf cfg :
  SenderConfig_wf cfg -> Bandwidth_validate (sc_bandwidth cfg) = Ok tt -> Bandwidth_wf (sc_bandwidth cfg) ->
  Sender_wf (Sender_new cfg).
Proof.
  intros Hcfg Hv Hb. pose proof (proj2 Hcfg) as Hfw. unfold Sender_new, Sender_wf, Sender_end.
  cbn [sn_cfg sn_buffer sn_base_index sn_next_send_index sn_last_ack_index sn_next_msg sn_loss_list
    sn_pacer length]. split_and!; try done; try lia.
  destruct (Pacer_new _ _) as [p|] eqn:Hp; [|done].
  apply (Pacer_new_wf _ _ _ Hv Hb) in Hp; [done|lia].
Qed.

(** ** Properties *)

(** C18: the sender never panics and keeps its invariant: it starts in it,
    and every call - a submitted payload, an ACK or NAK with arbitrary
    contents, a timer, a poll - returns and keeps it.  The invariant says
    that the flow-window base is the buffer front, everything between the
    front and the next new packet is in flight and within the negotiated
    window, losses are queued only for packets in flight, the buffer is
    within its capacity, and message numbers are never 0. *)
Theorem sender_invariant {C : Type} `{PayloadCipherLaws C} (s : Sender) :
  Sender_wf s ->
  (forall now payload (crypto : option C), option_cipher_wf crypto ->
     exists s' crypto' r, Sender_push s now payload crypto = Ret (s', crypto', r) /\ Sender_wf s') /\
  (forall now n cif, exists s' r, Sender_handle_ack s now n cif = Ret (s', r) /\ Sender_wf s') /\
  (forall ranges, Sender_wf (Sender_handle_nak s ranges)) /\
  (forall now, exists s', Sender_on_timer s now = Ret s' /\ Sender_wf s') /\
  (forall now, exists s' r, Sender_poll_transmit s now = Ret (s', r) /\ Sender_wf s').
Proof.
  intros Hwf. split_and!.
  - intros now payload crypto Hc.
    destruct (Sender_push_total s now payload crypto Hwf Hc) as (s' & c' & r & -> & Hwf' & _). by eexists _, _, _.
  - intros now n cif. destruct (Sender_handle_ack_ok s now n cif Hwf) as (s' & r & -> & ? & _). by eexists _, _.
  - intros ranges. by apply Sender_handle_nak_ok.
  - intros now. destruct (Sender_on_timer_ok s now Hwf) as (s' & -> & ? & _). by eexists.
  - intros now. destruct (Sender_poll_transmit_ok s now Hwf) as (s' & r & -> & ? & _). by eexists _, _.
Qed.


(** an ACK releases exactly the packets below it: acknowledging the
    sequence number of index [a] (within half the sequence circle of the
    buffer front) moves the front to [max(base, a)] and drops nothing else;
    an ACK beyond the next packet to send is a protocol violation that
    releases nothing. *)
Theorem ack_releases_exactly (s : Sender) (now n a : Z) (cif : AckCif) :
  Sender_wf s -> - 2 ^ 30 <= a - sn_base_index s < 2 ^ 30 ->
  ack_last_ack_seq cif = Sender_seq_at s a ->
  exists s' r, Sender_handle_ack s now n cif = Ret (s', r) /\
    if sn_next_send_index s <? a
    then r = Err (Closed CloseLocal) /\ sn_buffer s' = sn_buffer s /\ sn_protocol_violation s' = true
    else (exists ackack, r = Ok ackack) /\ sn_base_index s' = Z.max (sn_base_index s) a /\
      sn_buffer s' = drop (Z.to_nat (a - sn_base_index s)) (sn_buffer s).
Proof.
  intros Hwf Ha Hseq. destruct (Sender_handle_ack_ok s now n cif Hwf) as (s' & r & -> & _ & _ & Hr).
  rewrite Hseq, Sender_ext_of_seq_at in Hr by done. by exists s', r.
Qed.

(** a NAK queues exactly the lost packets still in flight: the loss
    list afterwards is the old one plus the unacknowledged indices of the
    ranges before the first invalid one; nothing else of the data changes. *)
Theorem nak_queues_exactly (s : Sender) (ranges : list LossRange) (i : Z) :
  Sender_wf s ->
  let s' := Sender_handle_nak s ranges in
  sn_buffer s' = sn_buffer s /\ sn_next_send_index s' = sn_next_send_index s /\
  (i ∈ sn_loss_list s' <->
     i ∈ sn_loss_list s \/
     (sn_base_index s <= i /\ exists r, r ∈ accepted_ranges s ranges /\
        Sender_ext_of s (lr_first r) <= i <= Sender_ext_of s (lr_last r))).
Proof.
  intros Hwf. destruct (Sender_handle_nak_ok s ranges Hwf) as (_ & _ & Hb & _ & Hn & Hin). done.
Qed.


(** a submitted payload is buffered once, behind everything else, and
    encrypted under the sequence number it will be sent with; an oversized
    one is refused without a change. *)
Theorem push_buffers_last {C : Type} `{PayloadCipherLaws C} (s : Sender) (now : Z) (payload : bytes)
    (crypto : option C) :
  Sender_wf s -> option_cipher_wf crypto ->
  if (sc_max_payload (sn_cfg s) <? length payload)%nat
  then Sender_push s now payload crypto = Ret (s, crypto, Err (PayloadTooLarge (length payload)))
  else exists s' crypto', Sender_push s now payload crypto = Ret (s', crypto', Ok tt) /\
    extends s s' /\ Sender_end s' = Sender_end s + 1 /\
    exists msg ct kk,
      content s' (Sender_end s) =
        Some (msg, Timebase_timestamp (sc_timebase (sn_cfg s)) now, kk, ct) /\
      length ct = length payload /\ buffered s crypto payload crypto' ct kk.
Proof.
  intros Hwf Hc. destruct (Nat.ltb_spec (sc_max_payload (sn_cfg s)) (length payload)) as [Hl|Hl].
  - unfold Sender_push. by destruct (Nat.ltb_spec (sc_max_payload (sn_cfg s)) (length payload)); [|lia].
  - destruct (Sender_push_ok s now payload crypto Hwf Hc Hl) as
      (s' & c' & -> & _ & Hext & _ & He & Hcont). by exists s', c'.
Qed.

(** ** Witnesses *)

Section Witnesses.
#[local] Existing Instance toy_primitives.
#[local] Existing Instance toy_laws.

Definition demo_config : SenderConfig :=
  mkSenderConfig 0x7FFFFFFE 25 (from_millis 120) 1456 8 Unlimited (Timebase_new 0).

Lemma demo_sender_wf : Sender_wf (Sender_new demo_config).
Proof.
  apply Sender_new_wf; [|reflexivity|exact I].
  split; [split; [discriminate | reflexivity] | discriminate].
Qed.

(** A sender with three buffered packets, two of them sent. *)
Definition demo_sender : Sender :=
  (Sender_new demo_config)
    <| sn_buffer := [mkBufEntry 1 0 0 None EncNone [1]; mkBufEntry 2 5 0 None EncNone [2];
                     mkBufEntry 3 9 0 None EncNone [3]] |>
    <| sn_next_send_index := 2 |> <| sn_next_msg := 4 |>.

Lemma demo_sender_sent_wf : Sender_wf demo_sender.
Proof.
  assert (Hc : SenderConfig_wf demo_config)
    by (split; [split; [discriminate | reflexivity] | discriminate]).
  unfold Sender_wf, Sender_end, demo_sender. sn.
  cbn [sn_cfg sn_buffer sn_base_index sn_next_send_index sn_last_ack_index sn_next_msg sn_loss_list
    sn_pacer length Sender_new]. split_and!; try done; try (cbn; lia).
  repeat (apply Forall_cons; split;
    [split; [cbn; lia|]; split; [split; [discriminate | reflexivity] | cbn; lia]|]).
  by apply Forall_nil.
Qed.

Lemma sender_invariant_witness :
  exists s' crypto' r,
    Sender_push (Sender_new demo_config) 5 [1; 2; 3] (None : option Crypto) = Ret (s', crypto', r) /\
    Sender_wf s'.
Proof.
  exact (proj1 (sender_invariant (C := Crypto) (Sender_new demo_config) demo_sender_wf)
    5 [1; 2; 3] None I).
Defined.

Lemma ack_releases_exactly_witness :
  exists s' r,
    Sender_handle_ack demo_sender 0 1 (light_ack (Sender_seq_at demo_sender 1)) = Ret (s', r) /\
    (exists ackack, r = Ok ackack) /\ sn_base_index s' = Z.max (sn_base_index demo_sender) 1.
Proof.
  assert (Ha : - 2 ^ 30 <= 1 - sn_base_index demo_sender < 2 ^ 30)
    by (change (sn_base_index demo_sender) with 0; lia).
  destruct (ack_releases_exactly demo_sender 0 1 1 (light_ack (Sender_seq_at demo_sender 1))
    demo_sender_sent_wf Ha eq_refl) as (s' & r & H1 & H2).
  replace (sn_next_send_index demo_sender <? 1) with false in H2 by reflexivity.
  destruct H2 as (H2 & H3 & _). exists s', r. split; [exact H1 | split; [exact H2 | exact H3]].
Defined.

Lemma nak_queues_exactly_witness :
  let s' := Sender_handle_nak demo_sender [mkLossRange 0x7FFFFFFF 0x7FFFFFFF] in
  sn_buffer s' = sn_buffer demo_sender /\ sn_next_send_index s' = sn_next_send_index demo_sender /\
  (1 ∈ sn_loss_list s' <->
     1 ∈ sn_loss_list demo_sender \/
     (sn_base_index demo_sender <= 1 /\ exists r, r ∈ accepted_ranges demo_sender [mkLossRange 0x7FFFFFFF 0x7FFFFFFF] /\
        Sender_ext_of demo_sender (lr_first r) <= 1 <= Sender_ext_of demo_sender (lr_last r))).
Proof.
  exact (nak_queues_exactly demo_sender [mkLossRange 0x7FFFFFFF 0x7FFFFFFF] 1 demo_sender_sent_wf).
Defined.


Lemma push_buffers_last_witness :
  exists s' crypto', Sender_push demo_sender 5 [7; 8] (None : option Crypto) = Ret (s', crypto', Ok tt) /\
    Sender_end s' = Sender_end demo_sender + 1.
Proof.
  pose proof (push_buffers_last (C := Crypto) demo_sender 5 [7; 8] None demo_sender_sent_wf I) as H.
  replace (sc_max_payload (sn_cfg demo_sender) <? length [7; 8])%nat with false in H by reflexivity.
  destruct H as (s' & c' & H & _ & He & _).
  exists s', c'. split; [exact H | exact He].
Defined.

(** One packet sent, lost, and sent again. *)
Definition demo_s0 : Sender := demo_sender <| sn_next_send_index := 1 |>.

Definition demo_poll (s : Sender) : Sender * DataPacket :=
  match Sender_poll_transmit s 100 with
  | Ret (s', Some pkt) => (s', pkt)
  | _ => (s, mkDataPacket 0 Only false EncNone false 0 0 0 [])
  end.

Definition demo_s1 : Sender := fst (demo_poll demo_s0).

Definition demo_s2 : Sender := Sender_handle_nak demo_s1 [mkLossRange 0x7FFFFFFF 0x7FFFFFFF].

Lemma demo_s0_wf : Sender_wf demo_s0.
Proof.
  pose proof demo_sender_sent_wf as (H1 & H2 & H3 & H4 & H5 & H6 & H7 & H8 & H9 & H10).
  unfold Sender_wf, Sender_end, demo_s0 in *. sn.
  split_and!; try done; cbn; lia.
Qed.


End Witnesses.
