(* ===== verification/LossList.v ===== *)
(** * The receiver's loss list: [unlose] and [remove_loss_range] of
    [src/core/receiver.rs]

    The code keeps the missing sequence numbers as ascending disjoint ranges
    of wrapping 31-bit numbers.  The specification is the set of missing
    positions, counted from a base; the two operations are shown to refine
    set difference as long as the list spans less than half the circle. *)

From S2P Require Import Prelude PacketTypes PacketControl.

(** ** Operations *)

(** [unlose]: the loop over the entries, with the ones already passed. *)
Fixpoint unlose_loop (passed rest : list LossRange) (seq : Z) : list LossRange :=
  match rest with
  | [] => passed
  | e :: r =>
      if SeqNumber_diff seq (lr_first e) <? 0 then passed ++ rest
      else if SeqNumber_diff (lr_last e) seq <? 0 then unlose_loop (passed ++ [e]) r seq
      else if lr_first e =? lr_last e then passed ++ r
      else if seq =? lr_first e then passed ++ mkLossRange (SeqNumber_next seq) (lr_last e) :: r
      else if seq =? lr_last e then passed ++ mkLossRange (lr_first e) (SeqNumber_prev seq) :: r
      else passed ++ mkLossRange (lr_first e) (SeqNumber_prev seq) ::
                     mkLossRange (SeqNumber_next seq) (lr_last e) :: r
  end.

Definition unlose (loss : list LossRange) (seq : Z) : list LossRange := unlose_loop [] loss seq.

(** What [remove_loss_range] keeps of one entry. *)
Definition clip_range (lo hi : Z) (e : LossRange) : list LossRange :=
  if (SeqNumber_diff hi (lr_first e) <? 0) || (SeqNumber_diff (lr_last e) lo <? 0) then [e] else
  (if SeqNumber_diff (lr_first e) lo <? 0 then [mkLossRange (lr_first e) (SeqNumber_prev lo)] else []) ++
  (if 0 <? SeqNumber_diff (lr_last e) hi then [mkLossRange (SeqNumber_next hi) (lr_last e)] else []).

Definition remove_loss_range (loss : list LossRange) (lo hi : Z) : list LossRange :=
  concat (map (clip_range lo hi) loss).

(** ** Specification *)

(** A list of ranges of positions, laid out from the sequence number [b]. *)
Definition range_at (b : Z) (e : Z * Z) : LossRange :=
  mkLossRange (SeqNumber_add b (fst e)) (SeqNumber_add b (snd e)).

Definition loss_at (b : Z) (l : list (Z * Z)) : list LossRange := map (range_at b) l.

(** Ascending disjoint ranges inside [[lo, hi]]. *)
Fixpoint ranges_ok (lo hi : Z) (l : list (Z * Z)) : Prop :=
  match l with
  | [] => True
  | e :: r => lo <= fst e <= snd e /\ snd e <= hi /\ ranges_ok (snd e + 1) hi r
  end.

(** Position [x] is missing. *)
Definition missing (l : list (Z * Z)) (x : Z) : Prop :=
  exists e, e ∈ l /\ fst e <= x <= snd e.

(** ** Lemmas *)

Lemma missing_nil x : missing [] x <-> False.
Proof. split; [intros (e & He & _); by apply elem_of_nil in He | done]. Qed.

Lemma missing_cons e l x : missing (e :: l) x <-> fst e <= x <= snd e \/ missing l x.
Proof. unfold missing. set_solver. Qed.

Lemma missing_app l1 l2 x : missing (l1 ++ l2) x <-> missing l1 x \/ missing l2 x.
Proof. unfold missing. set_solver. Qed.

Lemma missing_range lo hi l x : ranges_ok lo hi l -> missing l x -> lo <= x <= hi.
Proof.
  revert lo. induction l as [|e l IH]; intros lo; cbn; [by rewrite missing_nil|].
  rewrite missing_cons. intros (? & ? & Hl) [?|Hm]; [lia|]. specialize (IH _ Hl Hm). lia.
Qed.

Lemma ranges_ok_weaken lo hi lo' hi' l :
  ranges_ok lo hi l -> lo' <= lo -> hi <= hi' -> ranges_ok lo' hi' l.
Proof.
  revert lo lo'. induction l as [|e l IH]; intros lo lo'; cbn; [done|].
  intros (? & ? & Hl) ? ?. split; [lia|]. split; [lia|]. apply (IH _ _ Hl); lia.
Qed.

(** A list with nothing missing below [lo'] starts at [lo']. *)
Lemma ranges_ok_from lo hi lo' l :
  ranges_ok lo hi l -> (forall x, missing l x -> lo' <= x) -> ranges_ok lo' hi l.
Proof.
  destruct l as [|e l]; cbn; [done|]. intros (? & ? & Hl) Hm. split; [|done].
  split; [|lia]. apply Hm, missing_cons. left. lia.
Qed.

Lemma ranges_ok_snoc lo hi l a b :
  ranges_ok lo hi l -> lo <= hi + 1 -> hi < a -> a <= b -> ranges_ok lo b (l ++ [(a, b)]).
Proof.
  revert lo. induction l as [|e l IH]; intros lo; cbn; [lia|].
  intros (? & ? & Hl) ? ? ?. split; [lia|]. split; [lia|]. apply IH; done || lia.
Qed.

(** The first range holds the least missing position. *)
Lemma missing_head lo hi e l x : ranges_ok lo hi (e :: l) -> missing (e :: l) x -> fst e <= x.
Proof.
  cbn. rewrite missing_cons. intros (? & ? & Hl) [?|Hm]; [lia|].
  apply (missing_range _ _ _ _ Hl) in Hm. lia.
Qed.

Lemma unlose_loop_app seq rest : forall passed,
  unlose_loop passed rest seq = passed ++ unlose_loop [] rest seq.
Proof.
  induction rest as [|e r IH]; intros passed; cbn [unlose_loop]; [by rewrite app_nil_r|].
  repeat (case_if; [done|]). case_if; [|repeat (case_if; [done|]); done].
  rewrite (IH (passed ++ [e])), (IH ([] ++ [e])). by rewrite <- app_assoc.
Qed.

(** Comparisons of sequence numbers as comparisons of positions. *)
Lemma diff_at b x y :
  - 2 ^ 30 <= x - y < 2 ^ 30 -> SeqNumber_diff (SeqNumber_add b x) (SeqNumber_add b y) = x - y.
Proof. apply SeqNumber_diff_add. Qed.

Lemma eqb_at b x y :
  - 2 ^ 31 < x - y < 2 ^ 31 -> (SeqNumber_add b x =? SeqNumber_add b y) = (x =? y).
Proof.
  intros H. apply eq_true_iff_eq. rewrite !Z.eqb_eq.
  split; [by apply SeqNumber_add_inj | by intros ->].
Qed.

Lemma next_at b x : SeqNumber_next (SeqNumber_add b x) = SeqNumber_add b (x + 1).
Proof. apply SeqNumber_add_add. Qed.

Lemma prev_at b x : SeqNumber_prev (SeqNumber_add b x) = SeqNumber_add b (x - 1).
Proof. apply SeqNumber_add_add. Qed.

Definition nonempty_range (f t : Z) : list (Z * Z) := if f <=? t then [(f, t)] else [].

(** The ranges of positions [unlose] and [clip_range] leave. *)
Fixpoint unlose_pos (l : list (Z * Z)) (x : Z) : list (Z * Z) :=
  match l with
  | [] => []
  | e :: r =>
      if x <? fst e then l
      else if snd e <? x then e :: unlose_pos r x
      else nonempty_range (fst e) (x - 1) ++ nonempty_range (x + 1) (snd e) ++ r
  end.

Definition clip_pos (lo hi : Z) (e : Z * Z) : list (Z * Z) :=
  nonempty_range (fst e) (Z.min (snd e) (lo - 1)) ++ nonempty_range (Z.max (fst e) (hi + 1)) (snd e).

Lemma unlose_refines b lo hi l x :
  ranges_ok lo hi l -> lo <= x <= hi -> hi - lo < 2 ^ 30 ->
  unlose (loss_at b l) (SeqNumber_add b x) = loss_at b (unlose_pos l x).
Proof.
  intros Hl Hx Hw. unfold unlose. assert (exists lo', ranges_ok lo' hi l /\ lo <= lo') as (lo' & Hl' & Hlo)
    by (exists lo; split; [done|lia]). clear Hl. revert lo' Hl' Hlo.
  induction l as [|[f t] l IH]; intros lo' Hl Hlo; [done|]. cbn [ranges_ok fst snd] in Hl.
  destruct Hl as (Hf & Ht & Hl).
  cbn [loss_at map unlose_loop range_at lr_first lr_last unlose_pos fst snd].
  rewrite !diff_at, !eqb_at, next_at, prev_at by lia.
  replace (x - f <? 0) with (x <? f) by (apply eq_true_iff_eq; rewrite !Z.ltb_lt; lia).
  replace (t - x <? 0) with (t <? x) by (apply eq_true_iff_eq; rewrite !Z.ltb_lt; lia).
  case_if; [done|]. case_if; to_prop.
  - rewrite unlose_loop_app. cbn [app map]. f_equal. apply (IH (t + 1)); [done|lia].
  - unfold nonempty_range. repeat case_if; to_prop; done || (try lia). all: subst; done.
Qed.

Lemma unlose_pos_ok lo hi l x :
  ranges_ok lo hi l ->
  ranges_ok lo hi (unlose_pos l x) /\ forall y, missing (unlose_pos l x) y <-> missing l y /\ y <> x.
Proof.
  revert lo. induction l as [|[f t] l IH]; intros lo Hl.
  { split; [done|]. intros y. cbn. rewrite missing_nil. intuition. }
  cbn [ranges_ok fst snd] in Hl. destruct Hl as (Hf & Ht & Hl). cbn [unlose_pos fst snd].
  case_if; [|case_if]; to_prop.
  - split; [done|]. intros y. rewrite missing_cons. cbn.
    split; [|by intros [? _]]. intros Hy. split; [done|].
    destruct Hy as [?|Hy]; [lia|]. apply (missing_range _ _ _ _ Hl) in Hy. lia.
  - destruct (IH _ Hl) as [H1 H2]. split; [done|]. intros y. rewrite !missing_cons, H2. cbn.
    intuition lia.
  - assert (Hin : forall y, missing l y -> y <> x)
      by (intros y Hy; apply (missing_range _ _ _ _ Hl) in Hy; lia).
    unfold nonempty_range. repeat case_if; to_prop; cbn [app ranges_ok fst snd];
      (split; [|intros y; specialize (Hin y); rewrite !missing_cons; cbn; intuition lia]);
      split_and?; try lia; apply (ranges_ok_weaken _ _ _ _ _ Hl); lia.
Qed.

Definition remove_pos (lo hi : Z) (l : list (Z * Z)) : list (Z * Z) := concat (map (clip_pos lo hi) l).

Lemma remove_loss_range_refines b lo hi l x y :
  ranges_ok lo hi l -> x <= y -> Z.max hi y - Z.min lo x < 2 ^ 30 ->
  remove_loss_range (loss_at b l) (SeqNumber_add b x) (SeqNumber_add b y) = loss_at b (remove_pos x y l).
Proof.
  intros Hl Hxy. revert lo Hl. unfold remove_loss_range, remove_pos.
  induction l as [|[f t] l IH]; intros lo Hl Hw; [done|]. cbn [ranges_ok fst snd] in Hl.
  destruct Hl as (Hf & Ht & Hl). cbn [loss_at map concat]. unfold loss_at. rewrite map_app.
  f_equal; [|by apply (IH (t + 1)); [done|lia]].
  unfold clip_range, clip_pos, nonempty_range. cbn [range_at lr_first lr_last fst snd].
  rewrite !diff_at, next_at, prev_at by lia.
  repeat case_if; repeat match goal with
    | H : (_ || _) = true |- _ => apply orb_true_iff in H as [H|H] end; to_prop; try lia;
    cbn; unfold range_at; cbn; repeat (f_equal; try lia).
Qed.

Lemma clip_pos_ok lo hi f t x y :
  lo <= f <= t -> t <= hi -> x <= y ->
  ranges_ok lo t (clip_pos x y (f, t)) /\
  forall z, missing (clip_pos x y (f, t)) z <-> f <= z <= t /\ ~ x <= z <= y.
Proof.
  intros. unfold clip_pos, nonempty_range. cbn [fst snd].
  repeat case_if; to_prop; cbn [app ranges_ok fst snd]; (split; [lia|]); intros z;
    rewrite ?missing_cons, missing_nil; cbn; lia.
Qed.

Lemma ranges_ok_app lo mid hi l1 l2 :
  ranges_ok lo mid l1 -> ranges_ok (mid + 1) hi l2 -> lo <= mid + 1 -> mid <= hi ->
  ranges_ok lo hi (l1 ++ l2).
Proof.
  revert lo. induction l1 as [|e l1 IH]; intros lo; cbn.
  - intros _ H2 ? ?. apply (ranges_ok_weaken _ _ _ _ _ H2); lia.
  - intros (? & ? & H1) H2 ? ?. split; [lia|]. split; [lia|]. apply IH; done || lia.
Qed.

Lemma remove_pos_ok lo hi l x y :
  ranges_ok lo hi l -> x <= y ->
  ranges_ok lo hi (remove_pos x y l) /\
  forall z, missing (remove_pos x y l) z <-> missing l z /\ ~ x <= z <= y.
Proof.
  intros Hl Hxy. revert lo Hl. unfold remove_pos. induction l as [|[f t] l IH]; intros lo Hl.
  { split; [done|]. intros y'. cbn. rewrite missing_nil. intuition. }
  cbn [ranges_ok fst snd] in Hl. destruct Hl as (Hf & Ht & Hl). cbn [map concat].
  destruct (IH _ Hl) as [IH1 IH2]. destruct (clip_pos_ok lo hi f t x y) as [H1 H2]; [lia..|].
  split; [by apply (ranges_ok_app _ t); try lia|].
  intros z. rewrite missing_app, missing_cons, IH2, H2. cbn. tauto.
Qed.

(** The same ranges counted from a base [k] further on. *)
Definition shift_ranges (k : Z) (l : list (Z * Z)) : list (Z * Z) :=
  map (fun e => (fst e - k, snd e - k)) l.

Lemma loss_at_shift b k l : loss_at (SeqNumber_add b k) (shift_ranges k l) = loss_at b l.
Proof.
  unfold loss_at, shift_ranges. rewrite map_map. apply map_ext. intros [f t]. unfold range_at. cbn [fst snd].
  rewrite !SeqNumber_add_add. f_equal; f_equal; lia.
Qed.

Lemma ranges_ok_shift k lo hi l : ranges_ok lo hi l -> ranges_ok (lo - k) (hi - k) (shift_ranges k l).
Proof.
  revert lo. induction l as [|[f t] l IH]; intros lo; cbn; [done|]. intros (? & ? & Hl).
  split; [lia|]. split; [lia|]. replace (t - k + 1) with (t + 1 - k) by lia. by apply IH.
Qed.

Lemma missing_shift k l x : missing (shift_ranges k l) x <-> missing l (x + k).
Proof.
  induction l as [|[f t] l IH]; cbn [shift_ranges map]; [by rewrite !missing_nil|].
  fold (shift_ranges k l). rewrite !missing_cons, IH. cbn [fst snd].
  assert (f - k <= x <= t - k <-> f <= x + k <= t) by lia. tauto.
Qed.

(** ** Properties *)

(** [unlose] takes exactly the recovered sequence number out of the loss
    list: the result is again an ascending list of disjoint ranges and
    denotes the set of missing positions without that one, also across the
    wrap of the sequence numbers. *)
Theorem unlose_removes_exactly (b lo hi x : Z) (l : list (Z * Z)) :
  ranges_ok lo hi l -> lo <= x <= hi -> hi - lo < 2 ^ 30 ->
  exists l', unlose (loss_at b l) (SeqNumber_add b x) = loss_at b l' /\ ranges_ok lo hi l' /\
    forall y, missing l' y <-> missing l y /\ y <> x.
Proof.
  intros Hl Hx Hw. exists (unlose_pos l x).
  split; [by apply (unlose_refines _ lo hi)|]. by apply unlose_pos_ok.
Qed.

(** A range that wraps at [2^31], split by the packet that arrives. *)
Lemma unlose_removes_exactly_witness :
  unlose (loss_at 0x7FFFFFFE [(0, 3)]) (SeqNumber_add 0x7FFFFFFE 1) =
    [mkLossRange 0x7FFFFFFE 0x7FFFFFFE; mkLossRange 0 1] /\
  exists l', unlose (loss_at 0x7FFFFFFE [(0, 3)]) (SeqNumber_add 0x7FFFFFFE 1) = loss_at 0x7FFFFFFE l' /\
    ranges_ok 0 5 l' /\ forall y, missing l' y <-> missing [(0, 3)] y /\ y <> 1.
Proof.
  split; [reflexivity|].
  apply (unlose_removes_exactly 0x7FFFFFFE 0 5 1 [(0, 3)]); [cbn; lia | lia | lia].
Defined.

(** [remove_loss_range] takes exactly the closed range out of the loss
    list: the result is again ascending and disjoint and denotes the set
    difference, also across the wrap of the sequence numbers. *)
Theorem remove_loss_range_removes_exactly (b lo hi x y : Z) (l : list (Z * Z)) :
  ranges_ok lo hi l -> x <= y -> Z.max hi y - Z.min lo x < 2 ^ 30 ->
  exists l', remove_loss_range (loss_at b l) (SeqNumber_add b x) (SeqNumber_add b y) = loss_at b l' /\
    ranges_ok lo hi l' /\ forall z, missing l' z <-> missing l z /\ ~ x <= z <= y.
Proof.
  intros Hl Hx Hw. exists (remove_pos x y l).
  split; [by apply (remove_loss_range_refines _ lo hi)|]. by apply remove_pos_ok.
Qed.

(** The tail of one range, a whole range and the head of a third. *)
Lemma remove_loss_range_removes_exactly_witness :
  remove_loss_range (loss_at 0x7FFFFFFE [(0, 3); (5, 5); (7, 9)])
      (SeqNumber_add 0x7FFFFFFE 2) (SeqNumber_add 0x7FFFFFFE 7) =
    [mkLossRange 0x7FFFFFFE 0x7FFFFFFF; mkLossRange 6 7] /\
  exists l', remove_loss_range (loss_at 0x7FFFFFFE [(0, 3); (5, 5); (7, 9)])
      (SeqNumber_add 0x7FFFFFFE 2) (SeqNumber_add 0x7FFFFFFE 7) = loss_at 0x7FFFFFFE l' /\
    ranges_ok 0 9 l' /\ forall z, missing l' z <-> missing [(0, 3); (5, 5); (7, 9)] z /\ ~ 2 <= z <= 7.
Proof.
  split; [reflexivity|].
  apply (remove_loss_range_removes_exactly 0x7FFFFFFE 0 9 2 7 [(0, 3); (5, 5); (7, 9)]);
    [cbn; lia | lia | lia].
Defined.
