(* ===== verification/Receiver.v ===== *)
(** * Live-mode data receiver: [src/core/receiver.rs]

    Receive buffer, loss list, ACK and NAK generation, RTT estimate, TSBPD
    delivery.  Time and durations are nanoseconds; the event counters are
    unbounded integers. *)

From Stdlib Require Import Sorting.Sorted.
From S2P Require Import Prelude PacketTypes PacketData PacketHandshake PacketControl Time LossList.

(** ** Data *)

Definition FULL_ACK_INTERVAL : Z := from_millis 10.

Definition LIGHT_ACK_PACKETS : Z := 64.

Definition ACK_HISTORY : nat := 1024.

Definition Receiver_INITIAL_RTT_US : Z := 100000.

Definition Receiver_INITIAL_RTT_VAR_US : Z := 50000.

Definition NAK_MIN_INTERVAL : Z := from_millis 20.

Definition NAK_INITIAL_INTERVAL : Z := from_millis 300.

Definition MIN_AVAIL_BUF : nat := 2.

Definition DEFAULT_MAX_PAYLOAD : nat := 1456.

Definition MIN_NAK_WORDS : nat := 2.

Definition incack (a : Z) : Z := if a =? 0x7FFFFFFF then 0 else a + 1.

Record ReceiverConfig := mkReceiverConfig {
  rc_initial_seq : Z;
  rc_rcv_latency : Z;
  rc_buffer_pkts : nat
}.

Record ReceiverStats := mkReceiverStats {
  rs_pkts_recv : Z;
  rs_bytes_recv : Z;
  rs_pkts_lost : Z;
  rs_pkts_dropped : Z;
  rs_pkts_belated : Z;
  rs_pkts_oversized : Z;
  rs_rtt_us : Z;
  rs_rtt_var_us : Z;
  rs_tsbpd_drift_us : Z
}.

#[export] Instance ReceiverStats_eta : Etable ReceiverStats := fun s =>
  mkReceiverStats (rs_pkts_recv s) (rs_bytes_recv s) (rs_pkts_lost s) (rs_pkts_dropped s)
    (rs_pkts_belated s) (rs_pkts_oversized s) (rs_rtt_us s) (rs_rtt_var_us s) (rs_tsbpd_drift_us s).

Record Anchor := mkAnchor { an_instant : Z; an_ext_us : Z }.

Record RcvSlot := mkRcvSlot {
  sl_payload : bytes;
  sl_msg_number : Z;
  sl_ext_us : Z;
  sl_undecryptable : bool
}.

Record AckRecord := mkAckRecord { ar_number : Z; ar_seq : Z; ar_sent : Z }.

Record Receiver := mkReceiver {
  rv_cfg : ReceiverConfig;
  rv_base_seq : Z;
  rv_slots : list (option RcvSlot);
  rv_scan_hint : nat;
  rv_rcv_curr_seq : Z;
  rv_loss : list LossRange;
  rv_extender : TimestampExtender;
  rv_anchor : option Anchor;
  rv_rcv_last_ack : Z;
  rv_rcv_last_ackack : Z;
  rv_ack_journal : list AckRecord;
  rv_ack_seq_no : Z;
  rv_next_full_ack : Z;
  rv_last_ack_time : Z;
  rv_pkt_count : Z;
  rv_light_ack_count : Z;
  rv_nak_interval : Z;
  rv_next_nak_time : Z;
  rv_srtt_us : Z;
  rv_rtt_var_us : Z;
  rv_rtt_first : bool;
  rv_first_rtt_us : Z;
  rv_drift : DriftTracer;
  rv_max_payload : nat;
  rv_discrepancy : bool;
  rv_undecrypted : Z;
  rv_control_q : list ControlType;
  rv_stats : ReceiverStats
}.

#[export] Instance Receiver_eta : Etable Receiver := fun r =>
  mkReceiver (rv_cfg r) (rv_base_seq r) (rv_slots r) (rv_scan_hint r) (rv_rcv_curr_seq r) (rv_loss r)
    (rv_extender r) (rv_anchor r) (rv_rcv_last_ack r) (rv_rcv_last_ackack r) (rv_ack_journal r)
    (rv_ack_seq_no r) (rv_next_full_ack r) (rv_last_ack_time r) (rv_pkt_count r)
    (rv_light_ack_count r) (rv_nak_interval r) (rv_next_nak_time r) (rv_srtt_us r) (rv_rtt_var_us r)
    (rv_rtt_first r) (rv_first_rtt_us r) (rv_drift r) (rv_max_payload r) (rv_discrepancy r)
    (rv_undecrypted r) (rv_control_q r) (rv_stats r).

(** ** Operations *)

Definition Receiver_new (now : Z) (cfg : ReceiverConfig) : Receiver :=
  mkReceiver cfg (rc_initial_seq cfg) [] 0 (SeqNumber_prev (rc_initial_seq cfg)) []
    TimestampExtender_new None (rc_initial_seq cfg) (rc_initial_seq cfg) [] 0
    (now + FULL_ACK_INTERVAL) now 0 1 NAK_INITIAL_INTERVAL (now + NAK_INITIAL_INTERVAL)
    Receiver_INITIAL_RTT_US Receiver_INITIAL_RTT_VAR_US true 0 DriftTracer_new DEFAULT_MAX_PAYLOAD
    false 0 [] (mkReceiverStats 0 0 0 0 0 0 0 0 0).

Definition Receiver_set_hs_anchor (r : Receiver) (instant ts : Z) : Receiver :=
  match rv_anchor r with
  | Some _ => r
  | None =>
      let '(ext, ext_us) := TimestampExtender_extend (rv_extender r) ts instant in
      r <| rv_extender := ext |> <| rv_anchor := Some (mkAnchor instant ext_us) |>
  end.

Definition Receiver_set_max_payload (r : Receiver) (bytes : nat) : Receiver := r <| rv_max_payload := bytes |>.

Definition Receiver_ack_value (r : Receiver) : Z :=
  match rv_loss r with
  | e :: _ => lr_first e
  | [] => SeqNumber_next (rv_rcv_curr_seq r)
  end.

Definition Receiver_avail_buf_pkts (r : Receiver) : Z :=
  let used := Z.to_nat (Z.max (SeqNumber_diff (rv_rcv_last_ack r) (rv_base_seq r)) 0) in
  as_u32 (Z.of_nat (Nat.max (rc_buffer_pkts (rv_cfg r) - used) MIN_AVAIL_BUF)).

Definition push_control (r : Receiver) (c : ControlType) : Receiver :=
  r <| rv_control_q := rv_control_q r ++ [c] |>.

(** The rules that decide whether [queue_full_ack] sends, in order; [None]
    is an early return, and the result carries the moved [rcv_last_ack]. *)
Definition Receiver_full_ack_due (r : Receiver) (now : Z) : option Receiver :=
  let ack := Receiver_ack_value r in
  if ack =? rv_rcv_last_ackack r then None else
  let advance := SeqNumber_diff ack (rv_rcv_last_ack r) in
  let moved :=
    if 0 <? advance then Some (r <| rv_rcv_last_ack := ack |>)
    else if advance =? 0 then
      let repeat_after := from_micros (rv_srtt_us r + 4 * rv_rtt_var_us r) in
      if duration_since now (rv_last_ack_time r) <? repeat_after then None else Some r
    else None in
  moved.

Definition Receiver_queue_full_ack (r : Receiver) (now : Z) : Receiver :=
  match Receiver_full_ack_due r now with
  | None => r
  | Some r =>
      if SeqNumber_diff (rv_rcv_last_ack r) (rv_rcv_last_ackack r) <=? 0 then r else
      let r := r <| rv_ack_seq_no := incack (rv_ack_seq_no r) |> in
      let cif := mkAckCif (rv_rcv_last_ack r) (Some (rv_srtt_us r)) (Some (rv_rtt_var_us r))
                   (Some (Receiver_avail_buf_pkts r)) (Some 0) (Some 0) (Some 0) in
      let r := push_control r (Ack (rv_ack_seq_no r) cif) in
      let journal := if (length (rv_ack_journal r) =? ACK_HISTORY)%nat
                     then drop 1 (rv_ack_journal r) else rv_ack_journal r in
      let r := r <| rv_ack_journal :=
                 journal ++ [mkAckRecord (rv_ack_seq_no r) (rv_rcv_last_ack r) now] |> in
      r <| rv_last_ack_time := now |>
  end.

Definition Receiver_queue_light_ack (r : Receiver) : Receiver :=
  let ack := Receiver_ack_value r in
  if ack =? rv_rcv_last_ackack r then r else push_control r (Ack 0 (light_ack ack)).

Definition Receiver_queue_nak (r : Receiver) (ranges : list LossRange) : Receiver :=
  match ranges with
  | [] => r
  | _ =>
      let r := r <| rv_nak_interval :=
        Z.max (from_micros ((rv_srtt_us r + 4 * rv_rtt_var_us r) / 2)) NAK_MIN_INTERVAL |> in
      push_control r (Nak ranges)
  end.

(** The budgeted prefix of the loss list. *)
Fixpoint nak_prefix (max_words words : nat) (loss : list LossRange) : list LossRange :=
  match loss with
  | [] => []
  | e :: r =>
      let need := if lr_first e =? lr_last e then 1%nat else 2%nat in
      if (max_words <? words + need)%nat then [] else e :: nak_prefix max_words (words + need) r
  end.

Definition Receiver_nak_ranges (r : Receiver) : list LossRange :=
  let max_words := Nat.max (rv_max_payload r / 4) MIN_NAK_WORDS in
  nak_prefix max_words 0 (rv_loss r).

Definition slot_empty (s : option RcvSlot) : bool := match s with None => true | Some _ => false end.

(** The gap a packet reveals is recorded and NAKed, unless it could not be
    decrypted. *)
Definition Receiver_detect_gap (r : Receiver) (seq : Z) (undecryptable : bool) : Receiver :=
  let expected := SeqNumber_next (rv_rcv_curr_seq r) in
  if 0 <? SeqNumber_diff seq expected then
    if undecryptable then r else
    let range := mkLossRange expected (SeqNumber_prev seq) in
    let lost := as_u64 (SeqNumber_diff (lr_last range) (lr_first range)) + 1 in
    let r := r <| rv_stats := rv_stats r <| rs_pkts_lost := rs_pkts_lost (rv_stats r) + lost |> |> in
    let r := r <| rv_loss := rv_loss r ++ [range] |> in
    Receiver_queue_nak r [range]
  else r.

Definition Receiver_store_data (r : Receiver) (pkt : DataPacket) (ext_us : Z) (undecryptable : bool)
    : panicking Receiver :=
  let seq := dp_seq pkt in
  let offset := SeqNumber_diff seq (rv_base_seq r) in
  if offset <? 0 then
    Ret (r <| rv_stats := rv_stats r <| rs_pkts_belated := rs_pkts_belated (rv_stats r) + 1 |> |>)
  else
  let offset := Z.to_nat offset in
  if (rc_buffer_pkts (rv_cfg r) <=? offset)%nat then
    Ret (if forallb slot_empty (drop (rv_scan_hint r) (rv_slots r))
         then r <| rv_discrepancy := true |> else r)
  else
  let r := if (length (rv_slots r) <=? offset)%nat
           then r <| rv_slots := rv_slots r ++ replicate (offset + 1 - length (rv_slots r)) None |>
           else r in
  old ← index (rv_slots r) offset;
  if negb (slot_empty old) then Ret r else
  let r := Receiver_detect_gap r seq undecryptable in
  let r := if 0 <? SeqNumber_diff seq (rv_rcv_curr_seq r)
           then r <| rv_rcv_curr_seq := seq |>
           else r <| rv_loss := unlose (rv_loss r) seq |> in
  let slot := mkRcvSlot (dp_payload pkt) (dp_msg_number pkt) ext_us undecryptable in
  let r := r <| rv_slots := <[ offset := Some slot ]> (rv_slots r) |> in
  let r := r <| rv_scan_hint := Nat.min (rv_scan_hint r) offset |> in
  Ret (if undecryptable then r <| rv_undecrypted := rv_undecrypted r + 1 |> else r).

Definition Receiver_ingest (r : Receiver) (now : Z) (pkt : DataPacket) (undecryptable : bool)
    : panicking Receiver :=
  if (rv_max_payload r <? length (dp_payload pkt))%nat then
    Ret (r <| rv_stats := rv_stats r <| rs_pkts_oversized := rs_pkts_oversized (rv_stats r) + 1 |> |>)
  else
  let r := r <| rv_stats := rv_stats r <| rs_pkts_recv := rs_pkts_recv (rv_stats r) + 1 |>
                 <| rs_bytes_recv := rs_bytes_recv (rv_stats r) + Z.of_nat (length (dp_payload pkt)) |> |> in
  let r := r <| rv_pkt_count := rv_pkt_count r + 1 |> in
  let '(ext, ext_us) := TimestampExtender_extend (rv_extender r) (dp_timestamp pkt) now in
  let r := r <| rv_extender := ext |> in
  let r := match rv_anchor r with
           | None => r <| rv_anchor := Some (mkAnchor now ext_us) |>
           | Some _ => r
           end in
  r ← Receiver_store_data r pkt ext_us undecryptable;
  Ret (if LIGHT_ACK_PACKETS * rv_light_ack_count r <=? rv_pkt_count r
       then Receiver_queue_light_ack (r <| rv_light_ack_count := rv_light_ack_count r + 1 |>)
       else r).

Definition Receiver_handle_data (r : Receiver) (now : Z) (pkt : DataPacket) : panicking Receiver :=
  Receiver_ingest r now pkt false.

Definition Receiver_handle_undecryptable (r : Receiver) (now : Z) (pkt : DataPacket)
    : panicking Receiver :=
  Receiver_ingest r now pkt true.

(** [Iterator::position]. *)
Fixpoint position {A} (f : A -> bool) (l : list A) : option nat :=
  match l with
  | [] => None
  | x :: r => if f x then Some O else S <$> position f r
  end.

(** The RTT estimator's update. *)
Definition Receiver_rtt_sample (r : Receiver) (rtt_us : Z) : Receiver :=
  if rv_rtt_first r then
    r <| rv_rtt_first := false |> <| rv_first_rtt_us := rtt_us |> <| rv_srtt_us := rtt_us |>
      <| rv_rtt_var_us := rtt_us / 2 |>
  else
    let err := Z.abs (rv_srtt_us r - rtt_us) in
    let r := r <| rv_rtt_var_us := as_u32 ((3 * rv_rtt_var_us r + err) / 4) |> in
    r <| rv_srtt_us := as_u32 ((7 * rv_srtt_us r + rtt_us) / 8) |>.

Definition Receiver_handle_ackack (r : Receiver) (now ack_number ts : Z) : panicking Receiver :=
  match position (fun rec => ar_number rec =? ack_number) (rv_ack_journal r) with
  | None => Ret r
  | Some pos =>
      rec ← index (rv_ack_journal r) pos;
      let r := r <| rv_ack_journal := drop (S pos) (rv_ack_journal r) |> in
      let rtt_us := Z.min (as_micros (duration_since now (ar_sent rec))) U32_MAX in
      if rtt_us =? 0 then Ret r else
      let r := Receiver_rtt_sample r rtt_us in
      let r := if 0 <? SeqNumber_diff (ar_seq rec) (rv_rcv_last_ackack r)
               then r <| rv_rcv_last_ackack := ar_seq rec |> else r in
      match rv_anchor r with
      | None => Ret r
      | Some anchor =>
          let '(ext, ext_us) := TimestampExtender_extend (rv_extender r) ts now in
          let r := r <| rv_extender := ext |> in
          let local_us := as_i64 (as_micros (duration_since now (an_instant anchor))) in
          let peer_us := as_i64 ext_us - as_i64 (an_ext_us anchor) in
          let rtt_corr_us := Z.quot (rtt_us - rv_first_rtt_us r) 2 in
          let '(drift, _) := DriftTracer_sample (rv_drift r) (local_us - peer_us - rtt_corr_us) in
          Ret (r <| rv_drift := drift |>)
      end
  end.

(** The loop of [handle_dropreq] that clears a message's slots. *)
Fixpoint drop_message (fuel : nat) (slots : list (option RcvSlot)) (i hi msg_number : Z)
    : panicking (list (option RcvSlot)) :=
  match fuel with
  | O => Panic
  | S fuel =>
      if (i <=? hi) && (i <? Z.of_nat (length slots)) then
        s ← index slots (Z.to_nat i);
        let slots :=
          match s with
          | Some slot => if sl_msg_number slot =? msg_number
                         then <[ Z.to_nat i := None ]> slots else slots
          | None => slots
          end in
        drop_message fuel slots (i + 1) hi msg_number
      else Ret slots
  end.

Definition Receiver_handle_dropreq (r : Receiver) (msg_number first last : Z) : panicking Receiver :=
  if 0 <? SeqNumber_diff first last then Ret r else
  let r := r <| rv_loss := remove_loss_range (rv_loss r) first last |> in
  r ← (if negb (msg_number =? 0) then
         let lo := Z.max (SeqNumber_diff first (rv_base_seq r)) 0 in
         let hi := SeqNumber_diff last (rv_base_seq r) in
         slots ← drop_message (S (length (rv_slots r))) (rv_slots r) lo hi msg_number;
         Ret (r <| rv_slots := slots |>)
       else Ret r);
  Ret (if (SeqNumber_diff first (SeqNumber_next (rv_rcv_curr_seq r)) <=? 0) &&
          (0 <? SeqNumber_diff last (rv_rcv_curr_seq r))
       then r <| rv_rcv_curr_seq := last |> else r).

Definition Receiver_on_timer (r : Receiver) (now : Z) : Receiver :=
  let r :=
    if rv_next_full_ack r <=? now then
      let r := Receiver_queue_full_ack r now in
      r <| rv_pkt_count := 0 |> <| rv_light_ack_count := 1 |>
        <| rv_next_full_ack := now + FULL_ACK_INTERVAL |>
    else r in
  match rv_loss r with
  | [] => r <| rv_next_nak_time := now + rv_nak_interval r |>
  | _ =>
      if rv_next_nak_time r <=? now then
        let r := Receiver_queue_nak r (Receiver_nak_ranges r) in
        r <| rv_next_nak_time := now + rv_nak_interval r |>
      else r
  end.

Definition Receiver_poll_control (r : Receiver) : Receiver * option ControlType :=
  match rv_control_q r with
  | [] => (r, None)
  | c :: q => (r <| rv_control_q := q |>, Some c)
  end.

Definition Receiver_tsbpd_deadline (r : Receiver) (anchor : Anchor) (ext_us : Z) : Z :=
  let offset := as_i64 ext_us - as_i64 (an_ext_us anchor) + DriftTracer_correction_us (rv_drift r) +
                as_i64 (as_micros (rc_rcv_latency (rv_cfg r))) in
  if 0 <=? offset then an_instant anchor + from_micros offset
  else default (an_instant anchor) (instant_checked_sub (an_instant anchor) (from_micros (Z.abs offset))).

(** [slots.iter().skip(scan_hint).position(|s| s.is_some())]. *)
Definition first_occupied (r : Receiver) : option nat :=
  (fun p => (rv_scan_hint r + p)%nat) <$>
    position (fun s => negb (slot_empty s)) (drop (rv_scan_hint r) (rv_slots r)).

(** [VecDeque::drain(.. n)]. *)
Definition drain_slots (slots : list (option RcvSlot)) (n : nat) : panicking (list (option RcvSlot)) :=
  if (n <=? length slots)%nat then Ret (drop n slots) else Panic.

Fixpoint Receiver_deliver_loop (fuel : nat) (r : Receiver) (anchor : Anchor) (now : Z)
    : panicking (Receiver * option bytes) :=
  match fuel with
  | O => Panic
  | S fuel =>
      match first_occupied r with
      | None => Ret (r <| rv_scan_hint := length (rv_slots r) |>, None)
      | Some first =>
          let r := r <| rv_scan_hint := first |> in
          head_slot ← index (rv_slots r) first;
          occupied ← expect head_slot;
          if now <? Receiver_tsbpd_deadline r anchor (sl_ext_us occupied) then Ret (r, None) else
          r ← (if (0 <? first)%nat then
                 let lo := rv_base_seq r in
                 let hi := SeqNumber_add (rv_base_seq r) (Z.of_nat first - 1) in
                 let r := r <| rv_loss := remove_loss_range (rv_loss r) lo hi |> in
                 let r := r <| rv_stats := rv_stats r
                            <| rs_pkts_dropped := rs_pkts_dropped (rv_stats r) + Z.of_nat first |> |> in
                 slots ← drain_slots (rv_slots r) first;
                 Ret (r <| rv_slots := slots |>
                        <| rv_base_seq := SeqNumber_add (rv_base_seq r) (Z.of_nat first) |>)
               else Ret r);
          let r := r <| rv_scan_hint := O |> in
          front ← expect (head (rv_slots r));
          slot ← expect front;
          let r := r <| rv_slots := drop 1 (rv_slots r) |> in
          if sl_undecryptable slot then
            let r := r <| rv_stats := rv_stats r
                       <| rs_pkts_dropped := rs_pkts_dropped (rv_stats r) + 1 |> |> in
            Receiver_deliver_loop fuel (r <| rv_base_seq := SeqNumber_next (rv_base_seq r) |>) anchor now
          else Ret (r <| rv_base_seq := SeqNumber_next (rv_base_seq r) |>, Some (sl_payload slot))
      end
  end.

Definition Receiver_poll_deliver (r : Receiver) (now : Z) : panicking (Receiver * option bytes) :=
  match rv_anchor r with
  | None => Ret (r, None)
  | Some anchor => Receiver_deliver_loop (S (length (rv_slots r))) r anchor now
  end.

Definition Receiver_next_deadline (r : Receiver) (now : Z) : option Z :=
  let deadline := rv_next_full_ack r in
  let deadline := match rv_loss r with [] => deadline | _ => Z.min deadline (rv_next_nak_time r) end in
  let deadline :=
    match rv_anchor r, find_map (fun s => s) (drop (rv_scan_hint r) (rv_slots r)) with
    | Some anchor, Some slot => Z.min deadline (Receiver_tsbpd_deadline r anchor (sl_ext_us slot))
    | _, _ => deadline
    end in
  Some (Z.max deadline now).

Definition Receiver_sequence_discrepancy (r : Receiver) : bool := rv_discrepancy r.

Definition Receiver_undecrypted_count (r : Receiver) : Z := rv_undecrypted r.

Definition Receiver_rtt (r : Receiver) : Z * Z := (rv_srtt_us r, rv_rtt_var_us r).

Definition Receiver_get_stats (r : Receiver) : ReceiverStats :=
  rv_stats r <| rs_rtt_us := rv_srtt_us r |> <| rs_rtt_var_us := rv_rtt_var_us r |>
    <| rs_tsbpd_drift_us := DriftTracer_correction_us (rv_drift r) |>.

(** ** Invariant *)

(** [r] seen from its base: [c] is the position of [rcv_curr_seq] and [l]
    the missing ranges of positions. *)
Definition Receiver_view (r : Receiver) (l : list (Z * Z)) (c : Z) : Prop :=
  SeqNumber_wf (rv_base_seq r) /\
  -1 <= c < 2 ^ 29 /\
  rv_rcv_curr_seq r = SeqNumber_add (rv_base_seq r) c /\
  rv_loss r = loss_at (rv_base_seq r) l /\
  ranges_ok 0 c l /\
  (forall i s, rv_slots r !! i = Some (Some s) ->
     Z.of_nat i <= c /\ ~ missing l (Z.of_nat i) /\ (rv_scan_hint r <= i)%nat) /\
  (length (rv_slots r) <= rc_buffer_pkts (rv_cfg r))%nat /\
  Z.of_nat (rc_buffer_pkts (rv_cfg r)) <= 2 ^ 29.

(** The machine words of the state and the messages it sends. *)
Definition Receiver_words (r : Receiver) : Prop :=
  is_u32 (rv_srtt_us r) /\ is_u32 (rv_rtt_var_us r) /\
  0 <= rv_ack_seq_no r < 2 ^ 31 /\
  SeqNumber_wf (rv_rcv_last_ack r) /\
  (length (rv_ack_journal r) <= ACK_HISTORY)%nat /\
  Forall ControlType_wf (rv_control_q r).

Definition Receiver_wf (r : Receiver) : Prop := (exists l c, Receiver_view r l c) /\ Receiver_words r.

(** What holds of the state whatever the peer sends. *)
Definition Receiver_typed (r : Receiver) : Prop :=
  Receiver_words r /\ SeqNumber_wf (rv_rcv_curr_seq r) /\ Forall LossRange_wf (rv_loss r).

(** Position of the next acknowledgement. *)
Definition ack_pos (l : list (Z * Z)) (c : Z) : Z := match l with e :: _ => fst e | [] => c + 1 end.

(** Two states with the same receive buffer. *)
Definition same_buffer (r r' : Receiver) : Prop :=
  rv_cfg r' = rv_cfg r /\ rv_base_seq r' = rv_base_seq r /\ rv_slots r' = rv_slots r /\
  rv_scan_hint r' = rv_scan_hint r /\ rv_rcv_curr_seq r' = rv_rcv_curr_seq r /\
  rv_anchor r' = rv_anchor r /\ rv_max_payload r' = rv_max_payload r.

(** Reads fields of updated states. *)
Ltac rv := cbn [set_field rv_cfg rv_base_seq rv_slots rv_scan_hint rv_rcv_curr_seq rv_loss rv_extender
  rv_anchor rv_rcv_last_ack rv_rcv_last_ackack rv_ack_journal rv_ack_seq_no rv_next_full_ack
  rv_last_ack_time rv_pkt_count rv_light_ack_count rv_nak_interval rv_next_nak_time rv_srtt_us
  rv_rtt_var_us rv_rtt_first rv_first_rtt_us rv_drift rv_max_payload rv_discrepancy rv_undecrypted
  rv_control_q rv_stats] in *.

(** ** Lemmas: queued messages *)

Lemma same_buffer_refl r : same_buffer r r.
Proof. done. Qed.

Lemma same_buffer_trans r1 r2 r3 : same_buffer r1 r2 -> same_buffer r2 r3 -> same_buffer r1 r3.
Proof. unfold same_buffer. intuition congruence. Qed.

Lemma view_same_buffer r r' l c :
  Receiver_view r l c -> same_buffer r r' -> rv_loss r' = rv_loss r -> Receiver_view r' l c.
Proof.
  unfold Receiver_view. intros Hv (-> & -> & -> & -> & -> & _) ->. done.
Qed.

Lemma ack_value_view r l c :
  Receiver_view r l c -> Receiver_ack_value r = SeqNumber_add (rv_base_seq r) (ack_pos l c).
Proof.
  intros (_ & _ & Hc & Hl & _). unfold Receiver_ack_value. rewrite Hl, Hc.
  destruct l; [apply next_at | done].
Qed.

Lemma ack_pos_range l c : ranges_ok 0 c l -> -1 <= c -> 0 <= ack_pos l c <= c + 1.
Proof. destruct l as [|e l]; cbn; lia. Qed.

Lemma ack_value_wf r : Receiver_typed r -> SeqNumber_wf (Receiver_ack_value r).
Proof.
  intros (_ & _ & Hl). unfold Receiver_ack_value. destruct (rv_loss r) as [|e l]; [apply SeqNumber_next_wf|].
  apply Forall_cons in Hl as [He _]. apply He.
Qed.

Lemma loss_at_wf b lo hi l :
  ranges_ok lo hi l -> hi - lo < 2 ^ 30 -> Forall LossRange_wf (loss_at b l).
Proof.
  revert lo. induction l as [|[f t] l IH]; intros lo Hl Hw; constructor;
    cbn [ranges_ok fst snd] in Hl; destruct Hl as (? & ? & Hl).
  - split; [apply SeqNumber_add_wf|]. split; [apply SeqNumber_add_wf|].
    cbn [range_at lr_first lr_last fst snd]. rewrite diff_at; lia.
  - apply (IH (t + 1)); [done|lia].
Qed.

Lemma wf_typed r : Receiver_wf r -> Receiver_typed r.
Proof.
  intros [(l & c & Hb & Hc & Hcur & Hl & Hok & _) Hw]. split; [done|]. rewrite Hcur, Hl.
  split; [apply SeqNumber_add_wf|]. apply (loss_at_wf _ 0 c); [done|lia].
Qed.

Lemma queue_nak_same r ranges :
  same_buffer r (Receiver_queue_nak r ranges) /\
  rv_loss (Receiver_queue_nak r ranges) = rv_loss r /\
  (Receiver_words r -> Forall LossRange_wf ranges -> Receiver_words (Receiver_queue_nak r ranges)).
Proof.
  destruct ranges as [|e l]; [done|]. unfold Receiver_queue_nak, push_control. split; [done|].
  split; [done|]. unfold Receiver_words. rv. intros (? & ? & ? & ? & ? & Hq) Hl.
  do 5 (split; [done|]). apply Forall_app. split; [done|]. constructor; [|done]. done.
Qed.

Lemma queue_light_ack_same r :
  same_buffer r (Receiver_queue_light_ack r) /\
  rv_loss (Receiver_queue_light_ack r) = rv_loss r /\
  (Receiver_words r -> SeqNumber_wf (Receiver_ack_value r) -> Receiver_words (Receiver_queue_light_ack r)).
Proof.
  unfold Receiver_queue_light_ack. case_if; [done|]. unfold push_control. do 2 (split; [done|]).
  unfold Receiver_words. rv. intros (? & ? & ? & ? & ? & Hq) Hl.
  do 5 (split; [done|]). apply Forall_app. split; [done|]. constructor; [|done].
  split; [unfold is_u32; lia|]. by split.
Qed.

Lemma set_last_ack_id r a : a = rv_rcv_last_ack r -> r <| rv_rcv_last_ack := a |> = r.
Proof. intros ->. by destruct r. Qed.

(** A full ACK is due only for a position that is not behind the last one. *)
Lemma full_ack_due_spec r now r' :
  SeqNumber_wf (Receiver_ack_value r) -> SeqNumber_wf (rv_rcv_last_ack r) ->
  Receiver_full_ack_due r now = Some r' ->
  r' = r <| rv_rcv_last_ack := Receiver_ack_value r |> /\
  0 <= SeqNumber_diff (Receiver_ack_value r) (rv_rcv_last_ack r).
Proof.
  intros Hw1 Hw2. unfold Receiver_full_ack_due. case_if; [done|].
  case_if; [|case_if; [case_if; [done|]|done]]; to_prop; intros [= <-]; (split; [|lia]); [done|].
  symmetry. apply set_last_ack_id. rewrite <- (SeqNumber_add_diff (Receiver_ack_value r) (rv_rcv_last_ack r)) by done.
  rewrite Heqb1. by apply SeqNumber_add_0.
Qed.

Lemma incack_range a : 0 <= a < 2 ^ 31 -> 0 <= incack a < 2 ^ 31.
Proof. unfold incack. intros. case_if; to_prop; lia. Qed.

Lemma queue_full_ack_same r now :
  Receiver_typed r ->
  same_buffer r (Receiver_queue_full_ack r now) /\
  rv_loss (Receiver_queue_full_ack r now) = rv_loss r /\
  Receiver_words (Receiver_queue_full_ack r now).
Proof.
  intros Hwf. pose proof (ack_value_wf r Hwf) as Hack. destruct Hwf as [Hw _].
  unfold Receiver_queue_full_ack.
  destruct (Receiver_full_ack_due r now) as [r1|] eqn:Hdue; [|done].
  apply full_ack_due_spec in Hdue as [-> _]; [|done|apply Hw].
  destruct Hw as (? & ? & Hno & ? & Hj & Hq). unfold push_control. rv. case_if.
  - do 2 (split; [done|]). unfold Receiver_words. rv. done.
  - do 2 (split; [done|]). unfold Receiver_words. rv. do 2 (split; [done|]).
    pose proof (incack_range _ Hno). split; [lia|]. split; [done|]. split.
    + rewrite length_app. cbn [length]. case_if; to_prop; rewrite ?length_drop; unfold ACK_HISTORY in *; lia.
    + apply Forall_app. split; [done|]. constructor; [|done]. split; [unfold is_u32; lia|].
      split; [done|]. cbn. unfold Receiver_avail_buf_pkts. pose proof as_u32_range.
      unfold is_u32. do 2 (split; [done|]). split; [apply as_u32_range|]. lia.
Qed.

Lemma nak_prefix_prefix m loss : forall w, exists rest, loss = nak_prefix m w loss ++ rest.
Proof.
  induction loss as [|e loss IH]; intros w; [by exists []|]. cbn [nak_prefix].
  case_if; [by eexists|].
  destruct (IH (w + if (lr_first e =? lr_last e)%Z then 1 else 2)%nat) as [rest Hr].
  exists rest. cbn. by f_equal.
Qed.

Lemma nak_ranges_wf r : Receiver_typed r -> Forall LossRange_wf (Receiver_nak_ranges r).
Proof.
  intros (_ & _ & Hf). unfold Receiver_nak_ranges.
  set (m := Nat.max _ _). destruct (nak_prefix_prefix m (rv_loss r) 0) as [rest Hr].
  rewrite Hr in Hf. by apply Forall_app in Hf as [Hf _].
Qed.

Lemma wf_same_buffer r r' :
  Receiver_wf r -> same_buffer r r' -> rv_loss r' = rv_loss r -> Receiver_words r' -> Receiver_wf r'.
Proof. intros [(l & c & Hv) _] Hs Hl Hw. split; [|done]. exists l, c. by apply (view_same_buffer r). Qed.

Lemma typed_same_buffer r r' :
  Receiver_typed r -> same_buffer r r' -> rv_loss r' = rv_loss r -> Receiver_words r' -> Receiver_typed r'.
Proof. intros (_ & Hc & Hf) (_ & _ & _ & _ & E & _) Hl Hw. split; [done|]. by rewrite E, Hl. Qed.

Lemma on_timer_same r now :
  Receiver_typed r ->
  same_buffer r (Receiver_on_timer r now) /\ rv_loss (Receiver_on_timer r now) = rv_loss r /\
  Receiver_words (Receiver_on_timer r now).
Proof.
  intros Hwf. unfold Receiver_on_timer.
  set (r1 := if rv_next_full_ack r <=? now then _ else r).
  assert (H1 : same_buffer r r1 /\ rv_loss r1 = rv_loss r /\ Receiver_words r1).
  { subst r1. case_if; [|by split; [|split; [|apply Hwf]]].
    destruct (queue_full_ack_same r now Hwf) as (Hs & Hl & Hw). split; [exact Hs|].
    split; [exact Hl|]. exact Hw. }
  clearbody r1. destruct H1 as (Hs & Hl & Hw).
  assert (Hwf1 : Receiver_typed r1) by (by apply (typed_same_buffer r)).
  destruct (rv_loss r1) as [|e l] eqn:Hlr; [by rv; rewrite Hlr; split|].
  case_if; [|by rewrite Hlr; split].
  destruct (queue_nak_same r1 (Receiver_nak_ranges r1)) as (Hs2 & Hl2 & Hw2).
  specialize (Hw2 Hw (nak_ranges_wf _ Hwf1)). rv. rewrite Hl2, Hlr.
  split; [by apply (same_buffer_trans r r1)|]. split; [done|]. exact Hw2.
Qed.

(** ** Lemmas: round-trip time *)

Lemma div_between a b n lo hi : 0 < n -> n * lo <= a + b -> a + b < n * (hi + 1) -> lo <= (a + b) / n <= hi.
Proof. intros. split; [apply Z.div_le_lower_bound | apply Z.lt_succ_r, Z.div_lt_upper_bound]; lia. Qed.

(** The smoothed value moves towards the sample and never past it. *)
Lemma rtt_sample_words r x :
  is_u32 (rv_srtt_us r) -> is_u32 (rv_rtt_var_us r) -> is_u32 x ->
  is_u32 (rv_srtt_us (Receiver_rtt_sample r x)) /\ is_u32 (rv_rtt_var_us (Receiver_rtt_sample r x)).
Proof.
  unfold is_u32. intros. unfold Receiver_rtt_sample. case_if; rv.
  - split; [lia|]. zify_divmod.
  - split; apply as_u32_range.
Qed.

Lemma rtt_sample_same r x :
  same_buffer r (Receiver_rtt_sample r x) /\ rv_loss (Receiver_rtt_sample r x) = rv_loss r /\
  rv_control_q (Receiver_rtt_sample r x) = rv_control_q r /\
  rv_rcv_last_ack (Receiver_rtt_sample r x) = rv_rcv_last_ack r /\
  rv_ack_seq_no (Receiver_rtt_sample r x) = rv_ack_seq_no r /\
  rv_ack_journal (Receiver_rtt_sample r x) = rv_ack_journal r.
Proof. unfold Receiver_rtt_sample. by case_if. Qed.

Lemma position_lookup {A} (f : A -> bool) l i :
  position f l = Some i -> exists x, l !! i = Some x /\ f x = true /\ forall j y, (j < i)%nat -> l !! j = Some y -> f y = false.
Proof.
  revert i. induction l as [|x l IH]; intros i; cbn; [done|]. case_if.
  - intros [= <-]. exists x. split; [done|]. split; [done|]. intros; lia.
  - destruct (position f l) as [p|]; cbn; [|done]. intros [= <-]. destruct (IH p eq_refl) as (y & ? & ? & Hj).
    exists y. do 2 (split; [done|]). intros [|j] z Hlt; cbn; [by intros [= <-]|]. apply Hj. lia.
Qed.

Lemma position_none {A} (f : A -> bool) l :
  position f l = None -> forall j y, l !! j = Some y -> f y = false.
Proof.
  induction l as [|x l IH]; cbn; [done|]. case_if; [done|]. destruct (position f l); [done|].
  intros _ [|j] y; cbn; [by intros [= <-]|]. by apply IH.
Qed.

Lemma rtt_us_range d : is_u32 (Z.min (as_micros (Z.max 0 d)) U32_MAX).
Proof. unfold is_u32, U32_MAX, as_micros. zify_divmod. Qed.

Lemma handle_ackack_same r now n ts :
  Receiver_words r ->
  exists r', Receiver_handle_ackack r now n ts = Ret r' /\
    same_buffer r r' /\ rv_loss r' = rv_loss r /\ Receiver_words r'.
Proof.
  intros Hw. unfold Receiver_handle_ackack.
  destruct (position _ _) as [pos|] eqn:Hpos; [|by exists r].
  apply position_lookup in Hpos as (rec & Hrec & _). unfold index. rewrite Hrec.
  cbn [expect mbind panicking_bind].
  set (x := Z.min _ U32_MAX). assert (Hx : is_u32 x) by apply rtt_us_range. clearbody x.
  set (r1 := r <| rv_ack_journal := _ |>).
  assert (Hw1 : Receiver_words r1).
  { unfold Receiver_words. subst r1. rv. destruct Hw as (? & ? & ? & ? & ? & ?). do 4 (split; [done|]).
    split; [rewrite length_drop; lia|done]. }
  assert (Hs1 : same_buffer r r1) by done. assert (Hl1 : rv_loss r1 = rv_loss r) by done. clearbody r1.
  case_if; [by exists r1|].
  destruct (rtt_sample_same r1 x) as (Hs2 & Hl2 & Hq2 & Ha2 & Hn2 & Hj2).
  destruct (rtt_sample_words r1 x) as [Hr2 Hv2]; [apply Hw1..|done|].
  set (r2 := if 0 <? _ then _ else Receiver_rtt_sample r1 x).
  assert (H2 : same_buffer r r2 /\ rv_loss r2 = rv_loss r /\ Receiver_words r2).
  { assert (Hw2 : Receiver_words (Receiver_rtt_sample r1 x)).
    { unfold Receiver_words in *. rewrite Hq2, Ha2, Hn2, Hj2. tauto. }
    rewrite Hl1 in Hl2. pose proof (same_buffer_trans _ _ _ Hs1 Hs2) as Hs.
    subst r2. case_if; (split; [exact Hs|]; split; [exact Hl2|exact Hw2]). }
  clearbody r2. destruct H2 as (Hs & Hl & Hws).
  destruct (rv_anchor r2); [|by exists r2].
  destruct (TimestampExtender_extend _ _ _) as [ext ext_us]. rv.
  destruct (DriftTracer_sample _ _) as [drift b]. eexists. split; [done|]. done.
Qed.

(** ** Lemmas: drop requests *)

Lemma drop_message_spec msg hi : forall fuel slots i,
  0 <= i -> (0 < fuel)%nat -> (length slots < Z.to_nat i + fuel)%nat ->
  exists slots', drop_message fuel slots i hi msg = Ret slots' /\ length slots' = length slots /\
    forall j, slots' !! j =
      if (i <=? Z.of_nat j) && (Z.of_nat j <=? hi) &&
         match slots !! j with Some (Some s) => sl_msg_number s =? msg | _ => false end
      then Some None else slots !! j.
Proof.
  induction fuel as [|fuel IH]; intros slots i Hi Hf0 Hf; [lia|]. cbn [drop_message].
  destruct (_ && _) eqn:Hc; to_prop.
  2: { eexists. split; [done|]. split; [done|]. intros j. destruct (_ && _ && _) eqn:Hj; [|done]. to_prop.
    destruct (slots !! j) as [[s|]|] eqn:Hs; try done. apply lookup_lt_Some in Hs.
    apply andb_false_iff in Hc as [Hc|Hc]; to_prop; lia. }
  unfold index. destruct (lookup_lt_is_Some_2 slots (Z.to_nat i)) as [o Ho]; [lia|].
  rewrite Ho. cbn [expect mbind panicking_bind].
  set (slots1 := match o with Some _ => _ | None => _ end).
  assert (Hl1 : length slots1 = length slots)
    by (subst slots1; destruct o; [case_if; rewrite ?length_insert|]; done).
  destruct (IH slots1 (i + 1)) as (slots' & -> & Hl & Hj); [lia|lia|rewrite Hl1; lia|].
  exists slots'. split; [done|]. split; [lia|]. intros j. rewrite Hj.
  destruct (decide (j = Z.to_nat i)) as [->|Hne].
  - replace (i + 1 <=? Z.of_nat (Z.to_nat i)) with false by (symmetry; apply Z.leb_gt; lia).
    replace (i <=? Z.of_nat (Z.to_nat i)) with true by (symmetry; apply Z.leb_le; lia).
    replace (Z.of_nat (Z.to_nat i) <=? hi) with true by (symmetry; apply Z.leb_le; lia).
    rewrite Ho. subst slots1. cbn [andb]. destruct o as [s|]; [|done].
    case_if; [by rewrite list_lookup_insert_eq by lia|done].
  - assert (slots1 !! j = slots !! j) as ->
      by (subst slots1; destruct o; [case_if; [rewrite list_lookup_insert_ne by done|]|]; done).
    replace (i + 1 <=? Z.of_nat j) with (i <=? Z.of_nat j); [done|].
    apply eq_true_iff_eq. rewrite !Z.leb_le. lia.
Qed.

(** Acknowledgements only move forward: nothing below the position of the
    last one goes missing again. *)
Lemma ack_pos_mono l c l' c' :
  ranges_ok 0 c l -> -1 <= c -> c <= c' -> ranges_ok 0 c' l' ->
  (forall y, missing l' y -> missing l y \/ c < y) -> ack_pos l c <= ack_pos l' c'.
Proof.
  intros Hl Hc Hcc Hl' Hm. pose proof (ack_pos_range l c Hl Hc).
  destruct l' as [|e' l']; cbn [ack_pos]; [lia|]. cbn in Hl'.
  destruct (Hm (fst e')) as [Hy|Hy]; [apply missing_cons; left; lia| |lia].
  destruct l as [|e l]; [by apply missing_nil in Hy|]. cbn. by apply (missing_head _ _ _ _ _ Hl).
Qed.

(** The words of a state do not depend on its buffer. *)
Lemma words_same r r' :
  Receiver_words r -> rv_srtt_us r' = rv_srtt_us r -> rv_rtt_var_us r' = rv_rtt_var_us r ->
  rv_ack_seq_no r' = rv_ack_seq_no r -> rv_rcv_last_ack r' = rv_rcv_last_ack r ->
  rv_ack_journal r' = rv_ack_journal r -> rv_control_q r' = rv_control_q r -> Receiver_words r'.
Proof. unfold Receiver_words. intros Hw -> -> -> -> -> ->. done. Qed.

(** A drop request within reach of the buffer. *)
Definition dropreq_in_reach (r : Receiver) (first last : Z) : Prop :=
  SeqNumber_wf first /\ SeqNumber_wf last /\
  - 2 ^ 29 <= SeqNumber_diff first (rv_base_seq r) < 2 ^ 29 /\
  - 2 ^ 29 <= SeqNumber_diff last (rv_base_seq r) < 2 ^ 29.

Lemma handle_dropreq_view r l c msg first last :
  Receiver_view r l c -> Receiver_words r -> dropreq_in_reach r first last ->
  exists r' l' c', Receiver_handle_dropreq r msg first last = Ret r' /\
    Receiver_view r' l' c' /\ Receiver_words r' /\ ack_pos l c <= ack_pos l' c' /\ c <= c' /\
    rv_cfg r' = rv_cfg r /\ rv_base_seq r' = rv_base_seq r /\ rv_anchor r' = rv_anchor r /\
    (forall z, missing l' z -> missing l z) /\
    (SeqNumber_diff first last <= 0 -> forall z, missing l' z ->
       ~ SeqNumber_diff first (rv_base_seq r) <= z <= SeqNumber_diff last (rv_base_seq r)) /\
    (forall i s, rv_slots r' !! i = Some (Some s) -> rv_slots r !! i = Some (Some s)).
Proof.
  intros (Hb & Hc & Hcur & Hl & Hok & Hocc & Hlen & Hbuf) Hw (Hf & Ht & Hx & Hy).
  unfold Receiver_handle_dropreq.
  set (x := SeqNumber_diff first (rv_base_seq r)) in *.
  set (y := SeqNumber_diff last (rv_base_seq r)) in *.
  assert (first = SeqNumber_add (rv_base_seq r) x) as Ef by (symmetry; by apply SeqNumber_add_diff).
  assert (last = SeqNumber_add (rv_base_seq r) y) as Et by (symmetry; by apply SeqNumber_add_diff).
  rewrite Ef, Et, Hl, diff_at by lia. case_if; to_prop.
  { exists r, l, c. do 3 (split; [done|]). do 2 (split; [lia|]). do 4 (split; [done|]). split; [lia|done]. }
  rewrite (remove_loss_range_refines _ 0 c) by (done || lia). rv.
  destruct (remove_pos_ok 0 c l x y Hok) as [Hok' Hm]; [lia|].
  set (lo := Z.max _ 0). destruct (drop_message_spec msg
    (SeqNumber_diff (SeqNumber_add (rv_base_seq r) y) (rv_base_seq r))
    (S (length (rv_slots r))) (rv_slots r) lo) as (slots' & Hd & Hdl & Hds); [lia..|].
  set (m := if negb (msg =? 0) then _ else _).
  assert (exists slots, m = Ret (r <| rv_loss := loss_at (rv_base_seq r) (remove_pos x y l) |>
      <| rv_slots := slots |>) /\ length slots = length (rv_slots r) /\
      forall i s, slots !! i = Some (Some s) -> rv_slots r !! i = Some (Some s)) as (slots & -> & Hsl & Hsub).
  { subst m. destruct (msg =? 0); cbn [negb].
    - exists (rv_slots r). split; [by destruct r|]. done.
    - rewrite Hd. exists slots'. split; [done|]. split; [done|]. intros i s. rewrite Hds. by case_if. }
  clear Hd Hdl Hds. cbn [mbind panicking_bind]. rv. rewrite Hcur, next_at, !diff_at by lia.
  set (c' := if (x - (c + 1) <=? 0) && (0 <? y - c) then y else c).
  assert (Hc' : c <= c' < 2 ^ 29) by (subst c'; case_if; to_prop; lia).
  eexists _, (remove_pos x y l), c'. split; [done|].
  assert (Hcc : rv_rcv_curr_seq r = SeqNumber_add (rv_base_seq r) c) by done.
  split; [|split; [|split; [|split; [lia|]]]].
  - unfold Receiver_view. subst c'. case_if; rv; do 2 (split; [done || lia|]);
      (split; [done|]); (split; [done|]); (split; [by apply (ranges_ok_weaken 0 c); done || lia|]);
      (split; [|lia]); intros i s Hi; destruct (Hocc i s (Hsub i s Hi)) as (? & Hn & ?);
      (split; [lia|]; split; [rewrite Hm; tauto|done]).
  - apply (words_same r); [done|..]; by case_if.
  - apply ack_pos_mono; try done || lia; [apply (ranges_ok_weaken 0 c); done || lia|].
    intros z Hz. left. by apply Hm in Hz as [? _].
  - do 3 (split; [by case_if|]). split; [intros z Hz; by apply Hm in Hz as [? _]|].
    split; [intros _ z Hz; by apply Hm in Hz as [_ ?]|]. intros i s. case_if; rv; apply Hsub.
Qed.

(** ** Lemmas: arriving data *)

Lemma detect_gap_same r seq u :
  let range := mkLossRange (SeqNumber_next (rv_rcv_curr_seq r)) (SeqNumber_prev seq) in
  let gap := (0 <? SeqNumber_diff seq (SeqNumber_next (rv_rcv_curr_seq r))) && negb u in
  let r' := Receiver_detect_gap r seq u in
  same_buffer r r' /\ rv_loss r' = (if gap then rv_loss r ++ [range] else rv_loss r) /\
  (Receiver_words r -> (gap = true -> LossRange_wf range) -> Receiver_words r').
Proof.
  cbv zeta. unfold Receiver_detect_gap. destruct (0 <? _); cbn [andb]; [|done].
  destruct u; cbn [negb]; [done|]. cbv zeta. rv.
  match goal with |- context [Receiver_queue_nak ?r1 ?l] =>
    destruct (queue_nak_same r1 l) as (Hs & Hl & Hw) end.
  rv. split; [exact Hs|]. split; [exact Hl|]. intros Hwr Hr. apply Hw; [exact Hwr|].
  constructor; [by apply Hr|done].
Qed.

Lemma lookup_resize {A} (slots : list (option A)) n i s :
  (slots ++ replicate n None) !! i = Some (Some s) -> slots !! i = Some (Some s).
Proof.
  rewrite lookup_app. destruct (slots !! i) eqn:E; [done|]. intros H.
  apply lookup_replicate in H as [? _]. done.
Qed.

(** The buffer with room for [offset]. *)
Lemma resize_view r l c offset :
  Receiver_view r l c -> (offset < rc_buffer_pkts (rv_cfg r))%nat ->
  let r1 := if (length (rv_slots r) <=? offset)%nat
            then r <| rv_slots := rv_slots r ++ replicate (offset + 1 - length (rv_slots r)) None |>
            else r in
  Receiver_view r1 l c /\ (offset < length (rv_slots r1))%nat /\
  (forall i s, rv_slots r1 !! i = Some (Some s) <-> rv_slots r !! i = Some (Some s)) /\
  (Receiver_words r -> Receiver_words r1) /\ rv_base_seq r1 = rv_base_seq r /\ rv_cfg r1 = rv_cfg r /\
  rv_anchor r1 = rv_anchor r /\ rv_rcv_curr_seq r1 = rv_rcv_curr_seq r /\ rv_loss r1 = rv_loss r /\
  rv_scan_hint r1 = rv_scan_hint r.
Proof.
  intros Hv Ho. case_if; to_prop; [|by split].
  assert (Hsub : forall i s, (rv_slots r ++ replicate (offset + 1 - length (rv_slots r)) None) !! i = Some (Some s)
            <-> rv_slots r !! i = Some (Some s))
    by (intros i s; split; [apply lookup_resize | apply lookup_app_l_Some]).
  split; [|rv; split; [rewrite length_app, length_replicate; lia|done]].
  unfold Receiver_view in *. rv. destruct Hv as (? & ? & ? & ? & ? & Hocc & ? & ?).
  do 5 (split; [done|]). split; [|rewrite length_app, length_replicate; lia].
  intros i s Hi. by apply (Hocc i s), Hsub.
Qed.

(** What the arrival of position [o] does to the missing ranges and to the
    position of [rcv_curr_seq]. *)
Definition arrive_missing (l : list (Z * Z)) (c o : Z) (u : bool) : list (Z * Z) :=
  if c <? o then (if (c + 1 <? o) && negb u then l ++ [(c + 1, o - 1)] else l) else unlose_pos l o.

Lemma arrive_missing_ok l c o u :
  ranges_ok 0 c l -> -1 <= c -> 0 <= o ->
  let l' := arrive_missing l c o u in
  ranges_ok 0 (Z.max c o) l' /\ ~ missing l' o /\
  (forall y, missing l' y <-> (missing l y /\ y <> o) \/ (c < y < o /\ u = false)).
Proof.
  intros Hl Hc Ho. cbv zeta. unfold arrive_missing.
  assert (Hr : forall y, missing l y -> 0 <= y <= c) by (intros y; by apply missing_range).
  case_if; to_prop; [case_if; to_prop|].
  - destruct u; [done|]. split; [apply (ranges_ok_weaken 0 (o - 1)); [apply (ranges_ok_snoc 0 c); done || lia|lia..]|].
    split; [|intros y]; rewrite missing_app, missing_cons, missing_nil; cbn.
    + intros [Hm|[?|?]]; [apply Hr in Hm; lia|lia|done].
    + specialize (Hr y). intuition lia.
  - split; [apply (ranges_ok_weaken 0 c); done || lia|].
    split; [intros Hm; apply Hr in Hm; lia|]. intros y. specialize (Hr y).
    apply andb_false_iff in Heqb0 as [Hn|Hn]; to_prop; [intuition lia|]. destruct u; [|done].
    intuition (lia || done).
  - destruct (unlose_pos_ok 0 c l o Hl) as [Hok Hm]. rewrite Z.max_l by lia.
    split; [done|]. split; [by rewrite Hm; intros [_ ?]|]. intros y. rewrite Hm. intuition lia.
Qed.

Lemma detect_gap_view r l c o u :
  Receiver_view r l c -> 0 <= o < 2 ^ 29 -> Receiver_words r ->
  let r' := Receiver_detect_gap r (SeqNumber_add (rv_base_seq r) o) u in
  same_buffer r r' /\
  rv_loss r' = loss_at (rv_base_seq r) (if (c + 1 <? o) && negb u then l ++ [(c + 1, o - 1)] else l) /\
  Receiver_words r'.
Proof.
  intros (Hb & Hc & Hcur & Hl & Hok & _) Ho Hw. cbv zeta.
  destruct (detect_gap_same r (SeqNumber_add (rv_base_seq r) o) u) as (Hs & Hd & Hdw).
  rewrite Hcur, next_at, prev_at, diff_at in Hd, Hdw by lia. rewrite Hl in Hd.
  replace (0 <? o - (c + 1)) with (c + 1 <? o) in * by (apply eq_true_iff_eq; rewrite !Z.ltb_lt; lia).
  split; [exact Hs|]. split.
  - rewrite Hd. case_if; [|done]. unfold loss_at. by rewrite map_app.
  - apply Hdw; [done|]. intros Hg. to_prop. split; [apply SeqNumber_add_wf|].
    split; [apply SeqNumber_add_wf|]. cbn [lr_first lr_last]. rewrite diff_at; lia.
Qed.

(** A packet is left out (belated, beyond the buffer, or already there) or
    takes its slot. *)
Definition not_stored (r r' : Receiver) (l : list (Z * Z)) (c o : Z) : Prop :=
  (o < 0 \/ Z.of_nat (rc_buffer_pkts (rv_cfg r)) <= o \/
   exists s, rv_slots r !! Z.to_nat o = Some (Some s)) /\
  Receiver_view r' l c /\
  (forall i s, rv_slots r' !! i = Some (Some s) <-> rv_slots r !! i = Some (Some s)).

Definition stored (r r' : Receiver) (l : list (Z * Z)) (c o : Z) (slot : RcvSlot) : Prop :=
  0 <= o < Z.of_nat (rc_buffer_pkts (rv_cfg r)) /\
  (forall s, rv_slots r !! Z.to_nat o <> Some (Some s)) /\
  Receiver_view r' (arrive_missing l c o (sl_undecryptable slot)) (Z.max c o) /\
  (forall i s, rv_slots r' !! i = Some (Some s) <->
     (i = Z.to_nat o /\ s = slot) \/ (i <> Z.to_nat o /\ rv_slots r !! i = Some (Some s))).

Lemma store_data_view r l c pkt ext u :
  Receiver_view r l c -> Receiver_words r -> SeqNumber_wf (dp_seq pkt) ->
  let o := SeqNumber_diff (dp_seq pkt) (rv_base_seq r) in
  exists r', Receiver_store_data r pkt ext u = Ret r' /\ Receiver_words r' /\
    rv_base_seq r' = rv_base_seq r /\ rv_cfg r' = rv_cfg r /\ rv_anchor r' = rv_anchor r /\
    (not_stored r r' l c o \/
     stored r r' l c o (mkRcvSlot (dp_payload pkt) (dp_msg_number pkt) ext u)).
Proof.
  intros Hv Hw Hseq. cbv zeta. unfold Receiver_store_data.
  set (o := SeqNumber_diff (dp_seq pkt) (rv_base_seq r)).
  case_if; to_prop; [eexists; do 5 (split; [done|]); left; split; [by left|]; by split|].
  case_if; to_prop.
  { eexists. split; [done|]. do 4 (split; [by case_if|]). left.
    split; [right; left; lia|]. by case_if; split. }
  destruct (resize_view r l c (Z.to_nat o) Hv) as (Hv1 & Hlen & Hsub & Hw1 & Hb1 & Hc1 & Ha1 & _ & _ & _); [lia|].
  set (r1 := if (length (rv_slots r) <=? Z.to_nat o)%nat then _ else r) in *. clearbody r1.
  unfold index. destruct (lookup_lt_is_Some_2 _ _ Hlen) as [old Hold]. rewrite Hold.
  cbn [expect mbind panicking_bind]. destruct old as [s0|]; cbn [slot_empty negb].
  { exists r1. split; [done|]. split; [by apply Hw1|]. do 3 (split; [done|]). left.
    split; [right; right; exists s0; by apply Hsub|]. by split. }
  assert (Hfree : forall s, rv_slots r !! Z.to_nat o <> Some (Some s))
    by (intros s Hs; apply Hsub in Hs; congruence).
  assert (Hes : dp_seq pkt = SeqNumber_add (rv_base_seq r1) o)
    by (rewrite Hb1; symmetry; by apply SeqNumber_add_diff).
  assert (Ho : 0 <= o < 2 ^ 29) by (destruct Hv as (_ & _ & _ & _ & _ & _ & _ & ?); lia).
  destruct (detect_gap_view r1 l c o u Hv1 Ho (Hw1 Hw)) as (Hs2 & Hl2 & Hw2). rewrite <- Hes in *.
  set (r2 := Receiver_detect_gap r1 (dp_seq pkt) u) in *. clearbody r2.
  set (slot := mkRcvSlot _ _ _ _). set (r4 := if u then _ else _).
  assert (H4 : Receiver_words r4 /\ rv_base_seq r4 = rv_base_seq r1 /\ rv_cfg r4 = rv_cfg r1 /\
    rv_anchor r4 = rv_anchor r1 /\ rv_slots r4 = <[ Z.to_nat o := Some slot ]> (rv_slots r1) /\
    rv_scan_hint r4 = Nat.min (rv_scan_hint r1) (Z.to_nat o) /\
    rv_rcv_curr_seq r4 = SeqNumber_add (rv_base_seq r1) (Z.max c o) /\
    rv_loss r4 = loss_at (rv_base_seq r1) (arrive_missing l c o u)).
  { destruct Hs2 as (? & ? & ? & ? & Hcur & ? & ?). pose proof Hv1 as (_ & Hc & Hcur1 & _ & Hok & _).
    rewrite Hcur1 in Hcur. subst r4. rewrite Hcur, Hes, diff_at by lia. unfold arrive_missing.
    replace (0 <? o - c) with (c <? o) by (apply eq_true_iff_eq; rewrite !Z.ltb_lt; lia).
    revert Hl2. destruct (Z.ltb_spec c o); intros Hl2.
    - rewrite Z.max_r by lia. destruct u; (split; [by apply (words_same r2)|]); rv; repeat split; congruence.
    - rewrite Z.max_l by lia. replace (c + 1 <? o) with false in Hl2 by (symmetry; apply Z.ltb_ge; lia).
      cbn [andb] in Hl2. rewrite Hl2, (unlose_refines _ 0 c) by (done || lia).
      destruct u; (split; [by apply (words_same r2)|]); rv; repeat split; congruence. }
  clearbody r4. destruct H4 as (Hw4 & Hb4 & Hc4 & Ha4 & Hsl4 & Hh4 & Hcur4 & Hl4).
  exists r4. split; [done|]. split; [done|]. do 3 (split; [congruence|]). right.
  assert (Hslots : forall i s, rv_slots r4 !! i = Some (Some s) <->
     (i = Z.to_nat o /\ s = slot) \/ (i <> Z.to_nat o /\ rv_slots r !! i = Some (Some s))).
  { intros i s. rewrite Hsl4, <- Hsub. destruct (decide (i = Z.to_nat o)) as [->|Hne].
    - rewrite list_lookup_insert_eq by done. naive_solver.
    - rewrite list_lookup_insert_ne by done. naive_solver. }
  split; [lia|]. split; [done|]. split; [|done].
  destruct Hv1 as (Hb & Hc & _ & _ & Hok & Hocc & Hlen1 & Hbuf).
  destruct (arrive_missing_ok l c o u Hok) as (Hok' & Hno & Hm); [lia..|].
  change (sl_undecryptable slot) with u. unfold Receiver_view. rewrite Hb4, Hc4. do 2 (split; [done || lia|]). do 3 (split; [done|]).
  split; [|rewrite Hsl4, length_insert; done]. intros i s Hi. apply Hslots in Hi as [[-> ->]|[Hne Hi]].
  - rewrite Z2Nat.id by lia. split; [lia|]. split; [done|]. lia.
  - apply Hsub in Hi. destruct (Hocc i s Hi) as (? & Hni & ?). split; [lia|]. split; [|lia].
    rewrite Hm. intros [[? _]|[? _]]; [done|lia].
Qed.

Lemma not_stored_same r r1 r2 l c o :
  not_stored r r1 l c o -> same_buffer r1 r2 -> rv_loss r2 = rv_loss r1 -> not_stored r r2 l c o.
Proof.
  intros (H1 & H2 & H3) Hs Hl. split; [done|]. split; [by apply (view_same_buffer r1)|].
  destruct Hs as (_ & _ & -> & _). done.
Qed.

Lemma stored_same r r1 r2 l c o slot :
  stored r r1 l c o slot -> same_buffer r1 r2 -> rv_loss r2 = rv_loss r1 -> stored r r2 l c o slot.
Proof.
  intros (H1 & H2 & H3 & H4) Hs Hl. do 2 (split; [done|]). split; [by apply (view_same_buffer r1)|].
  destruct Hs as (_ & _ & -> & _). done.
Qed.

(** The payload fits and the packet goes to its slot, or the state keeps its
    buffer. *)
Lemma ingest_view r l c now pkt u :
  Receiver_view r l c -> Receiver_words r -> SeqNumber_wf (dp_seq pkt) ->
  let o := SeqNumber_diff (dp_seq pkt) (rv_base_seq r) in
  exists r', Receiver_ingest r now pkt u = Ret r' /\ Receiver_words r' /\
    rv_base_seq r' = rv_base_seq r /\ rv_cfg r' = rv_cfg r /\
    (((rv_max_payload r < length (dp_payload pkt))%nat /\ same_buffer r r' /\ rv_loss r' = rv_loss r) \/
     ((length (dp_payload pkt) <= rv_max_payload r)%nat /\ rv_anchor r' <> None /\
      (not_stored r r' l c o \/
       exists ext, stored r r' l c o (mkRcvSlot (dp_payload pkt) (dp_msg_number pkt) ext u)))).
Proof.
  intros Hv Hw Hseq. cbv zeta. unfold Receiver_ingest. case_if; to_prop.
  { eexists. do 4 (split; [done|]). left. by split; [lia|]. }
  destruct (TimestampExtender_extend _ _ _) as [ext ext_us]. rv.
  set (r1 := match rv_anchor r with Some _ => _ | None => _ end).
  assert (H1 : rv_cfg r1 = rv_cfg r /\ rv_base_seq r1 = rv_base_seq r /\ rv_slots r1 = rv_slots r /\
    rv_scan_hint r1 = rv_scan_hint r /\ rv_rcv_curr_seq r1 = rv_rcv_curr_seq r /\ rv_loss r1 = rv_loss r /\
    rv_anchor r1 <> None /\ Receiver_words r1).
  { subst r1. destruct (rv_anchor r) eqn:Ha; rv; do 6 (split; [done|]); (split; [congruence|]);
      by apply (words_same r). }
  clearbody r1. destruct H1 as (Ec & Eb & Es & Eh & Ecur & El & Ea & Hw1).
  assert (Hv1 : Receiver_view r1 l c) by (unfold Receiver_view in *; by rewrite Ec, Eb, Es, Eh, Ecur, El).
  destruct (store_data_view r1 l c pkt ext_us u Hv1 Hw1 Hseq) as (r2 & -> & Hw2 & Hb2 & Hc2 & Ha2 & Hst).
  cbn [mbind panicking_bind]. rewrite Eb in Hst, Hb2. rewrite Ec in Hc2.
  unfold not_stored, stored in Hst. rewrite Ec, Es in Hst. change (not_stored r r2 l c (SeqNumber_diff (dp_seq pkt) (rv_base_seq r)) \/
    stored r r2 l c (SeqNumber_diff (dp_seq pkt) (rv_base_seq r))
      (mkRcvSlot (dp_payload pkt) (dp_msg_number pkt) ext_us u)) in Hst.
  set (r3 := r2 <| rv_light_ack_count := rv_light_ack_count r2 + 1 |>).
  assert (Hwf2 : Receiver_wf r2) by (split; [|done]; destruct Hst as [(_ & H & _)|(_ & _ & H & _)]; by eexists _, _).
  destruct (queue_light_ack_same r3) as (Hs3 & Hl3 & Hw3).
  specialize (Hw3 Hw2 (ack_value_wf r2 (wf_typed r2 Hwf2))).
  eexists. split; [done|]. case_if.
  - split; [done|]. assert (same_buffer r2 (Receiver_queue_light_ack r3)) as Hs by exact Hs3.
    change (rv_loss r3) with (rv_loss r2) in Hl3.
    pose proof Hs as (-> & -> & _ & _ & _ & -> & _). do 2 (split; [done|]). right. split; [done|].
    split; [congruence|].
    destruct Hst as [Hst|Hst]; [left|right; exists ext_us].
    + by apply (not_stored_same r r2).
    + by apply (stored_same r r2).
  - do 3 (split; [done|]). right. split; [done|]. split; [congruence|].
    destruct Hst as [Hst|Hst]; [by left|right; by exists ext_us].
Qed.

(** ** Lemmas: delivery *)

(** Moving the base past the occupied slot [first], everything before which
    is a hole. *)
Lemma advance_view r r1 l l0 c (first : nat) s :
  Receiver_view r l c -> rv_slots r !! first = Some (Some s) ->
  rv_cfg r1 = rv_cfg r -> rv_base_seq r1 = SeqNumber_add (rv_base_seq r) (Z.of_nat first + 1) ->
  rv_slots r1 = drop (S first) (rv_slots r) -> rv_scan_hint r1 = O ->
  rv_rcv_curr_seq r1 = rv_rcv_curr_seq r -> rv_loss r1 = loss_at (rv_base_seq r) l0 ->
  ranges_ok 0 c l0 -> (forall z, missing l0 z <-> missing l z /\ Z.of_nat first <= z) ->
  Receiver_view r1 (shift_ranges (Z.of_nat first + 1) l0) (c - (Z.of_nat first + 1)) /\
  (forall z, missing (shift_ranges (Z.of_nat first + 1) l0) z <->
     missing l (z + (Z.of_nat first + 1)) /\ 0 <= z).
Proof.
  intros (Hb & Hc & Hcur & Hl & Hok & Hocc & Hlen & Hbuf) Hs Hc1 Hb1 Hs1 Hh1 Hcur1 Hl1 Hok0 Hm.
  set (k := Z.of_nat first + 1) in *. destruct (Hocc _ _ Hs) as (? & Hns & _).
  assert (Hm' : forall z, missing (shift_ranges k l0) z <-> missing l (z + k) /\ 0 <= z).
  { intros z. rewrite missing_shift, Hm. split; [|intros [? ?]; split; [done|lia]].
    intros [Hz ?]. split; [done|]. destruct (decide (z = -1)) as [->|]; [|lia].
    destruct Hns. by replace (Z.of_nat first) with (-1 + k) by lia. }
  split; [|done]. unfold Receiver_view. rewrite Hc1, Hb1, Hs1, Hh1, Hcur1, Hl1, Hcur.
  split; [auto with seq|]. split; [lia|]. split; [rewrite SeqNumber_add_add; f_equal; lia|].
  split; [by rewrite loss_at_shift|]. split.
  { apply (ranges_ok_from (0 - k)); [by apply ranges_ok_shift|]. intros x Hx. by apply Hm' in Hx as [_ ?]. }
  split; [|rewrite length_drop; lia]. intros i s' Hi. rewrite lookup_drop in Hi.
  destruct (Hocc _ _ Hi) as (? & Hn & _). split; [lia|]. split; [|lia]. rewrite Hm'. intros [Hx _].
  apply Hn. by replace (Z.of_nat (S first + i)) with (Z.of_nat i + k) by lia.
Qed.

Lemma first_occupied_spec r l c :
  Receiver_view r l c ->
  match first_occupied r with
  | Some first => exists s, rv_slots r !! first = Some (Some s) /\
      forall i s, (i < first)%nat -> rv_slots r !! i <> Some (Some s)
  | None => forall i s, rv_slots r !! i <> Some (Some s)
  end.
Proof.
  intros (_ & _ & _ & _ & _ & Hocc & _). unfold first_occupied.
  destruct (position _ _) as [p|] eqn:Hp; cbn [fmap option_fmap option_map].
  - apply position_lookup in Hp as (o & Ho & Hf & Hlt). rewrite lookup_drop in Ho.
    destruct o as [s|]; [|done]. exists s. split; [done|]. intros i s' Hi Hs'.
    destruct (Hocc _ _ Hs') as (_ & _ & Hh).
    assert (negb (slot_empty (Some s')) = false); [|done].
    apply (Hlt (i - rv_scan_hint r)%nat); [lia|]. rewrite lookup_drop, <- Hs'. f_equal. lia.
  - intros i s Hs. destruct (Hocc _ _ Hs) as (_ & _ & Hh).
    assert (negb (slot_empty (Some s)) = false); [|done].
    apply (position_none _ _ Hp (i - rv_scan_hint r)). rewrite lookup_drop, <- Hs. f_equal. lia.
Qed.

Lemma view_scan_hint r l c h :
  Receiver_view r l c -> (forall i s, rv_slots r !! i = Some (Some s) -> (h <= i)%nat) ->
  Receiver_view (r <| rv_scan_hint := h |>) l c.
Proof.
  intros (? & ? & ? & ? & ? & Hocc & ?) Hh. unfold Receiver_view. rv. do 5 (split; [done|]).
  split; [|done]. intros i s Hi. destruct (Hocc i s Hi) as (? & ? & _).
  do 2 (split; [done|]). by apply (Hh i s).
Qed.

(** The deadline of a buffered packet has been reached. *)
Definition due (r : Receiver) (anchor : Anchor) (now : Z) (s : RcvSlot) : Prop :=
  Receiver_tsbpd_deadline r anchor (sl_ext_us s) <= now.

(** The buffered packets below [k] were undecryptable and due. *)
Definition freed_below (r : Receiver) (anchor : Anchor) (now : Z) (k : nat) : Prop :=
  forall i s, (i < k)%nat -> rv_slots r !! i = Some (Some s) ->
    sl_undecryptable s = true /\ due r anchor now s.

(** The first buffered packet from [k] on is not due. *)
Definition head_not_due (r : Receiver) (anchor : Anchor) (now : Z) (k : nat) : Prop :=
  forall i s, (k <= i)%nat -> rv_slots r !! i = Some (Some s) ->
    (forall j t, (k <= j < i)%nat -> rv_slots r !! j <> Some (Some t)) -> ~ due r anchor now s.

(** What [poll_deliver] promises: it moves the base by [k], forgets what was
    missing below it, and returns the first decryptable packet that is due. *)
Definition delivered (r : Receiver) (anchor : Anchor) (now : Z) (out : option bytes) (k : nat) : Prop :=
  match out with
  | Some p => exists j s, k = S j /\ rv_slots r !! j = Some (Some s) /\ sl_payload s = p /\
      sl_undecryptable s = false /\ due r anchor now s /\ freed_below r anchor now j
  | None => freed_below r anchor now k /\ head_not_due r anchor now k
  end.

Definition moved (r r' : Receiver) (l l' : list (Z * Z)) (c : Z) (k : nat) : Prop :=
  Receiver_view r' l' (c - Z.of_nat k) /\
  rv_cfg r' = rv_cfg r /\ rv_anchor r' = rv_anchor r /\ rv_drift r' = rv_drift r /\
  rv_base_seq r' = SeqNumber_add (rv_base_seq r) (Z.of_nat k) /\
  (forall z, missing l' z <-> missing l (z + Z.of_nat k) /\ 0 <= z) /\
  rv_slots r' = drop k (rv_slots r) /\
  (Receiver_words r -> Receiver_words r').

Lemma moved_0 r r' l c :
  Receiver_view r' l c -> rv_cfg r' = rv_cfg r -> rv_anchor r' = rv_anchor r -> rv_drift r' = rv_drift r ->
  rv_base_seq r' = rv_base_seq r -> rv_slots r' = rv_slots r -> (Receiver_words r -> Receiver_words r') ->
  moved r r' l l c 0.
Proof.
  intros Hv Hc Ha Hd Hb Hs Hw. unfold moved. rewrite Z.sub_0_r, drop_0. do 4 (split; [done|]).
  pose proof Hv as (Hwf & _ & _ & _ & Hok & _). rewrite Hb in Hwf.
  split; [by rewrite Hb, SeqNumber_add_0|]. split; [|done]. intros z. rewrite Z.add_0_r.
  split; [|by intros [? _]]. intros Hz. split; [done|]. by apply (missing_range _ _ _ _ Hok) in Hz as [? _].
Qed.

Lemma moved_trans r r1 r2 l l1 l2 c k k1 :
  moved r r1 l l1 c k -> moved r1 r2 l1 l2 (c - Z.of_nat k) k1 -> moved r r2 l l2 c (k + k1).
Proof.
  intros (Hv & Hc & Ha & Hd & Hb & Hm & Hs & Hw) (Hv1 & Hc1 & Ha1 & Hd1 & Hb1 & Hm1 & Hs1 & Hw1).
  unfold moved. rewrite Nat2Z.inj_add. split; [by rewrite Z.sub_add_distr|].
  do 3 (split; [congruence|]). split; [by rewrite Hb1, Hb, SeqNumber_add_add|]. split.
  - intros z. rewrite Hm1, Hm. replace (z + Z.of_nat k1 + Z.of_nat k) with (z + (Z.of_nat k + Z.of_nat k1)) by lia.
    split; [intros [[? ?] ?]; by split | intros [? ?]; split; [split; [done|lia]|done]].
  - split; [by rewrite Hs1, Hs, drop_drop|]. auto.
Qed.

Lemma due_same r r1 anchor now s :
  rv_cfg r1 = rv_cfg r -> rv_drift r1 = rv_drift r -> due r1 anchor now s <-> due r anchor now s.
Proof. intros Hc Hd. unfold due, Receiver_tsbpd_deadline. by rewrite Hc, Hd. Qed.

(** Deliveries after an undecryptable packet was freed. *)
Lemma delivered_after r r1 anchor now out (first k : nat) s :
  rv_cfg r1 = rv_cfg r -> rv_drift r1 = rv_drift r -> rv_slots r1 = drop (S first) (rv_slots r) ->
  (forall i t, (i < first)%nat -> rv_slots r !! i <> Some (Some t)) ->
  rv_slots r !! first = Some (Some s) -> sl_undecryptable s = true -> due r anchor now s ->
  delivered r1 anchor now out k -> delivered r anchor now out (S first + k).
Proof.
  intros Hc Hd Hs Hfirst Hsf Hu Hdue.
  assert (Hfb : forall n, freed_below r1 anchor now n -> freed_below r anchor now (S first + n)).
  { intros n Hf i t Hi Ht. destruct (Nat.lt_trichotomy i first) as [Hlt|[->|Hgt]].
    - by destruct (Hfirst i t Hlt).
    - rewrite Hsf in Ht. by injection Ht as <-.
    - rewrite <- (due_same r r1) by done. apply (Hf (i - S first)%nat); [lia|].
      rewrite Hs, lookup_drop, <- Ht. f_equal. lia. }
  destruct out as [p|]; cbn [delivered].
  - intros (j & t & -> & Ht & Hp & Hn & Hdt & Hf). exists (S first + j)%nat, t. split; [lia|].
    rewrite Hs, lookup_drop in Ht. do 3 (split; [done|]). split; [by apply (due_same r r1)|]. by apply Hfb.
  - intros [Hf Hh]. split; [by apply Hfb|]. intros i t Hi Ht Hno. rewrite <- (due_same r r1) by done.
    apply (Hh (i - S first)%nat); [lia| |].
    + rewrite Hs, lookup_drop, <- Ht. f_equal. lia.
    + intros j t' Hj. rewrite Hs, lookup_drop. apply Hno. lia.
Qed.

(** One round of the loop: the hole before [first] is skipped and its slot
    taken. *)
Lemma take_first r l c (first : nat) s :
  Receiver_view r l c -> rv_slots r !! first = Some (Some s) ->
  (forall i t, (i < first)%nat -> rv_slots r !! i <> Some (Some t)) ->
  let r0 := r <| rv_scan_hint := first |> in
  exists r1,
    (if (0 <? first)%nat then
       let lo := rv_base_seq r0 in
       let hi := SeqNumber_add (rv_base_seq r0) (Z.of_nat first - 1) in
       let r := r0 <| rv_loss := remove_loss_range (rv_loss r0) lo hi |> in
       let r := r <| rv_stats := rv_stats r
                  <| rs_pkts_dropped := rs_pkts_dropped (rv_stats r) + Z.of_nat first |> |> in
       slots ← drain_slots (rv_slots r) first;
       Ret (r <| rv_slots := slots |>
              <| rv_base_seq := SeqNumber_add (rv_base_seq r) (Z.of_nat first) |>)
     else Ret r0) = Ret r1 /\
    head (rv_slots r1) = Some (Some s) /\
    forall r2, rv_cfg r2 = rv_cfg r1 -> rv_anchor r2 = rv_anchor r1 -> rv_drift r2 = rv_drift r1 ->
      rv_base_seq r2 = SeqNumber_next (rv_base_seq r1) -> rv_slots r2 = drop 1 (rv_slots r1) ->
      rv_scan_hint r2 = O -> rv_rcv_curr_seq r2 = rv_rcv_curr_seq r1 -> rv_loss r2 = rv_loss r1 ->
      (Receiver_words r1 -> Receiver_words r2) ->
      exists l2, moved r r2 l l2 c (S first).
Proof.
  intros Hv Hs Hfirst. cbv zeta. rv.
  pose proof Hv as (Hb & Hc & Hcur & Hl & Hok & Hocc & Hlen & Hbuf).
  assert (Hfl : (first < length (rv_slots r))%nat) by (by apply lookup_lt_Some in Hs).
  set (m := if (0 <? first)%nat then _ else _).
  assert (H1 : exists r1 l0, m = Ret r1 /\ rv_cfg r1 = rv_cfg r /\ rv_anchor r1 = rv_anchor r /\
    rv_drift r1 = rv_drift r /\ rv_base_seq r1 = SeqNumber_add (rv_base_seq r) (Z.of_nat first) /\
    rv_slots r1 = drop first (rv_slots r) /\ rv_rcv_curr_seq r1 = rv_rcv_curr_seq r /\
    rv_loss r1 = loss_at (rv_base_seq r) l0 /\ ranges_ok 0 c l0 /\
    (forall z, missing l0 z <-> missing l z /\ Z.of_nat first <= z) /\
    (Receiver_words r -> Receiver_words r1)).
  { subst m. destruct (Nat.ltb_spec 0 first) as [Hpos|Hpos].
    - destruct (remove_pos_ok 0 c l 0 (Z.of_nat first - 1) Hok) as [Hok0 Hm0]; [lia|].
      unfold drain_slots. replace (first <=? length (rv_slots r))%nat with true by (symmetry; apply Nat.leb_le; lia).
      cbn [mbind panicking_bind]. eexists _, (remove_pos 0 (Z.of_nat first - 1) l). split; [done|]. rv.
      do 6 (split; [done|]). destruct (Hocc _ _ Hs) as [? _]. split.
      { rewrite Hl, <- (SeqNumber_add_0 (rv_base_seq r) Hb) at 1.
        rewrite SeqNumber_add_0 at 1 by done.
        rewrite <- (SeqNumber_add_0 (rv_base_seq r) Hb) at 2. apply (remove_loss_range_refines _ 0 c); done || lia. }
      split; [done|]. split; [|done]. intros z. rewrite Hm0. split; intros [Hz ?]; (split; [done|]);
        apply (missing_range _ _ _ _ Hok) in Hz; lia.
    - assert (first = O) as -> by lia. eexists _, l. split; [done|]. rv. do 3 (split; [done|]).
      split; [by rewrite SeqNumber_add_0|]. do 4 (split; [done|]). split; [|done]. intros z.
      split; [|by intros [? _]]. intros Hz. split; [done|]. apply (missing_range _ _ _ _ Hok) in Hz. lia. }
  destruct H1 as (r1 & l0 & -> & Hc1 & Ha1 & Hd1 & Hb1 & Hs1 & Hcur1 & Hl1 & Hok1 & Hm1 & Hw1).
  exists r1. split; [done|]. split; [rewrite Hs1; by rewrite head_lookup, lookup_drop, Nat.add_0_r|].
  intros r2 Hc2 Ha2 Hd2 Hb2 Hs2 Hh2 Hcur2 Hl2 Hw2.
  assert (Hs2' : rv_slots r2 = drop (S first) (rv_slots r))
    by (rewrite Hs2, Hs1, drop_drop; f_equal; lia).
  assert (Hb2' : rv_base_seq r2 = SeqNumber_add (rv_base_seq r) (Z.of_nat first + 1))
    by (rewrite Hb2, Hb1; apply next_at).
  destruct (advance_view r r2 l l0 c first s) as [Hv2 Hm2]; try done || congruence.
  eexists. unfold moved. rewrite Nat2Z.inj_succ, <- Z.add_1_r. split; [exact Hv2|].
  do 3 (split; [congruence|]). do 3 (split; [done|]). auto.
Qed.

Lemma deliver_loop_spec anchor now : forall fuel r l c,
  Receiver_view r l c -> (length (rv_slots r) < fuel)%nat ->
  exists r' out k l', Receiver_deliver_loop fuel r anchor now = Ret (r', out) /\
    moved r r' l l' c k /\ delivered r anchor now out k.
Proof.
  induction fuel as [|fuel IH]; intros r l c Hv Hf; [lia|]. cbn [Receiver_deliver_loop].
  pose proof (first_occupied_spec r l c Hv) as Hfo. destruct (first_occupied r) as [first|].
  2: { eexists _, None, O, l. split; [done|]. split.
       - apply moved_0; try done. apply view_scan_hint; [done|]. intros i s Hi. by destruct (Hfo i s).
       - split; [intros i s Hi; lia|]. intros i s _ Hi. by destruct (Hfo i s). }
  destruct Hfo as (s & Hs & Hfirst). rv. unfold index. rewrite Hs. cbn [expect mbind panicking_bind].
  assert (Hv0 : Receiver_view (r <| rv_scan_hint := first |>) l c).
  { apply view_scan_hint; [done|]. intros i t Hi. destruct (Nat.lt_ge_cases i first) as [Hlt|]; [|done].
    by destruct (Hfirst i t). }
  case_if; to_prop.
  { eexists _, None, O, l. split; [done|]. split; [by apply moved_0|].
    split; [intros i t Hi; lia|]. intros i t _ Hi Hno. unfold due.
    destruct (Nat.lt_trichotomy i first) as [Hlt|[->|Hgt]]; [by destruct (Hfirst i t)| |].
    - assert (t = s) as -> by congruence. apply Z.lt_nge. exact Heqb.
    - destruct (Hno first s); [lia|done]. }
  assert (Hdue : due r anchor now s) by exact Heqb.
  destruct (take_first r l c first s Hv Hs Hfirst) as (r1 & Hr1 & Hhead & Hmove). rv.
  rewrite Hr1. cbn [mbind panicking_bind]. rv. rewrite Hhead. cbn [expect mbind panicking_bind].
  case_if.
  - match goal with |- context [Receiver_deliver_loop fuel ?x _ _] => set (r2 := x) end.
    destruct (Hmove r2) as [l2 Hm2]; try done. pose proof Hm2 as (Hv2 & Hc2 & _ & Hd2 & _ & _ & Hs2 & _).
    destruct (IH r2 l2 _ Hv2) as (r' & out & k & l' & Hrun & Hm & Hdel).
    { apply lookup_lt_Some in Hs. rewrite Hs2, length_drop. lia. }
    exists r', out, (S first + k)%nat, l'. split; [exact Hrun|]. split; [by apply (moved_trans r r2 r' l l2)|].
    by apply (delivered_after r r2 anchor now out first k s).
  - match goal with |- context [Ret (?x, Some _)] => set (r2 := x) end.
    destruct (Hmove r2) as [l2 Hm2]; try done.
    exists r2, (Some (sl_payload s)), (S first), l2. split; [done|]. split; [done|].
    exists first, s. do 5 (split; [done|]). intros i t Hi Ht. by destruct (Hfirst i t).
Qed.

(** ** Runs *)

Inductive rcv_event :=
| RcvData (now : Z) (pkt : DataPacket)
| RcvUndecryptable (now : Z) (pkt : DataPacket)
| RcvAckAck (now ack_number ts : Z)
| RcvDropReq (msg_number first last : Z)
| RcvTimer (now : Z)
| RcvPollControl
| RcvDeliver (now : Z)
| RcvAnchor (instant ts : Z)
| RcvMaxPayload (n : nat).

(** One call of the receiver's interface, with the payload it delivers. *)
Definition rcv_step (r : Receiver) (ev : rcv_event) : panicking (Receiver * option bytes) :=
  match ev with
  | RcvData now pkt => r' ← Receiver_handle_data r now pkt; Ret (r', None)
  | RcvUndecryptable now pkt => r' ← Receiver_handle_undecryptable r now pkt; Ret (r', None)
  | RcvAckAck now n ts => r' ← Receiver_handle_ackack r now n ts; Ret (r', None)
  | RcvDropReq msg first last => r' ← Receiver_handle_dropreq r msg first last; Ret (r', None)
  | RcvTimer now => Ret (Receiver_on_timer r now, None)
  | RcvPollControl => Ret (fst (Receiver_poll_control r), None)
  | RcvDeliver now => Receiver_poll_deliver r now
  | RcvAnchor instant ts => Ret (Receiver_set_hs_anchor r instant ts, None)
  | RcvMaxPayload n => Ret (Receiver_set_max_payload r n, None)
  end.

(** Sequence numbers are 31-bit, and a drop request is within reach. *)
Definition event_ok (r : Receiver) (ev : rcv_event) : Prop :=
  match ev with
  | RcvData _ pkt | RcvUndecryptable _ pkt => SeqNumber_wf (dp_seq pkt)
  | RcvDropReq _ first last => dropreq_in_reach r first last
  | _ => True
  end.

(** What every call guarantees, in positions: the base moves by [k], the
    acknowledgement not backwards, what is delivered was in the buffer, and
    what is in the buffer was there or has just arrived. *)
Definition step_ok (r : Receiver) (ev : rcv_event) (l : list (Z * Z)) (c : Z)
    (r' : Receiver) (out : option bytes) (l' : list (Z * Z)) (c' : Z) (k : nat) : Prop :=
  Receiver_view r' l' c' /\ Receiver_words r' /\ rv_cfg r' = rv_cfg r /\
  rv_base_seq r' = SeqNumber_add (rv_base_seq r) (Z.of_nat k) /\
  ack_pos l c <= Z.of_nat k + ack_pos l' c' /\ Z.of_nat k <= c + 1 /\
  Z.of_nat k + c' < 2 ^ 29 /\
  (forall p, out = Some p -> exists j s, k = S j /\ rv_slots r !! j = Some (Some s) /\
     sl_payload s = p /\ sl_undecryptable s = false) /\
  (forall i s, rv_slots r' !! i = Some (Some s) -> sl_undecryptable s = false ->
     rv_slots r !! (k + i)%nat = Some (Some s) \/
     exists now pkt, ev = RcvData now pkt /\ dp_seq pkt = SeqNumber_add (rv_base_seq r') (Z.of_nat i) /\
       dp_payload pkt = sl_payload s).

Lemma step_ok_same r ev l c r' :
  Receiver_view r l c -> same_buffer r r' -> rv_loss r' = rv_loss r -> Receiver_words r' ->
  step_ok r ev l c r' None l c 0.
Proof.
  intros Hv Hs Hl Hw. pose proof (view_same_buffer _ _ _ _ Hv Hs Hl) as Hv'.
  destruct Hs as (Hc & Hb & Hsl & _). pose proof Hv as (Hwf & ? & _ & _ & Hok & _).
  unfold step_ok. do 3 (split; [done|]). split; [by rewrite Hb, SeqNumber_add_0|].
  do 3 (split; [lia|]). split; [done|]. intros i s. rewrite Hsl. by left.
Qed.

Lemma ingest_step r l c now pkt u :
  Receiver_view r l c -> Receiver_words r -> SeqNumber_wf (dp_seq pkt) ->
  exists r' l' c', Receiver_ingest r now pkt u = Ret r' /\
    step_ok r (if u then RcvUndecryptable now pkt else RcvData now pkt) l c r' None l' c' 0.
Proof.
  intros Hv Hw Hseq.
  destruct (ingest_view r l c now pkt u Hv Hw Hseq) as (r' & -> & Hw' & Hb & Hc & Hcase).
  assert (Hbase : rv_base_seq r' = SeqNumber_add (rv_base_seq r) 0)
    by (rewrite Hb, SeqNumber_add_0; [done|apply Hv]).
  pose proof Hv as (Hwf & Hcr & _ & _ & Hok & _).
  destruct Hcase as [(_ & Hs & Hl)|(_ & _ & Hcase)].
  { exists r', l, c. split; [done|]. by apply step_ok_same. }
  set (o := SeqNumber_diff (dp_seq pkt) (rv_base_seq r)) in *.
  destruct Hcase as [(_ & Hv' & Hsl)|(ext & Ho & _ & Hv' & Hsl)].
  - exists r', l, c. split; [done|]. unfold step_ok. do 4 (split; [done|]). do 3 (split; [lia|]).
    split; [done|]. intros i s Hi _. left. by apply Hsl.
  - cbn [sl_undecryptable] in *.
    destruct (arrive_missing_ok l c o u Hok) as (Hok' & _ & Hm); [lia..|].
    exists r', (arrive_missing l c o u), (Z.max c o). split; [done|]. unfold step_ok.
    do 4 (split; [done|]). split.
    { assert (ack_pos l c <= ack_pos (arrive_missing l c o u) (Z.max c o)); [|lia].
      apply ack_pos_mono; try done || lia. intros y Hy. apply Hm in Hy as [[? _]|[? _]]; [by left|right; lia]. }
    split; [lia|]. split; [destruct Hv' as (_ & ? & _); lia|]. split; [done|]. intros i s Hi Hu. apply Hsl in Hi as [[-> ->]|[_ Hi]]; [|by left].
    right. cbn in Hu. subst u. exists now, pkt. split; [done|]. split; [|done].
    rewrite Hb, Z2Nat.id by lia. symmetry. by apply SeqNumber_add_diff.
Qed.

Lemma poll_deliver_step r l c now :
  Receiver_view r l c -> Receiver_words r ->
  exists r' out l' k, Receiver_poll_deliver r now = Ret (r', out) /\
    step_ok r (RcvDeliver now) l c r' out l' (c - Z.of_nat k) k.
Proof.
  intros Hv Hw. unfold Receiver_poll_deliver. destruct (rv_anchor r) as [anchor|] eqn:Ha.
  2: { exists r, None, l, O. split; [done|]. rewrite Z.sub_0_r. by apply step_ok_same. }
  destruct (deliver_loop_spec anchor now (S (length (rv_slots r))) r l c Hv) as
    (r' & out & k & l' & -> & Hm & Hdel); [lia|].
  exists r', out, l', k. split; [done|]. destruct Hm as (Hv' & Hc & _ & _ & Hb & Hm & Hs & Hwords).
  unfold step_ok. split; [done|]. split; [auto|]. do 2 (split; [done|]).
  pose proof Hv as (_ & Hcr & _ & _ & Hok & _). pose proof Hv' as (_ & Hcr' & _ & _ & Hok' & _).
  assert (Hack : ack_pos l c <= Z.of_nat k + ack_pos l' (c - Z.of_nat k)).
  { destruct l' as [|e l'].
    - pose proof (ack_pos_range l c Hok). cbn [ack_pos]. lia.
    - destruct (Hm (fst e)) as [Hme _]. destruct Hme as [Hme _];
        [apply missing_cons; left; cbn in Hok'; lia|]. cbn [ack_pos].
      destruct l as [|e0 l]; [by apply missing_nil in Hme|].
      apply (missing_head _ _ _ _ _ Hok) in Hme. cbn [ack_pos]. lia. }
  do 2 (split; [lia|]). split; [lia|]. split.
  - intros p ->. destruct Hdel as (j & s & ? & ? & ? & ? & _). by exists j, s.
  - intros i s. rewrite Hs, lookup_drop. by left.
Qed.

Lemma rcv_step_ok r ev l c :
  Receiver_view r l c -> Receiver_words r -> event_ok r ev ->
  exists r' out l' c' k, rcv_step r ev = Ret (r', out) /\ step_ok r ev l c r' out l' c' k.
Proof.
  intros Hv Hw Hev. assert (Hwf : Receiver_wf r) by (split; [by exists l, c|done]).
  destruct ev as [now pkt|now pkt|now n ts|msg first last|now| |now|instant ts|n]; cbn [rcv_step event_ok] in *.
  - destruct (ingest_step r l c now pkt false Hv Hw Hev) as (r' & l' & c' & Hr & Hok).
    unfold Receiver_handle_data. rewrite Hr. by eexists r', None, l', c', O.
  - destruct (ingest_step r l c now pkt true Hv Hw Hev) as (r' & l' & c' & Hr & Hok).
    unfold Receiver_handle_undecryptable. rewrite Hr. by eexists r', None, l', c', O.
  - destruct (handle_ackack_same r now n ts Hw) as (r' & -> & Hs & Hl & Hw').
    exists r', None, l, c, O. split; [done|]. by apply step_ok_same.
  - destruct (handle_dropreq_view r l c msg first last Hv Hw Hev) as
      (r' & l' & c' & -> & Hv' & Hw' & Ha & Hc & Hcfg & Hb & _ & _ & _ & Hs).
    exists r', None, l', c', O. split; [done|]. unfold step_ok. do 3 (split; [done|]).
    pose proof Hv as (Hbwf & ? & _). pose proof Hv' as (_ & ? & _). split; [by rewrite Hb, SeqNumber_add_0|]. do 3 (split; [lia|]).
    split; [done|]. intros i s Hi _. left. by apply Hs.
  - destruct (on_timer_same r now (wf_typed r Hwf)) as (Hs & Hl & Hw').
    eexists _, None, l, c, O. split; [done|]. by apply step_ok_same.
  - eexists _, None, l, c, O. split; [done|]. unfold Receiver_poll_control.
    destruct (rv_control_q r) as [|t q] eqn:Hq; cbn [fst]; apply step_ok_same; try done.
    destruct Hw as (? & ? & ? & ? & ? & Hf). unfold Receiver_words. rv. do 5 (split; [done|]).
    rewrite Hq in Hf. by apply Forall_cons in Hf as [_ Hf].
  - destruct (poll_deliver_step r l c now Hv Hw) as (r' & out & l' & k & Hr & Hok).
    by exists r', out, l', (c - Z.of_nat k), k.
  - unfold Receiver_set_hs_anchor. destruct (rv_anchor r);
      [|destruct (TimestampExtender_extend _ _ _)]; eexists _, None, l, c, O; (split; [done|]).
    + by apply step_ok_same.
    + destruct Hv as (? & ? & ? & ? & ? & ? & ? & ?). unfold step_ok, Receiver_view. rv.
      split; [done|]. split; [done|]. split; [done|]. split; [by rewrite SeqNumber_add_0|].
      do 3 (split; [lia|]). split; [done|]. by left.
  - eexists _, None, l, c, O. split; [done|].
    destruct Hv as (? & ? & ? & ? & ? & ? & ? & ?). unfold step_ok, Receiver_view, Receiver_set_max_payload. rv.
    split; [done|]. split; [done|]. split; [done|]. split; [by rewrite SeqNumber_add_0|].
    do 3 (split; [lia|]). split; [done|]. by left.
Qed.

(** Positions are counted from the first packet of the connection: [pos] is
    the position of the base. *)
Fixpoint rcv_run (r : Receiver) (pos : Z) (evs : list rcv_event) : panicking (Receiver * list (Z * bytes)) :=
  match evs with
  | [] => Ret (r, [])
  | ev :: rest =>
      '(r', out) ← rcv_step r ev;
      let pos' := pos + SeqNumber_diff (rv_base_seq r') (rv_base_seq r) in
      '(r'', outs) ← rcv_run r' pos' rest;
      Ret (r'', match out with Some p => (pos' - 1, p) :: outs | None => outs end)
  end.

Fixpoint run_ok (r : Receiver) (evs : list rcv_event) : Prop :=
  match evs with
  | [] => True
  | ev :: rest => event_ok r ev /\ forall r' out, rcv_step r ev = Ret (r', out) -> run_ok r' rest
  end.

(** A decryptable packet of position [p] with this payload arrived. *)
Definition arrived (isn : Z) (evs : list rcv_event) (d : Z * bytes) : Prop :=
  exists now pkt, RcvData now pkt ∈ evs /\ dp_seq pkt = SeqNumber_add isn (fst d) /\ dp_payload pkt = snd d.

Definition buffer_arrived (isn pos : Z) (evs : list rcv_event) (r : Receiver) : Prop :=
  forall i s, rv_slots r !! i = Some (Some s) -> sl_undecryptable s = false ->
    arrived isn evs (pos + Z.of_nat i, sl_payload s).

Lemma rcv_run_ok isn : forall evs past r pos,
  Receiver_wf r -> rv_base_seq r = SeqNumber_add isn pos -> buffer_arrived isn pos past r ->
  run_ok r evs ->
  exists r' outs, rcv_run r pos evs = Ret (r', outs) /\ Receiver_wf r' /\
    Forall (fun d => pos <= fst d) outs /\ StronglySorted (fun a b => fst a < fst b) outs /\
    Forall (arrived isn (past ++ evs)) outs.
Proof.
  induction evs as [|ev evs IH]; intros past r pos Hwf Hb Hbuf Hok.
  { exists r, []. do 2 (split; [done|]). repeat constructor. }
  destruct Hok as [Hev Hok]. pose proof Hwf as [(l & c & Hv) Hw].
  destruct (rcv_step_ok r ev l c Hv Hw Hev) as (r1 & out & l1 & c1 & k & Hstep & Hs). cbn [rcv_run].
  rewrite Hstep. cbn [mbind panicking_bind].
  destruct Hs as (Hv1 & Hw1 & _ & Hb1 & _ & Hk & _ & Hout & Hslots).
  assert (Hk0 : Z.of_nat k < 2 ^ 30) by (destruct Hv as (_ & ? & _); lia).
  assert (SeqNumber_diff (rv_base_seq r1) (rv_base_seq r) = Z.of_nat k) as ->.
  { rewrite Hb1, <- (SeqNumber_add_0 (rv_base_seq r)) at 1 by apply Hv. rewrite SeqNumber_add_add.
    rewrite <- (SeqNumber_add_0 (rv_base_seq r)) at 2 by apply Hv. rewrite diff_at; lia. }
  assert (Hbuf1 : buffer_arrived isn (pos + Z.of_nat k) (past ++ [ev]) r1).
  { intros i s Hi Hu. destruct (Hslots i s Hi Hu) as [Hold|(now & pkt & -> & Hseq & Hp)].
    - destruct (Hbuf _ _ Hold Hu) as (now & pkt & Hin & Hseq & Hp). exists now, pkt.
      split; [set_solver|]. split; [|done]. rewrite Hseq. cbn [fst]. f_equal. lia.
    - exists now, pkt. split; [set_solver|]. split; [|done].
      rewrite Hseq, Hb1, Hb, !SeqNumber_add_add. cbn [fst]. f_equal. lia. }
  destruct (IH (past ++ [ev]) r1 (pos + Z.of_nat k)) as (r2 & outs & -> & Hwf2 & Hge & Hsort & Harr).
  - split; [by exists l1, c1|done].
  - by rewrite Hb1, Hb, SeqNumber_add_add.
  - done.
  - by apply (Hok r1 out).
  - cbn [mbind panicking_bind]. rewrite <- app_assoc in Harr. cbn [app] in Harr.
    eexists _, _. split; [done|]. split; [done|].
    assert (Hge' : Forall (fun d => pos <= fst d) outs)
      by (eapply Forall_impl; [exact Hge|]; intros [p b] Hp; cbn [fst] in *; lia).
    destruct out as [p|]; [|done]. destruct (Hout p eq_refl) as (j & s & -> & Hs & Hp & Hu).
    split; [constructor; [cbn [fst]; lia|done]|]. split.
    + constructor; [done|]. eapply Forall_impl; [exact Hge|]. intros [q b] Hq. cbn [fst] in *. lia.
    + constructor; [|done]. destruct (Hbuf _ _ Hs Hu) as (now & pkt & Hin & Hseq & Hpp).
      exists now, pkt. split; [set_solver|]. cbn [fst snd] in *. split; [rewrite Hseq; f_equal; lia|congruence].
Qed.

Lemma Receiver_new_wf now cfg :
  SeqNumber_wf (rc_initial_seq cfg) -> Z.of_nat (rc_buffer_pkts cfg) <= 2 ^ 29 ->
  Receiver_wf (Receiver_new now cfg).
Proof.
  intros Hi Hb. split.
  - exists [], (-1). unfold Receiver_view, Receiver_new. rv. split; [done|]. split; [lia|].
    do 3 (split; [done|]). split; [by intros i s|]. cbn. lia.
  - unfold Receiver_words, Receiver_new. rv. unfold is_u32, ACK_HISTORY, Receiver_INITIAL_RTT_US, Receiver_INITIAL_RTT_VAR_US.
    cbn [length]. do 3 (split; [lia|]). split; [done|]. split; [lia|constructor].
Qed.

Lemma nak_prefix_budget m loss : forall w,
  (w <= m)%nat -> (w + length (encode_ranges (nak_prefix m w loss)) / 4 <= m)%nat.
Proof.
  induction loss as [|e loss IH]; intros w Hw; cbn [nak_prefix]; [cbn; lia|].
  case_if; to_prop; [cbn; lia|]. rewrite encode_ranges_cons, length_app, length_encode_range.
  specialize (IH (w + if (lr_first e =? lr_last e)%Z then 1 else 2)%nat ltac:(lia)). revert IH.
  case_if; intros IH; [rewrite (Nat.div_add_l 1 4) by lia | change 8%nat with (2 * 4)%nat;
    rewrite (Nat.div_add_l 2 4) by lia]; lia.
Qed.

Lemma length_encode_ranges_words l : exists n, length (encode_ranges l) = (4 * n)%nat.
Proof.
  induction l as [|e l [n IH]]; [by exists O|]. rewrite encode_ranges_cons, length_app, length_encode_range, IH.
  case_if; [exists (S n)|exists (S (S n))]; lia.
Qed.

(** What sending a full ACK leaves behind. *)
Lemma queue_full_ack_sends r now n cif :
  Receiver_wf r ->
  rv_control_q (Receiver_queue_full_ack r now) = rv_control_q r ++ [Ack n cif] ->
  let r1 := Receiver_queue_full_ack r now in
  ack_last_ack_seq cif = Receiver_ack_value r /\
  0 < SeqNumber_diff (Receiver_ack_value r) (rv_rcv_last_ackack r) /\
  0 <= SeqNumber_diff (Receiver_ack_value r) (rv_rcv_last_ack r) /\
  exists j, rv_ack_journal r1 = j ++ [mkAckRecord n (Receiver_ack_value r) now] /\
    (forall rec, rec ∈ j -> rec ∈ rv_ack_journal r) /\
    rv_srtt_us r1 = rv_srtt_us r /\ rv_rtt_var_us r1 = rv_rtt_var_us r /\
    rv_rtt_first r1 = rv_rtt_first r /\ rv_rcv_last_ackack r1 = rv_rcv_last_ackack r.
Proof.
  intros Hwf. pose proof (ack_value_wf r (wf_typed r Hwf)) as Hack. destruct Hwf as [_ Hw].
  assert (Hsnoc : forall t : ControlType, rv_control_q r <> rv_control_q r ++ [t]).
  { intros t H. apply (f_equal length) in H. rewrite length_app in H. cbn in H. lia. }
  unfold Receiver_queue_full_ack.
  destruct (Receiver_full_ack_due r now) as [r0|] eqn:Hdue; [|by intros H; apply Hsnoc in H].
  apply full_ack_due_spec in Hdue as [-> Hd]; [|done|apply Hw]. unfold push_control. rv.
  destruct (Z.leb_spec (SeqNumber_diff (Receiver_ack_value r) (rv_rcv_last_ackack r)) 0); rv.
  { by intros H0; apply Hsnoc in H0. }
  intros Hq. apply app_inv_head in Hq. injection Hq as <- <-. cbn [ack_last_ack_seq].
  do 3 (split; [done|]). eexists. split; [done|]. split; [|done].
  intros rec. case_if; [|done]. rewrite <- (take_drop 1 (rv_ack_journal r)) at 2. set_solver.
Qed.

Lemma position_last {A} (f : A -> bool) l x :
  Forall (fun y => f y = false) l -> f x = true -> position f (l ++ [x]) = Some (length l).
Proof.
  induction 1 as [|y l Hy _ IH]; intros Hx; cbn; [by rewrite Hx|]. by rewrite Hy, IH.
Qed.

(** A sample replaces the first estimate and pulls a later one towards it. *)
Lemma rtt_sample_towards r x :
  is_u32 (rv_srtt_us r) -> is_u32 x ->
  let r' := Receiver_rtt_sample r x in
  if rv_rtt_first r then rv_srtt_us r' = x /\ rv_rtt_var_us r' = x / 2
  else Z.min (rv_srtt_us r) x <= rv_srtt_us r' <= Z.max (rv_srtt_us r) x /\
       Z.abs (rv_srtt_us r' - x) <= Z.abs (rv_srtt_us r - x).
Proof.
  unfold is_u32. intros Hs Hx. cbv zeta. unfold Receiver_rtt_sample.
  destruct (rv_rtt_first r); rv; [done|].
  assert (Hr : Z.min (rv_srtt_us r) x <= (7 * rv_srtt_us r + x) / 8 <= Z.max (rv_srtt_us r) x)
    by (apply div_between; lia).
  rewrite as_u32_small by (unfold is_u32; lia). lia.
Qed.

(** ** Properties *)

(** A receiver whose sequence numbers are about to wrap. *)
Definition demo_receiver : Receiver := Receiver_new 0 (mkReceiverConfig 0x7FFFFFFE (from_millis 120) 16).

Definition demo_packet (seq : Z) (payload : bytes) : DataPacket :=
  mkDataPacket seq Only false EncNone false 1 0 0 payload.

Lemma demo_receiver_wf : Receiver_wf demo_receiver.
Proof. apply Receiver_new_wf; [split; cbn; lia | cbn; lia]. Qed.





(** A packet [ingest] has room for: not oversized, not belated, inside the
    buffer, its slot free. *)
Definition accepts (r : Receiver) (pkt : DataPacket) : Prop :=
  let o := SeqNumber_diff (dp_seq pkt) (rv_base_seq r) in
  (length (dp_payload pkt) <= rv_max_payload r)%nat /\
  0 <= o < Z.of_nat (rc_buffer_pkts (rv_cfg r)) /\
  forall s, rv_slots r !! Z.to_nat o <> Some (Some s).

(** C23: an arriving packet that is acceptable takes exactly its slot and is
    no longer missing; the packets it reveals as skipped become missing, but
    not when it is undecryptable; any other packet leaves the buffer, the
    losses and the receive cursor as they were. *)
Theorem data_arrival_outcomes (r : Receiver) (l : list (Z * Z)) (c now : Z) (pkt : DataPacket) (u : bool) :
  Receiver_view r l c -> Receiver_words r -> SeqNumber_wf (dp_seq pkt) ->
  let o := SeqNumber_diff (dp_seq pkt) (rv_base_seq r) in
  exists r' l' c', Receiver_ingest r now pkt u = Ret r' /\ Receiver_view r' l' c' /\
    rv_base_seq r' = rv_base_seq r /\
    (accepts r pkt /\ c' = Z.max c o /\
     (forall y, missing l' y <-> (missing l y /\ y <> o) \/ (c < y < o /\ u = false)) /\
     (exists ext, rv_slots r' !! Z.to_nat o =
        Some (Some (mkRcvSlot (dp_payload pkt) (dp_msg_number pkt) ext u))) /\
     (forall i s, i <> Z.to_nat o ->
        rv_slots r' !! i = Some (Some s) <-> rv_slots r !! i = Some (Some s))
     \/
     ~ accepts r pkt /\ l' = l /\ c' = c /\
     (forall i s, rv_slots r' !! i = Some (Some s) <-> rv_slots r !! i = Some (Some s))).
Proof.
  intros Hv Hw Hseq. cbv zeta.
  destruct (ingest_view r l c now pkt u Hv Hw Hseq) as (r' & -> & Hw' & Hb & Hc & Hcase).
  pose proof Hv as (_ & Hcr & _ & _ & Hok & _). unfold accepts.
  set (o := SeqNumber_diff (dp_seq pkt) (rv_base_seq r)) in *.
  destruct Hcase as [(Hbig & Hs & Hl)|(Hfit & _ & [(Hno & Hv' & Hsl)|(ext & Ho & Hfree & Hv' & Hsl)])].
  - exists r', l, c. split; [done|]. split; [by apply (view_same_buffer r)|]. split; [done|]. right.
    split; [intros [? _]; lia|]. do 2 (split; [done|]). destruct Hs as (_ & _ & -> & _). done.
  - exists r', l, c. do 3 (split; [done|]). right. split; [|done].
    intros (_ & Ho & Hfree). destruct Hno as [?|[?|[s Hs]]]; [lia|lia|by destruct (Hfree s)].
  - destruct (arrive_missing_ok l c o u Hok) as (_ & _ & Hm); [lia..|].
    exists r', (arrive_missing l c o u), (Z.max c o). do 3 (split; [done|]). left.
    split; [done|]. split; [done|]. split; [done|]. split; [exists ext; apply Hsl; by left|].
    intros i s Hi. rewrite Hsl. naive_solver.
Qed.

Lemma data_arrival_outcomes_witness :
  accepts demo_receiver (demo_packet 1 [13]) /\
  exists r' l' c', Receiver_ingest demo_receiver 0 (demo_packet 1 [13]) false = Ret r' /\
    Receiver_view r' l' c' /\ rv_loss r' = [mkLossRange 0x7FFFFFFE 0].
Proof.
  split; [split; [by apply Nat.leb_le|]; split; [vm_compute; intuition discriminate|]; by intros s|].
  destruct (data_arrival_outcomes demo_receiver [] (-1) 0 (demo_packet 1 [13]) false) as
    (r' & l' & c' & Hr & Hv & _).
  - split; [split; cbn; lia|]. split; [lia|]. do 3 (split; [done|]). split; [by intros i s|cbn; lia].
  - apply demo_receiver_wf.
  - split; cbn; lia.
  - exists r', l', c'. split; [done|]. split; [done|]. revert Hr. vm_compute. by intros [= <-].
Defined.

(** C21: [poll_deliver] always returns; what it returns is the first buffered
    packet that can be decrypted, only once its deadline is reached, after
    freeing the undecryptable ones before it, which were due too; if it
    returns nothing, the first packet left is not due.  The base moves past
    exactly what was delivered, freed or given up, and only the losses below
    the new base are forgotten. *)
Theorem poll_deliver_when_due (r : Receiver) (l : list (Z * Z)) (c now : Z) (anchor : Anchor) :
  Receiver_view r l c -> rv_anchor r = Some anchor ->
  exists r' out k l', Receiver_poll_deliver r now = Ret (r', out) /\
    delivered r anchor now out k /\
    rv_base_seq r' = SeqNumber_add (rv_base_seq r) (Z.of_nat k) /\
    rv_slots r' = drop k (rv_slots r) /\
    Receiver_view r' l' (c - Z.of_nat k) /\
    (forall z, missing l' z <-> missing l (z + Z.of_nat k) /\ 0 <= z).
Proof.
  intros Hv Ha. unfold Receiver_poll_deliver. rewrite Ha.
  destruct (deliver_loop_spec anchor now (S (length (rv_slots r))) r l c Hv) as
    (r' & out & k & l' & Hr & (Hv' & _ & _ & _ & Hb & Hm & Hs & _) & Hdel); [lia|].
  exists r', out, k, l'. by do 5 (split; [done|]).
Qed.

(** A receiver with packets 0x7FFFFFFE and 1 buffered, two missing. *)
Definition demo_buffered : Receiver :=
  demo_receiver <| rv_anchor := Some (mkAnchor 0 0) |>
    <| rv_slots := [Some (mkRcvSlot [10] 1 0 true); None; None; Some (mkRcvSlot [13] 1 5 false)] |>
    <| rv_rcv_curr_seq := 1 |> <| rv_loss := [mkLossRange 0x7FFFFFFF 0] |>.

Lemma demo_buffered_view : Receiver_view demo_buffered [(1, 2)] 3.
Proof.
  split; [split; cbn; lia|]. split; [lia|]. do 2 (split; [done|]). split; [cbn; lia|].
  split; [|cbn; lia]. intros i s Hi. do 4 (destruct i as [|i]; [split; [lia|]; split; [|cbn; lia];
    rewrite missing_cons, missing_nil; cbn; try lia; done|]). done.
Qed.

(** At 121 ms the first packet is freed, the hole skipped and the third
    packet handed out. *)
Lemma poll_deliver_when_due_witness :
  exists r' k, Receiver_poll_deliver demo_buffered (from_millis 121) = Ret (r', Some [13]) /\
    delivered demo_buffered (mkAnchor 0 0) (from_millis 121) (Some [13]) k /\
    rv_base_seq r' = SeqNumber_add (rv_base_seq demo_buffered) (Z.of_nat k).
Proof.
  destruct (poll_deliver_when_due demo_buffered [(1, 2)] 3 (from_millis 121) (mkAnchor 0 0)
    demo_buffered_view) as (r' & out & k & l' & Hr & Hd & Hb & _); [done|].
  assert (out = Some [13]) as -> by (revert Hr; vm_compute; by intros [= _ <-]).
  exists r', k. by split.
Defined.

(** a drop request within reach takes its whole range off the loss list,
    adds nothing to it, moves the receive cursor only forward, and takes
    nothing from the buffer except, when it names a message, that message's
    packets inside the range. *)
Theorem dropreq_forgets_range (r : Receiver) (l : list (Z * Z)) (c msg first last : Z) :
  Receiver_view r l c -> Receiver_words r -> dropreq_in_reach r first last ->
  SeqNumber_diff first last <= 0 ->
  exists r' l' c', Receiver_handle_dropreq r msg first last = Ret r' /\ Receiver_view r' l' c' /\ c <= c' /\
    (forall z, missing l' z -> missing l z /\
       ~ SeqNumber_diff first (rv_base_seq r) <= z <= SeqNumber_diff last (rv_base_seq r)) /\
    (forall i s, rv_slots r' !! i = Some (Some s) -> rv_slots r !! i = Some (Some s)).
Proof.
  intros Hv Hw Hreach Hle.
  destruct (handle_dropreq_view r l c msg first last Hv Hw Hreach) as
    (r' & l' & c' & Hr & Hv' & _ & _ & Hc & _ & _ & _ & Hsub & Hout & Hs).
  exists r', l', c'. do 3 (split; [done|]). split; [|done]. intros z Hz. split; [by apply Hsub | by apply Hout].
Qed.

Lemma dropreq_forgets_range_witness :
  exists r' l' c', Receiver_handle_dropreq demo_buffered 0 0 4 = Ret r' /\ Receiver_view r' l' c' /\
    rv_loss r' = [mkLossRange 0x7FFFFFFF 0x7FFFFFFF] /\ rv_rcv_curr_seq r' = 4.
Proof.
  destruct (dropreq_forgets_range demo_buffered [(1, 2)] 3 0 0 4) as (r' & l' & c' & Hr & Hv & _).
  - apply demo_buffered_view.
  - apply demo_receiver_wf.
  - split; [|split; [|split]]; vm_compute; intuition discriminate.
  - vm_compute; discriminate.
  - exists r', l', c'. do 2 (split; [done|]). revert Hr. vm_compute. by intros [= <-].
Defined.

(** a periodic NAK reports a prefix of the loss list, as long as the
    negotiated payload allows: its encoding fits the payload size (or the two
    words every NAK may use), it leaves ranges out only when the next one
    would not fit, and it is never empty while something is missing. *)
Theorem periodic_nak_fits_payload (r : Receiver) :
  (length (encode_loss_list (Receiver_nak_ranges r) []) <= Nat.max (rv_max_payload r) 8)%nat /\
  (rv_loss r = [] \/ Receiver_nak_ranges r <> []) /\
  exists rest, rv_loss r = Receiver_nak_ranges r ++ rest.
Proof.
  unfold Receiver_nak_ranges. set (m := Nat.max (rv_max_payload r / 4) MIN_NAK_WORDS). split; [|split].
  - pose proof (nak_prefix_budget m (rv_loss r) 0 ltac:(lia)) as Hb.
    destruct (length_encode_ranges_words (nak_prefix m 0 (rv_loss r))) as [n Hn].
    fold (encode_ranges (nak_prefix m 0 (rv_loss r))). rewrite Hn in *.
    rewrite Nat.mul_comm, Nat.div_mul in Hb by lia. subst m. unfold MIN_NAK_WORDS in Hb.
    pose proof (Nat.div_mod_eq (rv_max_payload r) 4). lia.
  - destruct (rv_loss r) as [|e loss]; [by left|right]. cbn [nak_prefix].
    replace (m <? _)%nat with false; [done|]. symmetry. apply Nat.ltb_ge. subst m. unfold MIN_NAK_WORDS.
    case_if; lia.
  - apply nak_prefix_prefix.
Qed.

(** a full ACK carries the current acknowledgement position, ahead of
    what the peer confirmed and not behind any earlier ACK; the ACKACK with
    its number confirms that position, empties the journal and feeds the time
    between the two into the RTT estimate: the first sample replaces it, a
    later one moves it towards the sample. *)
Theorem ackack_measures_round_trip (r : Receiver) (now now2 ts n : Z) (cif : AckCif) :
  Receiver_wf r ->
  rv_control_q (Receiver_queue_full_ack r now) = rv_control_q r ++ [Ack n cif] ->
  Forall (fun rec => ar_number rec <> n) (rv_ack_journal r) ->
  let rtt := as_micros (now2 - now) in
  0 < rtt < 2 ^ 32 ->
  ack_last_ack_seq cif = Receiver_ack_value r /\
  0 < SeqNumber_diff (Receiver_ack_value r) (rv_rcv_last_ackack r) /\
  0 <= SeqNumber_diff (Receiver_ack_value r) (rv_rcv_last_ack r) /\
  exists r', Receiver_handle_ackack (Receiver_queue_full_ack r now) now2 n ts = Ret r' /\
    rv_ack_journal r' = [] /\ rv_rcv_last_ackack r' = Receiver_ack_value r /\
    if rv_rtt_first r then rv_srtt_us r' = rtt /\ rv_rtt_var_us r' = rtt / 2
    else Z.min (rv_srtt_us r) rtt <= rv_srtt_us r' <= Z.max (rv_srtt_us r) rtt /\
         Z.abs (rv_srtt_us r' - rtt) <= Z.abs (rv_srtt_us r - rtt).
Proof.
  intros Hwf Hq Hj rtt Hrtt.
  destruct (queue_full_ack_sends r now n cif Hwf Hq) as
    (Hcif & Hd1 & Hd2 & j & Hj1 & Hjin & Hs1 & Hv1 & Hf1 & Ha1).
  do 3 (split; [done|]). set (r1 := Receiver_queue_full_ack r now) in *. clearbody r1.
  unfold Receiver_handle_ackack. rewrite Hj1, position_last;
    [|apply Forall_forall; rewrite Forall_forall in Hj; intros rec Hrec; apply Z.eqb_neq, Hj, Hjin, Hrec
     |by apply Z.eqb_eq].
  unfold index. rewrite list_lookup_middle by done. cbn [expect mbind panicking_bind ar_sent ar_seq].
  replace (Z.min (as_micros (duration_since now2 now)) U32_MAX) with rtt
    by (unfold rtt, duration_since, U32_MAX, as_micros in *; rewrite Z.max_r by zify_divmod; lia).
  replace (rtt =? 0) with false by (symmetry; apply Z.eqb_neq; lia).
  set (r2 := r1 <| rv_ack_journal := _ |>).
  set (r3 := if 0 <? _ then _ else Receiver_rtt_sample r2 rtt).
  assert (H3 : rv_ack_journal r3 = [] /\ rv_rcv_last_ackack r3 = Receiver_ack_value r /\
    rv_srtt_us r3 = rv_srtt_us (Receiver_rtt_sample r2 rtt) /\
    rv_rtt_var_us r3 = rv_rtt_var_us (Receiver_rtt_sample r2 rtt)).
  { assert (rv_rcv_last_ackack (Receiver_rtt_sample r2 rtt) = rv_rcv_last_ackack r) as Hla
      by (unfold Receiver_rtt_sample; case_if; subst r2; rv; done).
    subst r3. rewrite Hla. replace (0 <? _) with true by (symmetry; by apply Z.ltb_lt). rv.
    split; [|done]. destruct (rtt_sample_same r2 rtt) as (_ & _ & _ & _ & _ & ->). subst r2. rv.
    rewrite drop_ge; [done|]. rewrite length_app. cbn. lia. }
  clearbody r3. destruct H3 as (H31 & H32 & H33 & H34).
  set (P := fun r' => rv_ack_journal r' = [] /\ rv_rcv_last_ackack r' = Receiver_ack_value r /\
    if rv_rtt_first r then rv_srtt_us r' = rtt /\ rv_rtt_var_us r' = rtt / 2
    else Z.min (rv_srtt_us r) rtt <= rv_srtt_us r' <= Z.max (rv_srtt_us r) rtt /\
         Z.abs (rv_srtt_us r' - rtt) <= Z.abs (rv_srtt_us r - rtt)).
  assert (HP : P r3).
  { split; [done|]. split; [done|]. rewrite H33, H34, <- Hf1, <- Hs1. destruct Hwf as [_ (Hsr & _)].
    apply (rtt_sample_towards r2 rtt); [by subst r2; rv; rewrite Hs1 | unfold is_u32; lia]. }
  destruct (rv_anchor r3); [|by exists r3].
  destruct (TimestampExtender_extend _ _ _) as [ext ext_us]. rv.
  destruct (DriftTracer_sample _ _) as [drift b]. eexists. split; [done|]. exact HP.
Qed.

Lemma ackack_measures_round_trip_witness :
  exists cif r', rv_control_q (Receiver_queue_full_ack demo_buffered (from_millis 10)) = [Ack 1 cif] /\
    Receiver_handle_ackack (Receiver_queue_full_ack demo_buffered (from_millis 10)) (from_millis 35) 1 0 = Ret r' /\
    rv_srtt_us r' = 25000 /\ rv_rcv_last_ackack r' = 0x7FFFFFFF.
Proof.
  eexists. edestruct (ackack_measures_round_trip demo_buffered (from_millis 10) (from_millis 35) 0 1) as
    (_ & _ & _ & r' & Hr & _ & Ha & Hs & _).
  - split; [exists [(1, 2)], 3; apply demo_buffered_view | apply demo_receiver_wf].
  - vm_compute. reflexivity.
  - constructor.
  - vm_compute. split; reflexivity.
  - exists r'. split; [vm_compute; reflexivity|]. split; [exact Hr|]. split; [exact Hs|exact Ha].
Defined.
