(* ===== verification/ReceiverTotal.v ===== *)
(** * The receiver in any state: [src/core/receiver.rs]

    What holds of the receiver's operations without its invariant, so also
    after drop requests that wrap around the sequence circle: each returns
    and keeps the buffers within their bounds; and what a receiver with
    nothing due does. *)

From S2P Require Import Prelude PacketTypes PacketData PacketHandshake PacketControl Time LossList Receiver.

(** ** Every operation returns and stays within its memory *)

Definition bounded (r : Receiver) : Prop :=
  (length (rv_slots r) <= rc_buffer_pkts (rv_cfg r))%nat /\ (length (rv_ack_journal r) <= ACK_HISTORY)%nat /\
  is_u32 (rv_srtt_us r) /\ is_u32 (rv_rtt_var_us r).

Definition keeps (r r' : Receiver) : Prop := rv_cfg r' = rv_cfg r /\ (bounded r -> bounded r').

Lemma keeps_trans r1 r2 r3 : keeps r1 r2 -> keeps r2 r3 -> keeps r1 r3.
Proof. intros [? ?] [? ?]. split; [congruence|auto]. Qed.

Lemma keeps_same r r' :
  rv_cfg r' = rv_cfg r -> rv_slots r' = rv_slots r -> rv_ack_journal r' = rv_ack_journal r ->
  Receiver_rtt r' = Receiver_rtt r -> keeps r r'.
Proof. unfold keeps, bounded. intros -> -> -> [= -> ->]. done. Qed.

Lemma store_data_keeps r pkt ext u : exists r', Receiver_store_data r pkt ext u = Ret r' /\ keeps r r'.
Proof.
  unfold Receiver_store_data. case_if; [by eexists|]. cbv zeta.
  destruct (Nat.leb_spec (rc_buffer_pkts (rv_cfg r)) (Z.to_nat (SeqNumber_diff (dp_seq pkt) (rv_base_seq r))));
    [eexists; split; [done|]; by case_if|].
  set (o := Z.to_nat _) in *. set (r1 := if (length (rv_slots r) <=? o)%nat then _ else r).
  assert (keeps r r1 /\ (o < length (rv_slots r1))%nat) as [Hk1 Ho].
  { subst r1. destruct (Nat.leb_spec (length (rv_slots r)) o); [|done]. unfold keeps, bounded. rv.
    rewrite length_app, length_replicate. split; [|lia]. split; [done|]. intros (? & ? & ?).
    by split; [lia|]. }
  clearbody r1. destruct (lookup_lt_is_Some_2 _ _ Ho) as [old Hold].
  unfold index. rewrite Hold. cbn [expect mbind panicking_bind]. case_if; [by eexists|].
  eexists. split; [done|]. apply (keeps_trans r r1); [done|].
  set (r2 := Receiver_detect_gap r1 (dp_seq pkt) u).
  assert (Hk2 : rv_cfg r2 = rv_cfg r1 /\ rv_slots r2 = rv_slots r1 /\ rv_ack_journal r2 = rv_ack_journal r1 /\
    Receiver_rtt r2 = Receiver_rtt r1).
  { subst r2. unfold Receiver_detect_gap. case_if; [|done]. by destruct u. }
  clearbody r2. destruct Hk2 as (E1 & E2 & E3 & [= E4 E5]).
  unfold keeps, bounded. destruct u, (0 <? SeqNumber_diff (dp_seq pkt) (rv_rcv_curr_seq r2)); rv;
    rewrite length_insert; by rewrite E1, E2, E3, E4, E5.
Qed.

Lemma queue_light_ack_keeps r : keeps r (Receiver_queue_light_ack r).
Proof. unfold Receiver_queue_light_ack. by case_if. Qed.

Lemma ingest_keeps r now pkt u : exists r', Receiver_ingest r now pkt u = Ret r' /\ keeps r r'.
Proof.
  unfold Receiver_ingest. case_if; [by eexists|].
  destruct (TimestampExtender_extend _ _ _) as [ext ext_us].
  match goal with |- context [Receiver_store_data ?x] =>
    destruct (store_data_keeps x pkt ext_us u) as (r' & -> & Hk) end.
  cbn [mbind panicking_bind]. eexists. split; [done|]. apply (keeps_trans r r').
  - eapply keeps_trans; [|exact Hk]. apply keeps_same; rv; by destruct (rv_anchor r).
  - case_if; [|done]. eapply keeps_trans; [|apply queue_light_ack_keeps]. by apply keeps_same.
Qed.

Lemma handle_ackack_keeps r now n ts : exists r', Receiver_handle_ackack r now n ts = Ret r' /\ keeps r r'.
Proof.
  unfold Receiver_handle_ackack. destruct (position _ _) as [pos|] eqn:Hpos; [|by eexists].
  apply position_lookup in Hpos as (rec & Hrec & _). unfold index. rewrite Hrec.
  cbn [expect mbind panicking_bind]. set (r1 := r <| rv_ack_journal := _ |>).
  assert (Hk1 : keeps r r1).
  { subst r1. unfold keeps, bounded. rv. rewrite length_drop. split; [done|]. intros (? & ? & ?).
    split; [done|]. by split; [lia|]. }
  set (x := Z.min _ U32_MAX). assert (Hx : is_u32 x) by apply rtt_us_range. clearbody r1 x.
  case_if; [by eexists|].
  set (r2 := if 0 <? _ then _ else _).
  assert (Hk2 : keeps r r2).
  { apply (keeps_trans r r1); [done|]. apply (keeps_trans r1 (Receiver_rtt_sample r1 x)).
    - destruct (rtt_sample_same r1 x) as ((E1 & _ & E2 & _) & _ & _ & _ & _ & E3). split; [done|].
      unfold bounded. rewrite E1, E2, E3. intros (? & ? & ? & ?). do 2 (split; [done|]). by apply rtt_sample_words.
    - subst r2. case_if; by apply keeps_same. }
  clearbody r2. destruct (rv_anchor r2); [|by eexists].
  destruct (TimestampExtender_extend _ _ _). destruct (DriftTracer_sample _ _).
  eexists. split; [done|]. apply (keeps_trans r r2); [done|by apply keeps_same].
Qed.

Lemma handle_dropreq_keeps r msg first last :
  exists r', Receiver_handle_dropreq r msg first last = Ret r' /\ keeps r r'.
Proof.
  unfold Receiver_handle_dropreq. case_if; [by eexists|]. case_if; rv.
  - match goal with |- context [drop_message ?f ?sl ?i ?hi ?m] =>
      destruct (drop_message_spec m hi f sl i) as (slots & -> & Hl & _); [lia..|] end.
    cbn [mbind panicking_bind]. eexists. split; [done|]. unfold keeps, bounded. case_if; rv; by rewrite Hl.
  - eexists. split; [done|]. case_if; by apply keeps_same.
Qed.

Lemma deliver_loop_keeps anchor now : forall fuel r,
  (length (rv_slots r) < fuel)%nat ->
  exists r' out, Receiver_deliver_loop fuel r anchor now = Ret (r', out) /\ keeps r r'.
Proof.
  induction fuel as [|fuel IH]; intros r Hf; [lia|]. cbn [Receiver_deliver_loop].
  unfold first_occupied. destruct (position _ _) as [p|] eqn:Hp; cbn [fmap option_fmap option_map];
    [|by eexists _, _; split; [|apply keeps_same]].
  apply position_lookup in Hp as (o & Ho & Hne & _). rewrite lookup_drop in Ho. destruct o as [s|]; [|done].
  set (first := (rv_scan_hint r + p)%nat) in *. pose proof (lookup_lt_Some _ _ _ Ho) as Hlt.
  unfold index. rv. rewrite Ho. cbn [expect mbind panicking_bind].
  case_if; [by eexists _, _; split; [|apply keeps_same]|].
  set (m := if (0 <? first)%nat then _ else _).
  assert (exists r1, m = Ret r1 /\ rv_slots r1 = drop first (rv_slots r) /\ rv_cfg r1 = rv_cfg r /\
    rv_ack_journal r1 = rv_ack_journal r /\ Receiver_rtt r1 = Receiver_rtt r) as (r1 & -> & Hs1 & Hc1 & Hj1 & Hr1).
  { subst m. destruct (Nat.ltb_spec 0 first) as [Hpos|Hpos].
    - unfold drain_slots. replace (first <=? length (rv_slots r))%nat with true by (symmetry; apply Nat.leb_le; lia).
      cbn [mbind panicking_bind]. by eexists.
    - assert (first = O) as -> by lia. by eexists. }
  cbn [mbind panicking_bind]. rv. rewrite Hs1, head_lookup, lookup_drop, Nat.add_0_r, Ho.
  cbn [expect mbind panicking_bind].
  assert (Hk : forall r2, rv_cfg r2 = rv_cfg r1 -> rv_slots r2 = drop 1 (drop first (rv_slots r)) ->
    rv_ack_journal r2 = rv_ack_journal r1 -> Receiver_rtt r2 = Receiver_rtt r1 -> keeps r r2).
  { intros r2 E1 E2 E3 E4. rewrite Hr1 in E4. injection E4 as E4 E5. unfold keeps, bounded.
    rewrite E1, E2, E3, E4, E5, Hc1, Hj1, !length_drop. split; [done|]. intros (? & ? & ?). by split; [lia|]. }
  case_if; [|by eexists _, _; split; [|apply Hk]].
  match goal with |- context [Receiver_deliver_loop fuel ?x _ _] => set (r2 := x) end.
  destruct (IH r2) as (r' & out & Hr & Hk'); [subst r2; rv; rewrite !length_drop; lia|].
  exists r', out. split; [done|]. apply (keeps_trans r r2); [by apply Hk|done].
Qed.

Lemma poll_deliver_keeps r now : exists r' out, Receiver_poll_deliver r now = Ret (r', out) /\ keeps r r'.
Proof.
  unfold Receiver_poll_deliver. destruct (rv_anchor r); [apply deliver_loop_keeps; lia|by eexists _, _].
Qed.

Lemma on_timer_keeps r now : keeps r (Receiver_on_timer r now).
Proof.
  assert (Hf : keeps r (Receiver_queue_full_ack r now)).
  { unfold Receiver_queue_full_ack. destruct (Receiver_full_ack_due r now) as [r1|] eqn:Hd; [|done].
    assert (rv_cfg r1 = rv_cfg r /\ rv_slots r1 = rv_slots r /\ rv_ack_journal r1 = rv_ack_journal r /\
      Receiver_rtt r1 = Receiver_rtt r) as (E1 & E2 & E3 & E4).
    { unfold Receiver_full_ack_due in Hd. case_if; [done|]. case_if; [by simplify_eq|].
      case_if; [|done]. case_if; by simplify_eq. }
    case_if; [by apply keeps_same|]. injection E4 as E4 E5. unfold keeps, bounded, push_control. rv.
    rewrite E1, E2, E3, E4, E5. split; [done|]. intros (? & ? & ?). split; [done|]. split; [|done].
    rewrite length_app. cbn [length].
    destruct (Nat.eqb_spec (length (rv_ack_journal r)) ACK_HISTORY) as [E|E]; rewrite ?length_drop; [|lia].
    unfold ACK_HISTORY in *. lia. }
  unfold Receiver_on_timer. set (r1 := if rv_next_full_ack r <=? now then _ else _).
  assert (Hk : keeps r r1).
  { subst r1. case_if; [|done]. apply (keeps_trans r (Receiver_queue_full_ack r now)); [done|by apply keeps_same]. }
  clearbody r1. apply (keeps_trans r r1); [done|]. destruct (rv_loss r1); [by apply keeps_same|].
  case_if; [|done]. unfold Receiver_queue_nak. destruct (Receiver_nak_ranges r1); by apply keeps_same.
Qed.

(** ** A receiver with nothing due *)

Lemma on_timer_rtt r now : Receiver_rtt (Receiver_on_timer r now) = Receiver_rtt r.
Proof.
  unfold Receiver_on_timer. set (r1 := if rv_next_full_ack r <=? now then _ else _).
  assert (H : Receiver_rtt r1 = Receiver_rtt r).
  { subst r1. case_if; [|done]. unfold Receiver_queue_full_ack.
    destruct (Receiver_full_ack_due r now) as [r2|] eqn:Hd; [|done].
    assert (Hr : Receiver_rtt r2 = Receiver_rtt r).
    { unfold Receiver_full_ack_due in Hd. case_if; [done|]. case_if; [by simplify_eq|].
      case_if; [|done]. case_if; by simplify_eq. }
    by case_if. }
  clearbody r1. rewrite <- H. destruct (rv_loss r1); [done|]. case_if; [|done].
  unfold Receiver_queue_nak. by destruct (Receiver_nak_ranges r1).
Qed.

(** Before its deadline a receiver delivers nothing. *)
Definition undue (r : Receiver) (t : Z) : Prop :=
  match rv_anchor r, find_map (fun s => s) (drop (rv_scan_hint r) (rv_slots r)) with
  | Some anchor, Some slot => t < Receiver_tsbpd_deadline r anchor (sl_ext_us slot)
  | _, _ => True
  end.

Lemma find_map_position (l : list (option RcvSlot)) :
  match position (fun s => negb (slot_empty s)) l with
  | Some i => exists s, l !! i = Some (Some s) /\ find_map (fun s => s) l = Some s
  | None => find_map (fun s => s) l = None
  end.
Proof.
  induction l as [|[s|] l IH]; cbn; [done|by exists s|].
  by destruct (position (fun s => negb (slot_empty s)) l).
Qed.

Lemma poll_deliver_undue r t : undue r t -> exists r', Receiver_poll_deliver r t = Ret (r', None).
Proof.
  unfold undue, Receiver_poll_deliver. destruct (rv_anchor r) as [anchor|]; [|by eexists].
  intros Hu. cbn [Receiver_deliver_loop]. unfold first_occupied.
  pose proof (find_map_position (drop (rv_scan_hint r) (rv_slots r))) as Hp.
  destruct (position _ _) as [i|]; cbn [fmap option_fmap option_map]; [|by eexists].
  destruct Hp as (s & Hs & Hf). rewrite Hf in Hu. rewrite lookup_drop in Hs. rv.
  unfold index. rewrite Hs. cbn [expect mbind panicking_bind].
  match goal with |- context [t <? ?d] => replace (t <? d) with true by (symmetry; apply Z.ltb_lt; exact Hu) end.
  by eexists.
Qed.

(** Before its deadline the timer only moves the time of the next NAK. *)
Lemma before_deadline r now t d :
  Receiver_next_deadline r now = Some d -> now <= t -> t < d ->
  undue r t /\ exists nak, Receiver_on_timer r t = r <| rv_next_nak_time := nak |>.
Proof.
  unfold Receiver_next_deadline, undue, Receiver_on_timer. intros [= <-] Hnow Ht.
  set (slot := find_map _ _) in *.
  assert (Ht1 : t < rv_next_full_ack r /\ (rv_loss r = [] \/ t < rv_next_nak_time r) /\
    match rv_anchor r, slot with
    | Some anchor, Some s => t < Receiver_tsbpd_deadline r anchor (sl_ext_us s) | _, _ => True end).
  { destruct (rv_loss r), (rv_anchor r), slot; split_and!; try done; try lia; try (by left); right; lia. }
  destruct Ht1 as (Hack & Hnak & Hu). split; [done|].
  replace (rv_next_full_ack r <=? t) with false by (symmetry; apply Z.leb_gt; lia).
  destruct (rv_loss r) eqn:Hl; [by eexists|]. destruct Hnak as [?|Hnak]; [done|].
  replace (rv_next_nak_time r <=? t) with false by (symmetry; apply Z.leb_gt; lia).
  exists (rv_next_nak_time r). by destruct r.
Qed.
