(* ===== verification/CoreHandshake.v ===== *)
(** * Handshake state machines: [src/core/handshake.rs]

    The caller's induction/conclusion exchange and the stateless listener.
    A caller's random bytes for the key material are arguments; the SYN
    cookie's hash, whose algorithm the standard library leaves open, is the
    parameter [CookieHash]. *)

From S2P Require Import Prelude PacketTypes Utf8 PacketData PacketHandshake PacketControl Time CryptoKeys CryptoContext Options.

(** The digest [DefaultHasher] gives for the secret, the address octets, the
    port and the minute, hashed in this order: a 64-bit word. *)
Class CookieHash := cookie_hash : Z -> bytes -> Z -> Z -> Z.

(** ** Data *)

Definition HS_RETRY_INTERVAL : Z := from_millis 250.

Definition HS_VERSION_UDT4 : Z := 4.

Definition HS_VERSION_SRT1 : Z := 5.

Definition SRT_VERSION_FEAT_HSV5 : Z := 0x00010300.

Definition UDT_DGRAM : Z := 2.

(** [SocketAddrV4]: four octets and a port. *)
Record SocketAddrV4 := mkSocketAddrV4 { sa_ip : bytes; sa_port : Z }.

#[export] Instance SocketAddrV4_eq_dec : EqDecision SocketAddrV4.
Proof. solve_decision. Defined.

Record Negotiated := mkNegotiated {
  ng_remote : SocketAddrV4;
  ng_local_socket_id : Z;
  ng_peer_socket_id : Z;
  ng_send_initial_seq : Z;
  ng_recv_initial_seq : Z;
  ng_snd_latency : Z;
  ng_rcv_latency : Z;
  ng_streamid : option bytes;
  ng_mss : Z;
  ng_flow_window : Z;
  ng_crypto : option Crypto
}.

Inductive CallerState :=
| CallerInduction
| CallerConclusion (cookie : Z)
| CallerEstablished
| CallerFailed.

Record CallerHandshake := mkCallerHandshake {
  ch_remote : SocketAddrV4;
  ch_local_socket_id : Z;
  ch_initial_seq : Z;
  ch_timebase : Timebase;
  ch_opts : SrtOptions;
  ch_state : CallerState;
  ch_next_send : Z;
  ch_deadline : Z;
  ch_crypto_cfg : option CryptoConfig;
  ch_crypto : option Crypto;
  ch_enc_advert : Z
}.

#[export] Instance CallerHandshake_eta : Etable CallerHandshake := fun c =>
  mkCallerHandshake (ch_remote c) (ch_local_socket_id c) (ch_initial_seq c) (ch_timebase c) (ch_opts c)
    (ch_state c) (ch_next_send c) (ch_deadline c) (ch_crypto_cfg c) (ch_crypto c) (ch_enc_advert c).

Record Listener := mkListener {
  ls_secret : Z;
  ls_timebase : Timebase;
  ls_opts : SrtOptions;
  ls_crypto_cfg : result unit (option CryptoConfig)
}.

Inductive ListenerAction :=
| Reply (p : Packet)
| Accept (reply : Packet) (negotiated : Negotiated)
| Drop.

(** ** Free functions *)

Definition cif_valid (cif : HandshakeCif) : bool :=
  (HS_VERSION_UDT4 <=? hs_version cif) && (32 <=? hs_mss cif) && (2 <=? hs_flow_window cif).

Definition reject_error (code : Z) (encrypting : bool) : SrtError :=
  if (code =? REJ_UNSECURE) && negb encrypting then EncryptionUnsupported else Rejected code.

Definition pbkeylen_bits (len : KeyLength) : Z :=
  match len with Aes128 => 2 | Aes192 => 3 | Aes256 => 4 end.

Definition pbkeylen_from_bits (bits : Z) : option KeyLength :=
  if bits =? 2 then Some Aes128 else if bits =? 3 then Some Aes192 else
  if bits =? 4 then Some Aes256 else None.

Definition adopt_peer_pbkeylen (cfg : CryptoConfig) (advert : Z) : CryptoConfig :=
  match pbkeylen_from_bits advert with
  | Some peer => if decide (peer <> cc_key_len cfg) then cfg <| cc_key_len := peer |> else cfg
  | None => cfg
  end.

Definition ms_u16 (d : Z) : Z := Z.min (as_millis d) 65535.

Definition ms_dur (ms : Z) : Z := from_millis ms.

Definition handshake_packet (tb : Timebase) (now dst : Z) (cif : HandshakeCif) : Packet :=
  Control (mkControlPacket (Timebase_timestamp tb now) dst (Handshake cif)).

(** ** Caller *)

Section Caller.
Context `{CryptoPrimitives}.

Definition CallerHandshake_new (now : Z) (remote : SocketAddrV4) (local_socket_id initial_seq : Z)
    (timebase : Timebase) (opts : SrtOptions) : CallerHandshake :=
  let '(crypto_cfg, state) :=
    match SrtOptions_crypto_config opts with
    | Ok cfg => (cfg, CallerInduction)
    | Err _ => (None, CallerFailed)
    end in
  mkCallerHandshake remote local_socket_id initial_seq timebase opts state now
    (now + so_connect_timeout opts) crypto_cfg None 0.

Definition CallerHandshake_is_timed_out (c : CallerHandshake) (now : Z) : bool :=
  match ch_state c with
  | CallerInduction | CallerConclusion _ => ch_deadline c <=? now
  | CallerEstablished | CallerFailed => false
  end.

Definition CallerHandshake_fail (c : CallerHandshake) (err : SrtError)
    : CallerHandshake * result SrtError (option Negotiated) :=
  (c <| ch_state := CallerFailed |>, Err err).

Definition CallerHandshake_on_induction_response (c : CallerHandshake) (now : Z) (cif : HandshakeCif)
    (rnd_salt rnd_sek : nat -> bytes)
    : panicking (CallerHandshake * result SrtError (option Negotiated)) :=
  if decide (hs_handshake_type cif <> Induction) then Ret (c, Ok None) else
  if hs_version cif <=? HS_VERSION_UDT4 then Ret (CallerHandshake_fail c (Rejected REJ_VERSION)) else
  let c := c <| ch_crypto_cfg := (fun cfg => adopt_peer_pbkeylen cfg (hs_encryption cif)) <$>
                                   ch_crypto_cfg c |> in
  let c := match pbkeylen_from_bits (hs_encryption cif) with
           | Some peer => c <| ch_opts := ch_opts c <| so_pbkeylen := Some peer |> |>
           | None => c
           end in
  let c := c <| ch_enc_advert := match so_pbkeylen (ch_opts c) with
                                 | Some len => pbkeylen_bits len
                                 | None => 0
                                 end |> in
  crypto ← match ch_crypto_cfg c with
           | Some cfg => engine ← Crypto_new_initiator cfg rnd_salt rnd_sek; Ret (Some engine)
           | None => Ret None
           end;
  let c := c <| ch_crypto_cfg := None |> <| ch_crypto := crypto |> in
  let c := c <| ch_state := CallerConclusion (hs_cookie cif) |> in
  Ret (c <| ch_next_send := now |>, Ok None).

Definition find_hs_rsp (cif : HandshakeCif) : option HsExtFields :=
  find_map (fun e => match e with HsRsp f => Some f | _ => None end) (hs_extensions cif).

Definition find_km_rsp (cif : HandshakeCif) : option bytes :=
  find_map (fun e => match e with ExtKmRsp data => Some data | _ => None end) (hs_extensions cif).

Definition find_km_req (cif : HandshakeCif) : option bytes :=
  find_map (fun e => match e with ExtKmReq data => Some data | _ => None end) (hs_extensions cif).

Definition is_hs_block (e : HsExtension) : bool :=
  match e with HsReq _ | HsRsp _ => true | _ => false end.

Definition is_km_block (e : HsExtension) : bool :=
  match e with ExtKmReq _ | ExtKmRsp _ => true | _ => false end.

(** The checks of [on_conclusion_response] before the key exchange: the
    HSRSP block or the error. *)
Definition CallerHandshake_check_conclusion (c : CallerHandshake) (cif : HandshakeCif)
    : result SrtError HsExtFields :=
  if hs_version cif =? 0 then Err (Rejected REJ_PEER) else
  if hs_version cif <=? HS_VERSION_UDT4 then Err (Rejected REJ_VERSION) else
  if negb (cif_valid cif) then Err (Rejected REJ_ROGUE) else
  if negb (hs_initial_seq cif =? ch_initial_seq c) then Err (Rejected REJ_ROGUE) else
  if Z.land (hs_extension_field cif) HS_EXT_HSREQ =? 0 then Err (Rejected REJ_ROGUE) else
  match find_hs_rsp cif with
  | None => Err (Rejected REJ_ROGUE)
  | Some hs =>
      if hx_srt_version hs <? SRT_VERSION_FEAT_HSV5 then Err (Rejected REJ_ROGUE) else
      if HsFlags_contains (hx_flags hs) HsFlags_STREAM then Err (Rejected REJ_MESSAGEAPI) else
      Ok hs
  end.

(** The key exchange of [on_conclusion_response]: the engine after the
    KMRSP, or the error. *)
Definition CallerHandshake_check_kmx (c : CallerHandshake) (cif : HandshakeCif)
    : CallerHandshake * option SrtError :=
  match ch_crypto c with
  | Some crypto =>
      match find_km_rsp cif with
      | Some payload =>
          let '(crypto, outcome) := Crypto_handle_kmrsp crypto payload in
          let c := c <| ch_crypto := Some crypto |> in
          match outcome with
          | Confirmed | KmRspFailed Unsecured => (c, None)
          | _ => (c, Some (Rejected REJ_UNSECURE))
          end
      | None => (c, Some (Rejected REJ_UNSECURE))
      end
  | None =>
      if existsb is_km_block (hs_extensions cif) then (c, Some EncryptionUnsupported) else (c, None)
  end.

Definition CallerHandshake_on_conclusion_response (c : CallerHandshake) (cif : HandshakeCif)
    : CallerHandshake * result SrtError (option Negotiated) :=
  if decide (hs_handshake_type cif <> Conclusion) then (c, Ok None) else
  match CallerHandshake_check_conclusion c cif with
  | Err err => CallerHandshake_fail c err
  | Ok hs =>
      let '(c, failed) := CallerHandshake_check_kmx c cif in
      match failed with
      | Some err => CallerHandshake_fail c err
      | None =>
          let negotiated :=
            mkNegotiated (ch_remote c) (ch_local_socket_id c) (hs_socket_id cif) (ch_initial_seq c)
              (ch_initial_seq c) (ms_dur (hx_recv_latency_ms hs)) (ms_dur (hx_send_latency_ms hs))
              (so_streamid (ch_opts c)) (hs_mss cif) (hs_flow_window cif) (ch_crypto c) in
          (c <| ch_crypto := None |> <| ch_state := CallerEstablished |>, Ok (Some negotiated))
      end
  end.

Definition CallerHandshake_handle_handshake (c : CallerHandshake) (now : Z) (cif : HandshakeCif)
    (rnd_salt rnd_sek : nat -> bytes)
    : panicking (CallerHandshake * result SrtError (option Negotiated)) :=
  match ch_state c with
  | CallerEstablished | CallerFailed => Ret (c, Ok None)
  | _ =>
      match hs_handshake_type cif with
      | Rejection code =>
          let encrypting := bool_decide (is_Some (ch_crypto c)) || bool_decide (is_Some (ch_crypto_cfg c)) in
          Ret (CallerHandshake_fail c (reject_error code encrypting))
      | _ =>
          match ch_state c with
          | CallerInduction => CallerHandshake_on_induction_response c now cif rnd_salt rnd_sek
          | CallerConclusion _ => Ret (CallerHandshake_on_conclusion_response c cif)
          | CallerEstablished | CallerFailed => Panic
          end
      end
  end.

Definition CallerHandshake_induction_cif (c : CallerHandshake) : HandshakeCif :=
  mkHandshakeCif HS_VERSION_UDT4 0 UDT_DGRAM (ch_initial_seq c) (so_mss (ch_opts c))
    (so_flow_window (ch_opts c)) Induction (ch_local_socket_id c) 0
    (HandshakeCif_encode_peer_ip (sa_ip (ch_remote c))) [].

(** The StreamID that is attached: not an empty or overlong one. *)
Definition attached_sid (opts : SrtOptions) : option bytes :=
  match so_streamid opts with
  | Some sid => if negb (length sid =? 0)%nat && (length sid <=? 512)%nat then Some sid else None
  | None => None
  end.

Definition CallerHandshake_conclusion_cif (c : CallerHandshake) (cookie : Z) : HandshakeCif :=
  let extensions := [HsReq (mkHsExtFields SRT_VERSION HsFlags_live_defaults
                       (ms_u16 (so_latency (ch_opts c))) (ms_u16 (so_peer_latency (ch_opts c))))] in
  let extension_field := HS_EXT_HSREQ in
  let '(extensions, extension_field) :=
    match attached_sid (ch_opts c) with
    | Some sid => (extensions ++ [StreamId sid], Z.lor extension_field HS_EXT_CONFIG)
    | None => (extensions, extension_field)
    end in
  let '(extensions, extension_field) :=
    match (match ch_crypto c with Some crypto => Crypto_kmreq crypto | None => None end) with
    | Some kmreq => (extensions ++ [ExtKmReq kmreq], Z.lor extension_field HS_EXT_KMREQ)
    | None => (extensions, extension_field)
    end in
  CallerHandshake_induction_cif c <| hs_version := HS_VERSION_SRT1 |>
    <| hs_encryption := ch_enc_advert c |> <| hs_extension_field := extension_field |>
    <| hs_handshake_type := Conclusion |> <| hs_cookie := cookie |> <| hs_extensions := extensions |>.

Definition CallerHandshake_poll_transmit (c : CallerHandshake) (now : Z) : CallerHandshake * option Packet :=
  match (match ch_state c with
         | CallerInduction => Some None
         | CallerConclusion cookie => Some (Some cookie)
         | CallerEstablished | CallerFailed => None
         end) with
  | None => (c, None)
  | Some cookie =>
      if CallerHandshake_is_timed_out c now || (now <? ch_next_send c) then (c, None) else
      let c := c <| ch_next_send := now + HS_RETRY_INTERVAL |> in
      let cif := match cookie with
                 | None => CallerHandshake_induction_cif c
                 | Some cookie => CallerHandshake_conclusion_cif c cookie
                 end in
      (c, Some (handshake_packet (ch_timebase c) now SocketId_HANDSHAKE cif))
  end.

Definition CallerHandshake_next_deadline (c : CallerHandshake) : option Z :=
  match ch_state c with
  | CallerInduction | CallerConclusion _ => Some (Z.min (ch_next_send c) (ch_deadline c))
  | CallerEstablished | CallerFailed => None
  end.

End Caller.

(** ** Listener *)

Section ListenerOps.
Context `{CryptoPrimitives} `{CookieHash}.

Definition Listener_new (secret : Z) (timebase : Timebase) (opts : SrtOptions) : Listener :=
  mkListener secret timebase opts
    match SrtOptions_crypto_config opts with Ok cfg => Ok cfg | Err _ => Err tt end.

Definition Listener_minute (l : Listener) (now : Z) : Z :=
  as_secs (duration_since now (tb_start (ls_timebase l))) / 60.

Definition Listener_cookie_at (l : Listener) (minute : Z) (from : SocketAddrV4) : Z :=
  let digest := cookie_hash (ls_secret l) (sa_ip from) (sa_port from) minute in
  as_u32 (Z.lxor digest (Z.shiftr digest 32)).

Definition Listener_cookie (l : Listener) (now : Z) (from : SocketAddrV4) : Z :=
  Listener_cookie_at l (Listener_minute l now) from.

Definition Listener_cookie_ok (l : Listener) (now : Z) (from : SocketAddrV4) (cookie : Z) : bool :=
  let minute := Listener_minute l now in
  (cookie =? Listener_cookie_at l minute from) ||
  ((0 <? minute) && (cookie =? Listener_cookie_at l (minute - 1) from)).

Definition Listener_packet (l : Listener) (now dst : Z) (cif : HandshakeCif) : Packet :=
  handshake_packet (ls_timebase l) now dst cif.

Definition Listener_rejection (l : Listener) (now : Z) (cif : HandshakeCif) (code : Z) : ListenerAction :=
  let reply := cif <| hs_handshake_type := Rejection code |> <| hs_extensions := [] |> in
  Reply (Listener_packet l now (hs_socket_id cif) reply).

Definition Listener_enc_advert (l : Listener) : Z :=
  match so_pbkeylen (ls_opts l) with Some len => pbkeylen_bits len | None => 0 end.

Definition Listener_on_induction (l : Listener) (now : Z) (from : SocketAddrV4) (cif : HandshakeCif)
    : ListenerAction :=
  let reply := cif <| hs_version := HS_VERSION_SRT1 |> <| hs_encryption := Listener_enc_advert l |>
    <| hs_extension_field := SRT_MAGIC |> <| hs_cookie := Listener_cookie l now from |>
    <| hs_extensions := [] |> in
  Reply (Listener_packet l now (hs_socket_id cif) reply).

(** ASCII "live". *)
Definition LIVE : bytes := [108; 105; 118; 101].

(** The loop over the extension blocks: the code of the first block that is
    rejected. *)
Fixpoint blocks_rejection (blocks : list HsExtension) : option Z :=
  match blocks with
  | [] => None
  | Congestion name :: r => if decide (name <> LIVE) then Some REJ_CONGESTION else blocks_rejection r
  | Unknown cmd _ :: r => if cmd =? SRT_CMD_FILTER then Some REJ_FILTER else blocks_rejection r
  | Invalid _ _ :: _ => Some REJ_ROGUE
  | _ :: r => blocks_rejection r
  end.

(** The key exchange of [on_conclusion]: the engine and the KMRSP, or the
    rejection code. *)
Definition Listener_kmx (crypto_cfg : option CryptoConfig) (kmreq : option bytes)
    : panicking (result Z (option Crypto * option bytes)) :=
  match crypto_cfg, kmreq with
  | None, None => Ret (Ok (None, None))
  | None, Some _ => Ret (Err REJ_UNSECURE)
  | Some _, None => Ret (Err REJ_UNSECURE)
  | Some cfg, Some km =>
      r ← Crypto_new_responder cfg km;
      match r with
      | Ok crypto => Ret (Ok (Some crypto, Some km))
      | Err state => Ret (Err (if decide (state = BadSecret) then REJ_BADSECRET else REJ_UNSECURE))
      end
  end.

(** The response and the connection of an accepted conclusion. *)
Definition Listener_accept (l : Listener) (now : Z) (from : SocketAddrV4) (cif : HandshakeCif)
    (new_socket_id : Z) (hs : HsExtFields) (crypto : option Crypto) (km_rsp : option bytes)
    : ListenerAction :=
  let rcv_latency := Z.max (so_latency (ls_opts l)) (ms_dur (hx_send_latency_ms hs)) in
  let snd_latency := Z.max (so_peer_latency (ls_opts l)) (ms_dur (hx_recv_latency_ms hs)) in
  let mss := Z.min (so_mss (ls_opts l)) (hs_mss cif) in
  let negotiated :=
    mkNegotiated from new_socket_id (hs_socket_id cif) (hs_initial_seq cif) (hs_initial_seq cif)
      snd_latency rcv_latency (HandshakeCif_stream_id cif) mss (hs_flow_window cif) crypto in
  let extensions := [HsRsp (mkHsExtFields SRT_VERSION HsFlags_live_defaults
                       (ms_u16 rcv_latency) (ms_u16 snd_latency))] in
  let '(extensions, extension_field) :=
    match km_rsp with
    | Some payload => (extensions ++ [ExtKmRsp payload], Z.lor HS_EXT_HSREQ HS_EXT_KMREQ)
    | None => (extensions, HS_EXT_HSREQ)
    end in
  let reply_cif :=
    mkHandshakeCif HS_VERSION_SRT1 (Listener_enc_advert l) extension_field (hs_initial_seq cif) mss
      (so_flow_window (ls_opts l)) Conclusion new_socket_id (hs_cookie cif)
      (HandshakeCif_encode_peer_ip (sa_ip from)) extensions in
  Accept (Listener_packet l now (hs_socket_id cif) reply_cif) negotiated.

Definition Listener_on_conclusion (l : Listener) (now : Z) (from : SocketAddrV4) (cif : HandshakeCif)
    (new_socket_id : Z) : panicking ListenerAction :=
  if negb (cif_valid cif) then Ret Drop else
  if negb (Listener_cookie_ok l now from (hs_cookie cif)) then Ret Drop else
  if negb (hs_version cif =? HS_VERSION_SRT1) then Ret (Listener_rejection l now cif REJ_VERSION) else
  let has_hs := existsb is_hs_block (hs_extensions cif) in
  let has_km := existsb is_km_block (hs_extensions cif) in
  let ext := hs_extension_field cif in
  if (Z.land ext HS_EXT_HSREQ =? 0) || negb has_hs ||
     negb (Bool.eqb (negb (Z.land ext HS_EXT_KMREQ =? 0)) has_km)
  then Ret (Listener_rejection l now cif REJ_ROGUE) else
  hs ← expect (HandshakeCif_hs_ext cif);
  if hx_srt_version hs <? SRT_VERSION_FEAT_HSV5 then Ret (Listener_rejection l now cif REJ_ROGUE) else
  if HsFlags_contains (hx_flags hs) HsFlags_STREAM
  then Ret (Listener_rejection l now cif REJ_MESSAGEAPI) else
  match blocks_rejection (hs_extensions cif) with
  | Some code => Ret (Listener_rejection l now cif code)
  | None =>
      match ls_crypto_cfg l with
      | Err _ => Ret (Listener_rejection l now cif REJ_UNSECURE)
      | Ok crypto_cfg =>
          kmx ← Listener_kmx crypto_cfg (find_km_req cif);
          match kmx with
          | Err code => Ret (Listener_rejection l now cif code)
          | Ok (crypto, km_rsp) => Ret (Listener_accept l now from cif new_socket_id hs crypto km_rsp)
          end
      end
  end.

Definition Listener_handle_handshake (l : Listener) (now : Z) (from : SocketAddrV4) (cif : HandshakeCif)
    (new_socket_id : Z) : panicking ListenerAction :=
  match hs_handshake_type cif with
  | Induction => Ret (Listener_on_induction l now from cif)
  | Conclusion => Listener_on_conclusion l now from cif new_socket_id
  | Waveahand | Agreement | Rejection _ => Ret Drop
  end.

End ListenerOps.

(** ** One exchange over the wire *)

(** A handshake packet as the peer parses it. *)
Definition wire (p : Packet) : panicking HandshakeCif :=
  match Packet_parse (Packet_encode p []) with
  | Ret (Ok (Control cp)) =>
      match cp_control_type cp with Handshake cif => Ret cif | _ => Panic end
  | _ => Panic
  end.

Section Exchange.
Context `{CryptoPrimitives} `{CookieHash}.

(** The caller sends at [t0], the listener answers at [t1], the caller
    concludes at [t2], the listener accepts at [t3], the caller is done at
    [t4]; anything else is a failed [expect]. *)
Definition exchange (c : CallerHandshake) (l : Listener) (from : SocketAddrV4) (new_id : Z)
    (rnd_salt rnd_sek : nat -> bytes) (t0 t1 t2 t3 t4 : Z) : panicking (Negotiated * Negotiated) :=
  let '(c, ind) := CallerHandshake_poll_transmit c t0 in
  ind ← expect ind;
  ind ← wire ind;
  rep ← Listener_handle_handshake l t1 from ind new_id;
  match rep with
  | Reply rep =>
      rep ← wire rep;
      '(c, _) ← CallerHandshake_handle_handshake c t2 rep rnd_salt rnd_sek;
      let '(c, conc) := CallerHandshake_poll_transmit c t2 in
      conc ← expect conc;
      conc ← wire conc;
      act ← Listener_handle_handshake l t3 from conc new_id;
      match act with
      | Accept reply ng_l =>
          reply ← wire reply;
          '(_, r) ← CallerHandshake_handle_handshake c t4 reply rnd_salt rnd_sek;
          match r with Ok (Some ng_c) => Ret (ng_c, ng_l) | _ => Panic end
      | _ => Panic
      end
  | _ => Panic
  end.

End Exchange.

(** Values that fit the handshake's fields, and that the peer accepts. *)
Definition SrtOptions_wf (o : SrtOptions) : Prop :=
  32 <= so_mss o < 2 ^ 32 /\ 2 <= so_flow_window o < 2 ^ 32 /\
  0 <= so_latency o /\ 0 <= so_peer_latency o /\
  match attached_sid o with
  | Some sid => utf8_valid sid = true /\ no_trailing_nul sid
  | None => True
  end.

(** What the two ends have to agree on. *)
Definition agree (oc ol : SrtOptions) (ng_c ng_l : Negotiated) : Prop :=
  ng_local_socket_id ng_c = ng_peer_socket_id ng_l /\ ng_local_socket_id ng_l = ng_peer_socket_id ng_c /\
  ng_send_initial_seq ng_c = ng_recv_initial_seq ng_l /\ ng_send_initial_seq ng_l = ng_recv_initial_seq ng_c /\
  ng_mss ng_c = Z.min (so_mss oc) (so_mss ol) /\ ng_mss ng_l = ng_mss ng_c /\
  ng_flow_window ng_c = so_flow_window ol /\ ng_flow_window ng_l = so_flow_window oc /\
  ng_rcv_latency ng_l = Z.max (so_latency ol) (ms_dur (ms_u16 (so_peer_latency oc))) /\
  ng_snd_latency ng_c = ms_dur (ms_u16 (ng_rcv_latency ng_l)) /\
  ng_snd_latency ng_l = Z.max (so_peer_latency ol) (ms_dur (ms_u16 (so_latency oc))) /\
  ng_rcv_latency ng_c = ms_dur (ms_u16 (ng_snd_latency ng_l)) /\
  ng_streamid ng_l = attached_sid oc.

(** The engines of the two ends, for the encryption the caller and the
    listener are configured with. *)
Definition engines_agree `{CryptoPrimitives} (cc cl : option CryptoConfig) (e_c e_l : option Crypto) : Prop :=
  match cc, cl, e_c, e_l with
  | None, None, None, None => True
  | Some cfg, Some cfg', Some i, Some r =>
      in_sync i r /\ in_sync r i /\ Crypto_wf i /\ Crypto_wf r /\ fresh_engine cfg i /\ fresh_engine cfg' r
  | _, _, _, _ => False
  end.

(** ** Lemmas *)

Ltac ch := cbn [set_field ch_remote ch_local_socket_id ch_initial_seq ch_timebase ch_opts ch_state
  ch_next_send ch_deadline ch_crypto_cfg ch_crypto ch_enc_advert hs_version hs_encryption
  hs_extension_field hs_initial_seq hs_mss hs_flow_window hs_handshake_type hs_socket_id hs_cookie
  hs_peer_ip hs_extensions] in *.

Lemma ms_u16_range d : 0 <= d -> is_u16 (ms_u16 d).
Proof. intros. unfold is_u16, ms_u16, as_millis. zify_divmod. Qed.

Lemma pbkeylen_bits_u16 len : is_u16 (pbkeylen_bits len).
Proof. unfold is_u16. destruct len; cbn; lia. Qed.

Lemma enc_advert_u16 (o : option KeyLength) :
  is_u16 (match o with Some len => pbkeylen_bits len | None => 0 end).
Proof. destruct o; [apply pbkeylen_bits_u16 | unfold is_u16; lia]. Qed.

Lemma length_peer_ip ip : length ip = 4%nat -> length (HandshakeCif_encode_peer_ip ip) = 16%nat.
Proof. intros Hl. unfold HandshakeCif_encode_peer_ip. by rewrite length_app, length_reverse, Hl. Qed.

Lemma wire_handshake tb now dst cif :
  is_u32 dst -> HandshakeCif_wf cif -> wire (handshake_packet tb now dst cif) = Ret cif.
Proof.
  intros Hd Hc. unfold wire, handshake_packet. rewrite Packet_parse_encode; [done|].
  split; [apply as_u32_range|]. by split.
Qed.

Lemma adopt_refresh cfg advert e : fresh_engine (adopt_peer_pbkeylen cfg advert) e -> fresh_engine cfg e.
Proof. unfold adopt_peer_pbkeylen, fresh_engine. destruct (pbkeylen_from_bits advert); [|done]. by case_decide. Qed.

Lemma adopt_passphrase cfg advert : cc_passphrase (adopt_peer_pbkeylen cfg advert) = cc_passphrase cfg.
Proof. unfold adopt_peer_pbkeylen. destruct (pbkeylen_from_bits advert); [|done]. by case_decide. Qed.

Lemma live_defaults_not_stream : HsFlags_contains HsFlags_live_defaults HsFlags_STREAM = false.
Proof. done. Qed.

(** A cookie is good for at least a minute after it was issued. *)
Lemma cookie_ok_for_a_minute `{CookieHash} l t1 t3 from :
  t1 <= t3 <= t1 + from_secs 60 -> Listener_cookie_ok l t3 from (Listener_cookie l t1 from) = true.
Proof.
  intros Ht. unfold Listener_cookie_ok, Listener_cookie. set (s := tb_start (ls_timebase l)).
  assert (Listener_minute l t3 = Listener_minute l t1 \/
          0 < Listener_minute l t3 /\ Listener_minute l t3 - 1 = Listener_minute l t1) as [->|[Hm ->]].
  { unfold Listener_minute, duration_since, as_secs, from_secs in *. fold s. zify_divmod. }
  - by rewrite Z.eqb_refl.
  - rewrite Z.eqb_refl. apply Z.ltb_lt in Hm. rewrite Hm. by rewrite orb_true_r.
Qed.

(** The blocks of a conclusion request. *)
Definition sid_blocks (sid : option bytes) : list HsExtension :=
  match sid with Some s => [StreamId s] | None => [] end.

Definition km_blocks (km : option bytes) : list HsExtension :=
  match km with Some k => [ExtKmReq k] | None => [] end.

Definition caller_km (c : CallerHandshake) : option bytes :=
  match ch_crypto c with Some crypto => Crypto_kmreq crypto | None => None end.

Definition caller_hsreq (c : CallerHandshake) : HsExtFields :=
  mkHsExtFields SRT_VERSION HsFlags_live_defaults
    (ms_u16 (so_latency (ch_opts c))) (ms_u16 (so_peer_latency (ch_opts c))).

Lemma conclusion_cif_fields c cookie :
  let cif := CallerHandshake_conclusion_cif c cookie in
  hs_version cif = HS_VERSION_SRT1 /\ hs_encryption cif = ch_enc_advert c /\
  hs_initial_seq cif = ch_initial_seq c /\ hs_mss cif = so_mss (ch_opts c) /\
  hs_flow_window cif = so_flow_window (ch_opts c) /\ hs_handshake_type cif = Conclusion /\
  hs_socket_id cif = ch_local_socket_id c /\ hs_cookie cif = cookie /\
  hs_peer_ip cif = HandshakeCif_encode_peer_ip (sa_ip (ch_remote c)) /\
  hs_extensions cif =
    HsReq (caller_hsreq c) :: sid_blocks (attached_sid (ch_opts c)) ++ km_blocks (caller_km c) /\
  hs_extension_field cif = HandshakeCif_extension_bits cif.
Proof.
  cbv zeta. unfold CallerHandshake_conclusion_cif. fold (caller_km c).
  destruct (attached_sid (ch_opts c)), (caller_km c); by repeat split.
Qed.

Lemma attached_sid_length o sid : attached_sid o = Some sid -> (0 < length sid <= 512)%nat.
Proof.
  unfold attached_sid. destruct (so_streamid o) as [s|]; [|done]. case_if; [|done]. to_prop. intros [= <-]. lia.
Qed.

(** Everything the caller keeps about itself fits the wire. *)
Definition Caller_wire_ok (c : CallerHandshake) : Prop :=
  SrtOptions_wf (ch_opts c) /\ 0 <= ch_initial_seq c < SeqNumber_MASK /\
  is_u32 (ch_local_socket_id c) /\ length (sa_ip (ch_remote c)) = 4%nat /\
  is_u16 (ch_enc_advert c) /\ match caller_km c with Some km => words_ok km | None => True end.

Lemma induction_cif_wf c : Caller_wire_ok c -> HandshakeCif_wf (CallerHandshake_induction_cif c).
Proof.
  intros ((? & ? & _) & ? & ? & Hip & _). unfold HandshakeCif_wf, CallerHandshake_induction_cif. ch.
  unfold is_u32, is_u16, HS_VERSION_UDT4, UDT_DGRAM in *. do 7 (split; [lia || done|]).
  split; [lia|]. split; [lia|]. split; [by apply length_peer_ip|]. by split.
Qed.

Lemma conclusion_cif_wf c cookie :
  Caller_wire_ok c -> is_u32 cookie -> HandshakeCif_wf (CallerHandshake_conclusion_cif c cookie).
Proof.
  intros ((? & ? & ? & ? & Hsid) & ? & ? & Hip & Henc & Hkm) Hck.
  destruct (conclusion_cif_fields c cookie) as (E1 & E2 & E3 & E4 & E5 & E6 & E7 & E8 & E9 & E10 & E11).
  unfold HandshakeCif_wf. rewrite E11 at 1. rewrite E1, E2, E3, E4, E5, E6, E7, E8, E9.
  unfold is_u32, HS_VERSION_SRT1 in *. split; [lia|]. split; [done|].
  split; [apply extension_bits_u16|]. split; [lia|]. split; [lia|]. split; [lia|]. split; [done|].
  split; [lia|]. split; [lia|]. split; [by apply length_peer_ip|]. split; [|done].
  rewrite E10. constructor; [|apply Forall_app; split].
  - split; [done|]. split; [done|]. by split; apply ms_u16_range.
  - destruct (attached_sid (ch_opts c)) as [sid|] eqn:Es; [|constructor]. constructor; [|done].
    destruct Hsid. split; [done|]. split; [done|]. by apply (attached_sid_length (ch_opts c)).
  - destruct (caller_km c); [by constructor|constructor].
Qed.

Section Steps.
Context `{CryptoLaws} `{CookieHash}.

(** A conclusion with the blocks a caller sends is decided by the key
    exchange alone. *)
Lemma listener_accepts l now from cif new_id f sid km cfg crypto km_rsp :
  hs_version cif = HS_VERSION_SRT1 -> 32 <= hs_mss cif -> 2 <= hs_flow_window cif ->
  Listener_cookie_ok l now from (hs_cookie cif) = true ->
  hs_extensions cif = HsReq f :: sid_blocks sid ++ km_blocks km ->
  hs_extension_field cif = HandshakeCif_extension_bits cif ->
  SRT_VERSION_FEAT_HSV5 <= hx_srt_version f -> HsFlags_contains (hx_flags f) HsFlags_STREAM = false ->
  ls_crypto_cfg l = Ok cfg -> Listener_kmx cfg km = Ret (Ok (crypto, km_rsp)) ->
  Listener_on_conclusion l now from cif new_id =
    Ret (Listener_accept l now from cif new_id f crypto km_rsp).
Proof.
  intros Hv Hm Hf Hck Hext Hfield Hver Hst Hcfg Hkmx. unfold Listener_on_conclusion.
  assert (cif_valid cif = true) as ->.
  { unfold cif_valid. rewrite Hv. unfold HS_VERSION_UDT4, HS_VERSION_SRT1.
    rewrite !andb_true_iff, !Z.leb_le. lia. }
  rewrite Hck, Hv, Z.eqb_refl. cbn [negb]. cbv zeta.
  rewrite Hfield. unfold HandshakeCif_extension_bits, HandshakeCif_hs_ext, find_km_req. rewrite Hext.
  rewrite Hcfg. apply Z.ltb_ge in Hver.
  destruct sid as [s|], km as [k|]; cbn; cbn in Hver; rewrite Hver; cbn in Hst; rewrite Hst; cbn;
    unfold find_map in *; rewrite Hkmx; done.
Qed.

(** A conclusion response that passes the caller's checks. *)
Lemma caller_checks_pass c cif f km :
  hs_version cif = HS_VERSION_SRT1 -> 32 <= hs_mss cif -> 2 <= hs_flow_window cif ->
  hs_initial_seq cif = ch_initial_seq c ->
  hs_extensions cif = HsRsp f :: match km with Some k => [ExtKmRsp k] | None => [] end ->
  hs_extension_field cif = HandshakeCif_extension_bits cif ->
  SRT_VERSION_FEAT_HSV5 <= hx_srt_version f -> HsFlags_contains (hx_flags f) HsFlags_STREAM = false ->
  CallerHandshake_check_conclusion c cif = Ok f /\ find_km_rsp cif = km /\
  existsb is_km_block (hs_extensions cif) = bool_decide (is_Some km).
Proof.
  intros Hv Hm Hf Hseq Hext Hfield Hver Hst. split.
  - unfold CallerHandshake_check_conclusion.
    assert (cif_valid cif = true) as ->.
    { unfold cif_valid. rewrite Hv. unfold HS_VERSION_UDT4, HS_VERSION_SRT1.
      rewrite !andb_true_iff, !Z.leb_le. lia. }
    rewrite Hv, Hseq, Z.eqb_refl. cbn [negb]. cbv zeta.
    rewrite Hfield. unfold HandshakeCif_extension_bits, find_hs_rsp. rewrite Hext.
    apply Z.ltb_ge in Hver. destruct km; cbn; cbn in Hver; rewrite Hver; cbn in Hst; by rewrite Hst.
  - unfold find_km_rsp. rewrite Hext. by destruct km.
Qed.

(** The new caller's first request. *)
Lemma caller_sends_induction c t :
  ch_state c = CallerInduction -> t < ch_deadline c -> ch_next_send c <= t ->
  CallerHandshake_poll_transmit c t =
    (c <| ch_next_send := t + HS_RETRY_INTERVAL |>,
     Some (handshake_packet (ch_timebase c) t SocketId_HANDSHAKE (CallerHandshake_induction_cif c))).
Proof.
  intros Hs Hd Hn. unfold CallerHandshake_poll_transmit, CallerHandshake_is_timed_out. rewrite Hs.
  replace (ch_deadline c <=? t) with false by (symmetry; apply Z.leb_gt; lia).
  replace (t <? ch_next_send c) with false by (symmetry; apply Z.ltb_ge; lia).
  done.
Qed.

Lemma caller_sends_conclusion c t cookie :
  ch_state c = CallerConclusion cookie -> t < ch_deadline c -> ch_next_send c <= t ->
  CallerHandshake_poll_transmit c t =
    (c <| ch_next_send := t + HS_RETRY_INTERVAL |>,
     Some (handshake_packet (ch_timebase c) t SocketId_HANDSHAKE (CallerHandshake_conclusion_cif c cookie))).
Proof.
  intros Hs Hd Hn. unfold CallerHandshake_poll_transmit, CallerHandshake_is_timed_out. rewrite Hs.
  replace (ch_deadline c <=? t) with false by (symmetry; apply Z.leb_gt; lia).
  replace (t <? ch_next_send c) with false by (symmetry; apply Z.ltb_ge; lia).
  done.
Qed.

(** The induction response: cookie and key length adopted, key material
    made. *)
Lemma caller_adopts_induction c t cif rs rk :
  ch_state c = CallerInduction -> hs_handshake_type cif = Induction -> HS_VERSION_UDT4 < hs_version cif ->
  rnd_ok rs -> rnd_ok rk ->
  exists c2, CallerHandshake_handle_handshake c t cif rs rk = Ret (c2, Ok None) /\
    ch_remote c2 = ch_remote c /\ ch_local_socket_id c2 = ch_local_socket_id c /\
    ch_initial_seq c2 = ch_initial_seq c /\ ch_timebase c2 = ch_timebase c /\
    ch_deadline c2 = ch_deadline c /\ ch_state c2 = CallerConclusion (hs_cookie cif) /\
    ch_next_send c2 = t /\ is_u16 (ch_enc_advert c2) /\
    (exists pb, ch_opts c2 = ch_opts c <| so_pbkeylen := pb |>) /\
    match ch_crypto_cfg c with
    | Some cfg => exists e, ch_crypto c2 = Some e /\
        Crypto_new_initiator (adopt_peer_pbkeylen cfg (hs_encryption cif)) rs rk = Ret e
    | None => ch_crypto c2 = None
    end.
Proof.
  intros Hs Ht Hv Hrs Hrk. unfold CallerHandshake_handle_handshake. rewrite Hs, Ht.
  unfold CallerHandshake_on_induction_response. rewrite decide_False by tauto.
  apply Z.leb_gt in Hv. rewrite Hv. cbv iota zeta. ch.
  set (c' := match pbkeylen_from_bits (hs_encryption cif) with Some _ => _ | None => _ end).
  assert (Hc' : ch_remote c' = ch_remote c /\ ch_local_socket_id c' = ch_local_socket_id c /\
    ch_initial_seq c' = ch_initial_seq c /\ ch_timebase c' = ch_timebase c /\ ch_deadline c' = ch_deadline c /\
    (exists pb, ch_opts c' = ch_opts c <| so_pbkeylen := pb |>) /\
    ch_crypto_cfg c' = (fun cfg => adopt_peer_pbkeylen cfg (hs_encryption cif)) <$> ch_crypto_cfg c).
  { subst c'. destruct (pbkeylen_from_bits (hs_encryption cif)) as [k|]; ch; do 5 (split; [done|]);
      (split; [|done]); [by exists (Some k)|]. exists (so_pbkeylen (ch_opts c)). by destruct (ch_opts c). }
  clearbody c'. destruct Hc' as (E1 & E2 & E3 & E4 & E5 & [pb E6] & E7).
  assert (Hadv : is_u16 match so_pbkeylen (ch_opts c') with Some len => pbkeylen_bits len | None => 0 end)
    by apply enc_advert_u16.
  rewrite E7. destruct (ch_crypto_cfg c) as [cfg|]; cbn [fmap option_fmap option_map].
  - destruct (Crypto_new_initiator_ok (adopt_peer_pbkeylen cfg (hs_encryption cif)) rs rk Hrs Hrk) as (e & w & He & _).
    rewrite He. cbn [mbind panicking_bind]. eexists. split; [done|]. ch. do 8 (split; [done|]).
    split; [by exists pb|]. by exists e.
  - cbn [mbind panicking_bind]. eexists. split; [done|]. ch. do 8 (split; [done|]).
    split; [by exists pb|]. done.
Qed.

(** The induction response: version, magic and cookie filled in. *)
Lemma listener_answers_induction l t from cif new_id :
  hs_handshake_type cif = Induction -> HandshakeCif_wf cif ->
  exists rep, Listener_handle_handshake l t from cif new_id =
      Ret (Reply (Listener_packet l t (hs_socket_id cif) rep)) /\
    HandshakeCif_wf rep /\ hs_handshake_type rep = Induction /\ hs_version rep = HS_VERSION_SRT1 /\
    hs_cookie rep = Listener_cookie l t from.
Proof.
  intros Ht (? & ? & ? & ? & ? & ? & ? & ? & ? & ? & _). unfold Listener_handle_handshake. rewrite Ht.
  eexists. split; [done|]. unfold HandshakeCif_wf. ch. split; [|done].
  unfold HS_VERSION_SRT1, SRT_MAGIC, is_u16, is_u32 in *.
  split; [lia|]. split; [apply enc_advert_u16|]. split; [lia|]. do 5 (split; [done || lia|]).
  split; [apply as_u32_range|]. split; [done|]. by split.
Qed.

(** The key material of a new engine fits an extension block. *)
Lemma initiator_km_words cfg rs rk :
  rnd_ok rs -> rnd_ok rk ->
  exists e km, Crypto_new_initiator cfg rs rk = Ret e /\ Crypto_kmreq e = Some km /\ words_ok km.
Proof.
  intros Hrs Hrk. destruct (key_exchange_sync cfg cfg rs rk Hrs Hrk eq_refl) as (e & km & r & e' & He & Hkm & Hlen & _).
  exists e, km. do 2 (split; [done|]).
  split; rewrite Hlen; [by destruct (cc_key_len _) | destruct (cc_key_len _); cbn; lia].
Qed.

(** What the listener's engine makes of the caller's key material. *)
Lemma kmx_agrees cc cl advert rs rk :
  rnd_ok rs -> rnd_ok rk -> cc_passphrase <$> cc = cc_passphrase <$> cl ->
  match cc with
  | Some cfg => exists e km r e', Crypto_new_initiator (adopt_peer_pbkeylen cfg advert) rs rk = Ret e /\
      Crypto_kmreq e = Some km /\ words_ok km /\
      Listener_kmx cl (Some km) = Ret (Ok (Some r, Some km)) /\
      Crypto_handle_kmrsp e km = (e', Confirmed) /\ engines_agree cc cl (Some e') (Some r)
  | None => cl = None
  end.
Proof.
  intros Hrs Hrk Hpw. destruct cc as [cfg|], cl as [cfg'|]; try done. injection Hpw as Hpw.
  destruct (key_exchange_sync (adopt_peer_pbkeylen cfg advert) cfg' rs rk Hrs Hrk) as
    (e & km & r & e' & He & Hkm & Hlen & Hr & Hk & Hs1 & Hs2 & Hs3 & Hs4 & Hf1 & Hf2).
  { by rewrite adopt_passphrase. }
  exists e, km, r, e'. do 2 (split; [done|]). split.
  { destruct (initiator_km_words (adopt_peer_pbkeylen cfg advert) rs rk Hrs Hrk) as (e2 & km2 & He2 & Hkm2 & Hw). rewrite He in He2.
    injection He2 as <-. rewrite Hkm in Hkm2. by injection Hkm2 as <-. }
  split; [cbn [Listener_kmx]; by rewrite Hr|]. split; [done|]. apply adopt_refresh in Hf1. by split_and!.
Qed.

(** The accepted conclusion's response as the caller sees it. *)
Lemma accept_response l now from cif new_id hs crypto km_rsp :
  SrtOptions_wf (ls_opts l) -> 32 <= hs_mss cif < 2 ^ 32 -> 0 <= hs_initial_seq cif < SeqNumber_MASK ->
  is_u32 new_id -> is_u32 (hs_cookie cif) -> is_u32 (hs_socket_id cif) -> length (sa_ip from) = 4%nat ->
  match km_rsp with Some km => words_ok km | None => True end ->
  let rl := Z.max (so_latency (ls_opts l)) (ms_dur (hx_send_latency_ms hs)) in
  let sl := Z.max (so_peer_latency (ls_opts l)) (ms_dur (hx_recv_latency_ms hs)) in
  exists reply, Listener_accept l now from cif new_id hs crypto km_rsp =
      Accept (Listener_packet l now (hs_socket_id cif) reply)
        (mkNegotiated from new_id (hs_socket_id cif) (hs_initial_seq cif) (hs_initial_seq cif) sl rl
           (HandshakeCif_stream_id cif) (Z.min (so_mss (ls_opts l)) (hs_mss cif)) (hs_flow_window cif) crypto) /\
    HandshakeCif_wf reply /\ hs_handshake_type reply = Conclusion /\ hs_version reply = HS_VERSION_SRT1 /\
    hs_mss reply = Z.min (so_mss (ls_opts l)) (hs_mss cif) /\
    hs_flow_window reply = so_flow_window (ls_opts l) /\ hs_initial_seq reply = hs_initial_seq cif /\
    hs_socket_id reply = new_id /\ hs_extension_field reply = HandshakeCif_extension_bits reply /\
    hs_extensions reply = HsRsp (mkHsExtFields SRT_VERSION HsFlags_live_defaults (ms_u16 rl) (ms_u16 sl)) ::
      match km_rsp with Some k => [ExtKmRsp k] | None => [] end.
Proof.
  intros (? & ? & ? & ? & _) ? ? ? ? ? Hip Hkm. cbv zeta. unfold Listener_accept.
  set (rl := Z.max (so_latency _) _). set (sl := Z.max (so_peer_latency _) _).
  assert (0 <= rl /\ 0 <= sl) as [Hrl Hsl] by lia.
  assert (Hw : HsExtFields_wf (mkHsExtFields SRT_VERSION HsFlags_live_defaults (ms_u16 rl) (ms_u16 sl)))
    by (split; [done|]; split; [done|]; by split; apply ms_u16_range).
  destruct km_rsp as [km|]; eexists; (split; [done|]); ch; (split; [|done]);
    unfold HandshakeCif_wf; ch; unfold is_u32, HS_VERSION_SRT1 in *; (split; [lia|]);
    (split; [apply enc_advert_u16|]); (split; [done|]); (split; [lia|]); (split; [lia|]);
    (split; [lia|]); (split; [done|]); (split; [lia|]); (split; [lia|]);
    (split; [by apply length_peer_ip|]); (split; [|done]); by repeat (apply Forall_cons; split).
Qed.

End Steps.

Section Agreement.
Context `{CryptoLaws} `{CookieHash}.
Variables (oc ol : SrtOptions) (cc cl : option CryptoConfig) (remote from : SocketAddrV4).
Variables (id new_id isn secret : Z) (tbc tbl : Timebase) (rs rk : nat -> bytes) (t0 t1 t2 t3 t4 : Z).
Hypothesis Hoc : SrtOptions_wf oc.
Hypothesis Hol : SrtOptions_wf ol.
Hypothesis Hcc : SrtOptions_crypto_config oc = Ok cc.
Hypothesis Hcl : SrtOptions_crypto_config ol = Ok cl.
Hypothesis Hpw : cc_passphrase <$> cc = cc_passphrase <$> cl.
Hypothesis Hisn : 0 <= isn < SeqNumber_MASK.
Hypothesis Hid : is_u32 id.
Hypothesis Hnew : is_u32 new_id.
Hypothesis Hremote : length (sa_ip remote) = 4%nat.
Hypothesis Hfrom : length (sa_ip from) = 4%nat.
Hypothesis Hrs : rnd_ok rs.
Hypothesis Hrk : rnd_ok rk.
Hypothesis Ht : t0 <= t2 < t0 + so_connect_timeout oc.
Hypothesis Hck : t1 <= t3 <= t1 + from_secs 60.

Let c0 : CallerHandshake := CallerHandshake_new t0 remote id isn tbc oc.
Let l0 : Listener := Listener_new secret tbl ol.

(** The caller once it has the cookie. *)
Definition concluding (c : CallerHandshake) : Prop :=
  ch_remote c = remote /\ ch_local_socket_id c = id /\ ch_initial_seq c = isn /\
  ch_state c = CallerConclusion (Listener_cookie l0 t1 from) /\
  (exists pb, ch_opts c = oc <| so_pbkeylen := pb |>) /\ Caller_wire_ok c /\
  match cc with
  | Some cfg => exists e km r e', ch_crypto c = Some e /\ Crypto_kmreq e = Some km /\ words_ok km /\
      Listener_kmx cl (Some km) = Ret (Ok (Some r, Some km)) /\
      Crypto_handle_kmrsp e km = (e', Confirmed) /\ engines_agree cc cl (Some e') (Some r)
  | None => ch_crypto c = None /\ cl = None
  end.

(** The first half: induction, and the caller's conclusion request. *)
Lemma exchange_first_half :
  exists c3, concluding c3 /\
    exchange c0 l0 from new_id rs rk t0 t1 t2 t3 t4 =
    (act ← Listener_handle_handshake l0 t3 from
             (CallerHandshake_conclusion_cif c3 (Listener_cookie l0 t1 from)) new_id;
     match act with
     | Accept reply ng_l =>
         reply ← wire reply;
         '(_, r) ← CallerHandshake_handle_handshake c3 t4 reply rs rk;
         match r with Ok (Some ng_c) => Ret (ng_c, ng_l) | _ => Panic end
     | _ => Panic
     end).
Proof.
  assert (Hc0 : ch_state c0 = CallerInduction /\ ch_next_send c0 = t0 /\ ch_deadline c0 = t0 + so_connect_timeout oc /\
    ch_crypto_cfg c0 = cc /\ ch_remote c0 = remote /\ ch_local_socket_id c0 = id /\ ch_initial_seq c0 = isn /\
    ch_opts c0 = oc /\ ch_crypto c0 = None /\ ch_enc_advert c0 = 0)
    by (unfold c0, CallerHandshake_new; rewrite Hcc; done).
  clearbody c0. destruct Hc0 as (E1 & E2 & E3 & E4 & E5 & E6 & E7 & E8 & E9 & E10).
  assert (Hw0 : Caller_wire_ok c0).
  { unfold Caller_wire_ok, caller_km. rewrite E5, E6, E7, E8, E9, E10. unfold is_u16.
    do 4 (split; [done|]). split; [lia|done]. }
  unfold exchange. rewrite caller_sends_induction by (done || lia). cbn [expect mbind panicking_bind].
  rewrite wire_handshake by (by apply induction_cif_wf || done). cbn [mbind panicking_bind].
  destruct (listener_answers_induction l0 t1 from (CallerHandshake_induction_cif c0) new_id) as
    (rep & -> & Hrep & Hrt & Hrv & Hrc); [done|by apply induction_cif_wf|]. cbn [mbind panicking_bind].
  unfold Listener_packet at 1. rewrite wire_handshake; [|by rewrite <- E6 in Hid|done].
  cbn [mbind panicking_bind].
  set (c1 := c0 <| ch_next_send := _ |>).
  destruct (caller_adopts_induction c1 t2 rep rs rk) as
    (c2 & -> & F1 & F2 & F3 & F4 & F5 & F6 & F7 & F8 & [pb F9] & F10); [done|done|by rewrite Hrv|done|done|].
  change (ch_remote c1) with (ch_remote c0) in F1. change (ch_local_socket_id c1) with (ch_local_socket_id c0) in F2.
  change (ch_initial_seq c1) with (ch_initial_seq c0) in F3. change (ch_deadline c1) with (ch_deadline c0) in F5.
  change (ch_opts c1) with (ch_opts c0) in F9. change (ch_crypto_cfg c1) with (ch_crypto_cfg c0) in F10.
  rewrite Hrc in F6. rewrite E4 in F10.
  cbn [mbind panicking_bind]. rewrite (caller_sends_conclusion c2 t2 (Listener_cookie l0 t1 from)) by (done || lia).
  cbn [expect mbind panicking_bind].
  pose proof (kmx_agrees cc cl (hs_encryption rep) rs rk Hrs Hrk Hpw) as Hkmx.
  assert (Hconc : concluding c2).
  { unfold concluding. rewrite F1, F2, F3, F6, E5, E6, E7. do 4 (split; [done|]).
    split; [exists pb; by rewrite F9, E8|].
    split; [|destruct cc as [cfg|]; [|done]; destruct F10 as (e & He & Hn);
             destruct Hkmx as (e1 & km & r & e' & He1 & Hrest); assert (e1 = e) as -> by congruence;
             by exists e, km, r, e'].
    unfold Caller_wire_ok, caller_km. rewrite F1, F2, F3, F9, E5, E6, E7, E8.
    split; [exact Hoc|]. do 4 (split; [done|]). destruct cc as [cfg|]; [|by rewrite F10].
    destruct F10 as (e & -> & Hn). destruct Hkmx as (e1 & km & r & e' & He1 & Hkm & Hwk & _).
    assert (e1 = e) as -> by congruence. by rewrite Hkm. }
  exists (c2 <| ch_next_send := t2 + HS_RETRY_INTERVAL |>). split; [exact Hconc|].
  rewrite wire_handshake; [done|done|]. apply conclusion_cif_wf; [apply Hconc|apply as_u32_range].
Qed.

(** The second half: the listener accepts, the caller is established. *)
Lemma exchange_agrees :
  exists ng_c ng_l, exchange c0 l0 from new_id rs rk t0 t1 t2 t3 t4 = Ret (ng_c, ng_l) /\
    agree oc ol ng_c ng_l /\ engines_agree cc cl (ng_crypto ng_c) (ng_crypto ng_l) /\
    ng_send_initial_seq ng_c = isn /\ ng_send_initial_seq ng_l = isn.
Proof.
  destruct exchange_first_half as (c & (E1 & E2 & E3 & E4 & [pb E5] & Hw & Hkm) & ->).
  destruct (conclusion_cif_fields c (Listener_cookie l0 t1 from)) as
    (F1 & _ & F3 & F4 & F5 & F6 & F7 & F8 & _ & F10 & F11).
  set (cif := CallerHandshake_conclusion_cif c _) in *. clearbody cif.
  assert (Hsid : attached_sid (ch_opts c) = attached_sid oc) by (by rewrite E5).
  assert (Hm : so_mss (ch_opts c) = so_mss oc /\ so_flow_window (ch_opts c) = so_flow_window oc /\
    so_latency (ch_opts c) = so_latency oc /\ so_peer_latency (ch_opts c) = so_peer_latency oc)
    by (by rewrite E5).
  destruct Hm as (G1 & G2 & G3 & G4). rewrite G1 in F4. rewrite G2 in F5.
  destruct Hoc as (? & ? & _ & _ & _).
  assert (Hkm' : exists e_l km_rsp e', Listener_kmx cl (caller_km c) = Ret (Ok (e_l, km_rsp)) /\
    match km_rsp with Some km => words_ok km | None => True end /\
    engines_agree cc cl e' e_l /\
    forall reply, find_km_rsp reply = km_rsp ->
      existsb is_km_block (hs_extensions reply) = bool_decide (is_Some km_rsp) ->
      exists c', CallerHandshake_check_kmx c reply = (c', None) /\ ch_crypto c' = e' /\
        ch_remote c' = ch_remote c /\ ch_local_socket_id c' = ch_local_socket_id c /\
        ch_initial_seq c' = ch_initial_seq c).
  { unfold caller_km, CallerHandshake_check_kmx. destruct cc as [cfg|].
    - destruct Hkm as (e & km & r & e' & -> & Hk & Hwk & Hl & Hrsp & Heng). rewrite Hk.
      exists (Some r), (Some km), (Some e'). do 3 (split; [done|]). intros reply -> _. rewrite Hrsp.
      eexists. split; [done|]. by ch.
    - destruct Hkm as [Hn ->]. rewrite Hn. exists None, None, None. do 3 (split; [done|]). intros reply _ ->.
      by exists c. }
  destruct Hkm' as (e_l & km_rsp & e' & Hl & Hwk & Heng & Hfin).
  unfold Listener_handle_handshake. rewrite F6.
  rewrite (listener_accepts l0 t3 from cif new_id (caller_hsreq c) (attached_sid oc) (caller_km c) cl e_l km_rsp);
    [|done|lia|lia|rewrite F8; by apply cookie_ok_for_a_minute|by rewrite F10, Hsid|done|done|done
     |by unfold l0, Listener_new; cbn; rewrite Hcl|done].
  cbn [mbind panicking_bind].
  destruct (accept_response l0 t3 from cif new_id (caller_hsreq c) e_l km_rsp) as
    (reply & -> & Hrw & R1 & R2 & R3 & R4 & R5 & R6 & R7 & R8);
    [exact Hol|lia|by rewrite F3, E3|done|rewrite F8; apply as_u32_range|by rewrite F7, E2|done|done|].
  unfold Listener_packet. rewrite wire_handshake; [|by rewrite F7, E2|done]. cbn [mbind panicking_bind].
  unfold CallerHandshake_handle_handshake. rewrite E4, R1.
  unfold CallerHandshake_on_conclusion_response. rewrite decide_False by tauto.
  destruct Hol as (? & ? & _ & _ & _). change (so_mss (ls_opts l0)) with (so_mss ol) in *.
  change (so_flow_window (ls_opts l0)) with (so_flow_window ol) in *.
  destruct (caller_checks_pass c reply _ km_rsp R2 ltac:(lia) ltac:(lia) ltac:(by rewrite R5, F3) R8 R7)
    as (-> & Hf & Hx); [done|done|].
  destruct (Hfin reply Hf Hx) as (c' & -> & He & H1' & H2' & H3'). cbn [mbind panicking_bind].
  eexists _, _. split; [done|]. cbn [ng_crypto ng_send_initial_seq]. rewrite He. split; [|by rewrite H3', F3, E3].
  unfold agree. cbn [ng_local_socket_id ng_peer_socket_id ng_send_initial_seq ng_recv_initial_seq ng_snd_latency
    ng_rcv_latency ng_streamid ng_mss ng_flow_window caller_hsreq hx_send_latency_ms hx_recv_latency_ms].
  rewrite H2', H3', G3, G4, F7, F3, F4, F5, R3, R4, R6, F4, (Z.min_comm (so_mss oc)).
  do 12 (split; [done|]). unfold HandshakeCif_stream_id. rewrite F10, Hsid. by destruct (attached_sid oc), (caller_km c).
Qed.

End Agreement.

(** ** Runs of the caller *)

Section CallerRuns.
Context `{CryptoPrimitives}.

Inductive caller_event :=
| CallerGets (now : Z) (cif : HandshakeCif) (rnd_salt rnd_sek : nat -> bytes)
| CallerPolls (now : Z).

Inductive caller_output :=
| Quiet
| Sent (now : Z) (p : Packet)
| Connected (ng : Negotiated)
| Aborted (err : SrtError).

Definition caller_step (c : CallerHandshake) (ev : caller_event) : panicking (CallerHandshake * caller_output) :=
  match ev with
  | CallerGets now cif rs rk =>
      '(c, r) ← CallerHandshake_handle_handshake c now cif rs rk;
      Ret (c, match r with Ok None => Quiet | Ok (Some ng) => Connected ng | Err e => Aborted e end)
  | CallerPolls now =>
      let '(c, p) := CallerHandshake_poll_transmit c now in
      Ret (c, match p with Some p => Sent now p | None => Quiet end)
  end.

Fixpoint caller_run (c : CallerHandshake) (evs : list caller_event)
    : panicking (CallerHandshake * list caller_output) :=
  match evs with
  | [] => Ret (c, [])
  | ev :: rest =>
      '(c, out) ← caller_step c ev;
      '(c, outs) ← caller_run c rest;
      Ret (c, out :: outs)
  end.

Definition caller_event_ok (ev : caller_event) : Prop :=
  match ev with CallerGets _ _ rs rk => rnd_ok rs /\ rnd_ok rk | CallerPolls _ => True end.

(** The end of the handshake, for the application. *)
Definition is_outcome (o : caller_output) : Prop :=
  match o with Connected _ | Aborted _ => True | _ => False end.

(** With a passphrase the connection has an engine that is secured, or that
    the peer told it has no encryption; without, it has none. *)
Definition encryption_enforced (o : SrtOptions) (ng : Negotiated) : Prop :=
  match SrtOptions_crypto_config o with
  | Ok (Some _) => exists e, ng_crypto ng = Some e /\
      (cr_snd_state e = Secured /\ cr_rcv_state e = Secured \/ cr_snd_state e = Unsecured)
  | Ok None => ng_crypto ng = None
  | Err _ => False
  end.

(** [Quiet] from the outcome on. *)
Fixpoint outcome_last (outs : list caller_output) : Prop :=
  match outs with
  | [] => True
  | o :: rest => (is_outcome o -> Forall (fun o => o = Quiet) rest) /\ outcome_last rest
  end.

Definition output_ok (o : SrtOptions) (deadline : Z) (out : caller_output) : Prop :=
  match out with
  | Connected ng => encryption_enforced o ng
  | Sent now _ => now < deadline
  | _ => True
  end.

Definition caller_terminal (c : CallerHandshake) : Prop :=
  ch_state c = CallerEstablished \/ ch_state c = CallerFailed.

Definition engine_wf (e : option Crypto) : Prop :=
  match e with Some e => Crypto_wf e | None => True end.

(** What a sender and a receiver can be built from. *)
Definition Negotiated_wf (ng : Negotiated) : Prop :=
  SeqNumber_wf (ng_send_initial_seq ng) /\ SeqNumber_wf (ng_recv_initial_seq ng) /\
  2 <= ng_flow_window ng /\ engine_wf (ng_crypto ng).

Definition Caller_inv (o : SrtOptions) (c : CallerHandshake) : Prop :=
  match ch_state c with
  | CallerInduction => exists cfg, SrtOptions_crypto_config o = Ok cfg /\ ch_crypto c = None /\
      (is_Some (ch_crypto_cfg c) <-> is_Some cfg)
  | CallerConclusion _ => exists cfg, SrtOptions_crypto_config o = Ok cfg /\
      (is_Some (ch_crypto c) <-> is_Some cfg) /\ engine_wf (ch_crypto c)
  | _ => True
  end.

End CallerRuns.

Lemma terminal_step `{CryptoPrimitives} c ev :
  caller_terminal c -> caller_step c ev = Ret (c, Quiet).
Proof.
  unfold caller_step, CallerHandshake_handle_handshake, CallerHandshake_poll_transmit.
  intros [Hs|Hs]; destruct ev; rewrite Hs; done.
Qed.

Lemma terminal_run `{CryptoPrimitives} c evs :
  caller_terminal c -> exists outs, caller_run c evs = Ret (c, outs) /\ Forall (fun o => o = Quiet) outs.
Proof.
  intros Ht. induction evs as [|ev evs (outs & IH & Hq)]; [by exists []|]. cbn [caller_run].
  rewrite terminal_step by done. cbn [mbind panicking_bind]. rewrite IH. exists (Quiet :: outs).
  split; [done|]. by constructor.
Qed.

Lemma fail_terminal c err : caller_terminal (fst (CallerHandshake_fail c err)).
Proof. by right. Qed.

(** The caller's checks of the key exchange settle what its engine says. *)
Lemma check_kmx_enforced o c cif cfg :
  SrtOptions_crypto_config o = Ok cfg -> (is_Some (ch_crypto c) <-> is_Some cfg) ->
  match CallerHandshake_check_kmx c cif with
  | (c', None) => match cfg with
      | Some _ => exists e, ch_crypto c' = Some e /\
          (cr_snd_state e = Secured /\ cr_rcv_state e = Secured \/ cr_snd_state e = Unsecured)
      | None => ch_crypto c' = None
      end
  | _ => True
  end.
Proof.
  intros Ho Hc. unfold CallerHandshake_check_kmx. destruct (ch_crypto c) as [e|] eqn:He.
  - destruct cfg; [|destruct Hc as [Hc _]; by destruct (Hc ltac:(by eexists))].
    destruct (find_km_rsp cif) as [p|]; [|done].
    destruct (Crypto_handle_kmrsp e p) as [e' out] eqn:Hk.
    unfold Crypto_handle_kmrsp, Crypto_peer_km_failure in Hk.
    destruct (KmResponse_parse p) as [[echo|st]|]; [| |by injection Hk as <- <-].
    + destruct (cr_outstanding e) as [ou|]; [|by injection Hk as <- <-].
      case_decide; [|by injection Hk as <- <-]. injection Hk as <- <-. eexists. split; [done|]. by left.
    + destruct st as [[]|]; injection Hk as <- <-; try done. eexists. split; [done|]. by right.
  - case_if; [done|]. destruct cfg; [|done]. destruct Hc as [_ Hc]. by destruct (Hc ltac:(by eexists)).
Qed.

(** What a step of the caller leaves alone. *)
Definition same_call (c c' : CallerHandshake) : Prop :=
  ch_deadline c' = ch_deadline c /\ ch_initial_seq c' = ch_initial_seq c.

Definition caller_step_ok (o : SrtOptions) (c c' : CallerHandshake) (out : caller_output) : Prop :=
  Caller_inv o c' /\ same_call c c' /\ output_ok o (ch_deadline c) out /\
  (is_outcome out -> caller_terminal c') /\
  (SeqNumber_wf (ch_initial_seq c) -> forall ng, out = Connected ng -> Negotiated_wf ng).

Lemma induction_step_ok `{CryptoLaws} o c now cif rs rk :
  ch_state c = CallerInduction -> Caller_inv o c -> rnd_ok rs -> rnd_ok rk ->
  exists c' r, CallerHandshake_on_induction_response c now cif rs rk = Ret (c', r) /\
    Caller_inv o c' /\ same_call c c' /\
    match r with Ok None => True | Ok (Some _) => False | Err _ => caller_terminal c' end.
Proof.
  intros Hs Hinv Hrs Hrk. unfold CallerHandshake_on_induction_response.
  case_decide; [by eexists _, _|]. case_if; [eexists _, _; split; [done|]; by repeat split; right|].
  unfold Caller_inv in Hinv. rewrite Hs in Hinv. destruct Hinv as (cfg & Hcfg & _ & Hiff). cbv zeta. ch.
  set (c1 := match pbkeylen_from_bits (hs_encryption cif) with Some _ => _ | None => _ end).
  assert (Hc1s : same_call c c1 /\
    ch_crypto_cfg c1 = (fun cfg => adopt_peer_pbkeylen cfg (hs_encryption cif)) <$> ch_crypto_cfg c)
    by (subst c1; by destruct (pbkeylen_from_bits (hs_encryption cif))).
  clearbody c1. destruct Hc1s as [Hd Hc1]. rewrite Hc1.
  destruct (ch_crypto_cfg c) as [k|]; cbn [fmap option_fmap option_map].
  - destruct (Crypto_new_initiator_ok (adopt_peer_pbkeylen k (hs_encryption cif)) rs rk Hrs Hrk) as (e & w & He & Hwf & _).
    rewrite He. cbn [mbind panicking_bind]. eexists _, _. split; [done|]. unfold Caller_inv. ch.
    split; [|done]. exists cfg. split; [done|]. split; [|done]. split; intros _; [apply Hiff|]; by eexists.
  - cbn [mbind panicking_bind]. eexists _, _. split; [done|]. unfold Caller_inv. ch.
    split; [|done]. exists cfg. split; [done|]. split; [|done]. rewrite <- Hiff. by split; intros [? ?].
Qed.

(** The engine survives the check of the KMRSP. *)
Lemma check_kmx_keeps `{CryptoLaws} c cif :
  engine_wf (ch_crypto c) ->
  same_call c (fst (CallerHandshake_check_kmx c cif)) /\ engine_wf (ch_crypto (fst (CallerHandshake_check_kmx c cif))).
Proof.
  unfold CallerHandshake_check_kmx. destruct (ch_crypto c) as [e|] eqn:He.
  - intros Hwf. destruct (find_km_rsp cif) as [p|]; [|cbn; by rewrite He].
    pose proof (Crypto_handle_kmrsp_wf e p Hwf). destruct (Crypto_handle_kmrsp e p) as [e' [| []|]]; done.
  - intros _. case_if; cbn; by rewrite He.
Qed.

Lemma check_conclusion_window c cif hs :
  CallerHandshake_check_conclusion c cif = Ok hs -> 2 <= hs_flow_window cif.
Proof.
  unfold CallerHandshake_check_conclusion, cif_valid. do 2 (case_if; [done|]).
  destruct (_ && _ && _) eqn:Hv; [|done]. by to_prop.
Qed.

Lemma conclusion_step_ok `{CryptoLaws} o c cookie cif :
  ch_state c = CallerConclusion cookie -> Caller_inv o c ->
  let '(c', r) := CallerHandshake_on_conclusion_response c cif in
  Caller_inv o c' /\ same_call c c' /\
  match r with
  | Ok None => True
  | Ok (Some ng) => encryption_enforced o ng /\ caller_terminal c' /\
      (SeqNumber_wf (ch_initial_seq c) -> Negotiated_wf ng)
  | Err _ => caller_terminal c'
  end.
Proof.
  intros Hs Hinv. unfold CallerHandshake_on_conclusion_response. case_decide; [done|].
  destruct (CallerHandshake_check_conclusion c cif) as [hs|err] eqn:Hck; [|by repeat split; right].
  apply check_conclusion_window in Hck.
  unfold Caller_inv in Hinv. rewrite Hs in Hinv. destruct Hinv as (cfg & Hcfg & Hiff & Hwf).
  pose proof (check_kmx_enforced o c cif cfg Hcfg Hiff) as Hkmx.
  destruct (check_kmx_keeps c cif Hwf) as [[Hd Hi] Hwf1].
  destruct (CallerHandshake_check_kmx c cif) as [c1 [err|]]; cbn [fst] in *.
  - by repeat split; [..|right].
  - split; [done|]. split; [done|]. split; [|split; [by left|]].
    + unfold encryption_enforced. rewrite Hcfg. cbn [ng_crypto]. by destruct cfg.
    + intros Hseq. unfold Negotiated_wf. cbn. by rewrite Hi.
Qed.

Lemma caller_step_sound `{CryptoLaws} o c ev :
  Caller_inv o c -> caller_event_ok ev ->
  exists c' out, caller_step c ev = Ret (c', out) /\ caller_step_ok o c c' out.
Proof.
  intros Hinv Hev. destruct ev as [now cif rs rk|now]; cbn [caller_step].
  - destruct Hev as [Hrs Hrk]. unfold CallerHandshake_handle_handshake.
    destruct (ch_state c) eqn:Hs; [| |by eexists _, _..].
    + destruct (hs_handshake_type cif);
        try (by eexists _, _; split; [done|]; repeat split; [right|..]);
        (destruct (induction_step_ok o c now cif rs rk Hs Hinv Hrs Hrk) as (c' & r & -> & Hi & Hd & Hr);
         eexists _, _; split; [done|]; split; [done|]; split; [done|]; destruct r as [[ng|]|]; done).
    + pose proof (conclusion_step_ok o c cookie cif Hs Hinv) as Hc.
      destruct (CallerHandshake_on_conclusion_response c cif) as [c' r]. destruct Hc as (Hi & Hd & Hr).
      destruct (hs_handshake_type cif);
        try (by eexists _, _; split; [done|]; repeat split; [right|..]);
        (eexists _, _; split; [done|]; split; [done|]; split; [done|]; destruct r as [[ng|]|];
         [destruct Hr as (? & ? & Hn); split; [done|]; split; [done|]; by intros Hq ? [= <-]; apply Hn|done|done]).
  - unfold CallerHandshake_poll_transmit, CallerHandshake_is_timed_out.
    destruct (ch_state c) eqn:Hs; [| |by eexists _, _..];
      (destruct (_ || _) eqn:Hc; [by eexists _, _|]; to_prop; eexists _, _; split; [done|];
       split; [unfold Caller_inv in *; ch; by rewrite Hs in *|]; split; [done|]; by split; [cbn; lia|]).
Qed.

Lemma caller_run_sound `{CryptoLaws} o : forall evs c,
  Caller_inv o c -> Forall caller_event_ok evs ->
  exists c' outs, caller_run c evs = Ret (c', outs) /\ outcome_last outs /\
    Forall (output_ok o (ch_deadline c)) outs.
Proof.
  induction evs as [|ev evs IH]; intros c Hinv Hevs; [by exists c, []|].
  apply Forall_cons in Hevs as [Hev Hevs]. cbn [caller_run].
  destruct (caller_step_sound o c ev Hinv Hev) as (c1 & out & -> & Hi & [Hd _] & Ho & Ht & _). cbn [mbind panicking_bind].
  destruct (IH c1 Hi Hevs) as (c2 & outs & Hr & Hl & Hf). rewrite Hd in Hf.
  exists c2, (out :: outs). rewrite Hr. split; [done|]. split; [|by constructor]. split; [|done].
  intros Hout. destruct (terminal_run c1 evs (Ht Hout)) as (outs' & Hr' & Hq). congruence.
Qed.

Lemma Caller_new_inv now remote id isn tb o : Caller_inv o (CallerHandshake_new now remote id isn tb o).
Proof.
  unfold CallerHandshake_new, Caller_inv. destruct (SrtOptions_crypto_config o) as [cfg|e]; [|done].
  cbn. by exists cfg.
Qed.

(** The blocks that make [hs_ext] succeed. *)
Lemma hs_ext_present cif :
  existsb is_hs_block (hs_extensions cif) = true -> exists hs, HandshakeCif_hs_ext cif = Some hs.
Proof.
  unfold HandshakeCif_hs_ext. induction (hs_extensions cif) as [|e es IH]; [done|].
  cbn. destruct e; cbn; try done; by eexists.
Qed.

(** What an accepted conclusion guarantees to the listener. *)
Definition accept_ok `{CryptoPrimitives} (l : Listener) (cif : HandshakeCif) (ng : Negotiated) : Prop :=
  hs_version cif = HS_VERSION_SRT1 /\ ng_peer_socket_id ng = hs_socket_id cif /\
  ng_send_initial_seq ng = hs_initial_seq cif /\ ng_recv_initial_seq ng = hs_initial_seq cif /\
  ng_mss ng <= so_mss (ls_opts l) /\ ng_mss ng <= hs_mss cif /\ 2 <= ng_flow_window ng /\
  so_latency (ls_opts l) <= ng_rcv_latency ng /\ so_peer_latency (ls_opts l) <= ng_snd_latency ng /\
  match ls_crypto_cfg l with
  | Ok (Some cfg) => exists km e, find_km_req cif = Some km /\ ng_crypto ng = Some e /\
      Crypto_new_responder cfg km = pok e /\ Crypto_wf e
  | Ok None => find_km_req cif = None /\ ng_crypto ng = None
  | Err _ => False
  end.

Lemma Listener_kmx_returns `{CryptoLaws} cfg km :
  exists r, Listener_kmx cfg km = Ret r /\
    match r with
    | Ok (e, _) => match cfg with
        | Some k => exists km' e', km = Some km' /\ e = Some e' /\ Crypto_new_responder k km' = pok e' /\ Crypto_wf e'
        | None => km = None /\ e = None
        end
    | Err _ => True
    end.
Proof.
  destruct cfg as [k|], km as [b|]; cbn [Listener_kmx]; try by eexists.
  destruct (Crypto_new_responder_ok k b) as ([e|st] & Hr & Hw); rewrite Hr; cbn [mbind panicking_bind].
  - eexists. split; [done|]. exists b, e. by destruct Hw.
  - eexists. split; done.
Qed.

Lemma accept_fields l now from cif new_id hs e km_rsp :
  exists reply, Listener_accept l now from cif new_id hs e km_rsp =
    Accept reply (mkNegotiated from new_id (hs_socket_id cif) (hs_initial_seq cif) (hs_initial_seq cif)
      (Z.max (so_peer_latency (ls_opts l)) (ms_dur (hx_recv_latency_ms hs)))
      (Z.max (so_latency (ls_opts l)) (ms_dur (hx_send_latency_ms hs)))
      (HandshakeCif_stream_id cif) (Z.min (so_mss (ls_opts l)) (hs_mss cif)) (hs_flow_window cif) e).
Proof. unfold Listener_accept. destruct km_rsp; by eexists. Qed.

(** Every way through [on_conclusion]. *)
Lemma on_conclusion_cases `{CryptoLaws} `{CookieHash} l now from cif new_id :
  exists a, Listener_on_conclusion l now from cif new_id = Ret a /\
    (a = Drop \/
     Listener_cookie_ok l now from (hs_cookie cif) = true /\
     ((exists code, a = Listener_rejection l now cif code) \/
      exists reply ng, a = Accept reply ng /\ accept_ok l cif ng)).
Proof.
  unfold Listener_on_conclusion.
  destruct (cif_valid cif) eqn:Hvalid; cbn [negb]; [|by eexists; split; [|left]].
  destruct (Listener_cookie_ok l now from (hs_cookie cif)); cbn [negb]; [|by eexists; split; [|left]].
  assert (Hrej : forall code, exists a, @Ret ListenerAction (Listener_rejection l now cif code) = Ret a /\
    (a = Drop \/ true = true /\ ((exists code, a = Listener_rejection l now cif code) \/
      exists reply ng, a = Accept reply ng /\ accept_ok l cif ng)))
    by (intros code; eexists; split; [done|]; right; split; [done|]; left; by exists code).
  case_if; [apply Hrej|]. cbv zeta. case_if; [apply Hrej|]. to_prop.
  destruct (hs_ext_present cif) as [hs Hhs]; [done|]. rewrite Hhs. cbn [expect mbind panicking_bind].
  case_if; [apply Hrej|]. case_if; [apply Hrej|]. destruct (blocks_rejection _); [apply Hrej|].
  destruct (ls_crypto_cfg l) as [cfg|] eqn:Hcfg; [|apply Hrej].
  destruct (Listener_kmx_returns cfg (find_km_req cif)) as ([[e km_rsp]|code] & -> & Hk);
    cbn [mbind panicking_bind]; [|apply Hrej].
  eexists. split; [done|]. right. split; [done|]. right.
  destruct (accept_fields l now from cif new_id hs e km_rsp) as [reply ->]. eexists _, _. split; [done|].
  unfold accept_ok. cbn. unfold cif_valid in Hvalid. to_prop. do 4 (split; [done|]).
  do 5 (split; [lia|]). rewrite Hcfg. destruct cfg as [k|]; [|done]. destruct Hk as (km' & e' & -> & -> & Hk & Hw). by exists km', e'.
Qed.

(** ** Properties *)

(** C7: a caller and a listener with matching passphrases (or none) and
    valid options complete the handshake, every packet going through the
    codec, within the connect timeout and the life of the cookie, and agree:
    on each other's socket id, one initial sequence number, the smaller MSS,
    each other's flow window, the latencies of both directions (in the whole
    milliseconds the wire carries), the stream id, and on encryption keys
    that decrypt in both directions. *)
Theorem handshake_agrees `{CryptoLaws} `{CookieHash} (oc ol : SrtOptions) (cc cl : option CryptoConfig)
    (remote from : SocketAddrV4) (id new_id isn secret : Z) (tbc tbl : Timebase)
    (rs rk : nat -> bytes) (t0 t1 t2 t3 t4 : Z) :
  SrtOptions_wf oc -> SrtOptions_wf ol ->
  SrtOptions_crypto_config oc = Ok cc -> SrtOptions_crypto_config ol = Ok cl ->
  cc_passphrase <$> cc = cc_passphrase <$> cl ->
  0 <= isn < SeqNumber_MASK -> is_u32 id -> is_u32 new_id ->
  length (sa_ip remote) = 4%nat -> length (sa_ip from) = 4%nat -> rnd_ok rs -> rnd_ok rk ->
  t0 <= t2 < t0 + so_connect_timeout oc -> t1 <= t3 <= t1 + from_secs 60 ->
  exists ng_c ng_l,
    exchange (CallerHandshake_new t0 remote id isn tbc oc) (Listener_new secret tbl ol) from new_id
      rs rk t0 t1 t2 t3 t4 = Ret (ng_c, ng_l) /\
    agree oc ol ng_c ng_l /\ engines_agree cc cl (ng_crypto ng_c) (ng_crypto ng_l).
Proof.
  intros. destruct (exchange_agrees oc ol cc cl remote from id new_id isn secret tbc tbl rs rk t0 t1 t2 t3 t4) as
    (ng_c & ng_l & ? & ? & ? & _); try done. by exists ng_c, ng_l.
Qed.


(** C24: the listener answers every handshake packet without panicking, and
    accepts only a version 5 conclusion with a cookie it issued to this
    address in this or the previous minute; with a passphrase configured it
    accepts only if the caller's key material unwraps under it, without one
    only if the caller sent none; it never takes a larger MSS or a smaller
    latency than its own. *)
Theorem listener_accepts_only_valid `{CryptoLaws} `{CookieHash} (l : Listener) (now : Z)
    (from : SocketAddrV4) (cif : HandshakeCif) (new_id : Z) :
  exists a, Listener_handle_handshake l now from cif new_id = Ret a /\
    match a with
    | Drop => True
    | Reply p => exists reply, p = Listener_packet l now (hs_socket_id cif) reply /\ hs_extensions reply = [] /\
        (hs_handshake_type cif = Induction /\ hs_cookie reply = Listener_cookie l now from \/
         hs_handshake_type cif = Conclusion /\ Listener_cookie_ok l now from (hs_cookie cif) = true /\
         exists code, hs_handshake_type reply = Rejection code)
    | Accept _ ng => hs_handshake_type cif = Conclusion /\
        Listener_cookie_ok l now from (hs_cookie cif) = true /\ accept_ok l cif ng
    end.
Proof.
  unfold Listener_handle_handshake. destruct (hs_handshake_type cif); try by eexists.
  - eexists. split; [done|]. eexists. split; [done|]. split; [done|]. by left.
  - destruct (on_conclusion_cases l now from cif new_id) as (a & -> & [->|[Hck [[code ->]|(reply & ng & -> & Ha)]]]).
    + by eexists.
    + eexists. split; [done|]. eexists. split; [done|]. split; [done|]. right. do 2 (split; [done|]). by exists code.
    + eexists. split; [done|]. done.
Qed.

Section Witnesses.

#[local] Existing Instance toy_primitives.
#[local] Existing Instance toy_laws.
#[local] Instance toy_cookie : CookieHash := fun secret ip port minute => secret + of_be ip + port + minute.

Definition demo_caller_opts : SrtOptions :=
  SrtOptions_default <| so_passphrase := Some (replicate 12 65) |> <| so_streamid := Some [97; 98; 99] |>.

Definition demo_listener_opts : SrtOptions :=
  SrtOptions_default <| so_passphrase := Some (replicate 12 65) |> <| so_pbkeylen := Some Aes256 |>
    <| so_mss := 1400 |> <| so_latency := from_millis 200 |>.

(** The listener's 200 ms and 1400 bytes win; the stream id arrives. *)
Lemma handshake_agrees_witness :
  exists ng_c ng_l,
    exchange (CallerHandshake_new 0 (mkSocketAddrV4 [127; 0; 0; 1] 4200) 7 100 (mkTimebase 0) demo_caller_opts)
      (Listener_new 99 (mkTimebase 0) demo_listener_opts) (mkSocketAddrV4 [10; 0; 0; 2] 5000) 8
      (fun n => replicate n 1) (fun n => replicate n 2) 0 (from_secs 59) (from_secs 1) (from_secs 61) 0
      = Ret (ng_c, ng_l) /\
    ng_mss ng_c = 1400 /\ ng_snd_latency ng_c = from_millis 200 /\ ng_streamid ng_l = Some [97; 98; 99] /\
    exists i r, ng_crypto ng_c = Some i /\ ng_crypto ng_l = Some r /\ in_sync i r /\ in_sync r i.
Proof.
  destruct (handshake_agrees demo_caller_opts demo_listener_opts
    (Some (mkCryptoConfig (replicate 12 65) Aes128 0x01000000 0x10000))
    (Some (mkCryptoConfig (replicate 12 65) Aes256 0x01000000 0x10000))
    (mkSocketAddrV4 [127; 0; 0; 1] 4200) (mkSocketAddrV4 [10; 0; 0; 2] 5000) 7 8 100 99
    (mkTimebase 0) (mkTimebase 0) (fun n => replicate n 1) (fun n => replicate n 2)
    0 (from_secs 59) (from_secs 1) (from_secs 61) 0) as (ng_c & ng_l & Hx & Ha & He).
  - unfold SrtOptions_wf. cbn. unfold from_millis. split; [lia|]. split; [lia|]. split; [lia|]. split; [lia|].
    by split; [vm_compute|].
  - unfold SrtOptions_wf. cbn. unfold from_millis. lia.
  - reflexivity.
  - reflexivity.
  - reflexivity.
  - unfold SeqNumber_MASK. lia.
  - unfold is_u32. lia.
  - unfold is_u32. lia.
  - reflexivity.
  - reflexivity.
  - intros n. apply length_replicate.
  - intros n. apply length_replicate.
  - cbn. unfold from_secs. lia.
  - unfold from_secs. lia.
  - exists ng_c, ng_l. split; [exact Hx|]. clear Hx.
    destruct Ha as (_ & _ & _ & _ & Hm & _ & _ & _ & Hr & Hs & _ & _ & Hsid).
    rewrite Hm, Hs, Hr, Hsid. do 3 (split; [reflexivity|]).
    destruct (ng_crypto ng_c) as [i|]; [|done]. destruct (ng_crypto ng_l) as [r|]; [|done].
    exists i, r. by destruct He as (? & ? & _).
Defined.


(** A conclusion with the listener's cookie, not encrypted. *)
Definition demo_conclusion : HandshakeCif :=
  mkHandshakeCif HS_VERSION_SRT1 0 HS_EXT_HSREQ 100 1400 8192 Conclusion 7
    (Listener_cookie (Listener_new 99 (mkTimebase 0) SrtOptions_default) 0 (mkSocketAddrV4 [10; 0; 0; 2] 5000))
    (replicate 16 0) [HsReq (mkHsExtFields SRT_VERSION HsFlags_live_defaults 120 0)].

Lemma listener_accepts_only_valid_witness :
  let l := Listener_new 99 (mkTimebase 0) SrtOptions_default in
  exists reply ng,
    Listener_handle_handshake l 0 (mkSocketAddrV4 [10; 0; 0; 2] 5000) demo_conclusion 8 = Ret (Accept reply ng) /\
    ng_mss ng = 1400 /\ accept_ok l demo_conclusion ng.
Proof.
  intros l.
  destruct (listener_accepts_only_valid l 0 (mkSocketAddrV4 [10; 0; 0; 2] 5000) demo_conclusion 8) as (a & Hr & Ha).
  destruct a as [p|reply ng|]; [by vm_compute in Hr| |by vm_compute in Hr].
  destruct Ha as (_ & _ & Ha). exists reply, ng. split; [exact Hr|]. split; [|exact Ha].
  clear Ha. vm_compute in Hr. by inversion Hr.
Defined.

(** A conclusion without an HSREQ block, and with the CONFIG bit set but no
    such block, is accepted: an HSRSP block stands in for the HSREQ. *)
Example hsrsp_stands_in_for_hsreq :
  let l := Listener_new 99 (mkTimebase 0) SrtOptions_default in
  let from := mkSocketAddrV4 [10; 0; 0; 2] 5000 in
  let cif := mkHandshakeCif HS_VERSION_SRT1 0 (Z.lor HS_EXT_HSREQ HS_EXT_CONFIG) 100 1500 8192 Conclusion 7
    (Listener_cookie l 0 from) (replicate 16 0)
    [HsRsp (mkHsExtFields SRT_VERSION HsFlags_live_defaults 120 0)] in
  match Listener_handle_handshake l 0 from cif 8 with Ret (Accept _ _) => True | _ => False end.
Proof. vm_compute. exact I. Qed.

End Witnesses.
