(* ===== verification/Connection.v ===== *)
(** * The connection: [src/core/mod.rs]

    One endpoint of a connection: the caller's handshake while connecting,
    then a sender, a receiver and the encryption engine, with the timers and
    the packets owed to the peer.  Random bytes drawn by a call are its
    argument; the statistics' counters are unbounded integers. *)

From S2P Require Import Prelude PacketTypes PacketData PacketHandshake PacketControl Time CryptoKeys CryptoContext Cipher Options Pacing Sender LossList Receiver ReceiverTotal CoreHandshake.

(** ** Data *)

Definition KEEPALIVE_INTERVAL : Z := from_secs 1.

Definition EXP_MAX_COUNT : Z := 16.

Definition EXP_MIN_INTERVAL_US : Z := 300000.

Definition EXP_PAD_US : Z := 10000.

Definition EARLY_DATA_MAX : nat := 256.

Definition MAX_RECV_BUFFER_SCALE : Z := 64.

Definition MAX_SCALED_RECV_BUFFER_PKTS : Z := 2 ^ 20.

Inductive ConnState :=
| ConnConnecting
| ConnEstablished
| ConnClosed (reason : CloseReason).

Record Stats := mkStats {
  st_pkts_sent : Z;
  st_pkts_recv : Z;
  st_bytes_sent : Z;
  st_bytes_recv : Z;
  st_udp_send_errors : Z;
  st_udp_short_sends : Z;
  st_pkts_retransmitted : Z;
  st_pkts_send_dropped : Z;
  st_pkts_recv_dropped : Z;
  st_pkts_recv_lost : Z;
  st_pkts_recv_oversized : Z;
  st_undecrypted_pkts : Z;
  st_km_refreshes : Z;
  st_rtt_us : Z;
  st_rtt_var_us : Z;
  st_tsbpd_drift_us : Z;
  st_snd_period_us : Z;
  st_snd_max_bw : Z;
  st_snd_input_rate : Z
}.

Definition Stats_default : Stats := mkStats 0 0 0 0 0 0 0 0 0 0 0 0 0 0 0 0 0 0 0.

Inductive State :=
| StConnecting (hs : CallerHandshake) (pending_send : list bytes) (early_data : list (Z * DataPacket))
| StEstablished (sender : Sender) (receiver : Receiver) (crypto : option Crypto)
| StClosed (reason : CloseReason) (receiver : option Receiver).

Record Connection := mkConnection {
  cn_state : State;
  cn_remote : SocketAddrV4;
  cn_local_socket_id : Z;
  cn_peer_socket_id : Z;
  cn_timebase : Timebase;
  cn_opts : SrtOptions;
  cn_streamid : option bytes;
  cn_hs_reply : option Packet;
  cn_transmit_q : list Packet;
  cn_last_sent : Z;
  cn_last_recv : Z;
  cn_last_data : Z;
  cn_exp_count : Z;
  cn_closed_stats : Stats
}.

#[export] Instance Connection_eta : Etable Connection := fun c =>
  mkConnection (cn_state c) (cn_remote c) (cn_local_socket_id c) (cn_peer_socket_id c) (cn_timebase c)
    (cn_opts c) (cn_streamid c) (cn_hs_reply c) (cn_transmit_q c) (cn_last_sent c) (cn_last_recv c)
    (cn_last_data c) (cn_exp_count c) (cn_closed_stats c).

(** The random bytes one call may draw: salt and key of a new engine, the
    key of a refresh. *)
Record Rng := mkRng { rng_salt : nat -> bytes; rng_sek : nat -> bytes; rng_refresh : nat -> bytes }.

(** ** Free functions *)

Definition control (control_type : ControlType) : Packet :=
  Control (mkControlPacket 0 SocketId_HANDSHAKE control_type).

Definition exp_deadline (last_recv exp_count rtt_us rtt_var_us : Z) : Z :=
  let count := Z.max exp_count 1 in
  let period := count * (rtt_us + 4 * rtt_var_us) + EXP_PAD_US in
  last_recv + from_micros (Z.max period (count * EXP_MIN_INTERVAL_US)).

(** [u128::div_ceil] and [usize::saturating_mul], [usize] having 64 bits. *)
Definition div_ceil (a b : Z) : Z := (a + b - 1) / b.

Definition scaled_recv_buffer (opts : SrtOptions) (rcv_latency : Z) : nat :=
  if rcv_latency <=? so_latency opts then so_recv_buffer_pkts opts else
  let configured_us := Z.max (as_micros (so_latency opts)) 1000 in
  let pkts := Z.of_nat (so_recv_buffer_pkts opts) in
  let scaled := div_ceil (pkts * as_micros rcv_latency) configured_us in
  let cap := Z.max (Z.min (saturating_mul_u64 pkts MAX_RECV_BUFFER_SCALE) MAX_SCALED_RECV_BUFFER_PKTS) pkts in
  Z.to_nat (Z.min (if scaled <=? U64_MAX then scaled else U64_MAX) cap).

Definition transmission_pair (now : Z) (negotiated : Negotiated) (opts : SrtOptions) (timebase : Timebase)
    : Sender * Receiver :=
  let max_payload := Z.to_nat (Z.min (SrtOptions_max_payload opts) (saturating_sub (ng_mss negotiated) 44)) in
  let sender := Sender_new (mkSenderConfig (ng_send_initial_seq negotiated)
    (Z.min (so_flow_window opts) (ng_flow_window negotiated)) (ng_snd_latency negotiated) max_payload
    (so_send_buffer_pkts opts) (so_bandwidth opts) timebase) in
  let receiver := Receiver_new now (mkReceiverConfig (ng_recv_initial_seq negotiated)
    (ng_rcv_latency negotiated) (scaled_recv_buffer opts (ng_rcv_latency negotiated))) in
  (sender, Receiver_set_max_payload receiver max_payload).

Definition merge_stats (sender : Sender) (receiver : Receiver) (crypto : option Crypto) : Stats :=
  let s := Sender_get_stats sender in
  let r := Receiver_get_stats receiver in
  mkStats (ss_pkts_sent s) (rs_pkts_recv r) (ss_bytes_sent s) (rs_bytes_recv r) 0 0
    (ss_pkts_retransmitted s) (ss_pkts_dropped s) (rs_pkts_dropped r) (rs_pkts_lost r)
    (rs_pkts_oversized r) (Receiver_undecrypted_count receiver)
    (match crypto with Some c => cr_key_switches c | None => 0 end)
    (rs_rtt_us r) (rs_rtt_var_us r) (rs_tsbpd_drift_us r) (ss_snd_period_us s) (ss_snd_max_bw s)
    (ss_snd_input_rate s).

(** ** Operations *)

Section Operations.
Context `{CryptoPrimitives}.

Definition ingest_data (now : Z) (receiver : Receiver) (crypto : option Crypto) (data : DataPacket)
    : panicking (Receiver * option Crypto) :=
  let '(crypto, decrypted, data) :=
    match crypto with
    | Some c =>
        let '(c, r, payload) := cipher_decrypt c (dp_seq data) (dp_encryption data) (dp_payload data) in
        (Some c, (match r with Ok _ => true | Err _ => false end), data <| dp_payload := payload |>)
    | None => (None, bool_decide (dp_encryption data = EncNone), data)
    end in
  receiver ← (if decrypted then Receiver_handle_data receiver now (data <| dp_encryption := EncNone |>)
              else Receiver_handle_undecryptable receiver now data);
  Ret (receiver, crypto).

Definition Connection_connect_with_timebase (now : Z) (remote : SocketAddrV4)
    (local_socket_id initial_seq : Z) (opts : SrtOptions) (timebase : Timebase) : Connection :=
  let hs := CallerHandshake_new now remote local_socket_id initial_seq timebase opts in
  mkConnection (StConnecting hs [] []) remote local_socket_id SocketId_HANDSHAKE timebase opts
    (so_streamid opts) None [] now now now 1 Stats_default.

Definition Connection_connect (now : Z) (remote : SocketAddrV4) (local_socket_id initial_seq : Z)
    (opts : SrtOptions) : Connection :=
  Connection_connect_with_timebase now remote local_socket_id initial_seq opts (mkTimebase now).

Definition Connection_accepted_with_timebase (now : Z) (negotiated : Negotiated) (hs_reply : Packet)
    (opts : SrtOptions) (timebase : Timebase) : Connection :=
  let '(sender, receiver) := transmission_pair now negotiated opts timebase in
  mkConnection (StEstablished sender receiver (ng_crypto negotiated)) (ng_remote negotiated)
    (ng_local_socket_id negotiated) (ng_peer_socket_id negotiated) timebase opts (ng_streamid negotiated)
    (Some hs_reply) [hs_reply] now now now 1 Stats_default.

Definition Connection_accepted (now : Z) (negotiated : Negotiated) (hs_reply : Packet) (opts : SrtOptions)
    : Connection :=
  Connection_accepted_with_timebase now negotiated hs_reply opts (mkTimebase now).

Definition Connection_set_hs_anchor (c : Connection) (instant ts : Z) : Connection :=
  match cn_state c with
  | StEstablished sender receiver crypto =>
      c <| cn_state := StEstablished sender (Receiver_set_hs_anchor receiver instant ts) crypto |>
  | _ => c
  end.

Definition Connection_get_state (c : Connection) : ConnState :=
  match cn_state c with
  | StConnecting _ _ _ => ConnConnecting
  | StEstablished _ _ _ => ConnEstablished
  | StClosed reason _ => ConnClosed reason
  end.

Definition Connection_max_payload (c : Connection) : Z :=
  match cn_state c with
  | StEstablished sender _ _ => Z.of_nat (sc_max_payload (sn_cfg sender))
  | _ => SrtOptions_max_payload (cn_opts c)
  end.

Definition Connection_stats (c : Connection) : Stats :=
  match cn_state c with
  | StConnecting _ _ _ => Stats_default
  | StEstablished sender receiver crypto => merge_stats sender receiver crypto
  | StClosed _ _ => cn_closed_stats c
  end.

Definition Connection_touch (c : Connection) (now : Z) : Connection :=
  c <| cn_last_recv := now |> <| cn_exp_count := 1 |>.

Definition push_transmit (c : Connection) (p : Packet) : Connection :=
  c <| cn_transmit_q := cn_transmit_q c ++ [p] |>.

Definition Connection_close_with (c : Connection) (now : Z) (reason : CloseReason) (send_shutdown : bool)
    : Connection :=
  match cn_state c with
  | StClosed _ _ => c
  | prev =>
      let c := c <| cn_closed_stats := Connection_stats c |> in
      let c := if send_shutdown then push_transmit c (control Shutdown) <| cn_last_sent := now |> else c in
      let receiver := match prev with StEstablished _ receiver _ => Some receiver | _ => None end in
      c <| cn_state := StClosed reason receiver |>
  end.

(** The two flushing loops of [establish]. *)
Fixpoint ingest_early (early : list (Z * DataPacket)) (receiver : Receiver) (crypto : option Crypto)
    : panicking (Receiver * option Crypto) :=
  match early with
  | [] => Ret (receiver, crypto)
  | (at_, pkt) :: rest =>
      '(receiver, crypto) ← ingest_data at_ receiver crypto pkt;
      ingest_early rest receiver crypto
  end.

Fixpoint push_pending (now : Z) (pending : list bytes) (sender : Sender) (crypto : option Crypto)
    : panicking (Sender * option Crypto) :=
  match pending with
  | [] => Ret (sender, crypto)
  | payload :: rest =>
      '(sender, crypto, _) ← Sender_push sender now payload crypto;
      push_pending now rest sender crypto
  end.

Definition Connection_establish (c : Connection) (now hs_ts : Z) (negotiated : Negotiated)
    : panicking Connection :=
  let '(sender, receiver) := transmission_pair now negotiated (cn_opts c) (cn_timebase c) in
  let c0 := c <| cn_peer_socket_id := ng_peer_socket_id negotiated |>
              <| cn_streamid := ng_streamid negotiated |> in
  match cn_state c with
  | StConnecting _ pending_send early_data =>
      let receiver := Receiver_set_hs_anchor receiver now hs_ts in
      '(receiver, crypto) ← ingest_early early_data receiver (ng_crypto negotiated);
      '(sender, crypto) ← push_pending now pending_send sender crypto;
      Ret (c0 <| cn_state := StEstablished sender receiver crypto |> <| cn_exp_count := 1 |>
              <| cn_last_recv := now |> <| cn_last_data := now |>)
  | _ => Panic
  end.

Definition handshake_close_reason (e : SrtError) : CloseReason :=
  match e with
  | Rejected code => CloseRejected code
  | EncryptionUnsupported => CloseRejected REJ_UNSECURE
  | ConnectTimeout => CloseConnectTimeout
  | _ => CloseLocal
  end.

Definition Connection_handle_handshake_packet (c : Connection) (now hs_ts : Z) (cif : HandshakeCif) (rng : Rng)
    : panicking Connection :=
  match cn_state c with
  | StConnecting hs pending_send early_data =>
      '(hs, result) ← CallerHandshake_handle_handshake hs now cif (rng_salt rng) (rng_sek rng);
      let c := c <| cn_state := StConnecting hs pending_send early_data |> in
      match result with
      | Ok (Some negotiated) => Connection_establish c now hs_ts negotiated
      | Ok None => Ret c
      | Err e => Ret (Connection_close_with c now (handshake_close_reason e) false)
      end
  | StEstablished _ _ _ =>
      Ret (if decide (hs_handshake_type cif = Conclusion)
           then match cn_hs_reply c with Some reply => push_transmit c reply | None => c end
           else c)
  | StClosed _ _ => Panic
  end.

Definition Connection_handle_kmreq (c : Connection) (payload : bytes) : panicking Connection :=
  match cn_state c with
  | StEstablished sender receiver (Some crypto) =>
      '(crypto, outcome) ← Crypto_handle_kmreq crypto payload;
      let c := c <| cn_state := StEstablished sender receiver (Some crypto) |> in
      Ret match outcome with
          | Installed => push_transmit c (control (KmRsp payload))
          | KmReqFailed _ => c
          end
  | _ => Ret c
  end.

Definition Connection_handle_kmrsp (c : Connection) (payload : bytes) : Connection :=
  match cn_state c with
  | StEstablished sender receiver (Some crypto) =>
      let '(crypto, _) := Crypto_handle_kmrsp crypto payload in
      c <| cn_state := StEstablished sender receiver (Some crypto) |>
  | _ => c
  end.

(** The match on the control type of [handle_transmission_control]: the
    machines afterwards, the ACKACK owed, whether the peer violated the
    protocol, and the KMREQ owed. *)
Definition transmission_control (sender : Sender) (receiver : Receiver) (crypto : option Crypto)
    (now ts : Z) (ct : ControlType) (rng : Rng)
    : panicking (State * option Z * bool * option bytes) :=
  match ct with
  | Ack ack_number cif =>
      '(sender, r) ← Sender_handle_ack sender now ack_number cif;
      match r with
      | Ok reply =>
          match crypto with
          | Some c =>
              '(c, km_req) ← Crypto_on_ack c now (fst (Sender_rtt sender)) (rng_refresh rng);
              Ret (StEstablished sender receiver (Some c), reply, false, km_req)
          | None => Ret (StEstablished sender receiver None, reply, false, None)
          end
      | Err _ => Ret (StEstablished sender receiver crypto, None, true, None)
      end
  | Nak ranges =>
      let sender := Sender_handle_nak sender ranges in
      Ret (StEstablished sender receiver crypto, None, sn_protocol_violation sender, None)
  | AckAck ack_number =>
      receiver ← Receiver_handle_ackack receiver now ack_number ts;
      Ret (StEstablished sender receiver crypto, None, false, None)
  | DropRequest msg_number first last =>
      receiver ← Receiver_handle_dropreq receiver msg_number first last;
      Ret (StEstablished sender receiver crypto, None, false, None)
  | _ => Panic
  end.

Definition Connection_handle_transmission_control (c : Connection) (now ts : Z) (ct : ControlType) (rng : Rng)
    : panicking Connection :=
  match cn_state c with
  | StEstablished sender receiver crypto =>
      '(st, ackack_reply, violation, km_req) ← transmission_control sender receiver crypto now ts ct rng;
      let c := c <| cn_state := st |> in
      let c := match km_req with Some payload => push_transmit c (control (KmReq payload)) | None => c end in
      let c := match ackack_reply with Some n => push_transmit c (control (AckAck n)) | None => c end in
      Ret (if (violation : bool) then Connection_close_with c now CloseLocal true else c)
  | _ => Ret c
  end.

Definition Connection_handle_control_packet (c : Connection) (now : Z) (ctrl : ControlPacket) (rng : Rng)
    : panicking Connection :=
  match cp_control_type ctrl with
  | Handshake cif => Connection_handle_handshake_packet c now (cp_timestamp ctrl) cif rng
  | Shutdown => Ret (Connection_close_with c now CloseShutdown false)
  | KeepAlive | CongestionWarning | PeerError _ => Ret c
  | KmReq payload => Connection_handle_kmreq c payload
  | KmRsp payload => Ret (Connection_handle_kmrsp c payload)
  | other => Connection_handle_transmission_control c now (cp_timestamp ctrl) other rng
  end.

Definition Connection_handle_data_packet (c : Connection) (now : Z) (data : DataPacket)
    : panicking Connection :=
  let c := c <| cn_last_data := now |> in
  let early_limit := SrtOptions_max_payload (cn_opts c) in
  '(c, discrepancy) ←
    match cn_state c with
    | StConnecting hs pending_send early_data =>
        Ret ((if early_limit <? Z.of_nat (length (dp_payload data)) then c
              else if (length early_data <? EARLY_DATA_MAX)%nat
              then c <| cn_state := StConnecting hs pending_send (early_data ++ [(now, data)]) |>
              else c), false)
    | StEstablished sender receiver crypto =>
        '(receiver, crypto) ← ingest_data now receiver crypto data;
        Ret (c <| cn_state := StEstablished sender receiver crypto |>, Receiver_sequence_discrepancy receiver)
    | StClosed _ _ => Panic
    end;
  Ret (if (discrepancy : bool) then Connection_close_with c now SequenceDiscrepancy true else c).

Definition Connection_handle_packet (c : Connection) (now : Z) (packet : Packet) (rng : Rng)
    : panicking Connection :=
  match cn_state c with
  | StClosed _ _ => Ret c
  | _ =>
      let dst := Packet_dst_socket_id packet in
      if negb (dst =? SocketId_HANDSHAKE) && negb (dst =? cn_local_socket_id c) then Ret c else
      let c := Connection_touch c now in
      match packet with
      | Data data => Connection_handle_data_packet c now data
      | Control ctrl => Connection_handle_control_packet c now ctrl rng
      end
  end.

Definition Connection_handle_datagram (c : Connection) (now : Z) (datagram : bytes) (rng : Rng)
    : panicking Connection :=
  parsed ← Packet_parse datagram;
  match parsed with
  | Ok packet => Connection_handle_packet c now packet rng
  | Err (UnknownControlType _) => Ret (Connection_touch c now)
  | Err _ => Ret c
  end.

(** The EXP timer of [handle_timer]: the counter afterwards and whether the
    peer is idle. *)
Definition exp_check (c : Connection) (receiver : Receiver) (now : Z) : Z * bool :=
  let '(rtt, rtt_var) := Receiver_rtt receiver in
  if exp_deadline (cn_last_recv c) (cn_exp_count c) rtt rtt_var <=? now then
    if (EXP_MAX_COUNT <? cn_exp_count c) &&
       (so_peer_idle_timeout (cn_opts c) <=? duration_since now (cn_last_recv c))
    then (cn_exp_count c, true) else (cn_exp_count c + 1, false)
  else (cn_exp_count c, false).

Definition data_idle_check (c : Connection) (now : Z) : bool :=
  match so_data_idle_timeout (cn_opts c) with
  | Some window => window <=? duration_since now (cn_last_data c)
  | None => false
  end.

Definition Connection_handle_timer (c : Connection) (now : Z) : panicking Connection :=
  match cn_state c with
  | StConnecting hs _ _ =>
      Ret (if CallerHandshake_is_timed_out hs now
           then Connection_close_with c now CloseConnectTimeout false else c)
  | StEstablished sender receiver crypto =>
      sender ← Sender_on_timer sender now;
      let receiver := Receiver_on_timer receiver now in
      let '(exp_count, peer_idle) := exp_check c receiver now in
      let c := c <| cn_state := StEstablished sender receiver crypto |> <| cn_exp_count := exp_count |> in
      let data_idle := data_idle_check c now in
      let c := if negb peer_idle && negb data_idle &&
                  (KEEPALIVE_INTERVAL <=? duration_since now (cn_last_sent c))
               then push_transmit c (control KeepAlive) <| cn_last_sent := now |> else c in
      let c := if peer_idle then Connection_close_with c now PeerIdle true else c in
      Ret (if data_idle && negb peer_idle then Connection_close_with c now DataIdle true else c)
  | StClosed _ _ => Ret c
  end.

Definition Connection_send (c : Connection) (now : Z) (payload : bytes)
    : panicking (Connection * result SrtError unit) :=
  match cn_state c with
  | StConnecting hs pending_send early_data =>
      if SrtOptions_max_payload (cn_opts c) <? Z.of_nat (length payload)
      then Ret (c, Err (PayloadTooLarge (length payload))) else
      let pending_send := if (so_send_buffer_pkts (cn_opts c) <=? length pending_send)%nat
                          then drop 1 pending_send else pending_send in
      Ret (c <| cn_state := StConnecting hs (pending_send ++ [payload]) early_data |>, Ok tt)
  | StEstablished sender receiver crypto =>
      '(sender, crypto, r) ← Sender_push sender now payload crypto;
      Ret (c <| cn_state := StEstablished sender receiver crypto |>, r)
  | StClosed reason _ => Ret (c, Err (Closed reason))
  end.

Definition Connection_close (c : Connection) (now : Z) : Connection :=
  match cn_state c with
  | StClosed _ _ => c
  | StEstablished _ _ _ => Connection_close_with c now CloseLocal true
  | StConnecting _ _ _ => Connection_close_with c now CloseLocal false
  end.

Definition Connection_next_transmit (c : Connection) (now : Z) : panicking (Connection * option Packet) :=
  match cn_transmit_q c with
  | p :: q => Ret (c <| cn_transmit_q := q |>, Some p)
  | [] =>
      match cn_state c with
      | StConnecting hs pending_send early_data =>
          let '(hs, p) := CallerHandshake_poll_transmit hs now in
          Ret (c <| cn_state := StConnecting hs pending_send early_data |>, p)
      | StEstablished sender receiver crypto =>
          let '(receiver, ct) := Receiver_poll_control receiver in
          match ct with
          | Some ct => Ret (c <| cn_state := StEstablished sender receiver crypto |>, Some (control ct))
          | None =>
              let '(sender, ct) := Sender_poll_control sender in
              match ct with
              | Some ct => Ret (c <| cn_state := StEstablished sender receiver crypto |>, Some (control ct))
              | None =>
                  '(sender, p) ← Sender_poll_transmit sender now;
                  Ret (c <| cn_state := StEstablished sender receiver crypto |>, option_map Data p)
              end
          end
      | StClosed _ _ => Ret (c, None)
      end
  end.

(** The destination of an outgoing control packet. *)
Definition control_dst (c : Connection) (ct : ControlType) : Z :=
  match ct, cn_state c with
  | Handshake _, StConnecting _ _ _ => SocketId_HANDSHAKE
  | _, _ => cn_peer_socket_id c
  end.

Definition stamp (c : Connection) (now : Z) (packet : Packet) : Packet :=
  match packet with
  | Control p => Control (p <| cp_timestamp := Timebase_timestamp (cn_timebase c) now |>
                            <| cp_dst_socket_id := control_dst c (cp_control_type p) |>)
  | Data d => Data (d <| dp_dst_socket_id := cn_peer_socket_id c |>)
  end.

Definition Connection_poll_transmit (c : Connection) (now : Z) : panicking (Connection * option Packet) :=
  '(c, packet) ← Connection_next_transmit c now;
  match packet with
  | None => Ret (c, None)
  | Some packet => let c := c <| cn_last_sent := now |> in Ret (c, Some (stamp c now packet))
  end.

Definition Connection_poll_deliver (c : Connection) (now : Z) : panicking (Connection * option bytes) :=
  match cn_state c with
  | StEstablished sender receiver crypto =>
      '(receiver, p) ← Receiver_poll_deliver receiver now;
      Ret (c <| cn_state := StEstablished sender receiver crypto |>, p)
  | StClosed reason (Some receiver) =>
      '(receiver, p) ← Receiver_poll_deliver receiver now;
      Ret (c <| cn_state := StClosed reason (Some receiver) |>, p)
  | _ => Ret (c, None)
  end.

Definition Connection_next_deadline (c : Connection) (now : Z) : option Z :=
  match cn_transmit_q c with
  | _ :: _ => Some now
  | [] =>
      match cn_state c with
      | StConnecting hs _ _ => CallerHandshake_next_deadline hs
      | StEstablished sender receiver _ =>
          let deadline := default (now + KEEPALIVE_INTERVAL) (Receiver_next_deadline receiver now) in
          let deadline := match Sender_next_deadline sender with Some t => Z.min deadline t | None => deadline end in
          let deadline := Z.min deadline (cn_last_sent c + KEEPALIVE_INTERVAL) in
          let '(rtt, rtt_var) := Receiver_rtt receiver in
          let deadline := Z.min deadline (exp_deadline (cn_last_recv c) (cn_exp_count c) rtt rtt_var) in
          Some match so_data_idle_timeout (cn_opts c) with
               | Some window => Z.min deadline (cn_last_data c + window)
               | None => deadline
               end
      | StClosed _ _ => None
      end
  end.

End Operations.

(** ** Runs *)

Inductive conn_event :=
| EvDatagram (now : Z) (datagram : bytes) (rng : Rng)
| EvTimer (now : Z)
| EvSend (now : Z) (payload : bytes)
| EvClose (now : Z)
| EvTransmit (now : Z)
| EvDeliver (now : Z)
| EvAnchor (instant ts : Z).

Inductive conn_output :=
| OutNone
| OutSend (r : result SrtError unit)
| OutPacket (p : option Packet)
| OutPayload (p : option bytes).

Section Runs.
Context `{CryptoPrimitives}.

Definition conn_step (c : Connection) (ev : conn_event) : panicking (Connection * conn_output) :=
  match ev with
  | EvDatagram now datagram rng => c ← Connection_handle_datagram c now datagram rng; Ret (c, OutNone)
  | EvTimer now => c ← Connection_handle_timer c now; Ret (c, OutNone)
  | EvSend now payload => '(c, r) ← Connection_send c now payload; Ret (c, OutSend r)
  | EvClose now => Ret (Connection_close c now, OutNone)
  | EvTransmit now => '(c, p) ← Connection_poll_transmit c now; Ret (c, OutPacket p)
  | EvDeliver now => '(c, p) ← Connection_poll_deliver c now; Ret (c, OutPayload p)
  | EvAnchor instant ts => Ret (Connection_set_hs_anchor c instant ts, OutNone)
  end.

Fixpoint conn_run (c : Connection) (evs : list conn_event) : panicking (Connection * list conn_output) :=
  match evs with
  | [] => Ret (c, [])
  | ev :: rest =>
      '(c, out) ← conn_step c ev;
      '(c, outs) ← conn_run c rest;
      Ret (c, out :: outs)
  end.

End Runs.

Definition Rng_ok (rng : Rng) : Prop :=
  rnd_ok (rng_salt rng) /\ rnd_ok (rng_sek rng) /\ rnd_ok (rng_refresh rng).

Definition conn_event_ok (ev : conn_event) : Prop :=
  match ev with EvDatagram _ _ rng => Rng_ok rng | _ => True end.

(** ** Invariant *)

Definition Options_wf (o : SrtOptions) : Prop :=
  Bandwidth_validate (so_bandwidth o) = Ok tt /\ Bandwidth_wf (so_bandwidth o) /\ 0 <= so_flow_window o.

(** The most packets a receiver of [o] can hold. *)
Definition recv_capacity (o : SrtOptions) : nat :=
  Nat.max (so_recv_buffer_pkts o) (Z.to_nat MAX_SCALED_RECV_BUFFER_PKTS).

(** What the receiver of a connection with options [o] holds. *)
Definition receiver_bounded (o : SrtOptions) (r : Receiver) : Prop :=
  bounded r /\ (rc_buffer_pkts (rv_cfg r) <= recv_capacity o)%nat.

(** The state of a connection with options [o]: machines in their
    invariants, and within the memory the options allow. *)
Definition State_wf (o : SrtOptions) (st : State) : Prop :=
  match st with
  | StConnecting hs pending early =>
      Caller_inv o hs /\ SeqNumber_wf (ch_initial_seq hs) /\
      (length pending <= Nat.max 1 (so_send_buffer_pkts o))%nat /\ (length early <= EARLY_DATA_MAX)%nat
  | StEstablished s r e =>
      Sender_wf s /\ sc_buffer_pkts (sn_cfg s) = so_send_buffer_pkts o /\ receiver_bounded o r /\ engine_wf e
  | StClosed _ (Some r) => receiver_bounded o r
  | StClosed _ None => True
  end.

Definition Connection_wf (o : SrtOptions) (c : Connection) : Prop :=
  Options_wf o /\ cn_opts c = o /\ State_wf o (cn_state c).

(** Reads fields of updated connections. *)
Ltac cn := cbn [set_field cn_state cn_remote cn_local_socket_id cn_peer_socket_id cn_timebase cn_opts
  cn_streamid cn_hs_reply cn_transmit_q cn_last_sent cn_last_recv cn_last_data cn_exp_count
  cn_closed_stats push_transmit] in *.

(** ** Lemmas: the parts *)

Lemma scaled_recv_buffer_capacity o lat : (scaled_recv_buffer o lat <= recv_capacity o)%nat.
Proof.
  unfold scaled_recv_buffer, recv_capacity, MAX_SCALED_RECV_BUFFER_PKTS. case_if; [lia|]. cbv zeta.
  generalize (div_ceil (Z.of_nat (so_recv_buffer_pkts o) * as_micros lat) (Z.max (as_micros (so_latency o)) 1000)).
  intros scaled. generalize (saturating_mul_u64 (Z.of_nat (so_recv_buffer_pkts o)) MAX_RECV_BUFFER_SCALE).
  intros m. destruct (scaled <=? U64_MAX); lia.
Qed.

Lemma receiver_bounded_keeps o r r' : receiver_bounded o r -> keeps r r' -> receiver_bounded o r'.
Proof. intros [Hb Hc] [E Hk]. split; [by apply Hk|]. by rewrite E. Qed.

Lemma transmission_pair_wf o now ng tb s r :
  Options_wf o -> Negotiated_wf ng -> transmission_pair now ng o tb = (s, r) ->
  Sender_wf s /\ sc_buffer_pkts (sn_cfg s) = so_send_buffer_pkts o /\ receiver_bounded o r.
Proof.
  intros (Hv & Hb & Hf) (Hs & _ & Hw & _). unfold transmission_pair. intros [= <- <-]. split; [|split].
  - apply Sender_new_wf; cbn; try done. split; cbn; [done|lia].
  - done.
  - split; cbn; [unfold bounded, is_u32; cbn; unfold ACK_HISTORY, Receiver_INITIAL_RTT_US, Receiver_INITIAL_RTT_VAR_US; lia|]. apply scaled_recv_buffer_capacity.
Qed.

Section Lemmas.
Context `{CryptoLaws}.

Lemma ingest_data_ok o now r e pkt :
  receiver_bounded o r -> engine_wf e ->
  exists r' e', ingest_data now r e pkt = Ret (r', e') /\ receiver_bounded o r' /\ engine_wf e'.
Proof.
  intros Hr He. unfold ingest_data.
  set (x := match e with Some _ => _ | None => _ end).
  assert (engine_wf (fst (fst x))) as Hx.
  { subst x. destruct e as [e|]; [|done]. cbn [cipher_decrypt Crypto_cipher].
    pose proof (Crypto_decrypt_wf e (dp_seq pkt) (dp_encryption pkt) (dp_payload pkt) He) as Hw.
    by destruct (Crypto_decrypt _ _ _ _) as [[e' res] pl]. }
  destruct x as [[e' ok] pkt']. cbn [fst] in Hx. unfold Receiver_handle_data, Receiver_handle_undecryptable.
  destruct ok;
    match goal with |- context [Receiver_ingest r now ?p ?u] =>
      destruct (ingest_keeps r now p u) as (r' & -> & Hk) end;
    cbn [mbind panicking_bind]; eexists _, _; (split; [done|]); (split; [by apply (receiver_bounded_keeps o r)|done]).
Qed.

Lemma ingest_early_ok o early : forall r e,
  receiver_bounded o r -> engine_wf e ->
  exists r' e', ingest_early early r e = Ret (r', e') /\ receiver_bounded o r' /\ engine_wf e'.
Proof.
  induction early as [|[t pkt] early IH]; intros r e Hr He; [by eexists _, _|]. cbn [ingest_early].
  destruct (ingest_data_ok o t r e pkt Hr He) as (r1 & e1 & -> & Hr1 & He1). cbn [mbind panicking_bind].
  by apply IH.
Qed.

Lemma push_ok s now p (e : option Crypto) :
  Sender_wf s -> engine_wf e ->
  exists s' e' r, Sender_push s now p e = Ret (s', e', r) /\ Sender_wf s' /\ sn_cfg s' = sn_cfg s /\ engine_wf e'.
Proof.
  intros Hs He. destruct (Sender_push_total s now p e Hs) as (s1 & e1 & res & -> & Hs1 & [Hcfg _] & He1).
  { by destruct e. }
  eexists _, _, _. split; [done|]. do 2 (split; [done|]). by destruct e1.
Qed.

Lemma push_pending_ok now pending : forall s e,
  Sender_wf s -> engine_wf e ->
  exists s' e', push_pending now pending s e = Ret (s', e') /\ Sender_wf s' /\ sn_cfg s' = sn_cfg s /\ engine_wf e'.
Proof.
  induction pending as [|p pending IH]; intros s e Hs He; [by eexists _, _|]. cbn [push_pending].
  destruct (push_ok s now p e Hs He) as (s1 & e1 & res & -> & Hs1 & Hcfg & He1).
  cbn [mbind panicking_bind]. destruct (IH s1 e1 Hs1 He1) as (s2 & e2 & -> & Hs2 & Hc2 & He2).
  eexists _, _. split; [done|]. split; [done|]. split; [congruence|done].
Qed.

Lemma set_hs_anchor_keeps r t ts : keeps r (Receiver_set_hs_anchor r t ts).
Proof.
  unfold Receiver_set_hs_anchor. destruct (rv_anchor r); [done|].
  destruct (TimestampExtender_extend _ _ _). by apply keeps_same.
Qed.

Lemma wf_same o c c' :
  Connection_wf o c -> cn_opts c' = cn_opts c -> cn_state c' = cn_state c -> Connection_wf o c'.
Proof. unfold Connection_wf. by intros ? -> ->. Qed.

Lemma wf_state o c st : Connection_wf o c -> State_wf o st -> Connection_wf o (c <| cn_state := st |>).
Proof. by intros (? & ? & _). Qed.

Lemma close_with_wf o c now reason shut :
  Connection_wf o c -> Connection_wf o (Connection_close_with c now reason shut).
Proof.
  intros (Hv & Ho & Hs). unfold Connection_close_with.
  destruct (cn_state c) as [hs p ed|s r e|rs rv] eqn:Hst; destruct shut; cn;
    unfold Connection_wf; cn; rewrite ?Hst; try done;
    (split; [done|]); (split; [done|]); cbn; try done; by destruct Hs as (_ & _ & ? & _).
Qed.

Lemma establish_ok o c now ts ng hs p ed :
  Connection_wf o c -> cn_state c = StConnecting hs p ed -> Negotiated_wf ng ->
  exists c', Connection_establish c now ts ng = Ret c' /\ Connection_wf o c'.
Proof.
  intros (Hv & Ho & Hs) Hst Hng. unfold Connection_establish. rewrite Ho, Hst.
  destruct (transmission_pair now ng o (cn_timebase c)) as [s r] eqn:Hp.
  destruct (transmission_pair_wf o now ng _ s r Hv Hng Hp) as (Hs1 & Hc1 & Hr1).
  pose proof Hng as (_ & _ & _ & He).
  destruct (ingest_early_ok o ed (Receiver_set_hs_anchor r now ts) (ng_crypto ng)) as (r2 & e2 & -> & Hr2 & He2);
    [apply (receiver_bounded_keeps o r); [done|apply set_hs_anchor_keeps]|done|].
  cbn [mbind panicking_bind].
  destruct (push_pending_ok now p s e2 Hs1 He2) as (s3 & e3 & -> & Hs3 & Hc3 & He3).
  cbn [mbind panicking_bind]. eexists. split; [done|]. split; [done|]. split; [done|]. cn.
  split; [done|]. split; [congruence|done].
Qed.

Lemma handle_handshake_packet_ok o c now ts cif rng :
  Connection_wf o c -> Rng_ok rng -> (forall rs r, cn_state c <> StClosed rs r) ->
  exists c', Connection_handle_handshake_packet c now ts cif rng = Ret c' /\ Connection_wf o c'.
Proof.
  intros Hwf (Hr1 & Hr2 & _) Hnc. unfold Connection_handle_handshake_packet.
  destruct (cn_state c) as [hs p ed|s r e|rs rv] eqn:Hst; [| |by destruct (Hnc rs rv)].
  2: { eexists. split; [done|]. case_decide; [|done]. destruct (cn_hs_reply c); [|done].
       by apply (wf_same o c). }
  pose proof Hwf as (Hv & Ho & Hs). rewrite Hst in Hs. destruct Hs as (Hinv & Hseq & Hp & Hed).
  destruct (caller_step_sound o hs (CallerGets now cif (rng_salt rng) (rng_sek rng)) Hinv)
    as (hs' & out & Hstep & Hinv' & [_ Hisn] & _ & _ & Hng); [done|].
  cbn [caller_step] in Hstep.
  destruct (CallerHandshake_handle_handshake hs now cif (rng_salt rng) (rng_sek rng)) as [[hs1 res]|]; [|done].
  cbn [mbind panicking_bind] in Hstep |- *. injection Hstep as -> <-.
  assert (Hwf1 : Connection_wf o (c <| cn_state := StConnecting hs' p ed |>)).
  { apply wf_state; [done|]. split; [done|]. by rewrite Hisn. }
  destruct res as [[ng|]|err].
  - apply (establish_ok o _ now ts ng hs' p ed); [done|done|]. by apply (Hng Hseq).
  - by eexists.
  - eexists. split; [done|]. by apply close_with_wf.
Qed.

Lemma transmission_control_ok o s r e now ts ct rng :
  State_wf o (StEstablished s r e) -> rnd_ok (rng_refresh rng) ->
  match ct with Ack _ _ | Nak _ | AckAck _ | DropRequest _ _ _ => True | _ => False end ->
  exists st reply v km, transmission_control s r e now ts ct rng = Ret (st, reply, v, km) /\ State_wf o st.
Proof.
  intros (Hs & Hb & Hr & He) Hrnd Hct.
  destruct ct as [|  |n cif|ranges| | |n|msg fst_ lst| | |]; try done; cbn [transmission_control].
  - destruct (Sender_handle_ack_ok s now n cif Hs) as (s' & res & -> & Hs' & [Hcfg _] & _).
    cbn [mbind panicking_bind]. rewrite <- Hcfg in Hb. destruct res as [reply|]; [|by eexists _, _, _, _].
    destruct e as [e|]; [|by eexists _, _, _, _].
    destruct (Crypto_on_ack_wf e now (fst (Sender_rtt s')) (rng_refresh rng) He Hrnd) as (e' & km & -> & He' & _).
    cbn [mbind panicking_bind]. by eexists _, _, _, _.
  - destruct (Sender_handle_nak_ok s ranges Hs) as (Hs' & [Hcfg _] & _). rewrite <- Hcfg in Hb.
    by eexists _, _, _, _.
  - destruct (handle_ackack_keeps r now n ts) as (r' & -> & Hk). cbn [mbind panicking_bind].
    eexists _, _, _, _. split; [done|]. do 2 (split; [done|]). split; [by apply (receiver_bounded_keeps o r)|done].
  - destruct (handle_dropreq_keeps r msg fst_ lst) as (r' & -> & Hk). cbn [mbind panicking_bind].
    eexists _, _, _, _. split; [done|]. do 2 (split; [done|]). split; [by apply (receiver_bounded_keeps o r)|done].
Qed.

Lemma handle_transmission_control_ok o c now ts ct rng :
  Connection_wf o c -> Rng_ok rng ->
  match ct with Ack _ _ | Nak _ | AckAck _ | DropRequest _ _ _ => True | _ => False end ->
  exists c', Connection_handle_transmission_control c now ts ct rng = Ret c' /\ Connection_wf o c'.
Proof.
  intros Hwf (_ & _ & Hr) Hct. unfold Connection_handle_transmission_control.
  destruct (cn_state c) as [hs p ed|s r e|rs rv] eqn:Hst; [by eexists| |by eexists].
  pose proof Hwf as (_ & _ & Hs). rewrite Hst in Hs.
  destruct (transmission_control_ok o s r e now ts ct rng Hs Hr Hct) as (st & reply & v & km & -> & Hst').
  cbn [mbind panicking_bind]. eexists. split; [done|].
  match goal with |- Connection_wf o (if v then Connection_close_with ?x _ _ _ else _) =>
    assert (Hx : Connection_wf o x) end.
  { apply (wf_same o (c <| cn_state := st |>)); [by apply wf_state|..]; by destruct km, reply. }
  destruct v; [by apply close_with_wf|done].
Qed.

Lemma handle_kmreq_ok o c payload :
  Connection_wf o c -> exists c', Connection_handle_kmreq c payload = Ret c' /\ Connection_wf o c'.
Proof.
  intros Hwf. unfold Connection_handle_kmreq.
  destruct (cn_state c) as [hs p ed|s r [e|]|rs rv] eqn:Hst; try by eexists.
  pose proof Hwf as (_ & _ & Hs). rewrite Hst in Hs. destruct Hs as (Hs & Hb & Hr & He).
  destruct (Crypto_handle_kmreq_wf e payload He) as (e' & out & -> & He' & _). cbn [mbind panicking_bind].
  eexists. split; [done|].
  apply (wf_same o (c <| cn_state := StEstablished s r (Some e') |>)); [by apply wf_state|..]; by destruct out.
Qed.

Lemma handle_kmrsp_ok o c payload : Connection_wf o c -> Connection_wf o (Connection_handle_kmrsp c payload).
Proof.
  intros Hwf. unfold Connection_handle_kmrsp.
  destruct (cn_state c) as [hs p ed|s r [e|]|rs rv] eqn:Hst; try done.
  pose proof Hwf as (_ & _ & Hs). rewrite Hst in Hs. destruct Hs as (Hs & Hb & Hr & He).
  pose proof (Crypto_handle_kmrsp_wf e payload He) as He'. destruct (Crypto_handle_kmrsp e payload) as [e' out].
  by apply wf_state.
Qed.

Lemma handle_data_packet_ok o c now data :
  Connection_wf o c -> (forall rs r, cn_state c <> StClosed rs r) ->
  exists c', Connection_handle_data_packet c now data = Ret c' /\ Connection_wf o c'.
Proof.
  intros Hwf Hnc. unfold Connection_handle_data_packet. cbv zeta. cn.
  pose proof Hwf as (_ & _ & Hs).
  destruct (cn_state c) as [hs p ed|s r e|rs rv] eqn:Hst; [| |by destruct (Hnc rs rv)].
  - cbn [mbind panicking_bind]. eexists. split; [done|]. case_if; [by apply (wf_same o c)|].
    destruct (Nat.ltb_spec (length ed) EARLY_DATA_MAX); [|by apply (wf_same o c)].
    apply (wf_state o (c <| cn_last_data := now |>)); [by apply (wf_same o c)|].
    destruct Hs as (? & ? & ? & ?). do 3 (split; [done|]). rewrite length_app. cbn. lia.
  - destruct Hs as (Hs & Hb & Hr & He).
    destruct (ingest_data_ok o now r e data Hr He) as (r' & e' & -> & Hr' & He'). cbn [mbind panicking_bind].
    eexists. split; [done|].
    match goal with |- Connection_wf o (if ?v then Connection_close_with ?x _ _ _ else _) =>
      assert (Hx : Connection_wf o x); [|destruct v; [by apply close_with_wf|done]] end.
    apply (wf_state o (c <| cn_last_data := now |>)); [by apply (wf_same o c)|done].
Qed.

Lemma handle_control_packet_ok o c now ctrl rng :
  Connection_wf o c -> Rng_ok rng -> (forall rs r, cn_state c <> StClosed rs r) ->
  exists c', Connection_handle_control_packet c now ctrl rng = Ret c' /\ Connection_wf o c'.
Proof.
  intros Hwf Hrng Hnc. unfold Connection_handle_control_packet.
  destruct (cp_control_type ctrl); try by eexists.
  - by apply handle_handshake_packet_ok.
  - by apply handle_transmission_control_ok.
  - by apply handle_transmission_control_ok.
  - eexists. split; [done|]. by apply close_with_wf.
  - by apply handle_transmission_control_ok.
  - by apply handle_transmission_control_ok.
  - by apply handle_kmreq_ok.
  - eexists. split; [done|]. by apply handle_kmrsp_ok.
Qed.

Lemma handle_packet_ok o c now p rng :
  Connection_wf o c -> Rng_ok rng ->
  exists c', Connection_handle_packet c now p rng = Ret c' /\ Connection_wf o c'.
Proof.
  intros Hwf Hrng. unfold Connection_handle_packet.
  assert (Hwf' : Connection_wf o (Connection_touch c now)) by by apply (wf_same o c).
  destruct (cn_state c) as [hs q ed|s r e|rs r] eqn:Hst; [| |by eexists];
    (case_if; [by eexists|]);
    (assert (Hnc : forall rs r, cn_state (Connection_touch c now) <> StClosed rs r) by (cbn; by rewrite Hst));
    (destruct p; [by apply handle_data_packet_ok|by apply handle_control_packet_ok]).
Qed.

Lemma handle_timer_ok o c now :
  Connection_wf o c -> exists c', Connection_handle_timer c now = Ret c' /\ Connection_wf o c'.
Proof.
  intros Hwf. unfold Connection_handle_timer. pose proof Hwf as (_ & _ & Hs).
  destruct (cn_state c) as [hs p ed|s r e|rs r] eqn:Hst; [| |by eexists].
  - eexists. split; [done|]. case_if; [by apply close_with_wf|done].
  - destruct Hs as (Hs & Hb & Hr & He).
    destruct (Sender_on_timer_ok s now Hs) as (s' & -> & Hs' & [Hcfg _]). cbn [mbind panicking_bind].
    destruct (exp_check c (Receiver_on_timer r now) now) as [n idle].
    assert (Hwf1 : Connection_wf o (c <| cn_state := StEstablished s' (Receiver_on_timer r now) e |> <| cn_exp_count := n |>)).
    { apply (wf_same o (c <| cn_state := StEstablished s' (Receiver_on_timer r now) e |>)); [|done..].
      apply wf_state; [done|]. split; [done|]. split; [congruence|].
      split; [|done]. apply (receiver_bounded_keeps o r); [done|apply on_timer_keeps]. }
    eexists. split; [done|]. cbv zeta.
    match goal with |- Connection_wf o (if _ then Connection_close_with (if _ then Connection_close_with ?x _ _ _ else _) _ _ _ else _) =>
      assert (Hx : Connection_wf o x) end.
    { case_if; [|done]. by eapply wf_same. }
    repeat case_if; repeat apply close_with_wf; done.
Qed.

Lemma send_ok o c now payload :
  Connection_wf o c -> exists c' r, Connection_send c now payload = Ret (c', r) /\ Connection_wf o c'.
Proof.
  intros Hwf. unfold Connection_send. pose proof Hwf as (_ & Ho & Hs).
  destruct (cn_state c) as [hs p ed|s r e|rs r] eqn:Hst; [| |by eexists _, _].
  - case_if; [by eexists _, _|]. eexists _, _. split; [done|]. rewrite Ho. apply wf_state; [done|].
    destruct Hs as (? & ? & ? & ?). do 2 (split; [done|]). split; [|done]. rewrite length_app. cbn [length].
    destruct (Nat.leb_spec (so_send_buffer_pkts o) (length p)); rewrite ?length_drop; lia.
  - destruct Hs as (Hs & Hb & Hr & He).
    destruct (push_ok s now payload e Hs He) as (s' & e' & res & -> & Hs' & Hcfg & He').
    cbn [mbind panicking_bind]. eexists _, _. split; [done|]. apply wf_state; [done|].
    split; [done|]. by rewrite Hcfg.
Qed.

Lemma caller_poll_wf o hs now :
  Caller_inv o hs -> let hs' := fst (CallerHandshake_poll_transmit hs now) in
  Caller_inv o hs' /\ ch_initial_seq hs' = ch_initial_seq hs.
Proof.
  intros Hinv. destruct (caller_step_sound o hs (CallerPolls now) Hinv) as (hs' & out & Hstep & Hinv' & [_ E] & _); [done|].
  cbn [caller_step] in Hstep. destruct (CallerHandshake_poll_transmit hs now). by injection Hstep as -> _.
Qed.

Lemma next_transmit_ok o c now :
  Connection_wf o c -> exists c' p, Connection_next_transmit c now = Ret (c', p) /\ Connection_wf o c'.
Proof.
  intros Hwf. unfold Connection_next_transmit. pose proof Hwf as (_ & Ho & Hs).
  destruct (cn_transmit_q c); [|eexists _, _; split; [done|]; by apply (wf_same o c)].
  destruct (cn_state c) as [hs p ed|s r e|rs r] eqn:Hst; [| |by eexists _, _].
  - destruct Hs as (Hi & Hq & Hp & Hed). pose proof (caller_poll_wf o hs now Hi) as [Hi' Hq'].
    destruct (CallerHandshake_poll_transmit hs now) as [hs' out]. cbn [fst] in *.
    eexists _, _. split; [done|]. apply wf_state; [done|]. split; [done|]. by rewrite Hq'.
  - destruct Hs as (Hs & Hb & Hr & He).
    assert (Hk : keeps r (fst (Receiver_poll_control r))).
    { unfold Receiver_poll_control. destruct (rv_control_q r); [done|]. by apply keeps_same. }
    apply (receiver_bounded_keeps o) in Hk; [|done].
    destruct (Receiver_poll_control r) as [r' [ct|]]; cbn [fst] in Hk.
    { eexists _, _. split; [done|]. by apply wf_state. }
    assert (Hs1 : Sender_wf (fst (Sender_poll_control s)) /\ sn_cfg (fst (Sender_poll_control s)) = sn_cfg s).
    { unfold Sender_poll_control. destruct (sn_control_queue s); [done|]. split; [|done].
      apply (Sender_wf_same s); try done. apply Hs. }
    destruct (Sender_poll_control s) as [s' [ct|]]; cbn [fst] in Hs1; destruct Hs1 as [Hs1 Hc1].
    { eexists _, _. split; [done|]. apply wf_state; [done|]. split; [done|]. by rewrite Hc1. }
    destruct (Sender_poll_transmit_ok s' now Hs1) as (s2 & out & -> & Hs2 & [Hc2 _] & _). cbn [mbind panicking_bind].
    eexists _, _. split; [done|]. apply wf_state; [done|]. split; [done|]. by rewrite Hc2, Hc1.
Qed.

Lemma conn_step_ok o c ev :
  Connection_wf o c -> conn_event_ok ev -> exists c' out, conn_step c ev = Ret (c', out) /\ Connection_wf o c'.
Proof.
  intros Hwf Hev. destruct ev as [now dg rng|now|now payload|now|now|now|t ts]; cbn [conn_step].
  - unfold Connection_handle_datagram. destruct (Packet_parse_returns dg) as [[p|err] ->]; cbn [mbind panicking_bind].
    + destruct (handle_packet_ok o c now p rng Hwf Hev) as (c' & -> & Hwf'). by eexists _, _.
    + destruct err; cbn [mbind panicking_bind]; eexists _, _; (split; [done|]); by apply (wf_same o c).
  - destruct (handle_timer_ok o c now Hwf) as (c' & -> & Hwf'). by eexists _, _.
  - destruct (send_ok o c now payload Hwf) as (c' & r & -> & Hwf'). by eexists _, _.
  - eexists _, _. split; [done|]. unfold Connection_close.
    destruct (cn_state c); [by apply close_with_wf..|done].
  - unfold Connection_poll_transmit. destruct (next_transmit_ok o c now Hwf) as (c' & [p|] & -> & Hwf');
      cbn [mbind panicking_bind]; eexists _, _; (split; [done|]); [by apply (wf_same o c')|done].
  - unfold Connection_poll_deliver. pose proof Hwf as (_ & Ho & Hs).
    destruct (cn_state c) as [hs p ed|s r e|rs [r|]] eqn:Hst; [by eexists _, _| | |by eexists _, _];
      destruct (poll_deliver_keeps r now) as (r' & out & -> & Hk); cbn [mbind panicking_bind];
      eexists _, _; (split; [done|]); (apply wf_state; [done|]).
    + destruct Hs as (Hs & Hb & Hr & He). do 2 (split; [done|]). split; [by apply (receiver_bounded_keeps o r)|done].
    + by apply (receiver_bounded_keeps o r).
  - eexists _, _. split; [done|]. unfold Connection_set_hs_anchor. pose proof Hwf as (_ & Ho & Hs).
    destruct (cn_state c) as [hs p ed|s r e|rs r] eqn:Hst; [done| |done]. apply wf_state; [done|].
    destruct Hs as (Hs & Hb & Hr & He). do 2 (split; [done|]). split; [|done].
    apply (receiver_bounded_keeps o r); [done|apply set_hs_anchor_keeps].
Qed.

Lemma conn_run_ok o evs : forall c,
  Connection_wf o c -> Forall conn_event_ok evs ->
  exists c' outs, conn_run c evs = Ret (c', outs) /\ Connection_wf o c'.
Proof.
  induction evs as [|ev evs IH]; intros c Hwf Hevs; [by eexists _, _|]. cbn [conn_run].
  apply Forall_cons in Hevs as [Hev Hevs].
  destruct (conn_step_ok o c ev Hwf Hev) as (c1 & out & -> & Hwf1). cbn [mbind panicking_bind].
  destruct (IH c1 Hwf1 Hevs) as (c2 & outs & -> & Hwf2). by eexists _, _.
Qed.

End Lemmas.
