(* ===== verification/ConnectionLife.v ===== *)
(** * The life of a connection: [src/core/mod.rs]

    What the connection of [Connection] promises to its driver and its
    application: it never panics, moves through its states only for the
    stated causes, notices a silent peer, and names every instant at which
    it has something to do. *)

From S2P Require Import Prelude PacketTypes PacketData PacketHandshake PacketControl Time CryptoKeys CryptoContext Cipher Options Pacing Sender LossList Receiver ReceiverTotal CoreHandshake Connection.

(** ** Lemmas: the life cycle *)

(** Where a connection comes from: [connect], or an accepted conclusion. *)
Inductive conn_start `{CryptoPrimitives} `{CookieHash} (o : SrtOptions) : Connection -> Prop :=
| StartConnect now remote id isn tb :
    SeqNumber_wf isn -> conn_start o (Connection_connect_with_timebase now remote id isn o tb)
| StartAccepted l t from cif id reply ng now tb :
    Listener_handle_handshake l t from cif id = Ret (Accept reply ng) -> SeqNumber_wf (hs_initial_seq cif) ->
    conn_start o (Connection_accepted_with_timebase now ng reply o tb).

Lemma accept_negotiated_wf `{CryptoPrimitives} l cif ng :
  accept_ok l cif ng -> SeqNumber_wf (hs_initial_seq cif) -> Negotiated_wf ng.
Proof.
  intros (_ & _ & E1 & E2 & _ & _ & Hw & _ & _ & Hc) Hseq. unfold Negotiated_wf. rewrite E1, E2.
  do 3 (split; [done|]). destruct (ls_crypto_cfg l) as [[cfg|]|]; [| |done].
  - destruct Hc as (km & e & _ & -> & _ & ?). done.
  - by destruct Hc as [_ ->].
Qed.

Lemma conn_start_wf `{CryptoLaws} `{CookieHash} o c : Options_wf o -> conn_start o c -> Connection_wf o c.
Proof.
  intros Hv Hs. destruct Hs as [now remote id isn tb Hseq | l t from cif id reply ng now tb Ha Hseq].
  - split; [done|]. split; [done|]. cbn. split; [apply Caller_new_inv|].
    split; [unfold CallerHandshake_new; by destruct (SrtOptions_crypto_config o)|]. unfold EARLY_DATA_MAX. lia.
  - unfold Listener_handle_handshake in Ha. destruct (hs_handshake_type cif); try done.
    destruct (on_conclusion_cases l t from cif id) as (a & Ha' & Hcase). rewrite Ha in Ha'. injection Ha' as <-.
    destruct Hcase as [?|[_ [[code Hr]|(reply' & ng' & Hr & Hok)]]]; [done|done|]. injection Hr as <- <-.
    apply accept_negotiated_wf in Hok; [|done]. unfold Connection_accepted_with_timebase.
    destruct (transmission_pair now ng o tb) as [s r] eqn:Hp.
    destruct (transmission_pair_wf o now ng tb s r Hv Hok Hp) as (? & ? & ?).
    split; [done|]. split; [done|]. cbn. do 3 (split; [done|]). apply Hok.
Qed.

(** Why a call may close a connection. *)
Definition close_cause (c : Connection) (ev : conn_event) (reason : CloseReason) : Prop :=
  match reason, ev with
  | CloseShutdown, EvDatagram _ dg _ =>
      exists ctrl, Packet_parse dg = pok (Control ctrl) /\ cp_control_type ctrl = Shutdown
  | CloseRejected _, EvDatagram _ dg _ => Connection_get_state c = ConnConnecting /\
      exists ctrl cif, Packet_parse dg = pok (Control ctrl) /\ cp_control_type ctrl = Handshake cif
  | SequenceDiscrepancy, EvDatagram _ dg _ => Connection_get_state c = ConnEstablished /\
      exists data, Packet_parse dg = pok (Data data)
  | CloseLocal, EvDatagram _ dg _ => Connection_get_state c = ConnEstablished /\
      exists ctrl, Packet_parse dg = pok (Control ctrl) /\
        match cp_control_type ctrl with Ack _ _ | Nak _ => True | _ => False end
  | CloseLocal, EvClose _ => True
  | PeerIdle, EvTimer now => Connection_get_state c = ConnEstablished /\ EXP_MAX_COUNT < cn_exp_count c /\
      so_peer_idle_timeout (cn_opts c) <= duration_since now (cn_last_recv c)
  | DataIdle, EvTimer now => Connection_get_state c = ConnEstablished /\
      exists window, so_data_idle_timeout (cn_opts c) = Some window /\
        window <= duration_since now (cn_last_data c)
  | CloseConnectTimeout, EvTimer now =>
      exists hs p ed, cn_state c = StConnecting hs p ed /\ ch_deadline hs <= now
  | _, _ => False
  end.

(** The packets owed when a connection in state [prev] closes: a SHUTDOWN,
    unless the peer does not know the connection or closed it itself. *)
Definition farewell (prev : ConnState) (reason : CloseReason) : list Packet :=
  match prev, reason with
  | ConnEstablished, CloseShutdown => []
  | ConnEstablished, _ => [control Shutdown]
  | _, _ => []
  end.

(** How a connection may move from [c] to [c'] on [ev]. *)
Definition lifecycle (c : Connection) (ev : conn_event) (c' : Connection) : Prop :=
  match Connection_get_state c, Connection_get_state c' with
  | ConnClosed reason, st => st = ConnClosed reason /\ Connection_stats c' = Connection_stats c /\
      (cn_transmit_q c' = cn_transmit_q c \/
       exists now p, ev = EvTransmit now /\ cn_transmit_q c = p :: cn_transmit_q c')
  | ConnConnecting, ConnConnecting | ConnEstablished, ConnEstablished => True
  | ConnConnecting, ConnEstablished =>
      exists now dg rng ctrl cif, ev = EvDatagram now dg rng /\ Packet_parse dg = pok (Control ctrl) /\
        cp_control_type ctrl = Handshake cif
  | ConnEstablished, ConnConnecting => False
  | prev, ConnClosed reason =>
      close_cause c ev reason /\ cn_transmit_q c' = cn_transmit_q c ++ farewell prev reason
  end.

(** A call that does not change the phase of an open connection. *)
Lemma lifecycle_stay c ev c' :
  Connection_get_state c' = Connection_get_state c -> (forall reason, Connection_get_state c <> ConnClosed reason) ->
  lifecycle c ev c'.
Proof.
  intros E Hn. unfold lifecycle. rewrite E. destruct (Connection_get_state c) as [| |reason]; try done.
  by destruct (Hn reason).
Qed.

(** Closing through [close_with], from a state in the phase of [c] that
    owes the same packets. *)
Lemma lifecycle_close c ev c1 now reason (shut : bool) :
  Connection_get_state c1 = Connection_get_state c -> cn_transmit_q c1 = cn_transmit_q c ->
  (forall reason, Connection_get_state c <> ConnClosed reason) -> close_cause c ev reason ->
  (shut = true <-> Connection_get_state c = ConnEstablished /\ reason <> CloseShutdown) ->
  lifecycle c ev (Connection_close_with c1 now reason shut).
Proof.
  intros E Eq Hn Hcause Hshut. unfold lifecycle, Connection_close_with.
  destruct (Connection_get_state c) as [| |rs] eqn:Hc; [| |by destruct (Hn rs)];
    unfold Connection_get_state in E; destruct (cn_state c1) eqn:Hs1; try done; cn;
    destruct shut; cn; unfold Connection_get_state; cn; (split; [done|]); rewrite ?Eq, ?app_nil_r; try done.
  - by destruct Hshut as [[? _] _].
  - by destruct reason; destruct Hshut as [[_ ?] _].
  - destruct reason; try (by rewrite app_nil_r); destruct Hshut as [_ Hshut]; by discriminate Hshut.
Qed.

Section Lifecycle.
Context `{CryptoPrimitives}.

Lemma caller_error_rejects hs now cif rs rk hs' err :
  CallerHandshake_handle_handshake hs now cif rs rk = Ret (hs', Err err) ->
  exists code, handshake_close_reason err = CloseRejected code.
Proof.
  assert (Hfail : forall (c c' : CallerHandshake) (e e' : SrtError),
    (e = EncryptionUnsupported \/ exists code, e = Rejected code) ->
    Ret (CallerHandshake_fail c e) = Ret (c', Err e') ->
    exists code, handshake_close_reason e' = CloseRejected code)
    by (intros c c' e e' [->|[code ->]] [= _ <-]; by eexists).
  unfold CallerHandshake_handle_handshake. destruct (ch_state hs); try done.
  - assert (Hind : CallerHandshake_on_induction_response hs now cif rs rk = Ret (hs', Err err) ->
      exists code, handshake_close_reason err = CloseRejected code).
    { unfold CallerHandshake_on_induction_response. case_decide; [done|].
      case_if; [apply Hfail; right; by eexists|].
      cbv zeta. destruct (match _ with Some _ => _ | None => Ret None end); done. }
    destruct (hs_handshake_type cif); try done. apply Hfail.
    unfold reject_error. case_if; [by left|right; by eexists].
  - assert (Hcon : Ret (CallerHandshake_on_conclusion_response hs cif) = Ret (hs', Err err) ->
      exists code, handshake_close_reason err = CloseRejected code).
    { unfold CallerHandshake_on_conclusion_response. case_decide; [done|].
      destruct (CallerHandshake_check_conclusion hs cif) as [x|e] eqn:Hck.
      - destruct (CallerHandshake_check_kmx hs cif) as [c1 [e|]] eqn:Hk; [|done]. apply Hfail.
        unfold CallerHandshake_check_kmx in Hk. destruct (ch_crypto hs); [|case_if; simplify_eq; by left].
        right. destruct (find_km_rsp cif); [|simplify_eq; by eexists].
        destruct (Crypto_handle_kmrsp _ _) as [? [| []|]]; simplify_eq; by eexists.
      - apply Hfail. right. unfold CallerHandshake_check_conclusion in Hck.
        repeat (case_if; [simplify_eq; by eexists|]). destruct (find_hs_rsp cif); [|simplify_eq; by eexists].
        repeat (case_if; [simplify_eq; by eexists|]). done. }
    destruct (hs_handshake_type cif); try done. apply Hfail.
    unfold reject_error. case_if; [by left|right; by eexists].
Qed.

Lemma handshake_lifecycle c c0 now dg rng ctrl cif c' :
  Packet_parse dg = pok (Control ctrl) -> cp_control_type ctrl = Handshake cif ->
  Connection_get_state c0 = Connection_get_state c -> cn_transmit_q c0 = cn_transmit_q c ->
  (forall reason, Connection_get_state c <> ConnClosed reason) ->
  Connection_handle_handshake_packet c0 now (cp_timestamp ctrl) cif rng = Ret c' ->
  lifecycle c (EvDatagram now dg rng) c'.
Proof.
  intros Hp Hct E Eq Hn. unfold Connection_handle_handshake_packet.
  destruct (cn_state c0) as [hs p ed|s r e|rs r] eqn:Hst; [| |done].
  2: { intros [= <-]. apply lifecycle_stay; [|done]. rewrite <- E. case_decide; [|done].
       by destruct (cn_hs_reply c0). }
  destruct (CallerHandshake_handle_handshake _ _ _ _ _) as [[hs' res]|] eqn:Hh; [|done].
  cbn [mbind panicking_bind].
  assert (Hc : Connection_get_state c = ConnConnecting)
    by (rewrite <- E; unfold Connection_get_state; by rewrite Hst).
  destruct res as [[ng|]|err].
  - unfold Connection_establish. cn. destruct (transmission_pair _ _ _ _) as [s r].
    destruct (ingest_early _ _ _) as [[r1 e1]|]; [|done]. cbn [mbind panicking_bind].
    destruct (push_pending _ _ _ _) as [[s2 e2]|]; [|done]. cbn [mbind panicking_bind]. intros [= <-].
    unfold lifecycle. rewrite Hc. by exists now, dg, rng, ctrl, cif.
  - intros [= <-]. apply lifecycle_stay; [|done]. by rewrite Hc.
  - intros [= <-]. destruct (caller_error_rejects _ _ _ _ _ _ _ Hh) as [code ->].
    apply lifecycle_close; try done. { split; [done|]. by exists ctrl, cif. }
    rewrite Hc. split; [done|]. by intros [? _].
Qed.

Lemma transmission_lifecycle c c0 now dg rng ctrl ct c' :
  Packet_parse dg = pok (Control ctrl) -> cp_control_type ctrl = ct ->
  Connection_get_state c0 = Connection_get_state c -> cn_transmit_q c0 = cn_transmit_q c ->
  (forall reason, Connection_get_state c <> ConnClosed reason) ->
  Connection_handle_transmission_control c0 now (cp_timestamp ctrl) ct rng = Ret c' ->
  lifecycle c (EvDatagram now dg rng) c'.
Proof.
  intros Hp Hct E Eq Hn. unfold Connection_handle_transmission_control.
  destruct (cn_state c0) as [hs p ed|s r e|rs r] eqn:Hst; [| |].
  1, 3: intros [= <-]; by apply lifecycle_stay.
  destruct (transmission_control s r e now (cp_timestamp ctrl) ct rng) as [[[[st reply] v] km]|] eqn:Ht; [|done].
  cbn [mbind panicking_bind]. intros [= <-].
  assert (Hc : Connection_get_state c = ConnEstablished)
    by (rewrite <- E; unfold Connection_get_state; by rewrite Hst).
  assert (exists s' r' e', st = StEstablished s' r' e' /\ (v = true -> reply = None /\ km = None /\
    match ct with Ack _ _ | Nak _ => True | _ => False end)) as (s' & r' & e' & -> & Hv).
  { unfold transmission_control in Ht. destruct ct; try done.
    - destruct (Sender_handle_ack _ _ _ _) as [[s1 [ok|]]|]; try done; cbn [mbind panicking_bind] in Ht.
      + destruct e as [e|]; [|by simplify_eq; eexists _, _, _].
        destruct (Crypto_on_ack _ _ _ _) as [[e1 km1]|]; [|done]. cbn [mbind panicking_bind] in Ht.
        by simplify_eq; eexists _, _, _.
      + simplify_eq. by eexists _, _, _.
    - simplify_eq. by eexists _, _, _.
    - destruct (Receiver_handle_ackack _ _ _ _); [|done]. cbn [mbind panicking_bind] in Ht.
      simplify_eq. by eexists _, _, _.
    - destruct (Receiver_handle_dropreq _ _ _ _); [|done]. cbn [mbind panicking_bind] in Ht.
      simplify_eq. by eexists _, _, _. }
  destruct v.
  - destruct (Hv eq_refl) as (-> & -> & Hk). apply lifecycle_close; try done.
    split; [done|]. exists ctrl. by rewrite Hct.
  - apply lifecycle_stay; [|done]. rewrite Hc. by destruct km, reply.
Qed.

Lemma data_lifecycle c c0 now dg rng data c' :
  Packet_parse dg = pok (Data data) ->
  Connection_get_state c0 = Connection_get_state c -> cn_transmit_q c0 = cn_transmit_q c ->
  (forall reason, Connection_get_state c <> ConnClosed reason) ->
  Connection_handle_data_packet c0 now data = Ret c' ->
  lifecycle c (EvDatagram now dg rng) c'.
Proof.
  intros Hp E Eq Hn. unfold Connection_handle_data_packet. cbv zeta. cn.
  destruct (cn_state c0) as [hs p ed|s r e|rs r] eqn:Hst; [| |done].
  - cbn [mbind panicking_bind]. intros [= <-]. apply lifecycle_stay; [|done]. rewrite <- E.
    unfold Connection_get_state. repeat case_if; cn; by rewrite ?Hst.
  - destruct (ingest_data now r e data) as [[r1 e1]|]; [|done]. cbn [mbind panicking_bind]. intros [= <-].
    assert (Hc : Connection_get_state c = ConnEstablished)
      by (rewrite <- E; unfold Connection_get_state; by rewrite Hst).
    case_if.
    + apply lifecycle_close; try done. { split; [done|]. by exists data. }
    + apply lifecycle_stay; [|done]. by rewrite Hc.
Qed.

Lemma datagram_lifecycle c now dg rng c' :
  (forall reason, Connection_get_state c <> ConnClosed reason) ->
  Connection_handle_datagram c now dg rng = Ret c' -> lifecycle c (EvDatagram now dg rng) c'.
Proof.
  intros Hn. unfold Connection_handle_datagram. destruct (Packet_parse dg) as [[p|err]|] eqn:Hp; [| |done];
    cbn [mbind panicking_bind].
  2: { destruct err; intros [= <-]; by apply lifecycle_stay. }
  intros Hh. unfold Connection_handle_packet in Hh.
  assert (Hst : forall rs r, cn_state c <> StClosed rs r)
    by (intros rs r Hst; destruct (Hn rs); unfold Connection_get_state; by rewrite Hst).
  set (c0 := Connection_touch c now) in *.
  assert (Ht : Connection_get_state c0 = Connection_get_state c /\ cn_transmit_q c0 = cn_transmit_q c) by done.
  destruct Ht as [E Eq]. clearbody c0.
  assert (Hcase : c' = c \/ match p with
    | Data data => Connection_handle_data_packet c0 now data = Ret c'
    | Control ctrl => Connection_handle_control_packet c0 now ctrl rng = Ret c' end).
  { destruct (cn_state c) as [| |rs r] eqn:Hs; [| |by destruct (Hst rs r)];
      (destruct (_ && _); [injection Hh as <-; by left|right; by destruct p]). }
  destruct Hcase as [->|Hc]; [by apply lifecycle_stay|].
  destruct p as [data|ctrl]; [by eapply data_lifecycle|].
  unfold Connection_handle_control_packet in Hc. destruct (cp_control_type ctrl) eqn:Hct;
    try (by eapply transmission_lifecycle); try (injection Hc as <-; by apply lifecycle_stay).
  - by eapply handshake_lifecycle.
  - injection Hc as <-. apply lifecycle_close; try done. { by exists ctrl. } split; [done|]. by intros [_ ?].
  - unfold Connection_handle_kmreq in Hc.
    destruct (cn_state c0) as [hs p ed|s r [e|]|rs r] eqn:Hs; try (injection Hc as <-; by apply lifecycle_stay).
    destruct (Crypto_handle_kmreq e payload) as [[e' out]|]; [|done]. cbn [mbind panicking_bind] in Hc.
    injection Hc as <-. apply lifecycle_stay; [|done]. rewrite <- E. unfold Connection_get_state. rewrite Hs.
    by destruct out.
  - injection Hc as <-. apply lifecycle_stay; [|done]. rewrite <- E. unfold Connection_handle_kmrsp.
    destruct (cn_state c0) as [hs p ed|s r [e|]|rs r] eqn:Hs; try done.
    destruct (Crypto_handle_kmrsp e payload). unfold Connection_get_state. by rewrite Hs.
Qed.

Lemma timer_lifecycle c now c' :
  (forall reason, Connection_get_state c <> ConnClosed reason) ->
  Connection_handle_timer c now = Ret c' -> lifecycle c (EvTimer now) c'.
Proof.
  intros Hn. unfold Connection_handle_timer.
  destruct (cn_state c) as [hs p ed|s r e|rs r] eqn:Hst.
  - intros [= <-]. assert (Hc : Connection_get_state c = ConnConnecting) by (unfold Connection_get_state; by rewrite Hst).
    unfold CallerHandshake_is_timed_out. case_if; [|by apply lifecycle_stay].
    apply lifecycle_close; try done.
    + exists hs, p, ed. split; [done|]. destruct (ch_state hs); to_prop; done.
    + rewrite Hc. split; [done|]. by intros [? _].
  - assert (Hc : Connection_get_state c = ConnEstablished) by (unfold Connection_get_state; by rewrite Hst).
    destruct (Sender_on_timer s now) as [s'|]; [|done]. cbn [mbind panicking_bind].
    destruct (exp_check c (Receiver_on_timer r now) now) as [n idle] eqn:He. intros [= <-].
    unfold data_idle_check. cn.
    assert (Hidle : idle = true -> EXP_MAX_COUNT < cn_exp_count c /\
      so_peer_idle_timeout (cn_opts c) <= duration_since now (cn_last_recv c)).
    { unfold exp_check in He. destruct (Receiver_rtt _). case_if; [|by injection He as _ <-].
      case_if; [|by injection He as _ <-]. by to_prop. }
    destruct idle; cbn [negb andb].
    + rewrite andb_false_r. apply lifecycle_close; try done. split; [done|]. by apply Hidle.
    + destruct (so_data_idle_timeout (cn_opts c)) as [w|] eqn:Hw.
      * destruct (w <=? duration_since now (cn_last_data c)) eqn:Hd; cbn [negb andb].
        -- apply lifecycle_close; try done. split; [done|]. exists w. by to_prop.
        -- apply lifecycle_stay; [|done]. rewrite Hc. by case_if.
      * cbn [negb andb]. apply lifecycle_stay; [|done]. rewrite Hc. by case_if.
  - destruct (Hn rs). unfold Connection_get_state. by rewrite Hst.
Qed.

(** Calls on a closed connection. *)
Lemma closed_lifecycle c ev c' out reason :
  Connection_get_state c = ConnClosed reason -> conn_step c ev = Ret (c', out) -> lifecycle c ev c'.
Proof.
  intros Hc Hstep. unfold lifecycle. rewrite Hc.
  destruct (cn_state c) as [| |rs r] eqn:Hst; unfold Connection_get_state in Hc; rewrite Hst in Hc; try done.
  injection Hc as ->.
  assert (Hsame : forall c2, cn_state c2 = StClosed reason r -> cn_closed_stats c2 = cn_closed_stats c ->
    Connection_get_state c2 = ConnClosed reason /\ Connection_stats c2 = Connection_stats c)
    by (intros c2 E E'; unfold Connection_get_state, Connection_stats; by rewrite E, E', Hst).
  destruct ev as [now dg rng|now|now payload|now|now|now|t ts]; cbn [conn_step] in Hstep.
  - unfold Connection_handle_datagram, Connection_handle_packet in Hstep. rewrite Hst in Hstep.
    destruct (Packet_parse dg) as [[p|err]|]; [| |done]; cbn [mbind panicking_bind] in Hstep.
    + injection Hstep as <- <-. destruct (Hsame c Hst eq_refl). split; [done|]. split; [done|]. by left.
    + destruct err; cbn [mbind panicking_bind] in Hstep; injection Hstep as <- <-;
        (edestruct Hsame; [|reflexivity|split; [done|]; split; [done|by left]]; done).
  - unfold Connection_handle_timer in Hstep. rewrite Hst in Hstep. injection Hstep as <- <-.
    destruct (Hsame c Hst eq_refl). split; [done|]. split; [done|]. by left.
  - unfold Connection_send in Hstep. rewrite Hst in Hstep. injection Hstep as <- <-.
    destruct (Hsame c Hst eq_refl). split; [done|]. split; [done|]. by left.
  - unfold Connection_close in Hstep. rewrite Hst in Hstep. injection Hstep as <- <-.
    destruct (Hsame c Hst eq_refl). split; [done|]. split; [done|]. by left.
  - unfold Connection_poll_transmit, Connection_next_transmit in Hstep. rewrite Hst in Hstep.
    destruct (cn_transmit_q c) as [|p q] eqn:Hq; cbn [mbind panicking_bind] in Hstep; injection Hstep as <- <-.
    + destruct (Hsame c Hst eq_refl). split; [done|]. split; [done|]. by left.
    + edestruct Hsame; [|reflexivity|split; [done|]; split; [done|]]; [done|]. right. by exists now, p.
  - unfold Connection_poll_deliver in Hstep. rewrite Hst in Hstep. destruct r as [r|].
    + destruct (Receiver_poll_deliver r now) as [[r' o]|]; [|done]. cbn [mbind panicking_bind] in Hstep.
      injection Hstep as <- <-. unfold Connection_get_state, Connection_stats. rewrite Hst. cn.
      split; [done|]. split; [done|]. by left.
    + injection Hstep as <- <-. destruct (Hsame c Hst eq_refl). split; [done|]. split; [done|]. by left.
  - unfold Connection_set_hs_anchor in Hstep. rewrite Hst in Hstep. injection Hstep as <- <-.
    destruct (Hsame c Hst eq_refl). split; [done|]. split; [done|]. by left.
Qed.

Lemma conn_step_lifecycle c ev c' out : conn_step c ev = Ret (c', out) -> lifecycle c ev c'.
Proof.
  intros Hstep. destruct (Connection_get_state c) as [| |reason] eqn:Hc; [| |by eapply closed_lifecycle].
  all: assert (Hn : forall reason, Connection_get_state c <> ConnClosed reason) by (by rewrite Hc).
  all: destruct ev as [now dg rng|now|now payload|now|now|now|t ts]; cbn [conn_step] in Hstep.
  all: try (destruct (Connection_handle_datagram c now dg rng) as [c1|] eqn:Hd; [|done];
            injection Hstep as <- <-; by apply datagram_lifecycle).
  all: try (destruct (Connection_handle_timer c now) as [c1|] eqn:Hd; [|done];
            injection Hstep as <- <-; by apply timer_lifecycle).
  all: unfold Connection_get_state in Hc; destruct (cn_state c) as [hs p ed|s r e|rs r] eqn:Hst; try done.
  all: try (unfold Connection_send in Hstep; rewrite Hst in Hstep).
  all: try (unfold Connection_close in Hstep; rewrite Hst in Hstep; injection Hstep as <- <-;
            apply lifecycle_close; try done; unfold Connection_get_state; rewrite Hst; split; [done|]; by intros [? _]).
  all: try (unfold Connection_set_hs_anchor in Hstep; rewrite Hst in Hstep; injection Hstep as <- <-;
            apply lifecycle_stay; [|done]; unfold Connection_get_state; by rewrite Hst).
  - case_if; injection Hstep as <- <-; (apply lifecycle_stay; [|done]); unfold Connection_get_state; by rewrite Hst.
  - unfold Connection_poll_transmit, Connection_next_transmit in Hstep. rewrite Hst in Hstep.
    destruct (cn_transmit_q c); [destruct (CallerHandshake_poll_transmit hs now) as [hs' [pk|]]|];
      cbn [mbind panicking_bind] in Hstep; injection Hstep as <- <-;
      (apply lifecycle_stay; [|done]); unfold Connection_get_state; cn; by rewrite Hst.
  - unfold Connection_poll_deliver in Hstep. rewrite Hst in Hstep. injection Hstep as <- <-. by apply lifecycle_stay.
  - destruct (Sender_push s now payload e) as [[[s' e'] res]|]; [|done]. cbn [mbind panicking_bind] in Hstep.
    injection Hstep as <- <-. apply lifecycle_stay; [|done]. unfold Connection_get_state. by rewrite Hst.
  - assert (Hnt : forall c1 pk, Connection_next_transmit c now = Ret (c1, pk) ->
      Connection_get_state c1 = Connection_get_state c).
    { unfold Connection_next_transmit, Connection_get_state. rewrite Hst.
      destruct (cn_transmit_q c); [|intros c1 pk [= <- <-]; cn; by rewrite Hst].
      destruct (Receiver_poll_control r) as [r' [ct|]]; [by intros c1 pk [= <- <-]|].
      destruct (Sender_poll_control s) as [s' [ct|]]; [by intros c1 pk [= <- <-]|].
      destruct (Sender_poll_transmit s' now) as [[s2 pk]|]; [|done]. by intros c1 pk' [= <- <-]. }
    unfold Connection_poll_transmit in Hstep. destruct (Connection_next_transmit c now) as [[c1 pk]|]; [|done].
    specialize (Hnt c1 pk eq_refl). cbn [mbind panicking_bind] in Hstep. apply lifecycle_stay; [|done].
    rewrite <- Hnt. by destruct pk; injection Hstep as <- <-.
  - unfold Connection_poll_deliver in Hstep. rewrite Hst in Hstep.
    destruct (Receiver_poll_deliver r now) as [[r' o]|]; [|done]. cbn [mbind panicking_bind] in Hstep.
    injection Hstep as <- <-. apply lifecycle_stay; [|done]. unfold Connection_get_state. by rewrite Hst.
Qed.

End Lifecycle.

(** ** Lemmas: a silent peer *)

Lemma exp_deadline_mono last n n' rtt var :
  0 <= rtt -> 0 <= var -> n <= n' -> exp_deadline last n rtt var <= exp_deadline last n' rtt var.
Proof.
  intros Hr Hv Hn. unfold exp_deadline, from_micros, EXP_PAD_US, EXP_MIN_INTERVAL_US.
  assert (Z.max n 1 * (rtt + 4 * var) <= Z.max n' 1 * (rtt + 4 * var)) by (apply Z.mul_le_mono_nonneg_r; lia).
  lia.
Qed.

(** The connection after its idle timers have run out, or one expiration
    further. *)
Definition expired (c c' : Connection) : Prop :=
  Connection_get_state c' = ConnClosed PeerIdle \/ Connection_get_state c' = ConnClosed DataIdle \/
  exists s r e s' r', cn_state c = StEstablished s r e /\ cn_state c' = StEstablished s' r' e /\
    Receiver_rtt r' = Receiver_rtt r /\ cn_last_recv c' = cn_last_recv c /\
    cn_exp_count c' = cn_exp_count c + 1 /\ cn_exp_count c <= EXP_MAX_COUNT.

Lemma timer_expires `{CryptoLaws} o c now s r e :
  Connection_wf o c -> cn_state c = StEstablished s r e ->
  exp_deadline (cn_last_recv c) (cn_exp_count c) (fst (Receiver_rtt r)) (snd (Receiver_rtt r)) <= now ->
  cn_last_recv c + so_peer_idle_timeout o <= now ->
  exists c', Connection_handle_timer c now = Ret c' /\ expired c c'.
Proof.
  intros Hwf Hst Hexp Hidle. pose proof Hwf as (_ & Ho & Hs). rewrite Hst in Hs. destruct Hs as (Hs & _).
  unfold Connection_handle_timer. rewrite Hst.
  destruct (Sender_on_timer_ok s now Hs) as (s' & -> & _). cbn [mbind panicking_bind].
  pose proof (on_timer_rtt r now) as Hrtt. set (r' := Receiver_on_timer r now) in *.
  unfold exp_check. rewrite Hrtt. destruct (Receiver_rtt r) as [rtt var] eqn:Hr. cbn [fst snd] in Hexp.
  replace (exp_deadline (cn_last_recv c) (cn_exp_count c) rtt var <=? now) with true by (symmetry; by apply Z.leb_le).
  destruct (Z.ltb_spec EXP_MAX_COUNT (cn_exp_count c)) as [Hc|Hc]; cbn [andb].
  - replace (so_peer_idle_timeout (cn_opts c) <=? duration_since now (cn_last_recv c)) with true
      by (symmetry; apply Z.leb_le; rewrite Ho; unfold duration_since; lia).
    cbn [negb andb]. rewrite andb_false_r. eexists. split; [done|]. by left.
  - cbn [negb andb]. eexists. split; [done|].
    match goal with |- expired c (if ?d && true then _ else ?x) => set (c1 := x); destruct d end; cbn [negb andb] in c1 |- *.
    + right; left. by subst c1.
    + right; right. exists s, r, e, s', r'. split; [done|]. split; [by subst c1; case_if|].
      split; [by rewrite Hr|]. split; [by subst c1; case_if|]. split; [by subst c1; case_if|done].
Qed.

Lemma closed_run `{CryptoPrimitives} evs : forall c c' outs reason,
  Connection_get_state c = ConnClosed reason -> conn_run c evs = Ret (c', outs) ->
  Connection_get_state c' = ConnClosed reason.
Proof.
  induction evs as [|ev evs IH]; intros c c' outs reason Hc; cbn [conn_run]; [by intros [= <- <-]|].
  destruct (conn_step c ev) as [[c1 out]|] eqn:Hs; [|done]. cbn [mbind panicking_bind].
  destruct (conn_run c1 evs) as [[c2 outs2]|] eqn:Hr; [|done]. intros [= <- <-].
  apply (IH c1 c2 outs2); [|done]. apply conn_step_lifecycle in Hs. unfold lifecycle in Hs. rewrite Hc in Hs. apply Hs.
Qed.

(** At [t] the idle timeout and the 17th EXP period, or the current one when
    the counter is further, have passed since the last packet. *)
Definition silence_over (c : Connection) (r : Receiver) (t : Z) : Prop :=
  exp_deadline (cn_last_recv c) (Z.max (cn_exp_count c) (EXP_MAX_COUNT + 1)) (rv_srtt_us r) (rv_rtt_var_us r) <= t /\
  cn_last_recv c + so_peer_idle_timeout (cn_opts c) <= t.

Lemma silence_run `{CryptoLaws} o rtt var n0 : forall ts c s r e,
  Connection_wf o c -> cn_state c = StEstablished s r e -> Receiver_rtt r = (rtt, var) ->
  cn_exp_count c <= n0 -> EXP_MAX_COUNT + 1 <= n0 ->
  Forall (fun t => exp_deadline (cn_last_recv c) n0 rtt var <= t /\ cn_last_recv c + so_peer_idle_timeout o <= t) ts ->
  (0 < length ts)%nat -> EXP_MAX_COUNT + 1 - cn_exp_count c < Z.of_nat (length ts) ->
  exists c' outs, conn_run c (EvTimer <$> ts) = Ret (c', outs) /\
    (Connection_get_state c' = ConnClosed PeerIdle \/ Connection_get_state c' = ConnClosed DataIdle).
Proof.
  induction ts as [|t ts IH]; intros c s r e Hwf Hst Hr Hn Hn0 Hts Hl0 Hl; [cbn in Hl0; lia|].
  apply Forall_cons in Hts as [[Ht1 Ht2] Hts]. rewrite fmap_cons.
  assert (Hrtt : 0 <= rtt /\ 0 <= var).
  { destruct Hwf as (_ & _ & Hs). rewrite Hst in Hs. destruct Hs as (_ & _ & [(_ & _ & H1 & H2) _] & _).
    injection Hr as <- <-. unfold is_u32 in *. lia. }
  destruct (timer_expires o c t s r e) as (c1 & Hstep & Hexp); [done|done| |done|].
  { rewrite Hr. cbn [fst snd]. etransitivity; [|exact Ht1]. destruct Hrtt; by apply exp_deadline_mono. }
  destruct (conn_step_ok o c (EvTimer t) Hwf I) as (c1' & out & Hs & Hwf1).
  cbn [conn_run]. rewrite Hs. cbn [conn_step] in Hs. rewrite Hstep in Hs. cbn [mbind panicking_bind] in Hs.
  injection Hs as <- <-. cbn [mbind panicking_bind].
  destruct (conn_run_ok o (EvTimer <$> ts) c1 Hwf1) as (c2 & outs & Hrun & _).
  { apply Forall_fmap, Forall_forall. done. }
  destruct Hexp as [Hc|[Hc|(s0 & r0 & e0 & s1 & r1 & Hst0 & Hst1 & Hr1 & Hl1 & Hc1 & Hmax)]].
  - rewrite Hrun. eexists _, _. split; [done|]. left. by apply (closed_run (EvTimer <$> ts) c1 c2 outs).
  - rewrite Hrun. eexists _, _. split; [done|]. right. by apply (closed_run (EvTimer <$> ts) c1 c2 outs).
  - rewrite Hst in Hst0. injection Hst0 as <- <- <-. cbn [length] in *.
    destruct (IH c1 s1 r1 e) as (c' & outs' & Hrun' & Hend); try done; try congruence; try lia.
    { by rewrite Hl1. }
    rewrite Hrun'. eexists _, _. split; [done|]. done.
Qed.

(** ** Lemmas: deadlines *)

(** Nothing to put on the wire or to hand to the application at [t]. *)
Definition quiet `{CryptoPrimitives} (c : Connection) (t : Z) : Prop :=
  (exists c', Connection_poll_transmit c t = Ret (c', None)) /\
  (exists c', Connection_poll_deliver c t = Ret (c', None)).

Lemma quiet_established `{CryptoPrimitives} c s r e t :
  cn_state c = StEstablished s r e -> cn_transmit_q c = [] -> rv_control_q r = [] -> sn_control_queue s = [] ->
  sender_idle s t -> undue r t -> quiet c t.
Proof.
  intros Hst Hq Hr Hs Hi Hu. split.
  - unfold Connection_poll_transmit, Connection_next_transmit, Receiver_poll_control, Sender_poll_control.
    rewrite Hq, Hst, Hr, Hs. destruct (idle_polls_none s t Hi) as (s' & ->). by eexists.
  - unfold Connection_poll_deliver. rewrite Hst. destruct (poll_deliver_undue r t Hu) as (r' & ->). by eexists.
Qed.

(** The state in which [poll_transmit] finds nothing. *)
Lemma drained `{CryptoPrimitives} c now c1 :
  Connection_poll_transmit c now = Ret (c1, None) ->
  cn_transmit_q c1 = [] /\ cn_last_data c1 = cn_last_data c /\
  match cn_state c1 with
  | StConnecting hs _ _ => CallerHandshake_poll_transmit hs now = (hs, None)
  | StEstablished s r _ => rv_control_q r = [] /\ sn_control_queue s = [] /\
      forall t, (match Sender_next_deadline s with Some d => t < d | None => True end) -> sender_idle s t
  | StClosed _ _ => True
  end.
Proof.
  unfold Connection_poll_transmit, Connection_next_transmit.
  destruct (cn_transmit_q c) eqn:Hq; [|done].
  destruct (cn_state c) as [hs p ed|s r e|rs r] eqn:Hst.
  - destruct (CallerHandshake_poll_transmit hs now) as [hs' [pk|]] eqn:Hp; [done|].
    intros [= <-]. cn. do 2 (split; [done|]). assert (hs' = hs) as ->; [|done].
    unfold CallerHandshake_poll_transmit in Hp. destruct (ch_state hs); [| |by injection Hp as <-..];
      (destruct (_ || _) in Hp; [by injection Hp as <-|done]).
  - unfold Receiver_poll_control, Sender_poll_control. destruct (rv_control_q r) eqn:Hr; [|done].
    destruct (sn_control_queue s) eqn:Hs; [|done].
    destruct (Sender_poll_transmit s now) as [[s' [pk|]]|] eqn:Hp; [done| |done].
    cbn [mbind panicking_bind option_map]. intros [= <-]. cn. do 3 (split; [done|]).
    split; [|by apply (poll_none_idle s now)].
    rewrite <- Hs. by apply (Sender_poll_transmit_control s now s' None).
  - intros [= <-]. by rewrite Hst.
Qed.

Lemma connecting_before_deadline `{CryptoPrimitives} c hs p ed t :
  cn_state c = StConnecting hs p ed -> cn_transmit_q c = [] ->
  (match CallerHandshake_next_deadline hs with Some d => t < d | None => True end) ->
  quiet c t /\ Connection_handle_timer c t = Ret c.
Proof.
  intros Hst Hq Ht.
  assert (Hidle : CallerHandshake_poll_transmit hs t = (hs, None) /\ CallerHandshake_is_timed_out hs t = false).
  { unfold CallerHandshake_next_deadline, CallerHandshake_poll_transmit, CallerHandshake_is_timed_out in *.
    destruct (ch_state hs); try done;
      (replace (ch_deadline hs <=? t) with false by (symmetry; apply Z.leb_gt; lia));
      (replace (t <? ch_next_send hs) with true by (symmetry; apply Z.ltb_lt; lia)); done. }
  destruct Hidle as [Hp Ht0]. unfold quiet, Connection_poll_transmit, Connection_next_transmit,
    Connection_poll_deliver, Connection_handle_timer. rewrite Hq, Hst, Hp, Ht0. split; [|done].
  split; by eexists.
Qed.

Lemma established_before_deadline `{CryptoPrimitives} c s r e now t :
  cn_state c = StEstablished s r e -> cn_transmit_q c = [] -> rv_control_q r = [] -> sn_control_queue s = [] ->
  (forall t, (match Sender_next_deadline s with Some d => t < d | None => True end) -> sender_idle s t) ->
  cn_last_data c <= now <= t ->
  (match Connection_next_deadline c now with Some d => t < d | None => True end) ->
  quiet c t /\
  exists c2, Connection_handle_timer c t = Ret c2 /\ Connection_get_state c2 = Connection_get_state c /\ quiet c2 t.
Proof.
  intros Hst Hq Hr Hs Hidle Hnow Ht. unfold Connection_next_deadline in Ht. rewrite Hq, Hst in Ht.
  destruct (Receiver_next_deadline r now) as [dr|] eqn:Hdr; [|done]. cbn [default from_option] in Ht.
  destruct (Receiver_rtt r) as [rtt var] eqn:Hrtt.
  assert (Hall : t < dr /\ (match Sender_next_deadline s with Some d => t < d | None => True end) /\
    t < cn_last_sent c + KEEPALIVE_INTERVAL /\ t < exp_deadline (cn_last_recv c) (cn_exp_count c) rtt var /\
    (match so_data_idle_timeout (cn_opts c) with Some w => t < cn_last_data c + w | None => True end))
    by (destruct (Sender_next_deadline s), (so_data_idle_timeout (cn_opts c)); cbv beta iota zeta delta [id] in Ht; split_and!; done || lia).
  destruct Hall as (Htr & Hts & Hka & Hexp & Hw). clear Ht.
  destruct (before_deadline r now t dr Hdr) as [Hu (nak & Hnak)]; [lia|done|].
  destruct (sender_before_deadline s t Hts (Hidle t Hts)) as [Hsn Hsi].
  split; [apply (quiet_established c s r e); auto|].
  unfold Connection_handle_timer. rewrite Hst, Hsn, Hnak. cbn [mbind panicking_bind].
  unfold exp_check, data_idle_check. change (Receiver_rtt (r <| rv_next_nak_time := nak |>)) with (Receiver_rtt r).
  rewrite Hrtt. replace (exp_deadline (cn_last_recv c) (cn_exp_count c) rtt var <=? t) with false
    by (symmetry; by apply Z.leb_gt). cn.
  assert (Hdi : (match so_data_idle_timeout (cn_opts c) with
    | Some window => window <=? duration_since t (cn_last_data c) | None => false end) = false).
  { destruct (so_data_idle_timeout (cn_opts c)); [|done]. apply Z.leb_gt. unfold duration_since. lia. }
  rewrite Hdi. cbn [negb andb].
  replace (KEEPALIVE_INTERVAL <=? duration_since t (cn_last_sent c)) with false
    by (symmetry; apply Z.leb_gt; unfold duration_since, KEEPALIVE_INTERVAL, from_secs in *; lia).
  eexists. split; [done|]. split; [unfold Connection_get_state; by rewrite Hst|].
  by eapply quiet_established.
Qed.

(** ** Properties *)



(** C15: a silent peer is noticed: once the idle timeout and the 17th EXP
    period (or the current one, when the counter is further) have passed
    since the last packet, as many timer calls as the counter is short of 17,
    and one more, close the connection. *)
Theorem silent_peer_is_detected `{CryptoLaws} (o : SrtOptions) (c : Connection) (s : Sender) (r : Receiver)
    (e : option Crypto) (ts : list Z) :
  Connection_wf o c -> cn_state c = StEstablished s r e ->
  Forall (silence_over c r) ts ->
  (0 < length ts)%nat -> EXP_MAX_COUNT + 1 - cn_exp_count c < Z.of_nat (length ts) ->
  exists c' outs, conn_run c (EvTimer <$> ts) = Ret (c', outs) /\
    (Connection_get_state c' = ConnClosed PeerIdle \/ Connection_get_state c' = ConnClosed DataIdle).
Proof.
  intros Hwf Hst Hts Hl0 Hl. unfold silence_over in Hts. destruct (Hwf) as (_ & Ho & _). rewrite Ho in Hts.
  by apply (silence_run o (rv_srtt_us r) (rv_rtt_var_us r) (Z.max (cn_exp_count c) (EXP_MAX_COUNT + 1)) ts c s r e);
    try done; lia.
Qed.


(** ** Witnesses *)

Section Witnesses.

#[local] Existing Instance toy_primitives.
#[local] Existing Instance toy_laws.
#[local] Existing Instance toy_cookie.

Definition demo_addr : SocketAddrV4 := mkSocketAddrV4 [127; 0; 0; 1] 4200.

Definition demo_rng : Rng := mkRng (fun n => replicate n 1) (fun n => replicate n 2) (fun n => replicate n 3).

Definition demo_caller : Connection :=
  Connection_connect_with_timebase 0 demo_addr 7 100 SrtOptions_default (mkTimebase 0).

(** The listener's side of a connection without encryption. *)
Definition demo_accepted : Connection :=
  Connection_accepted_with_timebase 0
    (mkNegotiated demo_addr 8 7 100 100 (from_millis 120) (from_millis 120) None 1500 8192 None)
    (control (Handshake demo_conclusion)) SrtOptions_default (mkTimebase 0).



Lemma demo_accepted_wf : Connection_wf SrtOptions_default demo_accepted.
Proof.
  split; [by split; [|split; [|cbn; lia]]|]. split; [done|].
  edestruct (transmission_pair_wf SrtOptions_default 0) as (Hs & Hb & Hr); [| |reflexivity|].
  - by split; [|split; [|cbn; lia]].
  - instantiate (1 := mkNegotiated demo_addr 8 7 100 100 (from_millis 120) (from_millis 120) None 1500 8192 None).
    split; [split; [discriminate|reflexivity]|]. split; [split; [discriminate|reflexivity]|]. by split; [cbn; lia|].
  - split; [exact Hs|]. split; [exact Hb|]. by split; [exact Hr|].
Qed.

(** After six seconds of silence, 17 timer calls close the connection. *)
Lemma silent_peer_is_detected_witness :
  exists c' outs, conn_run demo_accepted (EvTimer <$> replicate 17 (from_secs 6)) = Ret (c', outs) /\
    (Connection_get_state c' = ConnClosed PeerIdle \/ Connection_get_state c' = ConnClosed DataIdle).
Proof.
  eapply (silent_peer_is_detected SrtOptions_default demo_accepted); [apply demo_accepted_wf|reflexivity| | |].
  - apply Forall_replicate. split; apply Z.leb_le; reflexivity.
  - cbn. lia.
  - reflexivity.
Defined.

Definition demo_drained : Connection :=
  match Connection_poll_transmit demo_accepted 0 with Ret (c, _) => c | Panic => demo_accepted end.


End Witnesses.
