(* ===== verification/WireTypes.v ===== *)
(** * The types of the wire

    Every field of every packet a connection sends is in the range of its
    Rust type and in the form its encoding can express, so that the peer
    parses from a datagram the packet it was made from.  The fields come from
    the options, from the peer's packets and from the sender's and the
    receiver's state; the invariant says that all of them stay in range. *)

From S2P Require Import Prelude PacketTypes PacketData PacketHandshake PacketControl Time CryptoKeys CryptoContext Cipher Options Pacing Sender LossList Receiver ReceiverTotal CoreHandshake Connection ConnectionLife.

(** ** Lemmas: parsed packets *)

Lemma of_be_u32 buf off : Forall is_u8 buf -> (off + 4 <= length buf)%nat -> is_u32 (of_be (take 4 (drop off buf))).
Proof.
  intros Hb Hl. assert (Hlen : length (take 4 (drop off buf)) = 4%nat) by (rewrite length_take, length_drop; lia).
  pose proof (of_be_range (take 4 (drop off buf))) as Hr. rewrite Hlen in Hr. apply Hr. by apply Forall_take, Forall_drop.
Qed.

Lemma of_be_u16 buf off : Forall is_u8 buf -> (off + 2 <= length buf)%nat -> is_u16 (of_be (take 2 (drop off buf))).
Proof.
  intros Hb Hl. assert (Hlen : length (take 2 (drop off buf)) = 2%nat) by (rewrite length_take, length_drop; lia).
  pose proof (of_be_range (take 2 (drop off buf))) as Hr. rewrite Hlen in Hr. apply Hr. by apply Forall_take, Forall_drop.
Qed.

(** The key material of a parsed block is whole words, as many as a block
    can hold. *)
Definition km_block_typed (e : HsExtension) : Prop :=
  match e with ExtKmReq km | ExtKmRsp km => words_ok km | _ => True end.

Lemma parse_extension_typed cmd content e :
  words_ok content -> parse_extension cmd content = Ret e -> km_block_typed e.
Proof.
  intros Hc. unfold parse_extension.
  destruct (HsExtFields_parse_returns content) as [[f|] ->]; cbn [mbind panicking_bind];
    repeat case_if; by intros [= <-].
Qed.

Lemma parse_extensions_typed n : forall buf acc es,
  Forall is_u8 buf -> Forall km_block_typed acc -> parse_extensions_loop n buf acc = pok es -> Forall km_block_typed es.
Proof.
  induction n as [|n IH]; intros buf acc es Hb Ha; [done|]. cbn [parse_extensions_loop].
  destruct (Nat.ltb_spec (length buf) 4); [by intros [= <-]|].
  rewrite !read_u16_ret by lia. cbn [mbind panicking_bind].
  pose proof (of_be_u16 buf 2 Hb ltac:(lia)) as Hl. set (words := of_be (take 2 (drop 2 buf))) in *.
  destruct (Nat.ltb_spec (length buf - 4) (Z.to_nat words * 4)); [done|].
  rewrite !slice_ret by lia. cbn [mbind panicking_bind]. set (content := take _ (drop 4 buf)).
  destruct (parse_extension _ content) as [e|] eqn:He; [|done]. cbn [mbind panicking_bind].
  apply IH; [by apply Forall_take, Forall_drop|]. apply Forall_app. split; [done|]. constructor; [|done].
  apply parse_extension_typed in He; [done|]. unfold words_ok, is_u16 in *.
  assert (length content = (Z.to_nat words * 4)%nat) as -> by (subst content; rewrite length_take, length_drop; lia).
  split; [apply Nat.Div0.mod_mul|lia].
Qed.

(** The fields of a handshake that its receiver keeps. *)
Definition cif_typed (cif : HandshakeCif) : Prop :=
  is_u32 (hs_socket_id cif) /\ is_u32 (hs_cookie cif) /\ is_u32 (hs_mss cif) /\
  0 <= hs_initial_seq cif < SeqNumber_MASK /\ Forall km_block_typed (hs_extensions cif).

Lemma parse_cif_typed buf cif : Forall is_u8 buf -> HandshakeCif_parse_cif buf = pok cif -> cif_typed cif.
Proof.
  intros Hb. unfold HandshakeCif_parse_cif. destruct (Nat.ltb_spec (length buf) CIF_SIZE); [done|].
  unfold CIF_SIZE in *. rewrite !read_u32_ret, !read_u16_ret, !slice_ret by lia.
  cbn [mbind panicking_bind]. destruct (Z.leb_spec SeqNumber_MASK (of_be (take 4 (drop 8 buf)))) as [|Hi]; [done|].
  destruct (HandshakeType_from_u32 _); cbn [qbind]; [|done].
  destruct (parse_extensions _) as [[es|]|] eqn:He; cbn [qbind]; [|done..]. intros [= <-].
  pose proof (of_be_u32 buf 8 Hb ltac:(lia)) as H8. unfold cif_typed. cbn.
  do 3 (split; [apply of_be_u32; done || lia|]). split.
  - unfold SeqNumber_MASK, is_u32 in *. rewrite SeqNumber_new_id; unfold SeqNumber_wf; lia.
  - apply parse_extensions_typed in He; [done|by apply Forall_take, Forall_drop|done].
Qed.

(** What a control packet says, in range. *)
Definition control_typed (ct : ControlType) : Prop :=
  match ct with
  | Handshake cif => cif_typed cif
  | Ack n _ => is_u32 n
  | Nak l => Forall LossRange_wf l
  | DropRequest _ first last => SeqNumber_wf first /\ SeqNumber_wf last
  | _ => True
  end.

Lemma parsed_control_typed dg ctrl :
  Forall is_u8 dg -> Packet_parse dg = pok (Control ctrl) -> control_typed (cp_control_type ctrl).
Proof.
  intros Hb. unfold Packet_parse. destruct dg as [|b rest]; [done|]. case_if.
  { by destruct (DataPacket_parse _) as [[p|]|]. }
  destruct (ControlPacket_parse _) as [[p|]|] eqn:Hp; cbn [qbind]; try done. intros [= <-]. revert Hp.
  unfold ControlPacket_parse. destruct (Nat.ltb_spec (length (b :: rest)) HEADER_SIZE) as [|Hlen]; [done|].
  unfold HEADER_SIZE in *. rewrite !read_u32_ret, slice_ret by lia. cbn [mbind panicking_bind].
  set (buf := b :: rest) in *. set (type_code := Z.land (Z.shiftr _ 16) _).
  set (cif := take _ (drop 16 buf)). assert (Hc : Forall is_u8 cif) by by apply Forall_take, Forall_drop.
  pose proof (of_be_u32 buf 4 Hb ltac:(lia)) as Hi.
  destruct (if type_code =? 0 then _ else _) as [[ct|]|] eqn:Hq; cbn [qbind]; try done.
  intros [= <-]. cbn [cp_control_type]. revert Hq. clearbody cif type_code. repeat case_if; try by intros [= <-].
  - destruct (HandshakeCif_parse_cif cif) as [[c|]|] eqn:Hp; cbn [qbind]; try done.
    intros [= <-]. by apply parse_cif_typed in Hp.
  - destruct (parse_ack_cif cif) as [[c|]|]; cbn [qbind]; try done. by intros [= <-].
  - destruct (parse_loss_list_ok cif) as (l & -> & Hl). destruct l as [l|]; cbn [qbind]; [|done].
    intros [= <-]. apply Hl.
  - unfold parse_dropreq. destruct (Nat.ltb_spec (length cif) 8); [done|]. rewrite !read_u32_ret by lia.
    intros [= <-]. split; apply SeqNumber_new_wf.
Qed.

(** ** Lemmas: the receiver *)

(** Ranges cut out of a range are in order. *)
Lemma range_below e q :
  LossRange_wf e -> SeqNumber_diff (lr_first e) q < 0 -> LossRange_wf (mkLossRange (lr_first e) (SeqNumber_prev q)).
Proof.
  unfold LossRange_wf, SeqNumber_prev. cbn [lr_first lr_last]. intros (Hf & _ & _) Hd. split; [done|].
  split; [apply SeqNumber_add_wf|]. revert Hd. rewrite !SeqNumber_diff_mod, SeqNumber_add_mod. zify_divmod.
Qed.

Lemma range_above e q :
  LossRange_wf e -> 0 < SeqNumber_diff (lr_last e) q -> LossRange_wf (mkLossRange (SeqNumber_next q) (lr_last e)).
Proof.
  unfold LossRange_wf, SeqNumber_next. cbn [lr_first lr_last]. intros (_ & Hl & _) Hd. split; [apply SeqNumber_add_wf|].
  split; [done|]. revert Hd. rewrite !SeqNumber_diff_mod, SeqNumber_add_mod. zify_divmod.
Qed.

Lemma gap_range p q :
  0 < SeqNumber_diff q (SeqNumber_next p) -> LossRange_wf (mkLossRange (SeqNumber_next p) (SeqNumber_prev q)).
Proof.
  unfold LossRange_wf, SeqNumber_next, SeqNumber_prev. cbn [lr_first lr_last]. intros Hd.
  do 2 (split; [apply SeqNumber_add_wf|]). revert Hd. rewrite !SeqNumber_diff_mod, !SeqNumber_add_mod. zify_divmod.
Qed.

Lemma diff_sym_le p q : 0 <= SeqNumber_diff p q -> p <> q -> SeqNumber_wf p -> SeqNumber_wf q -> SeqNumber_diff q p < 0.
Proof. unfold SeqNumber_wf. rewrite !SeqNumber_diff_mod. zify_divmod. Qed.

Lemma unlose_typed loss seq : SeqNumber_wf seq -> Forall LossRange_wf loss -> Forall LossRange_wf (unlose loss seq).
Proof.
  intros Hs. unfold unlose. induction loss as [|e r IH]; intros Hl; [done|]. pose proof Hl as Hall.
  apply Forall_cons in Hl as [He Hr]. cbn [unlose_loop app]. case_if; [done|]. case_if.
  { rewrite unlose_loop_app. constructor; [done|by apply IH]. }
  to_prop. pose proof He as (Hf & Hlw & _).
  assert (Hlo : seq <> lr_first e -> LossRange_wf (mkLossRange (lr_first e) (SeqNumber_prev seq))).
  { intros Hne. apply range_below; [done|]. by apply diff_sym_le. }
  assert (Hhi : seq <> lr_last e -> LossRange_wf (mkLossRange (SeqNumber_next seq) (lr_last e))).
  { intros Hne. apply range_above; [done|]. pose proof (SeqNumber_add_diff (lr_last e) seq Hlw) as Ha.
    destruct (Z.eq_dec (SeqNumber_diff (lr_last e) seq) 0) as [E|]; [|lia].
    rewrite E, SeqNumber_add_0 in Ha by done. congruence. }
  case_if; [done|]. to_prop. repeat case_if; to_prop; subst; repeat (constructor; auto).
Qed.

Lemma remove_typed loss lo hi : Forall LossRange_wf loss -> Forall LossRange_wf (remove_loss_range loss lo hi).
Proof.
  intros Hl. unfold remove_loss_range. apply Forall_concat, Forall_map. eapply Forall_impl; [exact Hl|].
  intros e He. unfold clip_range. case_if; [by constructor|]. apply Forall_app. split; case_if; try done; to_prop.
  - constructor; [by apply range_below|done].
  - constructor; [by apply range_above|done].
Qed.

(** Updates that leave the types alone. *)
Lemma typed_same r r' :
  Receiver_typed r -> rv_srtt_us r' = rv_srtt_us r -> rv_rtt_var_us r' = rv_rtt_var_us r ->
  rv_ack_seq_no r' = rv_ack_seq_no r -> rv_rcv_last_ack r' = rv_rcv_last_ack r ->
  rv_ack_journal r' = rv_ack_journal r -> rv_control_q r' = rv_control_q r ->
  rv_rcv_curr_seq r' = rv_rcv_curr_seq r -> rv_loss r' = rv_loss r -> Receiver_typed r'.
Proof. intros (Hw & Hc & Hl) ? ? ? ? ? ? E1 E2. split; [by apply (words_same r)|]. by rewrite E1, E2. Qed.

Lemma detect_gap_typed r seq u : Receiver_typed r -> Receiver_typed (Receiver_detect_gap r seq u).
Proof.
  intros (Hw & Hc & Hl). destruct (detect_gap_same r seq u) as ((_ & _ & _ & _ & E & _) & El & Hk).
  set (gap := (_ && _)) in *.
  assert (Hg : gap = true -> LossRange_wf (mkLossRange (SeqNumber_next (rv_rcv_curr_seq r)) (SeqNumber_prev seq))).
  { intros Hg. subst gap. to_prop. by apply gap_range. }
  split; [by apply Hk|]. rewrite E. split; [done|]. rewrite El. case_if; [|done].
  apply Forall_app. split; [done|]. constructor; [by apply Hg|done].
Qed.

Lemma store_data_typed r pkt ext u r' :
  Receiver_typed r -> SeqNumber_wf (dp_seq pkt) -> Receiver_store_data r pkt ext u = Ret r' -> Receiver_typed r'.
Proof.
  intros Hr Hq. unfold Receiver_store_data. case_if; [intros [= <-]; by apply (typed_same r)|]. cbv zeta.
  destruct (_ <=? _)%nat; [intros [= <-]; case_if; [by apply (typed_same r)|done]|].
  set (o := Z.to_nat _) in *. set (r1 := if (length (rv_slots r) <=? o)%nat then _ else r).
  assert (Hr1 : Receiver_typed r1) by (subst r1; case_if; [by apply (typed_same r)|done]). clearbody r1.
  destruct (index _ _) as [old|]; [|done]. cbn [mbind panicking_bind]. case_if; [by intros [= <-]|].
  pose proof (detect_gap_typed r1 (dp_seq pkt) u Hr1) as Hr2. set (r2 := Receiver_detect_gap _ _ _) in *. clearbody r2.
  set (r3 := if 0 <? SeqNumber_diff (dp_seq pkt) (rv_rcv_curr_seq r2) then _ else _).
  assert (Hr3 : Receiver_typed r3).
  { subst r3. destruct Hr2 as (Hw & Hc & Hl). case_if; (split; [by apply (words_same r2)|]); rv; (split; [done|]); [done|].
    by apply unlose_typed. }
  clearbody r3. intros [= <-]. by destruct u; apply (typed_same r3).
Qed.

Lemma ingest_typed r now pkt u r' :
  Receiver_typed r -> SeqNumber_wf (dp_seq pkt) -> Receiver_ingest r now pkt u = Ret r' -> Receiver_typed r'.
Proof.
  intros Hr Hq. unfold Receiver_ingest. case_if; [intros [= <-]; by apply (typed_same r)|].
  destruct (TimestampExtender_extend _ _ _) as [ext ext_us].
  match goal with |- context [Receiver_store_data ?x] => set (r1 := x) end.
  assert (Hr1 : Receiver_typed r1) by (subst r1; rv; destruct (rv_anchor r); by apply (typed_same r)). clearbody r1.
  destruct (Receiver_store_data r1 pkt ext_us u) as [r2|] eqn:Hs; [|done]. cbn [mbind panicking_bind].
  apply store_data_typed in Hs; [|done|done]. intros [= <-]. case_if; [|done].
  match goal with |- Receiver_typed (Receiver_queue_light_ack ?x) => set (r3 := x) end.
  assert (Hr3 : Receiver_typed r3) by by apply (typed_same r2).
  clearbody r3. destruct (queue_light_ack_same r3) as (Hb & Hl & Hw). apply (typed_same_buffer r3); [done|done|done|].
  apply Hw; [apply Hr3|by apply ack_value_wf].
Qed.

Lemma handle_dropreq_typed r msg first last r' :
  Receiver_typed r -> SeqNumber_wf last -> Receiver_handle_dropreq r msg first last = Ret r' -> Receiver_typed r'.
Proof.
  intros Hr Hq. unfold Receiver_handle_dropreq. case_if; [by intros [= <-]|].
  set (r1 := r <| rv_loss := _ |>).
  assert (Hr1 : Receiver_typed r1).
  { destruct Hr as (Hw & Hc & Hl). split; [by apply (words_same r)|]. split; [done|]. by apply remove_typed. }
  clearbody r1. set (m := if negb (msg =? 0) then _ else _).
  assert (Hm : forall r2, m = Ret r2 -> Receiver_typed r2).
  { intros r2. subst m. case_if; [|by intros [= <-]]. cbv zeta. destruct (drop_message _ _ _ _ _) as [slots|]; [|done].
    intros [= <-]. by apply (typed_same r1). }
  destruct m as [r2|]; [|done]. cbn [mbind panicking_bind]. specialize (Hm r2 eq_refl). intros [= <-].
  case_if; [|done]. destruct Hm as (Hw & Hc & Hl). split; [by apply (words_same r2)|done].
Qed.

Lemma deliver_loop_typed anchor now : forall fuel r r' out,
  Receiver_typed r -> Receiver_deliver_loop fuel r anchor now = Ret (r', out) -> Receiver_typed r'.
Proof.
  induction fuel as [|fuel IH]; intros r r' out Hr; [done|]. cbn [Receiver_deliver_loop].
  destruct (first_occupied r) as [first|]; [|intros [= <- <-]; by apply (typed_same r)]. rv.
  destruct (index _ _) as [hd|]; [|done]. cbn [mbind panicking_bind].
  destruct hd as [occ|]; [|done]. cbn [expect mbind panicking_bind]. case_if; [intros [= <- <-]; by apply (typed_same r)|].
  set (m := if (0 <? first)%nat then _ else _).
  assert (Hm : forall r1, m = Ret r1 -> Receiver_typed r1).
  { intros r1. subst m. case_if; [|intros [= <-]; by apply (typed_same r)]. unfold drain_slots. case_if; [|done].
    intros [= <-]. destruct Hr as (Hw & Hc & Hl). split; [by apply (words_same r)|]. split; [done|]. by apply remove_typed. }
  destruct m as [r1|]; [|done]. cbn [mbind panicking_bind]. specialize (Hm r1 eq_refl). rv.
  destruct (head (rv_slots r1)) as [[slot|]|]; [|done..]. cbn [expect mbind panicking_bind].
  case_if; [|intros [= <- <-]; by apply (typed_same r1)]. apply IH. by apply (typed_same r1).
Qed.

(** ** Lemmas: the sender *)

(** The drop requests a sender owes its peer. *)
Definition Sender_typed (s : Sender) : Prop := Forall ControlType_wf (sn_control_queue s).

Lemma sender_typed_same s s' : Sender_typed s -> sn_control_queue s' = sn_control_queue s -> Sender_typed s'.
Proof. unfold Sender_typed. by intros ? ->. Qed.

Lemma drop_front_typed s n announce s' :
  Sender_typed s -> Sender_drop_front s n announce = Ret s' -> Sender_typed s'.
Proof.
  intros Hs. unfold Sender_drop_front. destruct (drain_front _ _) as [b|]; [|done]. cbn [mbind panicking_bind].
  set (s1 := if sn_next_send_index _ <? _ then _ else _).
  assert (H1 : Sender_typed s1) by (subst s1; by case_if). clearbody s1.
  set (s2 := if sn_last_ack_index s1 <? _ then _ else _).
  assert (H2 : Sender_typed s2) by (subst s2; by case_if). clearbody s2.
  intros [= <-]. destruct announce; [|done]. unfold Sender_typed. sn. apply Forall_app. split; [done|].
  constructor; [|done]. split; [apply MsgNumber_new_wf|]. split; apply SeqNumber_new_wf.
Qed.

Lemma check_tlpktdrop_typed s now s' : Sender_typed s -> Sender_check_tlpktdrop s now = Ret s' -> Sender_typed s'.
Proof.
  intros Hs. unfold Sender_check_tlpktdrop.
  destruct (head (sn_buffer s)), (list.last (sn_buffer s)); try by intros [= <-]. cbv zeta. case_if; [by intros [= <-]|].
  case_if; [by apply drop_front_typed|by intros [= <-]].
Qed.

Lemma drop_while_typed cond : forall fuel s s', Sender_typed s -> Sender_drop_while fuel cond s = Ret s' -> Sender_typed s'.
Proof.
  induction fuel as [|fuel IH]; intros s s' Hs; [done|]. cbn [Sender_drop_while]. case_if; [|by intros [= <-]].
  destruct (Sender_drop_front s 1 false) as [s1|] eqn:Hd; [|done]. cbn [mbind panicking_bind]. apply IH.
  by apply drop_front_typed in Hd.
Qed.

Lemma push_typed {C} `{PayloadCipher C} (s : Sender) now payload (crypto : option C) s' crypto' r :
  Sender_typed s -> Sender_push s now payload crypto = Ret (s', crypto', r) -> Sender_typed s'.
Proof.
  intros Hs. unfold Sender_push. case_if; [by intros [= <- _ _]|].
  set (m := match sn_pacer s with Some _ => _ | None => _ end).
  assert (Hm : forall s1, m = Ret s1 -> Sender_typed s1).
  { intros s1. subst m. destruct (sn_pacer s) as [p|]; [|by intros [= <-]].
    destruct (Pacer_on_input _ _ _) as [p'|]; [|done]. by intros [= <-]. }
  destruct m as [s1|]; [|done]. cbn [mbind panicking_bind]. specialize (Hm s1 eq_refl).
  destruct (Sender_check_tlpktdrop s1 now) as [s2|] eqn:H2; [|done]. cbn [mbind panicking_bind].
  apply check_tlpktdrop_typed in H2; [|done].
  destruct (Sender_drop_while _ _ s2) as [s3|] eqn:H3; [|done]. cbn [mbind panicking_bind].
  apply drop_while_typed in H3; [|done].
  destruct (Sender_drop_while _ _ s3) as [s4|] eqn:H4; [|done]. cbn [mbind panicking_bind].
  apply drop_while_typed in H4; [|done]. cbv zeta.
  match goal with |- context [mbind _ ?x] => destruct x as [[[c1 p1] e1]|]; [|done] end.
  cbn [mbind panicking_bind]. by intros [= <- _ _].
Qed.

Lemma handle_ack_typed s now n cif s' r :
  Sender_typed s -> is_u32 n -> Sender_handle_ack s now n cif = Ret (s', r) ->
  Sender_typed s' /\ match r with Ok (Some n') => is_u32 n' | _ => True end.
Proof.
  intros Hs Hn. unfold Sender_handle_ack. cbv zeta. case_if; [by intros [= <- <-]|].
  destruct (Sender_release s _) as [s1|] eqn:Hr; [|done]. cbn [mbind panicking_bind].
  assert (H1 : Sender_typed s1).
  { revert Hr. unfold Sender_release. case_if; [|by intros [= <-]]. cbv zeta.
    destruct (drain_front _ _); [|done]. by intros [= <-]. }
  clear Hr. case_if; [intros [= <- <-]; split; [|done]; unfold Sender_light_ack; by case_if|].
  set (s2 := Sender_adopt_rtt s1 cif). assert (H2 : Sender_typed s2).
  { subst s2. unfold Sender_adopt_rtt. destruct (ack_rtt_us cif), (ack_rtt_var_us cif); try done. by case_if. }
  clearbody s2. unfold Sender_reply_ackack. destruct (_ || _); cbv zeta; intros [= <- <-]; (split; [|done]);
    unfold Sender_adopt_window; case_if; try done; by destruct (ack_avail_buf_pkts cif).
Qed.

Lemma handle_nak_typed s ranges :
  Sender_typed s -> Forall LossRange_wf ranges -> Sender_typed (Sender_handle_nak s ranges).
Proof.
  intros Hs Hr. unfold Sender_handle_nak.
  assert (H : forall l s, Sender_typed s -> Forall LossRange_wf l -> Sender_typed (fst (Sender_nak_loop s l))).
  { clear. induction l as [|e l IH]; intros s Hs Hl; cbn [Sender_nak_loop]; [done|].
    apply Forall_cons in Hl as [(Hf & Ht & _) Hl]. cbv zeta. case_if; [done|]. apply IH; [|done].
    repeat case_if; try done. unfold Sender_typed. sn. apply Forall_app. split; [done|]. constructor; [|done].
    split; [apply MsgNumber_new_wf|done]. }
  specialize (H ranges s Hs Hr). destruct (Sender_nak_loop s ranges) as [s' []]; exact H.
Qed.

Lemma on_timer_typed s now s' : Sender_typed s -> Sender_on_timer s now = Ret s' -> Sender_typed s'.
Proof.
  intros Hs. unfold Sender_on_timer. destruct (Sender_check_tlpktdrop s now) as [s1|] eqn:H1; [|done].
  apply check_tlpktdrop_typed in H1; [|done]. by intros [= <-].
Qed.

Lemma poll_transmit_typed s now s' pkt :
  Sender_wf s -> Sender_poll_transmit s now = Ret (s', Some pkt) ->
  SeqNumber_wf (dp_seq pkt) /\ MsgNumber_wf (dp_msg_number pkt) /\ is_u32 (dp_timestamp pkt).
Proof.
  intros Hs Hp. destruct (Sender_poll_transmit_ok s now Hs) as (s1 & r & Hp' & _ & _ & Hr).
  rewrite Hp in Hp'. injection Hp' as <- <-. destruct Hr as (idx & [[[m ts] e] p] & Hc & _ & _ & Hpk).
  destruct Hs as (_ & _ & _ & _ & _ & _ & _ & _ & Hb & _). unfold content in Hc. case_if; [done|].
  destruct (sn_buffer s !! Z.to_nat (idx - sn_base_index s)) as [be|] eqn:Hl; [|done]. injection Hc as <- <- <- <-.
  rewrite Forall_lookup in Hb. destruct (Hb _ _ Hl) as (Hm & Ht & _).
  destruct Hpk as [(_ & _ & -> & _)|(_ & -> & _)]; cbn; unfold Sender_seq_at, MsgNumber_wf;
    (split; [apply SeqNumber_new_wf|]; split; [lia|done]).
Qed.

(** ** Lemmas: the caller *)

Section Typed.
Context `{CryptoLaws}.

(** The caller's handshakes fit the wire, its cookie included. *)
Definition Caller_typed (hs : CallerHandshake) : Prop :=
  Caller_wire_ok hs /\ match ch_state hs with CallerConclusion cookie => is_u32 cookie | _ => True end.

Lemma attached_sid_pbkeylen o pb : attached_sid (o <| so_pbkeylen := pb |>) = attached_sid o.
Proof. done. Qed.

Lemma caller_typed_failed hs : Caller_typed hs -> Caller_typed (hs <| ch_state := CallerFailed |>).
Proof. by intros [H1 _]. Qed.

Lemma check_kmx_typed hs cif :
  Caller_wire_ok hs -> let hs' := fst (CallerHandshake_check_kmx hs cif) in
  Caller_wire_ok hs' /\ ch_state hs' = ch_state hs.
Proof.
  intros Hw. unfold CallerHandshake_check_kmx. destruct (ch_crypto hs) as [e|] eqn:He.
  2: { by case_if. }
  destruct (find_km_rsp cif) as [p|]; [|done].
  assert (Hk : Crypto_kmreq (fst (Crypto_handle_kmrsp e p)) = Crypto_kmreq e \/
               Crypto_kmreq (fst (Crypto_handle_kmrsp e p)) = None).
  { unfold Crypto_handle_kmrsp, Crypto_peer_km_failure, Crypto_kmreq.
    destruct (KmResponse_parse p) as [[echo|st]|]; [|left|by left].
    - destruct (cr_outstanding e) as [out|] eqn:Ho; [case_decide; [by right|left]|left]; cbn [fst]; by rewrite Ho.
    - destruct st as [[]|]; by destruct (cr_outstanding e). }
  destruct (Crypto_handle_kmrsp e p) as [e' out]. cbn [fst] in Hk.
  assert (H1 : Caller_wire_ok (hs <| ch_crypto := Some e' |>)).
  { destruct Hw as (? & ? & ? & ? & ? & Hkm). unfold Caller_wire_ok, caller_km in *. ch. rewrite He in Hkm.
    do 5 (split; [done|]). by destruct Hk as [-> | ->]. }
  by destruct out as [| []|].
Qed.

Lemma caller_handshake_typed hs now cif rs rk hs' res :
  Caller_typed hs -> cif_typed cif -> rnd_ok rs -> rnd_ok rk ->
  CallerHandshake_handle_handshake hs now cif rs rk = Ret (hs', res) ->
  Caller_typed hs' /\ match res with Ok (Some ng) => is_u32 (ng_peer_socket_id ng) | _ => True end.
Proof.
  intros Hc Hcif Hrs Hrk. pose proof (caller_adopts_induction hs now cif rs rk) as Hind. revert Hind.
  unfold CallerHandshake_handle_handshake. destruct (ch_state hs) as [|cookie| |] eqn:Hs; [| |by intros _ [= <- <-]..]; intros Hind.
  - destruct (hs_handshake_type cif) eqn:Ht; try (intros [= <- <-]; split; [by apply caller_typed_failed|done]);
      try (unfold CallerHandshake_on_induction_response; rewrite Ht; by intros [= <- <-]).
    destruct (Z.le_gt_cases (hs_version cif) HS_VERSION_UDT4) as [Hv|Hv].
    { unfold CallerHandshake_on_induction_response. rewrite Ht. apply Z.leb_le in Hv. rewrite Hv.
      intros [= <- <-]. split; [by apply caller_typed_failed|done]. }
    destruct Hind as (c2 & -> & F1 & F2 & F3 & _ & _ & F6 & _ & F8 & [pb F9] & F10); [done..|].
    intros [= <- <-]. split; [|done]. split; [|rewrite F6; apply Hcif].
    destruct Hc as [(Ho & ? & ? & ? & _ & _) _]. unfold Caller_wire_ok, caller_km. rewrite F1, F2, F3, F9.
    do 5 (split; [done|]). destruct (ch_crypto_cfg hs) as [cfg|]; [|by rewrite F10].
    destruct F10 as (e & -> & He).
    destruct (initiator_km_words (adopt_peer_pbkeylen cfg (hs_encryption cif)) rs rk Hrs Hrk) as (e1 & km & He1 & Hkm & Hw).
    rewrite He in He1. injection He1 as <-. by rewrite Hkm.
  - destruct (hs_handshake_type cif) eqn:Ht; try (intros [= <- <-]; split; [by apply caller_typed_failed|done]);
      unfold CallerHandshake_on_conclusion_response; rewrite Ht; cbn; try by intros [= <- <-].
    destruct (CallerHandshake_check_conclusion hs cif) as [f|err]; [|intros [= <- <-]; split; [by apply caller_typed_failed|done]].
    destruct (check_kmx_typed hs cif (proj1 Hc)) as [Hw Hst].
    destruct (CallerHandshake_check_kmx hs cif) as [c1 [err|]]; cbn [fst] in *; intros [= <- <-].
    { by split. }
    split; [|apply Hcif]. split; [|done]. destruct Hw as (? & ? & ? & ? & ? & _). by do 5 (split; [done|]).
Qed.

Lemma caller_poll_typed hs now hs' p :
  Caller_typed hs -> CallerHandshake_poll_transmit hs now = (hs', p) ->
  Caller_typed hs' /\ match p with
                      | Some (Control cp) => ControlType_wf (cp_control_type cp)
                      | Some (Data _) => False
                      | None => True
                      end.
Proof.
  intros Hc. unfold CallerHandshake_poll_transmit.
  destruct (ch_state hs) as [|cookie| |] eqn:Hs; [| |by intros [= <- <-]..];
    (destruct (_ || _); [by intros [= <- <-]|]); intros [= <- <-];
    (assert (Hc' : Caller_typed (hs <| ch_next_send := now + HS_RETRY_INTERVAL |>)) by exact Hc);
    (split; [exact Hc'|]); cbn.
  - apply induction_cif_wf. apply Hc'.
  - apply conclusion_cif_wf; [apply Hc'|]. destruct Hc as [_ Hc]. by rewrite Hs in Hc.
Qed.

(** ** Lemmas: the connection *)

(** A packet that waits to be stamped. *)
Definition queued_typed (p : Packet) : Prop :=
  match p with Control cp => ControlType_wf (cp_control_type cp) | Data _ => False end.

Definition State_typed (st : State) : Prop :=
  match st with
  | StConnecting hs _ early => Caller_typed hs /\ Forall (fun x => SeqNumber_wf (dp_seq (snd x))) early
  | StEstablished s r _ => Sender_typed s /\ Receiver_typed r
  | StClosed _ _ => True
  end.

Definition Connection_typed (c : Connection) : Prop :=
  is_u32 (cn_peer_socket_id c) /\ Forall queued_typed (cn_transmit_q c) /\
  match cn_hs_reply c with Some p => queued_typed p | None => True end /\ State_typed (cn_state c).

Lemma typed_state c st : Connection_typed c -> State_typed st -> Connection_typed (c <| cn_state := st |>).
Proof. intros (? & ? & ? & _) ?. by split; [|split; [|split]]. Qed.

Lemma typed_push c p : Connection_typed c -> queued_typed p -> Connection_typed (push_transmit c p).
Proof.
  intros (? & ? & ? & ?) Hp. split; [done|]. split; [|done]. cn. apply Forall_app. split; [done|by constructor].
Qed.

Lemma close_with_typed c now reason shut : Connection_typed c -> Connection_typed (Connection_close_with c now reason shut).
Proof.
  intros Hc. unfold Connection_close_with. destruct (cn_state c); [| |done]; cbv zeta; (apply typed_state; [|done]);
    (destruct shut; [|exact Hc]); exact (typed_push c (control Shutdown) Hc I).
Qed.

Lemma ingest_data_typed now r e d r' e' :
  Receiver_typed r -> SeqNumber_wf (dp_seq d) -> ingest_data now r e d = Ret (r', e') -> Receiver_typed r'.
Proof.
  intros Hr Hd. unfold ingest_data, Receiver_handle_data, Receiver_handle_undecryptable.
  destruct e as [e|].
  - destruct (cipher_decrypt _ _ _ _) as [[c1 res] payload].
    destruct res; match goal with |- context [Receiver_ingest ?a ?b ?c ?d] =>
      destruct (Receiver_ingest a b c d) as [r1|] eqn:Hi; [|done] end;
      intros [= <- _]; by apply ingest_typed in Hi.
  - case_if; match goal with |- context [Receiver_ingest ?a ?b ?c ?d] =>
      destruct (Receiver_ingest a b c d) as [r1|] eqn:Hi; [|done] end;
      intros [= <- _]; by apply ingest_typed in Hi.
Qed.

Lemma ingest_early_typed early : forall r e r' e',
  Receiver_typed r -> Forall (fun x => SeqNumber_wf (dp_seq (snd x))) early ->
  ingest_early early r e = Ret (r', e') -> Receiver_typed r'.
Proof.
  induction early as [|[t d] early IH]; intros r e r' e' Hr He; cbn [ingest_early]; [by intros [= <- _]|].
  apply Forall_cons in He as [Hd He]. destruct (ingest_data t r e d) as [[r1 e1]|] eqn:Hi; [|done].
  apply ingest_data_typed in Hi; [|done|done]. by apply IH.
Qed.

Lemma push_pending_typed now pending : forall s (e : option Crypto) s' e',
  Sender_typed s -> push_pending now pending s e = Ret (s', e') -> Sender_typed s'.
Proof.
  induction pending as [|p pending IH]; intros s e s' e' Hs; cbn [push_pending]; [by intros [= <- _]|].
  destruct (Sender_push s now p e) as [[[s1 e1] r]|] eqn:Hp; [|done]. apply push_typed in Hp; [|done]. by apply IH.
Qed.

Lemma transmission_pair_typed now ng o tb :
  SeqNumber_wf (ng_recv_initial_seq ng) ->
  let '(s, r) := transmission_pair now ng o tb in Sender_typed s /\ Receiver_typed r.
Proof.
  intros Hq. unfold transmission_pair. split; [apply Forall_nil_2|]. split.
  - unfold Receiver_words, Receiver_set_max_payload, Receiver_new. rv.
    unfold is_u32, Receiver_INITIAL_RTT_US, Receiver_INITIAL_RTT_VAR_US. cbn. do 3 (split; [lia|]). split; [done|].
    split; [lia|done].
  - split; [apply SeqNumber_prev_wf|done].
Qed.

Lemma set_hs_anchor_typed r t ts : Receiver_typed r -> Receiver_typed (Receiver_set_hs_anchor r t ts).
Proof.
  intros Hr. unfold Receiver_set_hs_anchor. destruct (rv_anchor r); [done|].
  destruct (TimestampExtender_extend _ _ _). by apply (typed_same r).
Qed.

Lemma establish_typed c now ts ng c' :
  Connection_typed c -> is_u32 (ng_peer_socket_id ng) -> SeqNumber_wf (ng_recv_initial_seq ng) ->
  Connection_establish c now ts ng = Ret c' -> Connection_typed c'.
Proof.
  intros (Hp & Hq & Hh & Hst) Hid Hseq. unfold Connection_establish.
  pose proof (transmission_pair_typed now ng (cn_opts c) (cn_timebase c) Hseq) as Hpair.
  destruct (transmission_pair _ _ _ _) as [s r]. destruct Hpair as [Hs Hr].
  destruct (cn_state c) as [hs pend early| |]; [|done..]. destruct Hst as [_ He].
  destruct (ingest_early early _ _) as [[r1 e1]|] eqn:Hi; [|done]. cbn [mbind panicking_bind].
  apply ingest_early_typed in Hi; [|by apply set_hs_anchor_typed|done].
  destruct (push_pending _ _ _ _) as [[s1 e2]|] eqn:Hpp; [|done]. apply push_pending_typed in Hpp; [|done].
  intros [= <-]. by split; [|split; [|split]].
Qed.

Lemma handshake_packet_typed o c now ts cif rng c' :
  Connection_wf o c -> Connection_typed c -> cif_typed cif -> Rng_ok rng ->
  Connection_handle_handshake_packet c now ts cif rng = Ret c' -> Connection_typed c'.
Proof.
  intros Hwf Hc Hcif (Hrs & Hrk & _). unfold Connection_handle_handshake_packet. pose proof Hc as (_ & _ & Hh & Hst).
  pose proof Hwf as (_ & _ & Hw).
  destruct (cn_state c) as [hs pend early|s r e|] eqn:Es; [| |done].
  - destruct (caller_step_sound o hs (CallerGets now cif (rng_salt rng) (rng_sek rng)) (proj1 Hw))
      as (hs1 & out & Hstep & _ & _ & _ & _ & Hng); [done|]. cbn [caller_step] in Hstep.
    destruct (CallerHandshake_handle_handshake hs now cif _ _) as [[hs' res]|] eqn:Hcall; [|done].
    cbn [mbind panicking_bind] in *. destruct Hst as [Hct He]. injection Hstep as -> <-.
    apply caller_handshake_typed in Hcall as [Hct' Hid]; [|done..].
    assert (Hc1 : Connection_typed (c <| cn_state := StConnecting hs1 pend early |>)) by by apply typed_state.
    destruct res as [[ng|]|err]; [| by intros [= <-] | intros [= <-]; by apply close_with_typed].
    apply establish_typed; [done|done|]. destruct Hw as (_ & Hseq & _). destruct (Hng Hseq ng eq_refl) as (_ & ? & _). done.
  - intros [= <-]. case_decide; [|done]. destruct (cn_hs_reply c); [by apply typed_push|done].
Qed.

Lemma handle_transmission_control_typed c now ts ct rng c' :
  Connection_typed c -> control_typed ct ->
  Connection_handle_transmission_control c now ts ct rng = Ret c' -> Connection_typed c'.
Proof.
  intros Hc Hct. unfold Connection_handle_transmission_control. pose proof Hc as (_ & _ & _ & Hst).
  destruct (cn_state c) as [hs pend early|s r e|]; [by intros [= <-]| |by intros [= <-]]. destruct Hst as [Hs Hr].
  assert (Ht : forall st reply v km, transmission_control s r e now ts ct rng = Ret (st, reply, v, km) ->
    State_typed st /\ match reply with Some n => is_u32 n | None => True end).
  { intros st reply v km. unfold transmission_control. destruct ct as [| |n cif|l| | |n|m f t| | |]; try done.
    - destruct (Sender_handle_ack s now n cif) as [[s1 res]|] eqn:Ha; [|done]. cbn [mbind panicking_bind].
      apply handle_ack_typed in Ha as [Hs1 Hn]; [|done|done].
      destruct res as [reply'|]; [|by intros [= <- <- _ _]]. destruct e as [e|]; [|by intros [= <- <- _ _]].
      destruct (Crypto_on_ack _ _ _ _) as [[e1 km1]|]; [|done]. by intros [= <- <- _ _].
    - intros [= <- <- _ _]. split; [|done]. split; [by apply handle_nak_typed|done].
    - destruct (handle_ackack_same r now n ts (proj1 Hr)) as (r1 & -> & Hb & Hl & Hw). intros [= <- <- _ _].
      split; [|done]. split; [done|by apply (typed_same_buffer r)].
    - destruct (Receiver_handle_dropreq r m f t) as [r1|] eqn:Hd; [|done]. intros [= <- <- _ _]. split; [|done].
      apply handle_dropreq_typed in Hd; [done|done|apply Hct]. }
  destruct (transmission_control _ _ _ _ _ _ _) as [[[[st reply] v] km]|]; [|done]. cbn [mbind panicking_bind].
  destruct (Ht st reply v km eq_refl) as [Hst Hn]. clear Ht. intros [= <-].
  assert (H1 : Connection_typed (c <| cn_state := st |>)) by by apply typed_state.
  set (c1 := c <| cn_state := st |>) in *. clearbody c1.
  set (c2 := match km with Some _ => _ | None => c1 end).
  assert (H2 : Connection_typed c2) by (subst c2; destruct km; [by apply typed_push|done]). clearbody c2.
  set (c3 := match reply with Some _ => _ | None => c2 end).
  assert (H3 : Connection_typed c3) by (subst c3; destruct reply; [by apply typed_push|done]). clearbody c3.
  destruct v; [by apply close_with_typed|done].
Qed.

Lemma handle_control_packet_typed o c now ctrl rng c' :
  Connection_wf o c -> Connection_typed c -> control_typed (cp_control_type ctrl) -> Rng_ok rng ->
  Connection_handle_control_packet c now ctrl rng = Ret c' -> Connection_typed c'.
Proof.
  intros Hwf Hc Hct Hrng. unfold Connection_handle_control_packet. pose proof Hc as (_ & _ & _ & Hst).
  destruct (cp_control_type ctrl) as [cif| |n a|l| | |n|m f t| |p|p] eqn:Ect; try (by intros [= <-]);
    try by apply handle_transmission_control_typed.
  - by apply (handshake_packet_typed o).
  - intros [= <-]. by apply close_with_typed.
  - unfold Connection_handle_kmreq. destruct (cn_state c) as [hs pd ed|s r [e|]|]; try by intros [= <-].
    destruct (Crypto_handle_kmreq e p) as [[e1 out]|]; [|done]. cbn [mbind panicking_bind]. intros [= <-].
    destruct out; [apply typed_push; [|done]|]; by apply typed_state.
  - intros [= <-]. unfold Connection_handle_kmrsp. destruct (cn_state c) as [hs pd ed|s r [e|]|]; try done.
    destruct (Crypto_handle_kmrsp e p). by apply typed_state.
Qed.

Lemma handle_data_packet_typed c now d c' :
  Connection_typed c -> SeqNumber_wf (dp_seq d) -> Connection_handle_data_packet c now d = Ret c' -> Connection_typed c'.
Proof.
  intros Hc Hd. unfold Connection_handle_data_packet. cbv zeta. cn.
  set (c0 := c <| cn_last_data := now |>). assert (Hc0 : Connection_typed c0) by exact Hc.
  pose proof Hc as (_ & _ & _ & Hst). clearbody c0.
  destruct (cn_state c) as [hs pend early|s r e|] eqn:Es; [| |done].
  - destruct Hst as [Hct He]. intros [= <-]. case_if; [done|]. case_if; [|done]. apply typed_state; [done|].
    split; [done|]. apply Forall_app. split; [done|by constructor].
  - destruct Hst as [Hs Hr]. destruct (ingest_data now r e d) as [[r1 e1]|] eqn:Hi; [|done]. cbn [mbind panicking_bind].
    apply ingest_data_typed in Hi; [|done|done]. intros [= <-].
    assert (H1 : Connection_typed (c0 <| cn_state := StEstablished s r1 e1 |>)) by by apply typed_state.
    case_if; [by apply close_with_typed|done].
Qed.

Lemma handle_datagram_typed o c now dg rng c' :
  Connection_wf o c -> Connection_typed c -> Forall is_u8 dg -> Rng_ok rng ->
  Connection_handle_datagram c now dg rng = Ret c' -> Connection_typed c'.
Proof.
  intros Hwf Hc Hdg Hrng. unfold Connection_handle_datagram.
  destruct (Packet_parse dg) as [[p|err]|] eqn:Hp; [| |done]; cbn [mbind panicking_bind].
  2: { destruct err; by intros [= <-]. }
  unfold Connection_handle_packet. set (c1 := Connection_touch c now).
  assert (H1 : Connection_typed c1) by exact Hc.
  assert (Hwf1 : Connection_wf o c1) by by apply (wf_same o c).
  clearbody c1. destruct (cn_state c); [| |by intros [= <-]]; (case_if; [by intros [= <-]|]);
    (destruct p as [d|ctrl]; [apply handle_data_packet_typed; [done|by apply (parsed_data_seq dg)]|
      apply (handle_control_packet_typed o); [done|done|by apply (parsed_control_typed dg)|done]]).
Qed.

Lemma handle_timer_typed c now c' : Connection_typed c -> Connection_handle_timer c now = Ret c' -> Connection_typed c'.
Proof.
  intros Hc. unfold Connection_handle_timer. pose proof Hc as (_ & _ & _ & Hst).
  destruct (cn_state c) as [hs pend early|s r e|]; [| |by intros [= <-]].
  - intros [= <-]. case_if; [by apply close_with_typed|done].
  - destruct Hst as [Hs Hr]. destruct (Sender_on_timer s now) as [s1|] eqn:Ht; [|done]. cbn [mbind panicking_bind].
    apply on_timer_typed in Ht; [|done]. destruct (on_timer_same r now Hr) as (Hb & Hl & Hw).
    assert (Hr1 : Receiver_typed (Receiver_on_timer r now)) by by apply (typed_same_buffer r).
    destruct (exp_check c (Receiver_on_timer r now) now) as [n idle]. cbv zeta.
    set (c1 := c <| cn_state := _ |> <| cn_exp_count := n |>).
    assert (H1 : Connection_typed c1) by exact (typed_state c (StEstablished s1 (Receiver_on_timer r now) e) Hc (conj Ht Hr1)).
    clearbody c1. intros [= <-].
    set (c2 := if _ && (KEEPALIVE_INTERVAL <=? _) then _ else c1).
    assert (H2 : Connection_typed c2).
    { subst c2. case_if; [|done]. exact (typed_push c1 (control KeepAlive) H1 I). }
    clearbody c2. repeat case_if; repeat apply close_with_typed; done.
Qed.

Lemma timestamp_u32 tb now : is_u32 (Timebase_timestamp tb now).
Proof. apply as_u32_range. Qed.

(** What a packet needs before it is stamped. *)
Definition sendable (p : Packet) : Prop :=
  match p with
  | Control cp => ControlType_wf (cp_control_type cp)
  | Data d => SeqNumber_wf (dp_seq d) /\ MsgNumber_wf (dp_msg_number d) /\ is_u32 (dp_timestamp d)
  end.

Lemma stamp_wf c now p : Connection_typed c -> sendable p -> Packet_wf (stamp c now p).
Proof.
  intros (Hid & _) Hp. destruct p as [d|cp]; cbn in *.
  - destruct Hp as (? & ? & ?). by split; [|split; [|split]].
  - split; [apply timestamp_u32|]. split; [|done]. cbn. unfold control_dst, SocketId_HANDSHAKE.
    destruct (cp_control_type cp), (cn_state c); done || (unfold is_u32 in *; lia).
Qed.

Lemma next_transmit_typed o c now c' p :
  Connection_wf o c -> Connection_typed c -> Connection_next_transmit c now = Ret (c', p) ->
  Connection_typed c' /\ match p with Some p => sendable p | None => True end.
Proof.
  intros (_ & _ & Hwf) Hc. unfold Connection_next_transmit. pose proof Hc as (Hid & Hq & Hh & Hst).
  destruct (cn_transmit_q c) as [|q0 q] eqn:Eq.
  2: { intros [= <- <-]. apply Forall_cons in Hq as [Hq0 Hq]. split; [by split; [|split; [|split]]|]. by destruct q0. }
  destruct (cn_state c) as [hs pend early|s r e|] eqn:Es; [| |by intros [= <- <-]].
  - destruct (CallerHandshake_poll_transmit hs now) as [hs1 out] eqn:Hp. destruct Hst as [Hct He].
    apply caller_poll_typed in Hp as [Hct1 Ho]; [|done]. intros [= <- <-].
    split; [by apply typed_state|]. by destruct out as [[]|].
  - destruct Hst as [Hs Hr]. destruct Hwf as (Hsw & _). unfold Receiver_poll_control.
    pose proof Hr as ((? & ? & ? & ? & ? & Hrq) & Hcur & Hl).
    destruct (rv_control_q r) as [|ct rq] eqn:Erq.
    2: { apply Forall_cons in Hrq as [Hct Hrq]. intros [= <- <-]. split; [|done]. apply typed_state; [done|].
         split; [done|]. split; [|done]. by do 5 (split; [done|]). }
    unfold Sender_poll_control. pose proof Hs as Hsq. unfold Sender_typed in Hsq.
    destruct (sn_control_queue s) as [|ct sq] eqn:Esq.
    2: { apply Forall_cons in Hsq as [Hct Hsq]. intros [= <- <-]. split; [|done]. by apply typed_state. }
    destruct (Sender_poll_transmit s now) as [[s1 out]|] eqn:Hp; [|done]. cbn [mbind panicking_bind]. intros [= <- <-].
    pose proof (Sender_poll_transmit_control _ _ _ _ Hp) as Ecq. split.
    + apply typed_state; [done|]. split; [by apply (sender_typed_same s)|done].
    + destruct out as [pkt|]; [|done]. by apply (poll_transmit_typed s now s1).
Qed.

(** What one call must be given, and what it sends. *)
Definition event_typed (ev : conn_event) : Prop :=
  match ev with EvDatagram _ dg rng => Forall is_u8 dg /\ Rng_ok rng | _ => True end.

Definition output_typed (out : conn_output) : Prop :=
  match out with OutPacket (Some p) => Packet_wf p | _ => True end.

Lemma conn_step_typed o c ev c' out :
  Connection_wf o c -> Connection_typed c -> event_typed ev -> conn_step c ev = Ret (c', out) ->
  Connection_typed c' /\ output_typed out.
Proof.
  intros Hwf Hc Hev. pose proof Hc as (_ & _ & _ & Hst).
  destruct ev as [now dg rng|now|now payload|now|now|now|t ts]; cbn [conn_step].
  - destruct (Connection_handle_datagram c now dg rng) as [c1|] eqn:Hd; [|done]. intros [= <- <-]. split; [|done].
    destruct Hev. by apply (handle_datagram_typed o) in Hd.
  - destruct (Connection_handle_timer c now) as [c1|] eqn:Hd; [|done]. intros [= <- <-]. split; [|done].
    by apply handle_timer_typed in Hd.
  - unfold Connection_send. destruct (cn_state c) as [hs pd ed|s r e|]; [| |by intros [= <- <-]].
    + case_if; intros [= <- <-]; (split; [|done]); [done|]. by apply typed_state.
    + destruct Hst as [Hs Hr]. destruct (Sender_push s now payload e) as [[[s1 e1] res]|] eqn:Hp; [|done].
      apply push_typed in Hp; [|done]. intros [= <- <-]. split; [|done]. by apply typed_state.
  - intros [= <- <-]. split; [|done]. unfold Connection_close.
    destruct (cn_state c); [by apply close_with_typed..|done].
  - unfold Connection_poll_transmit. destruct (Connection_next_transmit c now) as [[c1 p]|] eqn:Hn; [|done].
    apply (next_transmit_typed o) in Hn as [Hc1 Hp]; [|done|done]. cbn [mbind panicking_bind].
    destruct p as [p|]; intros [= <- <-]; [|done]. split; [exact Hc1|]. by apply stamp_wf.
  - unfold Connection_poll_deliver. destruct (cn_state c) as [hs pd ed|s r e|rs [r|]]; try by intros [= <- <-].
    + destruct Hst as [Hs Hr]. unfold Receiver_poll_deliver. destruct (rv_anchor r) as [a|].
      * destruct (Receiver_deliver_loop _ r a now) as [[r1 p]|] eqn:Hd; [|done]. apply deliver_loop_typed in Hd; [|done].
        intros [= <- <-]. split; [|done]. by apply typed_state.
      * intros [= <- <-]. split; [|done]. by apply typed_state.
    + destruct (Receiver_poll_deliver r now) as [[r1 p]|]; [|done]. intros [= <- <-]. split; [|done]. by apply typed_state.
  - intros [= <- <-]. split; [|done]. unfold Connection_set_hs_anchor.
    destruct (cn_state c) as [hs pd ed|s r e|]; [done| |done]. destruct Hst. apply typed_state; [done|].
    split; [done|by apply set_hs_anchor_typed].
Qed.

Lemma conn_run_typed o evs : forall c,
  Connection_wf o c -> Connection_typed c -> Forall event_typed evs ->
  exists c' outs, conn_run c evs = Ret (c', outs) /\ Forall output_typed outs.
Proof.
  induction evs as [|ev evs IH]; intros c Hwf Hc Hevs; [by eexists _, _; split|]. cbn [conn_run].
  apply Forall_cons in Hevs as [Hev Hevs].
  destruct (conn_step_ok o c ev Hwf) as (c1 & out & Hs & Hwf1); [destruct ev; try done; apply Hev|].
  rewrite Hs. cbn [mbind panicking_bind]. apply (conn_step_typed o) in Hs as [Hc1 Ho]; [|done..].
  destruct (IH c1 Hwf1 Hc1 Hevs) as (c2 & outs & -> & Hos). eexists _, _. split; [done|]. by constructor.
Qed.

End Typed.

(** ** Lemmas: how a connection starts *)

Section Starts.
Context `{CryptoLaws} `{CookieHash}.

(** The accepted conclusion is answered with the key material it brought. *)
Lemma accepted_is_accept l t from cif id reply ng :
  Listener_handle_handshake l t from cif id = Ret (Accept reply ng) ->
  32 <= hs_mss cif /\ exists f e km, Listener_accept l t from cif id f e km = Accept reply ng /\
    (km = None \/ km = find_km_req cif).
Proof.
  unfold Listener_handle_handshake. destruct (hs_handshake_type cif); try done.
  unfold Listener_on_conclusion. destruct (cif_valid cif) eqn:Hv; cbn [negb]; [|done].
  unfold cif_valid in Hv. to_prop. case_if; [done|]. case_if; [done|]. case_if; [done|].
  destruct (HandshakeCif_hs_ext cif) as [f|]; [|done]. cbn [expect mbind panicking_bind].
  case_if; [done|]. case_if; [done|]. destruct (blocks_rejection _); [done|].
  destruct (ls_crypto_cfg l) as [cfg|]; [|done].
  destruct (Listener_kmx cfg (find_km_req cif)) as [[[e km]|]|] eqn:Hk; [|done..]. cbn [mbind panicking_bind].
  intros [= Ha]. split; [lia|]. exists f, e, km. split; [done|]. revert Hk. unfold Listener_kmx.
  destruct cfg as [cfg|], (find_km_req cif) as [k|]; try done; [|intros [= _ <-]; by left].
  destruct (Crypto_new_responder cfg k) as [[r|]|]; try done. intros [= _ <-]. by right.
Qed.

Lemma find_km_req_typed cif km : cif_typed cif -> find_km_req cif = Some km -> words_ok km.
Proof.
  intros (_ & _ & _ & _ & He). unfold find_km_req. induction (hs_extensions cif) as [|e es IH]; [done|].
  apply Forall_cons in He as [He Hes]. cbn. destruct e; try by apply IH. by intros [= <-].
Qed.

(** Where a connection comes from, with what its surroundings guarantee: an
    IPv4 address, ids and sequence numbers of their width, and a conclusion
    that came in a datagram of bytes. *)
Inductive wire_start (o : SrtOptions) : Connection -> Prop :=
| WireConnect now remote id isn tb :
    SrtOptions_wf o -> 0 <= isn < SeqNumber_MASK -> is_u32 id -> length (sa_ip remote) = 4%nat ->
    wire_start o (Connection_connect_with_timebase now remote id isn o tb)
| WireAccepted l t from dg ctrl cif id reply ng now tb :
    SrtOptions_wf (ls_opts l) -> Forall is_u8 dg -> Packet_parse dg = pok (Control ctrl) ->
    cp_control_type ctrl = Handshake cif -> is_u32 id -> length (sa_ip from) = 4%nat ->
    Listener_handle_handshake l t from cif id = Ret (Accept reply ng) ->
    wire_start o (Connection_accepted_with_timebase now ng reply o tb).

Lemma wire_start_conn o c : wire_start o c -> conn_start o c.
Proof.
  intros [now remote id isn tb _ Hi _ _|l t from dg ctrl cif id reply ng now tb _ _ Hp Hct _ _ Ha].
  - apply StartConnect. unfold SeqNumber_wf, SeqNumber_MASK in *. lia.
  - apply (StartAccepted o l t from cif id); [done|]. by apply (parsed_handshake_seq dg ctrl).
Qed.

Lemma wire_start_typed o c : wire_start o c -> Connection_typed c.
Proof.
  intros [now remote id isn tb Ho Hi Hid Hip|l t from dg ctrl cif id reply ng now tb Ho Hdg Hp Hct Hid Hip Ha].
  - split; [done|]. split; [done|]. split; [done|]. split; [|done].
    unfold CallerHandshake_new. destruct (SrtOptions_crypto_config o) as [cfg|]; cbn;
      (split; [by do 5 (split; [done|])|done]).
  - apply parsed_control_typed in Hp; [|done]. rewrite Hct in Hp. cbn in Hp.
    apply accepted_is_accept in Ha as (Hm & f & e & km & Ha & Hkm). pose proof Hp as (Hsid & Hck & Hmss & Hseq & _).
    destruct (accept_response l t from cif id f e km) as (r & Ha' & Hr & _); try done.
    { split; [lia|]. apply Hmss. }
    { destruct Hkm as [->| ->]; [done|]. destruct (find_km_req cif) eqn:Hf; [|done]. by apply (find_km_req_typed cif). }
    rewrite Ha in Ha'. injection Ha' as -> ->. unfold Connection_accepted_with_timebase.
    match goal with |- context [transmission_pair ?a ?b ?c ?d] =>
      pose proof (transmission_pair_typed a b c d) as Hpair; destruct (transmission_pair a b c d) as [s rv] end.
    destruct Hpair as [Hs Hrv]; [cbn; unfold SeqNumber_wf, SeqNumber_MASK in *; lia|].
    split; [exact Hsid|]. split; [by constructor|]. by split.
Qed.

End Starts.

(** ** Properties *)

(** C10: whatever a peer sends and whatever the application and the timers
    do, a connection that was opened or accepted runs without a panic and
    every packet it hands out to be sent is well-typed: sequence and message
    numbers, socket ids, timestamps, acknowledgement words and the lengths of
    handshake blocks have their widths, loss ranges are in order, and an ACK
    has one of the three shapes of the protocol.  So the encoded datagram
    parses back to exactly that packet. *)
Theorem sent_packets_parse_back `{CryptoLaws} `{CookieHash} (o : SrtOptions) (c : Connection)
    (evs : list conn_event) :
  Options_wf o -> wire_start o c -> Forall event_typed evs ->
  exists c' outs, conn_run c evs = Ret (c', outs) /\
    Forall (fun out => match out with
                       | OutPacket (Some p) => Packet_wf p /\ Packet_parse (Packet_encode p []) = pok p
                       | _ => True
                       end) outs.
Proof.
  intros Ho Hs Hevs.
  destruct (conn_run_typed o evs c (conn_start_wf o c Ho (wire_start_conn o c Hs)) (wire_start_typed o c Hs) Hevs)
    as (c' & outs & Hr & Hf).
  exists c', outs. split; [done|]. eapply Forall_impl; [exact Hf|].
  intros [| | [p|] | ]; try done. intros Hp. split; [exact Hp|by apply Packet_parse_encode].
Qed.

(** ** Witnesses *)

Section Witnesses.

#[local] Existing Instance toy_primitives.
#[local] Existing Instance toy_laws.
#[local] Existing Instance toy_cookie.

(** A caller sends its induction, which parses back; a garbled datagram
    arrives in between. *)
Lemma sent_packets_parse_back_witness :
  let evs := [EvTransmit 0; EvDatagram 1 [128; 0; 7] demo_rng; EvTransmit (from_millis 300)] in
  exists c' p1 p2, conn_run demo_caller evs = Ret (c', [OutPacket (Some p1); OutNone; OutPacket (Some p2)]) /\
    Packet_parse (Packet_encode p1 []) = pok p1 /\ Packet_parse (Packet_encode p2 []) = pok p2 /\
    Packet_wf p1 /\ Packet_wf p2.
Proof.
  intros evs. destruct (sent_packets_parse_back SrtOptions_default demo_caller evs) as (c' & outs & Hr & Hf).
  - by split; [|split; [|cbn; lia]].
  - apply WireConnect; [|split; [discriminate|reflexivity]|split; [discriminate|reflexivity]|reflexivity].
    split; [split; [discriminate|reflexivity]|]. split; [split; [discriminate|reflexivity]|].
    split; [discriminate|]. split; [discriminate|exact I].
  - constructor; [exact I|]. constructor; [|constructor; [exact I|constructor]].
    split; [repeat (constructor; [split; [discriminate|reflexivity]|]); constructor|].
    split; [|split]; intros n; apply length_replicate.
  - assert (Ho : exists c0 p1 p2, conn_run demo_caller evs = Ret (c0, [OutPacket (Some p1); OutNone; OutPacket (Some p2)]))
      by (eexists _, _, _; vm_compute; reflexivity).
    destruct Ho as (c0 & p1 & p2 & Ho). rewrite Ho in Hr. injection Hr as _ <-. exists c0, p1, p2. split; [exact Ho|].
    apply Forall_cons in Hf as [[Hw1 Hp1] Hf]. apply Forall_cons in Hf as [_ Hf]. apply Forall_cons in Hf as [[Hw2 Hp2] _].
    split; [exact Hp1|]. split; [exact Hp2|]. split; [exact Hw1|exact Hw2].
Defined.

End Witnesses.
