(* ===== verification/ConnectionTrace.v ===== *)
(** * One call on an established connection: [src/core/mod.rs]

    What a call of [Connection] does to the sender, the receiver and the
    encryption engine it owns: how the dispatch of datagrams, timers, sends
    and polls reaches the three machines.  The theorems on whole connections
    are proved from this description. *)

From S2P Require Import Prelude PacketTypes PacketData PacketHandshake PacketControl Time CryptoKeys CryptoContext Cipher Options Pacing Sender LossList Receiver ReceiverTotal CoreHandshake Connection ConnectionLife.

(** ** The receiver's slots *)

(** The payload of a slot, unless it could not be decrypted. *)
Definition readable (s : RcvSlot) : option bytes := if sl_undecryptable s then None else Some (sl_payload s).

(** The scan for the first packet does not start behind it, and a buffered
    packet has an anchor to be timed by. *)
Definition found (r : Receiver) : Prop :=
  forall i s, rv_slots r !! i = Some (Some s) -> (rv_scan_hint r <= i)%nat /\ rv_anchor r <> None.

(** The packets the receiver gave up, as its statistics count them. *)
Definition given_up (r : Receiver) : Z := rs_pkts_dropped (rv_stats r).

(** The limits of the buffer. *)
Definition same_config (r r' : Receiver) : Prop := rv_cfg r' = rv_cfg r /\ rv_max_payload r' = rv_max_payload r.

Definition count (out : option bytes) : Z := match out with Some _ => 1 | None => 0 end.

(** From [r] to [r'] the base moves over [k] slots, the last of which is
    occupied and the one delivered; the others are given up.  A packet in the
    buffer was there or is one that [new] admits with its sequence number,
    and under [keep] a packet leaves the buffer only over the base. *)
Definition slots_move (keep : Prop) (new : Z -> option bytes -> Prop) (r r' : Receiver) (out : option bytes) : Prop :=
  exists k, (k <= length (rv_slots r))%nat /\
    rv_base_seq r' = SeqNumber_add (rv_base_seq r) (Z.of_nat k) /\ SeqNumber_wf (rv_base_seq r') /\
    (forall p, out = Some p -> exists j s, k = S j /\ rv_slots r !! j = Some (Some s) /\
       readable s = Some p) /\
    (forall i s, rv_slots r' !! i = Some (Some s) ->
       rv_slots r !! (k + i)%nat = Some (Some s) \/
       new (SeqNumber_add (rv_base_seq r') (Z.of_nat i)) (readable s)) /\
    (k = O \/ exists j s, k = S j /\ rv_slots r !! j = Some (Some s)) /\
    given_up r' + count out = given_up r + Z.of_nat k /\
    (found r -> found r') /\ same_config r r' /\
    (keep -> forall i s, rv_slots r !! (k + i)%nat = Some (Some s) -> rv_slots r' !! i = Some (Some s)).

(** No packet arrives. *)
Definition no_arrival (seq : Z) (payload : option bytes) : Prop := False.

Lemma slots_same (keep : Prop) new r r' :
  SeqNumber_wf (rv_base_seq r) -> rv_base_seq r' = rv_base_seq r -> given_up r' = given_up r ->
  (found r -> found r') -> same_config r r' ->
  (forall i s, rv_slots r' !! i = Some (Some s) -> rv_slots r !! i = Some (Some s)) ->
  (keep -> rv_slots r' = rv_slots r) -> slots_move keep new r r' None.
Proof.
  intros Hb E Hg Hf Hc Hs Hk. exists O. rewrite E, SeqNumber_add_0 by done. split; [lia|]. split; [done|]. split; [done|].
  split; [done|]. split; [|split; [by left|]].
  - intros i s Hi. left. by apply Hs.
  - split; [cbn; lia|]. do 2 (split; [done|]). intros Hkeep i s. by rewrite Hk.
Qed.

(** Nothing about the buffer changes. *)
Definition same_slots (r r' : Receiver) : Prop :=
  rv_base_seq r' = rv_base_seq r /\ rv_slots r' = rv_slots r /\ rv_scan_hint r' = rv_scan_hint r /\
  rv_anchor r' = rv_anchor r /\ given_up r' = given_up r /\ same_config r r'.

Lemma same_slots_trans r1 r2 r3 : same_slots r1 r2 -> same_slots r2 r3 -> same_slots r1 r3.
Proof. unfold same_slots, same_config. intuition congruence. Qed.

Lemma slots_equal keep new r r' :
  SeqNumber_wf (rv_base_seq r) -> same_slots r r' -> slots_move keep new r r' None.
Proof.
  intros Hb (E1 & E2 & E3 & E4 & E5 & E6). apply slots_same; try done; [|by rewrite E2].
  unfold found. by rewrite E2, E3, E4.
Qed.

Lemma on_timer_slots r now : same_slots r (Receiver_on_timer r now).
Proof.
  unfold Receiver_on_timer. set (r1 := if rv_next_full_ack r <=? now then _ else r).
  assert (Hs : same_slots r r1).
  { subst r1. case_if; [|done]. unfold Receiver_queue_full_ack, Receiver_full_ack_due.
    repeat (case_if; rv; try done). }
  clearbody r1. apply (same_slots_trans r r1); [done|]. destruct (rv_loss r1); [done|]. case_if; [|done].
  unfold Receiver_queue_nak. by destruct (Receiver_nak_ranges r1).
Qed.

Lemma handle_ackack_slots r now n ts r' : Receiver_handle_ackack r now n ts = Ret r' -> same_slots r r'.
Proof.
  unfold Receiver_handle_ackack. destruct (position _ _) as [p|]; [|by intros [= <-]].
  destruct (index _ _) as [rec|]; [|done]. cbn [mbind panicking_bind]. case_if; [by intros [= <-]|].
  match goal with |- context [Receiver_rtt_sample ?x ?y] => set (r1 := Receiver_rtt_sample x y) end.
  assert (Hs1 : same_slots r r1) by (subst r1; unfold Receiver_rtt_sample; by case_if).
  clearbody r1.
  set (r2 := if 0 <? SeqNumber_diff (ar_seq rec) (rv_rcv_last_ackack r1) then _ else r1).
  assert (Hs2 : same_slots r r2) by (apply (same_slots_trans r r1); [done|]; subst r2; by case_if).
  clearbody r2. destruct (rv_anchor r2); [|by intros [= <-]].
  destruct (TimestampExtender_extend _ _ _). destruct (DriftTracer_sample _ _). intros [= <-].
  by apply (same_slots_trans r r2).
Qed.

Lemma handle_dropreq_slots r msg first last r' :
  Receiver_handle_dropreq r msg first last = Ret r' ->
  rv_base_seq r' = rv_base_seq r /\ given_up r' = given_up r /\ (found r -> found r') /\ same_config r r' /\
  forall i s, rv_slots r' !! i = Some (Some s) -> rv_slots r !! i = Some (Some s).
Proof.
  assert (Hfin : forall r', rv_base_seq r' = rv_base_seq r -> given_up r' = given_up r -> rv_anchor r' = rv_anchor r ->
    rv_scan_hint r' = rv_scan_hint r -> same_config r r' ->
    (forall i s, rv_slots r' !! i = Some (Some s) -> rv_slots r !! i = Some (Some s)) ->
    rv_base_seq r' = rv_base_seq r /\ given_up r' = given_up r /\ (found r -> found r') /\ same_config r r' /\
    forall i s, rv_slots r' !! i = Some (Some s) -> rv_slots r !! i = Some (Some s)).
  { intros r1 ? ? E1 E2 ? Hs. split_and!; try done. intros Hf i s Hi. rewrite E1, E2. by apply (Hf i s), Hs. }
  unfold Receiver_handle_dropreq. case_if; [by intros [= <-]|]. case_if; rv.
  - match goal with |- context [drop_message ?f ?sl ?i ?hi ?m] =>
      destruct (drop_message_spec m hi f sl i) as (slots & -> & Hl & Hs); [lia..|] end.
    cbn [mbind panicking_bind]. intros [= <-]. case_if; apply Hfin; try done; rv; intros i s; rewrite Hs; by case_if.
  - cbn [mbind panicking_bind]. intros [= <-]. case_if; by apply Hfin.
Qed.

(** What storing a packet does to the buffer: the others stay, and the packet
    is there if it is neither belated nor beyond the buffer. *)
Record packet_stored (r r' : Receiver) (pkt : DataPacket) (u : bool) : Prop := mkPacketStored {
  ps_base : rv_base_seq r' = rv_base_seq r;
  ps_cfg : same_config r r';
  ps_given_up : given_up r' = given_up r;
  ps_found : found r -> found r';
  ps_kept : forall i s, rv_slots r !! i = Some (Some s) -> rv_slots r' !! i = Some (Some s);
  ps_new : forall i s, rv_slots r' !! i = Some (Some s) -> rv_slots r !! i = Some (Some s) \/
    (dp_seq pkt = SeqNumber_add (rv_base_seq r) (Z.of_nat i) /\ sl_payload s = dp_payload pkt /\ sl_undecryptable s = u);
  ps_there : 0 <= SeqNumber_diff (dp_seq pkt) (rv_base_seq r) < Z.of_nat (rc_buffer_pkts (rv_cfg r)) ->
    exists s, rv_slots r' !! Z.to_nat (SeqNumber_diff (dp_seq pkt) (rv_base_seq r)) = Some (Some s)
}.

Lemma packet_stored_same r r1 r2 pkt u :
  same_slots r1 r2 -> packet_stored r r1 pkt u -> packet_stored r r2 pkt u.
Proof.
  intros (E1 & E2 & E3 & E4 & E5 & E6 & E7) []. split; unfold found, same_config in *;
    rewrite ?E1, ?E2, ?E3, ?E4, ?E5, ?E6, ?E7; done.
Qed.

Lemma store_data_slots r pkt ext u r' :
  SeqNumber_wf (dp_seq pkt) -> rv_anchor r <> None -> Receiver_store_data r pkt ext u = Ret r' -> packet_stored r r' pkt u.
Proof.
  intros Hseq Hanchor. unfold Receiver_store_data.
  destruct (Z.ltb_spec (SeqNumber_diff (dp_seq pkt) (rv_base_seq r)) 0) as [|Hpos];
    [intros [= <-]; split; try done; [by left|lia]|]. cbv zeta.
  destruct (Nat.leb_spec (rc_buffer_pkts (rv_cfg r)) (Z.to_nat (SeqNumber_diff (dp_seq pkt) (rv_base_seq r)))) as [|Hin];
    [intros [= <-]; case_if; split; try done; try (by left); lia|].
  set (o := Z.to_nat _) in *. set (r1 := if (length (rv_slots r) <=? o)%nat then _ else r).
  assert (H1 : rv_base_seq r1 = rv_base_seq r /\ same_config r r1 /\ given_up r1 = given_up r /\
    rv_anchor r1 = rv_anchor r /\ rv_scan_hint r1 = rv_scan_hint r /\ (o < length (rv_slots r1))%nat /\
    forall i s, rv_slots r1 !! i = Some (Some s) <-> rv_slots r !! i = Some (Some s)).
  { subst r1. destruct (Nat.leb_spec (length (rv_slots r)) o) as [Hl|Hl]; [|done]. rv. rewrite length_app, length_replicate.
    do 5 (split; [done|]). split; [lia|]. intros i s. split; [apply lookup_resize|]. intros Hi. by apply lookup_app_l_Some. }
  clearbody r1. destruct H1 as (E1 & E2 & E3 & E4 & E5 & Hlen & Hsl).
  unfold index. destruct (lookup_lt_is_Some_2 _ _ Hlen) as [old Hold]. rewrite Hold. cbn [expect mbind panicking_bind].
  destruct old as [s0|]; cbn [slot_empty negb].
  { intros [= <-]. split; try done.
    - intros Hf i s Hi. rewrite E4, E5. by apply (Hf i s), Hsl.
    - intros i s. by rewrite Hsl.
    - intros i s. rewrite Hsl. by left.
    - intros _. by exists s0. }
  set (r2 := Receiver_detect_gap r1 (dp_seq pkt) u).
  assert (H2 : same_slots r1 r2).
  { subst r2. unfold Receiver_detect_gap. case_if; [|done]. by destruct u. }
  clearbody r2. destruct H2 as (F1 & F2 & F3 & F4 & F5 & F6). set (slot := mkRcvSlot _ _ _ _).
  assert (Hgoal : forall r3, rv_base_seq r3 = rv_base_seq r2 -> same_config r2 r3 -> given_up r3 = given_up r2 ->
    rv_anchor r3 = rv_anchor r2 -> rv_scan_hint r3 = Nat.min (rv_scan_hint r2) o ->
    rv_slots r3 = <[o := Some slot]> (rv_slots r2) -> packet_stored r r3 pkt u).
  { intros r3 G1 G2 G3 G4 G5 G6. rewrite F2 in G6. split; rewrite ?G6; [congruence| |congruence|..].
    - destruct F6, G2. unfold same_config in *. intuition congruence.
    - intros Hf i s. rewrite G6, G4, G5, F3, F4, E4, E5. intros Hi. apply list_lookup_insert_Some in Hi as [(<- & _)|[_ Hi]];
        [split; [lia|done]|]. apply Hsl in Hi. destruct (Hf i s Hi). split; [lia|done].
    - intros i s Hi. rewrite list_lookup_insert_ne by (intros ->; apply Hsl in Hi; congruence). by apply Hsl.
    - intros i s Hi. apply list_lookup_insert_Some in Hi as [(Eo & [= <-] & _)|[_ Hi]]; [right|left; by apply Hsl].
      rewrite <- Eo. unfold o. rewrite Z2Nat.id by lia. split; [|done]. symmetry. by apply SeqNumber_add_diff.
    - intros _. exists slot. by rewrite list_lookup_insert_eq. }
  intros [= <-]. destruct u, (0 <? SeqNumber_diff (dp_seq pkt) (rv_rcv_curr_seq r2)); by apply Hgoal.
Qed.

Lemma ingest_stored r now pkt u r' :
  SeqNumber_wf (dp_seq pkt) -> Receiver_ingest r now pkt u = Ret r' ->
  if (rv_max_payload r <? length (dp_payload pkt))%nat then same_slots r r'
  else packet_stored r r' pkt u.
Proof.
  intros Hseq. unfold Receiver_ingest. case_if; [by intros [= <-]|].
  destruct (TimestampExtender_extend _ _ _) as [ext ext_us].
  match goal with |- context [Receiver_store_data ?x] => set (r1 := x) end.
  assert (H1 : rv_base_seq r1 = rv_base_seq r /\ rv_slots r1 = rv_slots r /\ same_config r r1 /\
    given_up r1 = given_up r /\ rv_scan_hint r1 = rv_scan_hint r /\ rv_anchor r1 <> None).
  { subst r1. rv. destruct (rv_anchor r) eqn:Ha; rv; (split_and!; [done..|]); congruence. }
  clearbody r1. destruct H1 as (E1 & E2 & E3 & E4 & E5 & Ha).
  destruct (Receiver_store_data r1 pkt ext_us u) as [r2|] eqn:Hst; [|done]. cbn [mbind panicking_bind].
  apply store_data_slots in Hst; [|done..]. intros [= <-].
  assert (Hst' : packet_stored r r2 pkt u).
  { pose proof E3 as [F1 F2]. destruct Hst as [G1 [G2 G3] ? ps_found0 ? ? ?].
    split; unfold same_config; rewrite <- ?E1, <- ?E2, <- ?F1, <- ?F2, <- ?E4; try done. intros Hf. apply ps_found0.
    intros i s Hi. rewrite E5. rewrite E2 in Hi. split; [by apply (Hf i s)|done]. }
  case_if; [|done]. apply (packet_stored_same r r2); [..|done]; unfold Receiver_queue_light_ack; by case_if.
Qed.

Lemma ingest_slots keep new r now pkt (u : bool) r' :
  SeqNumber_wf (rv_base_seq r) -> SeqNumber_wf (dp_seq pkt) -> new (dp_seq pkt) (if u then None else Some (dp_payload pkt)) ->
  Receiver_ingest r now pkt u = Ret r' -> slots_move keep new r r' None.
Proof.
  intros Hb Hseq Hnew Hin. apply ingest_stored in Hin; [|done]. revert Hin. case_if; [intros ?; by apply slots_equal|].
  intros [E1 Hcfg E2 Hf Hk Hs _]. exists O. rewrite E1, E2, SeqNumber_add_0 by done. split; [lia|]. do 3 (split; [done|]). split.
  - intros i s Hi. unfold readable. destruct (Hs i s Hi) as [?|(E & Ep & ->)]; [by left|right]. by rewrite <- E, Ep.
  - split; [by left|]. split; [cbn; lia|]. do 2 (split; [done|]). intros _. apply Hk.
Qed.

(** Emptying the buffer up to its first packet. *)
Lemma slots_move_head keep r r' k s out :
  rv_slots r !! k = Some (Some s) -> rv_slots r' = drop (S k) (rv_slots r) ->
  rv_base_seq r' = SeqNumber_add (rv_base_seq r) (Z.of_nat (S k)) -> rv_scan_hint r' = O -> rv_anchor r' = rv_anchor r ->
  same_config r r' -> given_up r' + count out = given_up r + Z.of_nat (S k) -> (forall p, out = Some p -> readable s = Some p) ->
  slots_move keep no_arrival r r' out.
Proof.
  intros Hk Hs Hb Hh Ha Hc Hg Hout. pose proof (lookup_lt_Some _ _ _ Hk). exists (S k). rewrite Hb. split; [lia|].
  split; [done|]. split; [apply SeqNumber_add_wf|]. split; [intros p E; exists k, s; eauto|].
  split; [intros i s2; rewrite Hs, lookup_drop; by left|]. split; [right; by exists k, s|]. split; [done|].
  split; [|split; [done|intros _ i s2; by rewrite Hs, lookup_drop]]. intros Hf i s2. rewrite Hs, Hh, Ha, lookup_drop. intros Hi.
  split; [lia|by apply (Hf _ _ Hi)].
Qed.

Lemma slots_move_trans keep r1 r2 r3 out :
  slots_move keep no_arrival r1 r2 None -> slots_move keep no_arrival r2 r3 out -> slots_move keep no_arrival r1 r3 out.
Proof.
  intros (k1 & Hk1 & Hb1 & _ & _ & Hn1 & Hl1 & Hg1 & Hf1 & Hc1 & Hp1) (k2 & Hk2 & Hb2 & Hw2 & Ho2 & Hn2 & Hl2 & Hg2 & Hf2 & Hc2 & Hp2).
  assert (Hold : forall i s, rv_slots r2 !! i = Some (Some s) -> rv_slots r1 !! (k1 + i)%nat = Some (Some s))
    by (intros i s Hi; by destruct (Hn1 i s Hi) as [?|[]]).
  exists (k1 + k2)%nat. split.
  { destruct Hl2 as [->|(j & s & -> & Hj)]; [lia|]. apply Hold, lookup_lt_Some in Hj. lia. }
  split; [rewrite Hb2, Hb1, SeqNumber_add_add; f_equal; lia|]. split; [done|]. split; [|split; [|split; [|split; [|split; [|split]]]]].
  - intros p E. destruct (Ho2 p E) as (j & s & -> & Hj & ?). exists (k1 + j)%nat, s. split; [lia|]. split; [by apply Hold|done].
  - intros i s Hi. destruct (Hn2 i s Hi) as [Hi2|[]]. left. rewrite <- Nat.add_assoc. by apply Hold.
  - destruct Hl2 as [->|(j & s & -> & Hj)]; [by rewrite Nat.add_0_r|]. right. exists (k1 + j)%nat, s.
    split; [lia|by apply Hold].
  - unfold count in *. lia.
  - auto.
  - unfold same_config in *. intuition congruence.
  - intros Hkeep i s Hi. apply Hp2, Hp1; [done..|]. by rewrite Nat.add_assoc.
Qed.

Lemma first_occupied_lookup r k :
  first_occupied r = Some k -> exists s, rv_slots r !! k = Some (Some s) /\ (rv_scan_hint r <= k)%nat /\
    forall i s, (rv_scan_hint r <= i < k)%nat -> rv_slots r !! i <> Some (Some s).
Proof.
  unfold first_occupied. destruct (position _ _) as [p|] eqn:Hp; [|done]. cbn [fmap option_fmap option_map]. intros [= <-].
  apply position_lookup in Hp as (o & Ho & Hne & Hmin). rewrite lookup_drop in Ho. destruct o as [s|]; [|done].
  exists s. split; [done|]. split; [lia|]. intros i t Hi Hl.
  specialize (Hmin (i - rv_scan_hint r)%nat (Some t) ltac:(lia)). rewrite lookup_drop in Hmin.
  replace (rv_scan_hint r + (i - rv_scan_hint r))%nat with i in Hmin by lia. by specialize (Hmin Hl).
Qed.

Lemma deliver_loop_slots keep anchor now : forall fuel r r' out,
  SeqNumber_wf (rv_base_seq r) -> Receiver_deliver_loop fuel r anchor now = Ret (r', out) ->
  slots_move keep no_arrival r r' out.
Proof.
  induction fuel as [|fuel IH]; intros r r' out Hb; [done|]. cbn [Receiver_deliver_loop].
  destruct (first_occupied r) as [k|] eqn:Hfirst.
  2: { intros [= <- <-]. apply slots_same; try done. intros Hf i s Hi. exfalso. unfold first_occupied in Hfirst.
       destruct (position _ _) eqn:Hp; [done|]. destruct (Hf i s Hi) as [Hh _].
       pose proof (position_none _ _ Hp (i - rv_scan_hint r)%nat (Some s)) as Hn. rewrite lookup_drop in Hn.
       rv. replace (rv_scan_hint r + (i - rv_scan_hint r))%nat with i in Hn by lia. by specialize (Hn Hi). }
  apply first_occupied_lookup in Hfirst as (s & Hk & Hh & Hmin). rv.
  unfold index. rewrite Hk. cbn [expect mbind panicking_bind].
  case_if.
  { intros [= <- <-]. apply slots_same; try done. intros Hf i t Hi. rv. destruct (Hf i t Hi) as [Hi1 ?]. split; [|done].
    destruct (decide (k <= i)%nat); [done|]. by destruct (Hmin i t ltac:(lia)). }
  set (m := if (0 <? k)%nat then _ else _).
  assert (Hm : forall r1, m = Ret r1 -> rv_slots r1 = drop k (rv_slots r) /\ rv_anchor r1 = rv_anchor r /\ same_config r r1 /\
    rv_base_seq r1 = SeqNumber_add (rv_base_seq r) (Z.of_nat k) /\ given_up r1 = given_up r + Z.of_nat k).
  { intros r1. subst m. destruct (Nat.ltb_spec 0 k) as [Hpos|Hpos].
    - unfold drain_slots. case_if; [|done]. cbn [mbind panicking_bind]. by intros [= <-].
    - assert (k = O) as -> by lia. intros [= <-]. rv. rewrite SeqNumber_add_0 by done. do 4 (split; [done|]).
      unfold given_up. rv. lia. }
  destruct m as [r1|]; [|done]. destruct (Hm r1 eq_refl) as (Hs1 & Ha1 & Hc1 & Hb1 & Hg1). clear Hm. cbn [mbind panicking_bind]. rv.
  rewrite Hs1, head_lookup, lookup_drop, Nat.add_0_r, Hk. cbn [expect mbind panicking_bind]. rv.
  assert (Hnext : SeqNumber_next (rv_base_seq r1) = SeqNumber_add (rv_base_seq r) (Z.of_nat (S k))).
  { rewrite Hb1. unfold SeqNumber_next. rewrite SeqNumber_add_add. f_equal. lia. }
  assert (Hdrop : drop 1 (drop k (rv_slots r)) = drop (S k) (rv_slots r)) by (rewrite drop_drop; f_equal; lia).
  unfold given_up in Hg1. case_if.
  - intros Hd. apply IH in Hd; [|rv; rewrite Hnext; apply SeqNumber_add_wf]. eapply slots_move_trans; [|exact Hd].
    eapply (slots_move_head _ _ _ k s); rv; try done. unfold given_up, count. rv. cbn [set_field rs_pkts_dropped]. lia.
  - intros [= <- <-]. eapply (slots_move_head _ _ _ k s); rv; try done.
    + unfold given_up, count. rv. lia.
    + intros p [= <-]. unfold readable. by case_if.
Qed.

Lemma poll_deliver_slots keep r now r' out :
  SeqNumber_wf (rv_base_seq r) -> Receiver_poll_deliver r now = Ret (r', out) -> slots_move keep no_arrival r r' out.
Proof.
  intros Hb. unfold Receiver_poll_deliver. destruct (rv_anchor r); [by apply deliver_loop_slots|].
  intros [= <- <-]. by apply slots_equal.
Qed.

(** ** The sender's end *)

Lemma handle_ack_end s now n cif s' r :
  Sender_wf s -> Sender_handle_ack s now n cif = Ret (s', r) -> Sender_end s' = Sender_end s.
Proof.
  intros Hwf Ha. pose proof Hwf as (_ & Hb0 & _ & Hn & _).
  destruct (Sender_handle_ack_ok s now n cif Hwf) as (s1 & r1 & Ha1 & _ & _ & Hcase). rewrite Ha in Ha1.
  injection Ha1 as <- <-. destruct (Z.ltb_spec (sn_next_send_index s) (Sender_ext_of s (ack_last_ack_seq cif))) as [Hlt|Hge].
  - revert Ha. unfold Sender_handle_ack. replace (sn_next_send_index s <? _) with true by (symmetry; by apply Z.ltb_lt).
    by intros [= <- _].
  - destruct Hcase as (_ & E1 & E2). unfold Sender_end in *. rewrite E1, E2, length_drop. lia.
Qed.

Lemma handle_nak_end s ranges : Sender_wf s -> Sender_end (Sender_handle_nak s ranges) = Sender_end s.
Proof.
  intros Hwf. destruct (Sender_handle_nak_ok s ranges Hwf) as (_ & _ & E1 & E2 & _). unfold Sender_end. by rewrite E1, E2.
Qed.

Lemma on_timer_end s now s' : Sender_wf s -> Sender_on_timer s now = Ret s' -> Sender_end s' = Sender_end s.
Proof.
  intros Hwf. unfold Sender_on_timer.
  destruct (Sender_check_tlpktdrop_ok s now Hwf) as (s1 & -> & _ & _ & E). cbn [mbind panicking_bind]. by intros [= <-].
Qed.

Lemma rexmit_loop_end fuel now w : forall s s' p,
  Sender_rexmit_loop fuel s now w = Ret (s', p) -> Sender_end s' = Sender_end s.
Proof.
  induction fuel as [|fuel IH]; intros s s' p; [done|]. cbn [Sender_rexmit_loop].
  destruct (pop_first (sn_loss_list s)) as [[idx rest]|]; [|by intros [= <- _]].
  case_if; [intros Hr; by apply IH in Hr|]. sn.
  destruct (index (sn_buffer s) _) as [e|]; [|done]. cbn [mbind panicking_bind].
  destruct (match be_last_rexmit e with Some _ => _ | None => _ end); [intros Hr; by apply IH in Hr|].
  destruct (Sender_packet_at _ _ _); [|done]. cbn [mbind panicking_bind]. intros [= <- _].
  unfold Sender_end. sn. by rewrite length_insert.
Qed.

Lemma poll_transmit_end s now s' p : Sender_poll_transmit s now = Ret (s', p) -> Sender_end s' = Sender_end s.
Proof.
  unfold Sender_poll_transmit. destruct (match sn_pacer s with Some _ => _ | None => _ end) as [pc|]; [|by intros [= <- _]].
  match goal with |- context [Sender_rexmit_loop ?f ?x ?n ?w] =>
    destruct (Sender_rexmit_loop f x n w) as [[s1 [pk|]]|] eqn:Hr end; [| |done];
    apply rexmit_loop_end in Hr; cbn [mbind panicking_bind]; [by intros [= <- _]|].
  case_if; [|by intros [= <- _]]. destruct (Sender_packet_at _ _ _); [|done]. cbn [mbind panicking_bind].
  by intros [= <- _].
Qed.

(** ** One call *)

(** How the encryption engine changes outside of [send]. *)
Inductive engine_step `{CryptoPrimitives} (ev : conn_event) (c : Crypto) : Crypto -> Prop :=
| EngAck now srtt rnd c' km :
    rnd_ok rnd -> Crypto_on_ack c now srtt rnd = Ret (c', km) -> engine_step ev c c'
| EngDecrypt seq kk p : engine_step ev c (fst (fst (Crypto_decrypt c seq kk p)))
| EngKmReq now dg rng ctrl blob c' out :
    ev = EvDatagram now dg rng -> Packet_parse dg = pok (Control ctrl) -> cp_control_type ctrl = KmReq blob ->
    Crypto_handle_kmreq c blob = Ret (c', out) -> engine_step ev c c'
| EngKmRsp now dg rng ctrl blob :
    ev = EvDatagram now dg rng -> Packet_parse dg = pok (Control ctrl) -> cp_control_type ctrl = KmRsp blob ->
    engine_step ev c (fst (Crypto_handle_kmrsp c blob)).

Definition engine_move `{CryptoPrimitives} (ev : conn_event) (e e' : option Crypto) : Prop :=
  e' = e \/ exists c c', e = Some c /\ e' = Some c' /\ engine_step ev c c'.

(** The payload the engine [e] sees in [d]. *)
Definition decrypts `{CryptoPrimitives} (e : option Crypto) (d : DataPacket) (payload : bytes) : Prop :=
  match e with
  | None => dp_encryption d = EncNone /\ payload = dp_payload d
  | Some c => exists c', Crypto_decrypt c (dp_seq d) (dp_encryption d) (dp_payload d) = (c', Ok tt, payload)
  end.

(** [ev] brings a data packet with this sequence number and payload. *)
Definition arrival `{CryptoPrimitives} (ev : conn_event) (e : option Crypto) (seq : Z) (payload : option bytes)
    : Prop :=
  exists now dg rng d, ev = EvDatagram now dg rng /\ Packet_parse dg = pok (Data d) /\ dp_seq d = seq /\
    match payload with Some p => decrypts e d p | None => forall p, ~ decrypts e d p end.

Definition sender_move `{CryptoLaws} (ev : conn_event) (out : conn_output) (s : Sender) (e : option Crypto)
    (s' : Sender) (e' : option Crypto) : Prop :=
  extends s s' /\
  match ev, out with
  | EvSend now payload, OutSend (Ok _) => Sender_end s' = Sender_end s + 1 /\
      exists msg ts ct kk, content s' (Sender_end s) = Some (msg, ts, kk, ct) /\ buffered s e payload e' ct kk
  | _, _ => Sender_end s' = Sender_end s /\ engine_move ev e e'
  end.

(** The engine moves by itself or encrypts a payload. *)
Lemma sender_move_engine `{CryptoLaws} ev out s e s' e' :
  sender_move ev out s e s' e' ->
  engine_move ev e e' \/ exists payload ct kk, buffered s e payload e' ct kk.
Proof.
  intros [_ Hm]. destruct ev as [| |now payload| | | |]; try (left; apply Hm).
  destruct out as [|[u|err]| |]; try (left; apply Hm). destruct Hm as (_ & msg & ts & ct & kk & _ & Hb). right. by eexists _, _, _.
Qed.

Definition payload_of (out : conn_output) : option bytes :=
  match out with OutPayload p => p | _ => None end.

(** [ev] does not bring a drop request. *)
Definition no_dropreq (ev : conn_event) : Prop :=
  match ev with
  | EvDatagram _ dg _ =>
      match Packet_parse dg with
      | Ret (Ok (Control ctrl)) => match cp_control_type ctrl with DropRequest _ _ _ => False | _ => True end
      | _ => True
      end
  | _ => True
  end.

(** What a call makes of the machines of an established connection. *)
Definition machines_move `{CryptoLaws} (ev : conn_event) (out : conn_output) (s : Sender) (r : Receiver)
    (e : option Crypto) (c' : Connection) : Prop :=
  match cn_state c' with
  | StEstablished s' r' e' => sender_move ev out s e s' e' /\ slots_move (no_dropreq ev) (arrival ev e) r r' (payload_of out)
  | StClosed _ (Some r') => slots_move (no_dropreq ev) (arrival ev e) r r' None /\ out = OutNone
  | _ => False
  end.

Definition is_control (p : Packet) : Prop := match p with Control _ => True | Data _ => False end.

(** Only control packets are queued. *)
Definition control_only (c : Connection) : Prop :=
  Forall is_control (cn_transmit_q c) /\ match cn_hs_reply c with Some p => is_control p | None => True end.

Section Trace.
Context `{CryptoLaws}.

Lemma move_close ev s r e c1 now reason shut :
  machines_move ev OutNone s r e c1 -> machines_move ev OutNone s r e (Connection_close_with c1 now reason shut).
Proof.
  unfold machines_move, Connection_close_with. destruct (cn_state c1) as [hs p ed|s1 r1 e1|rs r1] eqn:Hst; [done| |by rewrite Hst].
  intros [_ Hs]. by destruct shut.
Qed.

Lemma control_close c now reason shut : control_only c -> control_only (Connection_close_with c now reason shut).
Proof.
  intros [Hq Hr]. unfold control_only, Connection_close_with. destruct (cn_state c); destruct shut; cn; try done;
    (split; [|done]); apply Forall_app; (split; [done|]); by constructor.
Qed.

Lemma move_same ev s r e c' :
  SeqNumber_wf (rv_base_seq r) -> cn_state c' = StEstablished s r e ->
  match ev with EvSend _ _ => False | _ => True end -> machines_move ev OutNone s r e c'.
Proof.
  intros Hb Hst Hev. unfold machines_move, sender_move. rewrite Hst. split; [|by apply slots_equal].
  split; [apply extends_refl|]. destruct ev; try done; (split; [done|]); by left.
Qed.

Lemma ingest_move ev now dg rng s r e d r' e' c' :
  SeqNumber_wf (rv_base_seq r) -> ev = EvDatagram now dg rng -> Packet_parse dg = pok (Data d) ->
  SeqNumber_wf (dp_seq d) -> ingest_data now r e d = Ret (r', e') -> cn_state c' = StEstablished s r' e' ->
  machines_move ev OutNone s r e c'.
Proof.
  intros Hb -> Hp Hseq Hi Hst. unfold machines_move, sender_move. rewrite Hst. cbn [payload_of]. revert Hi. unfold ingest_data.
  destruct e as [c|].
  - cbn [cipher_decrypt Crypto_cipher].
    destruct (Crypto_decrypt c (dp_seq d) (dp_encryption d) (dp_payload d)) as [[c1 res] pl] eqn:Hd.
    assert (Heng : engine_move (EvDatagram now dg rng) (Some c) (Some c1)).
    { right. exists c, c1. do 2 (split; [done|]).
      replace c1 with (fst (fst (Crypto_decrypt c (dp_seq d) (dp_encryption d) (dp_payload d)))) by by rewrite Hd.
      apply EngDecrypt. }
    unfold Receiver_handle_data, Receiver_handle_undecryptable. destruct res as [[]|err];
      (match goal with |- context [Receiver_ingest r now ?p ?u] =>
        destruct (Receiver_ingest r now p u) as [r1|] eqn:Hin end; [|done]; cbn [mbind panicking_bind];
       intros [= <- <-]; split; [split; [apply extends_refl|done]|]);
      (eapply ingest_slots; [done|..|exact Hin]; [done|]); exists now, dg, rng, d; do 3 (split; [done|]); cbn [decrypts].
    + by exists c1.
    + intros p [c2 E]. congruence.
  - unfold Receiver_handle_data, Receiver_handle_undecryptable. case_bool_decide as Henc;
      (match goal with |- context [Receiver_ingest r now ?p ?u] =>
        destruct (Receiver_ingest r now p u) as [r1|] eqn:Hin end; [|done]; cbn [mbind panicking_bind];
       intros [= <- <-]; split; [split; [apply extends_refl|split; [done|by left]]|]);
      (eapply ingest_slots; [done|..|exact Hin]; [done|]); exists now, dg, rng, d; [done|]; do 3 (split; [done|]).
    by intros p [? _].
Qed.

Lemma transmission_move ev o s r e now ts ct rng st reply v km c' :
  State_wf o (StEstablished s r e) -> rnd_ok (rng_refresh rng) -> SeqNumber_wf (rv_base_seq r) ->
  match ev with EvSend _ _ => False | _ => True end ->
  match ct with DropRequest _ _ _ => ~ no_dropreq ev | _ => True end ->
  transmission_control s r e now ts ct rng = Ret (st, reply, v, km) -> cn_state c' = st ->
  machines_move ev OutNone s r e c'.
Proof.
  intros (Hs & _ & _ & He) Hrnd Hb Hev Hdrop Ht Hst. unfold machines_move, sender_move. rewrite Hst. cbn [payload_of].
  assert (Hgo : forall s' r' e', st = StEstablished s' r' e' -> extends s s' -> Sender_end s' = Sender_end s ->
    engine_move ev e e' -> slots_move (no_dropreq ev) (arrival ev e) r r' None -> match st with
    | StEstablished s' r' e' => (extends s s' /\ match ev with EvSend _ _ => Sender_end s' = Sender_end s /\ engine_move ev e e'
        | _ => Sender_end s' = Sender_end s /\ engine_move ev e e' end) /\ slots_move (no_dropreq ev) (arrival ev e) r r' None
    | StClosed _ (Some r') => slots_move (no_dropreq ev) (arrival ev e) r r' None /\ OutNone = OutNone | _ => False end)
    by (intros s' r' e' -> ? ? ? ?; by destruct ev).
  destruct ct; try done; cbn [transmission_control] in Ht.
  - destruct (Sender_handle_ack_ok s now ack_number cif Hs) as (s' & res & Ha & _ & Hext & _).
    pose proof (handle_ack_end _ _ _ _ _ _ Hs Ha) as Hend. rewrite Ha in Ht. cbn [mbind panicking_bind] in Ht.
    destruct res as [rep|err]; [|simplify_eq; apply (Hgo s' r e); try done; [by left|by apply slots_equal]].
    destruct e as [e|]; [|simplify_eq; apply (Hgo s' r None); try done; [by left|by apply slots_equal]].
    destruct (Crypto_on_ack e now (fst (Sender_rtt s')) (rng_refresh rng)) as [[e' km']|] eqn:Hk; [|done].
    cbn [mbind panicking_bind] in Ht. simplify_eq. apply (Hgo s' r (Some e')); try done; [|by apply slots_equal].
    right. exists e, e'. do 2 (split; [done|]). by eapply EngAck.
  - destruct (Sender_handle_nak_ok s ranges Hs) as (_ & Hext & _). pose proof (handle_nak_end s ranges Hs).
    simplify_eq. apply (Hgo (Sender_handle_nak s ranges) r e); try done; [by left|by apply slots_equal].
  - destruct (Receiver_handle_ackack r now ack_number ts) as [r'|] eqn:Hr; [|done]. cbn [mbind panicking_bind] in Ht.
    apply handle_ackack_slots in Hr. simplify_eq.
    apply (Hgo s r' e); try done; [by left|by apply slots_equal].
  - destruct (Receiver_handle_dropreq r _ _ _) as [r'|] eqn:Hr; [|done]. cbn [mbind panicking_bind] in Ht.
    apply handle_dropreq_slots in Hr as (E1 & E2 & E3 & E4 & E5). simplify_eq.
    apply (Hgo s r' e); try done; [by left|by apply slots_same].
Qed.

Lemma transmission_dispatch o c now dg rng s r e ts ct c' :
  State_wf o (StEstablished s r e) -> rnd_ok (rng_refresh rng) -> control_only c -> SeqNumber_wf (rv_base_seq r) ->
  cn_state c = StEstablished s r e ->
  match ct with DropRequest _ _ _ => ~ no_dropreq (EvDatagram now dg rng) | _ => True end ->
  Connection_handle_transmission_control (Connection_touch c now) now ts ct rng = Ret c' ->
  control_only c' /\ machines_move (EvDatagram now dg rng) OutNone s r e c'.
Proof.
  intros Hs Hrnd [Hq Hr] Hb Hst Hdrop. unfold Connection_handle_transmission_control, Connection_touch. cn. rewrite Hst.
  destruct (transmission_control s r e now ts ct rng) as [[[[st reply] v] km]|] eqn:Ht; [|done].
  cbn [mbind panicking_bind]. intros [= <-].
  match goal with |- control_only (if v then Connection_close_with ?x _ _ _ else _) /\ _ => set (c1 := x) end.
  assert (Hx : machines_move (EvDatagram now dg rng) OutNone s r e c1).
  { eapply transmission_move; [exact Hs|exact Hrnd|done|done|exact Hdrop|exact Ht|]. subst c1. by destruct km, reply. }
  assert (Hy : control_only c1).
  { split; [|subst c1; by destruct km, reply]. subst c1. destruct km, reply; cn; rewrite ?Forall_app; by repeat constructor. }
  destruct v; [split; [by apply control_close|by apply move_close]|done].
Qed.

(** The packet a connection emits for the sender's index. *)
Definition emitted (c : Connection) (s : Sender) (p : DataPacket) : Prop :=
  exists idx cont rexmit, content s idx = Some cont /\ sn_base_index s <= idx /\
    p = packet_of s idx cont rexmit <| dp_dst_socket_id := cn_peer_socket_id c |>.

Lemma datagram_move o c now dg rng c' s r e :
  Connection_wf o c -> Rng_ok rng -> control_only c -> cn_state c = StEstablished s r e ->
  SeqNumber_wf (rv_base_seq r) -> Connection_handle_datagram c now dg rng = Ret c' ->
  control_only c' /\ machines_move (EvDatagram now dg rng) OutNone s r e c'.
Proof.
  intros Hwf (_ & _ & Hrnd) Hc Hst Hb. set (ev := EvDatagram now dg rng).
  pose proof Hwf as (_ & _ & Hs). rewrite Hst in Hs.
  assert (Hsame : forall c1, control_only c1 -> cn_state c1 = StEstablished s r e ->
    control_only c1 /\ machines_move ev OutNone s r e c1) by (intros c1 ? ?; split; [done|]; by apply move_same).
  unfold Connection_handle_datagram. destruct (Packet_parse dg) as [[p|err]|] eqn:Hp; [| |done]; cbn [mbind panicking_bind].
  2: { destruct err; intros [= <-]; by apply Hsame. }
  unfold Connection_handle_packet. rewrite Hst. case_if; [intros [= <-]; by apply Hsame|].
  destruct p as [d|ctrl].
  - unfold Connection_handle_data_packet. cn. cbn [Connection_touch]. cn. unfold Connection_touch. cn. rewrite Hst.
    destruct (ingest_data now r e d) as [[r1 e1]|] eqn:Hi; [|done]. cbn [mbind panicking_bind]. intros [= <-].
    pose proof (parsed_data_seq _ _ Hp) as Hseq.
    match goal with |- control_only (if ?b then Connection_close_with ?x _ _ _ else _) /\ _ =>
      assert (Hx : machines_move ev OutNone s r e x) by (by eapply ingest_move);
      assert (Hy : control_only x) by done end.
    case_if; [split; [by apply control_close|by apply move_close]|done].
  - unfold Connection_handle_control_packet. destruct (cp_control_type ctrl) eqn:Hct; try (intros [= <-]; by apply Hsame).
    + unfold Connection_handle_handshake_packet, Connection_touch. cn. rewrite Hst. intros [= <-]. case_decide; [|by apply Hsame].
      destruct (cn_hs_reply c) as [rep|] eqn:Hrep; [|by apply Hsame]. apply Hsame; [|done].
      destruct Hc as [Hq Hr]. rewrite Hrep in Hr. unfold control_only. cn. rewrite Hrep. split; [|done].
      apply Forall_app. split; [done|]. by constructor.
    + by apply (transmission_dispatch o).
    + by apply (transmission_dispatch o).
    + intros [= <-]. split; [by apply control_close|]. apply move_close. by apply move_same.
    + by apply (transmission_dispatch o).
    + apply (transmission_dispatch o); try done. unfold no_dropreq. rewrite Hp, Hct. tauto.
    + unfold Connection_handle_kmreq, Connection_touch. cn. rewrite Hst. destruct e as [e|]; [|intros [= <-]; by apply Hsame].
      destruct (Crypto_handle_kmreq e payload) as [[e' out]|] eqn:Hk; [|done]. cbn [mbind panicking_bind]. intros [= <-].
      assert (Hm : engine_move ev (Some e) (Some e')).
      { right. exists e, e'. do 2 (split; [done|]). by eapply EngKmReq. }
      split.
      * destruct Hc as [Hq Hr], out; [|done]. split; [|done]. cn. apply Forall_app. split; [done|]. by constructor.
      * unfold machines_move, sender_move. destruct out; cn; (split; [split; [apply extends_refl|by split]|by apply slots_equal]).
    + unfold Connection_handle_kmrsp, Connection_touch. cn. rewrite Hst. destruct e as [e|]; [|intros [= <-]; by apply Hsame].
      destruct (Crypto_handle_kmrsp e payload) as [e' out] eqn:Hk. intros [= <-]. split; [done|].
      unfold machines_move, sender_move. cn. split; [|by apply slots_equal]. split; [apply extends_refl|]. split; [done|].
      right. exists e, e'. do 2 (split; [done|]).
      replace e' with (fst (Crypto_handle_kmrsp e payload)) by by rewrite Hk. by eapply EngKmRsp.
Qed.

Lemma timer_move o c now c' s r e :
  Connection_wf o c -> control_only c -> cn_state c = StEstablished s r e -> SeqNumber_wf (rv_base_seq r) ->
  Connection_handle_timer c now = Ret c' -> control_only c' /\ machines_move (EvTimer now) OutNone s r e c'.
Proof.
  intros Hwf Hc Hst Hb. pose proof Hwf as (_ & _ & Hs). rewrite Hst in Hs. destruct Hs as (Hs & _).
  unfold Connection_handle_timer. rewrite Hst.
  destruct (Sender_on_timer_ok s now Hs) as (s' & Ht & _ & Hext). pose proof (on_timer_end _ _ _ Hs Ht) as Hend.
  rewrite Ht. cbn [mbind panicking_bind]. pose proof (on_timer_slots r now) as Hsame.
  destruct (exp_check c (Receiver_on_timer r now) now) as [n idle]. intros [= <-].
  match goal with |- control_only (if _ then Connection_close_with (if _ then Connection_close_with ?x _ _ _ else _) _ _ _ else _) /\ _ =>
    set (c1 := x) end.
  assert (Hx : control_only c1 /\ machines_move (EvTimer now) OutNone s r e c1).
  { split.
    - destruct Hc as [Hq Hr]. subst c1. case_if; [|done]. split; [|done]. cn. apply Forall_app. split; [done|]. by constructor.
    - unfold machines_move, sender_move. subst c1. case_if; cn;
        (split; [split; [done|split; [done|by left]]|by apply slots_equal]). }
  destruct Hx as [Hx Hy]. repeat case_if; repeat apply control_close; repeat apply move_close; split;
    repeat apply control_close; repeat apply move_close; done.
Qed.

Lemma transmit_move o c now c' p s r e :
  Connection_wf o c -> control_only c -> cn_state c = StEstablished s r e -> SeqNumber_wf (rv_base_seq r) ->
  Connection_poll_transmit c now = Ret (c', p) ->
  control_only c' /\ machines_move (EvTransmit now) (OutPacket p) s r e c' /\
  forall d, p = Some (Data d) -> emitted c s d.
Proof.
  intros Hwf [Hq Hrep] Hst Hb. pose proof Hwf as (_ & _ & Hs). rewrite Hst in Hs. destruct Hs as (Hs & _).
  unfold Connection_poll_transmit, Connection_next_transmit.
  assert (Hstay : forall c1 s' r', cn_state c1 = StEstablished s' r' e -> extends s s' -> Sender_end s' = Sender_end s ->
    same_slots r r' -> machines_move (EvTransmit now) (OutPacket p) s r e c1).
  { intros c1 s' r' E ? ? ?. unfold machines_move, sender_move. rewrite E. cbn [payload_of].
    split; [|by apply slots_equal]. split; [done|]. split; [done|by left]. }
  destruct (cn_transmit_q c) as [|q0 q] eqn:Eq.
  2: { cbn [mbind panicking_bind]. intros [= <- <-]. apply Forall_cons in Hq as [Hq0 Hq].
       split; [by split|]. split; [by apply (Hstay _ s r); cn|]. intros d [= Hd]. by destruct q0. }
  rewrite Hst. unfold Receiver_poll_control, Sender_poll_control.
  destruct (rv_control_q r) as [|ct rq].
  2: { cbn [mbind panicking_bind]. intros [= <- <-]. split; [split; cn; by rewrite ?Eq|]. split; [by eapply Hstay|done]. }
  destruct (sn_control_queue s) as [|ct sq] eqn:Hsq.
  2: { cbn [mbind panicking_bind]. intros [= <- <-]. split; [split; cn; by rewrite ?Eq|].
       split; [|done]. eapply Hstay; [done|by apply extends_same|done..]. }
  destruct (Sender_poll_transmit_ok s now Hs) as (s' & pk & Hp & _ & Hext & Hcase).
  pose proof (poll_transmit_end _ _ _ _ Hp) as Hend. rewrite Hp. cbn [mbind panicking_bind].
  destruct pk as [pk|]; cbn [option_map]; intros [= <- <-].
  - split; [split; cn; by rewrite ?Eq|]. split; [by eapply Hstay|]. intros d [= <-]. cn.
    destruct Hcase as (idx & cont & Hcont & _ & Hlo & Hcase).
    destruct Hcase as [(_ & _ & -> & _)|(_ & -> & _)]; by eexists idx, cont, _.
  - split; [split; cn; by rewrite ?Eq|]. split; [by eapply Hstay|done].
Qed.

Lemma send_move o c now payload c' res s r e :
  Connection_wf o c -> control_only c -> cn_state c = StEstablished s r e -> SeqNumber_wf (rv_base_seq r) ->
  Connection_send c now payload = Ret (c', res) ->
  control_only c' /\ machines_move (EvSend now payload) (OutSend res) s r e c'.
Proof.
  intros Hwf Hc Hst Hb. pose proof Hwf as (_ & _ & Hs). rewrite Hst in Hs. destruct Hs as (Hs & _ & _ & He).
  unfold Connection_send. rewrite Hst. assert (Hew : option_cipher_wf e) by by destruct e.
  destruct (Nat.ltb_spec (sc_max_payload (sn_cfg s)) (length payload)) as [Hl|Hl].
  - unfold Sender_push. replace (sc_max_payload (sn_cfg s) <? length payload)%nat with true by (symmetry; by apply Nat.ltb_lt).
    cbn [mbind panicking_bind]. intros [= <- <-]. split; [done|]. unfold machines_move, sender_move. cn.
    split; [|by apply slots_equal]. split; [apply extends_refl|]. split; [done|by left].
  - destruct (Sender_push_ok s now payload e Hs Hew Hl) as (s' & e' & -> & _ & Hext & _ & Hend & msg & ct & kk & Hcont & _ & Hbuf).
    cbn [mbind panicking_bind]. intros [= <- <-]. split; [done|]. unfold machines_move, sender_move. cn.
    split; [|by apply slots_equal]. split; [done|]. split; [done|]. by eexists _, _, _, _.
Qed.

(** One call on an established connection. *)
Lemma established_step o c ev c' out s r e :
  Connection_wf o c -> conn_event_ok ev -> control_only c -> cn_state c = StEstablished s r e ->
  SeqNumber_wf (rv_base_seq r) -> conn_step c ev = Ret (c', out) ->
  control_only c' /\ machines_move ev out s r e c' /\
  forall d, out = OutPacket (Some (Data d)) -> emitted c s d.
Proof.
  intros Hwf Hev Hc Hst Hb. destruct ev as [now dg rng|now|now payload|now|now|now|t ts]; cbn [conn_step].
  - destruct (Connection_handle_datagram c now dg rng) as [c1|] eqn:Hd; [|done]. cbn [mbind panicking_bind]. intros [= <- <-].
    destruct (datagram_move o c now dg rng c1 s r e Hwf Hev Hc Hst Hb Hd). by split_and!.
  - destruct (Connection_handle_timer c now) as [c1|] eqn:Hd; [|done]. cbn [mbind panicking_bind]. intros [= <- <-].
    destruct (timer_move o c now c1 s r e Hwf Hc Hst Hb Hd). by split_and!.
  - destruct (Connection_send c now payload) as [[c1 res]|] eqn:Hd; [|done]. cbn [mbind panicking_bind]. intros [= <- <-].
    destruct (send_move o c now payload c1 res s r e Hwf Hc Hst Hb Hd). by split_and!.
  - intros [= <- <-]. unfold Connection_close. rewrite Hst. split; [by apply control_close|]. split; [|done].
    apply move_close. by apply move_same.
  - destruct (Connection_poll_transmit c now) as [[c1 p]|] eqn:Hd; [|done]. cbn [mbind panicking_bind]. intros [= <- <-].
    destruct (transmit_move o c now c1 p s r e Hwf Hc Hst Hb Hd) as (? & ? & He). split_and!; try done.
    intros d [= ->]. by apply He.
  - unfold Connection_poll_deliver. rewrite Hst. destruct (Receiver_poll_deliver r now) as [[r1 p]|] eqn:Hd; [|done].
    cbn [mbind panicking_bind]. intros [= <- <-]. split; [done|]. split; [|done].
    apply (poll_deliver_slots True) in Hd; [|done]. unfold machines_move, sender_move. cn.
    split; [split; [apply extends_refl|split; [done|by left]]|]. cbn [payload_of].
    destruct Hd as (k & ? & ? & ? & ? & Hs & ? & ? & ? & ? & Hk). exists k. split_and!; try done.
    intros i sl Hi. destruct (Hs i sl Hi) as [?|[]]. by left.
  - intros [= <- <-]. unfold Connection_set_hs_anchor. rewrite Hst. split; [done|]. split; [|done].
    unfold machines_move, sender_move. cn. split; [split; [apply extends_refl|split; [done|by left]]|].
    unfold Receiver_set_hs_anchor. destruct (rv_anchor r); [by apply slots_equal|].
    destruct (TimestampExtender_extend _ _ _). apply slots_same; try done. intros Hf i sl Hi.
    split; [by apply (Hf i sl)|done].
Qed.

(** One call on a closed connection: only its receiver can move. *)
Lemma closed_step c ev c' out reason r :
  control_only c -> cn_state c = StClosed reason (Some r) -> SeqNumber_wf (rv_base_seq r) ->
  conn_step c ev = Ret (c', out) ->
  control_only c' /\ (exists r', cn_state c' = StClosed reason (Some r') /\ slots_move True no_arrival r r' (payload_of out)) /\
  (forall d, out <> OutPacket (Some (Data d))) /\ out <> OutSend (Ok tt).
Proof.
  intros Hc Hst Hb. assert (Hsame : slots_move True no_arrival r r None) by by apply slots_equal.
  destruct ev as [now dg rng|now|now payload|now|now|now|t ts]; cbn [conn_step].
  - unfold Connection_handle_datagram. destruct (Packet_parse dg) as [[p|err]|]; [| |done]; cbn [mbind panicking_bind].
    + unfold Connection_handle_packet. rewrite Hst. cbn [mbind panicking_bind]. intros [= <- <-]. by eauto 10.
    + destruct err; cbn [mbind panicking_bind]; intros [= <- <-]; by eauto 10.
  - unfold Connection_handle_timer. rewrite Hst. cbn [mbind panicking_bind]. intros [= <- <-]. by eauto 10.
  - unfold Connection_send. rewrite Hst. cbn [mbind panicking_bind]. intros [= <- <-]. by eauto 10.
  - intros [= <- <-]. unfold Connection_close. rewrite Hst. by eauto 10.
  - unfold Connection_poll_transmit, Connection_next_transmit. destruct Hc as [Hq Hr].
    destruct (cn_transmit_q c) as [|q0 q] eqn:Eq.
    + rewrite Hst. cbn [mbind panicking_bind]. intros [= <- <-]. unfold control_only. rewrite Eq. by eauto 10.
    + cbn [mbind panicking_bind]. intros [= <- <-]. cn. apply Forall_cons in Hq as [Hq0 Hq].
      split; [by split|]. split; [by eauto|]. split; [|done]. intros d [= Hd]. by destruct q0.
  - unfold Connection_poll_deliver. rewrite Hst. destruct (Receiver_poll_deliver r now) as [[r1 p]|] eqn:Hd; [|done].
    cbn [mbind panicking_bind]. intros [= <- <-]. split; [done|]. split; [|done]. exists r1. split; [done|].
    by apply (poll_deliver_slots True) in Hd.
  - intros [= <- <-]. unfold Connection_set_hs_anchor. rewrite Hst. by eauto 10.
Qed.

End Trace.

(** ** The sender's configuration *)

(** The phases stay, and so does the configuration of the sender. *)
Definition same_limits (c c' : Connection) : Prop :=
  match cn_state c, cn_state c' with
  | StEstablished s _ _, StEstablished s' _ _ => sn_cfg s' = sn_cfg s
  | _, _ => True
  end.

Section Limits.
Context `{CryptoLaws}.

Lemma limits_same c c' : cn_state c' = cn_state c -> same_limits c c'.
Proof. unfold same_limits. intros ->. by destruct (cn_state c). Qed.

Lemma limits_close c c1 now reason shut : same_limits c c1 -> same_limits c (Connection_close_with c1 now reason shut).
Proof.
  unfold same_limits, Connection_close_with. destruct (cn_state c); [done| |done].
  destruct (cn_state c1) eqn:E; [by destruct shut..|by rewrite E].
Qed.

Lemma transmission_limits o c now ts ct rng c' :
  Connection_wf o c -> Connection_handle_transmission_control c now ts ct rng = Ret c' -> same_limits c c'.
Proof.
  intros (_ & _ & Hs). unfold Connection_handle_transmission_control.
  destruct (cn_state c) as [hs p ed|s r e|rs r] eqn:Hst; [intros [= <-]; by apply limits_same| |intros [= <-]; by apply limits_same].
  destruct Hs as (Hs & _).
  destruct (transmission_control s r e now ts ct rng) as [[[[st reply] v] km]|] eqn:Ht; [|done].
  cbn [mbind panicking_bind]. intros [= <-].
  match goal with |- same_limits c (if v then Connection_close_with ?x _ _ _ else _) => set (c1 := x) end.
  assert (Hx : same_limits c c1).
  { assert (cn_state c1 = st) as E by (subst c1; by destruct km, reply). unfold same_limits. rewrite Hst, E.
    clear E c1. destruct ct; try done; cbn [transmission_control] in Ht.
    - destruct (Sender_handle_ack_ok s now ack_number cif Hs) as (s' & res & Ha & _ & [Hcfg _] & _).
      rewrite Ha in Ht. cbn [mbind panicking_bind] in Ht. destruct res; [|by simplify_eq]. destruct e as [e|]; [|by simplify_eq].
      destruct (Crypto_on_ack _ _ _ _) as [[e' km']|]; [|done]. cbn [mbind panicking_bind] in Ht. by simplify_eq.
    - destruct (Sender_handle_nak_ok s ranges Hs) as (_ & [Hcfg _] & _). by simplify_eq.
    - destruct (Receiver_handle_ackack _ _ _ _); [|done]. cbn [mbind panicking_bind] in Ht. by simplify_eq.
    - destruct (Receiver_handle_dropreq _ _ _ _); [|done]. cbn [mbind panicking_bind] in Ht. by simplify_eq. }
  destruct v; [by apply limits_close|done].
Qed.

Lemma datagram_limits o c now dg rng c' :
  Connection_wf o c -> Connection_handle_datagram c now dg rng = Ret c' -> same_limits c c'.
Proof.
  intros Hwf. unfold Connection_handle_datagram. destruct (Packet_parse dg) as [[p|err]|]; [| |done]; cbn [mbind panicking_bind].
  2: { destruct err; intros [= <-]; by apply limits_same. }
  unfold Connection_handle_packet. set (ct := Connection_touch c now).
  assert (Hct : Connection_wf o ct /\ cn_state ct = cn_state c) by (split; [by apply (wf_same o c)|done]).
  destruct Hct as [Hwt Est].
  assert (Hgo : forall c1, same_limits ct c1 -> same_limits c c1) by (unfold same_limits; by rewrite Est).
  assert (Hdone : forall x, cn_state x = cn_state c -> Ret x = Ret c' -> same_limits c c')
    by (intros x ? [= <-]; by apply limits_same).
  clearbody ct. destruct (cn_state c) as [hs pd ed|s r e|rs r] eqn:Hst; [| |by apply Hdone].
  { intros _. unfold same_limits. by rewrite Hst. }
  case_if; [by apply Hdone|]. destruct p as [d|ctrl].
  - unfold Connection_handle_data_packet. cn. rewrite Est.
    destruct (ingest_data now r e d) as [[r1 e1]|]; [|done]. cbn [mbind panicking_bind]. intros [= <-].
    assert (Hx : forall x, cn_state x = StEstablished s r1 e1 -> same_limits c x)
      by (intros x E; unfold same_limits; by rewrite Hst, E).
    case_if; [apply limits_close|]; by apply Hx.
  - unfold Connection_handle_control_packet.
    destruct (cp_control_type ctrl); try (by apply Hdone); try (intros Hc; apply Hgo; by apply (transmission_limits o) in Hc).
    + unfold Connection_handle_handshake_packet. rewrite Est. intros [= <-]. apply limits_same.
      case_decide; [|congruence]. destruct (cn_hs_reply ct); cn; congruence.
    + intros [= <-]. apply limits_close, limits_same. congruence.
    + unfold Connection_handle_kmreq. rewrite Est. destruct e as [e|]; [|intros [= <-]; apply limits_same; congruence].
      destruct (Crypto_handle_kmreq e payload) as [[e' out]|]; [|done]. cbn [mbind panicking_bind]. intros [= <-].
      unfold same_limits. rewrite Hst. by destruct out.
    + unfold Connection_handle_kmrsp. rewrite Est. destruct e as [e|]; [|intros [= <-]; apply limits_same; congruence].
      destruct (Crypto_handle_kmrsp e payload) as [e' out]. intros [= <-]. unfold same_limits. by rewrite Hst.
Qed.

(** The limits negotiated at establishment hold for the whole connection. *)
Lemma conn_step_limits o c ev c' out :
  Connection_wf o c -> conn_step c ev = Ret (c', out) -> same_limits c c'.
Proof.
  intros Hwf. pose proof Hwf as (_ & _ & Hs). destruct ev as [now dg rng|now|now payload|now|now|now|t ts]; cbn [conn_step].
  - destruct (Connection_handle_datagram c now dg rng) as [c1|] eqn:Hd; [|done]. cbn [mbind panicking_bind]. intros [= <- _].
    by apply datagram_limits with (o := o) in Hd.
  - unfold Connection_handle_timer. destruct (cn_state c) as [hs p ed|s r e|rs r] eqn:Hst.
    + cbn [mbind panicking_bind]. intros _. unfold same_limits. by rewrite Hst.
    + destruct Hs as (Hs & _). destruct (Sender_on_timer_ok s now Hs) as (s' & -> & _ & [Hcfg _]). cbn [mbind panicking_bind].
      destruct (exp_check _ _ _) as [n idle]. intros [= <- _].
      match goal with |- same_limits c (if _ then Connection_close_with (if _ then Connection_close_with ?x _ _ _ else _) _ _ _ else _) =>
        assert (Hx : same_limits c x) end.
      { unfold same_limits. rewrite Hst. by case_if. }
      repeat case_if; repeat apply limits_close; done.
    + cbn [mbind panicking_bind]. intros [= <- _]. by apply limits_same.
  - unfold Connection_send. destruct (cn_state c) as [hs p ed|s r e|rs r] eqn:Hst.
    + intros _. unfold same_limits. by rewrite Hst.
    + destruct Hs as (Hs & _ & _ & He). destruct (push_ok s now payload e Hs He) as (s' & e' & res & -> & _ & Hcfg & _).
      cbn [mbind panicking_bind]. intros [= <- _]. unfold same_limits. by rewrite Hst.
    + cbn [mbind panicking_bind]. intros [= <- _]. by apply limits_same.
  - intros [= <- _]. unfold Connection_close. destruct (cn_state c); [by apply limits_close, limits_same..|by apply limits_same].
  - unfold Connection_poll_transmit, Connection_next_transmit. destruct (cn_transmit_q c).
    2: { cbn [mbind panicking_bind]. intros [= <- _]. by apply limits_same. }
    destruct (cn_state c) as [hs p ed|s r e|rs r] eqn:Hst.
    + intros _. unfold same_limits. by rewrite Hst.
    + destruct Hs as (Hs & _). unfold Receiver_poll_control, Sender_poll_control. destruct (rv_control_q r).
      2: { cbn [mbind panicking_bind]. intros [= <- _]. unfold same_limits. by rewrite Hst. }
      destruct (sn_control_queue s).
      2: { cbn [mbind panicking_bind]. intros [= <- _]. unfold same_limits. by rewrite Hst. }
      destruct (Sender_poll_transmit_ok s now Hs) as (s' & pk & -> & _ & [Hcfg _] & _).
      unfold same_limits. rewrite Hst. destruct pk; cbn [mbind panicking_bind option_map]; by intros [= <- _].
    + cbn [mbind panicking_bind]. intros [= <- _]. by apply limits_same.
  - unfold Connection_poll_deliver, same_limits. destruct (cn_state c) as [hs p ed|s r e|rs [r|]] eqn:Hst; try done.
    destruct (Receiver_poll_deliver r now) as [[r1 p]|]; [|done]. cbn [mbind panicking_bind]. by intros [= <- _].
  - intros [= <- _]. unfold Connection_set_hs_anchor, same_limits. destruct (cn_state c) eqn:Hst; try done.
Qed.

End Limits.
