(* ===== verification/Recovery.v ===== *)
(** * Recovery of lost packets: [src/core/sender.rs], [src/core/receiver.rs]

    One round of the retransmission protocol, across the two ends: a packet
    behind a gap makes the receiver queue a NAK, the NAK makes the sender
    retransmit, and the retransmissions close the gap. *)

From S2P Require Import Prelude PacketTypes PacketData PacketHandshake PacketControl Time CryptoKeys CryptoContext Cipher Options Pacing Sender LossList Receiver ReceiverTotal CoreHandshake Connection ConnectionLife ConnectionTrace.

(** ** The round *)

(** What a driver does with the sender and the receiver: drain the data
    packets that can be sent now, hand over the ones that came. *)
Fixpoint poll_all (n : nat) (s : Sender) (now : Z) : panicking (Sender * list DataPacket) :=
  match n with
  | O => Ret (s, [])
  | S n =>
      '(s, pkt) ← Sender_poll_transmit s now;
      match pkt with
      | None => Ret (s, [])
      | Some pkt => '(s, pkts) ← poll_all n s now; Ret (s, pkt :: pkts)
      end
  end.

Fixpoint ingest_all (r : Receiver) (now : Z) (pkts : list DataPacket) : panicking Receiver :=
  match pkts with
  | [] => Ret r
  | pkt :: pkts => r ← Receiver_ingest r now pkt false; ingest_all r now pkts
  end.

(** The packets of the indices [lo], [lo + 1], ... as the sender
    retransmits them. *)
Definition rexmits (s : Sender) (lo : Z) (n : nat) : list DataPacket :=
  omap (fun i => (fun c => packet_of s i c true) <$> content s i) (seqZ lo (Z.of_nat n)).

(** ** The receiver reports the gap *)

Lemma store_data_naks r l c o pkt ext r' :
  Receiver_view r l c -> c + 1 < o < Z.of_nat (rc_buffer_pkts (rv_cfg r)) ->
  dp_seq pkt = SeqNumber_add (rv_base_seq r) o ->
  Receiver_store_data r pkt ext false = Ret r' ->
  Nak [mkLossRange (SeqNumber_add (rv_base_seq r) (c + 1)) (SeqNumber_add (rv_base_seq r) (o - 1))] ∈ rv_control_q r'.
Proof.
  intros (Hb & Hc & Hcur & _ & _ & Hocc & _ & Hcap) Ho Hseq. unfold Receiver_store_data.
  assert (Hd : SeqNumber_diff (dp_seq pkt) (rv_base_seq r) = o).
  { rewrite Hseq. rewrite <- (SeqNumber_add_0 (rv_base_seq r)) at 2 by done. rewrite diff_at; lia. }
  rewrite Hd. replace (o <? 0) with false by (symmetry; apply Z.ltb_ge; lia). cbv zeta.
  replace (rc_buffer_pkts (rv_cfg r) <=? Z.to_nat o)%nat with false by (symmetry; apply Nat.leb_gt; lia).
  set (r1 := if (length (rv_slots r) <=? Z.to_nat o)%nat then _ else r).
  assert (H1 : rv_rcv_curr_seq r1 = rv_rcv_curr_seq r /\
    forall s, rv_slots r1 !! Z.to_nat o <> Some (Some s)).
  { subst r1. case_if; rv; (split; [done|]); intros s Hs; [apply lookup_resize in Hs|]; apply Hocc in Hs; lia. }
  clearbody r1. destruct H1 as [Ecur Hfree]. destruct (index (rv_slots r1) (Z.to_nat o)) as [old|] eqn:Hi; [|done].
  cbn [mbind panicking_bind]. destruct old as [s|].
  { unfold index in Hi. destruct (rv_slots r1 !! Z.to_nat o) as [x|] eqn:Hx; [|done]. cbn in Hi. injection Hi as ->.
    by destruct (Hfree s). }
  cbn [slot_empty negb]. set (r2 := Receiver_detect_gap r1 (dp_seq pkt) false).
  assert (Hq : Nak [mkLossRange (SeqNumber_add (rv_base_seq r) (c + 1)) (SeqNumber_add (rv_base_seq r) (o - 1))] ∈ rv_control_q r2).
  { subst r2. unfold Receiver_detect_gap. rewrite Ecur, Hcur, next_at, Hseq, prev_at, diff_at by lia.
    replace (0 <? o - (c + 1)) with true by (symmetry; apply Z.ltb_lt; lia). unfold Receiver_queue_nak, push_control. rv.
    apply elem_of_app. right. by apply list_elem_of_singleton. }
  clearbody r2. intros [= <-]. by case_if.
Qed.

Lemma ingest_naks r l c o pkt now r' :
  Receiver_view r l c -> c + 1 < o < Z.of_nat (rc_buffer_pkts (rv_cfg r)) ->
  dp_seq pkt = SeqNumber_add (rv_base_seq r) o -> (length (dp_payload pkt) <= rv_max_payload r)%nat ->
  Receiver_ingest r now pkt false = Ret r' ->
  Nak [mkLossRange (SeqNumber_add (rv_base_seq r) (c + 1)) (SeqNumber_add (rv_base_seq r) (o - 1))] ∈ rv_control_q r'.
Proof.
  intros Hv Ho Hseq Hlen. unfold Receiver_ingest.
  replace (rv_max_payload r <? length (dp_payload pkt))%nat with false by (symmetry; by apply Nat.ltb_ge).
  destruct (TimestampExtender_extend _ _ _) as [ext ext_us].
  match goal with |- context [Receiver_store_data ?x] => set (r1 := x) end.
  assert (H1 : Receiver_view r1 l c /\ rv_base_seq r1 = rv_base_seq r /\ rv_cfg r1 = rv_cfg r)
    by (subst r1; rv; by destruct (rv_anchor r)).
  clearbody r1. destruct H1 as (Hv1 & Eb & Ec). rewrite <- Eb in *. rewrite <- Ec in Ho.
  destruct (Receiver_store_data r1 pkt ext_us false) as [r2|] eqn:Hst; [|done]. cbn [mbind panicking_bind].
  pose proof (store_data_naks r1 l c o pkt ext_us r2 Hv1 Ho Hseq Hst) as Hq.
  intros [= <-]. case_if; [|done]. unfold Receiver_queue_light_ack. case_if; [done|]. unfold push_control. rv.
  apply elem_of_app. by left.
Qed.

(** A packet behind a gap is stored, and what it reveals is missing. *)
Lemma gap_reported r l c o pkt now :
  Receiver_view r l c -> Receiver_words r -> c + 1 < o < Z.of_nat (rc_buffer_pkts (rv_cfg r)) ->
  dp_seq pkt = SeqNumber_add (rv_base_seq r) o -> (length (dp_payload pkt) <= rv_max_payload r)%nat ->
  exists r' l', Receiver_ingest r now pkt false = Ret r' /\ Receiver_view r' l' o /\ Receiver_words r' /\
    rv_base_seq r' = rv_base_seq r /\ same_config r r' /\ (forall y, missing l' y <-> missing l y \/ c < y < o) /\
    Nak [mkLossRange (SeqNumber_add (rv_base_seq r) (c + 1)) (SeqNumber_add (rv_base_seq r) (o - 1))] ∈ rv_control_q r'.
Proof.
  intros Hv Hw Ho Hseq Hlen. pose proof Hv as (Hb & Hc & _ & _ & Hok & Hocc & _ & Hcap).
  assert (Hwf : SeqNumber_wf (dp_seq pkt)) by (rewrite Hseq; apply SeqNumber_add_wf).
  assert (Hd : SeqNumber_diff (dp_seq pkt) (rv_base_seq r) = o).
  { rewrite Hseq. rewrite <- (SeqNumber_add_0 (rv_base_seq r)) at 2 by done. rewrite diff_at; lia. }
  destruct (ingest_view r l c now pkt false Hv Hw Hwf) as (r' & Hr & Hw' & Hb' & _ & Hcase). rewrite Hd in Hcase.
  pose proof (ingest_naks r l c o pkt now r' Hv Ho Hseq Hlen Hr) as Hq. pose proof (ingest_stored r now pkt false r' Hwf Hr) as Hst.
  replace (rv_max_payload r <? length (dp_payload pkt))%nat with false in Hst by (symmetry; by apply Nat.ltb_ge).
  destruct Hcase as [(? & _)|(_ & _ & [([?|[?|[s Hs]]] & _)|(ext & _ & _ & Hv' & _)])]; [lia|lia|lia|apply Hocc in Hs; lia|].
  cbn [sl_undecryptable] in Hv'. rewrite Z.max_r in Hv' by lia.
  destruct (arrive_missing_ok l c o false Hok) as (_ & _ & Hm); [lia..|].
  exists r', (arrive_missing l c o false). split_and!; try done; [apply Hst|]. intros y. rewrite Hm.
  assert (missing l y -> y <= c) by (intros Hy; apply (missing_range 0 c) in Hy; [lia|done]).
  split; [intros [[? _]|[? _]]; [by left|by right]|]. intros [Hy|?]; [left|by right].
  split; [done|]. pose proof (missing_range 0 c l y Hok Hy). lia.
Qed.

(** ** The retransmissions close it *)

(** One retransmission fills its slot. *)
Lemma gap_filled r l c o pkt now :
  Receiver_view r l c -> Receiver_words r -> missing l o -> 0 <= o < Z.of_nat (rc_buffer_pkts (rv_cfg r)) ->
  dp_seq pkt = SeqNumber_add (rv_base_seq r) o -> (length (dp_payload pkt) <= rv_max_payload r)%nat ->
  exists r' l', Receiver_ingest r now pkt false = Ret r' /\ Receiver_view r' l' c /\ Receiver_words r' /\
    rv_base_seq r' = rv_base_seq r /\ same_config r r' /\ (forall y, missing l' y <-> missing l y /\ y <> o) /\
    (exists s, rv_slots r' !! Z.to_nat o = Some (Some s) /\ readable s = Some (dp_payload pkt)) /\
    (forall i s, rv_slots r !! i = Some (Some s) -> rv_slots r' !! i = Some (Some s)).
Proof.
  intros Hv Hw Hmiss Ho Hseq Hlen. pose proof Hv as (Hb & Hc & _ & _ & Hok & Hocc & _ & Hcap).
  pose proof (missing_range 0 c l o Hok Hmiss) as Hoc.
  assert (Hwf : SeqNumber_wf (dp_seq pkt)) by (rewrite Hseq; apply SeqNumber_add_wf).
  assert (Hd : SeqNumber_diff (dp_seq pkt) (rv_base_seq r) = o).
  { rewrite Hseq. rewrite <- (SeqNumber_add_0 (rv_base_seq r)) at 2 by done. rewrite diff_at; lia. }
  destruct (ingest_view r l c now pkt false Hv Hw Hwf) as (r' & Hr & Hw' & Hb' & _ & Hcase). rewrite Hd in Hcase.
  pose proof (ingest_stored r now pkt false r' Hwf Hr) as Hst.
  replace (rv_max_payload r <? length (dp_payload pkt))%nat with false in Hst by (symmetry; by apply Nat.ltb_ge).
  destruct Hcase as [(? & _)|(_ & _ & [([?|[?|[s Hs]]] & _)|(ext & _ & _ & Hv' & Hsl)])]; [lia|lia|lia| |].
  { apply Hocc in Hs as (_ & Hn & _). rewrite Z2Nat.id in Hn by lia. done. }
  cbn [sl_undecryptable] in *. rewrite Z.max_l in Hv' by lia.
  destruct (arrive_missing_ok l c o false Hok) as (_ & _ & Hm); [lia..|].
  exists r', (arrive_missing l c o false). split_and!; try done; [apply Hst| | |apply Hst].
  - intros y. rewrite Hm. split; [intros [?|[? _]]; [done|lia]|by left].
  - eexists. split; [apply Hsl; by left|]. done.
Qed.

(** The slots from [j] on hold the payloads of [pkts]. *)
Definition slots_hold (r : Receiver) (j : Z) (pkts : list DataPacket) : Prop :=
  forall k pkt, pkts !! k = Some pkt ->
    exists s, rv_slots r !! Z.to_nat (j + Z.of_nat k) = Some (Some s) /\ readable s = Some (dp_payload pkt).

Lemma gap_closed now c o : forall pkts r l j,
  Receiver_view r l c -> Receiver_words r -> 0 <= j -> o = j + Z.of_nat (length pkts) -> o <= Z.of_nat (rc_buffer_pkts (rv_cfg r)) ->
  (forall y, j <= y < o -> missing l y) ->
  (forall k pkt, pkts !! k = Some pkt -> dp_seq pkt = SeqNumber_add (rv_base_seq r) (j + Z.of_nat k) /\
     (length (dp_payload pkt) <= rv_max_payload r)%nat) ->
  exists r' l', ingest_all r now pkts = Ret r' /\ Receiver_view r' l' c /\ rv_base_seq r' = rv_base_seq r /\
    (forall y, missing l' y <-> missing l y /\ ~ j <= y < o) /\ slots_hold r' j pkts /\
    (forall i s, rv_slots r !! i = Some (Some s) -> rv_slots r' !! i = Some (Some s)).
Proof.
  induction pkts as [|pkt pkts IH]; intros r l j Hv Hw Hj Ho Hcap Hmiss Hall; cbn [length ingest_all] in *.
  { exists r, l. split_and!; try done. intros y. split; [intros ?; split; [done|lia]|tauto]. }
  destruct (Hall O pkt eq_refl) as [Hseq Hlen]. rewrite Z.add_0_r in Hseq.
  destruct (gap_filled r l c j pkt now) as (r1 & l1 & -> & Hv1 & Hw1 & Hb1 & [Hc1 Hmax1] & Hm1 & (s1 & Hs1 & Hp1) & Hk1);
    try done; [apply Hmiss; lia|lia|]. cbn [mbind panicking_bind].
  destruct (IH r1 l1 (j + 1)) as (r2 & l2 & -> & Hv2 & Hb2 & Hm2 & Hh2 & Hk2); try done; try lia.
  { by rewrite Hc1. }
  { intros y Hy. apply Hm1. split; [apply Hmiss; lia|lia]. }
  { intros k p Hk. destruct (Hall (S k) p Hk) as [Hq Hl]. rewrite Hb1, Hmax1, Hq. split; [f_equal; lia|done]. }
  exists r2, l2. split_and!; try done; [congruence| | |auto].
  - intros y. rewrite Hm2, Hm1. split; [intros [[? ?] ?]; split; [done|lia]|intros [? ?]; split; [split; [done|]|]; lia].
  - intros [|k] p Hk.
    + injection Hk as <-. exists s1. rewrite Z.add_0_r. split; [by apply Hk2|done].
    + destruct (Hh2 k p Hk) as (s & Hs & Hp). exists s. split; [|done]. rewrite <- Hs. f_equal. lia.
Qed.

(** ** The sender retransmits *)

(** The queued losses are [lo] to [hi - 1], none retransmitted before. *)
Definition fresh_losses (s : Sender) (lo hi : Z) : Prop :=
  sn_pacer s = None /\ (forall i, i ∈ sn_loss_list s <-> lo <= i < hi) /\
  forall i e, lo <= i < hi -> sn_buffer s !! Z.to_nat (i - sn_base_index s) = Some e -> be_last_rexmit e = None.

Lemma poll_rexmits s lo hi now :
  Sender_wf s -> fresh_losses s lo hi -> lo < hi ->
  exists s' c, Sender_poll_transmit s now = Ret (s', Some (packet_of s lo c true)) /\ content s lo = Some c /\
    Sender_wf s' /\ fresh_losses s' (lo + 1) hi /\ sn_cfg s' = sn_cfg s /\ sn_base_index s' = sn_base_index s /\
    Sender_end s' = Sender_end s /\ forall idx, content s' idx = content s idx.
Proof.
  intros Hwf (Hpc & Hin & Hfresh) Hlt. pose proof Hwf as (_ & _ & _ & Hnext & _ & Hloss & _).
  unfold Sender_poll_transmit. rewrite Hpc. cbn [Sender_rexmit_loop]. sn. pose proof (pop_first_spec (sn_loss_list s)) as Hpop.
  destruct (pop_first (sn_loss_list s)) as [[idx rest]|]; [|rewrite Hpop in Hin; specialize (Hin lo); set_solver by lia].
  destruct Hpop as (Hi & Hmin & -> & _). apply Hin in Hi as Hr. assert (idx = lo) as ->.
  { assert (idx <= lo) by (apply Hmin, Hin; lia). lia. }
  specialize (Hloss lo Hi). replace (lo <? sn_base_index s) with false by (symmetry; apply Z.ltb_ge; lia).
  replace (sn_next_send_index s <=? lo) with false by (symmetry; apply Z.leb_gt; lia). cbn [orb].
  destruct (content_in s lo) as (e & He & Hc); [unfold Sender_end in *; lia|].
  unfold index at 1. rewrite He. cbn [expect mbind panicking_bind]. rewrite (Hfresh lo e) by (done || lia).
  destruct (Sender_stamp_ok s (Z.to_nat (lo - sn_base_index s)) e now (sn_loss_list s ∖ {[lo]}) Hwf He) as (Hwf1 & Hext1 & Hc1);
    [set_solver|].
  set (s1 := s <| sn_loss_list := _ |> <| sn_buffer := _ |>) in *.
  change (Sender_packet_at _ lo true) with (Sender_packet_at s1 lo true).
  rewrite (Sender_packet_at_ok s1 lo true _ (eq_trans (Hc1 lo) Hc)). cbn [mbind panicking_bind].
  eexists _, _. split; [by rewrite (packet_of_cfg s s1)|]. split; [done|].
  split; [apply (Sender_wf_same s1); try done; sn; by rewrite ?Hpc|]. split; [|split_and!; try done].
  - split; [done|]. sn. split; [intros i; rewrite elem_of_difference, not_elem_of_singleton, Hin; lia|].
    intros i e' Hi' He'. rewrite list_lookup_insert_ne in He' by lia. apply (Hfresh i e'); [lia|done].
  - unfold Sender_end. sn. by rewrite length_insert.
Qed.

Lemma seqZ_succ lo n : seqZ lo (Z.of_nat (S n)) = lo :: seqZ (lo + 1) (Z.of_nat n).
Proof. rewrite seqZ_cons by lia. f_equal. unfold Z.succ. f_equal. lia. Qed.

Lemma rexmits_same s s' lo n :
  sn_cfg s' = sn_cfg s -> (forall idx, content s' idx = content s idx) -> rexmits s' lo n = rexmits s lo n.
Proof.
  intros Hc Hs. unfold rexmits. induction (seqZ lo (Z.of_nat n)) as [|i l IH]; [done|]. cbn [omap list_omap].
  rewrite Hs, IH. destruct (content s i); [|done]. cbn. by rewrite (packet_of_cfg s s').
Qed.

Lemma poll_all_rexmits now hi : forall n s lo,
  Sender_wf s -> fresh_losses s lo hi -> hi = lo + Z.of_nat n ->
  exists s', poll_all n s now = Ret (s', rexmits s lo n) /\ sn_loss_list s' = ∅.
Proof.
  induction n as [|n IH]; intros s lo Hwf Hf Hhi.
  { exists s. split; [done|]. destruct Hf as (_ & Hin & _). apply leibniz_equiv, elem_of_equiv_empty. intros i.
    rewrite Hin. lia. }
  destruct (poll_rexmits s lo hi now Hwf Hf) as (s1 & c & Hp & Hc & Hwf1 & Hf1 & Ecfg & _ & _ & Hsame); [lia|].
  cbn [poll_all]. rewrite Hp. cbn [mbind panicking_bind].
  destruct (IH s1 (lo + 1) Hwf1 Hf1) as (s2 & -> & Hl); [lia|]. cbn [mbind panicking_bind]. exists s2. split; [|done].
  rewrite (rexmits_same s s1) by done. unfold rexmits. rewrite seqZ_succ. cbn [omap list_omap]. by rewrite Hc.
Qed.

(** What a retransmission carries. *)
Lemma rexmits_lookup s lo n k :
  sn_base_index s <= lo -> lo + Z.of_nat n <= Sender_end s -> (k < n)%nat ->
  exists e, sn_buffer s !! Z.to_nat (lo + Z.of_nat k - sn_base_index s) = Some e /\
    rexmits s lo n !! k = Some (mkDataPacket (Sender_seq_at s (lo + Z.of_nat k)) Only false (be_encryption e) true
      (be_msg e) (be_ts e) 0 (be_payload e)).
Proof.
  intros Hlo Hhi. revert lo k Hlo Hhi. induction n as [|n IH]; intros lo k Hlo Hhi Hk; [lia|].
  destruct (content_in s lo) as (e & He & Hc); [lia|].
  assert (E : rexmits s lo (S n) = packet_of s lo (be_msg e, be_ts e, be_encryption e, be_payload e) true :: rexmits s (lo + 1) n)
    by (unfold rexmits; rewrite seqZ_succ; cbn [omap list_omap]; by rewrite Hc).
  rewrite E. destruct k as [|k].
  - exists e. rewrite Z.add_0_r. by split.
  - destruct (IH (lo + 1) k) as (e' & He' & Hr); [lia..|]. exists e'.
    replace (lo + Z.of_nat (S k)) with (lo + 1 + Z.of_nat k) by lia. split; [exact He'|exact Hr].
Qed.

Lemma length_rexmits s lo n :
  sn_base_index s <= lo -> lo + Z.of_nat n <= Sender_end s -> length (rexmits s lo n) = n.
Proof.
  intros Hlo Hhi. revert lo Hlo Hhi. induction n as [|n IH]; intros lo Hlo Hhi; [done|].
  destruct (content_in s lo) as (e & _ & Hc); [lia|]. unfold rexmits. rewrite seqZ_succ. cbn [omap list_omap]. rewrite Hc. cbn.
  f_equal. apply IH; lia.
Qed.

(** A NAK for packets in flight queues exactly these. *)
Lemma nak_fresh s lo hi :
  Sender_wf s -> index_window_ok s -> sn_pacer s = None -> sn_loss_list s = ∅ ->
  Forall (fun e => be_last_rexmit e = None) (sn_buffer s) ->
  sn_base_index s <= lo -> lo < hi -> hi <= sn_next_send_index s ->
  let s' := Sender_handle_nak s [mkLossRange (Sender_seq_at s lo) (Sender_seq_at s (hi - 1))] in
  Sender_wf s' /\ fresh_losses s' lo hi /\ sn_cfg s' = sn_cfg s /\ sn_base_index s' = sn_base_index s /\
  sn_buffer s' = sn_buffer s.
Proof.
  intros Hwf Hwin Hpc Hempty Hnone Hlo Hlt Hhi s'.
  destruct (Sender_handle_nak_ok s [mkLossRange (Sender_seq_at s lo) (Sender_seq_at s (hi - 1))] Hwf) as
    (Hwf' & (Hcfg & _) & Hbuf & Hbase & _ & Hin). fold s' in Hwf', Hcfg, Hbuf, Hbase, Hin.
  pose proof Hwf as (_ & _ & _ & Hnext & _ & _ & Hlen & _). unfold Sender_end, index_window_ok in *.
  assert (Ha : accepted_ranges s [mkLossRange (Sender_seq_at s lo) (Sender_seq_at s (hi - 1))] =
    [mkLossRange (Sender_seq_at s lo) (Sender_seq_at s (hi - 1))]).
  { cbn [accepted_ranges nak_range_ok lr_first lr_last]. unfold nak_range_ok. cbn [lr_first lr_last].
    rewrite !Sender_ext_of_seq_at by lia. replace (lo <=? hi - 1) with true by (symmetry; apply Z.leb_le; lia).
    by replace (hi - 1 <? sn_next_send_index s) with true by (symmetry; apply Z.ltb_lt; lia). }
  split; [done|]. split; [|done]. split.
  - assert (Hp : forall s0 ranges, sn_pacer s0 = None -> sn_pacer (Sender_handle_nak s0 ranges) = None).
    { intros s0 ranges H0. unfold Sender_handle_nak.
      assert (Hl : forall ranges s0, sn_pacer s0 = None -> sn_pacer (fst (Sender_nak_loop s0 ranges)) = None).
      { clear. induction ranges as [|rg ranges IH]; intros s0 H0; [done|]. cbn [Sender_nak_loop]. case_if; [done|].
        apply IH. by repeat case_if. }
      specialize (Hl ranges s0 H0). destruct (Sender_nak_loop s0 ranges) as [s1 []]; cbn [fst] in Hl; [|done].
      sn. by rewrite Hl. }
    by apply Hp.
  - split.
    + intros i. rewrite Hin, Hempty, Ha. split.
      * intros [Hi|(_ & r & Hr & Hi)]; [by apply not_elem_of_empty in Hi|]. apply list_elem_of_singleton in Hr as ->.
        cbn [lr_first lr_last] in Hi. rewrite !Sender_ext_of_seq_at in Hi by lia. lia.
      * intros Hi. right. split; [lia|]. eexists. split; [by apply list_elem_of_singleton|]. cbn [lr_first lr_last].
        rewrite !Sender_ext_of_seq_at by lia. lia.
    + intros i e _. rewrite Hbuf, Hbase. intros He. exact (Forall_lookup_1 _ _ _ _ Hnone He).
Qed.

(** ** Property *)

(** C5: a gap is repaired in one round: when a packet arrives behind a gap,
    the receiver queues a NAK for exactly the missing packets, which survives
    the codec; given that NAK, a sender that still has the packets sends
    exactly these, in order, marked as retransmissions; and once the receiver
    has them nothing of the gap is missing any more and its slots hold the
    original payloads.  The sender is not paced, and has no other loss queued
    and retransmitted none of the packets before. *)
Theorem lost_packets_are_recovered (s : Sender) (r : Receiver) (l : list (Z * Z)) (b c o now1 now2 now3 : Z) (pkt : DataPacket) :
  Sender_wf s -> index_window_ok s -> sn_pacer s = None -> sn_loss_list s = ∅ ->
  Forall (fun e => be_last_rexmit e = None /\ (length (be_payload e) <= rv_max_payload r)%nat) (sn_buffer s) ->
  Receiver_view r l c -> Receiver_words r -> rv_base_seq r = Sender_seq_at s b ->
  sn_base_index s <= b + c + 1 -> b + o < sn_next_send_index s -> c + 1 < o < Z.of_nat (rc_buffer_pkts (rv_cfg r)) ->
  dp_seq pkt = Sender_seq_at s (b + o) -> (length (dp_payload pkt) <= rv_max_payload r)%nat ->
  exists r1 ranges, Receiver_ingest r now1 pkt false = Ret r1 /\ Nak ranges ∈ rv_control_q r1 /\
    (forall ts dst, is_u32 ts -> is_u32 dst ->
       Packet_parse (Packet_encode (Control (mkControlPacket ts dst (Nak ranges))) []) =
         pok (Control (mkControlPacket ts dst (Nak ranges)))) /\
    exists s2, poll_all (Z.to_nat (o - c - 1)) (Sender_handle_nak s ranges) now2 =
        Ret (s2, rexmits s (b + c + 1) (Z.to_nat (o - c - 1))) /\ sn_loss_list s2 = ∅ /\
    exists r2 l2, ingest_all r1 now3 (rexmits s (b + c + 1) (Z.to_nat (o - c - 1))) = Ret r2 /\ Receiver_view r2 l2 o /\
      (forall y, missing l2 y <-> missing l y) /\ slots_hold r2 (c + 1) (rexmits s (b + c + 1) (Z.to_nat (o - c - 1))).
Proof.
  intros Hwf Hwin Hpc Hempty Hbuf Hv Hw Hbase Hlo Hhi Ho Hseq Hlen.
  assert (Hat : forall i, SeqNumber_add (rv_base_seq r) i = Sender_seq_at s (b + i)).
  { intros i. rewrite Hbase, !Sender_seq_at_mod, SeqNumber_add_mod. zify_divmod. }
  rewrite <- Hat in Hseq.
  destruct (gap_reported r l c o pkt now1 Hv Hw Ho Hseq Hlen) as (r1 & l1 & Hr1 & Hv1 & Hw1 & Hb1 & [Hc1 Hm1] & Hmiss & Hq).
  eexists r1, _. split; [done|]. split; [exact Hq|]. rewrite !Hat. split.
  { intros ts dst Hts Hdst. apply Packet_parse_encode. split; [done|]. split; [done|]. destruct Hw1 as (_ & _ & _ & _ & _ & Hcq).
    rewrite Forall_forall in Hcq. rewrite <- !Hat. by apply Hcq. }
  replace (b + (c + 1)) with (b + c + 1) by lia. replace (b + (o - 1)) with (b + o - 1) by lia.
  assert (Hnone : Forall (fun e => be_last_rexmit e = None) (sn_buffer s)) by (eapply Forall_impl; [exact Hbuf|tauto]).
  destruct (nak_fresh s (b + c + 1) (b + o) Hwf Hwin Hpc Hempty Hnone) as (Hwf1 & Hf1 & Ecfg & Ebase & Ebuf); [lia..|].
  set (s1 := Sender_handle_nak s _) in *. set (n := Z.to_nat (o - c - 1)).
  destruct (poll_all_rexmits now2 (b + o) n s1 (b + c + 1) Hwf1 Hf1) as (s2 & Hp & Hl2); [lia|].
  rewrite (rexmits_same s s1) in Hp by (try done; intros idx; unfold content; by rewrite Ebase, Ebuf).
  exists s2. do 2 (split; [done|]). pose proof Hwf as (_ & _ & _ & Hnext & _).
  destruct (gap_closed now3 o o (rexmits s (b + c + 1) n) r1 l1 (c + 1)) as (r2 & l2 & Hr2 & Hv2 & _ & Hm2 & Hh2 & _); try done.
  - destruct Hv as (_ & ? & _). lia.
  - rewrite length_rexmits by lia. lia.
  - rewrite Hc1. lia.
  - intros y Hy. apply Hmiss. right. lia.
  - intros k p Hk. assert (Hkn : (k < n)%nat) by (apply lookup_lt_Some in Hk; by rewrite length_rexmits in Hk by lia).
    destruct (rexmits_lookup s (b + c + 1) n k) as (e & He & Hr); [lia..|]. rewrite Hk in Hr. injection Hr as ->.
    cbn [dp_seq dp_payload]. rewrite Hb1, Hat, Hm1. split; [f_equal; lia|].
    apply (Forall_lookup_1 _ _ _ _ Hbuf He).
  - exists r2, l2. do 2 (split; [done|]). split; [|done]. intros y. rewrite Hm2, Hmiss.
    pose proof Hv as (_ & _ & _ & _ & Hok & _). split; [intros [[?|?] ?]; [done|lia]|].
    intros Hy. pose proof (missing_range 0 c l y Hok Hy). split; [by left|lia].
Qed.

(** ** Witness *)

(** Three packets were sent, and only the third arrives. *)
Definition demo_sent_three : Sender := demo_sender <| sn_next_send_index := 3 |>.

Lemma demo_sent_three_wf : Sender_wf demo_sent_three.
Proof.
  pose proof demo_sender_sent_wf as (H1 & H2 & H3 & H4 & H5 & H6 & H7 & H8 & H9 & H10).
  unfold Sender_wf, Sender_end, demo_sent_three in *. sn. split_and!; try done; cbn; lia.
Qed.

Lemma demo_receiver_view : Receiver_view demo_receiver [] (-1) /\ Receiver_words demo_receiver.
Proof.
  split; [|apply demo_receiver_wf]. split; [split; cbn; lia|]. split; [lia|]. do 3 (split; [done|]).
  split; [by intros i s|cbn; lia].
Qed.

Lemma lost_packets_are_recovered_witness :
  exists r1 ranges s2 pkts r2 l2,
    Receiver_ingest demo_receiver 5 (Receiver.demo_packet 0 [3]) false = Ret r1 /\ Nak ranges ∈ rv_control_q r1 /\
    poll_all 2 (Sender_handle_nak demo_sent_three ranges) 9 = Ret (s2, pkts) /\
    map dp_payload pkts = [[1]; [2]] /\ ingest_all r1 12 pkts = Ret r2 /\ Receiver_view r2 l2 2 /\
    forall y, ~ missing l2 y.
Proof.
  destruct demo_receiver_view as [Hv Hw].
  destruct (lost_packets_are_recovered demo_sent_three demo_receiver [] 0 (-1) 2 5 9 12 (Receiver.demo_packet 0 [3])) as
    (r1 & ranges & Hr1 & Hq & _ & s2 & Hp & _ & r2 & l2 & Hr2 & Hv2 & Hm & _).
  - exact demo_sent_three_wf.
  - reflexivity.
  - reflexivity.
  - reflexivity.
  - apply Forall_forall. intros e He. assert (Hall : forallb (fun e => match be_last_rexmit e with None => true | Some _ => false end &&
      (length (be_payload e) <=? rv_max_payload demo_receiver)%nat) (sn_buffer demo_sent_three) = true) by (vm_compute; reflexivity).
    rewrite forallb_forall in Hall. specialize (Hall e (proj1 (list_elem_of_In _ _) He)). apply andb_true_iff in Hall as [H1 H2].
    split; [destruct (be_last_rexmit e); [discriminate H1|reflexivity]|by apply Nat.leb_le].
  - exact Hv.
  - exact Hw.
  - vm_compute. reflexivity.
  - vm_compute. discriminate.
  - vm_compute. reflexivity.
  - vm_compute. split; reflexivity.
  - vm_compute. reflexivity.
  - apply Nat.leb_le. vm_compute. reflexivity.
  - exists r1, ranges, s2, (rexmits demo_sent_three (0 + -1 + 1) (Z.to_nat (2 - -1 - 1))), r2, l2.
    split; [exact Hr1|]. split; [exact Hq|]. split; [exact Hp|]. split; [vm_compute; reflexivity|].
    split; [exact Hr2|]. split; [exact Hv2|]. intros y Hy. apply Hm, missing_nil in Hy. exact Hy.
Defined.
