(* ===== verification/Integrity.v ===== *)
(** * End to end: two connections and the network between them

    One direction of a connection: what the application gives to [send] of
    one end ([core/mod.rs], [core/sender.rs], [crypto/context.rs]) and what
    [poll_deliver] of the other end returns ([core/receiver.rs]), over a
    network that loses, repeats, reorders and delays packets. *)

From S2P Require Import Prelude PacketTypes PacketData PacketHandshake PacketControl Time CryptoKeys CryptoContext Cipher Options Pacing Sender LossList Receiver ReceiverTotal CoreHandshake Connection ConnectionLife ConnectionTrace.

(** ** The two ends *)

(** A connection right after the handshake that negotiated [ng]: accepted,
    or a caller's with nothing waiting. *)
Inductive opened `{CryptoPrimitives} (o : SrtOptions) (ng : Negotiated) : Connection -> Prop :=
| OpenedAccepted now reply tb :
    is_control reply -> opened o ng (Connection_accepted_with_timebase now ng reply o tb)
| OpenedCaller c hs now ts c' :
    cn_state c = StConnecting hs [] [] -> cn_opts c = o -> control_only c ->
    Connection_establish c now ts ng = Ret c' -> opened o ng c'.

(** The payloads [send] took, and those delivered. *)
Fixpoint accepted (evs : list conn_event) (outs : list conn_output) : list bytes :=
  match evs, outs with
  | EvSend _ payload :: evs, OutSend (Ok _) :: outs => payload :: accepted evs outs
  | _ :: evs, _ :: outs => accepted evs outs
  | _, _ => []
  end.

Definition delivered (outs : list conn_output) : list bytes := omap payload_of outs.

(** The packets a run sent. *)
Definition sent (outs : list conn_output) : list Packet :=
  omap (fun out => match out with OutPacket p => p | _ => None end) outs.

(** The network: data packets that arrive were sent by the other end. *)
Definition carries (evs : list conn_event) (packets : list Packet) : Prop :=
  forall now dg rng d, EvDatagram now dg rng ∈ evs -> Packet_parse dg = pok (Data d) -> Data d ∈ packets.

(** No new key arrives. *)
Definition no_rekey (evs : list conn_event) : Prop :=
  forall now dg rng ctrl blob, EvDatagram now dg rng ∈ evs -> Packet_parse dg = pok (Control ctrl) ->
    cp_control_type ctrl <> KmReq blob.

(** The engines of the two ends: [a] sends with one key, which [b] has, and
    [n] more packets do not reach the announcement of a new one. *)
Definition engines_paired (n : nat) (a b : option Crypto) (evs : list conn_event) : Prop :=
  match a, b with
  | None, None => True
  | Some i, Some r => in_sync i r /\ slot_get (cr_tx i) (alt (cr_active i)) = None /\
      active_count i + Z.of_nat n <= cc_km_refresh_rate (cr_cfg i) - cc_km_preannounce (cr_cfg i) < 2 ^ 32 /\
      no_rekey evs
  | _, _ => False
  end.

(** ** The wire form of a payload *)

Record wire_key := mkWireKey { wk_slot : Slot; wk_cipher : CtrCipher; wk_salt : bytes }.

Definition on_wire `{CryptoPrimitives} (key : option wire_key) (seq : Z) (payload : bytes) : EncryptionFlags * bytes :=
  match key with
  | None => (EncNone, payload)
  | Some k =>
      if decide (payload = []) then (EncNone, payload) else
      (if decide (wk_slot k = EVEN) then EncEven else EncOdd,
       CtrCipher_apply_keystream (wk_cipher k) (wk_salt k) seq payload)
  end.

(** [d] carries the payload of its position in [pushed]. *)
Definition genuine `{CryptoPrimitives} (key : option wire_key) (isn : Z) (pushed : list bytes) (d : DataPacket) : Prop :=
  exists (idx : nat) p, pushed !! idx = Some p /\ dp_seq d = SeqNumber_add isn (Z.of_nat idx) /\
    (dp_encryption d, dp_payload d) = on_wire key (dp_seq d) p.

Lemma genuine_app `{CryptoPrimitives} key isn pushed more d :
  genuine key isn pushed d -> genuine key isn (pushed ++ more) d.
Proof. intros (idx & p & Hp & ?). exists idx, p. split; [by apply lookup_app_l_Some|done]. Qed.

(** ** Engines *)

Definition tx_same (c c' : Crypto) : Prop :=
  cr_tx c' = cr_tx c /\ cr_active c' = cr_active c /\ cr_salt c' = cr_salt c /\ cr_cfg c' = cr_cfg c.

Definition rx_same (c c' : Crypto) : Prop := cr_rx c' = cr_rx c /\ cr_rx_salt c' = cr_rx_salt c.

(** [e] encrypts with [key] only, and has encrypted at most [n] packets;
    a new key is announced after [limit]. *)
Definition sends_with (key : option wire_key) (n limit : Z) (e : option Crypto) : Prop :=
  match key, e with
  | None, None => True
  | Some k, Some c => cr_active c = wk_slot k /\ cr_salt c = wk_salt k /\
      slot_get (cr_tx c) (alt (cr_active c)) = None /\
      limit = cc_km_refresh_rate (cr_cfg c) - cc_km_preannounce (cr_cfg c) /\ limit < 2 ^ 32 /\
      exists tk, slot_get (cr_tx c) (cr_active c) = Some tk /\ tk_cipher tk = wk_cipher k /\ 0 <= tk_pkt_cnt tk <= n
  | _, _ => False
  end.

(** What [e] decrypts from the slot of [key] it decrypts with [key]. *)
Definition receives_with (key : option wire_key) (e : option Crypto) : Prop :=
  match key, e with
  | None, None => True
  | Some k, Some c => slot_get (cr_rx c) (wk_slot k) = Some (wk_cipher k) /\ cr_rx_salt c = wk_salt k
  | _, _ => False
  end.

Section Engines.
Context `{CryptoLaws}.

Lemma decrypt_same c seq kk p :
  tx_same c (fst (fst (Crypto_decrypt c seq kk p))) /\ rx_same c (fst (fst (Crypto_decrypt c seq kk p))).
Proof.
  unfold Crypto_decrypt. destruct kk; [done|..]; (case_decide; [done|]; case_decide; [done|]); by destruct (slot_get _ _).
Qed.

Lemma kmrsp_same c blob :
  tx_same c (fst (Crypto_handle_kmrsp c blob)) /\ rx_same c (fst (Crypto_handle_kmrsp c blob)).
Proof.
  unfold Crypto_handle_kmrsp. destruct (KmResponse_parse blob) as [[echo|st]|]; [| |done].
  - destruct (cr_outstanding c); [|done]. by case_decide.
  - unfold Crypto_peer_km_failure. by destruct st as [[]|].
Qed.

Lemma kmreq_tx_same c blob c' out : Crypto_handle_kmreq c blob = Ret (c', out) -> tx_same c c'.
Proof.
  unfold Crypto_handle_kmreq. destruct (parse_kmreq blob) as [[msg|st]|]; [| |done]; cbn [mbind panicking_bind].
  2: { intros [= <- _]. by case_decide. }
  assert (Hi : forall c1 r, Crypto_install_rx c msg = Ret (c1, r) -> tx_same c c1).
  { intros c1 r. unfold Crypto_install_rx. cbv zeta.
    match goal with |- context [if ?b then _ else Ret None] =>
      destruct (if b then _ else Ret None) as [fresh|]; [|done] end. cbn [mbind panicking_bind].
    destruct (unwrap_key _ _) as [[sek|err]|]; cbn [mbind panicking_bind]; [|by intros [= <- _]|done].
    destruct (split_seks msg sek) as [seks|]; [|done]. cbn [mbind panicking_bind].
    destruct (install_slot (fst (cr_rx c)) (fst seks)) as [ev|]; [|done]. cbn [mbind panicking_bind].
    destruct (install_slot (snd (cr_rx c)) (snd seks)) as [od|]; [|done]. cbn [mbind panicking_bind]. intros [= <- _]. by destruct fresh. }
  destruct (Crypto_install_rx c msg) as [[c1 r]|]; [|done]. specialize (Hi c1 r eq_refl). cbn [mbind panicking_bind].
  by destruct r as [?|[]]; intros [= <- _].
Qed.

Lemma on_ack_rx_same c now srtt rnd c' km :
  Crypto_wf c -> rnd_ok rnd -> Crypto_on_ack c now srtt rnd = Ret (c', km) ->
  rx_same c c' /\ cr_rcv_state c' = cr_rcv_state c.
Proof.
  intros Hwf Hrnd. unfold Crypto_on_ack. case_decide; [by intros [= <- _]|].
  destruct (Crypto_tick_cases c rnd Hwf Hrnd) as (k & _ & Hcases). cbv zeta in Hcases.
  assert (Hx : exists c1 x, Crypto_tick_refresh c rnd = Ret (c1, x) /\ rx_same c c1 /\ cr_rcv_state c1 = cr_rcv_state c)
    by (destruct Hcases as [(_ & _ & ? & ? & ? & _ & _ & _ & ->)|[(_ & ? & _ & _ & ->)|[(_ & _ & ->)|(_ & _ & ->)]]];
        by eexists _, _).
  destruct Hx as (c1 & x & -> & Hs). cbn [mbind panicking_bind]. destruct x; [by intros [= <- _]|].
  destruct (cr_outstanding c1); [|by intros [= <- _]]. case_if; [by intros [= <- _]|].
  destruct (match ok_last_send _ with Some _ => _ | None => _ end); by intros [= <- _].
Qed.

(** Below the limit an ACK changes no key. *)
Lemma on_ack_tx_same k n limit c now srtt rnd c' km :
  Crypto_wf c -> rnd_ok rnd -> sends_with (Some k) n limit (Some c) -> n <= limit ->
  Crypto_on_ack c now srtt rnd = Ret (c', km) -> tx_same c c'.
Proof.
  intros Hwf Hrnd (_ & _ & Halt & -> & Hlim & tk & Htk & _ & Hn) Hle. unfold Crypto_on_ack. case_decide; [by intros [= <- _]|].
  destruct (Crypto_tick_cases c rnd Hwf Hrnd) as (tk' & Htk' & Hcases). cbv zeta in Hcases.
  rewrite Htk in Htk'. injection Htk' as <-. rewrite Halt in Hcases.
  destruct Hcases as [(Hlt & _)|[(_ & ak & ? & _)|[(? & _)|(_ & _ & ->)]]]; [|done|done|].
  { exfalso. unfold saturating_sub in Hlt. lia. }
  cbn [mbind panicking_bind]. destruct (cr_outstanding c); [|by intros [= <- _]]. case_if; [by intros [= <- _]|].
  destruct (match ok_last_send _ with Some _ => _ | None => _ end); by intros [= <- _].
Qed.

Lemma sends_with_same key n limit c c' :
  tx_same c c' -> sends_with key n limit (Some c) -> sends_with key n limit (Some c').
Proof. intros (E1 & E2 & E3 & E4). unfold sends_with. by rewrite E1, E2, E3, E4. Qed.

Lemma sends_with_weaken key n n' limit e : n <= n' -> sends_with key n limit e -> sends_with key n' limit e.
Proof.
  intros Hn. unfold sends_with. destruct key as [k|], e as [c|]; try done.
  intros (? & ? & ? & ? & ? & tk & ? & ? & ?). do 5 (split; [done|]). exists tk. do 2 (split; [done|]). lia.
Qed.

Lemma sends_with_move key n limit ev e e' :
  engine_wf e -> sends_with key n limit e -> n <= limit -> engine_move ev e e' -> sends_with key n limit e'.
Proof.
  intros Hwf Hs Hle [->|(c & c' & -> & -> & Hstep)]; [done|]. destruct key as [k|]; [|done].
  eapply sends_with_same; [|exact Hs].
  destruct Hstep as [now srtt rnd c' km Hrnd Ha|seq kk p|? ? ? ? blob c' out _ _ _ Hk|? ? ? ? blob _ _ _].
  - by eapply on_ack_tx_same.
  - apply decrypt_same.
  - by eapply kmreq_tx_same.
  - apply kmrsp_same.
Qed.

Lemma receives_with_move key ev e e' evs :
  engine_wf e -> receives_with key e -> ev ∈ evs -> (key <> None -> no_rekey evs) -> engine_move ev e e' ->
  receives_with key e'.
Proof.
  intros Hwf Hs Hin Hno [->|(c & c' & -> & -> & Hstep)]; [done|]. destruct key as [k|]; [|done].
  assert (Hsame : rx_same c c').
  { destruct Hstep as [now srtt rnd c' km Hrnd Ha|seq kk p|now dg rng ctrl blob c' out -> Hp Hct Hk|? ? ? ? blob _ _ _].
    - by eapply on_ack_rx_same.
    - apply decrypt_same.
    - by destruct (Hno ltac:(done) now dg rng ctrl blob Hin Hp).
    - apply kmrsp_same. }
  destruct Hsame as [E1 E2]. unfold receives_with in *. by rewrite E1, E2.
Qed.

(** Encrypting a payload leaves the keys for decryption. *)
Lemma receives_with_push key s e payload e' ct kk :
  receives_with key e -> buffered s e payload e' ct kk -> receives_with key e'.
Proof.
  unfold buffered, receives_with. intros Hr Hbf. destruct key as [k|], e as [c0|]; try done; [|by destruct Hbf as (-> & _)].
  case_decide; [by destruct Hbf as (-> & _)|]. destruct Hbf as (c1 & -> & Henc).
  cbn [cipher_encrypt Crypto_cipher] in Henc. unfold Crypto_encrypt in Henc.
  destruct (slot_get (cr_tx c0) (cr_active c0)); [|done]. cbn [expect mbind panicking_bind] in Henc.
  injection Henc as <- _ _. done.
Qed.

(** What is buffered for a payload is its wire form. *)
Lemma buffered_on_wire key n limit s e payload e' ct kk :
  sends_with key n limit e -> 0 <= n < limit -> buffered s e payload e' ct kk ->
  (kk, ct) = on_wire key (Sender_seq_at s (Sender_end s)) payload /\ sends_with key (n + 1) limit e'.
Proof.
  intros Hs Hn Hb. unfold buffered, on_wire in *. destruct key as [k|], e as [c|]; try done.
  2: { by destruct Hb as (-> & -> & ->). }
  case_decide as Hp.
  - destruct Hb as (-> & -> & ->). split; [done|]. by apply (sends_with_weaken _ n); [lia|].
  - destruct Hb as (c' & -> & He).
    destruct Hs as (Ha & Hsalt & Halt & Hl & Hl2 & tk & Htk & Hc & Hcnt).
    cbn [cipher_encrypt Crypto_cipher] in He. unfold Crypto_encrypt in He. rewrite Htk in He.
    cbn [expect mbind panicking_bind] in He. injection He as <- <- <-. rewrite Hc, Hsalt, Ha. split; [done|].
    unfold sends_with. unfold_set. cbn [cr_active cr_salt cr_tx cr_cfg]. rewrite <- Ha. do 2 (split; [done|]).
    rewrite !slot_get_set. split; [by rewrite decide_False by apply alt_ne|]. do 2 (split; [done|]).
    eexists. split; [by rewrite decide_True by done|]. unfold_set. cbn [tk_cipher tk_pkt_cnt].
    split; [done|]. unfold as_u32. rewrite Z.mod_small; lia.
Qed.

(** A genuine packet decrypts to the payload of its position. *)
Lemma genuine_decrypts key isn pushed e d p :
  receives_with key e -> genuine key isn pushed d -> decrypts e d p ->
  exists idx : nat, pushed !! idx = Some p /\ dp_seq d = SeqNumber_add isn (Z.of_nat idx).
Proof.
  intros Hr (idx & q & Hq & Hseq & Hw) Hd. exists idx. split; [|done]. rewrite Hq. f_equal.
  unfold receives_with, decrypts, on_wire in *. destruct key as [k|], e as [c|]; try done.
  2: { destruct Hd as [_ ->]. by injection Hw. }
  destruct Hd as [c' Hd]. case_decide.
  { injection Hw as E _. rewrite E in Hd. by unfold Crypto_decrypt in Hd. }
  injection Hw as E1 E2. destruct Hr as [Hslot Hsalt]. rewrite E1, E2 in Hd. unfold Crypto_decrypt in Hd.
  replace (match (if decide (wk_slot k = EVEN) then EncEven else EncOdd) with
      | EncNone => None | EncEven => Some EVEN | EncOdd | EncBoth => Some ODD end)
      with (Some (wk_slot k)) in Hd by (by destruct (wk_slot k)).
  case_decide; [done|]. case_decide; [done|]. rewrite Hslot, Hsalt, apply_keystream_involutive in Hd. by injection Hd.
Qed.

End Engines.

(** ** The sending end *)

(** [c] has taken [pushed], and its buffer holds the wire forms. *)
Definition source `{CryptoPrimitives} (key : option wire_key) (isn n0 limit : Z) (pushed : list bytes) (c : Connection)
    : Prop :=
  control_only c /\
  match cn_state c with
  | StEstablished s r e =>
      Sender_end s = Z.of_nat (length pushed) /\ sc_initial_seq (sn_cfg s) = isn /\
      sends_with key (n0 + Z.of_nat (length pushed)) limit e /\ SeqNumber_wf (rv_base_seq r) /\
      (forall idx : nat, sn_base_index s <= Z.of_nat idx < Sender_end s ->
         exists msg ts p, pushed !! idx = Some p /\
           content s (Z.of_nat idx) =
             Some (msg, ts, fst (on_wire key (SeqNumber_add isn (Z.of_nat idx)) p),
                   snd (on_wire key (SeqNumber_add isn (Z.of_nat idx)) p)))
  | StClosed _ (Some r) => SeqNumber_wf (rv_base_seq r)
  | _ => False
  end.

Section Source.
Context `{CryptoLaws}.
Variables (key : option wire_key) (isn n0 limit : Z).
Hypothesis Hn0 : 0 <= n0.

(** The payload an event adds. *)
Definition taken (ev : conn_event) (out : conn_output) : list bytes :=
  match ev, out with
  | EvSend _ payload, OutSend (Ok _) => [payload]
  | _, _ => []
  end.

Lemma seq_at_isn s idx : sc_initial_seq (sn_cfg s) = isn -> Sender_seq_at s idx = SeqNumber_add isn idx.
Proof. intros <-. by rewrite Sender_seq_at_mod, SeqNumber_add_mod. Qed.

Lemma source_sends pushed c s d :
  Connection_wf (cn_opts c) c -> source key isn n0 limit pushed c -> (exists r e, cn_state c = StEstablished s r e) ->
  emitted c s d -> genuine key isn pushed d.
Proof.
  intros Hwf [_ Hsrc] (r & e & Hst) (idx & cont & rexmit & Hc & Hlo & ->). rewrite Hst in Hsrc.
  destruct Hsrc as (Hend & Hisn & _ & _ & Hbuf).
  pose proof Hwf as (_ & _ & Hs). rewrite Hst in Hs. destruct Hs as ((_ & Hb0 & _) & _).
  assert (Hhi : idx < Sender_end s).
  { unfold content in Hc. destruct (Z.ltb_spec idx (sn_base_index s)); [done|].
    destruct (sn_buffer s !! _) eqn:El; [|done]. apply lookup_lt_Some in El. unfold Sender_end. lia. }
  destruct (Hbuf (Z.to_nat idx)) as (msg & ts & p & Hp & Hcont); [rewrite Z2Nat.id; lia|].
  rewrite Z2Nat.id in Hcont by lia. rewrite Hc in Hcont. injection Hcont as ->.
  exists (Z.to_nat idx), p. split; [done|]. cbn. rewrite Z2Nat.id by lia. rewrite (seq_at_isn s idx) by done.
  split; [done|]. symmetry. apply surjective_pairing.
Qed.

Lemma source_step o pushed c ev c' out :
  Connection_wf o c -> conn_event_ok ev -> source key isn n0 limit pushed c ->
  (key <> None -> n0 + Z.of_nat (length (pushed ++ taken ev out)) <= limit) ->
  conn_step c ev = Ret (c', out) ->
  source key isn n0 limit (pushed ++ taken ev out) c' /\
  forall d, out = OutPacket (Some (Data d)) -> genuine key isn (pushed ++ taken ev out) d.
Proof.
  intros Hwf Hev Hsrc Hlim Hstep. pose proof Hsrc as [Hc Hst]. pose proof Hwf as (_ & Ho & Hs).
  destruct (cn_state c) as [hs p ed|s r e|reason [r|]] eqn:Est; [done| | |done].
  2: { destruct (closed_step c ev c' out reason r Hc Est Hst Hstep) as (Hc' & (r' & E' & k & _ & _ & Hb' & _) & Hd & Hns).
       assert (taken ev out = []) as ->.
       { destruct ev; try done. destruct out as [|[[]|]| |]; done. }
       rewrite app_nil_r. split; [split; [done|by rewrite E']|]. intros d E. by destruct (Hd d). }
  destruct Hst as (Hend & Hisn & Hkey & Hb & Hbuf).
  destruct (established_step o c ev c' out s r e Hwf Hev Hc Est Hb Hstep) as (Hc' & Hm & Hd).
  assert (Hgen : forall d, out = OutPacket (Some (Data d)) -> genuine key isn (pushed ++ taken ev out) d).
  { intros d E. apply genuine_app. apply (source_sends pushed c s); [by rewrite Ho|done|by eexists _, _|by apply Hd]. }
  split; [|done]. split; [done|]. unfold machines_move in Hm.
  destruct (cn_state c') as [hs p ed|s' r' e'|reason [r'|]] eqn:Est'; [done| | |done].
  2: { destruct Hm as [(k & _ & _ & ? & _) _]. done. }
  destruct Hm as [[Hext Hsm] (k & _ & _ & Hb' & _)]. pose proof Hext as (Hcfg & Hbase & _ & _ & Hcont).
  pose proof Hs as (Hswf & _ & _ & He). pose proof Hswf as (_ & Hb0 & _).
  assert (Hold : forall pushed' (idx : nat), sn_base_index s' <= Z.of_nat idx < Sender_end s -> exists msg ts p,
    (pushed ++ pushed') !! idx = Some p /\ content s' (Z.of_nat idx) =
      Some (msg, ts, fst (on_wire key (SeqNumber_add isn (Z.of_nat idx)) p), snd (on_wire key (SeqNumber_add isn (Z.of_nat idx)) p))).
  { intros pushed' idx Hidx. destruct (Hbuf idx) as (msg & ts & p & Hp & Hco); [lia|].
    exists msg, ts, p. split; [by apply lookup_app_l_Some|]. rewrite Hcont by done. done. }
  destruct (taken ev out) as [|payload t] eqn:Ht.
  - rewrite app_nil_r in *. assert (Hsm' : Sender_end s' = Sender_end s /\ engine_move ev e e').
    { destruct ev; try done. by destruct out as [|[?|?]| |]. }
    destruct Hsm' as [Hend' Heng]. rewrite Hend', Hcfg. do 2 (split; [done|]). split.
    + destruct key as [k0|]; [|by destruct Heng as [->|(? & ? & -> & _)]]. by apply (sends_with_move _ _ _ ev e); auto.
    + split; [done|]. intros idx Hidx. destruct (Hold [] idx) as (msg & ts & p & Hp & ?); [done|].
      rewrite app_nil_r in Hp. by eexists _, _, _.
  - destruct ev as [| |now payload'| | | |]; try done. destruct out as [|[u|?]| |]; try done. injection Ht as -> <-.
    destruct Hsm as (Hend' & msg & ts & ct & kk & Hco & Hbf). rewrite length_app in *. cbn [length] in *.
    assert (Hw : (kk, ct) = on_wire key (Sender_seq_at s (Sender_end s)) payload /\
      sends_with key (n0 + Z.of_nat (length pushed + 1)) limit e').
    { destruct key as [k0|].
      - destruct (buffered_on_wire (Some k0) (n0 + Z.of_nat (length pushed)) limit s e payload e' ct kk) as [? Hsw];
          [done|specialize (Hlim ltac:(done)); lia|done|]. split; [done|].
        apply (sends_with_weaken _ (n0 + Z.of_nat (length pushed) + 1)); [lia|done].
      - destruct e as [?|]; [done|]. unfold buffered in Hbf. by destruct Hbf as (-> & -> & ->). }
    destruct Hw as [Hw Hsw]. rewrite Hcfg, Hend', Hend. split; [lia|]. split; [done|]. split; [done|]. split; [done|].
    intros idx Hidx. destruct (decide (Z.of_nat idx < Sender_end s)) as [Hlt|Hge]; [by apply Hold; lia|].
    assert (idx = length pushed) as -> by lia. exists msg, ts, payload. rewrite list_lookup_middle by done.
    split; [done|]. rewrite <- Hend, Hco, Hend. rewrite (seq_at_isn s) in Hw by done. rewrite Hend in Hw. by rewrite <- Hw.
Qed.

Lemma accepted_cons ev out evs outs : accepted (ev :: evs) (out :: outs) = taken ev out ++ accepted evs outs.
Proof. cbn. by destruct ev; try done; destruct out as [|[?|?]| |]. Qed.

Lemma source_run o : forall evs pushed c c' outs,
  Connection_wf o c -> Forall conn_event_ok evs -> source key isn n0 limit pushed c ->
  conn_run c evs = Ret (c', outs) ->
  (key <> None -> n0 + Z.of_nat (length (pushed ++ accepted evs outs)) <= limit) ->
  forall d, Data d ∈ sent outs -> genuine key isn (pushed ++ accepted evs outs) d.
Proof.
  induction evs as [|ev evs IH]; intros pushed c c' outs Hwf Hevs Hsrc; cbn [conn_run].
  { intros [= _ <-] _ d Hd. by apply not_elem_of_nil in Hd. }
  apply Forall_cons in Hevs as [Hev Hevs].
  destruct (conn_step_ok o c ev Hwf Hev) as (c1 & out & Hs & Hwf1). rewrite Hs. cbn [mbind panicking_bind].
  destruct (conn_run c1 evs) as [[c2 outs']|] eqn:Hr; [|done]. cbn [mbind panicking_bind]. intros [= <- <-].
  rewrite accepted_cons, app_assoc. intros Hlim.
  destruct (source_step o pushed c ev c1 out Hwf Hev Hsrc) as [Hsrc1 Hd1]; [|done|].
  { intros Hk. specialize (Hlim Hk). rewrite length_app in Hlim. lia. }
  intros d Hd. unfold sent in Hd. cbn [omap list_omap] in Hd.
  assert (Hd' : out = OutPacket (Some (Data d)) \/ Data d ∈ sent outs').
  { destruct out as [| |[p|]|]; try (by right). apply elem_of_cons in Hd as [<-|Hd]; [by left|by right]. }
  destruct Hd' as [E|Hd']; [apply genuine_app; by apply Hd1|]. by apply (IH (pushed ++ taken ev out) c1 c2 outs').
Qed.

End Source.

(** ** The receiving end *)

(** The buffer of [r] holds what was pushed, from position [pos] on. *)
Definition buffer_holds (isn : Z) (pushed : list bytes) (pos : nat) (r : Receiver) : Prop :=
  (pos <= length pushed)%nat /\ rv_base_seq r = SeqNumber_add isn (Z.of_nat pos) /\
  forall i s, rv_slots r !! i = Some (Some s) -> (pos + i < length pushed)%nat /\
    forall p, readable s = Some p -> pushed !! (pos + i)%nat = Some p.

(** The receiver of a connection; a closed one keeps it for what is left to
    deliver. *)
Definition receiver_of (c : Connection) : option Receiver :=
  match cn_state c with
  | StEstablished _ r _ => Some r
  | StClosed _ r => r
  | StConnecting _ _ _ => None
  end.

Definition sink `{CryptoPrimitives} (key : option wire_key) (isn : Z) (pushed : list bytes) (pos : nat) (c : Connection)
    : Prop :=
  control_only c /\
  match cn_state c with
  | StEstablished s r e => buffer_holds isn pushed pos r /\ receives_with key e
  | StClosed _ (Some r) => buffer_holds isn pushed pos r
  | _ => False
  end.

Lemma position_of_seq isn (i j : nat) :
  Z.of_nat i < 2 ^ 31 -> Z.of_nat j < 2 ^ 31 ->
  SeqNumber_add isn (Z.of_nat i) = SeqNumber_add isn (Z.of_nat j) -> i = j.
Proof. rewrite !SeqNumber_add_mod. intros Hi Hj E. apply Nat2Z.inj. zify_divmod. Qed.

Section Sink.
Context `{CryptoLaws}.
Variables (key : option wire_key) (isn : Z) (pushed : list bytes) (o : SrtOptions).
Hypothesis Hpushed : Z.of_nat (length pushed) <= 2 ^ 30.
Hypothesis Hcap : Z.of_nat (recv_capacity o) <= 2 ^ 30.

(** What arrives is genuine. *)
Definition genuine_arrivals (new : Z -> option bytes -> Prop) : Prop :=
  forall seq payload, new seq payload -> exists idx : nat, (idx < length pushed)%nat /\
    seq = SeqNumber_add isn (Z.of_nat idx) /\ forall p, payload = Some p -> pushed !! idx = Some p.

(** The receiver moves by [k] positions: what leaves the buffer is delivered
    or counted as given up, and without a drop request nothing else leaves. *)
Record moved_on (keep : Prop) (pos k : nat) (r r' : Receiver) (out : option bytes) : Prop := mkMovedOn {
  mo_out : forall p, out = Some p -> exists j, (pos <= j)%nat /\ (pos + k)%nat = S j /\ pushed !! j = Some p;
  mo_count : given_up r' + count out = given_up r + Z.of_nat k;
  mo_found : found r -> found r';
  mo_config : same_config r r';
  mo_kept : keep -> forall i s, rv_slots r !! (k + i)%nat = Some (Some s) -> rv_slots r' !! i = Some (Some s)
}.

Lemma slots_move_holds keep new pos r r' out :
  genuine_arrivals new -> buffer_holds isn pushed pos r -> receiver_bounded o r -> receiver_bounded o r' ->
  slots_move keep new r r' out ->
  exists k, buffer_holds isn pushed (pos + k) r' /\ moved_on keep pos k r r' out.
Proof.
  intros Hnew (Hpos & Hb & Hsl) [[Hl _] Hc] [[Hl' _] Hc'] (k & Hk & Hb' & _ & Hout & Hs & Hlast & Hg & Hf & Hcfg & Hkept).
  assert (Hpos' : (pos + k <= length pushed)%nat).
  { destruct Hlast as [->|(j & s & -> & Hj)]; [lia|]. destruct (Hsl j s Hj). lia. }
  exists k. split; [split; [done|split]|split; try done].
  - rewrite Hb', Hb, SeqNumber_add_add. f_equal. lia.
  - intros i s Hi. destruct (Hs i s Hi) as [Ho|Hn].
    + destruct (Hsl _ s Ho) as [Hlt Hp]. split; [lia|]. intros p Hr. rewrite <- (Hp p Hr). f_equal. lia.
    + destruct (Hnew _ _ Hn) as (idx & Hidx & Eseq & Hp). apply lookup_lt_Some in Hi.
      rewrite Hb', Hb, !SeqNumber_add_add in Eseq.
      assert (idx = (pos + k + i)%nat) as ->.
      { apply (position_of_seq isn); [lia|lia|]. rewrite <- Eseq. f_equal. lia. }
      done.
  - intros p E. destruct (Hout p E) as (j & s & -> & Hj & Hr). destruct (Hsl j s Hj) as [_ Hp].
    exists (pos + j)%nat. split; [lia|]. split; [lia|]. by apply Hp.
Qed.

Lemma sink_step pos c ev c' out evs :
  Connection_wf o c -> Connection_wf o c' -> conn_event_ok ev -> sink key isn pushed pos c ->
  ev ∈ evs -> (key <> None -> no_rekey evs) ->
  (forall now dg rng d, ev = EvDatagram now dg rng -> Packet_parse dg = pok (Data d) -> genuine key isn pushed d) ->
  conn_step c ev = Ret (c', out) ->
  exists k r r', receiver_of c = Some r /\ receiver_of c' = Some r' /\ sink key isn pushed (pos + k) c' /\
    moved_on (no_dropreq ev) pos k r r' (payload_of out).
Proof.
  intros Hwf Hwf' Hev [Hc Hsink] Hin Hno Hgen Hstep. pose proof Hwf as (_ & _ & Hs). pose proof Hwf' as (_ & _ & Hs').
  unfold sink, receiver_of. destruct (cn_state c) as [hs p ed|s r e|reason [r|]] eqn:Est; [done| | |done].
  - destruct Hsink as [Hh Hk]. pose proof Hh as (_ & Hb & _).
    destruct (established_step o c ev c' out s r e Hwf Hev Hc Est) as (Hc' & Hm & _);
      [rewrite Hb; apply SeqNumber_add_wf|done|].
    assert (Hnew : genuine_arrivals (arrival ev e)).
    { intros seq payload (now & dg & rng & d & -> & Hp & <- & Hd). specialize (Hgen now dg rng d eq_refl Hp).
      destruct payload as [p|].
      - destruct (genuine_decrypts key isn pushed e d p Hk Hgen Hd) as (idx & Hi & Hseq). exists idx.
        split; [by apply lookup_lt_Some in Hi|]. split; [done|]. by intros q [= <-].
      - destruct Hgen as (idx & p & Hi & Hseq & _). exists idx. split; [by apply lookup_lt_Some in Hi|]. by split. }
    unfold machines_move in Hm. destruct Hs as (_ & _ & Hr & He).
    destruct (cn_state c') as [hs p ed|s' r' e'|reason [r'|]] eqn:Est'; [done| | |done].
    + destruct Hm as [Hsm Hm]. destruct Hs' as (_ & _ & Hr' & _).
      destruct (slots_move_holds _ _ pos r r' (payload_of out) Hnew Hh Hr Hr' Hm) as (k & Hh' & Hmo).
      exists k, r, r'. do 2 (split; [done|]). split; [|done]. split; [done|]. split; [done|].
      apply sender_move_engine in Hsm as [Heng|(payload & ct & kk & Hbf)];
        [by eapply receives_with_move|by eapply receives_with_push].
    + destruct Hm as [Hm ->]. destruct (slots_move_holds _ _ pos r r' None Hnew Hh Hr Hs' Hm) as (k & ? & ?).
      by exists k, r, r'.
  - pose proof Hsink as (_ & Hb & _).
    destruct (closed_step c ev c' out reason r Hc Est) as (Hc' & (r' & Est' & Hm) & _);
      [rewrite Hb; apply SeqNumber_add_wf|done|]. rewrite Est' in *.
    destruct (slots_move_holds True no_arrival pos r r' (payload_of out)) as (k & ? & Hmo); [by intros ? ? []|done..|].
    exists k, r, r'. do 2 (split; [done|]). split; [done|]. destruct Hmo. split; auto.
Qed.

Lemma sublist_pos (l : list bytes) pos k j p rest :
  (pos <= j)%nat -> (pos + k)%nat = S j -> l !! j = Some p -> forall n, sublist rest (take n (drop (S j) l)) ->
  sublist (p :: rest) (take (k + n) (drop pos l)).
Proof.
  intros Hle Hk Hj n Hs. replace (drop pos l) with (take (j - pos) (drop pos l) ++ drop (j - pos) (drop pos l))
    by apply take_drop. rewrite drop_drop. replace (pos + (j - pos))%nat with j by lia.
  rewrite (drop_S l p j) by done. apply lookup_lt_Some in Hj as Hlt.
  rewrite take_app_ge by (rewrite length_take; lia). rewrite length_take, length_drop.
  replace (k + n - (j - pos) `min` (length l - pos))%nat with (S n) by lia. cbn [take].
  by apply sublist_inserts_l, sublist_skip.
Qed.

Lemma sublist_skip_pos (l : list bytes) pos k rest n :
  sublist rest (take n (drop (pos + k) l)) -> sublist rest (take (k + n) (drop pos l)).
Proof.
  intros Hs. rewrite <- drop_drop in Hs. rewrite <- (take_drop k (drop pos l)). rewrite take_app.
  apply sublist_inserts_l. destruct (decide (k <= length (drop pos l))%nat).
  - rewrite length_take_le by done. by replace (k + n - k)%nat with n by lia.
  - rewrite (drop_ge (drop pos l) k) in Hs |- * by lia. rewrite take_nil in *. done.
Qed.

(** What a whole run delivers comes from the positions it moved over, and
    the rest of them was given up. *)
Lemma sink_run all : forall evs pos c c' outs r,
  Connection_wf o c -> Forall conn_event_ok evs -> sink key isn pushed pos c -> (forall ev, ev ∈ evs -> ev ∈ all) ->
  (key <> None -> no_rekey all) ->
  (forall now dg rng d, EvDatagram now dg rng ∈ all -> Packet_parse dg = pok (Data d) -> genuine key isn pushed d) ->
  receiver_of c = Some r -> conn_run c evs = Ret (c', outs) ->
  exists k r', receiver_of c' = Some r' /\ sink key isn pushed (pos + k) c' /\
    sublist (delivered outs) (take k (drop pos pushed)) /\
    given_up r' + Z.of_nat (length (delivered outs)) = given_up r + Z.of_nat k.
Proof.
  induction evs as [|ev evs IH]; intros pos c c' outs r Hwf Hevs Hsink Hin Hno Hgen Hr; cbn [conn_run].
  { intros [= <- <-]. exists O, r. rewrite Nat.add_0_r. split_and!; [done..|apply sublist_nil_l|cbn; lia]. }
  apply Forall_cons in Hevs as [Hev Hevs].
  destruct (conn_step_ok o c ev Hwf Hev) as (c1 & out & Hs & Hwf1). rewrite Hs. cbn [mbind panicking_bind].
  destruct (conn_run c1 evs) as [[c2 outs']|] eqn:Hrun; [|done]. cbn [mbind panicking_bind]. intros [= <- <-].
  destruct (sink_step pos c ev c1 out all Hwf Hwf1 Hev Hsink) as (k & r0 & r1 & Hr0 & Hr1 & Hsink' & [Hout Hg _ _ _]); try done.
  { apply Hin. by left. }
  { intros now dg rng d ->. apply Hgen with (now := now) (rng := rng). apply Hin. by left. }
  rewrite Hr in Hr0. injection Hr0 as <-.
  destruct (IH (pos + k)%nat c1 c2 outs' r1) as (k' & r2 & Hr2 & Hs2 & Hsub & Hg2); try done.
  { intros ev' He'. apply Hin. by right. }
  exists (k + k')%nat, r2. split; [done|]. split; [by rewrite Nat.add_assoc|].
  unfold delivered. cbn [omap list_omap]. destruct (payload_of out) as [p|]; cbn [count length] in *.
  - destruct (Hout p eq_refl) as (j & Hj & Ek & Hp). split; [|unfold delivered in Hg2; lia].
    apply (sublist_pos pushed pos k j); try done. by rewrite <- Ek.
  - split; [|unfold delivered in Hg2; lia]. by apply sublist_skip_pos.
Qed.

End Sink.

(** ** Opening *)

Section Opening.
Context `{CryptoLaws}.

(** What a receiver of these options takes after the handshake. *)
Definition payload_limit (o : SrtOptions) (ng : Negotiated) : nat :=
  Z.to_nat (Z.min (SrtOptions_max_payload o) (saturating_sub (ng_mss ng) 44)).

Definition receiver_fresh (o : SrtOptions) (ng : Negotiated) (r : Receiver) : Prop :=
  rv_base_seq r = ng_recv_initial_seq ng /\ rv_slots r = [] /\ given_up r = 0 /\
  rc_buffer_pkts (rv_cfg r) = scaled_recv_buffer o (ng_rcv_latency ng) /\ rv_max_payload r = payload_limit o ng.

Lemma opened_state o ng c :
  Options_wf o -> Negotiated_wf ng -> opened o ng c ->
  Connection_wf o c /\ control_only c /\
  exists s r, cn_state c = StEstablished s r (ng_crypto ng) /\ sc_initial_seq (sn_cfg s) = ng_send_initial_seq ng /\
    Sender_end s = 0 /\ sn_base_index s = 0 /\ receiver_fresh o ng r.
Proof.
  intros Ho Hng Hop. destruct Hop as [now reply tb Hr|c0 hs now ts c Hst Hopt Hc He].
  - unfold Connection_accepted_with_timebase. destruct (transmission_pair now ng o tb) as [s r] eqn:Hp.
    destruct (transmission_pair_wf o now ng tb s r Ho Hng Hp) as (? & ? & ?).
    split; [split; [done|]; split; [done|]; do 3 (split; [done|]); apply Hng|].
    split; [split; cbn; [by constructor|done]|]. exists s, r. split; [done|]. injection Hp as <- <-. done.
  - revert He. unfold Connection_establish. rewrite Hst, Hopt.
    destruct (transmission_pair now ng o (cn_timebase c0)) as [s r] eqn:Hp.
    destruct (transmission_pair_wf o now ng _ s r Ho Hng Hp) as (? & ? & ?).
    cbn [ingest_early push_pending mbind panicking_bind]. intros [= <-].
    split; [split; [done|]; split; [done|]; do 2 (split; [done|]); split; [|apply Hng]|].
    { apply (receiver_bounded_keeps o r); [done|apply set_hs_anchor_keeps]. }
    split; [done|]. eexists s, _. split; [done|]. injection Hp as <- <-.
    unfold Receiver_set_hs_anchor, Receiver_set_max_payload, Receiver_new. rv. by destruct (TimestampExtender_extend _ _ _).
Qed.

(** The key two paired engines use. *)
Lemma paired_key n a b evs :
  engine_wf a -> engines_paired n a b evs ->
  exists key n0 limit, 0 <= n0 /\ sends_with key n0 limit a /\ receives_with key b /\
    (key <> None -> n0 + Z.of_nat n <= limit) /\ (key <> None -> no_rekey evs).
Proof.
  destruct a as [i|], b as [r|]; try done; [|by exists None, 0, 0].
  intros Hwf ((Hsalt & _ & _ & Hrx) & Halt & [Hle Hlt] & Hno).
  pose proof Hwf as (_ & _ & _ & _ & Htx & (tk & Htk & _) & _).
  destruct (Htx _ _ Htk) as (_ & _ & Hcnt). unfold is_u32 in Hcnt. unfold active_count in Hle. rewrite Htk in Hle.
  exists (Some (mkWireKey (cr_active i) (tk_cipher tk) (cr_salt i))), (tk_pkt_cnt tk), (cc_km_refresh_rate (cr_cfg i) - cc_km_preannounce (cr_cfg i)).
  split; [lia|]. split; [|split; [|by split]].
  - do 5 (split; [done|]). exists tk. do 2 (split; [done|]). lia.
  - split; [by apply Hrx|done].
Qed.

End Opening.

(** ** Lemmas: both ends *)

(** [b] is fed by a run that took [payloads]: it has the key, and every data
    packet among [evsB] is genuine. *)
Record linked `{CryptoPrimitives} (key : option wire_key) (isn : Z) (payloads : list bytes) (evsB : list conn_event)
    (b : Connection) : Prop := mkLinked {
  lk_sink : sink key isn payloads 0 b;
  lk_no_rekey : key <> None -> no_rekey evsB;
  lk_genuine : forall now dg rng d, EvDatagram now dg rng ∈ evsB -> Packet_parse dg = pok (Data d) -> genuine key isn payloads d
}.

(** Two ends of one handshake are linked by a network that carries data
    packets faithfully. *)
Lemma runs_linked `{CryptoLaws} (oA oB : SrtOptions) (ngA ngB : Negotiated) (a b : Connection)
    (evsA evsB : list conn_event) :
  Options_wf oA -> Options_wf oB -> Negotiated_wf ngA -> Negotiated_wf ngB -> opened oA ngA a -> opened oB ngB b ->
  ng_send_initial_seq ngA = ng_recv_initial_seq ngB -> Forall conn_event_ok evsA ->
  exists a' outsA, conn_run a evsA = Ret (a', outsA) /\
    let payloads := accepted evsA outsA in
    (engines_paired (length payloads) (ng_crypto ngA) (ng_crypto ngB) evsB -> carries evsB (sent outsA) ->
     exists key, linked key (ng_send_initial_seq ngA) payloads evsB b).
Proof.
  intros HoA HoB HngA HngB Ha Hb Hisn HevA.
  destruct (opened_state oA ngA a HoA HngA Ha) as (HwfA & HcA & sA & rA & HstA & HiA & HeA & Hb0 & (HrA & _)).
  destruct (opened_state oB ngB b HoB HngB Hb) as (HwfB & HcB & sB & rB & HstB & _ & _ & _ & (HrB & HslB & _)).
  destruct (conn_run_ok oA evsA a HwfA HevA) as (a' & outsA & HrunA & _).
  exists a', outsA. split; [done|]. intros payloads Hpair Hnet.
  pose proof HngA as (_ & HseqA & _ & HengA). pose proof HngB as (_ & HseqB & _).
  destruct (paired_key (length payloads) _ _ evsB HengA Hpair) as (key & n0 & limit & Hn0 & Hsend & Hrecv & Hlim & Hno).
  assert (Hsrc : source key (ng_send_initial_seq ngA) n0 limit [] a).
  { split; [done|]. rewrite HstA, HeA. cbn [length]. split; [done|]. split; [done|].
    split; [by rewrite Z.add_0_r|]. split; [by rewrite HrA|]. intros idx. lia. }
  pose proof (source_run key (ng_send_initial_seq ngA) n0 limit Hn0 oA evsA [] a a' outsA HwfA HevA Hsrc HrunA Hlim) as Hgen.
  cbn [app] in Hgen. exists key. split; [|done|].
  - split; [done|]. rewrite HstB. split; [|done]. split; [lia|]. rewrite HrB, HslB, <- Hisn.
    split; [|by intros i s]. rewrite SeqNumber_add_0; [done|]. by rewrite Hisn.
  - intros now dg rng d Hin Hp. apply Hgen. by apply (Hnet now dg rng).
Qed.

(** Over a network that carries data packets faithfully, the payloads
    delivered are a subsequence of those accepted. *)
Lemma runs_preserve_the_stream `{CryptoLaws} (oA oB : SrtOptions) (ngA ngB : Negotiated) (a b : Connection)
    (evsA evsB : list conn_event) :
  Options_wf oA -> Options_wf oB -> Z.of_nat (recv_capacity oB) <= 2 ^ 30 ->
  Negotiated_wf ngA -> Negotiated_wf ngB -> opened oA ngA a -> opened oB ngB b ->
  ng_send_initial_seq ngA = ng_recv_initial_seq ngB ->
  Forall conn_event_ok evsA -> Forall conn_event_ok evsB ->
  exists a' outsA b' outsB,
    conn_run a evsA = Ret (a', outsA) /\ conn_run b evsB = Ret (b', outsB) /\
    let payloads := accepted evsA outsA in
    (Z.of_nat (length payloads) <= 2 ^ 30 ->
     engines_paired (length payloads) (ng_crypto ngA) (ng_crypto ngB) evsB ->
     carries evsB (sent outsA) -> sublist (delivered outsB) payloads).
Proof.
  intros HoA HoB Hcap HngA HngB Ha Hb Hisn HevA HevB.
  destruct (runs_linked oA oB ngA ngB a b evsA evsB HoA HoB HngA HngB Ha Hb Hisn HevA) as (a' & outsA & HrunA & Hlink).
  destruct (opened_state oB ngB b HoB HngB Hb) as (HwfB & _ & sB & rB & HstB & _).
  destruct (conn_run_ok oB evsB b HwfB HevB) as (b' & outsB & HrunB & _).
  exists a', outsA, b', outsB. do 2 (split; [done|]). intros payloads Hlen Hpair Hnet.
  destruct (Hlink Hpair Hnet) as (key & [Hsink Hno Hgen]).
  destruct (sink_run key (ng_send_initial_seq ngA) payloads oB Hlen Hcap evsB evsB 0 b b' outsB rB) as (k & r' & _ & _ & Hsub & _);
    try done; [unfold receiver_of; by rewrite HstB|].
  etransitivity; [exact Hsub|]. apply sublist_take.
Qed.

(** ** Properties *)


(** ** Witnesses *)

Section Witnesses.
#[local] Existing Instance toy_primitives.
#[local] Existing Instance toy_laws.
#[local] Existing Instance toy_cookie.

Definition plain_negotiated : Negotiated :=
  mkNegotiated demo_addr 8 7 100 100 (from_millis 120) (from_millis 120) None 1500 8192 None.

(** What the two ends of an encrypted handshake negotiate. *)
Definition demo_negotiated : Negotiated * Negotiated :=
  match exchange (CallerHandshake_new 0 demo_addr 7 100 (mkTimebase 0) demo_caller_opts)
    (Listener_new 99 (mkTimebase 0) demo_listener_opts) (mkSocketAddrV4 [10; 0; 0; 2] 5000) 8
    (fun n => replicate n 1) (fun n => replicate n 2) 0 0 0 0 0 with
  | Ret p => p
  | Panic => (plain_negotiated, plain_negotiated)
  end.

Definition demo_end (o : SrtOptions) (ng : Negotiated) : Connection :=
  Connection_accepted_with_timebase 0 ng (control Shutdown) o (mkTimebase 0).

(** Three payloads are sent, their packets and the queued control packet. *)
Definition demo_sends : list conn_event :=
  [EvSend 0 [1; 2; 3]; EvSend 0 [4; 5]; EvSend 0 [6]; EvTransmit 0; EvTransmit 0; EvTransmit 0; EvTransmit 0].

Definition demo_packets : list Packet :=
  match conn_run (demo_end demo_caller_opts (fst demo_negotiated)) demo_sends with
  | Ret (_, outs) => sent outs
  | Panic => []
  end.

Definition demo_datagram (i : nat) : bytes :=
  match demo_packets !! i with Some p => Packet_encode p [] | None => [] end.

(** One datagram arrives first and again, another in between. *)
Definition arrivals (d1 d2 : bytes) : list conn_event :=
  [EvDatagram 0 d1 demo_rng; EvDatagram 1 d2 demo_rng; EvDatagram 2 d1 demo_rng;
   EvDeliver (from_secs 1); EvDeliver (from_secs 1); EvDeliver (from_secs 1)].

Lemma arrivals_only d1 d2 now dg rng : EvDatagram now dg rng ∈ arrivals d1 d2 -> dg = d1 \/ dg = d2.
Proof.
  unfold arrivals. rewrite !elem_of_cons.
  intros [E|[E|[E|[E|[E|[E|E]]]]]]; try (injection E as _ -> _; auto); try discriminate E.
  by apply not_elem_of_nil in E.
Qed.

(** The third packet arrives first and twice, the second never. *)
Definition demo_receives : list conn_event := arrivals (demo_datagram 3) (demo_datagram 1).

(** The two packets that arrive. *)
Definition demo_data (seq ts_msg : Z) (payload : bytes) : DataPacket :=
  mkDataPacket seq Only false EncEven false ts_msg 0 8 payload.

Lemma demo_parses :
  Packet_parse (demo_datagram 3) = pok (Data (demo_data 102 3 [7])) /\
  Packet_parse (demo_datagram 1) = pok (Data (demo_data 100 1 [0; 3; 2])) /\
  Packet_parse (demo_datagram 2) = pok (Data (demo_data 101 2 [5; 4])) /\
  demo_packets = [Control (mkControlPacket 0 8 Shutdown); Data (demo_data 100 1 [0; 3; 2]);
    Data (demo_data 101 2 [5; 4]); Data (demo_data 102 3 [7])].
Proof. vm_compute. by split_and!. Qed.

(** The datagrams of the three payloads. *)
Definition demo_carried (dg : bytes) : Prop := dg = demo_datagram 3 \/ dg = demo_datagram 1 \/ dg = demo_datagram 2.

Lemma demo_genuine dg : demo_carried dg -> exists d, Packet_parse dg = pok (Data d) /\ Data d ∈ demo_packets.
Proof.
  destruct demo_parses as (E3 & E1 & E2 & ->). intros [-> | [-> | ->]]; rewrite ?E3, ?E1, ?E2; eexists; (split; [reflexivity|]);
    rewrite !elem_of_cons; auto.
Qed.

Lemma demo_valid : SrtOptions_wf demo_caller_opts /\ SrtOptions_wf demo_listener_opts.
Proof.
  split; unfold SrtOptions_wf; cbn; unfold from_millis; [|lia].
  split; [lia|]. split; [lia|]. split; [lia|]. split; [lia|]. by split; [vm_compute|].
Qed.

Lemma demo_engines_agree :
  engines_agree (Some (mkCryptoConfig (replicate 12 65) Aes128 0x01000000 0x10000))
    (Some (mkCryptoConfig (replicate 12 65) Aes256 0x01000000 0x10000))
    (ng_crypto (fst demo_negotiated)) (ng_crypto (snd demo_negotiated)).
Proof.
  destruct (exchange_agrees demo_caller_opts demo_listener_opts
    (Some (mkCryptoConfig (replicate 12 65) Aes128 0x01000000 0x10000))
    (Some (mkCryptoConfig (replicate 12 65) Aes256 0x01000000 0x10000))
    demo_addr (mkSocketAddrV4 [10; 0; 0; 2] 5000) 7 8 100 99 (mkTimebase 0) (mkTimebase 0)
    (fun n => replicate n 1) (fun n => replicate n 2) 0 0 0 0 0) as (ng_c & ng_l & Hx & _ & He & _).
  - apply demo_valid.
  - apply demo_valid.
  - reflexivity.
  - reflexivity.
  - reflexivity.
  - unfold SeqNumber_MASK. lia.
  - unfold is_u32. lia.
  - unfold is_u32. lia.
  - reflexivity.
  - reflexivity.
  - intros n. apply length_replicate.
  - intros n. apply length_replicate.
  - cbn. unfold from_secs. lia.
  - unfold from_secs. lia.
  - unfold demo_negotiated. rewrite Hx. exact He.
Qed.

Lemma demo_negotiated_wf : Negotiated_wf (fst demo_negotiated) /\ Negotiated_wf (snd demo_negotiated).
Proof.
  pose proof demo_engines_agree as He. unfold engines_agree in He. unfold Negotiated_wf.
  destruct (ng_crypto (fst demo_negotiated)) as [i|]; [|destruct He].
  destruct (ng_crypto (snd demo_negotiated)) as [r|]; [|destruct He].
  destruct He as (_ & _ & Hi & Hr & _). clear -Hi Hr.
  assert (ng_send_initial_seq (fst demo_negotiated) = 100 /\ ng_recv_initial_seq (fst demo_negotiated) = 100 /\
    ng_flow_window (fst demo_negotiated) = 8192 /\ ng_send_initial_seq (snd demo_negotiated) = 100 /\
    ng_recv_initial_seq (snd demo_negotiated) = 100 /\ ng_flow_window (snd demo_negotiated) = 8192)
    as (-> & -> & -> & -> & -> & ->) by (vm_compute; by split_and!).
  unfold SeqNumber_wf. split; (split; [lia|]; split; [lia|]; split; [lia|assumption]).
Qed.

Lemma demo_no_rekey evs : (forall now dg rng, EvDatagram now dg rng ∈ evs -> demo_carried dg) -> no_rekey evs.
Proof.
  intros Hin now dg rng ctrl blob Hev Hp. destruct (demo_genuine dg) as (d & Hd & _); [by apply (Hin now dg rng)|].
  rewrite Hd in Hp. discriminate Hp.
Qed.

Lemma demo_keys n evs :
  Z.of_nat n <= 3 -> (forall now dg rng, EvDatagram now dg rng ∈ evs -> demo_carried dg) ->
  engines_paired n (ng_crypto (fst demo_negotiated)) (ng_crypto (snd demo_negotiated)) evs.
Proof.
  intros Hn Hin. pose proof demo_engines_agree as He. unfold engines_agree in He. unfold engines_paired.
  destruct (ng_crypto (fst demo_negotiated)) as [i|] eqn:Ei; [|destruct He].
  destruct (ng_crypto (snd demo_negotiated)) as [r|]; [|destruct He]. destruct He as (Hs & _). split; [exact Hs|].
  vm_compute in Ei. injection Ei as <-. split; [reflexivity|]. split.
  - match goal with |- ?x + _ <= ?y < _ => assert (Hb : x + 3 <= y /\ y < 2 ^ 32) by (vm_compute; split; [discriminate|reflexivity]) end.
    lia.
  - by apply demo_no_rekey.
Qed.

Lemma demo_carries evs :
  (forall now dg rng, EvDatagram now dg rng ∈ evs -> demo_carried dg) -> carries evs demo_packets.
Proof.
  intros Hin now dg rng d Hev Hp. destruct (demo_genuine dg) as (d' & Hd & Hs); [by apply (Hin now dg rng)|].
  rewrite Hd in Hp. injection Hp as <-. exact Hs.
Qed.

Lemma demo_options : Options_wf demo_caller_opts /\ Options_wf demo_listener_opts /\
  Z.of_nat (recv_capacity demo_listener_opts) <= 2 ^ 30.
Proof.
  split; [split; [reflexivity|]; split; [done|]; cbn; lia|]. split; [split; [reflexivity|]; split; [done|]; cbn; lia|].
  unfold recv_capacity, MAX_SCALED_RECV_BUFFER_PKTS. rewrite Nat2Z.inj_max, Z2Nat.id by lia.
  cbn [so_recv_buffer_pkts demo_listener_opts SrtOptions_default set_field]. lia.
Qed.

Definition demo_outs (r : panicking (Connection * list conn_output)) : list conn_output :=
  match r with Ret (_, outs) => outs | Panic => [] end.

(** What the sending end took and sent. *)
Lemma demo_sent :
  let outs := demo_outs (conn_run (demo_end demo_caller_opts (fst demo_negotiated)) demo_sends) in
  accepted demo_sends outs = [[1; 2; 3]; [4; 5]; [6]] /\ sent outs = demo_packets.
Proof. vm_compute. by split. Qed.

Lemma demo_opened o ng : opened o ng (demo_end o ng).
Proof. exact (OpenedAccepted o ng 0 (control Shutdown) (mkTimebase 0) I). Qed.

Lemma demo_isn : ng_send_initial_seq (fst demo_negotiated) = ng_recv_initial_seq (snd demo_negotiated).
Proof. vm_compute. reflexivity. Qed.


End Witnesses.
