(* ===== verification/Completeness.v ===== *)
(** * Nothing vanishes: what becomes of every payload

    [Integrity] bounds from above what an end delivers.  Here is the other
    half: a payload that is not delivered is one the receiver counts as given
    up ([core/receiver.rs], [poll_deliver]), and when none was given up and
    every packet has arrived, all of them are delivered once their time has
    come. *)

From S2P Require Import Prelude PacketTypes PacketData PacketHandshake PacketControl Time CryptoKeys CryptoContext Cipher Options Pacing Sender LossList Receiver ReceiverTotal CoreHandshake Connection ConnectionLife ConnectionTrace Integrity.

(** ** Delivery of a full buffer *)

(** A packet at the base that is due is delivered at once. *)
Lemma poll_head r anchor s now p :
  rv_slots r !! O = Some (Some s) -> readable s = Some p -> found r -> rv_anchor r = Some anchor ->
  Receiver_tsbpd_deadline r anchor (sl_ext_us s) <= now ->
  exists r', Receiver_poll_deliver r now = Ret (r', Some p) /\ rv_slots r' = drop 1 (rv_slots r) /\
    rv_anchor r' = rv_anchor r /\ rv_cfg r' = rv_cfg r /\ rv_drift r' = rv_drift r /\ found r'.
Proof.
  intros Hs Hp Hf Ha Hdue. unfold Receiver_poll_deliver. rewrite Ha. cbn [Receiver_deliver_loop].
  destruct (Hf _ _ Hs) as [Hhint _]. assert (Hh : rv_scan_hint r = O) by lia.
  unfold first_occupied. rewrite Hh, drop_0. destruct (rv_slots r) as [|[s0|] rest] eqn:Hsl; [done| |done].
  cbn in Hs. injection Hs as ->. cbn [position slot_empty negb fmap option_fmap option_map Nat.add]. rv. rewrite Hsl.
  cbn [index lookup list_lookup expect mbind panicking_bind].
  match goal with |- context [now <? ?d] => replace (now <? d) with false by (symmetry; apply Z.ltb_ge; exact Hdue) end.
  cbn [Nat.ltb Nat.leb mbind panicking_bind]. rv. rewrite Hsl. cbn [head expect mbind panicking_bind].
  unfold readable in Hp. destruct (sl_undecryptable s); [done|]. injection Hp as ->.
  eexists. split; [done|]. rv. split; [done|]. do 3 (split; [done|]). intros i t Hi. rv. split; [lia|]. by rewrite Ha.
Qed.

(** Polling a connection at one time. *)
Definition polls (n : nat) (now : Z) : list conn_event := replicate n (EvDeliver now).

(** The last deadline of the buffered packets. *)
Definition last_deadline (r : Receiver) (anchor : Anchor) : Z :=
  foldr (fun s t => match s with Some s => Z.max (Receiver_tsbpd_deadline r anchor (sl_ext_us s)) t | None => t end)
    0 (rv_slots r).

Lemma last_deadline_max r anchor i s :
  rv_slots r !! i = Some (Some s) -> Receiver_tsbpd_deadline r anchor (sl_ext_us s) <= last_deadline r anchor.
Proof.
  unfold last_deadline. revert i. induction (rv_slots r) as [|x l IH]; intros i Hi; [done|].
  destruct i as [|i]; cbn in *; [injection Hi as ->; lia|]. specialize (IH i Hi). destruct x; cbn; lia.
Qed.

Lemma deadline_same r r' anchor t :
  rv_cfg r' = rv_cfg r -> rv_drift r' = rv_drift r -> Receiver_tsbpd_deadline r' anchor t = Receiver_tsbpd_deadline r anchor t.
Proof. unfold Receiver_tsbpd_deadline. by intros -> ->. Qed.

(** A buffer that is full from the base on, and due, is delivered in order. *)
Lemma polls_deliver `{CryptoPrimitives} now anchor : forall payloads c s r e,
  cn_state c = StEstablished s r e -> found r -> rv_anchor r = Some anchor ->
  (forall i p, payloads !! i = Some p -> exists sl, rv_slots r !! i = Some (Some sl) /\ readable sl = Some p /\
     Receiver_tsbpd_deadline r anchor (sl_ext_us sl) <= now) ->
  exists c' outs, conn_run c (polls (length payloads) now) = Ret (c', outs) /\ delivered outs = payloads.
Proof.
  induction payloads as [|p payloads IH]; intros c s r e Hst Hf Ha Hall; [by exists c, []|].
  destruct (Hall O p eq_refl) as (sl & Hsl & Hp & Hdue). cbn [length polls replicate conn_run conn_step].
  unfold Connection_poll_deliver. rewrite Hst.
  destruct (poll_head r anchor sl now p Hsl Hp Hf Ha Hdue) as (r' & -> & Hs' & Ha' & Hc' & Hd' & Hf').
  cbn [mbind panicking_bind]. destruct (IH (c <| cn_state := StEstablished s r' e |>) s r' e) as (c' & outs & Hr & Hdel);
    [done..|congruence| |].
  - intros i q Hi. destruct (Hall (S i) q Hi) as (t & Ht & Hq & Htd). exists t. rewrite Hs', lookup_drop.
    do 2 (split; [done|]). by rewrite (deadline_same r).
  - fold (polls (length payloads) now). rewrite Hr. cbn [mbind panicking_bind]. eexists _, _. split; [done|].
    unfold delivered in *. cbn [omap list_omap payload_of]. by rewrite Hdel.
Qed.

(** ** A packet that arrives is buffered *)

Lemma close_with_local_id c now reason shut :
  cn_local_socket_id (Connection_close_with c now reason shut) = cn_local_socket_id c.
Proof. unfold Connection_close_with. by destruct (cn_state c), shut. Qed.

Lemma handshake_local_id `{CryptoPrimitives} c now ts cif rng c' :
  Connection_handle_handshake_packet c now ts cif rng = Ret c' -> cn_local_socket_id c' = cn_local_socket_id c.
Proof.
  unfold Connection_handle_handshake_packet. destruct (cn_state c) as [hs pend early|s r e|]; [|intros [= <-]; case_decide|done].
  - destruct (CallerHandshake_handle_handshake _ _ _ _ _) as [[hs' [[ng|]|err]]|]; [| | |done]; cbn [mbind panicking_bind].
    + unfold Connection_establish. destruct (transmission_pair _ _ _ _). cn.
      destruct (ingest_early _ _ _) as [[r1 e1]|]; [|done]. cbn [mbind panicking_bind].
      destruct (push_pending _ _ _ _) as [[s1 e2]|]; [|done]. cbn [mbind panicking_bind]. by intros [= <-].
    + by intros [= <-].
    + intros [= <-]. by rewrite close_with_local_id.
  - by destruct (cn_hs_reply c).
  - done.
Qed.

Lemma transmission_local_id `{CryptoPrimitives} c now ts ct rng c' :
  Connection_handle_transmission_control c now ts ct rng = Ret c' -> cn_local_socket_id c' = cn_local_socket_id c.
Proof.
  unfold Connection_handle_transmission_control. destruct (cn_state c) as [| s r e|]; [by intros [= <-]| |by intros [= <-]].
  destruct (transmission_control s r e now ts ct rng) as [[[[st reply] v] km]|]; [|done]. cbn [mbind panicking_bind].
  intros [= <-]. destruct v, km, reply; by rewrite ?close_with_local_id.
Qed.

Lemma datagram_local_id `{CryptoPrimitives} c now dg rng c' :
  Connection_handle_datagram c now dg rng = Ret c' -> cn_local_socket_id c' = cn_local_socket_id c.
Proof.
  unfold Connection_handle_datagram. destruct (Packet_parse dg) as [[p|err]|]; [| |done]; cbn [mbind panicking_bind].
  2: { destruct err; by intros [= <-]. }
  unfold Connection_handle_packet. destruct (cn_state c) eqn:Hst; [..|by intros [= <-]];
    (case_if; [by intros [= <-]|]; destruct p as [d|ctrl]).
  1, 3: (unfold Connection_handle_data_packet, Connection_touch; cn; rewrite Hst; cbn [mbind panicking_bind]).
  - intros [= <-]. repeat case_if; done.
  - destruct (ingest_data now receiver crypto d) as [[r1 e1]|]; [|done]. cbn [mbind panicking_bind]. intros [= <-].
    case_if; by rewrite ?close_with_local_id.
  - unfold Connection_handle_control_packet. destruct (cp_control_type ctrl); try (by intros [= <-]);
      try (intros Hr; by apply transmission_local_id in Hr).
    + intros Hr. by apply handshake_local_id in Hr.
    + intros [= <-]. by rewrite close_with_local_id.
    + unfold Connection_handle_kmreq, Connection_touch. cn. rewrite Hst. by intros [= <-].
    + unfold Connection_handle_kmrsp, Connection_touch. cn. rewrite Hst. by intros [= <-].
  - unfold Connection_handle_control_packet. destruct (cp_control_type ctrl); try (by intros [= <-]);
      try (intros Hr; by apply transmission_local_id in Hr).
    + intros Hr. by apply handshake_local_id in Hr.
    + intros [= <-]. by rewrite close_with_local_id.
    + unfold Connection_handle_kmreq, Connection_touch. cn. rewrite Hst. destruct crypto as [e|]; [|by intros [= <-]].
      destruct (Crypto_handle_kmreq e _) as [[e' []]|]; [..|done]; cbn [mbind panicking_bind]; by intros [= <-].
    + unfold Connection_handle_kmrsp, Connection_touch. cn. rewrite Hst. destruct crypto as [e|]; [|by intros [= <-]].
      destruct (Crypto_handle_kmrsp e _). by intros [= <-].
Qed.

Lemma conn_step_local_id `{CryptoPrimitives} c ev c' out :
  conn_step c ev = Ret (c', out) -> cn_local_socket_id c' = cn_local_socket_id c.
Proof.
  destruct ev as [now dg rng|now|now payload|now|now|now|t ts]; cbn [conn_step].
  - destruct (Connection_handle_datagram c now dg rng) eqn:Hd; [|done]. cbn [mbind panicking_bind]. intros [= <- _].
    by apply datagram_local_id in Hd.
  - unfold Connection_handle_timer. destruct (cn_state c) as [hs ? ?|s r e|]; cbn [mbind panicking_bind].
    + intros [= <- _]. case_if; by rewrite ?close_with_local_id.
    + destruct (Sender_on_timer s now); [|done]. cbn [mbind panicking_bind]. destruct (exp_check c _ now) as [n idle].
      intros [= <- _]. repeat case_if; by rewrite ?close_with_local_id.
    + by intros [= <- _].
  - unfold Connection_send. destruct (cn_state c) as [hs ? ?|s r e|]; cbn [mbind panicking_bind].
    + case_if; by intros [= <- _].
    + destruct (Sender_push s now payload e) as [[[? ?] ?]|]; [|done]. cbn [mbind panicking_bind]. by intros [= <- _].
    + by intros [= <- _].
  - intros [= <- _]. unfold Connection_close. destruct (cn_state c); by rewrite ?close_with_local_id.
  - unfold Connection_poll_transmit. destruct (Connection_next_transmit c now) as [[c1 p]|] eqn:Hn; [|done].
    cbn [mbind panicking_bind]. assert (E : cn_local_socket_id c1 = cn_local_socket_id c).
    { revert Hn. unfold Connection_next_transmit. destruct (cn_transmit_q c); [|by intros [= <- _]].
      destruct (cn_state c) as [hs ? ?|s r e|]; [destruct (CallerHandshake_poll_transmit hs now); by intros [= <- _]| |by intros [= <- _]].
      destruct (Receiver_poll_control r) as [r1 [ct|]]; [by intros [= <- _]|].
      destruct (Sender_poll_control s) as [s1 [ct|]]; [by intros [= <- _]|].
      destruct (Sender_poll_transmit s1 now) as [[s2 p2]|]; [|done]. cbn [mbind panicking_bind]. by intros [= <- _]. }
    rewrite <- E. destruct p; cbn [mbind panicking_bind]; by intros [= <- _].
  - unfold Connection_poll_deliver. destruct (cn_state c) as [|s r e|reason [r|]]; cbn [mbind panicking_bind];
      try (by intros [= <- _]);
      (destruct (Receiver_poll_deliver r now) as [[r1 p]|]; [|done]; cbn [mbind panicking_bind]; by intros [= <- _]).
  - intros [= <- _]. unfold Connection_set_hs_anchor. by destruct (cn_state c).
Qed.

Section Arrival.
Context `{CryptoLaws}.

(** The packet reaches the receiver of [c], decrypted. *)
Lemma datagram_stored c now dg rng c' s r e d p :
  cn_state c = StEstablished s r e -> Packet_parse dg = pok (Data d) -> dp_dst_socket_id d = cn_local_socket_id c ->
  decrypts e d p -> (length p <= rv_max_payload r)%nat -> Connection_handle_datagram c now dg rng = Ret c' ->
  exists r' pkt, receiver_of c' = Some r' /\ dp_seq pkt = dp_seq d /\ packet_stored r r' pkt false.
Proof.
  intros Hst Hp Hdst Hd Hlen. unfold Connection_handle_datagram. rewrite Hp. cbn [pok mbind panicking_bind].
  unfold Connection_handle_packet. rewrite Hst. cbn [Packet_dst_socket_id].
  rewrite Hdst, Z.eqb_refl, andb_false_r. unfold Connection_handle_data_packet, Connection_touch. cn. rewrite Hst.
  destruct (ingest_data now r e d) as [[r1 e1]|] eqn:Hi; [|done]. cbn [mbind panicking_bind]. intros [= <-].
  pose proof (parsed_data_seq _ _ Hp) as Hseq.
  assert (Hst1 : exists pkt, dp_seq pkt = dp_seq d /\ packet_stored r r1 pkt false).
  { revert Hi. unfold ingest_data, decrypts in *. destruct e as [c0|].
    - destruct Hd as [c1 Hd]. cbn [cipher_decrypt Crypto_cipher]. rewrite Hd. unfold Receiver_handle_data.
      match goal with |- context [Receiver_ingest r now ?x false] => set (pkt := x) end.
      destruct (Receiver_ingest r now pkt false) as [r2|] eqn:Hin; [|done]. cbn [mbind panicking_bind]. intros [= <- _].
      apply ingest_stored in Hin; [|done]. replace (rv_max_payload r <? length (dp_payload pkt))%nat with false in Hin
        by (symmetry; by apply Nat.ltb_ge). by exists pkt.
    - destruct Hd as [He ->]. rewrite bool_decide_true by done. unfold Receiver_handle_data.
      match goal with |- context [Receiver_ingest r now ?x false] => set (pkt := x) end.
      destruct (Receiver_ingest r now pkt false) as [r2|] eqn:Hin; [|done]. cbn [mbind panicking_bind]. intros [= <- _].
      apply ingest_stored in Hin; [|done]. replace (rv_max_payload r <? length (dp_payload pkt))%nat with false in Hin
        by (symmetry; by apply Nat.ltb_ge). by exists pkt. }
  destruct Hst1 as (pkt & Hpkt & Hps). exists r1, pkt. split; [|done].
  unfold receiver_of, Connection_close_with. case_if; cn; done.
Qed.

(** The engine decrypts what is sent under [key]. *)
Definition ready (key : option wire_key) (e : option Crypto) : Prop :=
  receives_with key e /\ match e with Some c => cr_rcv_state c = Secured | None => True end.

(** The payload is one the sender encrypts; an empty one it does not. *)
Definition sendable (key : option wire_key) (p : bytes) : Prop := key <> None -> p <> [].

Lemma genuine_readable key isn pushed e d :
  ready key e -> genuine key isn pushed d -> Forall (sendable key) pushed ->
  exists p, p ∈ pushed /\ decrypts e d p /\ length p = length (dp_payload d).
Proof.
  intros [Hr Hsec] (idx & p & Hp & Hseq & Hw) Hne. apply list_elem_of_lookup_2 in Hp as Hin.
  rewrite Forall_forall in Hne. specialize (Hne p Hin). exists p. split; [done|].
  unfold receives_with, on_wire, decrypts in *. destruct key as [k|], e as [c|]; try done.
  - rewrite decide_False in Hw by (by apply Hne). injection Hw as E1 E2. destruct Hr as [Hslot Hsalt].
    split; [|by rewrite E2, length_apply_keystream]. rewrite E1, E2. unfold Crypto_decrypt.
    replace (match (if decide (wk_slot k = EVEN) then EncEven else EncOdd) with
      | EncNone => None | EncEven => Some EVEN | EncOdd | EncBoth => Some ODD end)
      with (Some (wk_slot k)) by (by destruct (wk_slot k)).
    rewrite decide_False by congruence. rewrite decide_False by tauto.
    rewrite Hslot, Hsalt, apply_keystream_involutive. by eexists.
  - injection Hw as E1 E2. by rewrite E1, E2.
Qed.

(** The call brings no message that takes packets or keys from the receiver:
    no drop request, no key material. *)
Definition undisturbed (ev : conn_event) : Prop :=
  match ev with
  | EvDatagram _ dg _ =>
      match Packet_parse dg with
      | Ret (Ok (Control ctrl)) =>
          match cp_control_type ctrl with DropRequest _ _ _ | KmReq _ | KmRsp _ => False | _ => True end
      | _ => True
      end
  | _ => True
  end.

Lemma undisturbed_no_dropreq ev : undisturbed ev -> no_dropreq ev.
Proof.
  destruct ev; try done. cbn. destruct (Packet_parse datagram) as [[[d|ctrl]|]|]; try done. by destruct (cp_control_type ctrl).
Qed.

Lemma undisturbed_no_rekey evs : Forall undisturbed evs -> no_rekey evs.
Proof.
  intros Hf now dg rng ctrl blob Hin Hp Hc. rewrite Forall_forall in Hf. specialize (Hf _ Hin). cbn in Hf.
  rewrite Hp in Hf. cbn in Hf. by rewrite Hc in Hf.
Qed.

Lemma ready_move key ev e e' :
  engine_wf e -> ready key e -> undisturbed ev -> engine_move ev e e' -> ready key e'.
Proof.
  intros Hwf [Hr Hsec] Hev [->|(c & c' & -> & -> & Hstep)]; [done|]. unfold ready, receives_with in *.
  assert (Hx : rx_same c c' /\ cr_rcv_state c' = cr_rcv_state c).
  { destruct Hstep as [now srtt rnd c' km Hrnd Ha|seq kk p|now dg rng ctrl blob c' out -> Hp Hct _|now dg rng ctrl blob -> Hp Hct].
    - by eapply on_ack_rx_same.
    - split; [apply decrypt_same|]. unfold Crypto_decrypt. destruct kk; try done;
        (rewrite decide_False by congruence; rewrite decide_False by tauto; by destruct (slot_get _ _)).
    - cbn in Hev. rewrite Hp in Hev. cbn in Hev. by rewrite Hct in Hev.
    - cbn in Hev. rewrite Hp in Hev. cbn in Hev. by rewrite Hct in Hev. }
  destruct Hx as [[E1 E2] E3]. rewrite E1, E2, E3. done.
Qed.

Lemma ready_push key s e payload e' ct kk : ready key e -> buffered s e payload e' ct kk -> ready key e'.
Proof.
  intros [Hr Hsec] Hb. split; [by eapply receives_with_push|]. unfold buffered in Hb. destruct e as [c|].
  - case_decide; [by destruct Hb as (-> & _)|]. destruct Hb as (c1 & -> & Henc).
    cbn [cipher_encrypt Crypto_cipher] in Henc. unfold Crypto_encrypt in Henc.
    destruct (slot_get (cr_tx c) (cr_active c)); [|done]. cbn [expect mbind panicking_bind] in Henc.
    injection Henc as <- _ _. done.
  - by destruct Hb as (-> & _).
Qed.

End Arrival.

(** ** A run that loses nothing *)

(** A packet of position [idx] came in, addressed to [id]. *)
Definition shown (id isn : Z) (evs : list conn_event) (idx : nat) : Prop :=
  exists now dg rng d, EvDatagram now dg rng ∈ evs /\ Packet_parse dg = pok (Data d) /\
    dp_dst_socket_id d = id /\ dp_seq d = SeqNumber_add isn (Z.of_nat idx).

(** [c] has delivered or given up the positions below [pos], and everything
    else of [seen] is in its buffer, readable. *)
Record keeping `{CryptoPrimitives} (key : option wire_key) (id isn : Z) (pushed : list bytes) (seen : list conn_event)
    (limits : ReceiverConfig * nat) (pos : nat) (c : Connection) (s : Sender) (r : Receiver) (e : option Crypto) : Prop := mkKeeping {
  kp_state : cn_state c = StEstablished s r e;
  kp_sink : sink key isn pushed pos c;
  kp_id : cn_local_socket_id c = id;
  kp_ready : ready key e;
  kp_found : found r;
  kp_limits : (rv_cfg r, rv_max_payload r) = limits;
  kp_readable : forall i sl, rv_slots r !! i = Some (Some sl) -> is_Some (readable sl);
  kp_seen : forall idx, shown id isn seen idx -> (idx < length pushed)%nat ->
    (idx < pos)%nat \/ exists sl, rv_slots r !! (idx - pos)%nat = Some (Some sl)
}.

(** The position of a receiving end is determined. *)
Lemma sink_position `{CryptoPrimitives} key isn pushed pos pos' c r :
  Z.of_nat (length pushed) <= 2 ^ 30 ->
  sink key isn pushed pos c -> sink key isn pushed pos' c -> receiver_of c = Some r -> pos = pos'.
Proof.
  intros Hpushed [_ H1] [_ H2] Hr. unfold receiver_of in Hr.
  assert (Hb : buffer_holds isn pushed pos r /\ buffer_holds isn pushed pos' r).
  { destruct (cn_state c) as [|? ? ?|? [?|]]; try done; injection Hr as ->; [split; [apply H1|apply H2]|by split]. }
  destruct Hb as [(Hl1 & Hb1 & _) (Hl2 & Hb2 & _)]. apply (position_of_seq isn); [lia|lia|congruence].
Qed.

Section Keeping.
Context `{CryptoLaws}.
Variables (key : option wire_key) (id isn : Z) (pushed : list bytes) (o : SrtOptions) (limits : ReceiverConfig * nat).
Hypothesis Hpushed : Z.of_nat (length pushed) <= 2 ^ 30.
Hypothesis Hcap : Z.of_nat (recv_capacity o) <= 2 ^ 30.
Hypothesis Hsendable : Forall (sendable key) pushed.
Hypothesis Hroom : (length pushed <= rc_buffer_pkts (fst limits))%nat.
Hypothesis Hsmall : Forall (fun p => (length p <= snd limits)%nat) pushed.

(** A packet that arrives for a position not yet passed is in the buffer. *)
Lemma arrival_kept pos c s r e now dg rng c' s' r' e' d idx k :
  keeping key id isn pushed [] limits pos c s r e -> receiver_bounded o r ->
  Packet_parse dg = pok (Data d) -> genuine key isn pushed d -> dp_dst_socket_id d = id ->
  dp_seq d = SeqNumber_add isn (Z.of_nat idx) -> (pos <= idx < length pushed)%nat ->
  Connection_handle_datagram c now dg rng = Ret c' -> cn_state c' = StEstablished s' r' e' ->
  buffer_holds isn pushed (pos + k) r' ->
  exists sl, rv_slots r' !! (idx - (pos + k))%nat = Some (Some sl).
Proof.
  intros [Hst [_ Hsink] Hid Hready _ Hlim _ _] [_ Hbuf] Hp Hgen Hdst Hseq Hidx Hstep Hst' (Hl' & Hb' & _).
  rewrite Hst in Hsink. destruct Hsink as [(Hl & Hb & _) _]. rewrite <- Hlim in Hroom, Hsmall. cbn [fst snd] in *.
  destruct (genuine_readable key isn pushed e d Hready Hgen Hsendable) as (p & Hpin & Hdec & _).
  rewrite Forall_forall in Hsmall. specialize (Hsmall p Hpin).
  destruct (datagram_stored c now dg rng c' s r e d p Hst Hp ltac:(congruence) Hdec Hsmall Hstep) as (r1 & pkt & Hr1 & Hpkt & Hps).
  unfold receiver_of in Hr1. rewrite Hst' in Hr1. injection Hr1 as ->. destruct Hps as [Eb _ _ _ _ _ Hthere].
  rewrite Hb', Hb in Eb. assert (k = O) as ->.
  { enough ((pos + k)%nat = pos) by lia. apply (position_of_seq isn); [lia|lia|done]. }
  rewrite Nat.add_0_r. rewrite Hpkt, Hseq, Hb, diff_at in Hthere by lia.
  destruct Hthere as [sl Hsl]; [lia|]. exists sl. rewrite <- Hsl. f_equal. lia.
Qed.

Lemma keeping_step seen pos c s r e ev c' out s' r' e' all :
  Connection_wf o c -> Connection_wf o c' -> conn_event_ok ev -> keeping key id isn pushed seen limits pos c s r e ->
  ev ∈ all -> Forall undisturbed all ->
  (forall now dg rng d, ev = EvDatagram now dg rng -> Packet_parse dg = pok (Data d) -> genuine key isn pushed d) ->
  conn_step c ev = Ret (c', out) -> cn_state c' = StEstablished s' r' e' ->
  exists k, keeping key id isn pushed (seen ++ [ev]) limits (pos + k) c' s' r' e'.
Proof.
  intros Hwf Hwf' Hev Hkp Hin Hcalm Hgen Hstep Hst'. pose proof Hkp as [Hst Hsink Hid Hready Hfound Hlim Hread Hseen].
  pose proof Hcalm as Hcalm1. rewrite Forall_forall in Hcalm. specialize (Hcalm ev Hin).
  destruct (sink_step key isn pushed o Hpushed Hcap pos c ev c' out all Hwf Hwf' Hev Hsink Hin
    (fun _ => undisturbed_no_rekey _ Hcalm1) Hgen Hstep) as (k & r0 & r1 & Hr0 & Hr1 & Hsink' & [_ _ Hf [Hc1 Hc2] Hkept]).
  unfold receiver_of in Hr0, Hr1. rewrite Hst in Hr0. rewrite Hst' in Hr1. injection Hr0 as <-. injection Hr1 as <-.
  pose proof Hwf as (_ & _ & Hs). rewrite Hst in Hs. destruct Hs as (_ & _ & Hbound & Hewf).
  destruct (established_step o c ev c' out s r e Hwf Hev (proj1 Hsink) Hst) as (_ & Hm & _).
  { destruct Hsink as [_ Hsink]. rewrite Hst in Hsink. destruct Hsink as [(_ & -> & _) _]. apply SeqNumber_add_wf. }
  { done. }
  unfold machines_move in Hm. rewrite Hst' in Hm. destruct Hm as [Hsm (k1 & _ & _ & _ & _ & Hnew & _)].
  exists k. split; try done.
  - rewrite <- Hid. by eapply conn_step_local_id.
  - apply sender_move_engine in Hsm as [Heng|(payload & ct & kk & Hb)]; [by eapply ready_move|by eapply ready_push].
  - by apply Hf.
  - by rewrite Hc1, Hc2.
  - intros i sl Hi. destruct (Hnew i sl Hi) as [Hold|(now & dg & rng & d & E & Hp & _ & Hd)]; [by eapply Hread|].
    destruct (readable sl); [done|]. destruct (genuine_readable key isn pushed e d Hready) as (p & _ & Hdec & _);
      [by eapply Hgen|done|]. by destruct (Hd p).
  - intros idx (now & dg & rng & d & Hi & Hp & Hdst & Hseq) Hlt. apply elem_of_app in Hi as [Hi|Hi].
    + destruct (Hseen idx) as [?|[sl Hsl]]; [by exists now, dg, rng, d|done|left; lia|].
      destruct (decide (idx < pos + k)%nat); [by left|right]. exists sl.
      apply Hkept; [by apply undisturbed_no_dropreq|]. rewrite <- Hsl. f_equal. lia.
    + apply list_elem_of_singleton in Hi. destruct (decide (idx < pos)%nat); [left; lia|right].
      subst ev. cbn [conn_step] in Hstep.
      destruct (Connection_handle_datagram c now dg rng) as [c1|] eqn:Hd; [|done]. cbn [mbind panicking_bind] in Hstep.
      injection Hstep as <- _. destruct Hsink' as [_ Hsink']. rewrite Hst' in Hsink'.
      eapply (arrival_kept pos c s r e now dg rng); try done.
      * split; try done. intros i (n1 & dg1 & rng1 & d1 & Hi & _). by apply not_elem_of_nil in Hi.
      * by eapply Hgen.
      * lia.
      * apply Hsink'.
Qed.

(** A connection that is established at the end was so all along. *)
Lemma keeping_run all : forall evs seen pos c s r e c' outs s' r' e',
  Connection_wf o c -> Forall conn_event_ok evs -> keeping key id isn pushed seen limits pos c s r e ->
  (forall ev, ev ∈ evs -> ev ∈ all) -> Forall undisturbed all ->
  (forall now dg rng d, EvDatagram now dg rng ∈ all -> Packet_parse dg = pok (Data d) -> genuine key isn pushed d) ->
  conn_run c evs = Ret (c', outs) -> cn_state c' = StEstablished s' r' e' ->
  exists pos', keeping key id isn pushed (seen ++ evs) limits pos' c' s' r' e'.
Proof.
  induction evs as [|ev evs IH]; intros seen pos c s r e c' outs s' r' e' Hwf Hevs Hkp Hin Hcalm Hgen; cbn [conn_run].
  { intros [= <- <-] Hst'. rewrite app_nil_r. pose proof (kp_state _ _ _ _ _ _ _ _ _ _ _ Hkp) as Hst.
    rewrite Hst in Hst'. injection Hst' as <- <- <-. by exists pos. }
  apply Forall_cons in Hevs as [Hev Hevs].
  destruct (conn_step_ok o c ev Hwf Hev) as (c1 & out & Hs & Hwf1). rewrite Hs. cbn [mbind panicking_bind].
  destruct (conn_run c1 evs) as [[c2 outs']|] eqn:Hrun; [|done]. cbn [mbind panicking_bind]. intros [= <- <-] Hst'.
  assert (Hg : forall now dg rng d, ev = EvDatagram now dg rng -> Packet_parse dg = pok (Data d) -> genuine key isn pushed d).
  { intros now dg rng d ->. apply Hgen with (now := now) (rng := rng). apply Hin. by left. }
  assert (Hall : ev ∈ all) by (apply Hin; by left).
  destruct (cn_state c1) as [hs p ed|s1 r1 e1|reason r1] eqn:Hst1.
  - destruct (sink_step key isn pushed o Hpushed Hcap pos c ev c1 out all Hwf Hwf1 Hev (kp_sink _ _ _ _ _ _ _ _ _ _ _ Hkp) Hall
      (fun _ => undisturbed_no_rekey _ Hcalm) Hg Hs) as (k & _ & _ & _ & _ & [_ Hsink] & _). by rewrite Hst1 in Hsink.
  - destruct (keeping_step seen pos c s r e ev c1 out s1 r1 e1 all) as [k Hkp1]; try done.
    destruct (IH (seen ++ [ev]) (pos + k)%nat c1 s1 r1 e1 c2 outs' s' r' e') as [pos' Hkp']; try done.
    { intros ev' He'. apply Hin. by right. }
    exists pos'. by rewrite <- app_assoc in Hkp'.
  - assert (Hc : Connection_get_state c2 = ConnClosed reason).
    { eapply closed_run; [|exact Hrun]. unfold Connection_get_state. by rewrite Hst1. }
    unfold Connection_get_state in Hc. by rewrite Hst' in Hc.
Qed.

End Keeping.

(** ** Both ends *)

(** Every payload gets through: a packet of each one reaches [b], nothing
    else disturbs it, and they are neither too many nor too large; with
    encryption none is empty. *)
Record all_arrive (oB : SrtOptions) (ngB : Negotiated) (b : Connection) (payloads : list bytes) (evsB : list conn_event)
    : Prop := mkAllArrive {
  aa_calm : Forall undisturbed evsB;
  aa_shown : forall idx, (idx < length payloads)%nat -> shown (cn_local_socket_id b) (ng_recv_initial_seq ngB) evsB idx;
  aa_room : (length payloads <= scaled_recv_buffer oB (ng_rcv_latency ngB))%nat;
  aa_small : Forall (fun p => (length p <= payload_limit oB ngB)%nat) payloads;
  aa_nonempty : ng_crypto ngB <> None -> [] ∉ payloads
}.

Lemma paired_secured n a b evs :
  engines_paired n a b evs -> match b with Some r => cr_rcv_state r = Secured | None => True end.
Proof. destruct a, b; try done. intros ((_ & ? & _) & _). done. Qed.

Lemma opened_keeping `{CryptoLaws} key oB ngB b evsB payloads :
  Options_wf oB -> Negotiated_wf ngB -> opened oB ngB b ->
  linked key (ng_recv_initial_seq ngB) payloads evsB b ->
  match ng_crypto ngB with Some r => cr_rcv_state r = Secured | None => True end ->
  exists s r, keeping key (cn_local_socket_id b) (ng_recv_initial_seq ngB) payloads []
    (rv_cfg r, rv_max_payload r) 0 b s r (ng_crypto ngB) /\ receiver_fresh oB ngB r /\ (key <> None -> ng_crypto ngB <> None).
Proof.
  intros HoB HngB Hb [Hsink _ _] Hsec.
  destruct (opened_state oB ngB b HoB HngB Hb) as (_ & _ & s & r & Hst & _ & _ & _ & Hfresh).
  exists s, r. pose proof Hsink as [_ Hk]. rewrite Hst in Hk. destruct Hk as [_ Hk]. split; [|split; [done|]].
  - destruct Hfresh as (_ & Hsl & _). split; try done.
    + intros i sl. by rewrite Hsl.
    + intros i sl. by rewrite Hsl.
    + intros idx (? & ? & ? & ? & Hin & _). by apply not_elem_of_nil in Hin.
  - destruct key; [|done]. by destruct (ng_crypto ngB).
Qed.

(** What is in the buffer is what was not delivered before. *)
Lemma keeping_rest `{CryptoPrimitives} key id isn pushed seen limits pos c s r e i p :
  keeping key id isn pushed seen limits pos c s r e ->
  (forall idx, (idx < length pushed)%nat -> shown id isn seen idx) -> drop pos pushed !! i = Some p ->
  exists sl, rv_slots r !! i = Some (Some sl) /\ readable sl = Some p.
Proof.
  intros [Hst [_ Hsink] _ _ _ _ Hread Hseen] Hall Hi. rewrite Hst in Hsink. destruct Hsink as [(_ & _ & Hsl) _].
  rewrite lookup_drop in Hi. pose proof (lookup_lt_Some _ _ _ Hi) as Hlt.
  destruct (Hseen (pos + i)%nat) as [?|[sl Hs]]; [by apply Hall|done|lia|].
  replace (pos + i - pos)%nat with i in Hs by lia. exists sl. split; [done|].
  destruct (Hread i sl Hs) as [q Hq]. destruct (Hsl i sl Hs) as [_ Hp]. specialize (Hp q Hq). congruence.
Qed.

Lemma sublist_full {A} (l1 l2 : list A) : sublist l1 l2 -> length l1 = length l2 -> l1 = l2.
Proof.
  induction 1 as [|x l1 l2 Hs IH|x l1 l2 Hs IH]; [done|..]; cbn; intros Hl; [f_equal; apply IH; lia|].
  apply sublist_length in Hs. lia.
Qed.

(** The delivered payloads among those the receiver has passed. *)
Lemma linked_run `{CryptoLaws} key oB ngB b b' evsB outsB payloads :
  Options_wf oB -> Z.of_nat (recv_capacity oB) <= 2 ^ 30 -> Z.of_nat (length payloads) <= 2 ^ 30 ->
  Negotiated_wf ngB -> opened oB ngB b -> Forall conn_event_ok evsB ->
  linked key (ng_recv_initial_seq ngB) payloads evsB b -> conn_run b evsB = Ret (b', outsB) ->
  exists pos r, receiver_of b' = Some r /\ sink key (ng_recv_initial_seq ngB) payloads pos b' /\ (pos <= length payloads)%nat /\
    sublist (delivered outsB) (take pos payloads) /\ Z.of_nat (length (delivered outsB)) + given_up r = Z.of_nat pos.
Proof.
  intros HoB Hcap Hlen HngB Hb HevB [Hsink Hno Hgen] Hrun.
  destruct (opened_state oB ngB b HoB HngB Hb) as (Hwf & _ & s0 & r0 & Hst0 & _ & _ & _ & (_ & _ & Hg0 & _)).
  destruct (sink_run key (ng_recv_initial_seq ngB) payloads oB Hlen Hcap evsB evsB 0 b b' outsB r0) as (k & r & Hr & Hs & Hsub & Hg);
    try done; [unfold receiver_of; by rewrite Hst0|].
  exists k, r. split; [done|]. cbn [Nat.add] in Hs. split; [done|]. split; [|split; [done|lia]].
  destruct Hs as [_ Hs]. destruct (cn_state b') as [|? ? ?|? [?|]]; try done; [apply Hs|apply Hs].
Qed.

(** When nothing was given up, the delivered payloads are the first ones. *)
Lemma passed_prefix (payloads outs : list bytes) pos n :
  sublist outs (take pos payloads) -> (pos <= length payloads)%nat -> Z.of_nat (length outs) + n = Z.of_nat pos -> n = 0 ->
  outs = take pos payloads.
Proof. intros Hs Hp Hl ->. apply sublist_full; [done|]. rewrite length_take. lia. Qed.

(** From some time on, polling yields all that is left. *)
Lemma kept_delivers `{CryptoPrimitives} key id isn payloads seen limits pos c s r e :
  keeping key id isn payloads seen limits pos c s r e ->
  (forall idx, (idx < length payloads)%nat -> shown id isn seen idx) ->
  exists t, forall now, t <= now ->
    exists c2 outs2, conn_run c (polls (length (drop pos payloads)) now) = Ret (c2, outs2) /\
      delivered outs2 = drop pos payloads.
Proof.
  intros Hkp Hshown. pose proof Hkp as [Hst _ _ _ Hfound _ _ _].
  pose proof (fun i p => keeping_rest key id isn payloads seen limits pos c s r e i p Hkp Hshown) as Hrest.
  exists (match rv_anchor r with Some an => last_deadline r an | None => 0 end). intros now Hnow.
  destruct (drop pos payloads) as [|p0 rest] eqn:Hd; [by exists c, []|].
  destruct (Hrest O p0 eq_refl) as (sl0 & Hsl0 & _). destruct (Hfound O sl0 Hsl0) as [_ Han].
  destruct (rv_anchor r) as [an|] eqn:Ha; [|done]. apply (polls_deliver now an _ c s r e); try done.
  intros i p Hi. destruct (Hrest i p Hi) as (sl & Hsl & Hp). exists sl. do 2 (split; [done|]).
  pose proof (last_deadline_max r an i sl Hsl). lia.
Qed.

(** A linked end that is open and has received all has everything it did not
    deliver in its buffer. *)
Lemma linked_keeping `{CryptoLaws} key oB ngB b b' evsB outsB payloads s r e pos :
  Options_wf oB -> Z.of_nat (recv_capacity oB) <= 2 ^ 30 -> Z.of_nat (length payloads) <= 2 ^ 30 ->
  Negotiated_wf ngB -> opened oB ngB b -> Forall conn_event_ok evsB ->
  linked key (ng_recv_initial_seq ngB) payloads evsB b -> conn_run b evsB = Ret (b', outsB) ->
  match ng_crypto ngB with Some r => cr_rcv_state r = Secured | None => True end ->
  all_arrive oB ngB b payloads evsB -> cn_state b' = StEstablished s r e ->
  sink key (ng_recv_initial_seq ngB) payloads pos b' ->
  exists limits, keeping key (cn_local_socket_id b) (ng_recv_initial_seq ngB) payloads evsB limits pos b' s r e.
Proof.
  intros HoB Hcap Hlen HngB Hb HevB Hl Hrun Hsec [Hcalm Hshown Hroom Hsmall Hne] Hst Hsink. pose proof Hl as [_ _ Hgen].
  destruct (opened_keeping key oB ngB b evsB payloads HoB HngB Hb Hl Hsec) as (s0 & r0 & Hkp & (_ & _ & _ & Hcfg & Hmax) & Hkey).
  destruct (opened_state oB ngB b HoB HngB Hb) as (HwfB & _).
  destruct (keeping_run key (cn_local_socket_id b) (ng_recv_initial_seq ngB) payloads oB (rv_cfg r0, rv_max_payload r0) Hlen Hcap)
    with (all := evsB) (evs := evsB) (seen := @nil conn_event) (pos := O) (c := b) (s := s0) (r := r0) (e := ng_crypto ngB)
      (c' := b') (outs := outsB) (s' := s) (r' := r) (e' := e) as [pos' Hkp']; try done.
  - apply Forall_forall. intros p Hp Hk E. subst p. by apply Hne; [apply Hkey|].
  - cbn [fst]. by rewrite Hcfg.
  - cbn [snd]. by rewrite Hmax.
  - assert (pos' = pos) as <-; [|by eexists].
    apply (sink_position key (ng_recv_initial_seq ngB) payloads pos' pos b' r Hlen); [apply Hkp'|done|].
    unfold receiver_of. by rewrite Hst.
Qed.

(** The payloads delivered and given up account for those accepted. *)
Lemma runs_account `{CryptoLaws} (oA oB : SrtOptions) (ngA ngB : Negotiated) (a b : Connection)
    (evsA evsB : list conn_event) :
  Options_wf oA -> Options_wf oB -> Z.of_nat (recv_capacity oB) <= 2 ^ 30 ->
  Negotiated_wf ngA -> Negotiated_wf ngB -> opened oA ngA a -> opened oB ngB b ->
  ng_send_initial_seq ngA = ng_recv_initial_seq ngB ->
  Forall conn_event_ok evsA -> Forall conn_event_ok evsB ->
  exists a' outsA b' outsB,
    conn_run a evsA = Ret (a', outsA) /\ conn_run b evsB = Ret (b', outsB) /\
    let payloads := accepted evsA outsA in
    (Z.of_nat (length payloads) <= 2 ^ 30 ->
     engines_paired (length payloads) (ng_crypto ngA) (ng_crypto ngB) evsB ->
     carries evsB (sent outsA) ->
     exists pos r, receiver_of b' = Some r /\ (pos <= length payloads)%nat /\
       sublist (delivered outsB) (take pos payloads) /\
       Z.of_nat (length (delivered outsB)) + rs_pkts_dropped (rv_stats r) = Z.of_nat pos /\
       (rs_pkts_dropped (rv_stats r) = 0 -> delivered outsB `prefix_of` payloads)).
Proof.
  intros HoA HoB Hcap HngA HngB Ha Hb Hisn HevA HevB.
  destruct (runs_linked oA oB ngA ngB a b evsA evsB HoA HoB HngA HngB Ha Hb Hisn HevA) as (a' & outsA & HrunA & Hlink).
  destruct (opened_state oB ngB b HoB HngB Hb) as (HwfB & _).
  destruct (conn_run_ok oB evsB b HwfB HevB) as (b' & outsB & HrunB & _).
  exists a', outsA, b', outsB. do 2 (split; [done|]). intros payloads Hlen Hpair Hnet.
  destruct (Hlink Hpair Hnet) as (key & Hl). rewrite Hisn in Hl.
  destruct (linked_run key oB ngB b b' evsB outsB payloads) as (pos & r & Hr & _ & Hpos & Hsub & Hg); try done.
  exists pos, r. do 4 (split; [done|]). intros Hz. rewrite (passed_prefix _ _ _ _ Hsub Hpos Hg Hz). apply prefix_take.
Qed.

(** ** Properties *)



(** ** Witnesses *)

Section Witnesses.
#[local] Existing Instance toy_primitives.
#[local] Existing Instance toy_laws.
#[local] Existing Instance toy_cookie.

(** What a run delivered and, while it is open or closed with its receiver,
    what it gave up. *)
Definition demo_account (r : panicking (Connection * list conn_output)) : list bytes * option Z :=
  match r with
  | Ret (c, outs) => (delivered outs, (fun r => rs_pkts_dropped (rv_stats r)) <$> receiver_of c)
  | Panic => ([], None)
  end.

Definition demo_open (r : panicking (Connection * list conn_output)) : bool :=
  match r with
  | Ret (c, _) => match cn_state c with StEstablished _ _ _ => true | _ => false end
  | Panic => false
  end.


Definition each_once (d1 d2 d3 : bytes) : list conn_event :=
  [EvDatagram 0 d1 demo_rng; EvDatagram 1 d2 demo_rng; EvDatagram 2 d3 demo_rng].

Lemma each_once_only d1 d2 d3 now dg rng : EvDatagram now dg rng ∈ each_once d1 d2 d3 -> dg = d1 \/ dg = d2 \/ dg = d3.
Proof.
  unfold each_once. rewrite !elem_of_cons. intros [E|[E|[E|E]]]; [..|by apply not_elem_of_nil in E]; injection E; auto.
Qed.

(** All three arrive, the last one first. *)
Definition demo_all_receive : list conn_event := each_once (demo_datagram 3) (demo_datagram 1) (demo_datagram 2).

Lemma demo_all_only now dg rng : EvDatagram now dg rng ∈ demo_all_receive -> demo_carried dg.
Proof. apply each_once_only. Qed.

Lemma each_once_in d1 d2 d3 :
  EvDatagram 0 d1 demo_rng ∈ each_once d1 d2 d3 /\ EvDatagram 1 d2 demo_rng ∈ each_once d1 d2 d3 /\
  EvDatagram 2 d3 demo_rng ∈ each_once d1 d2 d3.
Proof. unfold each_once. split_and!; rewrite !elem_of_cons; auto. Qed.

Lemma demo_all_arrive :
  all_arrive demo_listener_opts (snd demo_negotiated) (demo_end demo_listener_opts (snd demo_negotiated))
    [[1; 2; 3]; [4; 5]; [6]] demo_all_receive.
Proof.
  split.
  - apply Forall_forall. intros ev Hin. destruct ev as [now dg rng| | | | | |]; try exact I.
    destruct (demo_genuine dg (demo_all_only now dg rng Hin)) as (d & Hd & _). cbn. by rewrite Hd.
  - destruct demo_parses as (E3 & E1 & E2 & _).
    destruct (each_once_in (demo_datagram 3) (demo_datagram 1) (demo_datagram 2)) as (I3 & I1 & I2).
    assert (Eisn : ng_recv_initial_seq (snd demo_negotiated) = 100) by (vm_compute; reflexivity). rewrite Eisn.
    assert (Eid : cn_local_socket_id (demo_end demo_listener_opts (snd demo_negotiated)) = 8) by (vm_compute; reflexivity). rewrite Eid.
    intros idx Hidx. destruct idx as [|[|[|idx]]]; [| | |cbn in Hidx; lia].
    + exists 1, (demo_datagram 1), demo_rng, (demo_data 100 1 [0; 3; 2]).
      split; [exact I1|]. split; [exact E1|]. split; reflexivity.
    + exists 2, (demo_datagram 2), demo_rng, (demo_data 101 2 [5; 4]).
      split; [exact I2|]. split; [exact E2|]. split; reflexivity.
    + exists 0, (demo_datagram 3), demo_rng, (demo_data 102 3 [7]).
      split; [exact I3|]. split; [exact E3|]. split; reflexivity.
  - apply Nat.leb_le. vm_compute. reflexivity.
  - assert (E : payload_limit demo_listener_opts (snd demo_negotiated) = 1356%nat) by (vm_compute; reflexivity). rewrite E.
    repeat constructor; apply Nat.leb_le; reflexivity.
  - intros _. rewrite !elem_of_cons. intros [E|[E|[E|E]]]; [..|by apply not_elem_of_nil in E]; discriminate E.
Qed.


(** The two ends of the demonstration handshake: the caller is given
    [payloads], every data packet it sends reaches the listener, which is polled.
    The payloads accepted and delivered, and the packets counted as
    undecrypted. *)
Definition demo_stream (payloads : list bytes) : panicking (list bytes * list bytes * option Z) :=
  let polled := S (S (length payloads)) in
  let sends := (EvSend 0 <$> payloads) ++ replicate polled (EvTransmit 0) in
  '(_, outs) ← conn_run (demo_end demo_caller_opts (fst demo_negotiated)) sends;
  let receives := omap (fun p => match p with Data _ => Some (EvDatagram 1 (Packet_encode p []) demo_rng) | _ => None end) (sent outs) ++
                  replicate polled (EvDeliver (from_secs 1)) in
  '(l, got) ← conn_run (demo_end demo_listener_opts (snd demo_negotiated)) receives;
  Ret (accepted sends outs, delivered got, rv_undecrypted <$> receiver_of l).


End Witnesses.
