(* ===== verification/Channel.v ===== *)
(** * From the handshake to the stream

    A caller and a listener that complete the handshake ([exchange] of
    [CoreHandshake]) hold connections whose streams are faithful in both
    directions.  The hypotheses are on what the two users configure and on
    the network; what the ends know of each other follows from the
    handshake. *)

From S2P Require Import Prelude PacketTypes PacketHandshake PacketControl Time CryptoKeys CryptoContext Options Receiver CoreHandshake Connection ConnectionLife ConnectionTrace Integrity Completeness.

(** ** Definitions *)

(** The key refresh settings are [u32] values. *)
Definition km_options_wf (o : SrtOptions) : Prop :=
  (forall r, so_km_refresh_rate o = Some r -> is_u32 r) /\ (forall p, so_km_preannounce o = Some p -> is_u32 p).

(** [n] packets go before the first key of an end is announced again. *)
Definition key_budget (cfg : option CryptoConfig) (n : nat) : Prop :=
  match cfg with
  | None => True
  | Some c => Z.of_nat n < cc_km_refresh_rate c - cc_km_preannounce c
  end.

(** The end that ran [evsB] and is [b'] now delivered, in order, what the
    end that ran [evsA] accepted, and counted what it gave up: for runs
    within the key of the sender, over a network that invents no data packets
    and, for an encrypted link, no key. *)
Definition stream_kept (cfg : option CryptoConfig) (evsA : list conn_event) (outsA : list conn_output)
    (evsB : list conn_event) (outsB : list conn_output) (b' : Connection) : Prop :=
  let payloads := accepted evsA outsA in
  Z.of_nat (length payloads) <= 2 ^ 30 -> key_budget cfg (length payloads) -> (cfg <> None -> no_rekey evsB) ->
  carries evsB (sent outsA) ->
  exists pos r, receiver_of b' = Some r /\ (pos <= length payloads)%nat /\
    sublist (delivered outsB) (take pos payloads) /\
    Z.of_nat (length (delivered outsB)) + rs_pkts_dropped (rv_stats r) = Z.of_nat pos.

(** ** Lemmas *)

(** A fresh engine within its budget is paired with the one it is in sync
    with. *)
Lemma fresh_paired `{CryptoPrimitives} (o : SrtOptions) (cfg : CryptoConfig) (i r : Crypto) (n : nat) (evs : list conn_event) :
  km_options_wf o -> SrtOptions_crypto_config o = Ok (Some cfg) -> in_sync i r -> fresh_engine cfg i ->
  key_budget (Some cfg) n -> no_rekey evs -> engines_paired n (Some i) (Some r) evs.
Proof.
  intros [Hr Hp] Hcfg Hs (Halt & Hcnt & Hrr & Hpa) Hn Hno.
  destruct (crypto_config_is_safe o cfg Hr Hp Hcfg) as (_ & _ & Hrate & Hann).
  cbn [key_budget engines_paired] in *. rewrite Hcnt, Hrr, Hpa. split_and!; try done; lia.
Qed.

Lemma agreed_paired `{CryptoPrimitives} (oc ol : SrtOptions) (cc cl : option CryptoConfig) (e_c e_l : option Crypto) :
  km_options_wf oc -> km_options_wf ol -> SrtOptions_crypto_config oc = Ok cc -> SrtOptions_crypto_config ol = Ok cl ->
  engines_agree cc cl e_c e_l ->
  engine_wf e_c /\ engine_wf e_l /\ forall n evs,
    (key_budget cc n -> (cc <> None -> no_rekey evs) -> engines_paired n e_c e_l evs) /\
    (key_budget cl n -> (cl <> None -> no_rekey evs) -> engines_paired n e_l e_c evs).
Proof.
  intros Hkc Hkl Hcc Hcl. unfold engines_agree.
  destruct cc as [cfg|], cl as [cfg'|], e_c as [i|], e_l as [r|]; try done.
  intros (H1 & H2 & Hi & Hr & Hf1 & Hf2). do 2 (split; [done|]). intros n evs.
  split; intros Hb Hno; [apply (fresh_paired oc cfg)|apply (fresh_paired ol cfg')]; try done; by apply Hno.
Qed.

(** One direction between two ends that agree. *)
Lemma direction_kept `{CryptoLaws} (cfg : option CryptoConfig) (oA oB : SrtOptions) (ngA ngB : Negotiated) (a b : Connection)
    (evsA evsB : list conn_event) a' outsA b' outsB :
  Options_wf oA -> Options_wf oB -> Z.of_nat (recv_capacity oB) <= 2 ^ 30 ->
  Negotiated_wf ngA -> Negotiated_wf ngB -> opened oA ngA a -> opened oB ngB b ->
  ng_send_initial_seq ngA = ng_recv_initial_seq ngB ->
  (forall n evs, key_budget cfg n -> (cfg <> None -> no_rekey evs) -> engines_paired n (ng_crypto ngA) (ng_crypto ngB) evs) ->
  Forall conn_event_ok evsA -> Forall conn_event_ok evsB ->
  conn_run a evsA = Ret (a', outsA) -> conn_run b evsB = Ret (b', outsB) ->
  stream_kept cfg evsA outsA evsB outsB b'.
Proof.
  intros HoA HoB Hcap HngA HngB Ha Hb Hisn Hkeys HevA HevB HrA HrB. unfold stream_kept.
  intros Hlen Hbud Hno Hnet.
  destruct (runs_account oA oB ngA ngB a b evsA evsB) as (a1 & o1 & b1 & o2 & HrA' & HrB' & Hacc); try done.
  rewrite HrA in HrA'. rewrite HrB in HrB'. injection HrA' as <- <-. injection HrB' as <- <-.
  destruct (Hacc Hlen (Hkeys _ _ Hbud Hno) Hnet) as (pos & r & ? & ? & ? & ? & _). by exists pos, r.
Qed.

(** ** Properties *)


(** ** Witnesses *)

Section Witnesses.
#[local] Existing Instance toy_primitives.
#[local] Existing Instance toy_laws.
#[local] Existing Instance toy_cookie.

Lemma demo_km_options : km_options_wf demo_caller_opts /\ km_options_wf demo_listener_opts.
Proof. unfold km_options_wf. split; split; intros r E; discriminate E. Qed.

Lemma demo_caller_capacity : Z.of_nat (recv_capacity demo_caller_opts) <= 2 ^ 30.
Proof.
  unfold recv_capacity, MAX_SCALED_RECV_BUFFER_PKTS. rewrite Nat2Z.inj_max, Z2Nat.id by lia.
  cbn [so_recv_buffer_pkts demo_caller_opts SrtOptions_default set_field]. lia.
Qed.


End Witnesses.
