(* ===== verification/Net.v ===== *)
(** * Addresses and random numbers: [src/net.rs]

    The operating system's answers are arguments: the addresses a lookup
    returns, and the digest the process-wide keyed hash gives for a counter
    value.  The socket calls [bind_udp] makes are the operations of a class;
    what POSIX says of them is the class of their laws. *)

From S2P Require Import Prelude PacketTypes PacketHandshake Options CoreHandshake.

(** ** Operations *)

(** [std::net::SocketAddr]; an IPv6 address is never used. *)
Inductive SocketAddr :=
| V4 (addr : SocketAddrV4)
| V6 (ip : bytes) (port : Z).

(** [lookup] is the outcome of the name lookup: an OS error or addresses. *)
Definition resolve_v4 (lookup : result Z (list SocketAddr)) : result SrtError SocketAddrV4 :=
  match lookup with
  | Err e => Err (Io e)
  | Ok addrs =>
      match find_map (fun a => match a with V4 v4 => Some v4 | V6 _ _ => None end) addrs with
      | Some a => Ok a
      | None => Err NoIpv4Address
      end
  end.

(** A UDP socket as the system keeps it. *)
Record UdpSock := mkUdpSock {
  us_addr : option SocketAddrV4;
  us_recv_buffer : option Z;
  us_nonblocking : bool;
  us_reuse_address : bool
}.

(** The calls of [socket2], [std::net] and [tokio::net] that [bind_udp] makes
    on the sockets of a system [W], by descriptor; [api_close] is their drop.
    The errors are OS error numbers. *)
Class UdpApi (W : Type) := {
  api_socket : W -> W * result Z Z;
  api_set_recv_buffer_size : W -> Z -> Z -> W * result Z unit;
  api_bind : W -> Z -> SocketAddrV4 -> W * result Z unit;
  api_set_nonblocking : W -> Z -> bool -> W * result Z unit;
  api_from_std : W -> Z -> W * result Z unit;
  api_close : W -> Z -> W
}.

(** A call whose error is returned with [?], the socket dropped. *)
Definition or_close `{UdpApi W} (fd : Z) (call : W * result Z unit) (k : W -> W * result Z Z) : W * result Z Z :=
  let '(w, r) := call in
  match r with
  | Ok _ => k w
  | Err e => (api_close w fd, Err e)
  end.

Definition bind_udp `{UdpApi W} (addr : SocketAddrV4) (recv_buffer : option Z) (w : W) : W * result Z Z :=
  let '(w, r) := api_socket w in
  match r with
  | Err e => (w, Err e)
  | Ok fd =>
      or_close fd (match recv_buffer with Some bytes => api_set_recv_buffer_size w fd bytes | None => (w, Ok tt) end) (fun w =>
      or_close fd (api_bind w fd addr) (fun w =>
      or_close fd (api_set_nonblocking w fd true) (fun w =>
      or_close fd (api_from_std w fd) (fun w => (w, Ok fd)))))
  end.

(** The digest of a counter value under the key of this process. *)
Class KeyedHash := keyed_hash : Z -> Z.

(** [COUNTER] is the state; each round of a loop takes its next value. *)
Fixpoint random_u64 `{KeyedHash} (fuel : nat) (counter : Z) : panicking (Z * Z) :=
  match fuel with
  | O => Panic
  | S fuel =>
      let value := keyed_hash counter in
      let counter := as_u64 (counter + 1) in
      if negb (as_u32 value =? 0) then Ret (counter, value) else random_u64 fuel counter
  end.

Fixpoint random_socket_id `{KeyedHash} (fuel : nat) (counter : Z) : panicking (Z * Z) :=
  match fuel with
  | O => Panic
  | S fuel' =>
      '(counter, value) ← random_u64 fuel counter;
      let id := Z.land (as_u32 value) 0x7FFFFFFF in
      if negb (id =? 0) then Ret (counter, id) else random_socket_id fuel' counter
  end.

Definition random_isn `{KeyedHash} (fuel : nat) (counter : Z) : panicking (Z * Z) :=
  '(counter, value) ← random_u64 fuel counter;
  Ret (counter, SeqNumber_new (as_u32 (value mod 0x7FFFFFFF))).

(** [EADDRINUSE] *)
Definition AddrInUse : Z := 98.

(** Another socket than [fd] has the address, and the two do not both share
    it. *)
Definition taken (socks : gmap Z UdpSock) (fd : Z) (reuse : bool) (addr : SocketAddrV4) : Prop :=
  map_Exists (fun fd' s' => fd' <> fd /\ us_addr s' = Some addr /\ us_reuse_address s' && reuse = false) socks.

(** What the calls do to the open sockets: a new descriptor is unused and
    its socket has the defaults; a failed call changes nothing; a successful
    [bind] takes the address, or a free port of it for port 0; an address
    taken by another socket, unless both set [SO_REUSEADDR], is refused. *)
Class UdpLaws (W : Type) `{UdpApi W} := {
  api_socks : W -> gmap Z UdpSock;
  socket_law w : let '(w', r) := api_socket w in
    match r with
    | Ok fd => api_socks w !! fd = None /\ api_socks w' = <[fd := mkUdpSock None None false false]> (api_socks w)
    | Err _ => api_socks w' = api_socks w
    end;
  recv_buffer_law w fd bytes s : api_socks w !! fd = Some s ->
    let '(w', r) := api_set_recv_buffer_size w fd bytes in
    api_socks w' = match r with
                   | Ok _ => <[fd := mkUdpSock (us_addr s) (Some bytes) (us_nonblocking s) (us_reuse_address s)]> (api_socks w)
                   | Err _ => api_socks w
                   end;
  bind_law w fd addr s : api_socks w !! fd = Some s ->
    let '(w', r) := api_bind w fd addr in
    match r with
    | Ok _ => exists a, api_socks w' =
          <[fd := mkUdpSock (Some a) (us_recv_buffer s) (us_nonblocking s) (us_reuse_address s)]> (api_socks w) /\
        sa_ip a = sa_ip addr /\ sa_port a <> 0 /\ (sa_port addr <> 0 -> a = addr) /\
        ~ taken (api_socks w) fd (us_reuse_address s) a
    | Err _ => api_socks w' = api_socks w
    end;
  bind_taken_law w fd addr s : api_socks w !! fd = Some s -> us_addr s = None ->
    taken (api_socks w) fd (us_reuse_address s) addr -> sa_port addr <> 0 ->
    snd (api_bind w fd addr) = Err AddrInUse;
  nonblocking_law w fd b s : api_socks w !! fd = Some s ->
    let '(w', r) := api_set_nonblocking w fd b in
    api_socks w' = match r with
                   | Ok _ => <[fd := mkUdpSock (us_addr s) (us_recv_buffer s) b (us_reuse_address s)]> (api_socks w)
                   | Err _ => api_socks w
                   end;
  from_std_law w fd : api_socks (fst (api_from_std w fd)) = api_socks w;
  close_law w fd : api_socks (api_close w fd) = delete fd (api_socks w)
}.

(** ** Lemmas *)

(** Within the next [n] counter values one has a digest whose bits under
    [mask] are not all zero. *)
Definition usable_within `{KeyedHash} (mask : Z) (n : nat) (counter : Z) : Prop :=
  exists k, (k < n)%nat /\ Z.land (keyed_hash (as_u64 (counter + Z.of_nat k))) mask <> 0.

Lemma land_u31 v : Z.land v 0x7FFFFFFF = v mod 2 ^ 31.
Proof. apply (land_mask v 31). lia. Qed.

Lemma as_u64_succ c k : as_u64 (as_u64 (c + 1) + Z.of_nat k) = as_u64 (c + Z.of_nat (S k)).
Proof. unfold as_u64. rewrite Zplus_mod_idemp_l. f_equal. lia. Qed.

(** The loop stops at the first digest with a nonzero low word. *)
Lemma random_u64_spec `{KeyedHash} fuel : forall counter k,
  is_u64 counter -> (k < fuel)%nat -> as_u32 (keyed_hash (as_u64 (counter + Z.of_nat k))) <> 0 ->
  exists j, (j <= k)%nat /\ as_u32 (keyed_hash (as_u64 (counter + Z.of_nat j))) <> 0 /\
    random_u64 fuel counter = Ret (as_u64 (counter + Z.of_nat (S j)), keyed_hash (as_u64 (counter + Z.of_nat j))).
Proof.
  induction fuel as [|fuel IH]; intros counter k Hc Hk Hne; [lia|]. cbn [random_u64].
  assert (H0 : as_u64 (counter + Z.of_nat 0) = counter) by (unfold as_u64; rewrite Z.mod_small; unfold is_u64 in Hc; lia).
  destruct (Z.eqb_spec (as_u32 (keyed_hash counter)) 0) as [Hz|Hz]; cbn [negb].
  - destruct k as [|k]; [by rewrite H0 in Hne|].
    destruct (IH (as_u64 (counter + 1)) k) as (j & Hj & Hnz & Hr).
    + apply Z.mod_pos_bound. lia.
    + lia.
    + by rewrite as_u64_succ.
    + exists (S j). rewrite as_u64_succ in Hnz. split; [lia|]. split; [done|]. rewrite Hr.
      by rewrite !as_u64_succ.
  - exists O. split; [lia|]. rewrite H0. split; [done|]. done.
Qed.

Lemma random_socket_id_spec `{KeyedHash} fuel : forall counter,
  is_u64 counter -> usable_within 0x7FFFFFFF fuel counter ->
  exists counter' id, random_socket_id fuel counter = Ret (counter', id) /\ 0 < id < 2 ^ 31.
Proof.
  induction fuel as [|fuel IH]; intros counter Hc (k & Hk & Hne); [lia|]. cbn [random_socket_id].
  destruct (random_u64_spec (S fuel) counter k Hc Hk) as (j & Hj & Hnz & ->).
  { rewrite land_u31 in Hne. unfold as_u32. zify_divmod. }
  cbn [mbind panicking_bind]. set (v := keyed_hash (as_u64 (counter + Z.of_nat j))) in *.
  assert (Hid : Z.land (as_u32 v) 0x7FFFFFFF = Z.land v 0x7FFFFFFF)
    by (rewrite !land_u31; unfold as_u32; zify_divmod).
  rewrite Hid. destruct (Z.eqb_spec (Z.land v 0x7FFFFFFF) 0) as [Hz|Hz]; cbn [negb].
  - apply IH; [apply Z.mod_pos_bound; lia|]. assert (j <> k) by (intros ->; by apply Hne).
    exists (k - S j)%nat. split; [lia|]. unfold as_u64 in *. rewrite Zplus_mod_idemp_l.
    replace (counter + Z.of_nat (S j) + Z.of_nat (k - S j)) with (counter + Z.of_nat k) by lia. done.
  - eexists _, _. split; [done|]. rewrite land_u31 in Hz |- *. zify_divmod.
Qed.

Section Binding.
Context {W : Type} `{UdpLaws W}.

(** The sockets of [w0], and [s] under the fresh descriptor [fd]. *)
Definition one_more (w0 : W) (fd : Z) (s : UdpSock) (w : W) : Prop :=
  api_socks w0 !! fd = None /\ api_socks w = <[fd := s]> (api_socks w0).

Lemma one_more_lookup w0 fd s w : one_more w0 fd s w -> api_socks w !! fd = Some s.
Proof. intros [_ ->]. by rewrite lookup_insert_eq. Qed.

Lemma one_more_update w0 fd s s' w w' :
  one_more w0 fd s w -> api_socks w' = <[fd := s']> (api_socks w) -> one_more w0 fd s' w'.
Proof. intros [Hn E] E'. split; [done|]. by rewrite E', E, insert_insert_eq. Qed.

(** Whichever call fails, the sockets are as before. *)
Lemma or_close_ok (w0 : W) fd call k s Q :
  (match snd call with
   | Ok _ => exists s', one_more w0 fd s' (fst call) /\ Q (k (fst call))
   | Err _ => one_more w0 fd s (fst call) /\ forall w e, api_socks w = api_socks w0 -> Q (w, Err e)
   end) -> Q (or_close fd call k).
Proof.
  unfold or_close. destruct call as [w [v|e]]; cbn [fst snd]; [by intros (? & _ & ?)|].
  intros [[Hn E] HQ]. apply HQ. by rewrite close_law, E, delete_insert_id.
Qed.

(** What is promised of the outcome of [bind_udp]. *)
Definition bound (addr : SocketAddrV4) (recv_buffer : option Z) (w : W) (out : W * result Z Z) : Prop :=
  match snd out with
  | Err _ => api_socks (fst out) = api_socks w
  | Ok fd => exists a, one_more w fd (mkUdpSock (Some a) recv_buffer true false) (fst out) /\
      sa_ip a = sa_ip addr /\ sa_port a <> 0 /\ (sa_port addr <> 0 -> a = addr) /\ ~ taken (api_socks w) fd false a
  end.

Lemma taken_others w0 fd s w reuse a : one_more w0 fd s w -> taken (api_socks w) fd reuse a <-> taken (api_socks w0) fd reuse a.
Proof.
  intros [_ E]. unfold taken, map_Exists. rewrite E. split; intros (fd' & s' & Hs & Hne & ?); exists fd', s';
    (split; [|done]); [by rewrite lookup_insert_ne in Hs|by rewrite lookup_insert_ne].
Qed.

Lemma bind_udp_bound (addr : SocketAddrV4) (recv_buffer : option Z) (w : W) :
  bound addr recv_buffer w (bind_udp addr recv_buffer w).
Proof.
  unfold bind_udp. pose proof (socket_law w) as Hs. destruct (api_socket w) as [w1 [fd|e]]; [|done].
  apply (or_close_ok w fd _ _ (mkUdpSock None None false false)).
  set (s2 := mkUdpSock None recv_buffer false false).
  assert (H2 : let call := match recv_buffer with Some bytes => api_set_recv_buffer_size w1 fd bytes | None => (w1, Ok tt) end in
    one_more w fd (match snd call with Ok _ => s2 | Err _ => mkUdpSock None None false false end) (fst call)).
  { destruct recv_buffer as [bytes|]; [|done]. pose proof (recv_buffer_law w1 fd bytes _ (one_more_lookup _ _ _ _ Hs)) as Hb.
    cbv zeta. destruct (api_set_recv_buffer_size w1 fd bytes) as [w2 [v|e]]; cbn [fst snd]; [by eapply one_more_update|].
    split; [apply Hs|]. rewrite Hb. apply Hs. }
  revert H2. cbv zeta. destruct (match recv_buffer with Some _ => _ | None => _ end) as [w2 [v|e]]; cbn [fst snd]; intros H2; [|done].
  exists s2. split; [done|]. apply (or_close_ok w fd _ _ s2).
  pose proof (bind_law w2 fd addr s2 (one_more_lookup _ _ _ _ H2)) as Hb.
  destruct (api_bind w2 fd addr) as [w3 [v3|e]]; cbn [fst snd]; [|split; [|done]; split; [apply H2|rewrite Hb; apply H2]].
  destruct Hb as (a & Hw3 & Hip & Hp0 & Hp & Ht). rewrite (taken_others _ _ _ _ _ _ H2) in Ht.
  pose proof (one_more_update _ _ _ _ _ _ H2 Hw3) as H3. eexists. split; [exact H3|].
  apply (or_close_ok w fd _ _ (mkUdpSock (Some a) recv_buffer false false)).
  pose proof (nonblocking_law w3 fd true _ (one_more_lookup _ _ _ _ H3)) as Hn.
  destruct (api_set_nonblocking w3 fd true) as [w4 [v4|e]]; cbn [fst snd]; [|split; [|done]; split; [apply H3|rewrite Hn; apply H3]].
  pose proof (one_more_update _ _ _ _ _ _ H3 Hn) as H4. eexists. split; [exact H4|].
  apply (or_close_ok w fd _ _ (mkUdpSock (Some a) recv_buffer true false)).
  pose proof (from_std_law w4 fd) as Hf. destruct (api_from_std w4 fd) as [w5 [v5|e]]; cbn [fst snd] in *;
    assert (one_more w fd (mkUdpSock (Some a) recv_buffer true false) w5) as H5
      by (split; [apply H4|]; rewrite Hf; apply H4); [|done].
  eexists. split; [exact H5|]. exists a. by split_and!.
Qed.

End Binding.

(** ** Properties *)

(** C36: [bind_udp] opens exactly one socket, with the receive buffer
    asked for, nonblocking and alone on its address: whichever call fails,
    nothing stays open; an address another socket holds is not taken; and
    once bound no other socket gets the address, not even one that sets
    [SO_REUSEADDR]. *)
Theorem bind_udp_is_exclusive `{UdpLaws W} (addr : SocketAddrV4) (recv_buffer : option Z) (w w' : W) (r : result Z Z) :
  bind_udp addr recv_buffer w = (w', r) ->
  match r with
  | Err _ => api_socks w' = api_socks w
  | Ok fd => api_socks w !! fd = None /\
      exists a, api_socks w' = <[fd := mkUdpSock (Some a) recv_buffer true false]> (api_socks w) /\
        sa_ip a = sa_ip addr /\ (sa_port addr <> 0 -> a = addr) /\ ~ taken (api_socks w) fd false a /\
        forall rival s, rival <> fd -> api_socks w' !! rival = Some s -> us_addr s = None ->
          snd (api_bind w' rival a) = Err AddrInUse
  end.
Proof.
  intros E. pose proof (bind_udp_bound addr recv_buffer w) as Hb. rewrite E in Hb. unfold bound in Hb. cbn [fst snd] in Hb.
  destruct r as [fd|e]; [|done]. destruct Hb as (a & H1 & Hip & Hp0 & Hp & Ht). split; [apply H1|]. exists a.
  split; [apply H1|]. do 3 (split; [done|]). intros rival s Hne Hs Hn.
  apply (bind_taken_law w' rival a s Hs Hn); [|done]. eexists fd, _.
  split; [by apply (one_more_lookup w)|]. by split_and!.
Qed.

Section BindWitness.

#[local] Instance toy_taken_dec socks fd reuse addr : Decision (taken socks fd reuse addr).
Proof. unfold taken. apply _. Defined.

(** A change of one open socket. *)
Definition toy_update (w : gmap Z UdpSock) (fd : Z) (f : UdpSock -> UdpSock) : gmap Z UdpSock * result Z unit :=
  match w !! fd with
  | Some s => (<[fd := f s]> w, Ok tt)
  | None => (w, Err 9)
  end.

(** A system that gives out no ports of its own. *)
#[local] Instance toy_udp : UdpApi (gmap Z UdpSock) := {|
  api_socket w := (<[fresh (dom w) := mkUdpSock None None false false]> w, Ok (fresh (dom w)));
  api_set_recv_buffer_size w fd bytes :=
    toy_update w fd (fun s => mkUdpSock (us_addr s) (Some bytes) (us_nonblocking s) (us_reuse_address s));
  api_bind w fd addr :=
    match w !! fd with
    | Some s =>
        if decide (sa_port addr = 0 \/ taken w fd (us_reuse_address s) addr) then (w, Err AddrInUse)
        else toy_update w fd (fun s => mkUdpSock (Some addr) (us_recv_buffer s) (us_nonblocking s) (us_reuse_address s))
    | None => (w, Err 9)
    end;
  api_set_nonblocking w fd b :=
    toy_update w fd (fun s => mkUdpSock (us_addr s) (us_recv_buffer s) b (us_reuse_address s));
  api_from_std w fd := (w, Ok tt);
  api_close w fd := delete fd w
|}.

#[local] Instance toy_udp_laws : UdpLaws (gmap Z UdpSock).
Proof.
  refine {| api_socks := fun w => w |}; try done.
  - intros w. cbn. split; [|done]. apply not_elem_of_dom, is_fresh.
  - intros w fd bytes s Hs. cbn. unfold toy_update. by rewrite Hs.
  - intros w fd addr s Hs. cbn. unfold toy_update. rewrite Hs. case_decide; [done|]. exists addr. naive_solver.
  - intros w fd addr s Hs _ Ht _. cbn. rewrite Hs. rewrite decide_True; [done|by right].
  - intros w fd b s Hs. cbn. unfold toy_update. by rewrite Hs.
Defined.

(** The second socket on an address is refused and closed again. *)
Lemma bind_udp_is_exclusive_witness :
  let addr := mkSocketAddrV4 [127; 0; 0; 1] 9000 in
  let w := fst (bind_udp addr (Some 65536) (empty : gmap Z UdpSock)) in
  us_addr <$> (map_to_list w).*2 = [Some addr] /\ snd (bind_udp addr None w) = Err AddrInUse /\
  fst (bind_udp addr None w) = w.
Proof.
  cbv zeta. set (w := fst _). split; [vm_compute; reflexivity|]. split; [vm_compute; reflexivity|].
  pose proof (bind_udp_is_exclusive (mkSocketAddrV4 [127; 0; 0; 1] 9000) None w _ _ (surjective_pairing _)) as H.
  assert (E : snd (bind_udp (mkSocketAddrV4 [127; 0; 0; 1] 9000) None w) = Err AddrInUse) by (vm_compute; reflexivity).
  rewrite E in H. exact H.
Defined.

End BindWitness.

(** the generators end and their results are ones the peer accepts: as
    soon as one of the next digests has a nonzero 31-bit part, the socket id
    is drawn, nonzero and with a clear top bit, and so is an initial
    sequence number below [0x7FFFFFFF], as the handshake requires. *)
Theorem random_ids_in_range `{KeyedHash} (fuel : nat) (counter : Z) :
  is_u64 counter -> usable_within 0x7FFFFFFF fuel counter ->
  (exists counter' id, random_socket_id fuel counter = Ret (counter', id) /\ 0 < id < 2 ^ 31) /\
  (exists counter' isn, random_isn fuel counter = Ret (counter', isn) /\ 0 <= isn < SeqNumber_MASK).
Proof.
  intros Hc Hu. split; [by apply random_socket_id_spec|]. destruct Hu as (k & Hk & Hne).
  destruct (random_u64_spec fuel counter k Hc Hk) as (j & _ & _ & Hr).
  { rewrite land_u31 in Hne. unfold as_u32. zify_divmod. }
  unfold random_isn. rewrite Hr. cbn [mbind panicking_bind]. eexists _, _. split; [done|].
  set (v := keyed_hash _). assert (0 <= v mod 0x7FFFFFFF < 0x7FFFFFFF) by (apply Z.mod_pos_bound; lia).
  rewrite SeqNumber_new_mod. unfold as_u32, SeqNumber_MASK. zify_divmod.
Qed.

(** A digest with only its top bit set is skipped. *)
Lemma random_ids_in_range_witness :
  exists (h : KeyedHash), @random_socket_id h 3 0 = Ret (2, 5) /\
    exists counter' isn, @random_isn h 3 0 = Ret (counter', isn) /\ 0 <= isn < SeqNumber_MASK.
Proof.
  exists (fun c => if c =? 0 then 0x80000000 else 4 + c). split; [reflexivity|].
  refine (proj2 (@random_ids_in_range (fun c => if c =? 0 then 0x80000000 else 4 + c) 3 0 _ _)).
  - split; [discriminate|reflexivity].
  - exists 1%nat. split; [lia|]. vm_compute. discriminate.
Defined.
