(* ===== verification/ListenerDriver.v ===== *)
(** * The listener's driver: [src/listener.rs]

    The task that owns the listening UDP socket: it routes datagrams to the
    accepted connections, answers handshakes and accepts callers.  What it
    does to the outside is its output, a list of effects: a datagram offered
    to a connection's channel, a packet sent, a connection driver spawned
    and handed to the accept queue.  What the runtime answers is its input:
    the time, the random ids, whether the accept queue has a free slot. *)

From S2P Require Import Prelude PacketTypes PacketData PacketHandshake PacketControl Time CryptoKeys CryptoContext Options Sender Receiver CoreHandshake Connection ConnectionLife Net.

(** ** Data *)

#[export] Program Instance SocketAddrV4_countable : Countable SocketAddrV4 :=
  inj_countable (fun a => (sa_ip a, sa_port a)) (fun '(ip, port) => Some (mkSocketAddrV4 ip port)) _.
Next Obligation. by intros []. Qed.

(** A channel is known by the number it was created with. *)
Record ConnEntry := mkConnEntry {
  ce_tx : nat;
  ce_peer : SocketAddrV4 * Z
}.

Record ListenerDriver := mkListenerDriver {
  ld_core : Listener;
  ld_timebase : Timebase;
  ld_opts : SrtOptions;
  ld_accept_open : bool;
  ld_conns : gmap Z ConnEntry;
  ld_by_peer : gmap (SocketAddrV4 * Z) Z;
  ld_channels : nat
}.

#[export] Instance ListenerDriver_eta : Etable ListenerDriver := fun d =>
  mkListenerDriver (ld_core d) (ld_timebase d) (ld_opts d) (ld_accept_open d) (ld_conns d) (ld_by_peer d)
    (ld_channels d).

Inductive listener_effect :=
| Forward (tx : nat) (datagram : bytes)
| SendTo (datagram : bytes) (to : SocketAddrV4)
| Spawn (rx : nat) (local_id : Z) (conn : Connection) (from : SocketAddrV4).

(** ** Operations *)

Section Operations.
Context `{CryptoPrimitives} `{CookieHash}.

(** [bind] up to the start of its driver: [lookup] and [bound] are the
    outcomes of the name lookup and of binding the socket, the latter with
    the local address; [secret] is drawn. *)
Definition SrtListener_bind (opts : SrtOptions) (lookup : result Z (list SocketAddr))
    (bound : result Z SocketAddr) (now secret : Z) : result SrtError (ListenerDriver * SocketAddrV4) :=
  match SrtOptions_crypto_config opts with
  | Err e => Err e
  | Ok _ =>
      match Bandwidth_validate (so_bandwidth opts) with
      | Err e => Err e
      | Ok _ =>
          match resolve_v4 lookup with
          | Err e => Err e
          | Ok _ =>
              match bound with
              | Err e => Err (Io e)
              | Ok (V6 _ _) => Err NoIpv4Address
              | Ok (V4 local_addr) =>
                  let timebase := mkTimebase now in
                  Ok (mkListenerDriver (Listener_new secret timebase opts) timebase opts true ∅ ∅ 0, local_addr)
              end
          end
      end
  end.

(** [accept]: the next entry of the queue, [None] once the driver is gone. *)
Definition SrtListener_accept {A : Type} (queue : option A) : result SrtError A :=
  match queue with
  | Some accepted => Ok accepted
  | None => Err (Closed CloseLocal)
  end.

(** [gen] lists the ids the generator yields; the loop ends at the first
    that is free. *)
Fixpoint ListenerDriver_unused_socket_id (d : ListenerDriver) (gen : list Z) : panicking Z :=
  match gen with
  | [] => Panic
  | id :: gen =>
      match ld_conns d !! id with
      | None => Ret id
      | Some _ => ListenerDriver_unused_socket_id d gen
      end
  end.

Definition ListenerDriver_reap (d : ListenerDriver) (id : Z) : ListenerDriver :=
  match ld_conns d !! id with
  | Some entry =>
      let d := d <| ld_conns := delete id (ld_conns d) |> in
      if decide (ld_by_peer d !! ce_peer entry = Some id)
      then d <| ld_by_peer := delete (ce_peer entry) (ld_by_peer d) |> else d
  | None => d
  end.

Definition ListenerDriver_rejection (d : ListenerDriver) (now : Z) (cif : HandshakeCif) (code : Z) : Packet :=
  let reply := cif <| hs_handshake_type := Rejection code |> <| hs_extensions := [] |> in
  Control (mkControlPacket (Timebase_timestamp (ld_timebase d) now) (hs_socket_id cif) (Handshake reply)).

(** Encodes into the emptied scratch buffer and sends. *)
Definition ListenerDriver_send_packet (packet : Packet) (to : SocketAddrV4) : listener_effect :=
  SendTo (Packet_encode packet []) to.

(** What the runtime answers while one datagram is handled. *)
Record listener_env := mkListenerEnv {
  le_now : Z;
  le_ids : list Z;
  le_slot_free : bool
}.

(** The [Accept] branch of [on_datagram]. *)
Definition ListenerDriver_accept (d : ListenerDriver) (from : SocketAddrV4) (hs_ts : Z) (cif : HandshakeCif)
    (env : listener_env) (reply : Packet) (negotiated : Negotiated) : ListenerDriver * list listener_effect :=
  let now := le_now env in
  if negb (le_slot_free env)
  then (d, [ListenerDriver_send_packet (ListenerDriver_rejection d now cif REJ_BACKLOG) from]) else
  let local_id := ng_local_socket_id negotiated in
  let peer_key := (from, ng_peer_socket_id negotiated) in
  let ch := ld_channels d in
  let conn := Connection_accepted now negotiated reply (ld_opts d) in
  let conn := Connection_set_hs_anchor conn now hs_ts in
  (d <| ld_conns := <[ local_id := mkConnEntry ch peer_key ]> (ld_conns d) |>
     <| ld_by_peer := <[ peer_key := local_id ]> (ld_by_peer d) |>
     <| ld_channels := S ch |>,
   [Spawn ch local_id conn from]).

(** A handshake from a peer that has no connection. *)
Definition ListenerDriver_on_handshake (d : ListenerDriver) (from : SocketAddrV4) (hs_ts : Z)
    (cif : HandshakeCif) (env : listener_env) : panicking (ListenerDriver * list listener_effect) :=
  if negb (ld_accept_open d) then
    Ret (d, if decide (hs_handshake_type cif = Conclusion)
            then [ListenerDriver_send_packet (ListenerDriver_rejection d (le_now env) cif REJ_CLOSE) from] else [])
  else
  new_id ← ListenerDriver_unused_socket_id d (le_ids env);
  action ← Listener_handle_handshake (ld_core d) (le_now env) from cif new_id;
  Ret match action with
      | Reply reply => (d, [ListenerDriver_send_packet reply from])
      | Drop => (d, [])
      | Accept reply negotiated => ListenerDriver_accept d from hs_ts cif env reply negotiated
      end.

(** The datagram's destination socket id. *)
Definition datagram_dst (datagram : bytes) : panicking Z := read_u32 datagram 12.

Definition ListenerDriver_on_datagram (d : ListenerDriver) (from : SocketAddrV4) (datagram : bytes)
    (env : listener_env) : panicking (ListenerDriver * list listener_effect) :=
  if (length datagram <? 16)%nat then Ret (d, []) else
  dst ← datagram_dst datagram;
  if negb (dst =? SocketId_HANDSHAKE) then
    Ret (d, match ld_conns d !! dst with
            | Some entry => if decide (fst (ce_peer entry) = from) then [Forward (ce_tx entry) datagram] else []
            | None => []
            end)
  else
  packet ← Packet_parse datagram;
  match packet with
  | Ok (Control cp) =>
      match cp_control_type cp with
      | Handshake cif =>
          match ld_by_peer d !! (from, hs_socket_id cif) with
          | Some local_id =>
              Ret (d, match ld_conns d !! local_id with
                      | Some entry => [Forward (ce_tx entry) datagram]
                      | None => []
                      end)
          | None => ListenerDriver_on_handshake d from (cp_timestamp cp) cif env
          end
      | _ => Ret (d, [])
      end
  | _ => Ret (d, [])
  end.

(** The branches of the loop of [run]. *)
Inductive listener_event :=
| LdDatagram (from : SocketAddr) (datagram : bytes) (env : listener_env)
| LdRecvError
| LdReap (id : Z)
| LdHandleDropped.

Definition ListenerDriver_select (d : ListenerDriver) (ev : listener_event)
    : panicking (ListenerDriver * list listener_effect) :=
  match ev with
  | LdDatagram (V4 from) datagram env => ListenerDriver_on_datagram d from datagram env
  | LdDatagram (V6 _ _) _ _ => Ret (d, [])
  | LdRecvError => Ret (d, [])
  | LdReap id => Ret (ListenerDriver_reap d id, [])
  | LdHandleDropped => Ret (if ld_accept_open d then d <| ld_accept_open := false |> else d, [])
  end.

Definition ListenerDriver_finished (d : ListenerDriver) : bool :=
  negb (ld_accept_open d) && bool_decide (ld_conns d = ∅).

(** The driver's task: [true] when it has returned. *)
Fixpoint ListenerDriver_run (d : ListenerDriver) (evs : list listener_event)
    : panicking (ListenerDriver * list listener_effect * bool) :=
  match evs with
  | [] => Ret (d, [], false)
  | ev :: evs =>
      '(d, out) ← ListenerDriver_select d ev;
      if ListenerDriver_finished d then Ret (d, out, true) else
      '(d, outs, fin) ← ListenerDriver_run d evs;
      Ret (d, out ++ outs, fin)
  end.

End Operations.

(** ** Invariant *)

(** The two tables are inverse to each other, the keys name the source
    address, and no two connections share a channel. *)
Definition routing_ok (d : ListenerDriver) : Prop :=
  (forall id e, ld_conns d !! id = Some e -> ld_by_peer d !! ce_peer e = Some id /\ (ce_tx e < ld_channels d)%nat) /\
  (forall key id, ld_by_peer d !! key = Some id -> exists e, ld_conns d !! id = Some e /\ ce_peer e = key) /\
  (forall id id' e e', ld_conns d !! id = Some e -> ld_conns d !! id' = Some e' -> ce_tx e = ce_tx e' -> id = id').

(** The ids the generator yields include a free one. *)
Definition ids_suffice (d : ListenerDriver) (env : listener_env) : Prop :=
  exists id, id ∈ le_ids env /\ ld_conns d !! id = None.

(** ** Lemmas *)

Ltac ld := cbn [set_field ld_core ld_timebase ld_opts ld_accept_open ld_conns ld_by_peer ld_channels ce_tx ce_peer] in *.

Lemma unused_socket_id_ok d gen :
  (exists id, id ∈ gen /\ ld_conns d !! id = None) ->
  exists id, ListenerDriver_unused_socket_id d gen = Ret id /\ id ∈ gen /\ ld_conns d !! id = None.
Proof.
  induction gen as [|x gen IH]; intros (id & Hin & Hfree); [by apply not_elem_of_nil in Hin|].
  cbn [ListenerDriver_unused_socket_id]. destruct (ld_conns d !! x) eqn:Hx.
  - destruct IH as (id' & Hr & Hin' & Hf).
    { exists id. split; [|done]. apply elem_of_cons in Hin as [->|Hin]; [congruence|done]. }
    exists id'. split; [done|]. split; [by right|done].
  - exists x. split; [done|]. split; [by left|done].
Qed.

Lemma reap_ok d id : routing_ok d -> routing_ok (ListenerDriver_reap d id).
Proof.
  intros (Hfwd & Hbwd & Hinj). unfold ListenerDriver_reap. destruct (ld_conns d !! id) as [e|] eqn:He; [|done].
  destruct (Hfwd id e He) as [Hp _]. ld. rewrite decide_True by done. unfold routing_ok. ld. split_and!.
  - intros id' e' Hid. apply lookup_delete_Some in Hid as [Hne Hid]. destruct (Hfwd _ _ Hid) as [Hp' ?].
    split; [|done]. apply lookup_delete_Some. split; [|done]. intros Hk. rewrite Hk, Hp' in Hp. congruence.
  - intros key id' Hk. apply lookup_delete_Some in Hk as [Hne Hk]. destruct (Hbwd _ _ Hk) as (e' & Hid & Hpe).
    exists e'. split; [|done]. apply lookup_delete_Some. split; [|done]. intros ->. congruence.
  - intros i i' a a' Ha Ha'. apply lookup_delete_Some in Ha as [_ Ha]. apply lookup_delete_Some in Ha' as [_ Ha'].
    by apply (Hinj i i' a a').
Qed.

(** What [on_handshake] may do. *)
Inductive handshake_outcome `{CryptoPrimitives} `{CookieHash} (d : ListenerDriver) (from : SocketAddrV4) (hs_ts : Z)
    (cif : HandshakeCif) (env : listener_env) : ListenerDriver -> list listener_effect -> Prop :=
| HsSilent : handshake_outcome d from hs_ts cif env d []
| HsReply p : handshake_outcome d from hs_ts cif env d [ListenerDriver_send_packet p from]
| HsAccept id reply ng :
    ld_accept_open d = true -> le_slot_free env = true -> id ∈ le_ids env -> ld_conns d !! id = None ->
    Listener_handle_handshake (ld_core d) (le_now env) from cif id = Ret (Accept reply ng) ->
    ng_local_socket_id ng = id -> ng_peer_socket_id ng = hs_socket_id cif ->
    handshake_outcome d from hs_ts cif env
      (d <| ld_conns := <[ id := mkConnEntry (ld_channels d) (from, hs_socket_id cif) ]> (ld_conns d) |>
         <| ld_by_peer := <[ (from, hs_socket_id cif) := id ]> (ld_by_peer d) |>
         <| ld_channels := S (ld_channels d) |>)
      [Spawn (ld_channels d) id
         (Connection_set_hs_anchor (Connection_accepted (le_now env) ng reply (ld_opts d)) (le_now env) hs_ts) from].

Lemma accept_ids `{CryptoLaws} `{CookieHash} l now from cif id reply ng :
  Listener_handle_handshake l now from cif id = Ret (Accept reply ng) ->
  ng_local_socket_id ng = id /\ ng_peer_socket_id ng = hs_socket_id cif.
Proof.
  unfold Listener_handle_handshake. destruct (hs_handshake_type cif); try done.
  unfold Listener_on_conclusion. repeat (case_if; [done|]).
  destruct (HandshakeCif_hs_ext cif) as [hs|]; [|done]. cbn [expect mbind panicking_bind].
  repeat (case_if; [done|]). destruct (blocks_rejection _); [done|].
  destruct (ls_crypto_cfg l) as [cfg|]; [|done].
  destruct (Listener_kmx cfg (find_km_req cif)) as [[[e km_rsp]|]|]; [|done..]. cbn [mbind panicking_bind].
  destruct (accept_fields l now from cif id hs e km_rsp) as [r ->]. by intros [= _ <-].
Qed.

Lemma unused_socket_id_free d gen id :
  ListenerDriver_unused_socket_id d gen = Ret id -> id ∈ gen /\ ld_conns d !! id = None.
Proof.
  induction gen as [|x gen IH]; [done|]. cbn [ListenerDriver_unused_socket_id].
  destruct (ld_conns d !! x) eqn:Hx; [|by intros [= <-]; split; [left|]].
  intros Hr. destruct (IH Hr). by split; [right|].
Qed.

Lemma on_handshake_outcome `{CryptoLaws} `{CookieHash} d from hs_ts cif env d' out :
  ListenerDriver_on_handshake d from hs_ts cif env = Ret (d', out) ->
  handshake_outcome d from hs_ts cif env d' out.
Proof.
  unfold ListenerDriver_on_handshake. destruct (ld_accept_open d) eqn:Hopen; cbn [negb].
  2: { intros [= <- <-]. case_decide; constructor. }
  destruct (ListenerDriver_unused_socket_id d (le_ids env)) as [id|] eqn:Hid; [|done]. cbn [mbind panicking_bind].
  destruct (unused_socket_id_free _ _ _ Hid) as [Hin Hfree].
  destruct (Listener_handle_handshake _ _ _ _ _) as [a|] eqn:Hh; [|done]. cbn [mbind panicking_bind].
  destruct a as [reply|reply ng|]; [by intros [= <- <-]; constructor| |by intros [= <- <-]; constructor].
  destruct (accept_ids _ _ _ _ _ _ _ Hh) as [Hl Hp]. unfold ListenerDriver_accept. rewrite Hl, Hp.
  destruct (le_slot_free env) eqn:Hslot; cbn [negb]; intros [= <- <-]; [|constructor].
  by apply (HsAccept d from hs_ts cif env id reply ng).
Qed.

Lemma on_handshake_returns `{CryptoLaws} `{CookieHash} d from hs_ts cif env :
  ids_suffice d env -> returns (ListenerDriver_on_handshake d from hs_ts cif env).
Proof.
  intros Hids. unfold ListenerDriver_on_handshake. destruct (ld_accept_open d); cbn [negb]; [|by eexists].
  destruct (unused_socket_id_ok d (le_ids env) Hids) as (id & -> & _). cbn [mbind panicking_bind].
  unfold Listener_handle_handshake. destruct (hs_handshake_type cif); try (by eexists).
  destruct (on_conclusion_cases (ld_core d) (le_now env) from cif id) as (a & -> & _). by eexists.
Qed.

(** An accepted caller had no connection under its key. *)
Lemma outcome_ok `{CryptoPrimitives} `{CookieHash} d from hs_ts cif env d' out :
  routing_ok d -> ld_by_peer d !! (from, hs_socket_id cif) = None ->
  handshake_outcome d from hs_ts cif env d' out -> routing_ok d' /\ ld_conns d ⊆ ld_conns d'.
Proof.
  intros Hok Hnone Hout. destruct Hout as [| |id reply ng _ _ _ Hfree]; [by split|by split|].
  destruct Hok as (Hfwd & Hbwd & Hinj). unfold routing_ok. ld. split; [split_and!|by apply insert_subseteq].
  - intros i e. destruct (decide (i = id)) as [->|Hne].
    + rewrite lookup_insert_eq. intros [= <-]. ld. rewrite lookup_insert_eq. split; [done|lia].
    + rewrite lookup_insert_ne by done. intros He. destruct (Hfwd _ _ He) as [Hp ?]. split; [|lia].
      rewrite lookup_insert_ne; [done|]. congruence.
  - intros key i. destruct (decide (key = (from, hs_socket_id cif))) as [->|Hne].
    + rewrite lookup_insert_eq. intros [= <-]. rewrite lookup_insert_eq. by eexists.
    + rewrite lookup_insert_ne by done. intros Hk. destruct (Hbwd _ _ Hk) as (e & He & <-). exists e.
      rewrite lookup_insert_ne; [done|]. congruence.
  - intros i i' e e' He He' E. apply lookup_insert_Some in He, He'.
    destruct He as [[<- <-]|[Hi He]], He' as [[<- <-]|[Hi' He']]; ld; try done.
    + destruct (Hfwd _ _ He'). lia.
    + destruct (Hfwd _ _ He). lia.
    + by apply (Hinj _ _ _ _ He He').
Qed.

(** Everything [on_datagram] may do. *)
Inductive datagram_outcome `{CryptoPrimitives} `{CookieHash} (d : ListenerDriver) (from : SocketAddrV4)
    (dg : bytes) (env : listener_env) : ListenerDriver -> list listener_effect -> Prop :=
| DgDropped : datagram_outcome d from dg env d []
| DgRouted dst e :
    datagram_dst dg = Ret dst -> dst <> SocketId_HANDSHAKE ->
    ld_conns d !! dst = Some e -> fst (ce_peer e) = from ->
    datagram_outcome d from dg env d [Forward (ce_tx e) dg]
| DgRepeated id e ctrl cif :
    datagram_dst dg = Ret SocketId_HANDSHAKE -> Packet_parse dg = pok (Control ctrl) ->
    cp_control_type ctrl = Handshake cif -> ld_conns d !! id = Some e -> ce_peer e = (from, hs_socket_id cif) ->
    datagram_outcome d from dg env d [Forward (ce_tx e) dg]
| DgHandshake ctrl cif d' out :
    datagram_dst dg = Ret SocketId_HANDSHAKE -> Packet_parse dg = pok (Control ctrl) ->
    cp_control_type ctrl = Handshake cif -> ld_by_peer d !! (from, hs_socket_id cif) = None ->
    handshake_outcome d from (cp_timestamp ctrl) cif env d' out ->
    datagram_outcome d from dg env d' out.

Lemma on_datagram_outcome `{CryptoLaws} `{CookieHash} d from dg env d' out :
  routing_ok d -> ListenerDriver_on_datagram d from dg env = Ret (d', out) ->
  datagram_outcome d from dg env d' out.
Proof.
  intros (Hfwd & Hbwd & _). unfold ListenerDriver_on_datagram. destruct (length dg <? 16)%nat; [intros [= <- <-]; constructor|].
  destruct (datagram_dst dg) as [dst|] eqn:Hdst; [|done]. cbn [mbind panicking_bind].
  destruct (Z.eqb_spec dst SocketId_HANDSHAKE) as [->|Hne]; cbn [negb].
  2: { intros [= <- <-]. destruct (ld_conns d !! dst) as [e|] eqn:He; [|constructor].
       case_decide; [|constructor]. by apply (DgRouted d from dg env dst e). }
  destruct (Packet_parse dg) as [[[data|ctrl]|err]|] eqn:Hp; cbn [mbind panicking_bind];
    try (intros [= <- <-]; constructor); try done.
  destruct (cp_control_type ctrl) as [cif| | | | | | | | | |] eqn:Hct; try (intros [= <- <-]; constructor).
  destruct (ld_by_peer d !! (from, hs_socket_id cif)) as [id|] eqn:Hb.
  - destruct (Hbwd _ _ Hb) as (e & He & Hpe). rewrite He. intros [= <- <-].
    by apply (DgRepeated d from dg env id e ctrl cif).
  - intros Hh. apply (DgHandshake d from dg env ctrl cif); try done. by apply on_handshake_outcome.
Qed.

Lemma datagram_dst_returns dg : (16 <= length dg)%nat -> exists dst, datagram_dst dg = Ret dst.
Proof. intros Hl. unfold datagram_dst. rewrite read_u32_ret by lia. by eexists. Qed.

(** ** Lemmas: runs *)

(** An event that leaves the driver able to draw a free id while it has
    fewer than [n] connections. *)
Definition listener_event_ok (n : nat) (ev : listener_event) : Prop :=
  match ev with
  | LdDatagram _ _ env => NoDup (le_ids env) /\ (n <= length (le_ids env))%nat
  | _ => True
  end.

Lemma free_id {A} (m : gmap Z A) (ids : list Z) :
  NoDup ids -> (size m < length ids)%nat -> exists id, id ∈ ids /\ m !! id = None.
Proof.
  intros Hnd Hlt. destruct (decide (Exists (fun id => m !! id = None) ids)) as [He|He].
  { apply Exists_exists in He as (id & ? & ?). by exists id. }
  exfalso. assert (Hsub : (list_to_set ids : gset Z) ⊆ dom m).
  { intros id Hid. apply elem_of_list_to_set in Hid. apply elem_of_dom. apply not_eq_None_Some. intros Hn.
    apply He, Exists_exists. by exists id. }
  apply subseteq_size in Hsub. rewrite size_list_to_set, size_dom in Hsub by done. lia.
Qed.

Lemma accept_size `{CryptoPrimitives} `{CookieHash} d from hs_ts cif env d' out :
  handshake_outcome d from hs_ts cif env d' out -> (size (ld_conns d') <= S (size (ld_conns d)))%nat.
Proof.
  intros Hout. destruct Hout as [| |id reply ng _ _ _ Hfree]; [lia..|]. ld.
  rewrite map_size_insert_None by done. lia.
Qed.

Section RunLemmas.
Context `{CryptoLaws} `{CookieHash}.

Lemma on_datagram_returns d from dg env :
  ids_suffice d env -> returns (ListenerDriver_on_datagram d from dg env).
Proof.
  intros Hids. unfold ListenerDriver_on_datagram. destruct (Nat.ltb_spec (length dg) 16); [by eexists|].
  destruct (datagram_dst_returns dg) as [dst ->]; [lia|]. cbn [mbind panicking_bind].
  destruct (negb _); [by eexists|]. destruct (Packet_parse_returns dg) as [p ->]. cbn [mbind panicking_bind].
  destruct p as [[data|ctrl]|err]; [by eexists| |by eexists].
  destruct (cp_control_type ctrl); try (by eexists). destruct (ld_by_peer d !! _); [by eexists|].
  by apply on_handshake_returns.
Qed.

(** The connections the driver routes to were spawned in [hist]. *)
Definition spawned (hist : list listener_effect) (d : ListenerDriver) : Prop :=
  forall id e, ld_conns d !! id = Some e ->
  exists c, Spawn (ce_tx e) id c (fst (ce_peer e)) ∈ hist.

(** One event: nothing panics, the tables stay consistent, and a forwarded
    datagram goes to a connection spawned before. *)
Lemma select_ok d ev n hist :
  routing_ok d -> spawned hist d -> listener_event_ok n ev -> (size (ld_conns d) < n)%nat ->
  exists d' out, ListenerDriver_select d ev = Ret (d', out) /\ routing_ok d' /\ spawned (hist ++ out) d' /\
    (size (ld_conns d') <= S (size (ld_conns d)))%nat /\
    (forall pre tx dg post, out = pre ++ Forward tx dg :: post -> exists id c from, Spawn tx id c from ∈ hist).
Proof.
  intros Hok Hsp Hev Hn.
  assert (Hnil : forall (pre : list listener_effect) tx dg post, [] = pre ++ Forward tx dg :: post ->
    exists id c from, Spawn tx id c from ∈ hist) by (by intros []).
  assert (Hsame : forall out, spawned (hist ++ out) d).
  { intros out id e He. destruct (Hsp id e He) as [c Hc]. exists c. apply elem_of_app. by left. }
  destruct ev as [from dg env| |id|]; cbn [ListenerDriver_select].
  - destruct from as [from|ip port]; [|by eexists _, _; eauto 10]. destruct Hev as [Hnd Hlen].
    destruct (on_datagram_returns d from dg env) as [[d' out] Hd]. { apply free_id; [done|lia]. }
    exists d', out. split; [done|]. apply on_datagram_outcome in Hd; [|done].
    assert (Hone : forall e tx dg' (pre post : list listener_effect) id, ld_conns d !! id = Some e ->
      [Forward (ce_tx e) dg] = pre ++ Forward tx dg' :: post -> exists id c from, Spawn tx id c from ∈ hist).
    { intros e tx dg' [|x pre] post id He E; [|by destruct pre]. injection E as <- _ _.
      destruct (Hsp id e He) as [c ?]. by eexists _, _, _. }
    destruct Hd as [|dst e _ _ He _|id e ctrl cif _ _ _ He _|ctrl cif d' out _ _ _ Hnone Hout];
      [by split_and!; eauto|split_and!; eauto..|].
    destruct (outcome_ok _ _ _ _ _ _ _ Hok Hnone Hout) as [Hok' Hsub]. pose proof (accept_size _ _ _ _ _ _ _ Hout).
    split; [done|]. split; [|split; [done|]].
    + destruct Hout as [| |id reply ng _ _ _ Hfree]; [by apply Hsame..|]. intros i e. ld.
      destruct (decide (i = id)) as [->|Hne].
      * rewrite lookup_insert_eq. intros [= <-]. ld. eexists. apply elem_of_app. right. by left.
      * rewrite lookup_insert_ne by done. apply Hsame.
    + intros [|x pre] tx dg' post E; destruct Hout; try done; by destruct pre.
  - by eexists _, _; eauto 10.
  - eexists _, _. split; [done|]. split; [by apply reap_ok|]. unfold ListenerDriver_reap.
    destruct (ld_conns d !! id) as [e|] eqn:He; [|by eauto 10]. ld. rewrite app_nil_r.
    assert (Hdel : forall d', ld_conns d' = delete id (ld_conns d) -> spawned hist d' /\
      (size (ld_conns d') <= S (size (ld_conns d)))%nat).
    { intros d' E. split; [|rewrite E, map_size_delete, He; lia]. intros i e' He'. rewrite E in He'.
      apply lookup_delete_Some in He' as [_ He']. by apply Hsp. }
    case_decide; (split; [by apply Hdel|]); (split; [by apply Hdel|]); done.
  - eexists _, _. split; [done|]. rewrite app_nil_r. destruct (ld_accept_open d); by eauto 10.
Qed.

End RunLemmas.

Lemma run_ok `{CryptoLaws} `{CookieHash} evs : forall d n hist,
  routing_ok d -> spawned hist d -> ListenerDriver_finished d = false -> Forall (listener_event_ok n) evs ->
  (size (ld_conns d) + length evs <= n)%nat ->
  exists d' outs fin, ListenerDriver_run d evs = Ret (d', outs, fin) /\ fin = ListenerDriver_finished d' /\
    routing_ok d' /\ spawned (hist ++ outs) d' /\
    (forall pre tx dg post, outs = pre ++ Forward tx dg :: post ->
     exists id c from, Spawn tx id c from ∈ hist ++ pre).
Proof.
  induction evs as [|ev evs IH]; intros d n hist Hok Hsp Hfin Hevs Hn; cbn [ListenerDriver_run].
  { exists d, [], false. rewrite app_nil_r. split_and!; try done. by intros []. }
  apply Forall_cons in Hevs as [Hev Hevs]. cbn [length] in Hn.
  destruct (select_ok d ev n hist Hok Hsp Hev) as (d1 & out & -> & Hok1 & Hsp1 & Hsz & Hout); [lia|].
  cbn [mbind panicking_bind].
  assert (Hfst : forall pre tx dg post, out = pre ++ Forward tx dg :: post ->
    exists id c from, Spawn tx id c from ∈ hist ++ pre).
  { intros pre tx dg post E. destruct (Hout _ _ _ _ E) as (id & c & from & ?). exists id, c, from.
    apply elem_of_app. by left. }
  destruct (ListenerDriver_finished d1) eqn:Hf1; [by exists d1, out, true|].
  destruct (IH d1 n (hist ++ out) Hok1 Hsp1 Hf1 Hevs) as (d2 & outs & fin & -> & Hfin2 & Hok2 & Hsp2 & Houts); [lia|].
  cbn [mbind panicking_bind]. exists d2, (out ++ outs), fin. rewrite app_assoc. split_and!; try done.
  intros pre tx dg post E. apply app_eq_inv in E as [(k & E1 & E2)|(k & E1 & E2)].
  - destruct k as [|x k]; cbn [app] in E2.
    + rewrite app_nil_r in E1. subst pre. destruct (Houts [] tx dg post (eq_sym E2)) as (id & c & from & Hin).
      rewrite app_nil_r in Hin. by exists id, c, from.
    + injection E2 as <- E2. by apply (Hfst pre tx dg k).
  - destruct (Houts k tx dg post E2) as (id & c & from & Hin). exists id, c, from. by rewrite E1, app_assoc.
Qed.

Lemma accepted_wf `{CryptoLaws} `{CookieHash} o l t from cif id reply ng now ts :
  Options_wf o -> SeqNumber_wf (hs_initial_seq cif) ->
  Listener_handle_handshake l t from cif id = Ret (Accept reply ng) ->
  Connection_wf o (Connection_set_hs_anchor (Connection_accepted now ng reply o) now ts).
Proof.
  intros Ho Hseq Ha.
  destruct (conn_step_ok o (Connection_accepted now ng reply o) (EvAnchor now ts)) as (c' & out & Hstep & Hwf);
    [|done|by injection Hstep as <- _].
  apply conn_start_wf; [done|]. by apply (StartAccepted o l t from cif id reply ng now (mkTimebase now)).
Qed.

(** ** Properties *)

(** C13: the task of a listener runs through every sequence of datagrams,
    socket errors, connection ends and the drop of its handle without a
    panic, and returns exactly when the handle is gone and no connection is
    left.  Its two routing tables stay inverse to each other with one
    channel per connection, and every datagram it forwards goes into the
    channel of a connection it spawned before. *)
Theorem listener_task_is_sound `{CryptoLaws} `{CookieHash} (opts : SrtOptions) (lookup : result Z (list SocketAddr))
    (bound : result Z SocketAddr) (now secret : Z) (d : ListenerDriver) (addr : SocketAddrV4)
    (evs : list listener_event) :
  SrtListener_bind opts lookup bound now secret = Ok (d, addr) ->
  Forall (listener_event_ok (length evs)) evs ->
  exists d' outs fin, ListenerDriver_run d evs = Ret (d', outs, fin) /\
    (fin = true <-> ld_accept_open d' = false /\ ld_conns d' = ∅) /\ routing_ok d' /\
    (forall pre tx dg post, outs = pre ++ Forward tx dg :: post -> exists id c from, Spawn tx id c from ∈ pre).
Proof.
  unfold SrtListener_bind. destruct (SrtOptions_crypto_config opts); [|done].
  destruct (Bandwidth_validate _); [|done]. destruct (resolve_v4 lookup); [|done].
  destruct bound as [[local|ip port]|]; try done. intros [= <- _] Hevs.
  edestruct (run_ok evs (mkListenerDriver (Listener_new secret (mkTimebase now) opts) (mkTimebase now) opts true ∅ ∅ 0)
    (length evs) []) as (d' & outs & fin & Hr & -> & Hok & _ & Hout); try done.
  exists d', outs, (ListenerDriver_finished d'). split_and!; try done.
  unfold ListenerDriver_finished. destruct (ld_accept_open d'); cbn [negb andb]; [naive_solver|].
  rewrite bool_decide_eq_true. naive_solver.
Qed.

(** C25: a datagram reaches a connection exactly if it comes from the
    connection's peer address and either names the connection's socket id
    or is a handshake, to id 0, of the peer's socket id. *)
Theorem listener_routes_to_the_owner `{CryptoLaws} `{CookieHash} (d d' : ListenerDriver) (from : SocketAddrV4)
    (dg : bytes) (env : listener_env) (out : list listener_effect) (id : Z) (e : ConnEntry) :
  routing_ok d -> ld_conns d !! id = Some e -> id <> SocketId_HANDSHAKE -> (16 <= length dg)%nat ->
  ListenerDriver_on_datagram d from dg env = Ret (d', out) ->
  Forward (ce_tx e) dg ∈ out <->
  fst (ce_peer e) = from /\
  (datagram_dst dg = Ret id \/
   datagram_dst dg = Ret SocketId_HANDSHAKE /\ exists ctrl cif, Packet_parse dg = pok (Control ctrl) /\
     cp_control_type ctrl = Handshake cif /\ snd (ce_peer e) = hs_socket_id cif).
Proof.
  intros Hok He Hid Hlen Hd. split.
  - intros Hin. pose proof Hok as (_ & _ & Hinj). apply on_datagram_outcome in Hd; [|done].
    destruct Hd as [|dst e' Hdst _ He' Hf|id' e' ctrl cif Hdst Hp Hct He' Hpe|ctrl cif d' out _ _ _ _ Hout].
    + by apply not_elem_of_nil in Hin.
    + apply list_elem_of_singleton in Hin. injection Hin as E. rewrite (Hinj _ _ _ _ He He' E) in He |- *.
      rewrite He in He'. injection He' as <-. by split; [|left].
    + apply list_elem_of_singleton in Hin. injection Hin as E. rewrite (Hinj _ _ _ _ He He' E) in He.
      rewrite He in He'. injection He' as <-. rewrite Hpe. split; [done|]. right. split; [done|]. by exists ctrl, cif.
    + destruct Hout; [by apply not_elem_of_nil in Hin|apply list_elem_of_singleton in Hin; done..].
  - intros [Hf Hcase]. pose proof Hok as (Hfwd & _). revert Hd. unfold ListenerDriver_on_datagram.
    destruct (Nat.ltb_spec (length dg) 16); [lia|]. destruct Hcase as [->|[-> (ctrl & cif & Hp & Hct & Hs)]];
      cbn [mbind panicking_bind].
    + destruct (Z.eqb_spec id SocketId_HANDSHAKE); [done|]. cbn [negb]. rewrite He, decide_True by done.
      intros [= _ <-]. by apply list_elem_of_singleton.
    + cbn. rewrite Hp. cbn. rewrite Hct, <- Hf, <- Hs, <- surjective_pairing.
      rewrite (proj1 (Hfwd id e He)), He. intros [= _ <-]. by apply list_elem_of_singleton.
Qed.


(** ** Witnesses *)

Section Witnesses.
#[local] Existing Instance toy_primitives.
#[local] Existing Instance toy_laws.
#[local] Existing Instance toy_cookie.

Definition demo_peer : SocketAddrV4 := mkSocketAddrV4 [10; 0; 0; 2] 5000.

Definition demo_driver : ListenerDriver :=
  match SrtListener_bind SrtOptions_default (Ok [V4 demo_addr]) (Ok (V4 demo_addr)) 0 99 with
  | Ok (d, _) => d
  | Err _ => mkListenerDriver (Listener_new 0 (mkTimebase 0) SrtOptions_default) (mkTimebase 0) SrtOptions_default
               false ∅ ∅ 0
  end.

Definition demo_request : bytes := Packet_encode (Control (mkControlPacket 5 0 (Handshake demo_conclusion))) [].

Definition demo_env : listener_env := mkListenerEnv 0 [8; 9; 10; 11; 12; 13] true.

(** The driver after it accepted [demo_request]. *)
Definition demo_routing : ListenerDriver :=
  match ListenerDriver_on_datagram demo_driver demo_peer demo_request demo_env with
  | Ret (d, _) => d
  | Panic => demo_driver
  end.

Lemma demo_routing_ok : routing_ok demo_routing.
Proof.
  unfold demo_routing.
  destruct (ListenerDriver_on_datagram demo_driver demo_peer demo_request demo_env) as [[d' out]|] eqn:Hd; [|done].
  assert (Hok : routing_ok demo_driver) by (split_and!; done).
  apply on_datagram_outcome in Hd; [|done].
  destruct Hd as [| | |ctrl cif d' out _ _ _ Hnone Hout]; try done. by eapply outcome_ok.
Qed.

(** Accept a caller, forward its repeated handshake and a data packet, drop
    the handle, refuse another caller, and return when the connection ends. *)
Lemma listener_task_is_sound_witness :
  let data := LdDatagram (V4 demo_peer) (replicate 12 0 ++ [0; 0; 0; 8; 1; 2]) demo_env in
  let hs := LdDatagram (V4 demo_peer) demo_request demo_env in
  let evs := [hs; hs; data; LdHandleDropped; LdRecvError; LdReap 8] in
  exists d' outs, ListenerDriver_run demo_driver evs = Ret (d', outs, true) /\ length outs = 3%nat /\ routing_ok d'.
Proof.
  intros data hs evs.
  destruct (listener_task_is_sound SrtOptions_default (Ok [V4 demo_addr]) (Ok (V4 demo_addr)) 0 99 demo_driver
    demo_addr evs) as (d' & outs & fin & Hr & _ & Hok & _).
  - reflexivity.
  - repeat constructor; try (cbn; lia); set_solver.
  - exists d', outs. split; [rewrite Hr; do 2 f_equal|split; [|exact Hok]]; clear Hok; revert Hr;
      vm_compute; by intros [= _ <- <-].
Defined.

Lemma listener_routes_to_the_owner_witness :
  Forward 0 demo_request ∈ match ListenerDriver_on_datagram demo_routing demo_peer demo_request demo_env with
                           | Ret (_, out) => out
                           | Panic => []
                           end.
Proof.
  destruct (ListenerDriver_on_datagram demo_routing demo_peer demo_request demo_env) as [[d' out]|] eqn:Hd;
    [|by vm_compute in Hd].
  apply (listener_routes_to_the_owner demo_routing d' demo_peer demo_request demo_env out 8
    (mkConnEntry 0 (demo_peer, 7))); try exact Hd.
  - apply demo_routing_ok.
  - reflexivity.
  - done.
  - vm_compute. lia.
  - split; [reflexivity|]. right. split; [reflexivity|]. eexists _, _. split; [reflexivity|]. by split.
Defined.


End Witnesses.
