(* ===== verification/SocketDriver.v ===== *)
(** * The socket and its driver: [src/socket.rs]

    The task that owns a [Connection] and the handle the application holds.
    The driver's outside is explicit: a turn of its loop takes the clock
    readings and the kernel's answers to its sends, and yields the datagrams
    sent, the payloads handed to the application and the signal to a waiting
    [connect]; the branch [select!] takes is the next event.  The cells
    driver and handle share are one record. *)

From S2P Require Import Prelude PacketTypes PacketData PacketHandshake PacketControl Time CryptoKeys CryptoContext Cipher Options Sender Receiver ReceiverTotal CoreHandshake Connection ConnectionLife ConnectionTrace Net.

(** ** Data *)

Definition RECV_BUF : nat := Z.to_nat 65536.

Definition CLOSE_DRAIN_HORIZON : Z := from_secs 70.

Inductive Cmd :=
| CmdSend (payload : bytes)
| CmdClose.

(** The sockets and channels themselves are the environment's. *)
Inductive DriverIo :=
| Connected
| Demux (remote : SocketAddrV4).

Inductive RecvEvent :=
| Buffered (len : nat)
| Owned (datagram : bytes)
| RecvError
| RecvClosed.

Inductive SendOutcome := Sent | IoError | Short.

Record OutputStats := mkOutputStats { os_udp_send_errors : Z; os_udp_short_sends : Z }.

Definition OutputStats_default : OutputStats := mkOutputStats 0 0.

(** What driver and handle share. *)
Record Shared := mkShared {
  sh_stats : Stats;
  sh_close_reason : option CloseReason;
  sh_max_payload : Z
}.

#[export] Instance Shared_eta : Etable Shared := fun s =>
  mkShared (sh_stats s) (sh_close_reason s) (sh_max_payload s).

(** The driver's local state; [dv_established_tx] tells whether the sender
    of the signal is still held. *)
Record Driver := mkDriver {
  dv_conn : Connection;
  dv_io : DriverIo;
  dv_buf : bytes;
  dv_output_stats : OutputStats;
  dv_cmd_open : bool;
  dv_announced : bool;
  dv_established_tx : bool;
  dv_shared : Shared
}.

#[export] Instance Driver_eta : Etable Driver := fun d =>
  mkDriver (dv_conn d) (dv_io d) (dv_buf d) (dv_output_stats d) (dv_cmd_open d) (dv_announced d)
    (dv_established_tx d) (dv_shared d).

(** [UdpSend] is a datagram given to the kernel, to the connected peer or to
    an address. *)
Inductive driver_effect :=
| UdpSend (datagram : bytes) (to : option SocketAddrV4)
| Deliver (payload : bytes)
| Signal (r : result SrtError unit).

(** ** Sending and receiving *)

Definition OutputStats_record (s : OutputStats) (outcome : SendOutcome) : OutputStats :=
  match outcome with
  | Sent => s
  | IoError => mkOutputStats (os_udp_send_errors s + 1) (os_udp_short_sends s)
  | Short => mkOutputStats (os_udp_send_errors s) (os_udp_short_sends s + 1)
  end.

Definition OutputStats_snapshot (s : OutputStats) (core : Stats) : Stats :=
  mkStats (st_pkts_sent core) (st_pkts_recv core) (st_bytes_sent core) (st_bytes_recv core)
    (os_udp_send_errors s) (os_udp_short_sends s) (st_pkts_retransmitted core) (st_pkts_send_dropped core)
    (st_pkts_recv_dropped core) (st_pkts_recv_lost core) (st_pkts_recv_oversized core)
    (st_undecrypted_pkts core) (st_km_refreshes core) (st_rtt_us core) (st_rtt_var_us core)
    (st_tsbpd_drift_us core) (st_snd_period_us core) (st_snd_max_bw core) (st_snd_input_rate core).

Definition classify_send (result : result Z nat) (expected : nat) : SendOutcome :=
  match result with
  | Ok n => if (n =? expected)%nat then Sent else Short
  | Err _ => IoError
  end.

(** What the runtime yields to [recv]: a read of the UDP socket, or of the
    channel. *)
Inductive io_input :=
| UdpRead (r : result Z bytes)
| ChannelRead (r : option bytes).

(** A read of the socket fills the front of [buf] with the datagram, cut to
    the size of [buf]. *)
Definition DriverIo_recv (buf : bytes) (input : io_input) : bytes * RecvEvent :=
  match input with
  | UdpRead (Ok datagram) =>
      let n := Nat.min (length datagram) (length buf) in
      (take n datagram ++ drop n buf, Buffered n)
  | UdpRead (Err _) => (buf, RecvError)
  | ChannelRead (Some datagram) => (buf, Owned datagram)
  | ChannelRead None => (buf, RecvClosed)
  end.

Definition DriverIo_target (io : DriverIo) : option SocketAddrV4 :=
  match io with
  | Connected => None
  | Demux remote => Some remote
  end.

(** One datagram of the concatenated I/O vectors, and its length. *)
Definition send_data_vectored (data : DataPacket) : bytes * nat :=
  let header := DataPacket_encode_header data in
  (header ++ dp_payload data, (length header + length (dp_payload data))%nat).

Definition send_contiguous (data : bytes) : bytes * nat := (data, length data).

(** [send_packet] on Unix: the datagram, and the outcome given the kernel's
    answer to it. *)
Definition DriverIo_send_packet (io : DriverIo) (packet : Packet) (answer : result Z nat)
    : driver_effect * SendOutcome :=
  let '(datagram, expected) :=
    match packet with
    | Data data => send_data_vectored data
    | Control _ => send_contiguous (Packet_encode packet [])
    end in
  (UdpSend datagram (DriverIo_target io), classify_send answer expected).

(** The data channel's answer to [try_send]. *)
Inductive try_send_answer := TrySent | TryFull | TryClosed.

(** [deliver]: what a payload leaves in the handle's queue. *)
Definition deliver (answer : try_send_answer) (payload : bytes) : list bytes :=
  match answer with
  | TrySent => [payload]
  | TryFull | TryClosed => []
  end.

(** Maps the close reason of a failed connect to the public error. *)
Definition connect_error (reason : CloseReason) : SrtError :=
  match reason with
  | CloseConnectTimeout => ConnectTimeout
  | CloseRejected code =>
      if code =? REJ_BADSECRET then WrongPassphrase
      else if code =? REJ_UNSECURE then EncryptionUnsupported else Rejected code
  | other => Closed other
  end.

(** ** The loop of [drive] *)

(** The clock readings at the top of the turn and when the connection turns
    out to be closed, and the kernel's answers to the sends of the turn. *)
Record turn_env := mkTurnEnv {
  te_now : Z;
  te_close_now : Z;
  te_answers : nat -> result Z nat
}.

(** The branches of [select!]. *)
Inductive driver_event :=
| DvRecv (now : Z) (input : io_input) (rng : Rng)
| DvCmd (now : Z) (cmd : option Cmd)
| DvTimer (now : Z).

(** A bound on the packets [c] has to send at [now], and on the payloads it
    has to deliver. *)
Definition owed_packets (c : Connection) (now : Z) : nat :=
  length (cn_transmit_q c) +
  match cn_state c with
  | StConnecting hs _ _ => if now <? ch_next_send hs then 0 else 1
  | StEstablished s r _ =>
      length (rv_control_q r) + length (sn_control_queue s) + size (sn_loss_list s) +
      Z.to_nat (Sender_end s - sn_next_send_index s)
  | StClosed _ _ => 0
  end.

Definition owed_payloads (c : Connection) : nat :=
  match cn_state c with
  | StEstablished _ r _ | StClosed _ (Some r) => length (rv_slots r)
  | _ => 0
  end.

Section Drive.
Context `{CryptoPrimitives}.

Fixpoint drain_transmit (fuel : nat) (c : Connection) (io : DriverIo) (now : Z) (answers : nat -> result Z nat)
    (sent : nat) (stats : OutputStats) : panicking (Connection * OutputStats * list driver_effect) :=
  match fuel with
  | O => Panic
  | S fuel =>
      '(c, p) ← Connection_poll_transmit c now;
      match p with
      | None => Ret (c, stats, [])
      | Some packet =>
          let '(eff, outcome) := DriverIo_send_packet io packet (answers sent) in
          '(c, stats, effs) ← drain_transmit fuel c io now answers (S sent) (OutputStats_record stats outcome);
          Ret (c, stats, eff :: effs)
      end
  end.

Fixpoint drain_deliver (fuel : nat) (c : Connection) (now : Z) : panicking (Connection * list driver_effect) :=
  match fuel with
  | O => Panic
  | S fuel =>
      '(c, p) ← Connection_poll_deliver c now;
      match p with
      | None => Ret (c, [])
      | Some payload =>
          '(c, effs) ← drain_deliver fuel c now;
          Ret (c, Deliver payload :: effs)
      end
  end.

Definition store_stats (d : Driver) : Driver :=
  d <| dv_shared := dv_shared d <| sh_stats :=
         OutputStats_snapshot (dv_output_stats d) (Connection_stats (dv_conn d)) |> |>.

(** From the top of the loop to the statistics. *)
Definition drive_drain (d : Driver) (env : turn_env) : panicking (Driver * list driver_effect) :=
  '(c, stats, sends) ← drain_transmit (S (owed_packets (dv_conn d) (te_now env))) (dv_conn d) (dv_io d)
                         (te_now env) (te_answers env) 0 (dv_output_stats d);
  '(c, payloads) ← drain_deliver (S (owed_payloads c)) c (te_now env);
  Ret (store_stats (d <| dv_conn := c |> <| dv_output_stats := stats |>), sends ++ payloads).

(** [established_tx.take()] and the send. *)
Definition signal (d : Driver) (r : result SrtError unit) : Driver * list driver_effect :=
  if dv_established_tx d then (d <| dv_established_tx := false |>, [Signal r]) else (d, []).

(** One turn up to [select!]; [true] when the task returns. *)
Definition drive_turn (d : Driver) (env : turn_env) : panicking (Driver * list driver_effect * bool) :=
  '(d, effs) ← drive_drain d env;
  match Connection_get_state (dv_conn d) with
  | ConnEstablished =>
      if dv_announced d then Ret (d, effs, false) else
      let d := d <| dv_announced := true |> in
      let d := d <| dv_shared := dv_shared d <| sh_max_payload := Connection_max_payload (dv_conn d) |> |> in
      let '(d, sig) := signal d (Ok tt) in
      Ret (d, effs ++ sig, false)
  | ConnClosed reason =>
      let d := d <| dv_shared := dv_shared d <| sh_close_reason := Some reason |> |> in
      let '(d, sig) := signal d (Err (connect_error reason)) in
      let horizon := te_close_now env + CLOSE_DRAIN_HORIZON in
      '(c, payloads) ← drain_deliver (S (owed_payloads (dv_conn d))) (dv_conn d) horizon;
      Ret (store_stats (d <| dv_conn := c |>), effs ++ sig ++ payloads, true)
  | ConnConnecting => Ret (d, effs, false)
  end.

(** The branches that can be taken: commands while the channel is open, the
    timer from the deadline on, reads of the kind of the socket. *)
Definition driver_enabled (d : Driver) (deadline_now : Z) (ev : driver_event) : bool :=
  match ev with
  | DvRecv _ (UdpRead _) _ => match dv_io d with Connected => true | Demux _ => false end
  | DvRecv _ (ChannelRead _) _ => match dv_io d with Connected => false | Demux _ => true end
  | DvCmd _ _ => dv_cmd_open d
  | DvTimer now =>
      match Connection_next_deadline (dv_conn d) deadline_now with
      | Some deadline => deadline <=? now
      | None => false
      end
  end.

(** The branch's handler; the error of a failed send is only logged. *)
Definition drive_select (d : Driver) (ev : driver_event) : panicking Driver :=
  match ev with
  | DvRecv now input rng =>
      let '(buf, event) := DriverIo_recv (dv_buf d) input in
      let d := d <| dv_buf := buf |> in
      match event with
      | Buffered n =>
          datagram ← slice (dv_buf d) 0 n;
          c ← Connection_handle_datagram (dv_conn d) now datagram rng;
          Ret (d <| dv_conn := c |>)
      | Owned datagram =>
          c ← Connection_handle_datagram (dv_conn d) now datagram rng;
          Ret (d <| dv_conn := c |>)
      | RecvError => Ret d
      | RecvClosed => Ret (d <| dv_conn := Connection_close (dv_conn d) now |>)
      end
  | DvCmd now (Some (CmdSend payload)) =>
      '(c, _) ← Connection_send (dv_conn d) now payload;
      Ret (d <| dv_conn := c |>)
  | DvCmd now (Some CmdClose) => Ret (d <| dv_conn := Connection_close (dv_conn d) now |>)
  | DvCmd now None =>
      Ret (d <| dv_cmd_open := false |> <| dv_conn := Connection_close (dv_conn d) now |>)
  | DvTimer now =>
      c ← Connection_handle_timer (dv_conn d) now;
      Ret (d <| dv_conn := c |>)
  end.

(** The task over the given turns; [true] when it has returned. *)
Fixpoint drive (d : Driver) (turns : list (turn_env * driver_event))
    : panicking (Driver * list driver_effect * bool) :=
  match turns with
  | [] => Ret (d, [], false)
  | (env, ev) :: turns =>
      '(d, effs, fin) ← drive_turn d env;
      if (fin : bool) then Ret (d, effs, true) else
      d ← drive_select d ev;
      '(d, effs', fin) ← drive d turns;
      Ret (d, effs ++ effs', fin)
  end.

(** The state [drive] starts in. *)
Definition spawn_connection (conn : Connection) (io : DriverIo) (established_tx : bool) : Driver :=
  let buf := match io with Connected => replicate RECV_BUF 0 | Demux _ => [] end in
  let announced := match Connection_get_state conn with ConnEstablished => true | _ => false end in
  mkDriver conn io buf OutputStats_default true announced established_tx
    (mkShared (Connection_stats conn) None (Connection_max_payload conn)).

End Drive.

(** ** The handle *)

Section Handle.
Context `{CryptoPrimitives}.

(** [connect] up to the wait: [lookup], [bound] and [connected] are the
    outcomes of the name lookup and of binding and connecting the socket;
    [id] and [isn] are drawn. *)
Definition SrtSocket_connect (opts : SrtOptions) (lookup : result Z (list SocketAddr)) (bound connected : result Z unit)
    (now id isn : Z) : result SrtError Driver :=
  if (match so_streamid opts with Some s => (512 <? length s)%nat | None => false end)
  then Err StreamIdTooLong else
  match SrtOptions_crypto_config opts with
  | Err e => Err e
  | Ok _ =>
      match Bandwidth_validate (so_bandwidth opts) with
      | Err e => Err e
      | Ok _ =>
          match resolve_v4 lookup with
          | Err e => Err e
          | Ok remote =>
              match bound, connected with
              | Err e, _ | Ok _, Err e => Err (Io e)
              | Ok _, Ok _ =>
                  Ok (spawn_connection (Connection_connect now remote id isn opts) Connected true)
              end
          end
      end
  end.

(** The wait: [None] is the elapsed timeout, [Some None] a driver that went
    away without a signal. *)
Definition SrtSocket_connected (outcome : option (option (result SrtError unit))) : result SrtError unit :=
  match outcome with
  | Some (Some (Ok _)) => Ok tt
  | Some (Some (Err e)) => Err e
  | Some None | None => Err ConnectTimeout
  end.

(** [recv]: [queue] is the next payload of the data channel, [None] once it
    is closed and empty. *)
Definition SrtSocket_recv (sh : Shared) (queue : option bytes) : result SrtError (option bytes) :=
  match queue with
  | Some payload => Ok (Some payload)
  | None =>
      match sh_close_reason sh with
      | Some CloseShutdown | Some CloseLocal | None => Ok None
      | Some reason => Err (Closed reason)
      end
  end.

Definition SrtSocket_closed_error (sh : Shared) : SrtError := Closed (default CloseLocal (sh_close_reason sh)).

(** [send]: the command put into the channel; [open] tells whether the
    driver still holds its end. *)
Definition SrtSocket_send (sh : Shared) (payload : bytes) (open : bool) : result SrtError Cmd :=
  if sh_max_payload sh <? Z.of_nat (length payload) then Err (PayloadTooLarge (length payload))
  else if open then Ok (CmdSend payload) else Err (SrtSocket_closed_error sh).

Definition SrtSocket_stats (sh : Shared) : Stats := sh_stats sh.

(** [close]: the command, and a wait for the driver. *)
Definition SrtSocket_close (open : bool) : option Cmd := if open then Some CmdClose else None.

End Handle.

(** ** Lemmas: the drains end *)

Ltac dv := cbn [set_field dv_conn dv_io dv_buf dv_output_stats dv_cmd_open dv_announced dv_established_tx dv_shared
  sh_stats sh_close_reason sh_max_payload store_stats] in *.

Lemma rexmit_loop_pops fuel now w : forall s s' p,
  Sender_rexmit_loop fuel s now w = Ret (s', Some p) ->
  (size (sn_loss_list s') < size (sn_loss_list s))%nat /\ Sender_end s' = Sender_end s /\
  sn_next_send_index s' = sn_next_send_index s.
Proof.
  induction fuel as [|fuel IH]; intros s s' p; [done|]. cbn [Sender_rexmit_loop].
  pose proof (pop_first_spec (sn_loss_list s)) as Hp. destruct (pop_first (sn_loss_list s)) as [[idx rest]|]; [|done].
  destruct Hp as (_ & _ & _ & Hlt).
  case_if; [intros Hr; apply IH in Hr; sn; unfold Sender_end in *; sn; lia|]. sn.
  destruct (index (sn_buffer s) _) as [e|]; [|done]. cbn [mbind panicking_bind].
  destruct (match be_last_rexmit e with Some _ => _ | None => _ end);
    [intros Hr; apply IH in Hr; unfold Sender_end in *; sn; lia|].
  destruct (Sender_packet_at _ _ _); [|done]. cbn [mbind panicking_bind]. intros [= <- _].
  unfold Sender_end. sn. by rewrite length_insert.
Qed.

Lemma rexmit_loop_next fuel now w : forall s s' p,
  Sender_rexmit_loop fuel s now w = Ret (s', p) -> sn_next_send_index s' = sn_next_send_index s.
Proof.
  induction fuel as [|fuel IH]; intros s s' p; [done|]. cbn [Sender_rexmit_loop].
  destruct (pop_first (sn_loss_list s)) as [[idx rest]|]; [|by intros [= <- _]].
  case_if; [intros Hr; by apply IH in Hr|]. sn.
  destruct (index (sn_buffer s) _) as [e|]; [|done]. cbn [mbind panicking_bind].
  destruct (match be_last_rexmit e with Some _ => _ | None => _ end); [intros Hr; by apply IH in Hr|].
  destruct (Sender_packet_at _ _ _); [|done]. cbn [mbind panicking_bind]. by intros [= <- _].
Qed.

(** A sender has at most one packet per queued loss and per new packet. *)
Definition sender_debt (s : Sender) : nat :=
  size (sn_loss_list s) + Z.to_nat (Sender_end s - sn_next_send_index s).

Lemma Sender_poll_transmit_debt s now s' p :
  Sender_poll_transmit s now = Ret (s', Some p) -> (sender_debt s' < sender_debt s)%nat.
Proof.
  unfold Sender_poll_transmit, sender_debt.
  destruct (match sn_pacer s with Some _ => _ | None => _ end) as [pc|]; [|done].
  match goal with |- context [Sender_rexmit_loop ?f ?x ?n ?w] =>
    destruct (Sender_rexmit_loop f x n w) as [[s1 [pk|]]|] eqn:Hr end; [| |done]; cbn [mbind panicking_bind].
  - intros [= <- _]. apply rexmit_loop_pops in Hr as (Hl & He & Hn). unfold Sender_end in *. sn. lia.
  - pose proof Hr as Hn. apply rexmit_loop_next in Hn. apply rexmit_loop_empties in Hr as (Hl & _ & Hb & Hi & _). sn.
    destruct (_ && _) eqn:Hc; [|done]. to_prop.
    destruct (Sender_packet_at _ _ _); [|done]. cbn [mbind panicking_bind]. intros [= <- _].
    unfold Sender_end. sn. rewrite Hl, size_empty, Hb, Hi, Hn in *. lia.
Qed.

Lemma deliver_loop_shrinks anchor now : forall fuel r r' p,
  Receiver_deliver_loop fuel r anchor now = Ret (r', Some p) -> (length (rv_slots r') < length (rv_slots r))%nat.
Proof.
  induction fuel as [|fuel IH]; intros r r' p; [done|]. cbn [Receiver_deliver_loop].
  destruct (first_occupied r) as [k|]; [|done]. rv.
  destruct (index (rv_slots r) k) as [[s|]|] eqn:Hi; [|done..]. cbn [expect mbind panicking_bind].
  case_if; [done|].
  assert (Hpos : (0 < length (rv_slots r))%nat).
  { unfold index in Hi. destruct (rv_slots r); [by destruct k|]. cbn. lia. }
  set (m := if (0 <? k)%nat then _ else _).
  assert (Hm : forall r1, m = Ret r1 -> (length (rv_slots r1) <= length (rv_slots r))%nat).
  { intros r1. subst m. case_if; [|by intros [= <-]]. unfold drain_slots. case_if; [|done].
    cbn [mbind panicking_bind]. intros [= <-]. rv. rewrite length_drop. lia. }
  destruct m as [r1|]; [|done]. specialize (Hm r1 eq_refl). cbn [mbind panicking_bind]. rv.
  destruct (rv_slots r1) as [|[sl|] rest] eqn:Hsl; [done| |done]. cbn [head expect mbind panicking_bind] in *. rv.
  cbn [length drop] in *. rewrite drop_0. case_if; [|intros [= <- _]; rv; lia].
  intros Hd. apply IH in Hd. rv. lia.
Qed.

Lemma poll_deliver_shrinks r now r' p :
  Receiver_poll_deliver r now = Ret (r', Some p) -> (length (rv_slots r') < length (rv_slots r))%nat.
Proof. unfold Receiver_poll_deliver. destruct (rv_anchor r); [apply deliver_loop_shrinks|done]. Qed.

Section DriveLemmas.
Context `{CryptoLaws}.

Lemma poll_transmit_debt c now c' p :
  Connection_poll_transmit c now = Ret (c', Some p) -> (owed_packets c' now < owed_packets c now)%nat.
Proof.
  unfold Connection_poll_transmit, Connection_next_transmit, owed_packets.
  destruct (cn_transmit_q c) as [|p0 q] eqn:Hq; [|cbn [mbind panicking_bind]; intros [= <- _]; cn; cbn [length]; lia].
  destruct (cn_state c) as [hs pend ed|s r e|rs r] eqn:Hst; [| |done].
  - unfold CallerHandshake_poll_transmit.
    destruct (match ch_state hs with CallerInduction => _ | CallerConclusion _ => _ | _ => _ end); [|done].
    destruct (Z.ltb_spec now (ch_next_send hs)); rewrite ?orb_true_r, ?orb_false_r; [done|].
    destruct (CallerHandshake_is_timed_out hs now); [done|]. intros [= <- _]. cn. rewrite Hq. ch.
    replace (now <? now + HS_RETRY_INTERVAL) with true by (symmetry; apply Z.ltb_lt; unfold HS_RETRY_INTERVAL, from_millis; lia).
    cbn. lia.
  - unfold Receiver_poll_control, Sender_poll_control. destruct (rv_control_q r) as [|ct rq] eqn:Hr.
    2: { cbn [mbind panicking_bind]. intros [= <- _]. cn. rewrite Hq. rv. cbn [length]. lia. }
    destruct (sn_control_queue s) as [|ct sq] eqn:Hs.
    2: { cbn [mbind panicking_bind]. intros [= <- _]. cn. rewrite Hq, Hr. unfold Sender_end. sn. cbn [length]. lia. }
    destruct (Sender_poll_transmit s now) as [[s' [pk|]]|] eqn:Hp; [|done..].
    pose proof (Sender_poll_transmit_control _ _ _ _ Hp) as Hctl. apply Sender_poll_transmit_debt in Hp.
    unfold sender_debt in Hp. cbn [mbind panicking_bind option_map]. intros [= <- _]. cn.
    rewrite Hq, Hr, Hctl, Hs. cbn [length]. lia.
Qed.

Lemma conn_poll_deliver_shrinks c now c' p :
  Connection_poll_deliver c now = Ret (c', Some p) -> (owed_payloads c' < owed_payloads c)%nat.
Proof.
  unfold Connection_poll_deliver, owed_payloads.
  destruct (cn_state c) as [hs pend ed|s r e|rs [r|]]; try done;
    (destruct (Receiver_poll_deliver r now) as [[r' out]|] eqn:Hp; [|done]; cbn [mbind panicking_bind];
     intros [= <- ->]; cn; by apply poll_deliver_shrinks in Hp).
Qed.

(** Polling never changes the phase of a connection. *)
Lemma poll_phase c ev c' out :
  (exists now, ev = EvTransmit now \/ ev = EvDeliver now) -> conn_step c ev = Ret (c', out) ->
  Connection_get_state c' = Connection_get_state c.
Proof.
  intros (now & Hev) Hs. apply conn_step_lifecycle in Hs. unfold lifecycle in Hs.
  destruct (Connection_get_state c) as [| |rs], (Connection_get_state c') as [| |rs'];
    try done; try (by destruct Hs as [? _]);
    destruct Hev as [-> | ->]; try (by destruct Hs as [[] _]); try (by destruct rs'; destruct Hs);
    by destruct Hs as (? & ? & ? & ? & ? & ? & _).
Qed.

Lemma drain_transmit_ok o io now answers : forall fuel c sent stats,
  Connection_wf o c -> (owed_packets c now < fuel)%nat ->
  exists c' stats' effs c0, drain_transmit fuel c io now answers sent stats = Ret (c', stats', effs) /\
    Connection_wf o c' /\ Connection_get_state c' = Connection_get_state c /\
    Connection_poll_transmit c0 now = Ret (c', None) /\ Forall (fun e => exists dg to, e = UdpSend dg to) effs.
Proof.
  induction fuel as [|fuel IH]; intros c sent stats Hwf Hf; [lia|]. cbn [drain_transmit].
  destruct (conn_step_ok o c (EvTransmit now) Hwf I) as (c1 & out & Hs & Hwf1).
  pose proof (poll_phase c (EvTransmit now) c1 out ltac:(eauto) Hs) as Hph. cbn [conn_step] in Hs.
  destruct (Connection_poll_transmit c now) as [[c1' [p|]]|] eqn:Hp; [| |done];
    cbn [mbind panicking_bind] in *; injection Hs as <- <-.
  - pose proof (poll_transmit_debt _ _ _ _ Hp).
    assert (He : exists dg to k, DriverIo_send_packet io p (answers sent) = (UdpSend dg to, k))
      by (unfold DriverIo_send_packet; destruct p; by eexists _, _, _).
    destruct He as (dg & to & k & ->).
    destruct (IH c1' (S sent) (OutputStats_record stats k) Hwf1) as (c' & stats' & effs & c0 & -> & ? & Hph' & ? & Hall);
      [lia|].
    cbn [mbind panicking_bind]. eexists _, _, _, c0. split; [done|]. split; [done|]. split; [congruence|].
    split; [done|]. constructor; [by eexists _, _|done].
  - eexists _, _, _, c. split; [done|]. split; [done|]. split; [done|]. by split.
Qed.

Lemma drain_deliver_ok o now : forall fuel c,
  Connection_wf o c -> (owed_payloads c < fuel)%nat ->
  exists c' effs c0, drain_deliver fuel c now = Ret (c', effs) /\
    Connection_wf o c' /\ Connection_get_state c' = Connection_get_state c /\
    Connection_poll_deliver c0 now = Ret (c', None) /\ Forall (fun e => exists p, e = Deliver p) effs.
Proof.
  induction fuel as [|fuel IH]; intros c Hwf Hf; [lia|]. cbn [drain_deliver].
  destruct (conn_step_ok o c (EvDeliver now) Hwf I) as (c1 & out & Hs & Hwf1).
  pose proof (poll_phase c (EvDeliver now) c1 out ltac:(eauto) Hs) as Hph. cbn [conn_step] in Hs.
  destruct (Connection_poll_deliver c now) as [[c1' [p|]]|] eqn:Hp; [| |done];
    cbn [mbind panicking_bind] in *; injection Hs as <- <-.
  - pose proof (conn_poll_deliver_shrinks _ _ _ _ Hp).
    destruct (IH c1' Hwf1) as (c' & effs & c0 & -> & ? & Hph' & ? & Hall); [lia|].
    cbn [mbind panicking_bind]. eexists _, _, c0. split; [done|]. split; [done|]. split; [congruence|].
    split; [done|]. constructor; [by eexists|done].
  - eexists _, _, c. split; [done|]. split; [done|]. split; [done|]. by split.
Qed.

End DriveLemmas.

(** ** Lemmas: turns *)

(** The signals to a waiting [connect] among the effects. *)
Definition signals (effs : list driver_effect) : list (result SrtError unit) :=
  omap (fun e => match e with Signal r => Some r | _ => None end) effs.

(** The datagrams among them. *)
Definition datagrams (effs : list driver_effect) : list bytes :=
  omap (fun e => match e with UdpSend dg _ => Some dg | _ => None end) effs.

Lemma sends_silent effs : Forall (fun e => exists dg to, e = UdpSend dg to) effs -> signals effs = [].
Proof. induction 1 as [|e effs (dg & to & ->) _ IH]; [done|]. exact IH. Qed.

Lemma delivers_silent effs :
  Forall (fun e => exists p, e = Deliver p) effs -> signals effs = [] /\ datagrams effs = [].
Proof. induction 1 as [|e effs (p & ->) _ IH]; [done|]. exact IH. Qed.

Lemma signals_app l1 l2 : signals (l1 ++ l2) = signals l1 ++ signals l2.
Proof. apply omap_app. Qed.

Lemma datagrams_app l1 l2 : datagrams (l1 ++ l2) = datagrams l1 ++ datagrams l2.
Proof. apply omap_app. Qed.

(** What a turn does, by the phase of the connection. *)
Definition turn_spec `{CryptoPrimitives} (d : Driver) (env : turn_env) (d' : Driver) (effs : list driver_effect)
    (fin : bool) : Prop :=
  match Connection_get_state (dv_conn d) with
  | ConnConnecting => fin = false /\ signals effs = [] /\ dv_announced d' = dv_announced d /\
      dv_established_tx d' = dv_established_tx d /\ sh_max_payload (dv_shared d') = sh_max_payload (dv_shared d)
  | ConnEstablished => fin = false /\ dv_announced d' = true /\
      if dv_announced d
      then signals effs = [] /\ dv_established_tx d' = dv_established_tx d /\
           sh_max_payload (dv_shared d') = sh_max_payload (dv_shared d)
      else signals effs = (if dv_established_tx d then [Ok tt] else []) /\ dv_established_tx d' = false /\
           sh_max_payload (dv_shared d') = Connection_max_payload (dv_conn d')
  | ConnClosed reason => fin = true /\ sh_close_reason (dv_shared d') = Some reason /\
      dv_announced d' = dv_announced d /\ dv_established_tx d' = false /\
      signals effs = (if dv_established_tx d then [Err (connect_error reason)] else []) /\
      sh_max_payload (dv_shared d') = sh_max_payload (dv_shared d) /\
      exists c0, Connection_poll_deliver c0 (te_close_now env + CLOSE_DRAIN_HORIZON) = Ret (dv_conn d', None)
  end.

Section TurnLemmas.
Context `{CryptoLaws}.

Lemma poll_deliver_queue c now c' p :
  Connection_poll_deliver c now = Ret (c', p) ->
  cn_transmit_q c' = cn_transmit_q c /\ Connection_max_payload c' = Connection_max_payload c /\
  cn_timebase c' = cn_timebase c /\ cn_peer_socket_id c' = cn_peer_socket_id c.
Proof.
  unfold Connection_poll_deliver, Connection_max_payload.
  destruct (cn_state c) as [hs pend ed|s r e|rs [r|]] eqn:Hst; try (by intros [= <- _]; rewrite Hst);
    (destruct (Receiver_poll_deliver r now) as [[r' out]|]; [|done]; cbn [mbind panicking_bind];
     by intros [= <- _]).
Qed.

Lemma drain_deliver_queue now : forall fuel c c' effs,
  drain_deliver fuel c now = Ret (c', effs) ->
  cn_transmit_q c' = cn_transmit_q c /\ Connection_max_payload c' = Connection_max_payload c /\
  cn_timebase c' = cn_timebase c /\ cn_peer_socket_id c' = cn_peer_socket_id c.
Proof.
  induction fuel as [|fuel IH]; intros c c' effs; [done|]. cbn [drain_deliver].
  destruct (Connection_poll_deliver c now) as [[c1 [p|]]|] eqn:Hp; [| |done]; cbn [mbind panicking_bind];
    apply poll_deliver_queue in Hp as (E1 & E2 & E3 & E4); [|by intros [= <- <-]].
  destruct (drain_deliver fuel c1 now) as [[c2 effs2]|] eqn:Hd; [|done]. cbn [mbind panicking_bind].
  intros [= <- <-]. apply IH in Hd. by rewrite <- E1, <- E2, <- E3, <- E4.
Qed.

(** The top of a turn sends and delivers what is owed, and leaves nothing
    queued. *)
Lemma drive_drain_ok o d env :
  Connection_wf o (dv_conn d) ->
  exists c stats effs c0, drive_drain d env =
      Ret (store_stats (d <| dv_conn := c |> <| dv_output_stats := stats |>), effs) /\
    Connection_wf o c /\ Connection_get_state c = Connection_get_state (dv_conn d) /\ signals effs = [] /\
    cn_transmit_q c = [] /\ Connection_poll_deliver c0 (te_now env) = Ret (c, None).
Proof.
  intros Hwf. unfold drive_drain.
  destruct (drain_transmit_ok o (dv_io d) (te_now env) (te_answers env) (S (owed_packets (dv_conn d) (te_now env)))
    (dv_conn d) 0 (dv_output_stats d) Hwf) as (c1 & stats & e1 & c0 & -> & Hwf1 & Hst1 & Hp & Hall); [lia|].
  cbn [mbind panicking_bind]. apply drained in Hp as (Hq & _).
  destruct (drain_deliver_ok o (te_now env) (S (owed_payloads c1)) c1 Hwf1) as (c2 & e2 & c3 & Hd & Hwf2 & Hst2 & Hp2 & Hall2);
    [lia|].
  rewrite Hd. cbn [mbind panicking_bind]. apply drain_deliver_queue in Hd as (Hq2 & _).
  eexists c2, stats, (e1 ++ e2), c3. split; [done|]. split; [done|]. split; [congruence|].
  split; [|split; [congruence|done]]. rewrite signals_app, sends_silent by done. by apply delivers_silent.
Qed.

Lemma drive_turn_ok o d env :
  Connection_wf o (dv_conn d) ->
  exists d' effs fin, drive_turn d env = Ret (d', effs, fin) /\ Connection_wf o (dv_conn d') /\
    Connection_get_state (dv_conn d') = Connection_get_state (dv_conn d) /\ cn_transmit_q (dv_conn d') = [] /\
    dv_buf d' = dv_buf d /\ dv_io d' = dv_io d /\ turn_spec d env d' effs fin.
Proof.
  intros Hwf. unfold drive_turn, turn_spec.
  destruct (drive_drain_ok o d env Hwf) as (c & stats & effs & c0 & -> & Hwf1 & Hst & Hsig & Hq & Hp).
  cbn [mbind panicking_bind]. dv. rewrite Hst. destruct (Connection_get_state (dv_conn d)) as [| |reason] eqn:Hs.
  - eexists _, _, _. split; [done|]. dv. by rewrite Hst.
  - destruct (dv_announced d) eqn:Ha; [by eexists _, _, _; split; [done|]; dv; rewrite Hst, Ha|].
    unfold signal. dv. destruct (dv_established_tx d) eqn:Ht; eexists _, _, _; (split; [done|]); dv;
      rewrite Hst, signals_app, Hsig; by split_and!.
  - unfold signal. dv.
    destruct (drain_deliver_ok o (te_close_now env + CLOSE_DRAIN_HORIZON) (S (owed_payloads c)) c Hwf1)
      as (c2 & e2 & c3 & Hd & Hwf2 & Hst2 & Hp2 & Hall2); [lia|].
    pose proof (drain_deliver_queue _ _ _ _ _ Hd) as (Hq2 & _). apply delivers_silent in Hall2 as [Hall2 _].
    destruct (dv_established_tx d) eqn:Ht; dv; rewrite Hd; cbn [mbind panicking_bind]; eexists _, _, _;
      (split; [done|]); dv; rewrite !signals_app, Hsig, Hall2; split_and!; try done; try congruence; by eexists.
Qed.

(** A branch of [select!] is one call on the connection, or none. *)
Definition select_event (d : Driver) (ev : driver_event) : option conn_event :=
  match ev with
  | DvRecv now (UdpRead (Ok dg)) rng => Some (EvDatagram now (take (length (dv_buf d)) dg) rng)
  | DvRecv now (ChannelRead (Some dg)) rng => Some (EvDatagram now dg rng)
  | DvRecv now (UdpRead (Err _)) _ => None
  | DvRecv now (ChannelRead None) _ => Some (EvClose now)
  | DvCmd now (Some (CmdSend payload)) => Some (EvSend now payload)
  | DvCmd now _ => Some (EvClose now)
  | DvTimer now => Some (EvTimer now)
  end.

Lemma recv_slice (buf dg : bytes) :
  let n := Nat.min (length dg) (length buf) in
  slice (take n dg ++ drop n buf) 0 n = Ret (take (length buf) dg) /\ length (take n dg ++ drop n buf) = length buf.
Proof.
  intros n. assert (Hl : length (take n dg) = n) by (rewrite length_take; lia). split.
  - rewrite slice_ret by (rewrite ?length_app, ?Hl; lia). rewrite Nat.sub_0_r, drop_0, take_app_le by lia.
    rewrite take_take, Nat.min_id. f_equal. unfold n. destruct (Nat.min_spec (length dg) (length buf)) as [[? ->]|[? ->]];
      [|done]. by rewrite !take_ge by lia.
  - rewrite length_app, Hl, length_drop. lia.
Qed.

Lemma drive_select_step d ev d' :
  drive_select d ev = Ret d' ->
  dv_announced d' = dv_announced d /\ dv_established_tx d' = dv_established_tx d /\ dv_shared d' = dv_shared d /\
  dv_io d' = dv_io d /\ length (dv_buf d') = length (dv_buf d) /\
  match select_event d ev with
  | Some cev => exists out, conn_step (dv_conn d) cev = Ret (dv_conn d', out)
  | None => dv_conn d' = dv_conn d
  end.
Proof.
  destruct ev as [now [[dg|e]|[dg|]] rng|now [[payload|]|]|now]; cbn [drive_select DriverIo_recv select_event conn_step];
    dv; try (intros [= <-]; dv; by eauto 10).
  - destruct (recv_slice (dv_buf d) dg) as [-> Hl]. cbn [mbind panicking_bind].
    destruct (Connection_handle_datagram _ _ _ _) as [c|]; [|done]. cbn [mbind panicking_bind].
    intros [= <-]. dv. by eauto 10.
  - destruct (Connection_handle_datagram _ _ _ _) as [c|]; [|done]. cbn [mbind panicking_bind].
    intros [= <-]. dv. by eauto 10.
  - destruct (Connection_send _ _ _) as [[c r]|]; [|done]. cbn [mbind panicking_bind].
    intros [= <-]. dv. by eauto 10.
  - destruct (Connection_handle_timer _ _) as [c|]; [|done]. cbn [mbind panicking_bind].
    intros [= <-]. dv. by eauto 10.
Qed.

Definition driver_event_ok (ev : driver_event) : Prop :=
  match ev with DvRecv _ _ rng => Rng_ok rng | _ => True end.

Lemma drive_select_ok o d ev :
  Connection_wf o (dv_conn d) -> driver_event_ok ev ->
  exists d', drive_select d ev = Ret d' /\ Connection_wf o (dv_conn d').
Proof.
  intros Hwf Hev.
  assert (Hr : returns (drive_select d ev)).
  { assert (Hstep : forall cev, conn_event_ok cev -> returns (conn_step (dv_conn d) cev))
      by (intros cev Hc; destruct (conn_step_ok o (dv_conn d) cev Hwf Hc) as (c' & out & -> & _); by eexists).
    destruct ev as [now [[dg|e]|[dg|]] rng|now [[payload|]|]|now]; cbn [drive_select DriverIo_recv]; dv;
      try (by eexists).
    - destruct (recv_slice (dv_buf d) dg) as [-> Hl]. cbn [mbind panicking_bind].
      destruct (Hstep (EvDatagram now (take (length (dv_buf d)) dg) rng) Hev) as [x Hx]. cbn [conn_step] in Hx.
      destruct (Connection_handle_datagram _ _ _ _); [by eexists|done].
    - destruct (Hstep (EvDatagram now dg rng) Hev) as [x Hx]. cbn [conn_step] in Hx.
      destruct (Connection_handle_datagram _ _ _ _); [by eexists|done].
    - destruct (Hstep (EvSend now payload) I) as [x Hx]. cbn [conn_step] in Hx.
      destruct (Connection_send _ _ _) as [[c r]|]; [by eexists|done].
    - destruct (Hstep (EvTimer now) I) as [x Hx]. cbn [conn_step] in Hx.
      destruct (Connection_handle_timer _ _); [by eexists|done]. }
  destruct Hr as [d' Hd]. exists d'. split; [done|]. apply drive_select_step in Hd as (_ & _ & _ & _ & _ & Hs).
  destruct (select_event d ev) as [cev|] eqn:Hcev; [|by rewrite Hs]. destruct Hs as [out Hs].
  assert (Hc : conn_event_ok cev).
  { destruct ev as [now [[dg|e]|[dg|]] rng|now [[payload|]|]|now]; cbn in Hcev; by simplify_eq. }
  destruct (conn_step_ok o (dv_conn d) cev Hwf Hc) as (c' & out' & Hs' & Hwf').
  rewrite Hs in Hs'. by injection Hs' as <- _.
Qed.

End TurnLemmas.

(** ** Lemmas: runs *)

(** The driver of a connection, before its task has returned. *)
Definition driver_inv `{CryptoPrimitives} (o : SrtOptions) (d : Driver) : Prop :=
  Connection_wf o (dv_conn d) /\
  (dv_announced d = true -> dv_established_tx d = false) /\
  (Connection_get_state (dv_conn d) = ConnConnecting -> dv_announced d = false).

Section RunLemmas.
Context `{CryptoLaws}.

Lemma turn_inv o d env d' effs :
  driver_inv o d -> drive_turn d env = Ret (d', effs, false) ->
  driver_inv o d' /\ cn_transmit_q (dv_conn d') = [] /\
  (forall reason, Connection_get_state (dv_conn d') <> ConnClosed reason) /\
  signals effs = (if dv_established_tx d && negb (dv_established_tx d') then [Ok tt] else []) /\
  (dv_established_tx d' = true -> dv_established_tx d = true) /\
  (Connection_get_state (dv_conn d') = ConnEstablished -> dv_announced d' = true).
Proof.
  intros (Hwf & Ha & Hc) Hd. destruct (drive_turn_ok o d env Hwf) as (d1 & e1 & fin & Hd' & Hwf' & Hst & Hq & _ & _ & Hs).
  rewrite Hd in Hd'. injection Hd' as <- <- <-. unfold turn_spec, driver_inv in *. rewrite Hst.
  destruct (Connection_get_state (dv_conn d)) as [| |reason].
  - destruct Hs as (_ & -> & -> & -> & _). split_and!; auto; try done. by destruct (dv_established_tx d).
  - destruct Hs as (_ & -> & Hs). destruct (dv_announced d).
    + destruct Hs as (-> & -> & _). rewrite Ha by done. by split_and!.
    + destruct Hs as (-> & -> & _). split_and!; try done. by destruct (dv_established_tx d).
  - by destruct Hs.
Qed.

Lemma select_inv o d ev :
  driver_inv o d -> (Connection_get_state (dv_conn d) = ConnEstablished -> dv_announced d = true) ->
  driver_event_ok ev -> exists d', drive_select d ev = Ret d' /\ driver_inv o d' /\
    dv_announced d' = dv_announced d /\ dv_established_tx d' = dv_established_tx d /\ dv_shared d' = dv_shared d.
Proof.
  intros (Hwf & Ha & Hc) He Hev. destruct (drive_select_ok o d ev Hwf Hev) as (d' & Hd & Hwf').
  exists d'. split; [done|]. apply drive_select_step in Hd as (E1 & E2 & E3 & _ & _ & Hs).
  split; [|done]. split; [done|]. rewrite E1, E2. split; [done|]. intros Hc'. apply Hc.
  destruct (select_event d ev) as [cev|]; [|by rewrite <- Hs]. destruct Hs as [out Hs].
  apply conn_step_lifecycle in Hs. unfold lifecycle in Hs. rewrite Hc' in Hs.
  by destruct (Connection_get_state (dv_conn d)); [|..|destruct Hs].
Qed.

Lemma drive_ok o : forall turns d,
  driver_inv o d -> Forall (fun t => driver_event_ok (snd t)) turns ->
  exists d' effs fin, drive d turns = Ret (d', effs, fin) /\ Connection_wf o (dv_conn d') /\
    match signals effs with
    | [] => fin = true -> dv_established_tx d = false
    | [Ok _] => dv_established_tx d = true
    | [Err e] => dv_established_tx d = true /\ fin = true /\
        exists reason, sh_close_reason (dv_shared d') = Some reason /\ e = connect_error reason
    | _ => False
    end /\
    (dv_established_tx d = false -> signals effs = []) /\
    (fin = true -> exists reason, Connection_get_state (dv_conn d') = ConnClosed reason /\
       sh_close_reason (dv_shared d') = Some reason).
Proof.
  induction turns as [|[env ev] turns IH]; intros d Hinv Hevs; cbn [drive].
  { eexists _, _, _. split; [done|]. split; [apply Hinv|]. by split_and!. }
  apply Forall_cons in Hevs as [Hev Hevs]. pose proof Hinv as (Hwf & Ha & _).
  destruct (drive_turn_ok o d env Hwf) as (d1 & e1 & fin & Hd & Hwf1 & Hst & _ & _ & _ & Hs). rewrite Hd.
  cbn [mbind panicking_bind]. destruct fin.
  - unfold turn_spec in Hs. destruct (Connection_get_state (dv_conn d)) as [| |reason]; [by destruct Hs..|].
    destruct Hs as (_ & Hr & _ & Ht & Hsig & _). exists d1, e1, true. rewrite Hsig. split; [done|]. split; [done|].
    destruct (dv_established_tx d); split_and!; try done; by eauto 10.
  - destruct (turn_inv o d env d1 e1 Hinv Hd) as (Hinv1 & _ & _ & Hsig & Htx & He).
    destruct (select_inv o d1 ev Hinv1 He Hev) as (d2 & -> & Hinv2 & E1 & E2 & E3). cbn [mbind panicking_bind].
    destruct (IH d2 Hinv2 Hevs) as (d3 & e3 & fin & -> & Hwf3 & Hm & Hno & Hfin). cbn [mbind panicking_bind].
    exists d3, (e1 ++ e3), fin. split; [done|]. split; [done|]. rewrite signals_app, Hsig. rewrite E2 in *.
    destruct (dv_established_tx d) eqn:Htd, (dv_established_tx d1) eqn:Htd1; cbn [andb negb app].
    + done.
    + rewrite Hno by done. done.
    + by destruct (Htx eq_refl).
    + done.
Qed.

Lemma spawn_inv o c io waiting :
  Connection_wf o c -> (Connection_get_state c = ConnEstablished -> waiting = false) ->
  driver_inv o (spawn_connection c io waiting).
Proof.
  intros Hwf Hw. split; [done|]. unfold spawn_connection. dv.
  destruct (Connection_get_state c); split; try done; intros _; by apply Hw.
Qed.

End RunLemmas.

(** ** Lemmas: the payload limit *)

Section LimitLemmas.
Context `{CryptoLaws}.

Lemma max_payload_same o c c' :
  Connection_wf o c -> Connection_wf o c' -> same_limits c c' -> Connection_get_state c' = Connection_get_state c ->
  Connection_max_payload c' = Connection_max_payload c.
Proof.
  unfold same_limits, Connection_get_state, Connection_max_payload. intros (_ & E & _) (_ & E' & _).
  destruct (cn_state c), (cn_state c'); try done; [|by intros ->|]; by rewrite E, E'.
Qed.

Lemma step_max_payload o c ev c' out :
  Connection_wf o c -> Connection_wf o c' -> conn_step c ev = Ret (c', out) ->
  Connection_get_state c' = Connection_get_state c -> Connection_max_payload c' = Connection_max_payload c.
Proof. intros Hwf Hwf' Hs. apply (max_payload_same o); try done. by apply (conn_step_limits o c ev c' out). Qed.

Lemma drain_transmit_limit o io now answers : forall fuel c sent stats c' stats' effs,
  Connection_wf o c -> drain_transmit fuel c io now answers sent stats = Ret (c', stats', effs) ->
  Connection_max_payload c' = Connection_max_payload c.
Proof.
  induction fuel as [|fuel IH]; intros c sent stats c' stats' effs Hwf; [done|]. cbn [drain_transmit].
  destruct (conn_step_ok o c (EvTransmit now) Hwf I) as (c1 & out & Hs & Hwf1).
  pose proof (poll_phase c (EvTransmit now) c1 out ltac:(eauto) Hs) as Hph.
  pose proof (step_max_payload o c (EvTransmit now) c1 out Hwf Hwf1 Hs Hph) as Hmax. cbn [conn_step] in Hs.
  destruct (Connection_poll_transmit c now) as [[c1' [p|]]|]; [| |done]; cbn [mbind panicking_bind] in *;
    injection Hs as <- <-; [|by intros [= <- _ _]].
  destruct (DriverIo_send_packet io p (answers sent)) as [eff k].
  destruct (drain_transmit fuel c1' io now answers (S sent) (OutputStats_record stats k)) as [[[c2 st] e]|] eqn:Hd; [|done].
  cbn [mbind panicking_bind]. intros [= <- _ _]. by rewrite (IH _ _ _ _ _ _ Hwf1 Hd).
Qed.

Lemma drive_turn_limit o d env d' effs fin :
  Connection_wf o (dv_conn d) -> drive_turn d env = Ret (d', effs, fin) ->
  Connection_max_payload (dv_conn d') = Connection_max_payload (dv_conn d).
Proof.
  intros Hwf. unfold drive_turn, drive_drain.
  destruct (drain_transmit_ok o (dv_io d) (te_now env) (te_answers env) (S (owed_packets (dv_conn d) (te_now env)))
    (dv_conn d) 0 (dv_output_stats d) Hwf) as (c1 & stats & e1 & c0 & Hd & Hwf1 & _); [lia|].
  pose proof (drain_transmit_limit o _ _ _ _ _ _ _ _ _ _ Hwf Hd) as E1. rewrite Hd. cbn [mbind panicking_bind].
  destruct (drain_deliver _ c1 _) as [[c2 e2]|] eqn:Hd2; [|done]. apply drain_deliver_queue in Hd2 as (_ & E2 & _).
  cbn [mbind panicking_bind]. dv. rewrite <- E1, <- E2. destruct (Connection_get_state c2).
  - by intros [= <- _ _].
  - destruct (dv_announced d); [by intros [= <- _ _]|]. unfold signal. dv.
    destruct (dv_established_tx d); by intros [= <- _ _].
  - unfold signal. dv. destruct (dv_established_tx d); dv;
      (destruct (drain_deliver _ c2 _) as [[c3 e3]|] eqn:Hd3; [|done]); apply drain_deliver_queue in Hd3 as (_ & E3 & _);
      cbn [mbind panicking_bind]; intros [= <- _ _]; by dv.
Qed.

(** The published limit is the one of the established connection. *)
Definition published (d : Driver) : Prop :=
  dv_announced d = true -> Connection_get_state (dv_conn d) = ConnEstablished ->
  sh_max_payload (dv_shared d) = Connection_max_payload (dv_conn d).

Lemma turn_published o d env d' effs :
  driver_inv o d -> published d -> drive_turn d env = Ret (d', effs, false) -> published d'.
Proof.
  intros (Hwf & _ & Hc) Hp Hd. pose proof (drive_turn_limit o _ _ _ _ _ Hwf Hd) as Hm.
  destruct (drive_turn_ok o d env Hwf) as (d1 & e1 & fin & Hd' & _ & Hst & _ & _ & _ & Hs).
  rewrite Hd in Hd'. injection Hd' as <- <- <-. unfold published, turn_spec in *. rewrite Hst, Hm.
  intros Ha He. rewrite He in *. destruct Hs as (_ & _ & Hs).
  destruct (dv_announced d); [|by destruct Hs as (_ & _ & ->)].
  destruct Hs as (_ & _ & ->). by apply Hp.
Qed.

Lemma select_published o d ev d' :
  driver_inv o d -> published d -> (Connection_get_state (dv_conn d) = ConnEstablished -> dv_announced d = true) ->
  driver_event_ok ev -> drive_select d ev = Ret d' -> published d'.
Proof.
  intros Hinv Hp He Hev Hd. destruct (select_inv o d ev Hinv He Hev) as (d1 & Hd1 & (Hwf' & _) & _).
  rewrite Hd in Hd1. injection Hd1 as <-. apply drive_select_step in Hd as (E1 & E2 & E3 & _ & _ & Hs).
  unfold published. rewrite E1, E3. intros Ha Hst'. pose proof Hinv as (Hwf & _ & Hc).
  destruct (select_event d ev) as [cev|]; [|by rewrite Hs in *; apply Hp]. destruct Hs as [out Hs].
  assert (Hst : Connection_get_state (dv_conn d) = ConnEstablished).
  { pose proof (conn_step_lifecycle _ _ _ _ Hs) as Hl. unfold lifecycle in Hl. rewrite Hst' in Hl.
    destruct (Connection_get_state (dv_conn d)) as [| |reason]; [|done|by destruct Hl].
    specialize (Hc eq_refl). congruence. }
  rewrite (step_max_payload o _ _ _ _ Hwf Hwf' Hs); [by apply Hp|congruence].
Qed.

Lemma drive_published o : forall turns d d' effs,
  driver_inv o d -> published d -> Forall (fun t => driver_event_ok (snd t)) turns ->
  drive d turns = Ret (d', effs, false) -> driver_inv o d' /\ published d'.
Proof.
  induction turns as [|[env ev] turns IH]; intros d d' effs Hinv Hp Hevs; cbn [drive]; [by intros [= <- <-]|].
  apply Forall_cons in Hevs as [Hev Hevs].
  destruct (drive_turn d env) as [[[d1 e1] fin]|] eqn:Hd; [|done]. cbn [mbind panicking_bind]. destruct fin; [done|].
  destruct (turn_inv o d env d1 e1 Hinv Hd) as (Hinv1 & _ & _ & _ & _ & He).
  pose proof (turn_published o d env d1 e1 Hinv Hp Hd) as Hp1.
  destruct (select_inv o d1 ev Hinv1 He Hev) as (d2 & Hd2 & Hinv2 & _). rewrite Hd2. cbn [mbind panicking_bind].
  pose proof (select_published o d1 ev d2 Hinv1 Hp1 He Hev Hd2) as Hp2.
  destruct (drive d2 turns) as [[[d3 e3] fin]|] eqn:Hd3; [|done]. cbn [mbind panicking_bind].
  intros [= <- _ ->]. by apply (IH d2 d3 e3).
Qed.

End LimitLemmas.

(** ** Lemmas: a connection attempt ends *)

(** The handshake of a connecting connection is under way, with deadline
    [t]. *)
Definition attempting (t : Z) (c : Connection) : Prop :=
  match cn_state c with
  | StConnecting hs _ _ => ch_deadline hs = t /\
      match ch_state hs with CallerInduction | CallerConclusion _ => True | _ => False end
  | _ => True
  end.

Section AttemptLemmas.
Context `{CryptoPrimitives}.

Lemma handshake_attempting t hs now cif rs rk hs' :
  ch_deadline hs = t -> match ch_state hs with CallerInduction | CallerConclusion _ => True | _ => False end ->
  CallerHandshake_handle_handshake hs now cif rs rk = Ret (hs', Ok None) ->
  ch_deadline hs' = t /\ match ch_state hs' with CallerInduction | CallerConclusion _ => True | _ => False end.
Proof.
  intros Hd Hs. unfold CallerHandshake_handle_handshake.
  assert (Hind : CallerHandshake_on_induction_response hs now cif rs rk = Ret (hs', Ok None) ->
    ch_deadline hs' = t /\ match ch_state hs' with CallerInduction | CallerConclusion _ => True | _ => False end).
  { unfold CallerHandshake_on_induction_response. case_decide; [by intros [= <-]|]. case_if; [done|]. cbv zeta.
    destruct (match _ with Some _ => _ | None => Ret None end); [|done]. cbn [mbind panicking_bind]. intros [= <-]. ch.
    by destruct (pbkeylen_from_bits _). }
  assert (Hcon : Ret (CallerHandshake_on_conclusion_response hs cif) = Ret (hs', Ok None) ->
    ch_deadline hs' = t /\ match ch_state hs' with CallerInduction | CallerConclusion _ => True | _ => False end).
  { unfold CallerHandshake_on_conclusion_response. case_decide; [by intros [= <-]|].
    destruct (CallerHandshake_check_conclusion hs cif); [|done].
    by destruct (CallerHandshake_check_kmx hs cif) as [c1 [e|]]. }
  destruct (ch_state hs) eqn:E; [| |done..]; destruct (hs_handshake_type cif); done.
Qed.

Lemma attempting_open t c : Connection_get_state c <> ConnConnecting -> attempting t c.
Proof. unfold attempting, Connection_get_state. by destruct (cn_state c). Qed.

Lemma attempting_same t c c' : cn_state c' = cn_state c -> attempting t c -> attempting t c'.
Proof. unfold attempting. by intros ->. Qed.

Lemma attempting_close t c now reason shut : attempting t c -> attempting t (Connection_close_with c now reason shut).
Proof. unfold attempting, Connection_close_with. destruct (cn_state c) eqn:E; [by destruct shut..|by rewrite E]. Qed.

Lemma datagram_attempting t c now dg rng c' hs p ed :
  cn_state c = StConnecting hs p ed -> attempting t c ->
  Connection_handle_datagram c now dg rng = Ret c' -> attempting t c'.
Proof.
  intros Hst Ha. unfold Connection_handle_datagram. destruct (Packet_parse dg) as [[pk|err]|]; [| |done]; cbn [mbind panicking_bind].
  2: { destruct err; intros [= <-]; by apply (attempting_same t c). }
  unfold Connection_handle_packet. rewrite Hst. case_if; [by intros [= <-]|]. set (ct := Connection_touch c now).
  assert (Est : cn_state ct = StConnecting hs p ed) by done.
  assert (Hat : attempting t ct) by by apply (attempting_same t c).
  assert (Hh : ch_deadline hs = t /\ match ch_state hs with CallerInduction | CallerConclusion _ => True | _ => False end)
    by (unfold attempting in Hat; by rewrite Est in Hat).
  clearbody ct. destruct pk as [d|ctrl].
  - unfold Connection_handle_data_packet. cn. rewrite Est. cbn [mbind panicking_bind]. intros [= <-].
    unfold attempting. repeat case_if; cn; by rewrite ?Est.
  - unfold Connection_handle_control_packet.
    destruct (cp_control_type ctrl); try (by intros [= <-]);
      try (unfold Connection_handle_transmission_control, Connection_handle_kmreq; rewrite Est; by intros [= <-]).
    + unfold Connection_handle_handshake_packet. rewrite Est.
      destruct (CallerHandshake_handle_handshake _ _ _ _ _) as [[hs' res]|] eqn:Hr; [|done]. cbn [mbind panicking_bind].
      destruct res as [[ng|]|err].
      * unfold Connection_establish. cn. destruct (transmission_pair _ _ _ _) as [s r].
        destruct (ingest_early _ _ _) as [[r1 e1]|]; [|done]. cbn [mbind panicking_bind].
        destruct (push_pending _ _ _ _) as [[s2 e2]|]; [|done]. cbn [mbind panicking_bind]. by intros [= <-].
      * intros [= <-]. unfold attempting. cn. destruct Hh. by eapply handshake_attempting.
      * intros [= <-]. unfold Connection_close_with. by cn.
    + intros [= <-]. by apply attempting_close.
    + unfold Connection_handle_kmrsp. rewrite Est. by intros [= <-].
Qed.

Lemma step_attempting t c ev c' out : attempting t c -> conn_step c ev = Ret (c', out) -> attempting t c'.
Proof.
  intros Ha Hs. destruct (cn_state c) as [hs p ed|s r e|rs r] eqn:Hst.
  2, 3: apply attempting_open; intros Hc; apply conn_step_lifecycle in Hs; unfold lifecycle in Hs; rewrite Hc in Hs;
    unfold Connection_get_state in Hs; rewrite Hst in Hs; by try destruct Hs.
  destruct ev as [now dg rng|now|now payload|now|now|now|i ts]; cbn [conn_step] in Hs.
  - destruct (Connection_handle_datagram c now dg rng) as [c1|] eqn:Hd; [|done]. cbn [mbind panicking_bind] in Hs.
    injection Hs as <- _. by eapply datagram_attempting.
  - unfold Connection_handle_timer in Hs. rewrite Hst in Hs. cbn [mbind panicking_bind] in Hs. injection Hs as <- _.
    case_if; [by apply attempting_close|done].
  - unfold Connection_send in Hs. rewrite Hst in Hs. unfold attempting in *. rewrite Hst in Ha.
    destruct (_ <? _) in Hs; injection Hs as <- _; cn; by rewrite ?Hst.
  - injection Hs as <- _. unfold Connection_close. rewrite Hst. by apply attempting_close.
  - unfold Connection_poll_transmit, Connection_next_transmit in Hs. unfold attempting in *. rewrite Hst in Ha, Hs.
    destruct (cn_transmit_q c); [|cbn [mbind panicking_bind] in Hs; injection Hs as <- _; cn; by rewrite Hst].
    unfold CallerHandshake_poll_transmit in Hs. destruct (ch_state hs) eqn:Es; try (by destruct Ha);
      destruct (_ || _) in Hs; cbn [mbind panicking_bind] in Hs; injection Hs as <- _; cn; ch; by rewrite Es.
  - unfold Connection_poll_deliver in Hs. rewrite Hst in Hs. cbn [mbind panicking_bind] in Hs. by injection Hs as <- _.
  - injection Hs as <- _. unfold Connection_set_hs_anchor. by rewrite Hst.
Qed.

Lemma drain_transmit_attempting t io now answers : forall fuel c sent stats c' stats' effs,
  attempting t c -> drain_transmit fuel c io now answers sent stats = Ret (c', stats', effs) -> attempting t c'.
Proof.
  induction fuel as [|fuel IH]; intros c sent stats c' stats' effs Ha; [done|]. cbn [drain_transmit].
  destruct (Connection_poll_transmit c now) as [[c1 p]|] eqn:Hp; [|done]. cbn [mbind panicking_bind].
  assert (Ha1 : attempting t c1).
  { apply (step_attempting t c (EvTransmit now) c1 (OutPacket p)); [done|]. cbn [conn_step]. by rewrite Hp. }
  destruct p as [p|]; [|by intros [= <- _ _]]. destruct (DriverIo_send_packet io p (answers sent)) as [eff k].
  destruct (drain_transmit fuel c1 _ _ _ _ _) as [[[c2 st] e]|] eqn:Hd; [|done]. cbn [mbind panicking_bind].
  intros [= <- _ _]. by eapply IH.
Qed.

Lemma drain_deliver_attempting t now : forall fuel c c' effs,
  attempting t c -> drain_deliver fuel c now = Ret (c', effs) -> attempting t c'.
Proof.
  induction fuel as [|fuel IH]; intros c c' effs Ha; [done|]. cbn [drain_deliver].
  destruct (Connection_poll_deliver c now) as [[c1 p]|] eqn:Hp; [|done]. cbn [mbind panicking_bind].
  assert (Ha1 : attempting t c1).
  { apply (step_attempting t c (EvDeliver now) c1 (OutPayload p)); [done|]. cbn [conn_step]. by rewrite Hp. }
  destruct p as [p|]; [|by intros [= <- _]].
  destruct (drain_deliver fuel c1 now) as [[c2 e]|] eqn:Hd; [|done]. cbn [mbind panicking_bind].
  intros [= <- _]. by eapply IH.
Qed.

Lemma turn_attempting t d env d' effs :
  attempting t (dv_conn d) -> drive_turn d env = Ret (d', effs, false) -> attempting t (dv_conn d').
Proof.
  intros Ha. unfold drive_turn, drive_drain.
  destruct (drain_transmit _ (dv_conn d) _ _ _ _ _) as [[[c1 st] e1]|] eqn:Hd; [|done]. cbn [mbind panicking_bind].
  apply drain_transmit_attempting with (t := t) in Hd; [|done].
  destruct (drain_deliver _ c1 _) as [[c2 e2]|] eqn:Hd2; [|done]. cbn [mbind panicking_bind].
  apply drain_deliver_attempting with (t := t) in Hd2; [|done]. dv. destruct (Connection_get_state c2).
  - by intros [= <- _].
  - destruct (dv_announced d); [by intros [= <- _]|]. unfold signal. dv. by destruct (dv_established_tx d); intros [= <- _].
  - unfold signal. dv. by destruct (dv_established_tx d); dv; destruct (drain_deliver _ c2 _) as [[? ?]|].
Qed.

Lemma drive_attempting t : forall turns d d' effs,
  attempting t (dv_conn d) -> drive d turns = Ret (d', effs, false) -> attempting t (dv_conn d').
Proof.
  induction turns as [|[env ev] turns IH]; intros d d' effs Ha; cbn [drive]; [by intros [= <- _]|].
  destruct (drive_turn d env) as [[[d1 e1] fin]|] eqn:Hd; [|done]. cbn [mbind panicking_bind]. destruct fin; [done|].
  apply turn_attempting with (t := t) in Hd; [|done].
  destruct (drive_select d1 ev) as [d2|] eqn:Hd2; [|done]. cbn [mbind panicking_bind].
  assert (Ha2 : attempting t (dv_conn d2)).
  { apply drive_select_step in Hd2 as (_ & _ & _ & _ & _ & Hs).
    destruct (select_event d1 ev) as [cev|]; [|by rewrite Hs]. destruct Hs as [out Hs]. by eapply step_attempting. }
  destruct (drive d2 turns) as [[[d3 e3] fin]|] eqn:Hd3; [|done]. cbn [mbind panicking_bind].
  intros [= <- _ ->]. by apply (IH d2 d3 e3).
Qed.

(** With nothing queued, the timer of an attempt can fire at its deadline. *)
Lemma attempt_wakes t d now :
  attempting t (dv_conn d) -> Connection_get_state (dv_conn d) = ConnConnecting -> cn_transmit_q (dv_conn d) = [] ->
  driver_enabled d now (DvTimer t) = true.
Proof.
  unfold attempting, Connection_get_state, driver_enabled, Connection_next_deadline, CallerHandshake_next_deadline.
  destruct (cn_state (dv_conn d)) as [hs p ed|s r e|rs r]; [|done..]. intros [Hd Hs] _ ->.
  destruct (ch_state hs); try done; apply Z.leb_le; lia.
Qed.

End AttemptLemmas.

Section ResolveLemmas.
Context `{CryptoLaws}.

(** The timer at the deadline ends an attempt. *)
Lemma timer_times_out t d now :
  attempting t (dv_conn d) -> Connection_get_state (dv_conn d) = ConnConnecting -> t <= now ->
  exists d', drive_select d (DvTimer now) = Ret d' /\ Connection_get_state (dv_conn d') = ConnClosed CloseConnectTimeout.
Proof.
  unfold attempting, Connection_get_state, drive_select, Connection_handle_timer.
  destruct (cn_state (dv_conn d)) as [hs p ed|s r e|rs r] eqn:Hst; [|done..]. intros [Hd Hs] _ Hle.
  cbn [mbind panicking_bind]. eexists. split; [done|]. dv.
  replace (CallerHandshake_is_timed_out hs now) with true.
  - unfold Connection_close_with. rewrite Hst. by cn.
  - unfold CallerHandshake_is_timed_out. symmetry. destruct (ch_state hs); try done; apply Z.leb_le; lia.
Qed.

Lemma timer_ends_attempt o t d env now env2 ev2 :
  driver_inv o d -> attempting t (dv_conn d) -> t <= now -> driver_event_ok ev2 -> dv_established_tx d = true ->
  exists d' effs fin, drive d [(env, DvTimer now); (env2, ev2)] = Ret (d', effs, fin) /\ exists r, signals effs = [r].
Proof.
  intros Hinv Ha Hle Hev2 Htx. assert (Hok : Forall (fun x => driver_event_ok (snd x)) [(env, DvTimer now); (env2, ev2)])
    by (repeat constructor; done).
  destruct (drive_ok o [(env, DvTimer now); (env2, ev2)] d Hinv Hok) as (d' & effs & fin & Hd & _ & Hm & _).
  exists d', effs, fin. split; [done|]. rewrite Htx in Hm.
  destruct (signals effs) as [|r [|]] eqn:Hsig; [|by eauto|by destruct r]. exfalso.
  revert Hd. cbn [drive]. pose proof Hinv as (Hwf & _).
  destruct (drive_turn_ok o d env Hwf) as (d1 & e1 & f1 & Hd1 & Hwf1 & Hst & _ & _ & _ & Hspec). rewrite Hd1.
  cbn [mbind panicking_bind]. destruct f1; [intros [= <- <- <-]; by specialize (Hm eq_refl)|].
  destruct (turn_inv o d env d1 e1 Hinv Hd1) as (Hinv1 & _ & Hnc & Hs1 & _ & He1).
  rewrite Htx in Hs1. cbn [andb] in Hs1.
  pose proof (turn_attempting t d env d1 e1 Ha Hd1) as Ha1.
  destruct (Connection_get_state (dv_conn d1)) as [| |reason] eqn:Hc1; [| |by destruct (Hnc reason)].
  + destruct (timer_times_out t d1 now Ha1 Hc1 Hle) as (d2 & Hd2 & Hc2). rewrite Hd2. cbn [mbind panicking_bind].
    destruct (select_inv o d1 (DvTimer now) Hinv1 ltac:(by rewrite Hc1) I) as (d2' & Hd2' & (Hwf2 & _) & _).
    rewrite Hd2 in Hd2'. injection Hd2' as <-.
    destruct (drive_turn_ok o d2 env2 Hwf2) as (d3 & e3 & f3 & Hd3 & _ & _ & _ & _ & _ & Hspec3). rewrite Hd3.
    unfold turn_spec in Hspec3. rewrite Hc2 in Hspec3. destruct Hspec3 as (-> & _ & _ & _ & Hs3 & _).
    cbn [mbind panicking_bind]. intros [= <- <- <-]. by specialize (Hm eq_refl).
  + assert (dv_established_tx d1 = false) as Ht1 by (destruct Hinv1 as (_ & Hx & _); by apply Hx, He1).
    rewrite Ht1 in Hs1. cbn [negb] in Hs1. intros Hd.
    assert (exists e', effs = e1 ++ e') as [e' ->].
    { destruct (drive_select d1 (DvTimer now)) as [d2|]; [|done]. cbn [mbind panicking_bind] in Hd.
      destruct (drive_turn d2 env2) as [[[d3 e3] f3]|]; [|done]. cbn [mbind panicking_bind] in Hd.
      destruct f3; [injection Hd as _ <- _; by eexists|]. destruct (drive_select d3 ev2) as [d4|]; [|done].
      cbn [mbind panicking_bind] in Hd. injection Hd as _ <- _. by eexists. }
    rewrite signals_app, Hs1 in Hsig. done.
Qed.

Lemma attempt_ends o t : forall turns d env now env2 ev2,
  driver_inv o d -> attempting t (dv_conn d) -> t <= now ->
  Forall (fun x => driver_event_ok (snd x)) turns -> driver_event_ok ev2 ->
  exists d' effs fin, drive d (turns ++ [(env, DvTimer now); (env2, ev2)]) = Ret (d', effs, fin) /\
    (dv_established_tx d = true -> exists r, signals effs = [r]).
Proof.
  induction turns as [|[env0 ev0] turns IH]; intros d env now env2 ev2 Hinv Ha Hle Hevs Hev2.
  - cbn [app]. destruct (dv_established_tx d) eqn:Htx.
    + destruct (timer_ends_attempt o t d env now env2 ev2) as (d' & effs & fin & Hd & Hr); try done.
      by exists d', effs, fin.
    + destruct (drive_ok o [(env, DvTimer now); (env2, ev2)] d Hinv) as (d' & effs & fin & Hd & _).
      { by repeat constructor. }
      by exists d', effs, fin.
  - cbn [app drive]. apply Forall_cons in Hevs as [Hev0 Hevs]. pose proof Hinv as (Hwf & _).
    destruct (drive_turn_ok o d env0 Hwf) as (d1 & e1 & f1 & Hd1 & _ & _ & _ & _ & _ & Hspec). rewrite Hd1.
    cbn [mbind panicking_bind]. destruct f1.
    + exists d1, e1, true. split; [done|]. intros Htx. unfold turn_spec in Hspec.
      destruct (Connection_get_state (dv_conn d)); [by destruct Hspec..|]. destruct Hspec as (_ & _ & _ & _ & Hs & _).
      rewrite Htx in Hs. by eexists.
    + destruct (turn_inv o d env0 d1 e1 Hinv Hd1) as (Hinv1 & _ & _ & Hs1 & _ & He1).
      destruct (select_inv o d1 ev0 Hinv1 He1 Hev0) as (d2 & Hd2 & Hinv2 & _ & Ht2 & _). rewrite Hd2. cbn [mbind panicking_bind].
      assert (Ha2 : attempting t (dv_conn d2)).
      { pose proof (turn_attempting t d env0 d1 e1 Ha Hd1) as Ha1. apply drive_select_step in Hd2 as (_ & _ & _ & _ & _ & Hs).
        destruct (select_event d1 ev0) as [cev|]; [|by rewrite Hs]. destruct Hs as [out Hs]. by eapply step_attempting. }
      destruct (IH d2 env now env2 ev2 Hinv2 Ha2 Hle Hevs Hev2) as (d3 & e3 & fin & Hd3 & Hsig). rewrite Hd3.
      cbn [mbind panicking_bind]. exists d3, (e1 ++ e3), fin. split; [done|]. intros Htx. rewrite signals_app, Hs1, Htx.
      destruct (dv_established_tx d1) eqn:Ht1; cbn [andb negb app]; [by apply Hsig; rewrite Ht2|].
      exists (Ok tt). destruct (drive_ok o (turns ++ [(env, DvTimer now); (env2, ev2)]) d2 Hinv2) as
        (d4 & e4 & f4 & Hd4 & _ & _ & Hno & _).
      { apply Forall_app. split; [done|]. by repeat constructor. }
      rewrite Hd3 in Hd4. injection Hd4 as <- <- <-. by rewrite Hno.
Qed.

(** A closed connection sends what is queued, and nothing else. *)
Lemma drain_transmit_closed io now answers reason r : forall fuel c sent stats c' stats' effs,
  cn_state c = StClosed reason r -> drain_transmit fuel c io now answers sent stats = Ret (c', stats', effs) ->
  datagrams effs = (fun p => Packet_encode (stamp c now p) []) <$> cn_transmit_q c.
Proof.
  induction fuel as [|fuel IH]; intros c sent stats c' stats' effs Hst; [done|]. cbn [drain_transmit].
  unfold Connection_poll_transmit, Connection_next_transmit. destruct (cn_transmit_q c) as [|p q].
  { rewrite Hst. cbn [mbind panicking_bind]. by intros [= _ _ <-]. }
  cbn [mbind panicking_bind].
  match goal with |- context [drain_transmit fuel ?x io now answers (S sent)] => set (c1 := x) end.
  destruct (DriverIo_send_packet io _ _) as [eff k] eqn:He.
  destruct (drain_transmit fuel c1 io now answers (S sent) _) as [[[c2 st] e]|] eqn:Hd; [|done].
  cbn [mbind panicking_bind]. intros [= _ _ <-]. apply IH in Hd; [|done].
  unfold DriverIo_send_packet in He.
  assert (datagrams (eff :: e) = Packet_encode (stamp c now p) [] :: datagrams e) as ->.
  { assert (stamp c1 now p = stamp c now p) as <-.
    { unfold stamp, control_dst. subst c1. cn. by rewrite Hst. }
    destruct p; cbn in He; by injection He as <- _. }
  rewrite fmap_cons. f_equal. rewrite Hd. subst c1. cn. apply list_fmap_ext. by intros i x _.
Qed.

Lemma closed_turn_datagrams o d env d' effs fin reason r :
  Connection_wf o (dv_conn d) -> cn_state (dv_conn d) = StClosed reason r ->
  drive_turn d env = Ret (d', effs, fin) ->
  datagrams effs = (fun p => Packet_encode (stamp (dv_conn d) (te_now env) p) []) <$> cn_transmit_q (dv_conn d).
Proof.
  intros Hwf Hst. unfold drive_turn, drive_drain.
  destruct (drain_transmit_ok o (dv_io d) (te_now env) (te_answers env) (S (owed_packets (dv_conn d) (te_now env)))
    (dv_conn d) 0 (dv_output_stats d) Hwf) as (c1 & stats & e1 & c0 & Hd & Hwf1 & Hst1 & _); [lia|].
  pose proof (drain_transmit_closed _ _ _ _ _ _ _ _ _ _ _ _ Hst Hd) as He1. rewrite Hd. cbn [mbind panicking_bind].
  destruct (drain_deliver_ok o (te_now env) (S (owed_payloads c1)) c1 Hwf1) as (c2 & e2 & c3 & -> & Hwf2 & Hst2 & _ & Hall2);
    [lia|]. apply delivers_silent in Hall2 as [_ He2].
  cbn [mbind panicking_bind]. dv.
  assert (Connection_get_state c2 = ConnClosed reason) as ->.
  { rewrite Hst2, Hst1. unfold Connection_get_state. by rewrite Hst. }
  destruct (drain_deliver_ok o (te_close_now env + CLOSE_DRAIN_HORIZON) (S (owed_payloads c2)) c2 Hwf2)
    as (c4 & e4 & c5 & Hd4 & _ & _ & _ & Hall4); [lia|]. apply delivers_silent in Hall4 as [_ He4].
  assert (forall sig, datagrams sig = [] -> datagrams ((e1 ++ e2) ++ sig ++ e4) = datagrams e1) as He
    by (intros sig Hsig; rewrite !datagrams_app, He2, He4, Hsig; by rewrite !app_nil_r).
  unfold signal. dv. destruct (dv_established_tx d); dv; rewrite Hd4; cbn [mbind panicking_bind]; intros [= _ <- _];
    rewrite <- He1; by apply (He [Signal _]) || apply (He []).
Qed.

End ResolveLemmas.

(** ** Properties *)

(** C12: the task of a connection never hangs or panics: each turn's two
    draining loops end, over every sequence of datagrams, socket errors,
    commands, timers and clock readings, and when the task returns the
    connection is closed and its reason is where the handle reads it.  A
    waiting [connect] is signalled at most once, and exactly once when the
    task has returned: with success, or with the error for the recorded
    reason. *)
Theorem connection_task_is_sound `{CryptoLaws} `{CookieHash} (o : SrtOptions) (c : Connection) (io : DriverIo)
    (waiting : bool) (turns : list (turn_env * driver_event)) :
  Options_wf o -> conn_start o c -> (Connection_get_state c = ConnEstablished -> waiting = false) ->
  Forall (fun t => driver_event_ok (snd t)) turns ->
  exists d effs fin, drive (spawn_connection c io waiting) turns = Ret (d, effs, fin) /\
    Connection_wf o (dv_conn d) /\
    (fin = true -> exists reason, Connection_get_state (dv_conn d) = ConnClosed reason /\
       sh_close_reason (dv_shared d) = Some reason) /\
    match signals effs with
    | [] => fin = true -> waiting = false
    | [Ok _] => waiting = true
    | [Err e] => waiting = true /\ fin = true /\
        exists reason, sh_close_reason (dv_shared d) = Some reason /\ e = connect_error reason
    | _ => False
    end.
Proof.
  intros Ho Hc Hw Hevs.
  assert (Hinv : driver_inv o (spawn_connection c io waiting)) by by apply spawn_inv; [apply conn_start_wf|].
  destruct (drive_ok o turns (spawn_connection c io waiting) Hinv Hevs) as (d & effs & fin & Hd & Hwf & Hm & _ & Hf).
  by exists d, effs, fin.
Qed.

(** C14: a connection attempt always ends: while [connect] waits, every turn
    that leaves the connection connecting goes to sleep with a timer that
    fires at the connect timeout or before; and when the timer fires then or
    later, whatever happened before, [connect] has its answer by the next
    turn. *)
Theorem connect_always_resolves `{CryptoLaws} `{CookieHash} (o : SrtOptions) (lookup : result Z (list SocketAddr))
    (bound connected : result Z unit) (now id isn t : Z) (d : Driver) (turns : list (turn_env * driver_event))
    (env env2 : turn_env) (ev2 : driver_event) :
  Options_wf o -> SeqNumber_wf isn -> SrtSocket_connect o lookup bound connected now id isn = Ok d ->
  Forall (fun x => driver_event_ok (snd x)) turns -> driver_event_ok ev2 -> now + so_connect_timeout o <= t ->
  (forall d1 effs1 d2 effs2 deadline_now,
     drive d turns = Ret (d1, effs1, false) -> drive_turn d1 env = Ret (d2, effs2, false) ->
     Connection_get_state (dv_conn d2) = ConnConnecting ->
     driver_enabled d2 deadline_now (DvTimer (now + so_connect_timeout o)) = true) /\
  (exists d' effs fin r, drive d (turns ++ [(env, DvTimer t); (env2, ev2)]) = Ret (d', effs, fin) /\ signals effs = [r]).
Proof.
  intros Ho Hisn Hc Hevs Hev2 Ht. revert Hc. unfold SrtSocket_connect. destruct (match so_streamid o with Some _ => _ | None => _ end); [done|].
  destruct (SrtOptions_crypto_config o) as [cfg|] eqn:Hcfg; [|done]. destruct (Bandwidth_validate _); [|done].
  destruct (resolve_v4 lookup) as [remote|]; [|done]. destruct bound, connected; try done. intros [= <-].
  set (d := spawn_connection (Connection_connect now remote id isn o) Connected true).
  assert (Hinv : driver_inv o d).
  { apply spawn_inv; [|done]. apply conn_start_wf; [done|]. by apply (StartConnect o now remote id isn (mkTimebase now)). }
  assert (Ha : attempting (now + so_connect_timeout o) (dv_conn d)).
  { unfold attempting. cbn. unfold CallerHandshake_new. by rewrite Hcfg. }
  split.
  - intros d1 effs1 d2 effs2 dn Hd1 Hd2 Hst. pose proof (drive_attempting _ _ _ _ _ Ha Hd1) as Ha1.
    destruct (drive_published o turns d d1 effs1 Hinv ltac:(done) Hevs Hd1) as [Hinv1 _].
    destruct (turn_inv o d1 env d2 effs2 Hinv1 Hd2) as (_ & Hq & _).
    apply attempt_wakes; [by apply (turn_attempting _ d1 env d2 effs2)|done|done].
  - destruct (attempt_ends o (now + so_connect_timeout o) turns d env t env2 ev2) as (d' & effs & fin & Hd & Hs); try done.
    destruct (Hs eq_refl) as [r Hr]. by exists d', effs, fin, r.
Qed.

(** C27: closing says goodbye: when the handle is closed or dropped, or the
    listener's task is gone, the next turn is the last; an established
    connection sends one SHUTDOWN to the peer and nothing else, the
    recorded reason is the local close, and everything the receive buffer
    can release within the horizon has been handed over. *)
Theorem closing_says_goodbye `{CryptoLaws} (o : SrtOptions) (d d1 d2 : Driver) (env env2 : turn_env)
    (effs : list driver_effect) (now : Z) (rng : Rng) (ev : driver_event) :
  driver_inv o d -> drive_turn d env = Ret (d1, effs, false) ->
  ev = DvCmd now None \/ ev = DvCmd now (Some CmdClose) \/ ev = DvRecv now (ChannelRead None) rng ->
  drive_select d1 ev = Ret d2 ->
  let c := dv_conn d1 in
  exists d3 effs3 c0, drive_turn d2 env2 = Ret (d3, effs3, true) /\
    sh_close_reason (dv_shared d3) = Some CloseLocal /\
    datagrams effs3 = match Connection_get_state c with
                      | ConnEstablished =>
                          [Packet_encode (Control (mkControlPacket (Timebase_timestamp (cn_timebase c) (te_now env2))
                             (cn_peer_socket_id c) Shutdown)) []]
                      | _ => []
                      end /\
    Connection_poll_deliver c0 (te_close_now env2 + CLOSE_DRAIN_HORIZON) = Ret (dv_conn d3, None).
Proof.
  intros Hinv Hd Hev Hsel c. destruct (turn_inv o d env d1 effs Hinv Hd) as (Hinv1 & Hq & Hnc & _ & _ & He).
  assert (Hs : dv_conn d2 = Connection_close c now /\ Connection_wf o (dv_conn d2)).
  { destruct (select_inv o d1 (DvCmd now None) Hinv1 He I) as (dx & Hdx & (Hwfx & _) & _).
    cbn [drive_select] in Hdx. injection Hdx as <-. destruct Hev as [-> | [-> | ->]]; cbn in Hsel; by injection Hsel as <-. }
  destruct Hs as [Ec Hwf2].
  destruct (drive_turn_ok o d2 env2 Hwf2) as (d3 & effs3 & fin & Hd3 & _ & _ & _ & _ & _ & Hspec).
  assert (Hst : exists r, cn_state (dv_conn d2) = StClosed CloseLocal r /\
    cn_transmit_q (dv_conn d2) = match Connection_get_state c with ConnEstablished => [control Shutdown] | _ => [] end /\
    cn_timebase (dv_conn d2) = cn_timebase c /\ cn_peer_socket_id (dv_conn d2) = cn_peer_socket_id c).
  { rewrite Ec. unfold Connection_close, Connection_close_with, Connection_get_state.
    fold c in Hq. unfold Connection_get_state in Hnc. fold c in Hnc.
    destruct (cn_state c) as [hs p ed|s r e|rs r]; [| |by destruct (Hnc rs)]; cn; rewrite ?Hq; by eexists. }
  destruct Hst as (r & Hst & Hq2 & Etb & Epeer). pose proof (closed_turn_datagrams o d2 env2 d3 effs3 fin CloseLocal r Hwf2 Hst Hd3) as Hdg.
  unfold turn_spec in Hspec. assert (Hg : Connection_get_state (dv_conn d2) = ConnClosed CloseLocal)
    by (unfold Connection_get_state; by rewrite Hst).
  rewrite Hg in Hspec. destruct Hspec as (-> & Hr & _ & _ & _ & _ & c0 & Hc0).
  exists d3, effs3, c0. do 2 (split; [done|]). split; [|done]. rewrite Hdg, Hq2.
  destruct (Connection_get_state c); cbn; try done. by rewrite Etb, Epeer.
Qed.

(** C28: the handle's size check is the core's: on an established connection
    a payload the handle's [send] passes on is taken by the core, never
    refused as too large, also when the peer's MSS lowered the limit after
    the handle's connection was configured. *)
Theorem handle_limit_is_negotiated `{CryptoLaws} `{CookieHash} (o : SrtOptions) (c : Connection) (io : DriverIo)
    (waiting open : bool) (turns : list (turn_env * driver_event)) (d : Driver) (effs : list driver_effect) (now : Z)
    (payload : bytes) (cmd : Cmd) :
  Options_wf o -> conn_start o c -> (Connection_get_state c = ConnEstablished -> waiting = false) ->
  Forall (fun t => driver_event_ok (snd t)) turns ->
  drive (spawn_connection c io waiting) turns = Ret (d, effs, false) ->
  Connection_get_state (dv_conn d) = ConnEstablished -> dv_announced d = true ->
  SrtSocket_send (dv_shared d) payload open = Ok cmd ->
  cmd = CmdSend payload /\ exists c', Connection_send (dv_conn d) now payload = Ret (c', Ok tt).
Proof.
  intros Ho Hc Hw Hevs Hd Hst Ha Hsend.
  assert (Hinv : driver_inv o (spawn_connection c io waiting)) by by apply spawn_inv; [apply conn_start_wf|].
  destruct (drive_published o turns _ d effs Hinv ltac:(done) Hevs Hd) as [((_ & _ & Hs) & _) Hp].
  specialize (Hp Ha Hst). unfold SrtSocket_send in Hsend. rewrite Hp in Hsend.
  unfold Connection_max_payload, Connection_get_state, Connection_send in *.
  destruct (cn_state (dv_conn d)) as [hs p ed|s r e|rs r]; [done| |done]. destruct Hs as (Hs & _ & _ & He).
  destruct (Z.ltb_spec (Z.of_nat (sc_max_payload (sn_cfg s))) (Z.of_nat (length payload))); [done|].
  destruct open; [|done]. injection Hsend as <-. split; [done|].
  destruct (Sender_push_ok s now payload e Hs) as (s' & e' & -> & _); [by destruct e|lia|]. by eexists.
Qed.

(** ** Witnesses *)

Section Witnesses.

#[local] Existing Instance toy_primitives.
#[local] Existing Instance toy_laws.
#[local] Existing Instance toy_cookie.

(** A turn at [now] in which the kernel takes every datagram. *)
Definition demo_turn (now : Z) : turn_env := mkTurnEnv now now (fun _ => Ok 1472%nat).

(** The two results of a run that the outside sees. *)
Definition demo_result (r : panicking (Driver * list driver_effect * bool)) : list (result SrtError unit) * bool :=
  match r with Ret (_, effs, fin) => (signals effs, fin) | Panic => ([], false) end.

Definition demo_attempt : list (turn_env * driver_event) :=
  [(demo_turn 0, DvRecv 2 (UdpRead (Ok [128; 0; 7])) demo_rng);
   (demo_turn 3, DvTimer (from_secs 3)); (demo_turn (from_secs 3), DvTimer (from_secs 3))].

(** A caller whose peer answers garbage reports the timeout once and ends. *)
Lemma connection_task_is_sound_witness :
  exists d effs, drive (spawn_connection demo_caller Connected true) demo_attempt = Ret (d, effs, true) /\
    signals effs = [Err (connect_error CloseConnectTimeout)] /\
    (exists reason, Connection_get_state (dv_conn d) = ConnClosed reason /\ sh_close_reason (dv_shared d) = Some reason).
Proof.
  destruct (connection_task_is_sound SrtOptions_default demo_caller Connected true demo_attempt)
    as (d & effs & fin & Hd & _ & Hf & _).
  - by split; [|split; [|cbn; lia]].
  - apply StartConnect. split; [discriminate|reflexivity].
  - discriminate.
  - repeat constructor; try done; intros n; apply length_replicate.
  - assert (Hx : demo_result (drive (spawn_connection demo_caller Connected true) demo_attempt) =
      ([Err (connect_error CloseConnectTimeout)], true)) by (vm_compute; reflexivity).
    rewrite Hd in Hx. cbn [demo_result] in Hx. injection Hx as Hs ->. exists d, effs. split; [exact Hd|].
    split; [exact Hs|]. exact (Hf eq_refl).
Defined.

(** A peer that never answers. *)
Lemma connect_always_resolves_witness :
  exists d d' effs fin r,
    SrtSocket_connect SrtOptions_default (Ok [V4 demo_addr]) (Ok tt) (Ok tt) 0 7 100 = Ok d /\
    drive d [(demo_turn 0, DvTimer (from_secs 3)); (demo_turn (from_secs 3), DvCmd (from_secs 3) None)] = Ret (d', effs, fin) /\
    signals effs = [r].
Proof.
  eexists. destruct (connect_always_resolves SrtOptions_default (Ok [V4 demo_addr]) (Ok tt) (Ok tt) 0 7 100 (from_secs 3)
    (spawn_connection (Connection_connect 0 demo_addr 7 100 SrtOptions_default) Connected true) []
    (demo_turn 0) (demo_turn (from_secs 3)) (DvCmd (from_secs 3) None)) as (_ & d' & effs & fin & r & Hd & Hr).
  - by split; [|split; [|cbn; lia]].
  - split; [discriminate|reflexivity].
  - reflexivity.
  - constructor.
  - exact I.
  - apply Z.leb_le. reflexivity.
  - exists d', effs, fin, r. split; [reflexivity|]. split; [exact Hd|exact Hr].
Defined.

(** The handle of an accepted connection is dropped. *)
Lemma closing_says_goodbye_witness :
  exists d1 effs d2 d3 effs3,
    drive_turn (spawn_connection demo_accepted (Demux demo_addr) false) (demo_turn 0) = Ret (d1, effs, false) /\
    drive_select d1 (DvCmd 1000 None) = Ret d2 /\ drive_turn d2 (demo_turn 1000) = Ret (d3, effs3, true) /\
    sh_close_reason (dv_shared d3) = Some CloseLocal /\
    datagrams effs3 = [Packet_encode (Control (mkControlPacket 1 7 Shutdown)) []].
Proof.
  destruct (drive_turn (spawn_connection demo_accepted (Demux demo_addr) false) (demo_turn 0)) as [[[d1 effs] fin]|] eqn:Hd.
  2: { apply (f_equal (fun r => match r with Ret _ => true | Panic => false end)) in Hd. by vm_compute in Hd. }
  pose proof (f_equal (fun r => match r with
    | Ret (d, _, f) => (f, Connection_get_state (dv_conn d), cn_timebase (dv_conn d), cn_peer_socket_id (dv_conn d))
    | Panic => (true, ConnConnecting, mkTimebase 1, 0) end) Hd) as Hx.
  assert (Hy : (false, ConnEstablished, mkTimebase 0, 7) =
    (fin, Connection_get_state (dv_conn d1), cn_timebase (dv_conn d1), cn_peer_socket_id (dv_conn d1)))
    by (etransitivity; [|exact Hx]; vm_compute; reflexivity).
  clear Hx. injection Hy as Ef Es Et Ep. subst fin.
  destruct (closing_says_goodbye SrtOptions_default _ d1 _ (demo_turn 0) (demo_turn 1000) effs 1000 demo_rng (DvCmd 1000 None)
    (spawn_inv SrtOptions_default demo_accepted (Demux demo_addr) false demo_accepted_wf (fun _ => eq_refl)) Hd
    (or_introl eq_refl) eq_refl) as (d3 & effs3 & c0 & H3 & Hr & Hg & _).
  exists d1, effs. eexists. exists d3, effs3. split; [reflexivity|]. split; [reflexivity|]. split; [exact H3|].
  split; [exact Hr|]. rewrite <- Es, <- Et, <- Ep in Hg. exact Hg.
Defined.

Definition demo_established : Connection :=
  match Listener_handle_handshake (Listener_new 99 (mkTimebase 0) SrtOptions_default) 0
          (mkSocketAddrV4 [10; 0; 0; 2] 5000) demo_conclusion 8 with
  | Ret (Accept reply ng) => Connection_accepted_with_timebase 0 ng reply SrtOptions_default (mkTimebase 0)
  | _ => demo_accepted
  end.

(** The peer asked for an MSS of 1400; a payload of 1356 octets fits. *)
Lemma handle_limit_is_negotiated_witness :
  exists c', Connection_send demo_established 5 (replicate 1356 1) = Ret (c', Ok tt).
Proof.
  refine (proj2 (handle_limit_is_negotiated SrtOptions_default demo_established (Demux demo_addr) false true []
    (spawn_connection demo_established (Demux demo_addr) false) [] 5 (replicate 1356 1) (CmdSend (replicate 1356 1)) _ _ _ _ _ _ _ _)).
  - by split; [|split; [|cbn; lia]].
  - unfold demo_established.
    destruct (Listener_handle_handshake _ 0 _ demo_conclusion 8) as [[p|reply ng|]|] eqn:Ha; [by vm_compute in Ha| |by vm_compute in Ha..].
    eapply StartAccepted; [exact Ha|]. split; [discriminate|reflexivity].
  - reflexivity.
  - constructor.
  - reflexivity.
  - vm_compute. reflexivity.
  - vm_compute. reflexivity.
  - vm_compute. reflexivity.
Defined.

End Witnesses.
