(* ===== verification/Url.v ===== *)
(** * The [srt://] URL of the example programs: [examples/common/url.rs] *)

From S2P Require Import Prelude Text.

(** ** Data *)

Record SrtUrl := mkSrtUrl {
  url_host : bytes;
  url_port : Z;
  url_params : list (bytes * bytes)
}.

(** The error texts, with what they quote. *)
Inductive url_error :=
| NotSrtUrl (s : bytes)
| MissingPort (addr : bytes)
| InvalidPort (addr : bytes).

(** ** Operations *)

Definition url_param (pair : bytes) : bytes * bytes :=
  match split_once (char "=") pair with
  | Some (k, v) => (k, v)
  | None => (pair, [])
  end.

Definition SrtUrl_parse (s : bytes) : result url_error SrtUrl :=
  match strip_prefix (str "srt://") s with
  | None => Err (NotSrtUrl s)
  | Some rest =>
      let '(addr, query) := default (rest, []) (split_once (char "?") rest) in
      match rsplit_once (char ":") addr with
      | None => Err (MissingPort addr)
      | Some (host, port) =>
          match parse_unsigned (2 ^ 16 - 1) port with
          | None => Err (InvalidPort addr)
          | Some port =>
              let params := url_param <$> filter (fun pair => pair <> []) (split (char "&") query) in
              let host := match host with [] => str "0.0.0.0" | _ => host end in
              Ok (mkSrtUrl host port params)
          end
      end
  end.

Definition SrtUrl_socket_addr (u : SrtUrl) : bytes * Z := (url_host u, url_port u).

(** [0.0.0.0] means "listen here". *)
Definition SrtUrl_is_listener (u : SrtUrl) : bool := bool_decide (url_host u = str "0.0.0.0").

(** ** Specification *)

(** The text of a URL: the parameters as [key=value] pairs. *)
Fixpoint render_params (params : list (bytes * bytes)) : bytes :=
  match params with
  | [] => []
  | [(k, v)] => k ++ char "=" :: v
  | (k, v) :: params => k ++ char "=" :: v ++ char "&" :: render_params params
  end.

Definition render_url (host : bytes) (port : Z) (params : list (bytes * bytes)) : bytes :=
  str "srt://" ++ host ++ char ":" :: decimal port ++ char "?" :: render_params params.

(** What can be written as a parameter. *)
Definition param_ok (p : bytes * bytes) : Prop :=
  char "=" ∉ fst p /\ char "&" ∉ fst p /\ char "&" ∉ snd p.

(** ** Lemmas *)

Lemma url_param_render k v : char "=" ∉ k -> url_param (k ++ char "=" :: v) = (k, v).
Proof. intros Hk. unfold url_param. by rewrite split_once_app. Qed.

Lemma no_amp_pair k v : char "&" ∉ k -> char "&" ∉ v -> char "&" ∉ k ++ char "=" :: v.
Proof.
  intros Hk Hv. rewrite not_elem_of_app, not_elem_of_cons. split; [done|]. split; [by vm_compute|done].
Qed.

Lemma split_render_params params :
  params <> [] -> Forall param_ok params ->
  filter (fun pair => pair <> []) (split (char "&") (render_params params)) =
    (fun '(k, v) => k ++ char "=" :: v) <$> params.
Proof.
  intros Hne Hp. induction params as [|[k v] params IH]; [done|]. apply Forall_cons in Hp as [(He & Hk & Hv) Hp].
  cbn [fst snd] in *. assert (Hpair : k ++ char "=" :: v <> []) by (by destruct k).
  destruct params as [|p params].
  - cbn [render_params]. rewrite split_word by by apply no_amp_pair. by rewrite filter_cons_True, filter_nil.
  - change (render_params ((k, v) :: p :: params)) with (k ++ char "=" :: v ++ char "&" :: render_params (p :: params)).
    replace (k ++ char "=" :: v ++ char "&" :: render_params (p :: params))
      with ((k ++ char "=" :: v) ++ char "&" :: render_params (p :: params)) by (by rewrite <- app_assoc).
    rewrite split_app by by apply no_amp_pair. rewrite filter_cons_True by done. rewrite IH by done. done.
Qed.

Lemma params_render params : Forall param_ok params ->
  url_param <$> filter (fun pair => pair <> []) (split (char "&") (render_params params)) = params.
Proof.
  intros Hp. destruct params as [|p params]; [done|]. rewrite split_render_params by done.
  rewrite <- list_fmap_compose. rewrite <- (list_fmap_id (p :: params)) at 2. apply list_fmap_ext.
  intros i [k v] Hi. apply list_elem_of_lookup_2 in Hi. rewrite Forall_forall in Hp.
  destruct (Hp _ Hi) as (He & _). by apply url_param_render.
Qed.

(** ** Properties *)

(** the URL parser reads back every URL it can be given: for a host
    without a question mark (an empty one is the wildcard address), any port
    of 16 bits and any parameters free of the separators, parsing the
    written URL yields the same host, port and parameters, in order. *)
Theorem srt_url_parse_render (host : bytes) (port : Z) (params : list (bytes * bytes)) :
  char "?" ∉ host -> is_u16 port -> Forall param_ok params ->
  SrtUrl_parse (render_url host port params) =
    Ok (mkSrtUrl (match host with [] => str "0.0.0.0" | _ => host end) port params).
Proof.
  intros Hh Hport Hp. unfold SrtUrl_parse, render_url. rewrite strip_prefix_app.
  assert (Hq : char "?" ∉ host ++ char ":" :: decimal port).
  { rewrite not_elem_of_app, not_elem_of_cons. split; [done|]. split; [by vm_compute|].
    apply decimal_no_char; [apply Hport|done]. }
  replace (host ++ char ":" :: decimal port ++ char "?" :: render_params params)
    with ((host ++ char ":" :: decimal port) ++ char "?" :: render_params params) by (by rewrite <- app_assoc).
  rewrite split_once_app by done. cbn [default from_option id]. rewrite rsplit_once_app by (apply decimal_no_char; [apply Hport|done]).
  rewrite parse_decimal by (unfold is_u16 in Hport; lia). by rewrite params_render.
Qed.

(** the URL parser fails for exactly three causes and names the right
    one: the text does not start with [srt://]; the part before the first
    question mark has no colon; the text after its last colon is not a
    number of 16 bits.  Otherwise it succeeds, with a port of 16 bits and a
    host that is never empty. *)
Theorem srt_url_parse_errors (s : bytes) :
  match SrtUrl_parse s with
  | Err (NotSrtUrl t) => t = s /\ forall rest, s <> str "srt://" ++ rest
  | Err (MissingPort addr) =>
      (s = str "srt://" ++ addr \/ exists query, s = str "srt://" ++ addr ++ char "?" :: query) /\
      char "?" ∉ addr /\ char ":" ∉ addr
  | Err (InvalidPort addr) =>
      (s = str "srt://" ++ addr \/ exists query, s = str "srt://" ++ addr ++ char "?" :: query) /\
      char "?" ∉ addr /\ exists host port, addr = host ++ char ":" :: port /\ char ":" ∉ port /\
      parse_unsigned (2 ^ 16 - 1) port = None
  | Ok u => is_u16 (url_port u) /\ url_host u <> [] /\ exists rest, s = str "srt://" ++ rest
  end.
Proof.
  unfold SrtUrl_parse. destruct (strip_prefix (str "srt://") s) as [rest|] eqn:Hs.
  2: { split; [done|]. intros rest ->. by rewrite strip_prefix_app in Hs. }
  apply strip_prefix_Some in Hs as ->.
  destruct (default (rest, []) (split_once (char "?") rest)) as [addr query] eqn:Hq.
  assert (Ha : (rest = addr \/ exists query, rest = addr ++ char "?" :: query) /\ char "?" ∉ addr).
  { destruct (split_once (char "?") rest) as [[a q]|] eqn:Ho; cbn in Hq; injection Hq as <- <-.
    - apply split_once_Some in Ho as [-> Ho]. split; [right; by eexists|done].
    - split; [by left|]. by apply split_once_None. }
  destruct Ha as [Ha Hno].
  assert (Hrest : str "srt://" ++ rest = str "srt://" ++ addr \/
    exists query, str "srt://" ++ rest = str "srt://" ++ addr ++ char "?" :: query).
  { destruct Ha as [->|[q ->]]; [by left|right; by eexists]. }
  destruct (rsplit_once (char ":") addr) as [[host port]|] eqn:Hr.
  - apply rsplit_once_Some in Hr as [-> Hp]. destruct (parse_unsigned (2 ^ 16 - 1) port) as [n|] eqn:Hn.
    + apply parse_unsigned_range in Hn; [|done]. cbn [url_port url_host]. split; [unfold is_u16; lia|].
      split; [by destruct host|]. by eexists.
    + split; [done|]. split; [done|]. by exists host, port.
  - split; [done|]. split; [done|]. by apply rsplit_once_None.
Qed.

(** ** Witnesses *)

Lemma srt_url_parse_render_witness :
  SrtUrl_parse (render_url (str "host") 1 [(str "latency", str "200"); (str "streamid", str "#!::r=live"); (str "flag", [])]) =
    Ok (mkSrtUrl (str "host") 1 [(str "latency", str "200"); (str "streamid", str "#!::r=live"); (str "flag", [])]).
Proof.
  apply (srt_url_parse_render (str "host") 1
    [(str "latency", str "200"); (str "streamid", str "#!::r=live"); (str "flag", [])]).
  - refine (bool_decide_unpack _ _). vm_compute. exact I.
  - by split.
  - repeat (apply Forall_cons; split); [split_and!..|apply Forall_nil; exact I];
      refine (bool_decide_unpack _ _); vm_compute; exact I.
Defined.

(** The cases of the module's own tests. *)
Example parse_caller_url :
  SrtUrl_parse (str "srt://example.com:9000") = Ok (mkSrtUrl (str "example.com") 9000 []).
Proof. reflexivity. Qed.

Example parse_listener_urls :
  (SrtUrl_is_listener <$> match SrtUrl_parse (str "srt://:9000") with Ok u => Some u | Err _ => None end) = Some true /\
  (SrtUrl_is_listener <$> match SrtUrl_parse (str "srt://0.0.0.0:9000") with Ok u => Some u | Err _ => None end) = Some true /\
  (SrtUrl_is_listener <$> match SrtUrl_parse (str "srt://127.0.0.1:9000") with Ok u => Some u | Err _ => None end) = Some false.
Proof. vm_compute. done. Qed.

Example parse_query_params :
  SrtUrl_parse (str "srt://host:1?latency=200&streamid=#!::r=live&flag") =
    Ok (mkSrtUrl (str "host") 1 [(str "latency", str "200"); (str "streamid", str "#!::r=live"); (str "flag", [])]).
Proof. reflexivity. Qed.

Example parse_rejects_bad_urls :
  SrtUrl_parse (str "udp://host:1") = Err (NotSrtUrl (str "udp://host:1")) /\
  SrtUrl_parse (str "srt://hostonly") = Err (MissingPort (str "hostonly")) /\
  SrtUrl_parse (str "srt://host:notaport") = Err (InvalidPort (str "host:notaport")) /\
  SrtUrl_parse (str "srt://host:99999") = Err (InvalidPort (str "host:99999")).
Proof. repeat split; reflexivity. Qed.
