(* ===== verification/ExampleCommon.v ===== *)
(** * What the two example programs share: options from a URL, opening

    [examples/send.rs] and [examples/recv.rs] have the same handling of the
    URL's parameters and the same [open].  The error messages are their
    causes with what they quote; notices on the terminal are left out. *)

From S2P Require Import Prelude Text Url PacketTypes Time CryptoKeys Options CoreHandshake Connection ConnectionLife Net ListenerDriver SocketDriver.

(** ** Parameters *)

Inductive setup_error :=
| BadUrl (e : url_error)
| InvalidRate (value : bytes)
| InvalidLatency (value : bytes)
| InvalidPbkeylen (value : bytes)
| UnknownPbkeylen (value : bytes).

(** The arms [latency], [streamid], [passphrase] and [pbkeylen]; any other
    key is ignored. *)
Definition option_param (opts : SrtOptions) (key value : bytes) : result setup_error SrtOptions :=
  if decide (key = str "latency") then
    match parse_unsigned U64_MAX value with
    | None => Err (InvalidLatency value)
    | Some ms => Ok (opts <| so_latency := from_millis ms |> <| so_peer_latency := from_millis ms |>)
    end
  else if decide (key = str "streamid") then Ok (opts <| so_streamid := Some value |>)
  else if decide (key = str "passphrase") then Ok (opts <| so_passphrase := Some value |>)
  else if decide (key = str "pbkeylen") then
    match parse_unsigned U64_MAX value with
    | None => Err (InvalidPbkeylen value)
    | Some n =>
        match KeyLength_from_bytes (Z.to_nat n) with
        | None => Err (UnknownPbkeylen value)
        | Some len => Ok (opts <| so_pbkeylen := Some len |>)
        end
    end
  else Ok opts.

(** ** Opening *)

(** What the system and the peer answer: the name lookup, binding and
    connecting, the drawn numbers, the queue of accepted connections and the
    signal of the driver. *)
Record open_env := mkOpenEnv {
  oe_now : Z;
  oe_lookup : bytes * Z -> result Z (list SocketAddr);
  oe_bound : result Z SocketAddr;
  oe_connected : result Z unit;
  oe_secret : Z;
  oe_id : Z;
  oe_isn : Z;
  oe_accepted : option SocketAddrV4;
  oe_established : option (option (result SrtError unit))
}.

Inductive opened :=
| OpenedListener (d : ListenerDriver) (peer : SocketAddrV4)
| OpenedCaller (d : Driver).

Definition open `{CryptoPrimitives} `{CookieHash} (url : SrtUrl) (opts : SrtOptions) (env : open_env)
    : result SrtError opened :=
  if SrtUrl_is_listener url then
    match SrtListener_bind opts (oe_lookup env (SrtUrl_socket_addr url)) (oe_bound env) (oe_now env) (oe_secret env) with
    | Err e => Err e
    | Ok (d, _) =>
        match SrtListener_accept (oe_accepted env) with
        | Err e => Err e
        | Ok peer => Ok (OpenedListener d peer)
        end
    end
  else
    let bound := match oe_bound env with Ok _ => Ok tt | Err e => Err e end in
    match SrtSocket_connect opts (oe_lookup env (SrtUrl_socket_addr url)) bound (oe_connected env) (oe_now env)
            (oe_id env) (oe_isn env) with
    | Err e => Err e
    | Ok d =>
        match SrtSocket_connected (oe_established env) with
        | Err e => Err e
        | Ok _ => Ok (OpenedCaller d)
        end
    end.

(** ** The end of a program *)

(** How [main] ends: with the usage text, with an error of the command line,
    of the file or of the socket, or after its loop. *)
Inductive program_end (A : Type) :=
| Usage
| SetupFailed (e : setup_error)
| FileFailed (os_error : Z)
| OpenFailed (e : SrtError)
| Ran (a : A).
Arguments Usage {_}.
Arguments SetupFailed {_} _.
Arguments FileFailed {_} _.
Arguments OpenFailed {_} _.
Arguments Ran {_} _.

(** ** Lemmas *)

(** The options stay ones the library can work with. *)
Lemma option_param_wf opts key value opts' :
  Options_wf opts -> option_param opts key value = Ok opts' -> Options_wf opts'.
Proof.
  intros Hwf. unfold option_param. repeat case_decide; try (by intros [= <-]).
  - destruct (parse_unsigned U64_MAX value); by intros [= <-].
  - destruct (parse_unsigned U64_MAX value); [|done]. destruct (KeyLength_from_bytes _); by intros [= <-].
Qed.

(** A socket the programs open starts where the theorems about the tasks
    start. *)
Definition opened_ok `{CryptoPrimitives} (opts : SrtOptions) (o : opened) : Prop :=
  match o with
  | OpenedListener d _ => routing_ok d /\ ld_opts d = opts
  | OpenedCaller d => driver_inv opts d
  end.

Lemma open_ok `{CryptoLaws} `{CookieHash} url opts env o :
  Options_wf opts -> SeqNumber_wf (oe_isn env) -> open url opts env = Ok o -> opened_ok opts o.
Proof.
  intros Hwf Hisn. unfold open. destruct (SrtUrl_is_listener url).
  - unfold SrtListener_bind. destruct (SrtOptions_crypto_config opts); [|done]. destruct (Bandwidth_validate _); [|done].
    destruct (resolve_v4 _); [|done]. destruct (oe_bound env) as [[local|]|]; [|done..].
    destruct (SrtListener_accept (oe_accepted env)); [|done]. intros [= <-]. split; [|done].
    split_and!; intros *; cbn; by rewrite lookup_empty.
  - unfold SrtSocket_connect. destruct (match so_streamid opts with Some _ => _ | None => _ end); [done|].
    destruct (SrtOptions_crypto_config opts); [|done]. destruct (Bandwidth_validate _); [|done].
    destruct (resolve_v4 _) as [remote|]; [|done]. destruct (oe_bound env), (oe_connected env); try done.
    destruct (SrtSocket_connected _); [|done]. intros [= <-]. apply spawn_inv; [|done].
    apply conn_start_wf; [done|]. by apply (StartConnect opts (oe_now env) remote (oe_id env) (oe_isn env) (mkTimebase (oe_now env))).
Qed.
