(* ===== verification/ExampleSend.v ===== *)
(** * The sending example: [examples/send.rs]

    The program reads its input in chunks of one live payload, on a thread
    of its own, and sends them at a steady rate.  The input is what the
    operating system yields to the calls of [read]: data, interruptions,
    errors; the thread's channel is the list of what it puts into it. *)

From Stdlib Require Import SpecFloat.
From S2P Require Import Prelude Text Url CryptoKeys Options Pacing CoreHandshake Connection SocketDriver ExampleCommon.

(** ** Constants *)

Definition CHUNK : nat := Z.to_nat 1316.

Definition DEFAULT_RATE_MBPS : spec_float := f64_of_u64 4.

Definition STATS_PERIOD : Z := from_secs 2.

(** ** Reading *)

(** What the input has in store. *)
Inductive read_item :=
| ReadBytes (data : bytes)
| ReadInterrupted
| ReadFailed (os_error : Z).

Inductive read_error := Interrupted | OtherError (os_error : Z).

(** [Read::read] into a buffer of [room] bytes: at most [room] bytes, the
    rest stays; at the end of the input, none. *)
Definition input_read (input : list read_item) (room : nat) : list read_item * result read_error bytes :=
  match input with
  | [] => ([], Ok [])
  | ReadBytes data :: rest =>
      if (length data <=? room)%nat then (rest, Ok data)
      else (ReadBytes (drop room data) :: rest, Ok (take room data))
  | ReadInterrupted :: rest => (rest, Err Interrupted)
  | ReadFailed e :: rest => (rest, Err (OtherError e))
  end.

(** The loop of [read_chunk]: every turn takes an item, fills the buffer or
    ends. *)
Fixpoint read_chunk_loop (fuel : nat) (input : list read_item) (buf : bytes) (filled : nat)
    : panicking (list read_item * bytes * result Z nat) :=
  match fuel with
  | O => Panic
  | S fuel =>
      if (filled <? length buf)%nat then
        let '(input, r) := input_read input (length buf - filled) in
        match r with
        | Ok [] => Ret (input, buf, Ok filled)
        | Ok data =>
            let n := length data in
            read_chunk_loop fuel input (take filled buf ++ data ++ drop (filled + n) buf) (filled + n)
        | Err Interrupted => read_chunk_loop fuel input buf filled
        | Err (OtherError e) => Ret (input, buf, Err e)
        end
      else Ret (input, buf, Ok filled)
  end.

Definition read_chunk (input : list read_item) (buf : bytes) : panicking (list read_item * bytes * result Z nat) :=
  read_chunk_loop (S (S (length input))) input buf 0.

(** The data in store, counted. *)
Definition pending (input : list read_item) : nat :=
  sum_list_with (fun i => match i with ReadBytes data => length data | _ => 0%nat end) input.

(** The reading thread; [open k] tells whether the channel still has its
    receiver at the [k]-th send. *)
Fixpoint reader_loop (fuel : nat) (input : list read_item) (buf : bytes) (open : nat -> bool) (k : nat)
    : panicking (list (result Z bytes)) :=
  match fuel with
  | O => Panic
  | S fuel =>
      '(input, buf, r) ← read_chunk input buf;
      match r with
      | Ok O => Ret []
      | Ok n =>
          chunk ← slice buf 0 n;
          if open k then items ← reader_loop fuel input buf open (S k); Ret (Ok chunk :: items)
          else Ret []
      | Err e => Ret (if open k then [Err e] else [])
      end
  end.

(** [spawn_reader]: [opened] is the outcome of opening the file. *)
Definition spawn_reader (opened : result Z (list read_item)) (open : nat -> bool)
    : panicking (result Z (list (result Z bytes))) :=
  match opened with
  | Err e => Ret (Err e)
  | Ok input =>
      items ← reader_loop (S (S (pending input))) input (replicate CHUNK 0) open 0;
      Ret (Ok items)
  end.

(** ** Pacing *)

(** [Duration::from_secs_f64], to the nearest nanosecond, ties to even. *)
Definition duration_from_secs_f64 (x : spec_float) : panicking Z :=
  match x with
  | S754_zero _ => Ret 0
  | S754_finite false m e =>
      let nanos :=
        if 0 <=? e then Zpos m * 10 ^ 9 * 2 ^ e
        else let n := Zpos m * 10 ^ 9 in
             let d := 2 ^ (- e) in
             let q := n / d in
             let r := n mod d in
             if (d <? 2 * r) || ((d =? 2 * r) && Z.odd q) then q + 1 else q in
      if 2 ^ 64 * 10 ^ 9 <=? nanos then Panic else Ret nanos
  | _ => Panic
  end.

Definition chunk_period (rate_mbps : spec_float) : panicking Z :=
  duration_from_secs_f64 (f64_div (f64_of_u64 (Z.of_nat CHUNK * 8)) (f64_mul rate_mbps (f64_of_u64 1000000))).

(** ** [main] *)

(** [r.is_finite() && *r > 0.0]. *)
Definition rate_ok (r : spec_float) : bool :=
  match r with S754_finite false _ _ => true | _ => false end.

Definition send_param (st : SrtOptions * spec_float) (key value : bytes)
    : result setup_error (SrtOptions * spec_float) :=
  let '(opts, rate_mbps) := st in
  if decide (key = str "rate") then
    match parse_f64 value with
    | Some r => if rate_ok r then Ok (opts, r) else Err (InvalidRate value)
    | None => Err (InvalidRate value)
    end
  else
    match option_param opts key value with
    | Err e => Err e
    | Ok opts => Ok (opts, rate_mbps)
    end.

Fixpoint send_params (st : SrtOptions * spec_float) (params : list (bytes * bytes))
    : result setup_error (SrtOptions * spec_float) :=
  match params with
  | [] => Ok st
  | (key, value) :: params =>
      match send_param st key value with
      | Err e => Err e
      | Ok st => send_params st params
      end
  end.

(** Up to the opening of the input: [None] is the usage text. *)
Definition send_setup (args : list bytes)
    : option (result setup_error (bytes * SrtUrl * SrtOptions * spec_float * Z)) :=
  match args with
  | [input; url] =>
      Some match SrtUrl_parse url with
           | Err e => Err (BadUrl e)
           | Ok url =>
               match send_params (SrtOptions_default, DEFAULT_RATE_MBPS) (url_params url) with
               | Err e => Err e
               | Ok (opts, rate_mbps) =>
                   let linger := so_latency opts + from_millis 100 in
                   Ok (input, url, opts, rate_mbps, linger)
               end
           end
  | _ => None
  end.

(** [with_stats]: [fires] are the instants at which the deadline passed
    before the awaited future was ready, each prints a line. *)
Fixpoint with_stats (next_stats : Z) (fires : list Z) : Z * nat :=
  match fires with
  | [] => (next_stats, O)
  | now :: fires => let '(next_stats, lines) := with_stats (now + STATS_PERIOD) fires in (next_stats, S lines)
  end.

(** One turn of the loop: the two waits, and the state of the handle when
    the chunk is sent. *)
Record send_turn := mkSendTurn {
  sd_recv_wait : list Z;
  sd_tick_wait : list Z;
  sd_shared : Shared;
  sd_open : bool
}.

Inductive send_end :=
| EndOfInput (total : Z)
| ReadErrorEnd (os_error : Z)
| SendErrorEnd (e : SrtError).

(** The loop over what the reader delivers: the commands put into the
    driver's queue, the number of statistics lines, the end. *)
Fixpoint send_loop (items : list (result Z bytes)) (turns : nat -> send_turn) (k : nat) (next_stats total : Z)
    : list Cmd * nat * Z * send_end :=
  let turn := turns k in
  let '(next_stats, lines) := with_stats next_stats (sd_recv_wait turn) in
  match items with
  | [] => ([], lines, next_stats, EndOfInput total)
  | Err e :: _ => ([], lines, next_stats, ReadErrorEnd e)
  | Ok chunk :: items =>
      let '(next_stats, lines') := with_stats next_stats (sd_tick_wait turn) in
      match SrtSocket_send (sd_shared turn) chunk (sd_open turn) with
      | Err e => ([], (lines + lines')%nat, next_stats, SendErrorEnd e)
      | Ok cmd =>
          let '(cmds, more, next_stats, fin) :=
            send_loop items turns (S k) next_stats (total + Z.of_nat (length chunk)) in
          (cmd :: cmds, (lines + lines' + more)%nat, next_stats, fin)
      end
  end.

(** [main] after the socket is open; [interval] is tokio's, which panics
    where it must not be called. *)
Definition send_main (interval : Z -> panicking unit) (rate_mbps : spec_float) (linger_wait : list Z) (now : Z)
    (items : list (result Z bytes)) (turns : nat -> send_turn) : panicking (list Cmd * nat * send_end) :=
  period ← chunk_period rate_mbps;
  _ ← interval period;
  let '(cmds, lines, next_stats, fin) := send_loop items turns 0 (now + STATS_PERIOD) 0 in
  match fin with
  | EndOfInput _ =>
      let '(_, more) := with_stats next_stats linger_wait in
      Ret (cmds ++ [CmdClose], S (lines + more), fin)
  | _ => Ret (cmds, lines, fin)
  end.

(** The whole program; [file] opens the input, [send_open] tells whether the
    main task still takes what the thread reads. *)
Definition send_program `{CryptoPrimitives} `{CookieHash} (args : list bytes) (file : bytes -> result Z (list read_item))
    (send_open : nat -> bool) (env : open_env) (interval : Z -> panicking unit) (linger_wait : list Z) (now : Z)
    (turns : nat -> send_turn) : panicking (program_end (list Cmd * nat * send_end)) :=
  match send_setup args with
  | None => Ret Usage
  | Some (Err e) => Ret (SetupFailed e)
  | Some (Ok (input, url, opts, rate_mbps, _)) =>
      reader ← spawn_reader (file input) send_open;
      match reader with
      | Err e => Ret (FileFailed e)
      | Ok items =>
          match open url opts env with
          | Err e => Ret (OpenFailed e)
          | Ok _ => r ← send_main interval rate_mbps linger_wait now items turns; Ret (Ran r)
          end
      end
  end.

(** ** Specification *)

(** The input cut into chunks of [n], the last one possibly shorter. *)
Fixpoint chunks_fuel (fuel n : nat) (l : bytes) : list bytes :=
  match fuel, l with
  | S fuel, _ :: _ => take n l :: chunks_fuel fuel n (drop n l)
  | _, _ => []
  end.

Definition chunks_of (n : nat) (l : bytes) : list bytes := chunks_fuel (length l) n l.

(** The data up to the end of the input or to an error. *)
Fixpoint input_content (input : list read_item) : bytes * option Z :=
  match input with
  | [] => ([], None)
  | ReadBytes data :: input => let '(c, err) := input_content input in (data ++ c, err)
  | ReadInterrupted :: input => input_content input
  | ReadFailed e :: _ => ([], Some e)
  end.

(** A read yields nothing only at the end, as for a file or a pipe. *)
Definition steady (input : list read_item) : Prop := Forall (fun i => i <> ReadBytes []) input.

(** What the channel carries for content [c] that ends with [err]: an error
    takes the place of the chunk it interrupts. *)
Definition reader_items (n : nat) (c : bytes) (err : option Z) : list (result Z bytes) :=
  match err with
  | None => Ok <$> chunks_of n c
  | Some e => (Ok <$> take (length c / n) (chunks_of n c)) ++ [Err e]
  end.

(** ** Lemmas: chunks *)

Lemma chunks_fuel_enough n : (0 < n)%nat -> forall f1 f2 l,
  (length l <= f1)%nat -> (length l <= f2)%nat -> chunks_fuel f1 n l = chunks_fuel f2 n l.
Proof.
  intros Hn. induction f1 as [|f1 IH]; intros f2 l H1 H2; destruct l as [|x l], f2; cbn in *; try done; try lia.
  f_equal. apply IH; rewrite length_drop; cbn; lia.
Qed.

Lemma chunks_of_cons n l : (0 < n)%nat -> l <> [] -> chunks_of n l = take n l :: chunks_of n (drop n l).
Proof.
  intros Hn Hl. destruct l as [|x l]; [done|]. unfold chunks_of. cbn [length chunks_fuel]. f_equal.
  apply chunks_fuel_enough; [done| |done]. rewrite length_drop. cbn. lia.
Qed.

Lemma chunks_of_concat n l : (0 < n)%nat -> concat (chunks_of n l) = l.
Proof.
  intros Hn. remember (length l) as k eqn:Hk. revert l Hk. induction k as [k IH] using lt_wf_ind. intros l ->.
  destruct (decide (l = [])) as [->|Hl]; [done|]. rewrite chunks_of_cons by done. cbn [concat].
  rewrite (IH (length (drop n l))); [apply take_drop| |done]. rewrite length_drop. destruct l; [done|]. cbn. lia.
Qed.

Lemma chunks_of_short n l : (0 < n)%nat -> Forall (fun c => c <> [] /\ (length c <= n)%nat) (chunks_of n l).
Proof.
  intros Hn. remember (length l) as k eqn:Hk. revert l Hk. induction k as [k IH] using lt_wf_ind. intros l ->.
  destruct (decide (l = [])) as [->|Hl]; [constructor|]. rewrite chunks_of_cons by done. constructor.
  - rewrite length_take. split; [|lia]. destruct l, n; try done; lia.
  - apply (IH (length (drop n l))); [|done]. rewrite length_drop. destruct l; [done|]. cbn. lia.
Qed.

(** A full chunk more. *)
Lemma reader_items_full n c err : (0 < n)%nat -> (n <= length c)%nat ->
  reader_items n c err = Ok (take n c) :: reader_items n (drop n c) err.
Proof.
  intros Hn Hc. assert (Hne : c <> []) by (intros ->; cbn in Hc; lia). unfold reader_items.
  rewrite chunks_of_cons by done. destruct err as [e|]; [|done].
  replace (length c / n)%nat with (S (length (drop n c) / n)).
  - done.
  - rewrite length_drop. replace (length c) with ((length c - n) + 1 * n)%nat at 2 by lia. rewrite Nat.div_add by lia. lia.
Qed.

Lemma reader_items_tail n c err : (0 < n)%nat -> (length c < n)%nat ->
  reader_items n c err = match err with Some e => [Err e] | None => if decide (c = []) then [] else [Ok c] end.
Proof.
  intros Hn Hc. unfold reader_items. destruct err as [e|]; [by rewrite Nat.div_small|].
  case_decide as Hne; [by subst|]. rewrite chunks_of_cons by done. rewrite take_ge, drop_ge by lia. done.
Qed.

Lemma content_pending input : (length (fst (input_content input)) <= pending input)%nat.
Proof.
  unfold pending. induction input as [|[data| |e] input IH]; cbn; try lia.
  destruct (input_content input) as [c err]. cbn in *. rewrite length_app. lia.
Qed.

(** ** Lemmas: reading *)

(** The end of a turn of [read_chunk]. *)
Definition chunk_read (buf : bytes) (filled : nat) (c : bytes) (err : option Z)
    (res : list read_item * bytes * result Z nat) : Prop :=
  let '(input', buf', r) := res in
  let room := (length buf - filled)%nat in
  length buf' = length buf /\
  (if decide (room <= length c)%nat then
     r = Ok (length buf) /\ buf' = take filled buf ++ take room c /\ steady input' /\ input_content input' = (drop room c, err)
   else match err with
        | Some e => r = Err e
        | None => r = Ok (filled + length c)%nat /\ take (filled + length c) buf' = take filled buf ++ c /\
            steady input' /\ input_content input' = ([], None)
        end).

(** [data] written to the buffer at [filled]. *)
Definition written (buf : bytes) (filled : nat) (data : bytes) : bytes :=
  take filled buf ++ data ++ drop (filled + length data) buf.

Lemma length_written buf filled data :
  (filled + length data <= length buf)%nat -> length (written buf filled data) = length buf.
Proof. intros Hl. unfold written. rewrite !length_app, length_take, length_drop. lia. Qed.

Lemma take_written buf filled data :
  (filled + length data <= length buf)%nat -> take (filled + length data) (written buf filled data) = take filled buf ++ data.
Proof.
  intros Hl. unfold written. rewrite app_assoc. apply take_app_length'. rewrite length_app, length_take. lia.
Qed.

Lemma chunk_read_step buf filled data c err res :
  (filled + length data <= length buf)%nat ->
  chunk_read (written buf filled data) (filled + length data) c err res -> chunk_read buf filled (data ++ c) err res.
Proof.
  intros Hl. unfold chunk_read. destruct res as [[input' buf'] r]. rewrite length_written, take_written, length_app by done.
  intros [Hb Hr]. split; [done|]. repeat case_decide; try lia.
  - destruct Hr as (-> & -> & Hs & Hc). split; [done|].
    replace (length buf - filled)%nat with (length data + (length buf - (filled + length data)))%nat by lia.
    rewrite take_app_add, drop_app_add, <- app_assoc. done.
  - destruct err; [done|]. destruct Hr as (-> & Ht & Hs & Hc). rewrite Nat.add_assoc, Ht, <- app_assoc. done.
Qed.

Lemma chunk_read_full buf filled c err input :
  (length buf <= filled)%nat -> (filled <= length buf)%nat -> steady input -> input_content input = (c, err) ->
  chunk_read buf filled c err (input, buf, Ok filled).
Proof.
  intros Hge Hle Hs Hc. unfold chunk_read. split; [done|]. replace (length buf - filled)%nat with O by lia.
  rewrite decide_True by lia. split; [f_equal; lia|]. rewrite take_0, drop_0, app_nil_r, take_ge by lia. done.
Qed.

Lemma read_chunk_loop_spec : forall fuel input buf filled c err,
  steady input -> input_content input = (c, err) -> (filled <= length buf)%nat -> (S (length input) < fuel)%nat ->
  exists res, read_chunk_loop fuel input buf filled = Ret res /\ chunk_read buf filled c err res.
Proof.
  induction fuel as [|fuel IH]; intros input buf filled c err Hs Hc Hf Hfuel; [lia|]. cbn [read_chunk_loop].
  destruct (Nat.ltb_spec filled (length buf)) as [Hlt|Hge]; [|eexists; split; [done|]; by apply chunk_read_full].
  assert (Hwrite : forall input' data c', data <> [] -> (filled + length data <= length buf)%nat ->
    steady input' -> input_content input' = (c', err) ->
    (S (length input') < fuel)%nat \/ (filled + length data = length buf)%nat /\ fuel <> O ->
    exists res, read_chunk_loop fuel input' (written buf filled data) (filled + length data) = Ret res /\
      chunk_read buf filled (data ++ c') err res).
  { intros input' data c' Hne Hl Hs' Hc' [Hfu|[Hfull Hfu]].
    - destruct (IH input' (written buf filled data) (filled + length data)%nat c' err) as (res & Hr & Hres);
        rewrite ?length_written; try done. exists res. split; [done|]. by apply chunk_read_step.
    - destruct fuel as [|fuel']; [done|]. cbn [read_chunk_loop]. rewrite length_written by done.
      destruct (Nat.ltb_spec (filled + length data) (length buf)); [lia|]. eexists. split; [done|].
      apply chunk_read_step; [done|]. by apply chunk_read_full; rewrite ?length_written by done; try lia. }
  destruct input as [|[data| |e] input]; cbn [input_read input_content length] in *.
  - injection Hc as <- <-. eexists. split; [done|]. unfold chunk_read. split; [done|]. rewrite decide_False by (cbn; lia).
    rewrite Nat.add_0_r, app_nil_r. done.
  - destruct (input_content input) as [c0 err0] eqn:Hc0. injection Hc as <- <-. apply Forall_cons in Hs as [Hne Hs].
    destruct (Nat.leb_spec (length data) (length buf - filled)) as [Hle|Hgt].
    + destruct (Hwrite input data c0) as (res & Hr & Hres); [congruence|lia|done|done|left; lia|].
      exists res. split; [|done]. destruct data; [done|]. exact Hr.
    + set (room := (length buf - filled)%nat) in *.
      assert (Hlt' : length (take room data) = room) by (rewrite length_take; lia).
      destruct (Hwrite (ReadBytes (drop room data) :: input) (take room data) (drop room data ++ c0)) as (res & Hr & Hres).
      * intros Ht. rewrite Ht in Hlt'. cbn in Hlt'. lia.
      * lia.
      * constructor; [|done]. intros [= Hd]. apply (f_equal length) in Hd. rewrite length_drop in Hd. cbn in Hd. lia.
      * cbn [input_content]. by rewrite Hc0.
      * right. split; [lia|]. lia.
      * exists res. rewrite app_assoc, take_drop in Hres. split; [|done].
        destruct (take room data) eqn:Ht; [cbn in Hlt'; lia|]. exact Hr.
  - apply Forall_cons in Hs as [_ Hs]. apply IH; try done. lia.
  - injection Hc as <- <-. eexists. split; [done|]. unfold chunk_read. split; [done|]. by rewrite decide_False by (cbn; lia).
Qed.

Lemma reader_loop_spec : forall fuel input buf open k c err,
  steady input -> input_content input = (c, err) -> (0 < length buf)%nat -> (length c < fuel)%nat ->
  (forall i, open i = true) ->
  reader_loop fuel input buf open k = Ret (reader_items (length buf) c err).
Proof.
  induction fuel as [|fuel IH]; intros input buf open k c err Hs Hc Hb Hfuel Hopen; [lia|]. cbn [reader_loop].
  unfold read_chunk. destruct (read_chunk_loop_spec (S (S (length input))) input buf 0 c err Hs Hc) as ([[input' buf'] r] & -> & Hlen & Hr);
    [lia|lia|]. cbn [mbind panicking_bind]. rewrite Nat.sub_0_r, take_0 in Hr. cbn [app Nat.add] in Hr.
  case_decide as Hcase.
  - destruct Hr as (-> & -> & Hs' & Hc'). destruct (length buf) as [|n] eqn:Hn in |- *; [lia|]. rewrite <- Hn.
    unfold slice. rewrite Hlen, Nat.leb_refl. cbn [Nat.leb andb mbind panicking_bind]. rewrite Hopen, Nat.sub_0_r, drop_0.
    rewrite (IH input' _ open (S k) (drop (length buf) c) err); [|done|done|lia|rewrite length_drop; lia|done].
    cbn [mbind panicking_bind]. rewrite Hlen, (reader_items_full _ c) by lia. by rewrite take_take, Nat.min_id.
  - rewrite reader_items_tail by lia. destruct err as [e|]; [by subst r; rewrite Hopen|].
    destruct Hr as (-> & Ht & Hs' & Hc'). destruct (length c) as [|n] eqn:Hn in |- *.
    + apply length_zero_iff_nil in Hn as ->. by rewrite decide_True.
    + rewrite <- Hn. rewrite decide_False by (by intros ->). unfold slice. rewrite Hlen, Nat.sub_0_r, drop_0.
      destruct (Nat.leb_spec (length c) (length buf)); [|lia]. cbn [Nat.leb andb mbind panicking_bind]. rewrite Hopen, Ht.
      rewrite (IH input' buf' open (S k) [] None); [|done|done|lia|cbn; lia|done]. done.
Qed.

(** ** Lemmas: sending *)

Definition cmd_payload (c : Cmd) : bytes := match c with CmdSend payload => payload | CmdClose => [] end.

Lemma send_loop_ok turns : forall chunks k next_stats total,
  (forall i, sd_open (turns i) = true /\ Z.of_nat CHUNK <= sh_max_payload (sd_shared (turns i))) ->
  Forall (fun c => (length c <= CHUNK)%nat) chunks ->
  exists lines next_stats', send_loop (Ok <$> chunks) turns k next_stats total =
    (CmdSend <$> chunks, lines, next_stats', EndOfInput (total + Z.of_nat (length (concat chunks)))).
Proof.
  induction chunks as [|c chunks IH]; intros k next_stats total Hturns Hc; rewrite ?fmap_nil, ?fmap_cons; cbn [send_loop];
    destruct (with_stats next_stats (sd_recv_wait (turns k))) as [n1 l1].
  - eexists _, _. cbn. by rewrite Z.add_0_r.
  - apply Forall_cons in Hc as [Hlen Hc]. destruct (with_stats n1 (sd_tick_wait (turns k))) as [n2 l2].
    destruct (Hturns k) as [Hopen Hmax]. unfold SrtSocket_send. rewrite Hopen.
    destruct (Z.ltb_spec (sh_max_payload (sd_shared (turns k))) (Z.of_nat (length c))); [lia|].
    destruct (IH (S k) n2 (total + Z.of_nat (length c)) Hturns Hc) as (l3 & n3 & Hl).
    rewrite Hl. eexists _, _. cbn [concat]. rewrite length_app. do 2 f_equal. lia.
Qed.

Lemma send_params_wf params : forall st st',
  Options_wf (fst st) -> send_params st params = Ok st' -> Options_wf (fst st').
Proof.
  induction params as [|[key value] params IH]; intros st st' Hst; cbn [send_params]; [by intros [= <-]|].
  destruct (send_param st key value) as [st1|] eqn:Hp; [|done]. apply IH. revert Hp. unfold send_param.
  destruct st as [opts rate]. case_decide.
  - destruct (parse_f64 value) as [r|]; [|done]. destruct (rate_ok r); [|done]. by intros [= <-].
  - destruct (option_param opts key value) as [opts'|] eqn:Ho; [|done]. intros [= <-]. by eapply option_param_wf.
Qed.

Lemma reader_items_spec input c err :
  steady input -> input_content input = (c, err) ->
  spawn_reader (Ok input) (fun _ => true) = Ret (Ok (reader_items CHUNK c err)).
Proof.
  intros Hs Hc. assert (Hch : (0 < CHUNK)%nat) by (unfold CHUNK; lia). unfold spawn_reader.
  pose proof (content_pending input) as Hp. rewrite Hc in Hp. cbn [fst] in Hp.
  rewrite (reader_loop_spec _ input _ _ 0 c err Hs Hc); rewrite ?length_replicate; try done. lia.
Qed.

(** The program sends exactly the chunks of its input. *)
Lemma send_main_spec (interval : Z -> panicking unit) (rate : spec_float) (period now : Z) (linger : list Z)
    (input : list read_item) (c : bytes) (items : list (result Z bytes)) (turns : nat -> send_turn) :
  steady input -> input_content input = (c, None) -> spawn_reader (Ok input) (fun _ => true) = Ret (Ok items) ->
  chunk_period rate = Ret period -> interval period = Ret tt ->
  (forall i, sd_open (turns i) = true /\ Z.of_nat CHUNK <= sh_max_payload (sd_shared (turns i))) ->
  exists lines, send_main interval rate linger now items turns =
    Ret ((CmdSend <$> chunks_of CHUNK c) ++ [CmdClose], lines, EndOfInput (Z.of_nat (length c))).
Proof.
  intros Hs Hc Hr Hper Hint Hturns. assert (Hch : (0 < CHUNK)%nat) by (unfold CHUNK; lia).
  rewrite (reader_items_spec input c None Hs Hc) in Hr. injection Hr as <-. pose proof (chunks_of_short CHUNK c Hch) as Hshort.
  assert (Hle : Forall (fun p => (length p <= CHUNK)%nat) (chunks_of CHUNK c)) by (eapply Forall_impl; [exact Hshort|]; naive_solver).
  unfold send_main. rewrite Hper. cbn [mbind panicking_bind]. rewrite Hint. cbn [mbind panicking_bind]. unfold reader_items.
  destruct (send_loop_ok turns (chunks_of CHUNK c) 0 (now + STATS_PERIOD) 0 Hturns Hle) as (lines & n' & ->).
  destruct (with_stats n' linger) as [n2 more]. rewrite chunks_of_concat by done. by eexists.
Qed.

(** ** Properties *)

(** C37: the reading thread of the sending example is the splitting of its
    input into payloads: however the operating system fragments the data
    and interrupts the calls, the channel carries the input cut into chunks
    of 1316 bytes, the last one possibly shorter and none empty, and after a
    read error the full chunks before it and the error. *)
Theorem reader_splits_the_input (input : list read_item) (c : bytes) (err : option Z) :
  steady input -> input_content input = (c, err) ->
  spawn_reader (Ok input) (fun _ => true) = Ret (Ok (reader_items CHUNK c err)) /\
  concat (chunks_of CHUNK c) = c /\ Forall (fun p => p <> [] /\ (length p <= CHUNK)%nat) (chunks_of CHUNK c).
Proof.
  intros Hs Hc. assert (Hch : (0 < CHUNK)%nat) by (unfold CHUNK; lia).
  split; [by apply reader_items_spec|]. by split; [apply chunks_of_concat|apply chunks_of_short].
Qed.

(** C38: the sending example sends its input: when the input has no error,
    the handle takes payloads of a chunk in every turn and the rate gives an
    interval the timer accepts, the program ends at the end of its input,
    the payloads it passed to [send] are together exactly the input, each of
    at most 1316 bytes, it reports their number, and the close comes last. *)
Theorem send_streams_the_input (interval : Z -> panicking unit) (rate : spec_float) (period now : Z) (linger : list Z)
    (input : list read_item) (c : bytes) (items : list (result Z bytes)) (turns : nat -> send_turn) :
  steady input -> input_content input = (c, None) -> spawn_reader (Ok input) (fun _ => true) = Ret (Ok items) ->
  chunk_period rate = Ret period -> interval period = Ret tt ->
  (forall i, sd_open (turns i) = true /\ Z.of_nat CHUNK <= sh_max_payload (sd_shared (turns i))) ->
  exists cmds lines, send_main interval rate linger now items turns =
    Ret (cmds ++ [CmdClose], lines, EndOfInput (Z.of_nat (length c))) /\
    concat (cmd_payload <$> cmds) = c /\ Forall (fun d => exists p, d = CmdSend p /\ (length p <= CHUNK)%nat) cmds.
Proof.
  intros Hs Hc Hr Hper Hint Hturns. assert (Hch : (0 < CHUNK)%nat) by (unfold CHUNK; lia).
  destruct (send_main_spec interval rate period now linger input c items turns) as [lines ->]; [done..|].
  eexists _, _. split; [done|]. rewrite <- list_fmap_compose. split.
  - rewrite (list_fmap_ext _ id), list_fmap_id by done. by apply chunks_of_concat.
  - apply Forall_fmap. eapply Forall_impl; [exact (chunks_of_short CHUNK c Hch)|]. intros p [_ Hp]. by exists p.
Qed.

(** The rate check lets rates through that the timer does not take: with a
    huge one the interval rounds to zero, where tokio's [interval] panics,
    with a tiny one the conversion to a [Duration] panics. *)
Theorem checked_rates_panic (interval : Z -> panicking unit) :
  interval 0 = Panic ->
  Forall (fun value => exists opts rate,
    send_params (SrtOptions_default, DEFAULT_RATE_MBPS) [(str "rate", value)] = Ok (opts, rate) /\
    forall linger now items turns, send_main interval rate linger now items turns = Panic)
    [str "1e8"; str "1e-300"].
Proof.
  intros Hint. apply Forall_cons. split; [|apply Forall_cons; split; [|constructor]]; eexists _, _; (split; [vm_compute; reflexivity|]);
    intros linger now items turns; unfold send_main.
  - match goal with |- context [chunk_period ?r] => assert (chunk_period r = Ret 0) as -> by (vm_compute; reflexivity) end.
    cbn [mbind panicking_bind]. by rewrite Hint.
  - match goal with |- context [chunk_period ?r] => assert (chunk_period r = Panic) as -> by (vm_compute; reflexivity) end.
    done.
Qed.

(** ** Witnesses *)

Definition demo_input : list read_item :=
  [ReadBytes (replicate 1000 1); ReadInterrupted; ReadBytes (replicate 400 2); ReadBytes [3]].

Lemma reader_splits_the_input_witness :
  spawn_reader (Ok demo_input) (fun _ => true) =
    Ret (Ok (reader_items CHUNK (replicate 1000 1 ++ replicate 400 2 ++ [3]) None)) /\
  length (chunks_of CHUNK (replicate 1000 1 ++ replicate 400 2 ++ [3])) = 2%nat.
Proof.
  split; [|vm_compute; reflexivity].
  apply (reader_splits_the_input demo_input (replicate 1000 1 ++ replicate 400 2 ++ [3]) None).
  - repeat constructor; discriminate.
  - vm_compute. reflexivity.
Defined.

Definition demo_send_turn : send_turn := mkSendTurn [] [] (mkShared Stats_default None 1456) true.

(** At 4 Mbit/s, a chunk every 2632 microseconds. *)
Lemma send_streams_the_input_witness :
  exists cmds lines,
    send_main (fun p => if p =? 0 then Panic else Ret tt) DEFAULT_RATE_MBPS [] 0
      (reader_items CHUNK (replicate 1000 1 ++ replicate 400 2 ++ [3]) None) (fun _ => demo_send_turn) =
    Ret (cmds ++ [CmdClose], lines, EndOfInput 1401) /\
    concat (cmd_payload <$> cmds) = replicate 1000 1 ++ replicate 400 2 ++ [3].
Proof.
  destruct (send_streams_the_input (fun p => if p =? 0 then Panic else Ret tt) DEFAULT_RATE_MBPS 2632000 0 []
    demo_input (replicate 1000 1 ++ replicate 400 2 ++ [3])
    (reader_items CHUNK (replicate 1000 1 ++ replicate 400 2 ++ [3]) None) (fun _ => demo_send_turn))
    as (cmds & lines & Hm & Hc & _).
  - repeat constructor; discriminate.
  - vm_compute. reflexivity.
  - vm_compute. reflexivity.
  - vm_compute. reflexivity.
  - reflexivity.
  - intros i. split; [reflexivity|]. apply Z.leb_le. reflexivity.
  - exists cmds, lines. split; [exact Hm|exact Hc].
Defined.

(** The module's own tests. *)
Example chunk_period_matches_rate :
  chunk_period (f64_of_u64 4) = Ret (from_micros 2632) /\ chunk_period (f64_of_u64 8) = Ret (from_micros 1316).
Proof. split; vm_compute; reflexivity. Qed.

Example spawn_reader_missing_file_errors : spawn_reader (Err 2) (fun _ => true) = Ret (Err 2).
Proof. reflexivity. Qed.
