(* ===== verification/ExampleRecv.v ===== *)
(** * The receiving example: [examples/recv.rs]

    The program hands every payload it receives to a writing thread and ends
    with the stream.  What the socket yields, when, and what the thread's
    queue and file answer, are the inputs. *)

From S2P Require Import Prelude PacketTypes Text Url CryptoKeys CryptoContext Options CoreHandshake Connection Net SocketDriver ExampleCommon ExampleSend.

(** ** Options *)

Fixpoint recv_params (opts : SrtOptions) (params : list (bytes * bytes)) : result setup_error SrtOptions :=
  match params with
  | [] => Ok opts
  | (key, value) :: params =>
      match option_param opts key value with
      | Err e => Err e
      | Ok opts => recv_params opts params
      end
  end.

(** Up to the start of the writer: [None] is the usage text. *)
Definition recv_setup (args : list bytes) : option (result setup_error (SrtUrl * SrtOptions * option bytes)) :=
  let start url output :=
    Some match SrtUrl_parse url with
         | Err e => Err (BadUrl e)
         | Ok url =>
             match recv_params SrtOptions_default (url_params url) with
             | Err e => Err e
             | Ok opts => Ok (url, opts, output)
             end
         end in
  match args with
  | [url] => start url None
  | [url; output] => start url (Some output)
  | _ => None
  end.

(** ** The writing thread *)

(** [writes k] is the outcome of the [k]-th [write_all], [flushed] that of
    the final [flush]: the file's content and the thread's result. *)
Fixpoint writer_loop (queue : list bytes) (writes : nat -> result Z unit) (flushed : result Z unit) (k : nat)
    : bytes * result Z unit :=
  match queue with
  | [] => ([], flushed)
  | payload :: queue =>
      match writes k with
      | Err e => ([], Err e)
      | Ok _ => let '(rest, r) := writer_loop queue writes flushed (S k) in (payload ++ rest, r)
      end
  end.

(** ** [main] *)

Definition RECV_STATS_PERIOD : Z := from_secs 2.

(** What one turn of the loop awaits: a message, with the instant after it
    and whether the writer's queue took it; the end; an error; the deadline
    of the statistics. *)
Inductive recv_event :=
| GotPayload (payload : bytes) (queued : bool) (now : Z)
| GotEnd
| GotError (e : SrtError)
| GotDeadline (now : Z).

(** The loop: the payloads queued, the statistics lines, the sum of the
    payloads' lengths and the result of the stream; [None] while it runs. *)
Fixpoint recv_loop (evs : list recv_event) (next_stats total : Z)
    : list bytes * nat * option (Z * result SrtError unit) :=
  match evs with
  | [] => ([], O, None)
  | GotPayload payload queued now :: evs =>
      let total := total + Z.of_nat (length payload) in
      if queued then
        let '(lines, next_stats) := if next_stats <=? now then (1%nat, now + RECV_STATS_PERIOD) else (O, next_stats) in
        let '(queue, more, fin) := recv_loop evs next_stats total in
        (payload :: queue, (lines + more)%nat, fin)
      else ([], O, Some (total, Ok tt))
  | GotEnd :: _ => ([], O, Some (total, Ok tt))
  | GotError e :: _ => ([], O, Some (total, Err e))
  | GotDeadline now :: evs =>
      let '(queue, more, fin) := recv_loop evs (now + RECV_STATS_PERIOD) total in
      (queue, S more, fin)
  end.

Inductive recv_end :=
| Done (total : Z)
| WriterFailed (os_error : Z)
| StreamFailed (e : SrtError).

(** After the loop: the socket is closed, the writer joined, then the
    stream's error reported. *)
Definition recv_main (evs : list recv_event) (now : Z) (writes : nat -> result Z unit) (flushed : result Z unit)
    : option (bytes * nat * recv_end) :=
  let '(queue, lines, fin) := recv_loop evs (now + RECV_STATS_PERIOD) 0 in
  match fin with
  | None => None
  | Some (total, stream_result) =>
      let '(file, written) := writer_loop queue writes flushed 0 in
      Some (file, S lines,
        match written with
        | Err e => WriterFailed e
        | Ok _ => match stream_result with Err e => StreamFailed e | Ok _ => Done total end
        end)
  end.

(** The whole program; [create] creates the output file, without a name the
    payloads go to the terminal. *)
Definition recv_program `{CryptoPrimitives} `{CookieHash} (args : list bytes) (create : bytes -> result Z unit)
    (env : open_env) (evs : list recv_event) (now : Z) (writes : nat -> result Z unit) (flushed : result Z unit)
    : program_end (option (bytes * nat * recv_end)) :=
  match recv_setup args with
  | None => Usage
  | Some (Err e) => SetupFailed e
  | Some (Ok (url, opts, output)) =>
      match (match output with Some path => create path | None => Ok tt end) with
      | Err e => FileFailed e
      | Ok _ =>
          match open url opts env with
          | Err e => OpenFailed e
          | Ok _ => Ran (recv_main evs now writes flushed)
          end
      end
  end.

(** ** Lemmas *)

(** The messages [recv] returned, in order. *)
Definition received (evs : list recv_event) : list bytes :=
  omap (fun ev => match ev with GotPayload payload _ _ => Some payload | _ => None end) evs.

(** A run up to its end: all before it was queued or was a deadline, then
    the stream ended, failed, or the writer's queue was gone. *)
Definition runs_to (evs : list recv_event) (last : recv_event) : Prop :=
  Forall (fun ev => match ev with GotPayload _ queued _ => queued = true | GotDeadline _ => True | _ => False end) evs /\
  match last with GotEnd | GotError _ => True | GotPayload _ queued _ => queued = false | GotDeadline _ => False end.

Lemma recv_loop_spec evs : forall last rest next_stats total,
  runs_to evs last ->
  exists lines, recv_loop (evs ++ last :: rest) next_stats total =
    (received evs, lines, Some (total + Z.of_nat (length (concat (received (evs ++ [last])))),
                                match last with GotError e => Err e | _ => Ok tt end)).
Proof.
  induction evs as [|ev evs IH]; intros last rest next_stats total [Hevs Hlast].
  - destruct last as [p q n| |e|n]; cbn [app recv_loop]; [subst q| | |done]; eexists; cbn;
      rewrite ?app_nil_r, ?Z.add_0_r; done.
  - apply Forall_cons in Hevs as [Hev Hevs]. destruct ev as [p q n| |e|n]; try done; cbn [app recv_loop].
    + subst q. destruct (if next_stats <=? n then _ else _) as [l1 ns].
      destruct (IH last rest ns (total + Z.of_nat (length p))) as [lines ->]; [done|]. eexists.
      change (received (GotPayload p true n :: evs)) with (p :: received evs).
      change (received (GotPayload p true n :: evs ++ [last])) with (p :: received (evs ++ [last])).
      cbn [concat]. rewrite length_app, Nat2Z.inj_add, Z.add_assoc. done.
    + destruct (IH last rest (n + RECV_STATS_PERIOD) total) as [lines ->]; [done|]. by eexists.
Qed.

Lemma writer_loop_spec queue writes flushed : forall k,
  let '(file, r) := writer_loop queue writes flushed k in
  match r with
  | Ok _ => file = concat queue /\ flushed = Ok tt /\ forall i, (i < length queue)%nat -> writes (k + i)%nat = Ok tt
  | Err e => flushed = Err e \/ exists i, (i < length queue)%nat /\ writes (k + i)%nat = Err e
  end.
Proof.
  induction queue as [|p queue IH]; intros k; cbn [writer_loop].
  - destruct flushed as [[]|e]; [|by left]. split; [done|]. split; [done|]. cbn. lia.
  - destruct (writes k) as [[]|e] eqn:Hk.
    2: { right. exists O. rewrite Nat.add_0_r. split; [cbn; lia|done]. }
    specialize (IH (S k)). destruct (writer_loop queue writes flushed (S k)) as [rest [u|e]].
    + destruct IH as (-> & Hf & Hw). split; [done|]. split; [done|]. intros [|i] Hi; [by rewrite Nat.add_0_r|].
      rewrite Nat.add_succ_r. apply Hw. cbn in Hi. lia.
    + destruct IH as [Hf|(i & Hi & Hw)]; [by left|]. right. exists (S i). rewrite Nat.add_succ_r. split; [cbn; lia|done].
Qed.

Lemma recv_params_wf params : forall opts opts',
  Options_wf opts -> recv_params opts params = Ok opts' -> Options_wf opts'.
Proof.
  induction params as [|[key value] params IH]; intros opts opts' Hwf; cbn [recv_params]; [by intros [= <-]|].
  destruct (option_param opts key value) as [o|] eqn:Ho; [|done]. apply IH. by eapply option_param_wf.
Qed.

(** The end of a run, by what ended it. *)
Lemma recv_main_spec (evs rest : list recv_event) (last : recv_event) (now : Z)
    (writes : nat -> result Z unit) (flushed : result Z unit) :
  runs_to evs last ->
  (forall p t, last = GotPayload p false t -> exists k e, (k < length (received evs))%nat /\ writes k = Err e) ->
  exists file lines fin, recv_main (evs ++ last :: rest) now writes flushed = Some (file, lines, fin) /\
    match fin with
    | Done total => last = GotEnd /\ file = concat (received evs) /\ total = Z.of_nat (length file)
    | StreamFailed e => last = GotError e /\ file = concat (received evs)
    | WriterFailed e => flushed = Err e \/ exists k, (k < length (received evs))%nat /\ writes k = Err e
    end.
Proof.
  intros Hrun Hq. unfold recv_main. destruct (recv_loop_spec evs last rest (now + RECV_STATS_PERIOD) 0 Hrun) as [lines ->].
  pose proof (writer_loop_spec (received evs) writes flushed 0) as Hw.
  destruct (writer_loop (received evs) writes flushed 0) as [file [u|e]]; (eexists _, _, _; split; [done|]); [|done].
  destruct Hw as (-> & _ & Hw). destruct Hrun as [_ Hlast]. destruct last as [p q n| |e|n]; [subst q| | |done].
  - destruct (Hq p n eq_refl) as (k & e & Hk & He). specialize (Hw k Hk). cbn in Hw. congruence.
  - split; [done|]. split; [done|]. unfold received. rewrite omap_app. cbn. by rewrite app_nil_r.
  - done.
Qed.

(** ** Properties *)

(** C39: the receiving example reports success only for a complete file:
    every run that comes to the end of the stream ends the program; it ends
    with [Done] only when the stream ended without an error and every write
    succeeded, and then the file is the concatenation of the messages in the
    order [recv] returned them and the number reported is its length; an
    error of the stream still leaves all messages before it in the file; a
    failure of the writer is reported as such.  (A message the writer's queue
    does not take means that a write has failed.) *)
Theorem recv_writes_what_it_receives (evs rest : list recv_event) (last : recv_event) (now : Z)
    (writes : nat -> result Z unit) (flushed : result Z unit) :
  runs_to evs last ->
  (forall p t, last = GotPayload p false t -> exists k e, (k < length (received evs))%nat /\ writes k = Err e) ->
  exists file lines fin, recv_main (evs ++ last :: rest) now writes flushed = Some (file, lines, fin) /\
    match fin with
    | Done total => last = GotEnd /\ file = concat (received evs) /\ total = Z.of_nat (length file)
    | StreamFailed e => last = GotError e /\ file = concat (received evs)
    | WriterFailed e => flushed = Err e \/ exists k, (k < length (received evs))%nat /\ writes k = Err e
    end.
Proof. apply recv_main_spec. Qed.

(** whatever the command line and the system answer, a socket either
    program opens starts in a state from which its task never panics or
    hangs: the options read from the URL are valid for the library. *)
Theorem examples_open_sound_sockets `{CryptoLaws} `{CookieHash} (args : list bytes) (url : SrtUrl) (opts : SrtOptions)
    (env : open_env) (o : opened) :
  (exists output, recv_setup args = Some (Ok (url, opts, output))) \/
  (exists input rate linger, send_setup args = Some (Ok (input, url, opts, rate, linger))) ->
  SeqNumber_wf (oe_isn env) -> open url opts env = Ok o -> opened_ok opts o.
Proof.
  intros Hs Hisn. apply open_ok; [|done].
  assert (Hd : Options_wf SrtOptions_default) by (by split; [|split; [|cbn; lia]]).
  destruct Hs as [[output Hs]|(input & rate & linger & Hs)]; revert Hs.
  2: { unfold send_setup. destruct args as [|i [|u [|]]]; try done. destruct (SrtUrl_parse u) as [pu|]; [|done].
       destruct (send_params _ _) as [[po r]|] eqn:Hp; [|done]. intros [= _ _ <- _ _].
       by apply (send_params_wf _ (SrtOptions_default, DEFAULT_RATE_MBPS) (po, r) Hd Hp). }
  unfold recv_setup. cbv zeta. destruct args as [|u [|out [|]]]; [done| | |done]; (destruct (SrtUrl_parse u) as [pu|]; [|done]);
    (destruct (recv_params _ _) as [po|] eqn:Hp; [|done]); intros [= <- <- <-]; by eapply recv_params_wf.
Qed.

(** ** Witnesses *)

Section Witnesses.

#[local] Existing Instance toy_primitives.
#[local] Existing Instance toy_laws.
#[local] Existing Instance toy_cookie.

Lemma recv_writes_what_it_receives_witness :
  exists lines, recv_main [GotPayload (str "hello ") true 1; GotDeadline 5; GotPayload (str "world") true 6; GotEnd]
    0 (fun _ => Ok tt) (Ok tt) = Some (str "hello world", lines, Done 11).
Proof.
  destruct (recv_writes_what_it_receives [GotPayload (str "hello ") true 1; GotDeadline 5; GotPayload (str "world") true 6]
    [] GotEnd 0 (fun _ => Ok tt) (Ok tt)) as (file & lines & fin & Hm & Hfin).
  - split; [repeat constructor|exact I].
  - intros p t [=].
  - exists lines. cbn [app] in Hm. rewrite Hm. clear Hm. destruct fin as [total|e|e].
    + destruct Hfin as (_ & -> & ->). reflexivity.
    + destruct Hfin as [[=]|(k & _ & [=])].
    + destruct Hfin as [[=] _].
Defined.

Definition demo_open_env : open_env :=
  mkOpenEnv 0 (fun _ => Ok [V4 (mkSocketAddrV4 [127; 0; 0; 1] 9000)]) (Ok (V4 (mkSocketAddrV4 [0; 0; 0; 0] 50000))) (Ok tt)
    5 7 100 None (Some (Some (Ok tt))).

Lemma examples_open_sound_sockets_witness :
  exists url opts d, recv_setup [str "srt://localhost:9000?latency=200&passphrase=0123456789"] = Some (Ok (url, opts, None)) /\
    so_latency opts = from_millis 200 /\ open url opts demo_open_env = Ok (OpenedCaller d) /\ driver_inv opts d.
Proof.
  eexists _, _, _. split; [reflexivity|]. split; [reflexivity|]. split; [reflexivity|].
  match goal with
  | |- driver_inv ?opts ?d =>
      eapply (examples_open_sound_sockets [str "srt://localhost:9000?latency=200&passphrase=0123456789"] _ opts demo_open_env
        (OpenedCaller d))
  end; [left; eexists; reflexivity|split; [discriminate|reflexivity]|reflexivity].
Defined.

End Witnesses.
