(* ===== verification/System.v ===== *)
(** * The whole path: two sockets, two programs

    [socket.rs] drives the connections of [core/mod.rs] and the example
    programs use the sockets.  The task of a socket is shown to be a run of
    its connection; with the codec's round trip this lifts the end-to-end
    guarantee of [Integrity] from packets to the bytes of the datagrams, and
    from there to the files the programs read and write. *)

From S2P Require Import Prelude PacketTypes PacketData PacketHandshake PacketControl Time CryptoKeys CryptoContext Options Sender Receiver CoreHandshake Connection ConnectionLife WireTypes ConnectionTrace Integrity SocketDriver ExampleSend ExampleRecv.

(** ** The task seen from outside *)

(** The datagrams the runtime hands to the task, as calls on the
    connection. *)
Definition offered (turns : list (turn_env * driver_event)) : list conn_event :=
  omap (fun t => match snd t with
                 | DvRecv now (UdpRead (Ok dg)) rng | DvRecv now (ChannelRead (Some dg)) rng => Some (EvDatagram now dg rng)
                 | _ => None
                 end) turns.

(** The payloads that came through the command channel. *)
Definition commands (turns : list (turn_env * driver_event)) : list bytes :=
  omap (fun t => match snd t with DvCmd _ (Some (CmdSend payload)) => Some payload | _ => None end) turns.

(** The payloads offered to the data channel, and those it takes; [answers k]
    is its answer to the [k]-th. *)
Definition handed_over (effs : list driver_effect) : list bytes :=
  omap (fun e => match e with Deliver payload => Some payload | _ => None end) effs.

Fixpoint queued (answers : nat -> try_send_answer) (k : nat) (payloads : list bytes) : list bytes :=
  match payloads with
  | [] => []
  | payload :: payloads => deliver (answers k) payload ++ queued answers (S k) payloads
  end.

Lemma queued_sublist answers : forall payloads k, sublist (queued answers k payloads) payloads.
Proof.
  induction payloads as [|p payloads IH]; intros k; cbn [queued]; [done|].
  destruct (answers k); cbn [deliver app]; [apply sublist_skip|apply sublist_cons..]; apply IH.
Qed.

(** Every datagram fits the buffer it is read into. *)
Definition reads_fit (d : Driver) (turns : list (turn_env * driver_event)) : Prop :=
  forall env now dg rng, (env, DvRecv now (UdpRead (Ok dg)) rng) ∈ turns -> (length dg <= length (dv_buf d))%nat.

(** ** Lemmas: a task is a run of its connection *)

(** The payloads a run was asked to send. *)
Definition asked (evs : list conn_event) : list bytes :=
  omap (fun ev => match ev with EvSend _ payload => Some payload | _ => None end) evs.

Lemma accepted_asked evs : forall outs, sublist (accepted evs outs) (asked evs).
Proof.
  induction evs as [|ev evs IH]; intros outs; [done|]. destruct outs as [|out outs]; [destruct ev; apply sublist_nil_l|].
  destruct ev; try apply IH. change (asked (EvSend now payload :: evs)) with (payload :: asked evs).
  destruct out as [|[u|e]|p|p]; cbn [accepted]; [by apply sublist_cons|by apply sublist_skip|by apply sublist_cons..].
Qed.

Section Simulation.
Context `{CryptoLaws}.

Lemma conn_run_app c1 evs1 c2 outs1 evs2 c3 outs2 :
  conn_run c1 evs1 = Ret (c2, outs1) -> conn_run c2 evs2 = Ret (c3, outs2) ->
  conn_run c1 (evs1 ++ evs2) = Ret (c3, outs1 ++ outs2).
Proof.
  revert c1 outs1. induction evs1 as [|ev evs1 IH]; intros c1 outs1; cbn [conn_run app]; [by intros [= <- <-]|].
  destruct (conn_step c1 ev) as [[c out]|]; [|done]. cbn [mbind panicking_bind].
  destruct (conn_run c evs1) as [[c' outs]|] eqn:Hr; [|done]. cbn [mbind panicking_bind]. intros [= -> <-] H2.
  by rewrite (IH c outs Hr H2).
Qed.

(** The effects [effs] of calls [evs]: what was sent is on the wire and what
    was delivered in the channel. *)
Definition performs (c : Connection) (evs : list conn_event) (c' : Connection) (effs : list driver_effect) : Prop :=
  exists outs, conn_run c evs = Ret (c', outs) /\ handed_over effs = delivered outs /\
    datagrams effs = (fun p => Packet_encode p []) <$> sent outs.

Lemma performs_app c1 evs1 c2 effs1 evs2 c3 effs2 :
  performs c1 evs1 c2 effs1 -> performs c2 evs2 c3 effs2 -> performs c1 (evs1 ++ evs2) c3 (effs1 ++ effs2).
Proof.
  intros (o1 & H1 & D1 & S1) (o2 & H2 & D2 & S2). exists (o1 ++ o2). split; [by eapply conn_run_app|].
  unfold handed_over, datagrams, delivered, sent in *. by rewrite !omap_app, D1, D2, S1, S2, fmap_app.
Qed.

Lemma performs_none c effs : handed_over effs = [] -> datagrams effs = [] -> performs c [] c effs.
Proof. intros E1 E2. exists []. by rewrite E1, E2. Qed.

Lemma performs_step c ev c' out :
  conn_step c ev = Ret (c', out) -> payload_of out = None -> (forall p, out <> OutPacket (Some p)) -> performs c [ev] c' [].
Proof.
  intros Hs Hp Ho. exists [out]. cbn [conn_run]. rewrite Hs. split; [done|].
  unfold delivered, sent. cbn. rewrite Hp. destruct out as [| |[p|]|]; try done. by destruct (Ho p).
Qed.

(** Calls that only poll. *)
Definition polls (evs : list conn_event) : Prop :=
  Forall (fun ev => match ev with EvTransmit _ | EvDeliver _ => True | _ => False end) evs.

Lemma polls_silent evs : polls evs -> asked evs = [] /\ forall now dg rng, EvDatagram now dg rng ∉ evs.
Proof.
  induction 1 as [|ev evs Hev _ [IH1 IH2]]; [split; [done|]; intros; apply not_elem_of_nil|].
  destruct ev; try done; (split; [exact IH1|]); intros t dg r; rewrite not_elem_of_cons; split; try done; apply IH2.
Qed.

Lemma send_packet_encodes io p answer : exists to k,
  DriverIo_send_packet io p answer = (UdpSend (Packet_encode p []) to, k).
Proof. destruct p as [d|cp]; by eexists _, _. Qed.

Lemma drain_transmit_performs io now answers : forall fuel c k stats c' stats' effs,
  drain_transmit fuel c io now answers k stats = Ret (c', stats', effs) ->
  exists evs, polls evs /\ performs c evs c' effs.
Proof.
  induction fuel as [|fuel IH]; intros c k stats c' stats' effs; [done|]. cbn [drain_transmit].
  destruct (Connection_poll_transmit c now) as [[c1 p]|] eqn:Hp; [|done]. cbn [mbind panicking_bind].
  assert (Hs : conn_step c (EvTransmit now) = Ret (c1, OutPacket p)) by (cbn [conn_step]; by rewrite Hp).
  destruct p as [p|].
  - destruct (send_packet_encodes io p (answers k)) as (to & out & ->).
    destruct (drain_transmit fuel c1 io now answers _ _) as [[[c2 s2] e2]|] eqn:Hd; [|done]. cbn [mbind panicking_bind].
    intros [= <- <- <-]. apply IH in Hd as (evs & Hpo & Hpf). exists (EvTransmit now :: evs). split; [by constructor|].
    apply (performs_app c [EvTransmit now] c1 [UdpSend (Packet_encode p []) to]); [|done].
    exists [OutPacket (Some p)]. cbn [conn_run]. by rewrite Hs.
  - intros [= <- <- <-]. exists [EvTransmit now]. split; [by constructor|]. by apply (performs_step _ _ _ (OutPacket None)).
Qed.

Lemma drain_deliver_performs now : forall fuel c c' effs,
  drain_deliver fuel c now = Ret (c', effs) -> exists evs, polls evs /\ performs c evs c' effs.
Proof.
  induction fuel as [|fuel IH]; intros c c' effs; [done|]. cbn [drain_deliver].
  destruct (Connection_poll_deliver c now) as [[c1 p]|] eqn:Hp; [|done]. cbn [mbind panicking_bind].
  assert (Hs : conn_step c (EvDeliver now) = Ret (c1, OutPayload p)) by (cbn [conn_step]; by rewrite Hp).
  destruct p as [p|].
  - destruct (drain_deliver fuel c1 now) as [[c2 e2]|] eqn:Hd; [|done]. cbn [mbind panicking_bind].
    intros [= <- <-]. apply IH in Hd as (evs & Hpo & Hpf). exists (EvDeliver now :: evs). split; [by constructor|].
    apply (performs_app c [EvDeliver now] c1 [Deliver p]); [|done].
    exists [OutPayload (Some p)]. cbn [conn_run]. by rewrite Hs.
  - intros [= <- <-]. exists [EvDeliver now]. split; [by constructor|]. by apply (performs_step _ _ _ (OutPayload None)).
Qed.

Lemma drive_turn_performs d env d' effs fin :
  drive_turn d env = Ret (d', effs, fin) ->
  dv_buf d' = dv_buf d /\ exists evs, polls evs /\ performs (dv_conn d) evs (dv_conn d') effs.
Proof.
  unfold drive_turn, drive_drain.
  destruct (drain_transmit _ _ _ _ _ _ _) as [[[c1 s1] e1]|] eqn:Ht; [|done]. cbn [mbind panicking_bind].
  destruct (drain_deliver _ c1 _) as [[c2 e2]|] eqn:Hd; [|done]. cbn [mbind panicking_bind]. dv.
  apply drain_transmit_performs in Ht as (evs1 & Hp1 & H1). apply drain_deliver_performs in Hd as (evs2 & Hp2 & H2).
  assert (H12 : performs (dv_conn d) (evs1 ++ evs2) c2 (e1 ++ e2)) by by eapply performs_app.
  assert (Hp12 : polls (evs1 ++ evs2)) by by apply Forall_app.
  assert (Hsig : forall sig, handed_over sig = [] -> datagrams sig = [] ->
    performs (dv_conn d) (evs1 ++ evs2) c2 ((e1 ++ e2) ++ sig)).
  { intros sig E1 E2. rewrite <- (app_nil_r (evs1 ++ evs2)). eapply performs_app; [done|by apply performs_none]. }
  destruct (Connection_get_state c2) as [| |reason].
  - intros [= <- <- <-]. dv. by eauto.
  - destruct (dv_announced d); [intros [= <- <- <-]; dv; by eauto|]. unfold signal. dv.
    destruct (dv_established_tx d); intros [= <- <- <-]; dv; (split; [done|]); exists (evs1 ++ evs2); (split; [done|]); by apply Hsig.
  - assert (Hclose : forall sig c3 e3 fuel now, handed_over sig = [] -> datagrams sig = [] ->
      drain_deliver fuel c2 now = Ret (c3, e3) ->
      exists evs, polls evs /\ performs (dv_conn d) evs c3 ((e1 ++ e2) ++ sig ++ e3)).
    { intros sig c3 e3 fuel now E1 E2 Hd3. apply drain_deliver_performs in Hd3 as (evs3 & Hp3 & H3).
      exists ((evs1 ++ evs2) ++ evs3). split; [by apply Forall_app|]. rewrite app_assoc.
      eapply performs_app; [by apply Hsig|done]. }
    unfold signal. dv. destruct (dv_established_tx d); dv; (destruct (drain_deliver _ c2 _) as [[c3 e3]|] eqn:Hd3; [|done]);
      cbn [mbind panicking_bind]; intros [= <- <- <-]; dv; (split; [done|]).
    + exact (Hclose [Signal (Err (connect_error reason))] c3 e3 _ _ eq_refl eq_refl Hd3).
    + exact (Hclose [] c3 e3 _ _ eq_refl eq_refl Hd3).
Qed.

Lemma select_performs d ev d' :
  drive_select d ev = Ret d' ->
  (forall now dg rng, ev = DvRecv now (UdpRead (Ok dg)) rng -> (length dg <= length (dv_buf d))%nat) ->
  length (dv_buf d') = length (dv_buf d) /\
  exists evs, performs (dv_conn d) evs (dv_conn d') [] /\
    asked evs = match ev with DvCmd _ (Some (CmdSend payload)) => [payload] | _ => [] end /\
    forall now dg rng, EvDatagram now dg rng ∈ evs ->
      ev = DvRecv now (UdpRead (Ok dg)) rng \/ ev = DvRecv now (ChannelRead (Some dg)) rng.
Proof.
  intros Hd Hfit. apply drive_select_step in Hd as (_ & _ & _ & _ & Hb & Hs). split; [done|].
  assert (Hone : forall cev out, conn_step (dv_conn d) cev = Ret (dv_conn d', out) ->
    match cev with EvTransmit _ | EvDeliver _ => False | _ => True end -> performs (dv_conn d) [cev] (dv_conn d') []).
  { intros cev out Hc Hk. assert (Ho : payload_of out = None /\ forall p, out <> OutPacket (Some p)).
    { destruct cev; try done; cbn [conn_step] in Hc.
      - destruct (Connection_handle_datagram _ _ _ _); [|done]. by injection Hc as _ <-.
      - destruct (Connection_handle_timer _ _); [|done]. by injection Hc as _ <-.
      - destruct (Connection_send _ _ _) as [[c r]|]; [|done]. by injection Hc as _ <-.
      - by injection Hc as _ <-.
      - by injection Hc as _ <-. }
    destruct Ho. by apply (performs_step _ _ _ out). }
  destruct ev as [now [[dg|e]|[dg|]] rng|now [[payload|]|]|now]; cbn [select_event] in Hs;
    try (destruct Hs as [out Hs]; eexists; split; [by apply (Hone _ out Hs)|split; [done|]];
         intros t dg' r Hin; apply list_elem_of_singleton in Hin; try discriminate Hin; injection Hin as -> -> ->; auto).
  - rewrite take_ge by (by apply (Hfit now dg rng)). auto.
  - exists []. split; [rewrite Hs; by apply performs_none|]. split; [done|]. intros t dg' r Hin. by apply not_elem_of_nil in Hin.
Qed.

Lemma offered_cons env ev turns :
  offered ((env, ev) :: turns) = offered [(env, ev)] ++ offered turns.
Proof. unfold offered. cbn. by destruct ev as [now [[dg|e]|[dg|]] rng|now cmd|now]. Qed.

Lemma commands_cons env ev turns :
  commands ((env, ev) :: turns) = commands [(env, ev)] ++ commands turns.
Proof. unfold commands. cbn. by destruct ev as [now inp rng|now [[payload|]|]|now]. Qed.

(** The task is a run of its connection, in which the payloads to send are
    those of the channel and the datagrams those of the runtime. *)
Lemma drive_performs : forall turns d d' effs fin,
  reads_fit d turns -> drive d turns = Ret (d', effs, fin) ->
  exists evs, performs (dv_conn d) evs (dv_conn d') effs /\ sublist (asked evs) (commands turns) /\
    forall now dg rng, EvDatagram now dg rng ∈ evs -> EvDatagram now dg rng ∈ offered turns.
Proof.
  induction turns as [|[env ev] turns IH]; intros d d' effs fin Hfit; cbn [drive].
  { intros [= <- <- <-]. exists []. split; [by apply performs_none|]. split; [done|].
    intros t dg r Hin. by apply not_elem_of_nil in Hin. }
  destruct (drive_turn d env) as [[[d1 e1] fin1]|] eqn:Ht; [|done]. cbn [mbind panicking_bind].
  apply drive_turn_performs in Ht as (Hb1 & evs1 & Hp1 & H1). destruct (polls_silent evs1 Hp1) as [Ha1 Hd1].
  destruct fin1.
  { intros [= <- <- <-]. exists evs1. split; [done|]. rewrite Ha1. split; [apply sublist_nil_l|].
    intros t dg r Hin. by destruct (Hd1 t dg r). }
  destruct (drive_select d1 ev) as [d2|] eqn:Hs; [|done]. cbn [mbind panicking_bind].
  apply select_performs in Hs as (Hb2 & evs2 & H2 & Ha2 & Hd2).
  2: { intros t dg r ->. rewrite Hb1. apply (Hfit env t dg r). by left. }
  destruct (drive d2 turns) as [[[d3 e3] fin3]|] eqn:Hd; [|done]. cbn [mbind panicking_bind]. intros [= <- <- <-].
  apply IH in Hd as (evs3 & H3 & Ha3 & Hd3).
  2: { intros env' t dg r Hin. rewrite Hb2, Hb1. apply (Hfit env' t dg r). by right. }
  exists (evs1 ++ evs2 ++ evs3). split.
  { eapply performs_app; [exact H1|]. change e3 with ([] ++ e3). by eapply performs_app. }
  unfold asked in *. rewrite !omap_app, Ha1, Ha2, commands_cons, offered_cons. split.
  - rewrite app_nil_l. apply sublist_app; [|done]. destruct ev as [now inp rng|now [[payload|]|]|now]; reflexivity.
  - intros t dg r. rewrite !elem_of_app. intros [Hin|[Hin|Hin]]; [by destruct (Hd1 t dg r)|left|right; by apply Hd3].
    apply Hd2 in Hin as [-> | ->]; by left.
Qed.

(** The calls of the task are in order when its inputs are. *)
Lemma performed_ok turns evs :
  Forall (fun t => driver_event_ok (snd t)) turns ->
  (forall now dg rng, EvDatagram now dg rng ∈ evs -> EvDatagram now dg rng ∈ offered turns) ->
  Forall conn_event_ok evs.
Proof.
  intros Hok Hin. apply Forall_forall. intros ev Hev. destruct ev; try done. apply Hin in Hev.
  unfold offered in Hev. apply list_elem_of_omap in Hev as ([env dv] & Ht & E). rewrite Forall_forall in Hok.
  specialize (Hok _ Ht). cbn in *. destruct dv as [t [[x|e]|[x|]] r|t cmd|t]; try discriminate E; by injection E as <- <- <-.
Qed.

End Simulation.

(** ** Two ends *)

(** The two ends of one handshake, each driven by its task: [dA] sends to
    [dB].  The datagrams are bytes and fit the buffers. *)
Record session `{CryptoPrimitives} (oA oB : SrtOptions) (ngA ngB : Negotiated) (dA dB : Driver)
    (turnsA turnsB : list (turn_env * driver_event)) : Prop := mkSession {
  ss_options : Options_wf oA /\ Options_wf oB /\ Z.of_nat (recv_capacity oB) <= 2 ^ 30;
  ss_negotiated : Negotiated_wf ngA /\ Negotiated_wf ngB /\ ng_send_initial_seq ngA = ng_recv_initial_seq ngB;
  ss_opened : Integrity.opened oA ngA (dv_conn dA) /\ Integrity.opened oB ngB (dv_conn dB);
  ss_typed : Connection_typed (dv_conn dA) /\ Forall event_typed (offered turnsA);
  ss_drivers : driver_inv oA dA /\ driver_inv oB dB;
  ss_inputs : Forall (fun t => driver_event_ok (snd t)) turnsA /\ Forall (fun t => driver_event_ok (snd t)) turnsB;
  ss_fit : reads_fit dA turnsA /\ reads_fit dB turnsB
}.

(** The network and the keys: every datagram that reaches [dB] and is a data
    packet left [dA], at most [2^30] payloads are sent, and with encryption
    they are sent under one key. *)
Record carried `{CryptoPrimitives} (ngA ngB : Negotiated) (turnsA turnsB : list (turn_env * driver_event))
    (effsA : list driver_effect) : Prop := mkCarried {
  cd_count : Z.of_nat (length (commands turnsA)) <= 2 ^ 30;
  cd_keys : engines_paired (length (commands turnsA)) (ng_crypto ngA) (ng_crypto ngB) (offered turnsB);
  cd_faithful : forall now dg rng d, EvDatagram now dg rng ∈ offered turnsB -> Packet_parse dg = pok (Data d) ->
    dg ∈ datagrams effsA
}.

Lemma engines_paired_less n m a b evs evs' :
  (n <= m)%nat ->
  (forall now dg rng, EvDatagram now dg rng ∈ evs -> EvDatagram now dg rng ∈ evs') ->
  engines_paired m a b evs' -> engines_paired n a b evs.
Proof.
  intros Hn Hin. unfold engines_paired. destruct a as [i|], b as [r|]; try done. intros (? & ? & ? & Hno).
  split; [done|]. split; [done|]. split; [lia|]. intros t dg r0 ctrl blob He. by apply (Hno t dg r0), Hin.
Qed.

Lemma sent_typed outs : Forall output_typed outs -> Forall Packet_wf (sent outs).
Proof.
  intros Hf. apply Forall_forall. intros p Hp. unfold sent in Hp. apply list_elem_of_omap in Hp as (out & Ho & E).
  rewrite Forall_forall in Hf. specialize (Hf _ Ho). destruct out as [| |q|]; try discriminate E. subst q. exact Hf.
Qed.

(** Both tasks run, and what the one hands over was given to the other. *)
Lemma tasks_preserve_the_stream `{CryptoLaws} oA oB ngA ngB dA dB turnsA turnsB :
  session oA oB ngA ngB dA dB turnsA turnsB ->
  exists dA' effsA finA dB' effsB finB,
    drive dA turnsA = Ret (dA', effsA, finA) /\ drive dB turnsB = Ret (dB', effsB, finB) /\
    (carried ngA ngB turnsA turnsB effsA -> sublist (handed_over effsB) (commands turnsA)).
Proof.
  intros [(HoA & HoB & Hcap) (HngA & HngB & Hisn) (HopA & HopB) (Hty & Hev) (HiA & HiB) (HtA & HtB) (HfA & HfB)].
  destruct (drive_ok oA turnsA dA HiA HtA) as (dA' & effsA & finA & HA & _).
  destruct (drive_ok oB turnsB dB HiB HtB) as (dB' & effsB & finB & HB & _).
  exists dA', effsA, finA, dB', effsB, finB. do 2 (split; [done|]). intros [Hcount Hkeys Hnet].
  apply drive_performs in HA as (evsA & (outsA & HrA & _ & HsA) & HaA & HdA); [|done].
  apply drive_performs in HB as (evsB & (outsB & HrB & HhB & _) & _ & HdB); [|done].
  destruct (runs_preserve_the_stream oA oB ngA ngB (dv_conn dA) (dv_conn dB) evsA evsB HoA HoB Hcap HngA HngB HopA HopB Hisn
    (performed_ok _ _ HtA HdA) (performed_ok _ _ HtB HdB)) as (a' & outsA' & b' & outsB' & HrA' & HrB' & Hsub).
  rewrite HrA in HrA'. injection HrA' as <- <-. rewrite HrB in HrB'. injection HrB' as <- <-.
  assert (Hacc : sublist (accepted evsA outsA) (commands turnsA)).
  { transitivity (asked evsA); [apply accepted_asked|done]. }
  pose proof (sublist_length _ _ Hacc) as Hlen. rewrite HhB. transitivity (accepted evsA outsA); [|done]. apply Hsub.
  - lia.
  - by apply (engines_paired_less _ (length (commands turnsA)) _ _ _ (offered turnsB)).
  - intros t dg r d Hin Hp. specialize (Hnet t dg r d (HdB _ _ _ Hin) Hp). rewrite HsA in Hnet.
    apply list_elem_of_fmap in Hnet as (p & -> & Hsent).
    destruct (conn_run_typed oA evsA (dv_conn dA)) as (a2 & outs2 & Hr2 & Hf); [apply HiA|done| |].
    { apply Forall_forall. intros ev Hin'. destruct ev; try done. rewrite Forall_forall in Hev.
      apply (Hev (EvDatagram now datagram rng)). by apply HdA. }
    rewrite HrA in Hr2. injection Hr2 as <- <-. apply sent_typed in Hf. rewrite Forall_forall in Hf.
    rewrite (Packet_parse_encode p (Hf p Hsent)) in Hp. by injection Hp as ->.
Qed.

(** ** Two programs *)

Lemma prefix_sublist {A} (l1 l2 : list A) : l1 `prefix_of` l2 -> sublist l1 l2.
Proof. intros [k ->]. by apply sublist_inserts_r. Qed.

(** The payloads of the chunks before an error, and of the commands. *)
Fixpoint leading (items : list (result Z bytes)) : list bytes :=
  match items with
  | Ok chunk :: items => chunk :: leading items
  | _ => []
  end.

Definition cmd_payloads (cmds : list Cmd) : list bytes :=
  omap (fun c => match c with CmdSend payload => Some payload | CmdClose => None end) cmds.

Lemma leading_reader_items n c err : leading (reader_items n c err) `prefix_of` chunks_of n c.
Proof.
  assert (H : forall l tail, leading ((Ok <$> l) ++ tail) = l ++ leading tail).
  { induction l as [|x l IH]; intros tail; [done|]. rewrite fmap_cons. cbn. by rewrite IH. }
  unfold reader_items. destruct err as [e|].
  - rewrite H. cbn. rewrite app_nil_r. eexists. symmetry. apply take_drop.
  - rewrite <- (app_nil_r (Ok <$> _)), H, app_nil_r. done.
Qed.

Lemma send_loop_commands turns : forall items k next_stats total cmds lines ns fin,
  send_loop items turns k next_stats total = (cmds, lines, ns, fin) -> cmd_payloads cmds `prefix_of` leading items.
Proof.
  induction items as [|[chunk|e] items IH]; intros k next_stats total cmds lines ns fin; cbn [send_loop leading];
    destruct (with_stats next_stats _) as [n1 l1]; try (intros [= <- _ _ _]; apply prefix_nil).
  destruct (with_stats n1 _) as [n2 l2]. unfold SrtSocket_send.
  case_if; [intros [= <- _ _ _]; apply prefix_nil|]. case_if; [|intros [= <- _ _ _]; apply prefix_nil].
  destruct (send_loop items turns (S k) n2 _) as [[[cmds' more] ns'] fin'] eqn:Hl. intros [= <- _ _ _].
  change (cmd_payloads (CmdSend chunk :: cmds')) with (chunk :: cmd_payloads cmds').
  apply prefix_cons. by eapply IH.
Qed.

Lemma send_main_commands interval rate linger now items turns cmds lines fin :
  send_main interval rate linger now items turns = Ret (cmds, lines, fin) -> cmd_payloads cmds `prefix_of` leading items.
Proof.
  unfold send_main. destruct (chunk_period rate) as [period|]; [|done]. cbn [mbind panicking_bind].
  destruct (interval period); [|done]. cbn [mbind panicking_bind].
  destruct (send_loop items turns 0 _ 0) as [[[cmds' l'] ns] fin'] eqn:Hl. apply send_loop_commands in Hl.
  destruct fin'; [destruct (with_stats ns linger); unfold cmd_payloads in *; intros [= <- _ _];
    by rewrite omap_app, app_nil_r|by intros [= <- _ _]..].
Qed.

Lemma recv_loop_queue evs : forall next_stats total queue lines fin,
  recv_loop evs next_stats total = (queue, lines, fin) -> queue `prefix_of` received evs.
Proof.
  induction evs as [|ev evs IH]; intros next_stats total queue lines fin; cbn [recv_loop]; [intros [= <- _ _]; apply prefix_nil|].
  destruct ev as [p q n| |e|n]; try (intros [= <- _ _]; apply prefix_nil).
  - case_if; [|intros [= <- _ _]; apply prefix_nil]. destruct (if next_stats <=? n then _ else _) as [l ns].
    destruct (recv_loop evs ns _) as [[queue' more] fin'] eqn:Hl. intros [= <- _ _].
    change (received (GotPayload p q n :: evs)) with (p :: received evs). apply prefix_cons. by eapply IH.
  - destruct (recv_loop evs _ total) as [[queue' more] fin'] eqn:Hl. intros [= <- _ _].
    change (received (GotDeadline n :: evs)) with (received evs). by eapply IH.
Qed.

Lemma recv_main_file evs now writes flushed file lines fin :
  recv_main evs now writes flushed = Some (file, lines, fin) -> (forall e, fin <> WriterFailed e) ->
  exists kept, kept `prefix_of` received evs /\ file = concat kept.
Proof.
  unfold recv_main. destruct (recv_loop evs _ 0) as [[queue l] [[total res]|]] eqn:Hl; [|done].
  apply recv_loop_queue in Hl. pose proof (writer_loop_spec queue writes flushed 0) as Hw.
  destruct (writer_loop queue writes flushed 0) as [f [u|e]]; intros [= <- _ <-] Hfin; [|by destruct (Hfin e)].
  exists queue. split; [done|]. apply Hw.
Qed.

(** ** Properties *)



(** ** Witnesses *)

Section Witnesses.

#[local] Existing Instance toy_primitives.
#[local] Existing Instance toy_laws.
#[local] Existing Instance toy_cookie.

(** The sockets of the two ends of an encrypted handshake. *)
Definition demo_task (o : SrtOptions) (ng : Negotiated) : Driver :=
  spawn_connection (demo_end o ng) (Demux demo_addr) false.

Definition demo_gives (payload : bytes) : turn_env * driver_event :=
  (demo_turn 0, DvCmd 0 (Some (CmdSend payload))).

Definition demo_wakes (now : Z) : turn_env * driver_event := (demo_turn now, DvTimer now).

Definition demo_reads (dg : bytes) : turn_env * driver_event :=
  (demo_turn 1, DvRecv 1 (ChannelRead (Some dg)) demo_rng).

Definition demo_turnsA : list (turn_env * driver_event) :=
  [demo_gives [1; 2; 3]; demo_gives [4; 5]; demo_gives [6]; demo_wakes 0].

Definition demo_arrives (dgs : list bytes) : list (turn_env * driver_event) :=
  (demo_reads <$> dgs) ++ [demo_wakes (from_secs 1)].

(** The third packet arrives first, the second never. *)
Definition demo_turnsB : list (turn_env * driver_event) := demo_arrives [demo_datagram 3; demo_datagram 1].

Lemma demo_task_inv o ng : Options_wf o -> Negotiated_wf ng -> driver_inv o (demo_task o ng).
Proof.
  intros Ho Hng. apply spawn_inv; [|done].
  by destruct (opened_state o ng _ Ho Hng (demo_opened o ng)) as (Hwf & _).
Qed.

Lemma demo_task_typed o ng :
  Negotiated_wf ng -> is_u32 (ng_peer_socket_id ng) -> Connection_typed (dv_conn (demo_task o ng)).
Proof.
  intros (_ & Hseq & _) Hid. cbn [demo_task spawn_connection dv_conn demo_end]. unfold demo_end, Connection_accepted_with_timebase.
  pose proof (transmission_pair_typed 0 ng o (mkTimebase 0) Hseq) as Hp.
  destruct (transmission_pair 0 ng o (mkTimebase 0)) as [s r]. split; [done|]. split; [by constructor|]. by split.
Qed.

(** No read is one of a UDP socket, and the generator of keys is sound. *)
Lemma demo_session turnsA turnsB :
  offered turnsA = [] -> Forall (fun t => driver_event_ok (snd t)) turnsA -> Forall (fun t => driver_event_ok (snd t)) turnsB ->
  Forall (fun t => match snd t with DvRecv _ (UdpRead _) _ => False | _ => True end) (turnsA ++ turnsB) ->
  session demo_caller_opts demo_listener_opts (fst demo_negotiated) (snd demo_negotiated)
    (demo_task demo_caller_opts (fst demo_negotiated)) (demo_task demo_listener_opts (snd demo_negotiated)) turnsA turnsB.
Proof.
  intros HoA HtA HtB Hudp. pose proof demo_options as (H1 & H2 & H3). pose proof demo_negotiated_wf as [H4 H5].
  assert (Hfit : forall d turns, Forall (fun t => match snd t with DvRecv _ (UdpRead _) _ => False | _ => True end) turns ->
    reads_fit d turns).
  { intros d turns Hf env now dg rng Hin. rewrite Forall_forall in Hf. by specialize (Hf _ Hin). }
  assert (Hid : is_u32 (ng_peer_socket_id (fst demo_negotiated))) by (vm_compute; split; [discriminate|reflexivity]).
  apply Forall_app in Hudp as [HuA HuB].
  assert (Hop : forall o ng, opened o ng (dv_conn (demo_task o ng))) by exact demo_opened.
  exact (mkSession _ _ _ _ _ _ _ _ _ (conj H1 (conj H2 H3)) (conj H4 (conj H5 demo_isn)) (conj (Hop _ _) (Hop _ _))
    (conj (demo_task_typed _ _ H4 Hid) (eq_ind_r (Forall event_typed) (Forall_nil_2 _) HoA))
    (conj (demo_task_inv _ _ H1 H4) (demo_task_inv _ _ H2 H5)) (conj HtA HtB) (conj (Hfit _ _ HuA) (Hfit _ _ HuB))).
Qed.

Definition demo_effects (r : panicking (Driver * list driver_effect * bool)) : list driver_effect :=
  match r with Ret (_, effs, _) => effs | Panic => [] end.

Lemma demo_drives :
  datagrams (demo_effects (drive (demo_task demo_caller_opts (fst demo_negotiated)) demo_turnsA)) =
    ((fun p => Packet_encode p []) <$> demo_packets) /\
  handed_over (demo_effects (drive (demo_task demo_listener_opts (snd demo_negotiated)) demo_turnsB)) = [[1; 2; 3]; [6]].
Proof. split; vm_compute; reflexivity. Qed.

Lemma demo_datagrams_sent i : (i < 4)%nat -> demo_datagram i ∈ (fun p => Packet_encode p []) <$> demo_packets.
Proof.
  intros Hi. unfold demo_datagram. destruct demo_parses as (_ & _ & _ & E).
  destruct (lookup_lt_is_Some_2 demo_packets i) as [p Hp]; [by rewrite E|]. rewrite Hp.
  apply list_elem_of_fmap. exists p. split; [done|]. by apply list_elem_of_lookup_2 with i.
Qed.

Lemma demo_rng_ok : Rng_ok demo_rng.
Proof. split; [|split]; intros n; apply length_replicate. Qed.

Lemma demo_offered dgs now dg rng : EvDatagram now dg rng ∈ offered (demo_arrives dgs) -> dg ∈ dgs.
Proof.
  unfold demo_arrives. induction dgs as [|dg0 dgs IH]; [intros Hin; by apply not_elem_of_nil in Hin|].
  rewrite fmap_cons. change ((demo_reads dg0 :: (demo_reads <$> dgs)) ++ [demo_wakes (from_secs 1)])
    with (demo_reads dg0 :: ((demo_reads <$> dgs) ++ [demo_wakes (from_secs 1)])).
  unfold demo_reads at 1. rewrite offered_cons. rewrite elem_of_app, elem_of_cons. intros [Hin|Hin]; [left|right; by apply IH].
  apply list_elem_of_singleton in Hin. congruence.
Qed.

Lemma demo_arrives_ok dgs :
  Forall (fun t => driver_event_ok (snd t)) (demo_arrives dgs) /\
  Forall (fun t => match snd t with DvRecv _ (UdpRead _) _ => False | _ => True end) (demo_arrives dgs).
Proof.
  split; apply Forall_app; (split; [|by constructor]); apply Forall_fmap, Forall_true; intros dg; [apply demo_rng_ok|done].
Qed.



End Witnesses.
