(* ===== verification/Testing.v ===== *)
(** * Unit tests as programs

    The files [Test...] translate the unit tests of the sources: each test
    function is a program over the model that returns when all its
    assertions hold and panics at the first that does not, as in Rust.  That
    the tests pass is computed, so that the model is held against the
    expectations written down with the code, the byte vectors of the wire
    format and the instants of the timers among them. *)

From S2P Require Import Prelude PacketTypes PacketData PacketHandshake PacketControl.

(** ** Assertions *)

#[export] Instance panicking_throw : MThrow unit panicking := fun A _ => Panic.

(** A test that drives one object of type [S] through methods that change
    it. *)
Definition test (S A : Type) : Type := S -> panicking (S * A).

#[export] Instance test_ret S : MRet (test S) := fun A a s => Ret (s, a).
#[export] Instance test_bind S : MBind (test S) := fun A B f t s => '(s, a) ← t s; f a s.
#[export] Instance test_throw S : MThrow unit (test S) := fun A _ s => Panic.

(** A method call, by the kind of the method. *)
Definition call {S A} (f : S -> panicking (S * A)) : test S A := f.
Definition act {S} (f : S -> panicking S) : test S unit := fun s => s ← f s; Ret (s, tt).
Definition step {S A} (f : S -> S * A) : test S A := fun s => Ret (f s).
Definition modify {S} (f : S -> S) : test S unit := fun s => Ret (f s, tt).
Definition gets {S A} (f : S -> A) : test S A := fun s => Ret (s, f s).
Definition lift {S A} (m : panicking A) : test S A := fun s => a ← m; Ret (s, a).

(** A method of one of two objects. *)
Definition on_fst {S T A} (t : test S A) : test (S * T) A := fun '(s, s') => '(s, a) ← t s; Ret ((s, s'), a).
Definition on_snd {S T A} (t : test T A) : test (S * T) A := fun '(s, s') => '(s', a) ← t s'; Ret ((s, s'), a).

(** [let mut s = ..; ..] *)
Definition run {S} (s : S) (t : test S unit) : panicking unit := t s;; Ret tt.

Definition assert {M} `{MRet M} `{MThrow unit M} (b : bool) : M unit := if b then mret tt else mthrow tt.

Definition assert_eq {M} `{MRet M} `{MThrow unit M} `{EqDecision A} (a b : A) : M unit := assert (bool_decide (a = b)).

Definition assert_ne {M} `{MRet M} `{MThrow unit M} `{EqDecision A} (a b : A) : M unit := assert (negb (bool_decide (a = b))).

(** [.unwrap()] of an option. *)
Definition some {M} `{MRet M} `{MThrow unit M} {A} (o : option A) : M A :=
  match o with Some a => mret a | None => mthrow tt end.

(** [assert!(o.is_none())], [assert!(o.is_some())] *)
Definition assert_none {M} `{MRet M} `{MThrow unit M} {A} (o : option A) : M unit :=
  match o with Some _ => mthrow tt | None => mret tt end.

Definition assert_some {M} `{MRet M} `{MThrow unit M} {A} (o : option A) : M unit :=
  match o with Some _ => mret tt | None => mthrow tt end.

Definition unwrap {E A} (m : presult E A) : panicking A :=
  r ← m;
  match r with Ok a => Ret a | Err _ => Panic end.

Definition unwrap_err {E A} (m : presult E A) : panicking E :=
  r ← m;
  match r with Ok _ => Panic | Err e => Ret e end.

(** [for x in l { f(x) }], and with a variable the body changes. *)
Fixpoint for_each {M} `{MRet M} `{MBind M} {A} (l : list A) (f : A -> M unit) : M unit :=
  match l with
  | [] => mret tt
  | x :: l => f x;; for_each l f
  end.

Fixpoint for_fold {M} `{MRet M} `{MBind M} {A S} (l : list A) (s : S) (f : S -> A -> M S) : M S :=
  match l with
  | [] => mret s
  | x :: l => s ← f s x; for_fold l s f
  end.

(** [while let Some(x) = next() { out.push(x) }], at most [fuel] times. *)
Fixpoint drain {S A} (fuel : nat) (next : test S (option A)) : test S (list A) :=
  match fuel with
  | O => mthrow tt
  | S fuel =>
      x ← next;
      match x with
      | Some x => l ← drain fuel next; mret (x :: l)
      | None => mret []
      end
  end.

(** A range [lo .. hi] of integers. *)
Definition range (lo hi : Z) : list Z := (fun i => lo + Z.of_nat i) <$> seq 0 (Z.to_nat (hi - lo)).

(** Random bytes, all the same. *)
Definition random (b : Z) : nat -> bytes := fun n => replicate n b.

Definition passes (t : panicking unit) : Prop := t = Ret tt.

(** All the tests of a file pass. *)
Ltac run_tests := repeat (apply Forall_cons; split; [vm_compute; reflexivity|]); apply Forall_nil_2.

(** ** Comparisons *)

#[export] Instance result_eq_dec {E A} `{EqDecision E} `{EqDecision A} : EqDecision (result E A).
Proof. solve_decision. Defined.

#[export] Instance panicking_eq_dec {A} `{EqDecision A} : EqDecision (panicking A).
Proof. solve_decision. Defined.

#[export] Instance bad_handshake_eq_dec : EqDecision bad_handshake.
Proof. solve_decision. Defined.

#[export] Instance bad_cif_eq_dec : EqDecision bad_cif.
Proof. solve_decision. Defined.

#[export] Instance PacketError_eq_dec : EqDecision PacketError.
Proof. solve_decision. Defined.

#[export] Instance PacketPosition_eq_dec : EqDecision PacketPosition.
Proof. solve_decision. Defined.

#[export] Instance DataPacket_eq_dec : EqDecision DataPacket.
Proof. solve_decision. Defined.

#[export] Instance HsExtFields_eq_dec : EqDecision HsExtFields.
Proof. solve_decision. Defined.

#[export] Instance HsExtension_eq_dec : EqDecision HsExtension.
Proof. solve_decision. Defined.

#[export] Instance HandshakeCif_eq_dec : EqDecision HandshakeCif.
Proof. solve_decision. Defined.

#[export] Instance AckCif_eq_dec : EqDecision AckCif.
Proof. solve_decision. Defined.

#[export] Instance LossRange_eq_dec : EqDecision LossRange.
Proof. solve_decision. Defined.

#[export] Instance ControlType_eq_dec : EqDecision ControlType.
Proof. solve_decision. Defined.

#[export] Instance ControlPacket_eq_dec : EqDecision ControlPacket.
Proof. solve_decision. Defined.

#[export] Instance Packet_eq_dec : EqDecision Packet.
Proof. solve_decision. Defined.
