(* ===== verification/TestPacket.v ===== *)
(** * Unit tests of the codec

    The tests of [packet/types.rs], [packet/data.rs], [packet/mod.rs],
    [packet/control.rs] and [packet/handshake.rs].  Left out is the test of
    [data.rs] on the address of a payload in memory. *)

From S2P Require Import Prelude Text PacketTypes Utf8 PacketData PacketHandshake PacketControl Testing.

(** ** [packet/types.rs] *)

Definition types_seq_wraps_forward : panicking unit :=
  let max := SeqNumber_new SeqNumber_MASK in
  assert_eq (SeqNumber_next max) (SeqNumber_new 0);;
  assert_eq (SeqNumber_prev (SeqNumber_new 0)) max.

Definition types_seq_diff_across_wrap : panicking unit :=
  let max := SeqNumber_new SeqNumber_MASK in
  let zero := SeqNumber_new 0 in
  assert_eq (SeqNumber_diff zero max) 1;;
  assert_eq (SeqNumber_diff max zero) (-1);;
  assert_eq (SeqNumber_diff zero zero) 0;;
  assert_eq (SeqNumber_diff (SeqNumber_new 1000) (SeqNumber_new 10)) 990;;
  assert_eq (SeqNumber_diff (SeqNumber_new 10) (SeqNumber_new 1000)) (-990).

Definition types_seq_add_negative : panicking unit :=
  assert_eq (SeqNumber_add (SeqNumber_new 5) (-10)) (SeqNumber_new (SeqNumber_MASK - 4)).

Definition types_msg_wraps : panicking unit :=
  let max := MsgNumber_new MsgNumber_MASK in
  assert_eq (MsgNumber_next max) (MsgNumber_new 0).

(** ** [packet/data.rs] *)

Definition data_sample : DataPacket :=
  mkDataPacket (SeqNumber_new 0x12345678) Only false EncNone true (MsgNumber_new 5) 0x00000100 0x000000AB [0xDE; 0xAD].

Definition data_encode_exact_bytes : panicking unit :=
  assert_eq (DataPacket_encode data_sample [])
    [0x12; 0x34; 0x56; 0x78;
     0xC4; 0x00; 0x00; 0x05;
     0x00; 0x00; 0x01; 0x00;
     0x00; 0x00; 0x00; 0xAB;
     0xDE; 0xAD].

Definition data_parse_exact_bytes : panicking unit :=
  let buf :=
    [0x7F; 0xFF; 0xFF; 0xFF;
     0xB3; 0xFF; 0xFF; 0xFF;
     0xFF; 0xFF; 0xFF; 0xFF;
     0x00; 0x00; 0x00; 0x01;
     0x01; 0x02; 0x03] in
  p ← unwrap (DataPacket_parse buf);
  assert_eq (dp_seq p) (SeqNumber_new SeqNumber_MASK);;
  assert_eq (dp_position p) First;;
  assert (dp_order p);;
  assert_eq (dp_encryption p) EncOdd;;
  assert (negb (dp_retransmitted p));;
  assert_eq (dp_msg_number p) (MsgNumber_new MsgNumber_MASK);;
  assert_eq (dp_timestamp p) U32_MAX;;
  assert_eq (dp_dst_socket_id p) 1;;
  assert_eq (dp_payload p) [0x01; 0x02; 0x03].

Definition data_round_trip_all_flag_combinations : panicking unit :=
  for_each [Middle; Last; First; Only] (fun position =>
  for_each [EncNone; EncEven; EncOdd; EncBoth] (fun encryption =>
  for_each [false; true] (fun order =>
  for_each [false; true] (fun retransmitted =>
    let p := data_sample <| dp_position := position |> <| dp_encryption := encryption |>
               <| dp_order := order |> <| dp_retransmitted := retransmitted |> in
    q ← unwrap (DataPacket_parse (DataPacket_encode p []));
    assert_eq q p)))).

Definition data_encrypted_kk_values_accepted_at_packet_layer : panicking unit :=
  for_each [(0, EncNone); (1, EncEven); (2, EncOdd); (3, EncBoth)] (fun '(kk_bits, expected) =>
    let buf := DataPacket_encode data_sample [] in
    old ← index buf 4;
    let buf := <[ 4%nat := Z.lor (Z.land old 0xE7) (Z.shiftl kk_bits 3) ]> buf in
    p ← unwrap (DataPacket_parse buf);
    assert_eq (dp_encryption p) expected).

Definition data_empty_payload_round_trip : panicking unit :=
  let p := data_sample <| dp_payload := [] |> in
  let out := DataPacket_encode p [] in
  assert_eq (length out) 16%nat;;
  q ← unwrap (DataPacket_parse out);
  assert_eq q p.

Definition data_truncated_header_rejected : panicking unit :=
  assert_eq (DataPacket_parse (replicate 15 0)) (perr TooShort);;
  assert_eq (DataPacket_parse []) (perr TooShort).

Definition data_max_payload_round_trip : panicking unit :=
  let p := data_sample <| dp_payload := replicate 1456 0x47 |> in
  let out := DataPacket_encode p [] in
  assert_eq (length out) (16 + 1456)%nat;;
  q ← unwrap (DataPacket_parse out);
  assert_eq q p.

(** ** [packet/mod.rs] *)

Definition packet_parse_dispatches_on_f_bit : panicking unit :=
  let data :=
    [0x00; 0x00; 0x00; 0x01; 0xC0; 0x00; 0x00; 0x01;
     0x00; 0x00; 0x00; 0x00; 0x00; 0x00; 0x00; 0x05] in
  p ← unwrap (Packet_parse data);
  assert (match p with Data _ => true | Control _ => false end);;
  let ctrl :=
    [0x80; 0x01; 0x00; 0x00; 0x00; 0x00; 0x00; 0x00;
     0x00; 0x00; 0x00; 0x00; 0x00; 0x00; 0x00; 0x05] in
  p ← unwrap (Packet_parse ctrl);
  match p with
  | Control p => assert_eq (cp_control_type p) KeepAlive;; assert_eq (cp_dst_socket_id p) 5
  | Data _ => Panic
  end.

Definition packet_parse_rejects_short_datagram : panicking unit :=
  assert_eq (Packet_parse []) (perr TooShort);;
  assert_eq (Packet_parse (replicate 15 0x80)) (perr TooShort);;
  assert_eq (Packet_parse (replicate 15 0x00)) (perr TooShort).

Definition packet_packet_accessors : panicking unit :=
  let ctrl :=
    [0x80; 0x05; 0x00; 0x00; 0x00; 0x00; 0x00; 0x00;
     0x00; 0x00; 0x01; 0x00; 0x00; 0x00; 0x00; 0x07] in
  p ← unwrap (Packet_parse ctrl);
  assert_eq (Packet_timestamp p) 0x100;;
  assert_eq (Packet_dst_socket_id p) 7.

Definition packet_packet_round_trip : panicking unit :=
  let p := Control (mkControlPacket 42 0xDEADBEEF (AckAck 3)) in
  q ← unwrap (Packet_parse (Packet_encode p []));
  assert_eq q p.

(** ** [packet/control.rs] *)

Definition control_TS : Z := 0x0001E240.

Definition control_DST : Z := 0x00000042.

Definition control_pkt (control_type : ControlType) : ControlPacket := mkControlPacket control_TS control_DST control_type.

Definition control_encode (p : ControlPacket) : bytes := ControlPacket_encode p [].

Definition control_header (type_code info : Z) : bytes :=
  to_be 4 (Z.lor 0x80000000 (Z.shiftl type_code 16)) ++ to_be 4 info ++
  [0x00; 0x01; 0xE2; 0x40] ++ [0x00; 0x00; 0x00; 0x42].

Definition control_round_trip (p : ControlPacket) : panicking unit :=
  q ← unwrap (ControlPacket_parse (control_encode p));
  assert_eq q p.

Definition control_keepalive_exact_bytes_with_pad : panicking unit :=
  let bytes := control_encode (control_pkt KeepAlive) in
  assert_eq bytes (control_header 0x0001 0 ++ [0; 0; 0; 0]);;
  assert_eq (length bytes) 20%nat.

Definition control_cifless_types_accept_pad_and_no_pad : panicking unit :=
  for_each [(0x0001, KeepAlive); (0x0004, CongestionWarning); (0x0005, Shutdown); (0x0006, AckAck 7);
            (0x0008, PeerError 4000)] (fun '(code, ct) =>
    let info := ControlType_type_specific_info ct in
    let bare := control_header code info in
    p ← unwrap (ControlPacket_parse bare);
    assert_eq p (control_pkt ct);;
    p ← unwrap (ControlPacket_parse (bare ++ [0; 0; 0; 0]));
    assert_eq p (control_pkt ct);;
    p ← unwrap (ControlPacket_parse (bare ++ replicate 8 0xFF));
    assert_eq p (control_pkt ct);;
    assert_eq (length (control_encode (control_pkt ct))) 20%nat).

Definition control_shutdown_exact_bytes : panicking unit :=
  assert_eq (control_encode (control_pkt Shutdown)) (control_header 0x0005 0 ++ [0; 0; 0; 0]).

Definition control_ackack_exact_bytes : panicking unit :=
  let p := control_pkt (AckAck 0x00000102) in
  assert_eq (control_encode p) (control_header 0x0006 0x00000102 ++ [0; 0; 0; 0]);;
  control_round_trip p.

Definition control_peererror_exact_bytes : panicking unit :=
  let p := control_pkt (PeerError 4000) in
  assert_eq (control_encode p) (control_header 0x0008 4000 ++ [0; 0; 0; 0]);;
  control_round_trip p.

Definition control_subtype_ignored_on_standard_types : panicking unit :=
  let bytes := control_header 0x0001 0 in
  let bytes := <[ 2%nat := 0x00 ]> bytes in
  let bytes := <[ 3%nat := 0xFF ]> bytes in
  p ← unwrap (ControlPacket_parse bytes);
  assert_eq p (control_pkt KeepAlive).

Definition control_full_ack_cif : AckCif :=
  mkAckCif (SeqNumber_new 0x00001000) (Some 100000) (Some 50000) (Some 8192) (Some 1500) (Some 20000) (Some 1974000).

Definition control_light_ack_exact_bytes_no_pad : panicking unit :=
  let p := control_pkt (Ack 0 (light_ack (SeqNumber_new 0x00001000))) in
  let bytes := control_encode p in
  assert_eq bytes (control_header 0x0002 0 ++ [0x00; 0x00; 0x10; 0x00]);;
  assert_eq (length bytes) 20%nat;;
  control_round_trip p.

Definition control_full_ack_28_exact_bytes : panicking unit :=
  let p := control_pkt (Ack 1 control_full_ack_cif) in
  let expect := control_header 0x0002 1 ++
    [0x00; 0x00; 0x10; 0x00] ++
    [0x00; 0x01; 0x86; 0xA0] ++
    [0x00; 0x00; 0xC3; 0x50] ++
    [0x00; 0x00; 0x20; 0x00] ++
    [0x00; 0x00; 0x05; 0xDC] ++
    [0x00; 0x00; 0x4E; 0x20] ++
    [0x00; 0x1E; 0x1E; 0xF0] in
  assert_eq (control_encode p) expect;;
  assert_eq (length (control_encode p)) (16 + 28)%nat;;
  control_round_trip p.

(** [AckCif { recv_rate_pkts: None, .. full_ack_cif() }] *)
Definition control_small_ack_cif : AckCif :=
  control_full_ack_cif <| ack_recv_rate_pkts := None |> <| ack_link_capacity_pkts := None |> <| ack_recv_rate_bytes := None |>.

Definition control_ack_variants_distinguished_by_length : panicking unit :=
  let p := control_pkt (Ack 3 control_small_ack_cif) in
  assert_eq (length (control_encode p)) (16 + 16)%nat;;
  control_round_trip p;;
  let full24 := control_full_ack_cif <| ack_recv_rate_bytes := None |> in
  let p := control_pkt (Ack 4 full24) in
  assert_eq (length (control_encode p)) (16 + 24)%nat;;
  control_round_trip p.

Definition control_ack_32_byte_cif_ignores_extra_word : panicking unit :=
  let p := control_pkt (Ack 1 control_full_ack_cif) in
  q ← unwrap (ControlPacket_parse (control_encode p ++ [0xAA; 0xBB; 0xCC; 0xDD]));
  assert_eq q p.

Definition control_ack_trailing_partial_word_ignored : panicking unit :=
  let p := control_pkt (Ack 3 control_small_ack_cif) in
  q ← unwrap (ControlPacket_parse (control_encode p ++ [0x01; 0x02]));
  assert_eq q p.

(** [matches!(r, Err(PacketError::BadCif(_)))] *)
Definition is_bad_cif {A} (r : presult PacketError A) : bool :=
  match r with Ret (Err (BadCif _)) => true | _ => false end.

Definition control_ack_bad_cif_lengths_rejected : panicking unit :=
  for_each [0; 3; 8; 12; 15]%nat (fun cif_len =>
    assert (is_bad_cif (ControlPacket_parse (control_header 0x0002 1 ++ replicate cif_len 0)))).

Definition control_nak_exact_bytes_single_and_range : panicking unit :=
  let p := control_pkt (Nak [mkLossRange (SeqNumber_new 5) (SeqNumber_new 5);
                             mkLossRange (SeqNumber_new 100) (SeqNumber_new 102)]) in
  assert_eq (control_encode p) (control_header 0x0003 0 ++
    [0x00; 0x00; 0x00; 0x05] ++ [0x80; 0x00; 0x00; 0x64] ++ [0x00; 0x00; 0x00; 0x66]);;
  control_round_trip p.

Definition control_nak_two_packet_range_encodes_as_pair : panicking unit :=
  let p := control_pkt (Nak [mkLossRange (SeqNumber_new 10) (SeqNumber_new 11)]) in
  assert_eq (length (control_encode p)) (16 + 8)%nat;;
  control_round_trip p.

Definition control_nak_degenerate_range_pair_accepted : panicking unit :=
  p ← unwrap (ControlPacket_parse (control_header 0x0003 0 ++
        [0x80; 0x00; 0x00; 0x64] ++ [0x00; 0x00; 0x00; 0x64]));
  assert_eq p (control_pkt (Nak [mkLossRange (SeqNumber_new 100) (SeqNumber_new 100)])).

Definition control_nak_range_across_seq_wrap_accepted : panicking unit :=
  control_round_trip (control_pkt (Nak [mkLossRange (SeqNumber_new 0x7FFFFFFE) (SeqNumber_new 1)])).

Definition control_nak_rejects_lo_greater_than_hi : panicking unit :=
  assert_eq (ControlPacket_parse (control_header 0x0003 0 ++ [0x80; 0x00; 0x00; 0xC8] ++ [0x00; 0x00; 0x00; 0x64]))
    (perr (BadCif NakRangeStartAfterEnd)).

Definition control_nak_rejects_range_missing_end : panicking unit :=
  assert_eq (ControlPacket_parse (control_header 0x0003 0 ++ [0x00; 0x00; 0x00; 0x05] ++ [0x80; 0x00; 0x00; 0x64]))
    (perr (BadCif NakRangeMissingEndWord));;
  assert_eq (ControlPacket_parse (control_header 0x0003 0 ++ [0x80; 0x00; 0x00; 0x64]))
    (perr (BadCif NakRangeMissingEndWord)).

Definition control_nak_rejects_empty_loss_list : panicking unit :=
  assert_eq (ControlPacket_parse (control_header 0x0003 0)) (perr (BadCif EmptyNakLossList)).

Definition control_dropreq_exact_bytes : panicking unit :=
  let p := control_pkt (DropRequest (MsgNumber_new 7) (SeqNumber_new 10) (SeqNumber_new 20)) in
  assert_eq (control_encode p) (control_header 0x0007 7 ++ [0x00; 0x00; 0x00; 0x0A] ++ [0x00; 0x00; 0x00; 0x14]);;
  control_round_trip p.

Definition control_dropreq_masks_message_number : panicking unit :=
  p ← unwrap (ControlPacket_parse (control_header 0x0007 0xFC000007 ++
        [0x00; 0x00; 0x00; 0x0A] ++ [0x00; 0x00; 0x00; 0x14]));
  assert_eq (cp_control_type p) (DropRequest (MsgNumber_new 7) (SeqNumber_new 10) (SeqNumber_new 20)).

Definition control_dropreq_short_cif_rejected : panicking unit :=
  for_each [0; 1; 4; 7]%nat (fun short =>
    assert (is_bad_cif (ControlPacket_parse (control_header 0x0007 0 ++ replicate short 0)))).

Definition control_unknown_control_type_rejected : panicking unit :=
  assert_eq (ControlPacket_parse (control_header 0x0009 0)) (perr (UnknownControlType 0x0009)).

Definition control_user_defined_type_reports_subtype : panicking unit :=
  let bytes := control_header 0x7FFF 0 in
  let bytes := <[ 2%nat := 0x00 ]> bytes in
  let bytes := <[ 3%nat := 0x05 ]> bytes in
  assert_eq (ControlPacket_parse (bytes ++ [0; 0; 0; 0])) (perr (UnknownControlType 0x0005)).

Definition control_km_control_round_trip_and_exact_bytes : panicking unit :=
  let blob := [0x12; 0x20; 0x29; 0x01; 0xAA; 0xBB; 0xCC; 0xDD] in
  let p := control_pkt (KmReq blob) in
  let bytes := control_encode p in
  w0 ← slice bytes 0 4;
  assert_eq w0 [0xFF; 0xFF; 0x00; 0x03];;
  w1 ← slice bytes 4 8;
  assert_eq w1 [0; 0; 0; 0];;
  body ← slice bytes 16 (length bytes);
  assert_eq body blob;;
  control_round_trip p;;
  let rsp := control_pkt (KmRsp [4; 0; 0; 0]) in
  w0 ← slice (control_encode rsp) 0 4;
  assert_eq w0 [0xFF; 0xFF; 0x00; 0x04];;
  control_round_trip rsp.

Definition control_truncated_header_rejected : panicking unit :=
  assert_eq (ControlPacket_parse (replicate 15 0x80)) (perr TooShort);;
  assert_eq (ControlPacket_parse []) (perr TooShort).

Definition control_round_trip_all_variants_except_handshake : panicking unit :=
  let variants :=
    [KeepAlive;
     Ack 0 (light_ack (SeqNumber_new 9));
     Ack 12 control_full_ack_cif;
     Nak [mkLossRange (SeqNumber_new 1) (SeqNumber_new 1); mkLossRange (SeqNumber_new 3) (SeqNumber_new 9)];
     CongestionWarning;
     Shutdown;
     AckAck 0x7FFFFFFF;
     DropRequest (MsgNumber_new 0) (SeqNumber_new 55) (SeqNumber_new 60);
     PeerError 4000] in
  for_each variants (fun ct => control_round_trip (control_pkt ct)).

Definition control_base_hs_cif (handshake_type : HandshakeType) : HandshakeCif :=
  mkHandshakeCif 5 0 0 (SeqNumber_new 0x01234567) 1500 8192 handshake_type 0x11223344 0x0BADF00D
    ([0x01; 0x00; 0x00; 0x7F] ++ replicate 12 0) [].

Definition control_handshake_conclusion_round_trip : panicking unit :=
  let cif := control_base_hs_cif Conclusion
    <| hs_extensions := [HsReq (mkHsExtFields SRT_VERSION HsFlags_live_defaults 120 120); StreamId (str "abc")] |>
    <| hs_extension_field := Z.lor HS_EXT_HSREQ HS_EXT_CONFIG |> in
  let p := control_pkt (Handshake cif) in
  let bytes := control_encode p in
  head ← slice bytes 0 HEADER_SIZE;
  assert_eq head (control_header 0x0000 0);;
  body ← slice bytes HEADER_SIZE (length bytes);
  assert_eq body (HandshakeCif_encode_cif cif []);;
  control_round_trip p.

Definition REJ_UNKNOWN : Z := 1000.

Definition REJ_TIMEOUT : Z := 1016.

Definition control_handshake_extensionless_types_round_trip : panicking unit :=
  let induction := control_base_hs_cif Induction <| hs_extension_field := SRT_MAGIC |> in
  let p := control_pkt (Handshake induction) in
  assert_eq (length (control_encode p)) (HEADER_SIZE + 48)%nat;;
  control_round_trip p;;
  let request := control_base_hs_cif Induction <| hs_version := 4 |> <| hs_extension_field := 2 |> in
  control_round_trip (control_pkt (Handshake request));;
  control_round_trip (control_pkt (Handshake (control_base_hs_cif Agreement)));;
  control_round_trip (control_pkt (Handshake (control_base_hs_cif (Rejection REJ_ROGUE)))).

(** ** [packet/handshake.rs] *)

Definition handshake_encoded (cif : HandshakeCif) : bytes := HandshakeCif_encode_cif cif [].

Definition handshake_roundtrip (cif : HandshakeCif) : panicking unit :=
  q ← unwrap (HandshakeCif_parse_cif (handshake_encoded cif));
  assert_eq q cif.

(** [&buf[lo .. hi] == expected] *)
Definition assert_at (buf : bytes) (lo hi : nat) (expected : bytes) : panicking unit :=
  part ← slice buf lo hi;
  assert_eq part expected.

Definition handshake_handshake_type_mapping : panicking unit :=
  for_each [(0, Waveahand); (1, Induction); (0xFFFFFFFF, Conclusion); (0xFFFFFFFE, Agreement);
            (1000, Rejection REJ_UNKNOWN); (1004, Rejection REJ_ROGUE); (1008, Rejection REJ_VERSION);
            (1011, Rejection REJ_UNSECURE); (1016, Rejection REJ_TIMEOUT);
            (2042, Rejection 2042); (3007, Rejection 3007)] (fun '(wire, expected) =>
    ty ← unwrap (Ret (HandshakeType_from_u32 wire));
    assert_eq ty expected;;
    assert_eq (HandshakeType_to_u32 expected) wire).

Definition handshake_handshake_type_rejects_unknown_values : panicking unit :=
  for_each [2; 3; 999; 0xFFFFFFFD; 0x80000000] (fun wire =>
    assert_eq (HandshakeType_from_u32 wire) (Err (BadHandshake UnknownHandshakeType))).

Definition handshake_peer_ip_worked_example : panicking unit :=
  assert_eq (HandshakeCif_encode_peer_ip [192; 168; 1; 10]) ([0x0A; 0x01; 0xA8; 0xC0] ++ replicate 12 0).

Definition handshake_induction_request : HandshakeCif :=
  mkHandshakeCif 4 0 2 (SeqNumber_new 0x12345678) 1500 8192 Induction 0x01020304 0
    (HandshakeCif_encode_peer_ip [192; 168; 1; 10]) [].

Definition handshake_INDUCTION_REQUEST_BYTES : bytes :=
  [0x00; 0x00; 0x00; 0x04;
   0x00; 0x00; 0x00; 0x02;
   0x12; 0x34; 0x56; 0x78;
   0x00; 0x00; 0x05; 0xDC;
   0x00; 0x00; 0x20; 0x00;
   0x00; 0x00; 0x00; 0x01;
   0x01; 0x02; 0x03; 0x04;
   0x00; 0x00; 0x00; 0x00;
   0x0A; 0x01; 0xA8; 0xC0;
   0x00; 0x00; 0x00; 0x00; 0x00; 0x00; 0x00; 0x00; 0x00; 0x00; 0x00; 0x00].

Definition handshake_induction_request_byte_exact : panicking unit :=
  let cif := handshake_induction_request in
  assert_eq (handshake_encoded cif) handshake_INDUCTION_REQUEST_BYTES;;
  handshake_roundtrip cif.

(** [buf[at ..].copy_from_slice(with)] within the buffer. *)
Definition patch (buf : bytes) (at_ : nat) (with_ : bytes) : bytes :=
  take at_ buf ++ with_ ++ drop (at_ + length with_) buf.

Definition handshake_induction_response_byte_exact : panicking unit :=
  let cif := handshake_induction_request <| hs_version := 5 |> <| hs_extension_field := SRT_MAGIC |>
               <| hs_cookie := 0x6BEEF00D |> in
  let expected := patch (patch (patch handshake_INDUCTION_REQUEST_BYTES 3 [0x05]) 6 [0x4A; 0x17])
                    28 [0x6B; 0xEE; 0xF0; 0x0D] in
  assert_eq (handshake_encoded cif) expected;;
  handshake_roundtrip cif.

Definition handshake_conclusion_request : HandshakeCif :=
  mkHandshakeCif 5 0 (Z.lor HS_EXT_HSREQ HS_EXT_CONFIG) (SeqNumber_new 0x12345678) 1500 8192 Conclusion
    0x01020304 0x6BEEF00D (HandshakeCif_encode_peer_ip [192; 168; 1; 10])
    [HsReq (mkHsExtFields SRT_VERSION HsFlags_live_defaults 120 0); StreamId (str "abcdefg")].

Definition handshake_CONCLUSION_REQUEST_BYTES : bytes :=
  [0x00; 0x00; 0x00; 0x05;
   0x00; 0x00; 0x00; 0x05;
   0x12; 0x34; 0x56; 0x78;
   0x00; 0x00; 0x05; 0xDC;
   0x00; 0x00; 0x20; 0x00;
   0xFF; 0xFF; 0xFF; 0xFF;
   0x01; 0x02; 0x03; 0x04;
   0x6B; 0xEE; 0xF0; 0x0D;
   0x0A; 0x01; 0xA8; 0xC0;
   0x00; 0x00; 0x00; 0x00; 0x00; 0x00; 0x00; 0x00; 0x00; 0x00; 0x00; 0x00;
   0x00; 0x01; 0x00; 0x03;
   0x00; 0x01; 0x04; 0x04;
   0x00; 0x00; 0x00; 0x3F;
   0x00; 0x78; 0x00; 0x00;
   0x00; 0x05; 0x00; 0x02;
   0x64; 0x63; 0x62; 0x61;
   0x00; 0x67; 0x66; 0x65].

Definition handshake_conclusion_request_byte_exact : panicking unit :=
  let cif := handshake_conclusion_request in
  assert_eq (handshake_encoded cif) handshake_CONCLUSION_REQUEST_BYTES;;
  handshake_roundtrip cif.

Definition handshake_conclusion_response_byte_exact : panicking unit :=
  let cif :=
    mkHandshakeCif 5 0 HS_EXT_HSREQ (SeqNumber_new 0x12345678) 1500 8192 Conclusion 0x00A1B2C3 0x6BEEF00D
      (HandshakeCif_encode_peer_ip [10; 0; 0; 2])
      [HsRsp (mkHsExtFields SRT_VERSION HsFlags_live_defaults 120 120)] in
  let expected :=
    [0x00; 0x00; 0x00; 0x05;
     0x00; 0x00; 0x00; 0x01;
     0x12; 0x34; 0x56; 0x78;
     0x00; 0x00; 0x05; 0xDC;
     0x00; 0x00; 0x20; 0x00;
     0xFF; 0xFF; 0xFF; 0xFF;
     0x00; 0xA1; 0xB2; 0xC3;
     0x6B; 0xEE; 0xF0; 0x0D;
     0x02; 0x00; 0x00; 0x0A;
     0x00; 0x00; 0x00; 0x00; 0x00; 0x00; 0x00; 0x00; 0x00; 0x00; 0x00; 0x00;
     0x00; 0x02; 0x00; 0x03;
     0x00; 0x01; 0x04; 0x04;
     0x00; 0x00; 0x00; 0x3F;
     0x00; 0x78; 0x00; 0x78] in
  assert_eq (handshake_encoded cif) expected;;
  handshake_roundtrip cif.

Definition handshake_rejection_response_byte_exact : panicking unit :=
  let cif := handshake_conclusion_request <| hs_handshake_type := Rejection REJ_UNSECURE |> <| hs_extensions := [] |> in
  let out := handshake_encoded cif in
  assert_eq (length out) 48%nat;;
  assert_at out 20 24 [0x00; 0x00; 0x03; 0xF3];;
  handshake_roundtrip cif.

Definition handshake_latency_halfword_order : panicking unit :=
  let fields := mkHsExtFields SRT_VERSION HsFlags_live_defaults 0x1234 0x5678 in
  let content := HsExtFields_encode fields [] in
  assert_at content 8 12 [0x12; 0x34; 0x56; 0x78];;
  parsed ← unwrap (HsExtFields_parse content);
  assert_eq (hx_recv_latency_ms parsed) 0x1234;;
  assert_eq (hx_send_latency_ms parsed) 0x5678.

Definition handshake_sid_worked_examples : panicking unit :=
  let content := pack_bytes_words (str "abcdefg") [] in
  assert_eq content (str "dcba" ++ [0] ++ str "gfe");;
  assert_eq (unpack_bytes_words content) (str "abcdefg");;
  let content := pack_bytes_words (str "STREAM") [] in
  assert_eq content (str "ERTS" ++ [0; 0] ++ str "MA");;
  assert_eq (unpack_bytes_words content) (str "STREAM").

Definition handshake_sid_exact_multiple_of_four : panicking unit :=
  let content := pack_bytes_words (str "abcd") [] in
  assert_eq content (str "dcba");;
  assert_eq (unpack_bytes_words content) (str "abcd").

(** The [HSREQ] block most of the tests attach. *)
Definition handshake_hsreq : HsExtension := HsReq (mkHsExtFields SRT_VERSION HsFlags_live_defaults 120 0).

Definition handshake_sid_max_length_roundtrip : panicking unit :=
  let sid := replicate 512 (char "x") in
  let cif := handshake_conclusion_request <| hs_extensions := [handshake_hsreq; StreamId sid] |> in
  parsed ← unwrap (HandshakeCif_parse_cif (handshake_encoded cif));
  assert_eq (HandshakeCif_stream_id parsed) (Some sid).

Definition handshake_congestion_string_shuffled : panicking unit :=
  let cif := handshake_conclusion_request <| hs_extension_field := HS_EXT_CONFIG |>
               <| hs_extensions := [Congestion (str "live")] |> in
  let out := handshake_encoded cif in
  assert_at out 48 52 [0x00; 0x06; 0x00; 0x01];;
  assert_at out 52 56 (str "evil");;
  handshake_roundtrip cif.

Definition handshake_km_passthrough_opaque : panicking unit :=
  let km := range 0 16 in
  let cif := handshake_conclusion_request <| hs_extensions := [handshake_hsreq; ExtKmReq km] |> in
  let out := handshake_encoded cif in
  assert_at out 6 8 [0x00; 0x03];;
  assert_at out 64 68 [0x00; 0x03; 0x00; 0x04];;
  assert_at out 68 84 km;;
  parsed ← unwrap (HandshakeCif_parse_cif out);
  ext ← index (hs_extensions parsed) 1;
  assert_eq ext (ExtKmReq km).

(** [out.windows(n).any(|w| w == needle)] *)
Fixpoint has_window (needle buf : bytes) : bool :=
  bool_decide (take (length needle) buf = needle) ||
  match buf with
  | [] => false
  | _ :: buf => has_window needle buf
  end.

Definition handshake_km_content_is_raw_bytes_not_word_swapped : panicking unit :=
  let km := [0x12; 0x20; 0x29; 0x01; 0x00; 0x00; 0x00; 0x00; 0x02; 0x00; 0x02; 0x00; 0x00; 0x00; 0x04; 0x04] ++
            range 0xA0 0xB0 ++ range 0x30 0x48 in
  assert_eq (length km) 56%nat;;
  let swapped := concat (reverse <$> chunks4 km) in
  assert_ne swapped km;;
  for_each [ExtKmReq km; ExtKmRsp km] (fun ext =>
    let cmd := match ext with ExtKmReq _ => SRT_CMD_KMREQ | _ => SRT_CMD_KMRSP end in
    let cif := handshake_conclusion_request <| hs_extensions := [handshake_hsreq; ext] |> in
    let out := handshake_encoded cif in
    assert_eq (length out) 124%nat;;
    assert_at out 64 66 (to_be 2 cmd);;
    assert_at out 66 68 [0x00; 0x0E];;
    assert_at out 68 124 km;;
    assert (negb (has_window swapped out));;
    parsed ← unwrap (HandshakeCif_parse_cif out);
    e ← index (hs_extensions parsed) 1;
    assert_eq e ext).

Definition handshake_unknown_extension_preserved : panicking unit :=
  let cif := handshake_conclusion_request
    <| hs_extensions := [handshake_hsreq; Unknown SRT_CMD_FILTER [1; 2; 3; 4; 5; 6; 7; 8]] |> in
  handshake_roundtrip cif;;
  assert_eq (HandshakeCif_extension_bits cif) (Z.lor HS_EXT_HSREQ HS_EXT_CONFIG).

Definition handshake_encoder_derives_ext_field_from_blocks : panicking unit :=
  let cif := handshake_conclusion_request <| hs_extension_field := 0 |> in
  let cif := cif <| hs_extensions := hs_extensions cif ++ [ExtKmReq (replicate 8 0)] |> in
  assert_at (handshake_encoded cif) 6 8 (to_be 2 (Z.lor (Z.lor HS_EXT_HSREQ HS_EXT_KMREQ) HS_EXT_CONFIG));;
  let cif := handshake_conclusion_request <| hs_extension_field := 0xFFFF |>
    <| hs_extensions := [HsRsp (mkHsExtFields SRT_VERSION HsFlags_live_defaults 120 120)] |> in
  assert_at (handshake_encoded cif) 6 8 (to_be 2 HS_EXT_HSREQ).

Definition handshake_encoder_keeps_ext_field_without_blocks : panicking unit :=
  let cif := handshake_induction_request <| hs_extension_field := SRT_MAGIC |> in
  assert_at (handshake_encoded cif) 6 8 (to_be 2 SRT_MAGIC).

Definition handshake_ext_field_rederivation_exception : panicking unit :=
  let buf := patch handshake_CONCLUSION_REQUEST_BYTES 6 (to_be 2 0x9320) in
  parsed ← unwrap (HandshakeCif_parse_cif buf);
  assert_eq (hs_extension_field parsed) 0x9320;;
  reparsed ← unwrap (HandshakeCif_parse_cif (handshake_encoded parsed));
  assert_ne reparsed parsed;;
  assert_eq (hs_extension_field reparsed) (Z.lor HS_EXT_HSREQ HS_EXT_CONFIG);;
  assert_eq (reparsed <| hs_extension_field := hs_extension_field parsed |>) parsed.

Definition HsFlags_PACKET_FILTER : Z := 0x80.

Definition handshake_live_default_flags : panicking unit :=
  let flags := HsFlags_live_defaults in
  assert_eq flags 0x3F;;
  assert (HsFlags_contains flags HsFlags_TSBPDSND);;
  assert (HsFlags_contains flags HsFlags_TSBPDRCV);;
  assert (HsFlags_contains flags HsFlags_CRYPT);;
  assert (HsFlags_contains flags HsFlags_TLPKTDROP);;
  assert (HsFlags_contains flags HsFlags_PERIODICNAK);;
  assert (HsFlags_contains flags HsFlags_REXMITFLG);;
  assert (negb (HsFlags_contains flags HsFlags_STREAM));;
  assert (negb (HsFlags_contains flags HsFlags_PACKET_FILTER)).

Definition handshake_parse_rejects_short_cif : panicking unit :=
  assert_eq (HandshakeCif_parse_cif []) (perr TooShort);;
  assert_eq (HandshakeCif_parse_cif (replicate 47 0)) (perr TooShort).

Definition handshake_parse_ignores_trailing_stray_bytes : panicking unit :=
  for_each [1; 2; 3]%nat (fun extra =>
    parsed ← unwrap (HandshakeCif_parse_cif (handshake_INDUCTION_REQUEST_BYTES ++ replicate extra 0xAA));
    assert_eq (hs_extensions parsed) []);;
  for_each [1; 2; 3]%nat (fun extra =>
    parsed ← unwrap (HandshakeCif_parse_cif (handshake_CONCLUSION_REQUEST_BYTES ++ replicate extra 0xAA));
    assert_eq (hs_extensions parsed) (hs_extensions handshake_conclusion_request)).

Definition handshake_parse_rejects_truncated_extension : panicking unit :=
  let buf := handshake_CONCLUSION_REQUEST_BYTES in
  assert_eq (HandshakeCif_parse_cif (take (length buf - 4) buf)) (perr (BadHandshake TruncatedExtensionBlock)).

Definition handshake_parse_degrades_short_hsreq_to_invalid : panicking unit :=
  let buf := patch (take 48 handshake_CONCLUSION_REQUEST_BYTES) 6 (to_be 2 HS_EXT_HSREQ) ++
             [0x00; 0x01; 0x00; 0x02] ++ replicate 8 0xAB in
  parsed ← unwrap (HandshakeCif_parse_cif buf);
  assert_eq (hs_extensions parsed) [Invalid SRT_CMD_HSREQ (replicate 8 0xAB)];;
  assert_eq (HandshakeCif_hs_ext parsed) None;;
  assert_eq (HandshakeCif_extension_bits parsed) HS_EXT_HSREQ;;
  assert_eq (handshake_encoded parsed) buf;;
  parsed ← unwrap (HandshakeCif_parse_cif (handshake_INDUCTION_REQUEST_BYTES ++ [0x00; 0x02; 0x00; 0x00]));
  assert_eq (hs_extensions parsed) [Invalid SRT_CMD_HSRSP []].

Definition handshake_parse_tolerates_long_hsreq : panicking unit :=
  let buf := handshake_INDUCTION_REQUEST_BYTES ++
    [0x00; 0x01; 0x00; 0x04] ++ [0x00; 0x01; 0x04; 0x04] ++ [0x00; 0x00; 0x00; 0x3F] ++
    [0x00; 0x78; 0x00; 0x00] ++ [0xDE; 0xAD; 0xBE; 0xEF] in
  parsed ← unwrap (HandshakeCif_parse_cif buf);
  fields ← expect (HandshakeCif_hs_ext parsed);
  assert_eq (hx_srt_version fields) SRT_VERSION;;
  assert_eq (hx_recv_latency_ms fields) 120;;
  assert_eq (hx_send_latency_ms fields) 0.

Definition handshake_parse_rejects_bad_handshake_type : panicking unit :=
  assert_eq (HandshakeCif_parse_cif (patch handshake_INDUCTION_REQUEST_BYTES 20 [0x00; 0x00; 0x00; 0x02]))
    (perr (BadHandshake UnknownHandshakeType));;
  unwrap_err (HandshakeCif_parse_cif (patch handshake_INDUCTION_REQUEST_BYTES 20 [0xFF; 0xFF; 0xFF; 0xFD]));;
  Ret tt.

Definition handshake_parse_rejects_out_of_range_isn : panicking unit :=
  old ← index handshake_INDUCTION_REQUEST_BYTES 8;
  assert_eq (HandshakeCif_parse_cif (patch handshake_INDUCTION_REQUEST_BYTES 8 [Z.lor old 0x80]))
    (perr (BadHandshake IsnOutsideValidRange));;
  assert_eq (HandshakeCif_parse_cif (patch handshake_INDUCTION_REQUEST_BYTES 8 [0x7F; 0xFF; 0xFF; 0xFF]))
    (perr (BadHandshake IsnOutsideValidRange));;
  parsed ← unwrap (HandshakeCif_parse_cif (patch handshake_INDUCTION_REQUEST_BYTES 8 [0x7F; 0xFF; 0xFF; 0xFE]));
  assert_eq (hs_initial_seq parsed) (SeqNumber_new 0x7FFFFFFE).

Definition handshake_parse_degrades_bad_sid_length_to_invalid : panicking unit :=
  parsed ← unwrap (HandshakeCif_parse_cif (handshake_INDUCTION_REQUEST_BYTES ++ [0x00; 0x05; 0x00; 0x00]));
  assert_eq (hs_extensions parsed) [Invalid SRT_CMD_SID []];;
  assert_eq (HandshakeCif_stream_id parsed) None;;
  parsed ← unwrap (HandshakeCif_parse_cif
    (handshake_INDUCTION_REQUEST_BYTES ++ [0x00; 0x05; 0x00; 0x81] ++ replicate (129 * 4) 0x61));
  assert_eq (hs_extensions parsed) [Invalid SRT_CMD_SID (replicate (129 * 4) 0x61)];;
  assert_eq (HandshakeCif_stream_id parsed) None.

(** U+FFFD in UTF-8. *)
Definition replacement_character : bytes := [0xEF; 0xBF; 0xBD].

Definition handshake_parse_accepts_non_utf8_sid_lossily : panicking unit :=
  parsed ← unwrap (HandshakeCif_parse_cif
    (handshake_INDUCTION_REQUEST_BYTES ++ [0x00; 0x05; 0x00; 0x01] ++ [0xFF; 0xFE; 0xFD; 0xFC]));
  assert_eq (HandshakeCif_stream_id parsed) (Some (from_utf8_lossy [0xFC; 0xFD; 0xFE; 0xFF]));;
  parsed ← unwrap (HandshakeCif_parse_cif
    (handshake_INDUCTION_REQUEST_BYTES ++ [0x00; 0x05; 0x00; 0x01] ++ [0xFF; 0x62; 0x61; 0x63]));
  assert_eq (HandshakeCif_stream_id parsed) (Some (str "cab" ++ replacement_character)).

Definition handshake_parse_accepts_non_utf8_congestion_as_non_live : panicking unit :=
  parsed ← unwrap (HandshakeCif_parse_cif
    (handshake_INDUCTION_REQUEST_BYTES ++ [0x00; 0x06; 0x00; 0x01] ++ [0xFF; 0xFE; 0xFD; 0xFC]));
  ext ← index (hs_extensions parsed) 0;
  match ext with
  | Congestion name => assert_ne name (str "live")
  | _ => Panic
  end.

(** The generator of the garbage: [n] bytes and the next state. *)
Fixpoint handshake_garbage (n : nat) (state : Z) : bytes * Z :=
  match n with
  | O => ([], state)
  | S n =>
      let state := as_u32 (as_u32 (state * 1664525) + 1013904223) in
      let '(buf, last) := handshake_garbage n state in
      (as_u8 (Z.shiftr state 24) :: buf, last)
  end.

Definition handshake_parse_garbage_does_not_panic : panicking unit :=
  for_fold [0; 1; 15; 16; 47; 48; 49; 63; 64; 100; 200]%nat 0x12345678 (fun state len =>
    let '(buf, state) := handshake_garbage len state in
    HandshakeCif_parse_cif buf;;
    Ret state);;
  Ret tt.

(** ** All pass *)

Example types_tests : Forall passes
  [types_seq_wraps_forward; types_seq_diff_across_wrap; types_seq_add_negative; types_msg_wraps].
Proof. run_tests. Qed.

Example data_tests : Forall passes
  [data_encode_exact_bytes; data_parse_exact_bytes; data_round_trip_all_flag_combinations;
   data_encrypted_kk_values_accepted_at_packet_layer; data_empty_payload_round_trip;
   data_truncated_header_rejected; data_max_payload_round_trip].
Proof. run_tests. Qed.

Example packet_tests : Forall passes
  [packet_parse_dispatches_on_f_bit; packet_parse_rejects_short_datagram; packet_packet_accessors;
   packet_packet_round_trip].
Proof. run_tests. Qed.

Example control_tests : Forall passes
  [control_keepalive_exact_bytes_with_pad; control_cifless_types_accept_pad_and_no_pad; control_shutdown_exact_bytes;
   control_ackack_exact_bytes; control_peererror_exact_bytes; control_subtype_ignored_on_standard_types;
   control_light_ack_exact_bytes_no_pad; control_full_ack_28_exact_bytes; control_ack_variants_distinguished_by_length;
   control_ack_32_byte_cif_ignores_extra_word; control_ack_trailing_partial_word_ignored;
   control_ack_bad_cif_lengths_rejected; control_nak_exact_bytes_single_and_range;
   control_nak_two_packet_range_encodes_as_pair; control_nak_degenerate_range_pair_accepted;
   control_nak_range_across_seq_wrap_accepted; control_nak_rejects_lo_greater_than_hi;
   control_nak_rejects_range_missing_end; control_nak_rejects_empty_loss_list; control_dropreq_exact_bytes;
   control_dropreq_masks_message_number; control_dropreq_short_cif_rejected; control_unknown_control_type_rejected;
   control_user_defined_type_reports_subtype; control_km_control_round_trip_and_exact_bytes;
   control_truncated_header_rejected; control_round_trip_all_variants_except_handshake;
   control_handshake_conclusion_round_trip; control_handshake_extensionless_types_round_trip].
Proof. run_tests. Qed.

Example handshake_tests : Forall passes
  [handshake_handshake_type_mapping; handshake_handshake_type_rejects_unknown_values; handshake_peer_ip_worked_example;
   handshake_induction_request_byte_exact; handshake_induction_response_byte_exact; handshake_conclusion_request_byte_exact;
   handshake_conclusion_response_byte_exact; handshake_rejection_response_byte_exact; handshake_latency_halfword_order;
   handshake_sid_worked_examples; handshake_sid_exact_multiple_of_four; handshake_sid_max_length_roundtrip;
   handshake_congestion_string_shuffled; handshake_km_passthrough_opaque;
   handshake_km_content_is_raw_bytes_not_word_swapped; handshake_unknown_extension_preserved;
   handshake_encoder_derives_ext_field_from_blocks; handshake_encoder_keeps_ext_field_without_blocks;
   handshake_ext_field_rederivation_exception; handshake_live_default_flags; handshake_parse_rejects_short_cif;
   handshake_parse_ignores_trailing_stray_bytes; handshake_parse_rejects_truncated_extension;
   handshake_parse_degrades_short_hsreq_to_invalid; handshake_parse_tolerates_long_hsreq;
   handshake_parse_rejects_bad_handshake_type; handshake_parse_rejects_out_of_range_isn;
   handshake_parse_degrades_bad_sid_length_to_invalid; handshake_parse_accepts_non_utf8_sid_lossily;
   handshake_parse_accepts_non_utf8_congestion_as_non_live; handshake_parse_garbage_does_not_panic].
Proof. run_tests. Qed.
