(* ===== verification/TestTime.v ===== *)
(** * Unit tests of the time base and of pacing

    The tests of [core/time.rs] and [core/pacing.rs].  [Instant::now()] is
    an arbitrary instant: 0. *)

From S2P Require Import Prelude PacketTypes Time Options Pacing Testing.

Definition us (n : Z) : Z := from_micros n.

Definition ms (n : Z) : Z := from_millis n.

(** ** [core/time.rs] *)

Definition time_timebase_truncates_to_32_bits : panicking unit :=
  let start := 0 in
  let tb := Timebase_new start in
  assert_eq (Timebase_timestamp tb start) 0;;
  let later := start + us 1000000 in
  assert_eq (Timebase_timestamp tb later) 1000000;;
  let wrapped := start + us (Z.shiftl 1 32 + 5) in
  assert_eq (Timebase_timestamp tb wrapped) 5.

(** [assert_eq!(ex.extend(ts, now), expected)] *)
Definition extends_to (ex : TimestampExtender) (ts now expected : Z) : panicking TimestampExtender :=
  let '(ex, v) := TimestampExtender_extend ex ts now in
  assert_eq v expected;;
  Ret ex.

Definition time_extender_monotonic_without_wrap : panicking unit :=
  let t0 := 0 in
  let ex := TimestampExtender_new in
  ex ← extends_to ex 100 t0 100;
  extends_to ex 200 (t0 + us 100) 200;;
  Ret tt.

Definition time_extender_handles_forward_wrap : panicking unit :=
  let t0 := 0 in
  let ex := TimestampExtender_new in
  ex ← extends_to ex (U32_MAX - 10) t0 (U32_MAX - 10);
  extends_to ex 10 (t0 + us 21) (Z.shiftl 1 32 + 10);;
  Ret tt.

Definition time_extender_tolerates_backward_jitter : panicking unit :=
  let t0 := 0 in
  let ex := TimestampExtender_new in
  let '(ex, _) := TimestampExtender_extend ex 1000000 t0 in
  ex ← extends_to ex 999000 (t0 + us 100) 999000;
  extends_to ex 1001000 (t0 + us 1050) 1001000;;
  Ret tt.

Definition time_extender_jitter_across_wrap_boundary : panicking unit :=
  let t0 := 0 in
  let ex := TimestampExtender_new in
  let '(ex, _) := TimestampExtender_extend ex (U32_MAX - 10) t0 in
  ex ← extends_to ex 30 (t0 + us 41) (Z.shiftl 1 32 + 30);
  ex ← extends_to ex (U32_MAX - 5) (t0 + us 50) (U32_MAX - 5);
  extends_to ex 50 (t0 + us 61) (Z.shiftl 1 32 + 50);;
  Ret tt.

Definition time_extender_tolerates_delay_variation : panicking unit :=
  let t0 := 0 in
  let ex := TimestampExtender_new in
  let '(ex, _) := TimestampExtender_extend ex 0 t0 in
  ex ← extends_to ex 60000000 (t0 + us 60200000) 60000000;
  extends_to ex 61000000 (t0 + us 60800000) 61000000;;
  Ret tt.

Definition time_extender_survives_45_min_data_gap : panicking unit :=
  let t0 := 0 in
  let ex := TimestampExtender_new in
  ex ← extends_to ex 1000000 t0 1000000;
  let gap := 45 * 60 * 1000000 in
  let ts := as_u32 (1000000 + as_u32 gap) in
  ex ← extends_to ex ts (t0 + us gap) (1000000 + gap);
  extends_to ex (as_u32 (ts + 20000)) (t0 + us (gap + 20000)) (1000000 + gap + 20000);;
  Ret tt.

Definition time_feed_batch (d : DriftTracer) (offset_us : Z) : panicking DriftTracer :=
  for_fold (range 1 (TSBPD_DRIFT_MAX_SAMPLES + 1)) d (fun d i =>
    let '(d, updated) := DriftTracer_sample d offset_us in
    assert_eq updated (i =? TSBPD_DRIFT_MAX_SAMPLES);;
    Ret d).

Definition time_batched (offset_us : Z) : panicking DriftTracer := time_feed_batch DriftTracer_new offset_us.

Definition time_drift_no_correction_before_full_batch : panicking unit :=
  for_fold (range 0 (TSBPD_DRIFT_MAX_SAMPLES - 1)) DriftTracer_new (fun d _ =>
    let '(d, updated) := DriftTracer_sample d 3000 in
    assert (negb updated);;
    assert_eq (DriftTracer_correction_us d) 0;;
    Ret d);;
  Ret tt.

Definition time_drift_below_threshold_is_pure_residual : panicking unit :=
  d ← time_batched 3000;
  assert_eq (DriftTracer_correction_us d) 3000;;
  assert_eq (dt_base_shift_us d) 0;;
  assert_eq (dt_drift_us d) 3000.

Definition time_drift_above_threshold_splits_base_shift_and_residual : panicking unit :=
  d ← time_batched 7500;
  assert_eq (DriftTracer_correction_us d) 7500;;
  assert_eq (dt_base_shift_us d) 5000;;
  assert_eq (dt_drift_us d) 2500.

Definition time_drift_negative_offset_corrects_backwards : panicking unit :=
  d ← time_batched (-7500);
  assert_eq (DriftTracer_correction_us d) (-7500);;
  assert_eq (dt_base_shift_us d) (-5000);;
  assert_eq (dt_drift_us d) (-2500).

Definition time_drift_constant_offset_converges_not_integrates : panicking unit :=
  d ← time_batched 7500;
  d ← time_feed_batch d 7500;
  assert_eq (DriftTracer_correction_us d) 7500;;
  assert_eq (dt_base_shift_us d) 5000;;
  assert_eq (dt_drift_us d) 2500;;
  d ← time_feed_batch d 7500;
  assert_eq (DriftTracer_correction_us d) 7500.

Definition time_drift_growing_offset_is_chased : panicking unit :=
  d ← time_batched 1000;
  assert_eq (DriftTracer_correction_us d) 1000;;
  d ← time_feed_batch d 2000;
  assert_eq (DriftTracer_correction_us d) 2000;;
  d ← time_feed_batch d 9000;
  assert_eq (DriftTracer_correction_us d) 9000;;
  assert_eq (dt_base_shift_us d) 5000;;
  assert_eq (dt_drift_us d) 4000.

Definition time_extender_survives_data_gap_across_wrap_boundary : panicking unit :=
  let t0 := 0 in
  let ex := TimestampExtender_new in
  ex ← extends_to ex 5000000 t0 5000000;
  let gap := 100 * 60 * 1000000 in
  let ext := 5000000 + gap in
  ex ← extends_to ex (as_u32 ext) (t0 + us gap) ext;
  let gap2 := 3 * 60 * 60 * 1000000 in
  let ext2 := ext + gap2 in
  extends_to ex (as_u32 ext2) (t0 + us (gap + gap2 + 100000)) ext2;;
  Ret tt.

(** ** [core/pacing.rs] *)

Definition pacing_avg_iir_matches_spec_filter : panicking unit :=
  assert_eq (avg_iir 128 1316 1316) 1316;;
  assert_eq (avg_iir 128 0 0) 0;;
  assert_eq (avg_iir 128 1316 188) ((1316 * 127 + 188) / 128);;
  assert_eq (avg_iir 128 1316 188) 1307;;
  assert_eq (avg_iir 128 0 127) 0;;
  assert_eq (avg_iir 128 0 128) 1.

(** The samples [(now, bytes)] in turn. *)
Definition inputs (est : InputRateEstimator) (l : list (Z * Z)) : panicking InputRateEstimator :=
  for_fold l est (fun est '(now, n) => InputRateEstimator_on_input est now n).

Definition pacing_estimator_first_sample_stamps_window_only : panicking unit :=
  let t0 := 0 in
  est ← inputs InputRateEstimator_new [(t0, 1000); (t0 + ms 600, 500)];
  assert_eq (InputRateEstimator_measured est) 906.

Definition pacing_estimator_closes_strictly_after_period : panicking unit :=
  let t0 := 0 in
  est ← inputs InputRateEstimator_new [(t0, 100); (t0 + ms 500, 100)];
  assert_eq (InputRateEstimator_measured est) 0;;
  est ← inputs est [(t0 + ms 500 + us 1, 100)];
  assert_eq (InputRateEstimator_measured est) 575.

Definition pacing_estimator_close_truncates_elapsed : panicking unit :=
  let t0 := 0 in
  est ← inputs InputRateEstimator_new [(t0, 100); (t0 + ms 500 + 400, 100)];
  assert_eq (InputRateEstimator_measured est) 0;;
  est ← inputs est [(t0 + ms 500 + us 1, 100)];
  assert_eq (InputRateEstimator_measured est) 575.

Definition pacing_estimator_fast_start_early_close_above_2000_pkts : panicking unit :=
  let t0 := 0 in
  est ← inputs InputRateEstimator_new [(t0, 100)];
  est ← inputs est (replicate 2000 (t0 + us 10, 100));
  assert_eq (InputRateEstimator_measured est) 0;;
  est ← inputs est [(t0 + us 20, 100)];
  assert_eq (InputRateEstimator_measured est) (2001 * 144 * 1000000 / 20).

Definition pacing_estimator_adds_44_per_packet_and_truncates : panicking unit :=
  let t0 := 0 in
  est ← inputs InputRateEstimator_new [(t0, 999); (t0 + ms 100, 100); (t0 + ms 200, 100); (t0 + ms 700, 100)];
  assert_eq (InputRateEstimator_measured est) ((300 + 3 * 44) * 1000000 / 700000);;
  assert_eq (InputRateEstimator_measured est) 617.

Definition pacing_estimator_period_becomes_one_second_after_first_close : panicking unit :=
  let t0 := 0 in
  est ← inputs InputRateEstimator_new [(t0, 500); (t0 + ms 501, 500)];
  assert_eq (InputRateEstimator_measured est) 1085;;
  est ← inputs est [(t0 + ms 501 + ms 600, 500)];
  assert_eq (InputRateEstimator_measured est) 1085;;
  est ← inputs est [(t0 + ms 501 + ms 1001, 500)];
  assert_eq (InputRateEstimator_measured est) 1086.

Definition pacing_estimator_same_instant_burst_never_divides_by_zero : panicking unit :=
  let t0 := 0 in
  est ← inputs InputRateEstimator_new (replicate 8192 (t0, 1316));
  assert_eq (InputRateEstimator_measured est) 0;;
  est ← inputs est [(t0 + us 100, 1316)];
  assert_eq (InputRateEstimator_measured est) (8192 * (1316 + 44) * 1000000 / 100).

Definition pacing_estimator_stale_rate_persists_over_silence : panicking unit :=
  let t0 := 0 in
  est ← inputs InputRateEstimator_new [(t0, 500); (t0 + ms 501, 500)];
  let rate := InputRateEstimator_measured est in
  assert_ne rate 0;;
  assert_eq (InputRateEstimator_ceiling_input est) rate;;
  assert_eq (InputRateEstimator_measured est) rate.

Definition pacing_estimator_measured_is_zero_before_first_close : panicking unit :=
  let est := InputRateEstimator_new in
  assert_eq (InputRateEstimator_measured est) 0;;
  assert_eq (InputRateEstimator_ceiling_input est) BW_INFINITE.

Definition pacing_with_overhead_truncates_like_libsrt : panicking unit :=
  assert_eq (with_overhead 1000 5) 1050;;
  assert_eq (with_overhead 1000 100) 2000;;
  assert_eq (with_overhead 999 25) 1248;;
  assert_eq (with_overhead 1 5) 1;;
  assert_eq (with_overhead U64_MAX 100) (U64_MAX / 100).

Definition pacing_period_is_whole_microseconds : panicking unit :=
  p ← expect (Pacer_new (Max BW_INFINITE) 1456);
  assert_eq (Pacer_period_us p) 10;;
  p ← expect (Pacer_new (Max BW_INFINITE) 1000);
  assert_eq (Pacer_period_us p) 8.

Definition pacing_unlimited_mode_constructs_no_pacer : panicking unit :=
  assert (match Pacer_new Unlimited 1456 with None => true | Some _ => false end).

(** The samples [(now, bytes)] in turn. *)
Definition pacer_inputs (p : Pacer) (l : list (Z * Z)) : panicking Pacer :=
  for_fold l p (fun p '(now, n) => Pacer_on_input p now n).

Definition pacing_input_mode_ceiling_computed_once_with_overhead : panicking unit :=
  p ← expect (Pacer_new (Input 1000000 25) 1456);
  assert_eq (pc_max_bw p) 1250000;;
  let t0 := 0 in
  p ← pacer_inputs p [(t0, 1316); (t0 + from_secs 10, 1316)];
  let p := Pacer_refresh p in
  assert_eq (pc_max_bw p) 1250000;;
  assert_eq (Pacer_input_rate p) 0;;
  assert_eq (Pacer_period_us p) 1088.

Definition pacing_estimated_refresh_keeps_ceiling_on_zero_bw : panicking unit :=
  p ← expect (Pacer_new (Estimated 0 25) 1456);
  let t0 := 0 in
  p ← pacer_inputs p [(t0, 0); (t0 + from_secs 100, 0)];
  let p := Pacer_refresh p in
  assert_eq (pc_max_bw p) BW_INFINITE.

Definition pacing_estimated_min_floor_applies_only_against_estimate : panicking unit :=
  p ← expect (Pacer_new (Estimated 100000 25) 1456);
  let t0 := 0 in
  p ← pacer_inputs p [(t0, 500); (t0 + ms 501, 500)];
  assert_eq (Pacer_input_rate p) 1085;;
  let p := Pacer_refresh p in
  assert_eq (pc_max_bw p) (with_overhead 100000 25);;
  p ← pacer_inputs p ((fun i => (t0 + ms 501 + ms (5 * i), 1316)) <$> range 1 200);
  p ← pacer_inputs p [(t0 + ms 501 + ms 1001, 1316)];
  assert_eq (Pacer_input_rate p) 271728;;
  let p := Pacer_refresh p in
  assert_eq (pc_max_bw p) (with_overhead 271728 25).

(** ** All pass *)

Example time_tests : Forall passes
  [time_timebase_truncates_to_32_bits; time_extender_monotonic_without_wrap; time_extender_handles_forward_wrap;
   time_extender_tolerates_backward_jitter; time_extender_jitter_across_wrap_boundary;
   time_extender_tolerates_delay_variation; time_extender_survives_45_min_data_gap;
   time_drift_no_correction_before_full_batch; time_drift_below_threshold_is_pure_residual;
   time_drift_above_threshold_splits_base_shift_and_residual; time_drift_negative_offset_corrects_backwards;
   time_drift_constant_offset_converges_not_integrates; time_drift_growing_offset_is_chased;
   time_extender_survives_data_gap_across_wrap_boundary].
Proof. run_tests. Qed.

Example pacing_tests : Forall passes
  [pacing_avg_iir_matches_spec_filter; pacing_estimator_first_sample_stamps_window_only;
   pacing_estimator_closes_strictly_after_period; pacing_estimator_close_truncates_elapsed;
   pacing_estimator_fast_start_early_close_above_2000_pkts; pacing_estimator_adds_44_per_packet_and_truncates;
   pacing_estimator_period_becomes_one_second_after_first_close;
   pacing_estimator_same_instant_burst_never_divides_by_zero; pacing_estimator_stale_rate_persists_over_silence;
   pacing_estimator_measured_is_zero_before_first_close; pacing_with_overhead_truncates_like_libsrt;
   pacing_period_is_whole_microseconds; pacing_unlimited_mode_constructs_no_pacer;
   pacing_input_mode_ceiling_computed_once_with_overhead; pacing_estimated_refresh_keeps_ceiling_on_zero_bw;
   pacing_estimated_min_floor_applies_only_against_estimate].
Proof. run_tests. Qed.
