(* ===== verification/TestSender.v ===== *)
(** * Unit tests of the sender: [core/sender.rs]

    [Instant::now()] is the instant 0, random bytes are fixed, and the
    ciphers are the ones of the witnesses.  Left out is the test that two
    packets share one allocation. *)

From S2P Require Import Prelude PacketTypes PacketData PacketHandshake PacketControl Time CryptoKeys CryptoContext Cipher Options Pacing Sender Text Testing TestTime.

#[local] Existing Instance toy_primitives.

Definition ISN : Z := 100.

Definition MS : Z := from_millis 1.

Definition sender_config (start : Z) : SenderConfig :=
  mkSenderConfig (SeqNumber_new ISN) 8192 (from_millis 120) 1456 8192 Unlimited (Timebase_new start).

#[export] Instance SenderConfig_eta : Etable SenderConfig := fun c =>
  mkSenderConfig (sc_initial_seq c) (sc_flow_window c) (sc_snd_latency c) (sc_max_payload c) (sc_buffer_pkts c)
    (sc_bandwidth c) (sc_timebase c).

Definition sender (start : Z) : Sender := Sender_new (sender_config start).

Definition full_ack (seq : Z) : AckCif :=
  mkAckCif (SeqNumber_new seq) (Some 100000) (Some 50000) (Some 8192) (Some 0) (Some 0) (Some 0).

Definition light_ack_cif (seq : Z) : AckCif := light_ack (SeqNumber_new seq).

Definition nak (first last : Z) : list LossRange := [mkLossRange (SeqNumber_new first) (SeqNumber_new last)].

(** ** The methods, on the sender under test *)

(** [s.push(now, payload, None).unwrap()] *)
Definition push (now : Z) (payload : bytes) : test Sender unit := fun s =>
  '(s, _, r) ← Sender_push (C := Crypto) s now payload None;
  match r with Ok _ => Ret (s, tt) | Err _ => Panic end.

Definition poll_transmit (now : Z) : test Sender (option DataPacket) := fun s => Sender_poll_transmit s now.

(** [s.poll_transmit(now).unwrap()] *)
Definition transmit (now : Z) : test Sender DataPacket := p ← poll_transmit now; some p.

Definition handle_ack (now ack_number : Z) (cif : AckCif) : test Sender (result SrtError (option Z)) :=
  fun s => Sender_handle_ack s now ack_number cif.

(** [s.handle_ack(..).unwrap()] *)
Definition ack (now ack_number : Z) (cif : AckCif) : test Sender (option Z) :=
  r ← handle_ack now ack_number cif;
  match r with Ok a => mret a | Err _ => mthrow tt end.

Definition handle_nak (ranges : list LossRange) : test Sender unit := modify (fun s => Sender_handle_nak s ranges).

Definition poll_control : test Sender (option ControlType) := step Sender_poll_control.

Definition on_timer (now : Z) : test Sender unit := act (fun s => Sender_on_timer s now).

Definition buffered_pkts : test Sender nat := gets (fun s => length (sn_buffer s)).

Definition next_deadline : test Sender (option Z) := gets Sender_next_deadline.

Definition stats : test Sender SenderStats := gets Sender_get_stats.

(** [std::iter::from_fn(|| s.poll_transmit(now)).collect()] *)
Definition transmit_all (now : Z) : test Sender (list DataPacket) := drain 64 (poll_transmit now).

(** [assert!(s.poll_transmit(now).is_some())], [.is_none()] *)
Definition transmits (now : Z) : test Sender unit := p ← poll_transmit now; assert_some p.

Definition silent (now : Z) : test Sender unit := p ← poll_transmit now; assert_none p.

(** [assert_eq!(s.poll_transmit(now).unwrap().seq, SeqNumber::new(seq))] *)
Definition transmits_seq (now seq : Z) : test Sender unit := p ← transmit now; assert_eq (dp_seq p) (SeqNumber_new seq).

Definition buffered (n : nat) : test Sender unit := b ← buffered_pkts; assert_eq b n.

Definition deadline_is (d : option Z) : test Sender unit := x ← next_deadline; assert_eq x d.

Definition push_and_send (start : Z) (n : nat) : test Sender (list DataPacket) :=
  for_each (seq 0 n) (fun i => push (start + MS * Z.of_nat i) (replicate 3 (Z.of_nat i)));;
  out ← transmit_all (start + MS * Z.of_nat n);
  assert_eq (length out) n;;
  mret out.

(** ** Assignment: seq, msgno, flags, timestamps *)

Definition sender_assigns_consecutive_seq_msg_and_live_flags : panicking unit :=
  let t0 := 0 in
  run (sender t0) (
    pkts ← push_and_send t0 3;
    for_each (zip (range 0 3) pkts) (fun '(i, p) =>
      assert_eq (dp_seq p) (SeqNumber_new (ISN + i));;
      assert_eq (dp_msg_number p) (MsgNumber_new (1 + i));;
      assert_eq (dp_position p) Only;;
      assert (negb (dp_order p));;
      assert_eq (dp_encryption p) EncNone;;
      assert (negb (dp_retransmitted p));;
      assert_eq (dp_timestamp p) (1000 * i);;
      assert_eq (dp_payload p) (replicate 3 i));;
    silent t0).

Definition sender_msgno_wraps_back_to_one_skipping_zero : panicking unit :=
  let t0 := 0 in
  run (sender t0 <| sn_next_msg := MsgNumber_new MsgNumber_MASK |>) (
    pkts ← push_and_send t0 2;
    p0 ← some (pkts !! 0%nat);
    assert_eq (dp_msg_number p0) (MsgNumber_new MsgNumber_MASK);;
    p1 ← some (pkts !! 1%nat);
    assert_eq (dp_msg_number p1) (MsgNumber_new 1)).

Definition sender_payload_too_large_rejected : panicking unit :=
  let t0 := 0 in
  run (sender t0) (
    r ← call (fun s => '(s, _, r) ← Sender_push (C := Crypto) s t0 (replicate 1457 0) None; Ret (s, r));
    assert (match r with Err (PayloadTooLarge n) => (n =? 1457)%nat | _ => false end);;
    buffered 0;;
    push t0 (replicate 1456 0);;
    buffered 1).

(** ** ACK *)

Definition sender_ack_releases_acknowledged_packets : panicking unit :=
  let t0 := 0 in
  run (sender t0) (
    push_and_send t0 3;;
    buffered 3;;
    r ← ack (t0 + MS * 10) 1 (full_ack (ISN + 2));
    assert_eq r (Some 1);;
    buffered 1;;
    ack (t0 + MS * 30) 2 (full_ack (ISN + 3));;
    buffered 0;;
    ack (t0 + MS * 50) 3 (full_ack (ISN + 1));;
    buffered 0).

Definition sender_ack_release_frees_window_for_new_data : panicking unit :=
  let t0 := 0 in
  run (Sender_new (sender_config t0 <| sc_flow_window := 2 |>)) (
    for_each (range 0 4) (fun i => push (t0 + MS * i) (replicate 8 0));;
    transmits t0;;
    transmits t0;;
    silent t0;;
    ack (t0 + MS * 5) 1 (full_ack (ISN + 1) <| ack_avail_buf_pkts := Some 2 |>);;
    transmits_seq (t0 + MS * 5) (ISN + 2);;
    silent (t0 + MS * 5)).

(** [match r { Err(SrtError::Closed(_)) => {}, .. }] *)
Definition is_closed {A} (r : result SrtError A) : bool := match r with Err (Closed _) => true | _ => false end.

Definition sender_ack_beyond_highest_sent_is_protocol_violation : panicking unit :=
  let t0 := 0 in
  run (sender t0) (
    push_and_send t0 1;;
    ack (t0 + MS) 1 (full_ack (ISN + 1));;
    r ← handle_ack (t0 + MS * 20) 2 (full_ack (ISN + 2));
    assert (is_closed r);;
    v ← gets sn_protocol_violation;
    assert v).

Definition sender_light_ack_beyond_highest_sent : panicking unit :=
  let t0 := 0 in
  run (sender t0) (
    push t0 (replicate 8 1);;
    push (t0 + MS) (replicate 8 2);;
    transmits_seq (t0 + MS * 2) ISN;;
    buffered 2;;
    r ← handle_ack (t0 + MS * 3) 0 (light_ack_cif (ISN + 2));
    assert (is_closed r);;
    v ← gets sn_protocol_violation;
    assert v;;
    buffered 2).

Definition sender_ackack_only_for_non_light_acks : panicking unit :=
  let t0 := 0 in
  run (sender t0) (
    push_and_send t0 2;;
    r ← ack (t0 + MS) 0 (light_ack_cif (ISN + 1));
    assert_eq r None;;
    buffered 1;;
    r ← ack (t0 + MS * 20) 7 (full_ack (ISN + 2));
    assert_eq r (Some 7);;
    let small := full_ack (ISN + 2) <| ack_recv_rate_pkts := None |> <| ack_link_capacity_pkts := None |>
                   <| ack_recv_rate_bytes := None |> in
    r ← ack (t0 + MS * 40) 8 small;
    assert_eq r (Some 8)).

Definition sender_ackack_throttled_within_10ms_except_repeats : panicking unit :=
  let t0 := 0 in
  run (sender t0) (
    push_and_send t0 5;;
    r ← ack t0 1 (full_ack (ISN + 1));
    assert_eq r (Some 1);;
    r ← ack (t0 + MS) 2 (full_ack (ISN + 2));
    assert_eq r None;;
    r ← ack (t0 + MS * 2) 1 (full_ack (ISN + 2));
    assert_eq r (Some 1);;
    r ← ack (t0 + MS * 12) 3 (full_ack (ISN + 3));
    assert_eq r None;;
    r ← ack (t0 + MS * 13) 4 (full_ack (ISN + 4));
    assert_eq r (Some 4)).

Definition sender_light_ack_consumes_advertised_window : panicking unit :=
  let t0 := 0 in
  run (sender t0) (
    for_each (range 0 5) (fun i => push (t0 + MS * i) (replicate 8 0));;
    transmits_seq (t0 + MS * 5) ISN;;
    ack (t0 + MS * 6) 1 (full_ack (ISN + 1) <| ack_avail_buf_pkts := Some 2 |>);;
    transmits_seq (t0 + MS * 6) (ISN + 1);;
    transmits_seq (t0 + MS * 6) (ISN + 2);;
    silent (t0 + MS * 6);;
    ack (t0 + MS * 7) 0 (light_ack_cif (ISN + 2));;
    silent (t0 + MS * 8)).

(** [full_ack] with an RTT pair. *)
Definition rtt_ack (seq rtt_us rtt_var_us : Z) : AckCif :=
  full_ack seq <| ack_rtt_us := Some rtt_us |> <| ack_rtt_var_us := Some rtt_var_us |>.

Definition sender_adopts_rtt_from_full_ack_gated_on_initial_pair : panicking unit :=
  let t0 := 0 in
  let rtt_is p := r ← gets Sender_rtt; assert_eq r p in
  let adopted b := a ← gets sn_rtt_adopted; assert_eq a b in
  run (sender t0) (
    push_and_send t0 6;;
    rtt_is (100000, 50000);;
    adopted false;;
    ack (t0 + MS) 1 (full_ack (ISN + 1));;
    adopted false;;
    rtt_is (100000, 50000);;
    ack (t0 + MS * 20) 2 (full_ack (ISN + 2) <| ack_rtt_us := Some 200000 |>);;
    adopted false;;
    ack (t0 + MS * 40) 3 (full_ack (ISN + 3) <| ack_rtt_var_us := Some 10000 |>);;
    adopted false;;
    rtt_is (100000, 50000);;
    ack (t0 + MS * 60) 4 (rtt_ack (ISN + 4) 200000 10000);;
    adopted true;;
    rtt_is (200000, 10000);;
    ack (t0 + MS * 80) 5 (rtt_ack (ISN + 5) 150000 0);;
    rtt_is (150000, 0);;
    ack (t0 + MS * 100) 6 (full_ack (ISN + 6));;
    rtt_is (100000, 50000);;
    ack (t0 + MS * 120) 0 (light_ack_cif (ISN + 6));;
    rtt_is (100000, 50000);;
    adopted true).

(** ** NAK and retransmission *)

Definition sender_nak_retransmits_with_original_fields : panicking unit :=
  let t0 := 0 in
  run (sender t0) (
    sent ← push_and_send t0 3;
    orig ← some (sent !! 1%nat);
    handle_nak (nak (ISN + 1) (ISN + 1));;
    rex ← transmit (t0 + MS * 500);
    assert_eq (dp_seq rex) (dp_seq orig);;
    assert_eq (dp_msg_number rex) (dp_msg_number orig);;
    assert_eq (dp_timestamp rex) (dp_timestamp orig);;
    assert_eq (dp_payload rex) (dp_payload orig);;
    assert (dp_retransmitted rex);;
    assert (negb (dp_retransmitted orig));;
    silent (t0 + MS * 500)).

Definition sender_retransmissions_take_priority_over_new_data : panicking unit :=
  let t0 := 0 in
  run (sender t0) (
    for_each (range 0 3) (fun i => push (t0 + MS * i) [i]);;
    transmits_seq t0 ISN;;
    transmits_seq t0 (ISN + 1);;
    handle_nak (nak ISN ISN);;
    first ← transmit (t0 + MS * 5);
    assert_eq (dp_seq first) (SeqNumber_new ISN);;
    assert (dp_retransmitted first);;
    second ← transmit (t0 + MS * 5);
    assert_eq (dp_seq second) (SeqNumber_new (ISN + 2));;
    assert (negb (dp_retransmitted second))).

Definition sender_nak_range_covers_multiple_packets : panicking unit :=
  let t0 := 0 in
  run (sender t0) (
    push_and_send t0 4;;
    handle_nak (nak (ISN + 1) (ISN + 3));;
    pkts ← transmit_all (t0 + MS * 6);
    assert_eq (dp_seq <$> pkts) [ISN + 1; ISN + 2; ISN + 3]).

Definition sender_nak_for_released_range_replies_dropreq : panicking unit :=
  let t0 := 0 in
  run (sender t0) (
    push_and_send t0 3;;
    ack (t0 + MS * 5) 1 (full_ack (ISN + 3));;
    handle_nak (nak ISN (ISN + 1));;
    c ← poll_control;
    assert_eq c (Some (DropRequest (MsgNumber_new 0) (SeqNumber_new ISN) (SeqNumber_new (ISN + 1))));;
    c ← poll_control;
    assert_none c;;
    silent (t0 + MS * 7);;
    handle_nak (nak (ISN + 2) (ISN + 2));;
    c ← poll_control;
    assert_none c;;
    silent (t0 + MS * 9);;
    v ← gets sn_protocol_violation;
    assert (negb v)).

Definition sender_nak_straddling_release_point_is_clipped : panicking unit :=
  let t0 := 0 in
  run (sender t0) (
    push_and_send t0 4;;
    ack (t0 + MS * 5) 1 (full_ack (ISN + 2));;
    handle_nak (nak ISN (ISN + 3));;
    pkts ← transmit_all (t0 + MS * 7);
    assert_eq (dp_seq <$> pkts) [ISN + 2; ISN + 3]).

Definition sender_nak_beyond_highest_sent_flags_violation : panicking unit :=
  let t0 := 0 in
  run (sender t0) (
    push_and_send t0 2;;
    v ← gets sn_protocol_violation;
    assert (negb v);;
    handle_nak (nak ISN (ISN + 5));;
    v ← gets sn_protocol_violation;
    assert v;;
    silent (t0 + MS * 6)).

Definition sender_ack_purges_pending_retransmissions : panicking unit :=
  let t0 := 0 in
  run (sender t0) (
    push_and_send t0 3;;
    handle_nak (nak ISN (ISN + 1));;
    ack (t0 + MS * 6) 1 (full_ack (ISN + 3));;
    silent (t0 + MS * 7)).

Definition converged_ack (seq : Z) : AckCif := rtt_ack seq 200000 10000.

(** [assert_eq!(s.stats().pkts_retransmitted, n)] and the like. *)
Definition stat_is (f : SenderStats -> Z) (n : Z) : test Sender unit := st ← stats; assert_eq (f st) n.

Definition sender_rexmit_throttle_suppresses_duplicate_within_rtt_window : panicking unit :=
  let t0 := 0 in
  run (sender t0) (
    push_and_send t0 3;;
    ack (t0 + MS) 1 (converged_ack (ISN + 1));;
    handle_nak (nak (ISN + 1) (ISN + 1));;
    rex ← transmit (t0 + MS * 10);
    assert_eq (dp_seq rex) (SeqNumber_new (ISN + 1));;
    assert (dp_retransmitted rex);;
    handle_nak (nak (ISN + 1) (ISN + 1));;
    silent (t0 + MS * 130);;
    stat_is ss_pkts_retransmitted 1;;
    silent (t0 + MS * 200);;
    handle_nak (nak (ISN + 1) (ISN + 1));;
    rex2 ← transmit (t0 + MS * 210);
    assert_eq (dp_seq rex2) (SeqNumber_new (ISN + 1));;
    assert (dp_retransmitted rex2);;
    stat_is ss_pkts_retransmitted 2).

Definition sender_rexmit_throttle_falls_through_to_new_data : panicking unit :=
  let t0 := 0 in
  run (sender t0) (
    for_each (range 0 3) (fun i => push (t0 + MS * i) [i]);;
    transmits t0;;
    transmits t0;;
    ack (t0 + MS * 3) 1 (converged_ack ISN);;
    handle_nak (nak ISN ISN);;
    p ← transmit (t0 + MS * 5);
    assert (dp_retransmitted p);;
    handle_nak (nak ISN ISN);;
    p ← transmit (t0 + MS * 20);
    assert_eq (dp_seq p) (SeqNumber_new (ISN + 2));;
    assert (negb (dp_retransmitted p));;
    stat_is ss_pkts_retransmitted 1).

Definition sender_rexmit_throttle_inactive_before_rtt_convergence : panicking unit :=
  let t0 := 0 in
  run (sender t0) (
    push_and_send t0 2;;
    handle_nak (nak ISN ISN);;
    p ← transmit (t0 + MS * 5);
    assert (dp_retransmitted p);;
    handle_nak (nak ISN ISN);;
    p ← transmit (t0 + MS * 6);
    assert (dp_retransmitted p);;
    stat_is ss_pkts_retransmitted 2).

(** ** Too-late drop *)

Definition sender_tlpktdrop_on_timer_drops_and_announces : panicking unit :=
  let t0 := 0 in
  run (sender t0) (
    push t0 [1];;
    push (t0 + from_millis 1030) [2];;
    buffered 2;;
    deadline_is (Some (t0 + from_millis 1020));;
    on_timer (t0 + from_millis 1030);;
    buffered 1;;
    stat_is ss_pkts_dropped 1;;
    c ← poll_control;
    assert_eq c (Some (DropRequest (MsgNumber_new 0) (SeqNumber_new ISN) (SeqNumber_new ISN)));;
    transmits_seq (t0 + from_millis 1031) (ISN + 1);;
    deadline_is None).

Definition sender_tlpktdrop_on_push_drops_expired_head : panicking unit :=
  let t0 := 0 in
  run (sender t0) (
    push t0 [1];;
    push (t0 + from_millis 1100) [2];;
    buffered 2;;
    push (t0 + from_millis 1150) [3];;
    buffered 2;;
    stat_is ss_pkts_dropped 1;;
    c ← poll_control;
    match c with
    | Some (DropRequest _ first last) =>
        assert_eq first (SeqNumber_new ISN);; assert_eq last (SeqNumber_new ISN)
    | _ => mthrow tt
    end).

Definition sender_tlpktdrop_fake_acks_dropped_range : panicking unit :=
  let t0 := 0 in
  run (sender t0) (
    sent ← push_and_send t0 1;
    p ← some (sent !! 0%nat);
    assert_eq (dp_seq p) (SeqNumber_new ISN);;
    push (t0 + from_millis 1030) [2];;
    on_timer (t0 + from_millis 1030);;
    poll_control;;
    handle_nak (nak ISN ISN);;
    p ← transmit (t0 + from_millis 1041);
    assert_eq (dp_seq p) (SeqNumber_new (ISN + 1));;
    assert (negb (dp_retransmitted p));;
    silent (t0 + from_millis 1042)).

Definition sender_no_deadline_while_timespan_within_threshold : panicking unit :=
  let t0 := 0 in
  run (sender t0) (
    push t0 [1];;
    push (t0 + from_millis 500) [2];;
    deadline_is None;;
    on_timer (t0 + from_secs 3600);;
    buffered 2;;
    stat_is ss_pkts_dropped 0).

(** ** Overflow, wrap, statistics *)

Definition sender_buffer_overflow_drops_oldest : panicking unit :=
  let t0 := 0 in
  run (Sender_new (sender_config t0 <| sc_buffer_pkts := 2%nat |>)) (
    push t0 [1];;
    push (t0 + MS) [2];;
    push (t0 + MS * 2) [3];;
    buffered 2;;
    stat_is ss_pkts_dropped 1;;
    transmits_seq (t0 + MS * 3) (ISN + 1);;
    transmits_seq (t0 + MS * 3) (ISN + 2);;
    c ← poll_control;
    assert_none c).

Definition sender_window_full_drops_oldest_in_flight : panicking unit :=
  let t0 := 0 in
  run (Sender_new (sender_config t0 <| sc_flow_window := 2 |>)) (
    push t0 [1];;
    push (t0 + MS) [2];;
    transmits (t0 + MS);;
    transmits (t0 + MS);;
    silent (t0 + MS);;
    push (t0 + MS * 2) [3];;
    stat_is ss_pkts_dropped 1;;
    buffered 2;;
    transmits_seq (t0 + MS * 3) (ISN + 2);;
    silent (t0 + MS * 3)).

Definition sender_seq_numbers_wrap_across_max : panicking unit :=
  let t0 := 0 in
  run (Sender_new (sender_config t0 <| sc_initial_seq := SeqNumber_new (SeqNumber_MASK - 1) |>)) (
    pkts ← push_and_send t0 4;
    assert_eq (dp_seq <$> pkts) [SeqNumber_MASK - 1; SeqNumber_MASK; 0; 1];;
    ack (t0 + MS * 10) 1 (full_ack 1);;
    buffered 1;;
    handle_nak (nak 1 1);;
    rex ← transmit (t0 + MS * 12);
    assert_eq (dp_seq rex) (SeqNumber_new 1);;
    assert (dp_retransmitted rex);;
    ack (t0 + MS * 20) 2 (full_ack 2);;
    buffered 0).

Definition sender_stats_track_sent_retransmitted_dropped : panicking unit :=
  let t0 := 0 in
  run (sender t0) (
    for_each (range 0 3) (fun i => push (t0 + MS * i) (replicate 10 0));;
    transmit_all (t0 + MS * 3);;
    stat_is ss_pkts_sent 3;;
    stat_is ss_bytes_sent 30;;
    stat_is ss_pkts_retransmitted 0;;
    stat_is ss_pkts_dropped 0;;
    handle_nak (nak ISN ISN);;
    transmits (t0 + MS * 5);;
    stat_is ss_pkts_sent 4;;
    stat_is ss_bytes_sent 40;;
    stat_is ss_pkts_retransmitted 1;;
    push (t0 + from_millis 1500) (replicate 10 0);;
    on_timer (t0 + from_millis 1500);;
    stat_is ss_pkts_dropped 3;;
    stat_is ss_pkts_sent 4).

Definition sender_empty_sender_polls_nothing : panicking unit :=
  let t0 := 0 in
  run (sender t0) (
    silent t0;;
    c ← poll_control;
    assert_none c;;
    deadline_is None;;
    on_timer (t0 + from_secs 10);;
    buffered 0).

(** ** Encryption *)

(** [tx] after the confirmed key exchange, and the peer's engine. *)
Definition crypto_pair : panicking (Crypto * Crypto) :=
  let cfg := mkCryptoConfig (str "sender test secret") Aes128 16 4 in
  tx ← Crypto_new_initiator cfg (random 1) (random 2);
  kmreq ← expect (Crypto_kmreq tx);
  rx ← unwrap (Crypto_new_responder cfg kmreq);
  let '(tx, outcome) := Crypto_handle_kmrsp tx kmreq in
  assert (match outcome with Confirmed => true | _ => false end);;
  Ret (tx, rx).

(** A sender, its engine and the engine of the peer. *)
Abbreviation encrypted := (Sender * Crypto * Crypto)%type.

Definition on_sender {A} (t : test Sender A) : test encrypted A := fun '(s, tx, rx) =>
  '(s, a) ← t s; Ret ((s, tx, rx), a).

Definition on_tx {A} (t : test Crypto A) : test encrypted A := fun '(s, tx, rx) =>
  '(tx, a) ← t tx; Ret ((s, tx, rx), a).

Definition on_rx {A} (t : test Crypto A) : test encrypted A := fun '(s, tx, rx) =>
  '(rx, a) ← t rx; Ret ((s, tx, rx), a).

(** [s.push(now, payload, Some(&mut tx)).unwrap()] *)
Definition push_crypto (now : Z) (payload : bytes) : test encrypted unit := fun '(s, tx, rx) =>
  '(s, tx, r) ← Sender_push s now payload (Some tx);
  tx ← expect tx;
  match r with Ok _ => Ret ((s, tx, rx), tt) | Err _ => Panic end.

Definition crypto_on_ack (now srtt_us : Z) : test Crypto (option bytes) := fun c => Crypto_on_ack c now srtt_us (random 3).

(** [rx.decrypt(p.seq, p.encryption, &mut buf).unwrap()], the buffer afterwards. *)
Definition decrypt_packet (p : DataPacket) : test Crypto bytes := fun c =>
  let '(c, r, buf) := Crypto_decrypt c (dp_seq p) (dp_encryption p) (dp_payload p) in
  match r with Ok _ => Ret (c, buf) | Err _ => Panic end.

Definition push_encrypted (t0 lo hi : Z) : test encrypted unit :=
  for_each (range lo hi) (fun i => push_crypto (t0 + MS * i) (replicate 24 i)).

Definition push_through_key_switch (t0 extra : Z) : test encrypted unit :=
  push_encrypted t0 0 12;;
  km ← on_tx (crypto_on_ack t0 100000);
  km ← some km;
  outcome ← on_rx (call (fun c => Crypto_handle_kmreq c km));
  assert (match outcome with Installed => true | _ => false end);;
  push_encrypted t0 12 16;;
  km ← on_tx (crypto_on_ack t0 100000);
  assert_none km;;
  push_encrypted t0 16 (16 + extra).

Definition with_crypto (s : Sender) (t : test encrypted unit) : panicking unit :=
  '(tx, rx) ← crypto_pair;
  run (s, tx, rx) t.

Definition sender_push_buffers_ciphertext_with_kk_bits : panicking unit :=
  let t0 := 0 in
  with_crypto (sender t0) (
    let clear := str "buffered as ciphertext" in
    push_crypto t0 clear;;
    p ← on_sender (transmit t0);
    assert_eq (dp_encryption p) EncEven;;
    assert_ne (dp_payload p) clear;;
    assert_eq (length (dp_payload p)) (length clear);;
    buf ← on_rx (decrypt_packet p);
    assert_eq buf clear).

Definition sender_zero_length_payload_is_not_encrypted : panicking unit :=
  let t0 := 0 in
  with_crypto (sender t0) (
    push_crypto t0 [];;
    p ← on_sender (transmit t0);
    assert_eq (dp_encryption p) EncNone;;
    assert_eq (dp_payload p) []).

Definition sender_rexmit_reuses_ciphertext_and_kk_across_key_switch : panicking unit :=
  let t0 := 0 in
  with_crypto (sender t0) (
    push_through_key_switch t0 2;;
    sent ← on_sender (transmit_all (t0 + MS * 18));
    assert_eq (length sent) 18%nat;;
    assert_eq (dp_encryption <$> take 16 sent) (replicate 16 EncEven);;
    assert_eq (dp_encryption <$> drop 16 sent) (replicate 2 EncOdd);;
    sent3 ← some (sent !! 3%nat);
    on_sender (handle_nak (nak (ISN + 3) (ISN + 3)));;
    rex ← on_sender (transmit (t0 + MS * 20));
    assert (dp_retransmitted rex);;
    assert_eq (dp_encryption rex) EncEven;;
    assert_eq (dp_payload rex) (dp_payload sent3);;
    assert_eq (dp_seq rex) (dp_seq sent3);;
    sent17 ← some (sent !! 17%nat);
    on_sender (handle_nak (nak (ISN + 17) (ISN + 17)));;
    rex ← on_sender (transmit (t0 + MS * 21));
    assert (dp_retransmitted rex);;
    assert_eq (dp_encryption rex) EncOdd;;
    assert_eq (dp_payload rex) (dp_payload sent17);;
    for_each (zip (range 0 18) sent) (fun '(i, p) =>
      buf ← on_rx (decrypt_packet p);
      assert_eq buf (replicate 24 i))).

Definition sender_kk_bits_survive_buffer_wraparound : panicking unit :=
  let t0 := 0 in
  with_crypto (Sender_new (sender_config t0 <| sc_initial_seq := SeqNumber_new (SeqNumber_MASK - 16) |>
                             <| sc_buffer_pkts := 6%nat |>)) (
    push_through_key_switch t0 4;;
    on_sender (buffered 6);;
    on_sender (stat_is ss_pkts_dropped 14);;
    sent ← on_sender (transmit_all (t0 + MS * 20));
    assert_eq (dp_seq <$> sent) [SeqNumber_MASK - 2; SeqNumber_MASK - 1; SeqNumber_MASK; 0; 1; 2];;
    assert_eq (dp_encryption <$> sent) [EncEven; EncEven; EncOdd; EncOdd; EncOdd; EncOdd];;
    for_each (zip (range 0 6) sent) (fun '(i, p) =>
      buf ← on_rx (decrypt_packet p);
      assert_eq buf (replicate 24 (14 + i)));;
    on_sender (ack (t0 + MS * 21) 1 (full_ack 0));;
    on_sender (buffered 3);;
    sent4 ← some (sent !! 4%nat);
    on_sender (handle_nak (nak 1 1));;
    rex ← on_sender (transmit (t0 + MS * 22));
    assert (dp_retransmitted rex);;
    assert_eq (dp_seq rex) (SeqNumber_new 1);;
    assert_eq (dp_encryption rex) EncOdd;;
    assert_eq (dp_payload rex) (dp_payload sent4)).

(** ** Pacing *)

Definition paced (start : Z) (bandwidth : Bandwidth) : Sender :=
  Sender_new (sender_config start <| sc_bandwidth := bandwidth |>).

(** [for _ in 0 .. n { s.push(now, vec![0; 1316], None).unwrap() }] *)
Definition push_n (n : nat) (now : Z) : test Sender unit := for_each (replicate n tt) (fun _ => push now (replicate 1316 0)).

Definition sender_default_options_are_unpaced : panicking unit :=
  let t0 := 0 in
  run (sender t0) (
    for_each (range 0 5) (fun i => push (t0 + MS * i) (replicate 100 0));;
    out ← transmit_all (t0 + MS * 5);
    assert_eq (length out) 5%nat;;
    deadline_is None;;
    stat_is ss_snd_period_us 0;;
    stat_is ss_snd_max_bw 0;;
    stat_is ss_snd_input_rate 0).

Definition sender_paced_sender_spaces_packets_on_a_microsecond_grid : panicking unit :=
  let t0 := 0 in
  run (paced t0 (Max 1360000)) (
    push_n 3 t0;;
    transmits t0;;
    silent t0;;
    deadline_is (Some (t0 + us 1000));;
    silent (t0 + us 999);;
    transmits (t0 + us 1000);;
    stat_is ss_snd_period_us 1000;;
    stat_is ss_snd_max_bw 1360000).

Definition sender_send_time_credit_repays_lateness_back_to_back : panicking unit :=
  let t0 := 0 in
  run (paced t0 (Max 1360000)) (
    push_n 6 t0;;
    transmits t0;;
    let late := t0 + us 4500 in
    burst ← transmit_all late;
    assert_eq (length burst) 4%nat;;
    deadline_is (Some (t0 + us 5000));;
    silent (t0 + us 4999);;
    transmits (t0 + us 5000)).

Definition sender_idle_resets_credit_and_schedule : panicking unit :=
  let t0 := 0 in
  run (paced t0 (Max 1360000)) (
    push_n 1 t0;;
    transmits t0;;
    deadline_is (Some (t0 + us 1000));;
    on_timer (t0 + us 1000);;
    silent (t0 + us 1000);;
    deadline_is None;;
    let t2 := t0 + from_millis 500 in
    push_n 2 t2;;
    transmits t2;;
    silent t2;;
    deadline_is (Some (t2 + us 1000));;
    transmits (t2 + us 1000)).

Definition sender_window_blocked_poll_resets_credit : panicking unit :=
  let t0 := 0 in
  run (Sender_new (sender_config t0 <| sc_flow_window := 2 |> <| sc_bandwidth := Max 1360000 |>)) (
    push_n 4 t0;;
    transmits t0;;
    transmits (t0 + us 1000);;
    silent (t0 + us 2000);;
    deadline_is None;;
    ack (t0 + us 10000) 1 (full_ack (ISN + 2));;
    transmits (t0 + us 10000);;
    silent (t0 + us 10000);;
    deadline_is (Some (t0 + us 11000));;
    transmits (t0 + us 11000)).

Definition sender_probe_pair_bypasses_pacing_for_new_data_only : panicking unit :=
  let t0 := 0 in
  run (Sender_new (sender_config t0 <| sc_initial_seq := SeqNumber_new 112 |> <| sc_bandwidth := Max 1360000 |>)) (
    push_n 3 t0;;
    transmits_seq t0 112;;
    transmits_seq t0 113;;
    silent t0;;
    deadline_is (Some (t0 + us 1000));;
    transmits_seq (t0 + us 1000) 114;;
    handle_nak (nak 112 112);;
    silent (t0 + us 1500);;
    rex ← transmit (t0 + us 2000);
    assert_eq (dp_seq rex) (SeqNumber_new 112);;
    assert (dp_retransmitted rex);;
    silent (t0 + us 2000);;
    deadline_is (Some (t0 + us 3000))).

Definition sender_rexmit_and_new_data_share_one_paced_slot : panicking unit :=
  let t0 := 0 in
  run (paced t0 (Max 1360000)) (
    push_n 4 t0;;
    transmits t0;;
    handle_nak (nak ISN ISN);;
    silent (t0 + us 100);;
    rex ← transmit (t0 + us 1000);
    assert_eq (dp_seq rex) (SeqNumber_new ISN);;
    assert (dp_retransmitted rex);;
    silent (t0 + us 1000);;
    p ← transmit (t0 + us 2000);
    assert_eq (dp_seq p) (SeqNumber_new (ISN + 1));;
    assert (negb (dp_retransmitted p))).

Definition sender_avg_payload_iir_moves_period_only_on_rate_events : panicking unit :=
  let t0 := 0 in
  run (paced t0 (Max 1360000)) (
    push t0 (replicate 100 0);;
    push t0 (replicate 100 0);;
    transmits t0;;
    stat_is ss_snd_period_us 1000;;
    transmits (t0 + us 1000);;
    stat_is ss_snd_period_us 1000;;
    ack (t0 + us 1500) 0 (light_ack_cif (ISN + 2));;
    stat_is ss_snd_period_us 1000;;
    ack (t0 + us 1600) 1 (full_ack (ISN + 2));;
    stat_is ss_snd_period_us 985).

Definition sender_estimated_ceiling_tracks_estimator : panicking unit :=
  let t0 := 0 in
  let push_at n := push (t0 + from_millis n) (replicate 1000 0) in
  run (paced t0 (Estimated 5000 25)) (
    stat_is ss_snd_max_bw BW_INFINITE;;
    stat_is ss_snd_input_rate 0;;
    stat_is ss_snd_period_us 10;;
    push_at 0;;
    ack (t0 + from_millis 100) 1 (full_ack ISN);;
    stat_is ss_snd_max_bw 156250000;;
    stat_is ss_snd_input_rate 0;;
    push_at 250;;
    push_at 501;;
    ack (t0 + from_millis 502) 2 (full_ack ISN);;
    stat_is ss_snd_input_rate 4167;;
    stat_is ss_snd_max_bw (with_overhead 5000 25);;
    stat_is ss_snd_max_bw 6250;;
    for_each (range 1 5) (fun i => push_at (501 + 200 * i));;
    push_at 1502;;
    ack (t0 + from_millis 1503) 3 (full_ack ISN);;
    stat_is ss_snd_input_rate 5214;;
    stat_is ss_snd_max_bw (with_overhead 5214 25);;
    stat_is ss_snd_max_bw 6517;;
    stat_is ss_snd_period_us 208684).

Definition sender_tlpktdrop_fires_under_pacing_backpressure : panicking unit :=
  let t0 := 0 in
  run (paced t0 (Max 1360)) (
    push_n 2 t0;;
    transmits t0;;
    deadline_is (Some (t0 + us 1000000));;
    push_n 1 (t0 + from_millis 1030);;
    deadline_is (Some (t0 + from_millis 1000));;
    on_timer (t0 + from_millis 1000);;
    transmits (t0 + from_millis 1000);;
    silent (t0 + from_millis 1000);;
    deadline_is (Some (t0 + from_millis 1020));;
    on_timer (t0 + from_millis 1020);;
    stat_is ss_pkts_dropped 2;;
    c ← poll_control;
    assert (match c with Some (DropRequest _ _ _) => true | _ => false end);;
    silent (t0 + from_millis 1020);;
    deadline_is (Some (t0 + from_secs 2));;
    p ← transmit (t0 + from_secs 2);
    assert_eq (dp_seq p) (SeqNumber_new (ISN + 2));;
    assert (negb (dp_retransmitted p))).

(** The driving loop of the last test, at most [fuel] rounds. *)
Fixpoint drive_deadlines (fuel : nat) (now : Z) : test Sender unit :=
  match fuel with
  | O => mthrow tt
  | S fuel =>
      transmit_all now;;
      d ← next_deadline;
      match d with
      | Some d => assert (now <? d);; drive_deadlines fuel d
      | None => mret tt
      end
  end.

Definition sender_no_busy_wake_invariant : panicking unit :=
  let t0 := 0 in
  run (paced t0 (Max 1360000)) (
    silent t0;;
    deadline_is None;;
    push_n 2 t0;;
    drive_deadlines 16 t0;;
    stat_is ss_pkts_sent 2;;
    deadline_is None).

(** ** All pass *)

Example sender_tests : Forall passes
  [sender_assigns_consecutive_seq_msg_and_live_flags; sender_msgno_wraps_back_to_one_skipping_zero;
   sender_payload_too_large_rejected; sender_ack_releases_acknowledged_packets;
   sender_ack_release_frees_window_for_new_data; sender_ack_beyond_highest_sent_is_protocol_violation;
   sender_light_ack_beyond_highest_sent; sender_ackack_only_for_non_light_acks;
   sender_ackack_throttled_within_10ms_except_repeats; sender_light_ack_consumes_advertised_window;
   sender_adopts_rtt_from_full_ack_gated_on_initial_pair; sender_nak_retransmits_with_original_fields;
   sender_retransmissions_take_priority_over_new_data; sender_nak_range_covers_multiple_packets;
   sender_nak_for_released_range_replies_dropreq; sender_nak_straddling_release_point_is_clipped;
   sender_nak_beyond_highest_sent_flags_violation; sender_ack_purges_pending_retransmissions;
   sender_rexmit_throttle_suppresses_duplicate_within_rtt_window; sender_rexmit_throttle_falls_through_to_new_data;
   sender_rexmit_throttle_inactive_before_rtt_convergence; sender_tlpktdrop_on_timer_drops_and_announces;
   sender_tlpktdrop_on_push_drops_expired_head; sender_tlpktdrop_fake_acks_dropped_range;
   sender_no_deadline_while_timespan_within_threshold; sender_buffer_overflow_drops_oldest;
   sender_window_full_drops_oldest_in_flight; sender_seq_numbers_wrap_across_max;
   sender_stats_track_sent_retransmitted_dropped; sender_empty_sender_polls_nothing].
Proof. run_tests. Qed.

Example sender_crypto_tests : Forall passes
  [sender_push_buffers_ciphertext_with_kk_bits; sender_zero_length_payload_is_not_encrypted;
   sender_rexmit_reuses_ciphertext_and_kk_across_key_switch; sender_kk_bits_survive_buffer_wraparound].
Proof. run_tests. Qed.

Example sender_pacing_tests : Forall passes
  [sender_default_options_are_unpaced; sender_paced_sender_spaces_packets_on_a_microsecond_grid;
   sender_send_time_credit_repays_lateness_back_to_back; sender_idle_resets_credit_and_schedule;
   sender_window_blocked_poll_resets_credit; sender_probe_pair_bypasses_pacing_for_new_data_only;
   sender_rexmit_and_new_data_share_one_paced_slot; sender_avg_payload_iir_moves_period_only_on_rate_events;
   sender_estimated_ceiling_tracks_estimator; sender_tlpktdrop_fires_under_pacing_backpressure;
   sender_no_busy_wake_invariant].
Proof. run_tests. Qed.
