(* ===== verification/TestReceiver.v ===== *)
(** * Unit tests of the receiver: [core/receiver.rs], [core/tsbpd_stall_tests.rs]

    [Instant::now()] is the instant 0. *)

From S2P Require Import Prelude PacketTypes PacketData PacketHandshake PacketControl Time LossList Receiver Testing TestTime.

Definition RISN : Z := 1000.

Definition LATENCY : Z := from_millis 120.

Definition receiver_cfg (isn : Z) : ReceiverConfig := mkReceiverConfig (SeqNumber_new isn) LATENCY 8192.

Definition rx (t0 : Z) : Receiver := Receiver_new t0 (receiver_cfg RISN).

(** [Receiver::new(t0, ReceiverConfig { buffer_pkts: 4, .. })] *)
Definition small_rx (t0 : Z) : Receiver := Receiver_new t0 (mkReceiverConfig (SeqNumber_new RISN) LATENCY 4).

Definition data (seq ts_us : Z) : DataPacket :=
  mkDataPacket (SeqNumber_new seq) Only true EncNone false (MsgNumber_new 1) ts_us 1 [as_u8 seq].

Definition rexmit (seq ts_us : Z) : DataPacket := data seq ts_us <| dp_retransmitted := true |>.

Definition receiver_range (first last : Z) : LossRange := mkLossRange (SeqNumber_new first) (SeqNumber_new last).

(** ** The methods, on the receiver under test *)

Definition handle_data (now : Z) (pkt : DataPacket) : test Receiver unit := act (fun r => Receiver_handle_data r now pkt).

Definition handle_undecryptable (now : Z) (pkt : DataPacket) : test Receiver unit :=
  act (fun r => Receiver_handle_undecryptable r now pkt).

Definition set_hs_anchor (instant ts : Z) : test Receiver unit := modify (fun r => Receiver_set_hs_anchor r instant ts).

Definition poll_deliver (now : Z) : test Receiver (option bytes) := fun r => Receiver_poll_deliver r now.

Definition receiver_on_timer (now : Z) : test Receiver unit := modify (fun r => Receiver_on_timer r now).

Definition handle_ackack (now ack_number ts : Z) : test Receiver unit :=
  act (fun r => Receiver_handle_ackack r now ack_number ts).

Definition handle_dropreq (msg_number first last : Z) : test Receiver unit :=
  act (fun r => Receiver_handle_dropreq r msg_number first last).

Definition drain_control : test Receiver (list ControlType) := drain 512 (step Receiver_poll_control).

Definition naks (ctl : list ControlType) : list (list LossRange) :=
  omap (fun c => match c with Nak l => Some l | _ => None end) ctl.

Definition acks (ctl : list ControlType) : list (Z * AckCif) :=
  omap (fun c => match c with Ack ack_number cif => Some (ack_number, cif) | _ => None end) ctl.

(** [assert_eq!(r.poll_deliver(now), ..)]: nothing, or the one byte of a packet. *)
Definition holds_back (now : Z) : test Receiver unit := p ← poll_deliver now; assert_eq p None.

Definition delivers (now byte : Z) : test Receiver unit := p ← poll_deliver now; assert_eq p (Some [as_u8 byte]).

Definition rstat_is (f : ReceiverStats -> Z) (n : Z) : test Receiver unit :=
  st ← gets Receiver_get_stats; assert_eq (f st) n.

Definition discrepancy_is (b : bool) : test Receiver unit := d ← gets Receiver_sequence_discrepancy; assert_eq d b.

Definition undecrypted_is (n : Z) : test Receiver unit := u ← gets Receiver_undecrypted_count; assert_eq u n.

Definition receiver_rtt_is (p : Z * Z) : test Receiver unit := r ← gets Receiver_rtt; assert_eq r p.

(** [assert!(naks(&drain(&mut r, now)).is_empty())] *)
Definition no_naks : test Receiver unit := ctl ← drain_control; assert_eq (naks ctl) [].

(** [assert_eq!(acks(&drain(&mut r, now))[0].1.last_ack_seq, ..)] *)
Definition acked (seq : Z) : test Receiver unit :=
  ctl ← drain_control;
  a ← some (acks ctl !! 0%nat);
  assert_eq (ack_last_ack_seq (snd a)) (SeqNumber_new seq).

(** ** TSBPD *)

Definition receiver_in_order_delivery_released_exactly_at_latency : panicking unit :=
  let t0 := 0 in
  run (rx t0) (
    handle_data t0 (data RISN 0);;
    holds_back t0;;
    holds_back (t0 + LATENCY - us 1);;
    delivers (t0 + LATENCY) RISN;;
    holds_back (t0 + LATENCY);;
    handle_data (t0 + ms 5) (data (RISN + 1) 20000);;
    holds_back (t0 + LATENCY + ms 20 - us 1);;
    delivers (t0 + LATENCY + ms 20) (RISN + 1)).

Definition receiver_late_fill_behind_cached_scan_position_still_delivers : panicking unit :=
  let t0 := 0 in
  run (rx t0) (
    handle_data t0 (data RISN 0);;
    delivers (t0 + LATENCY) RISN;;
    handle_data (t0 + us 300) (data (RISN + 3) 300);;
    holds_back (t0 + us 400);;
    handle_data (t0 + us 500) (rexmit (RISN + 1) 100);;
    delivers (t0 + LATENCY + us 100) (RISN + 1);;
    ctl ← drain_control;
    assert_ne ctl [];;
    delivers (t0 + LATENCY + us 300) (RISN + 3)).

Definition receiver_hs_anchor_time_base_from_handshake_not_first_data : panicking unit :=
  let t0 := 0 in
  run (rx t0) (
    set_hs_anchor t0 0;;
    handle_data (t0 + ms 50) (data RISN 10000);;
    holds_back (t0 + LATENCY + ms 10 - us 1);;
    delivers (t0 + LATENCY + ms 10) RISN).

Definition receiver_hs_anchor_is_set_exactly_once : panicking unit :=
  let t0 := 0 in
  run (rx t0) (
    set_hs_anchor t0 0;;
    set_hs_anchor (t0 + ms 500) 400000;;
    handle_data (t0 + ms 5) (data RISN 1000);;
    holds_back (t0 + LATENCY + ms 1 - us 1);;
    delivers (t0 + LATENCY + ms 1) RISN);;
  run (rx t0) (
    handle_data t0 (data RISN 0);;
    set_hs_anchor (t0 + ms 1) 7000;;
    holds_back (t0 + LATENCY - us 1);;
    delivers (t0 + LATENCY) RISN).

Definition receiver_hs_anchor_seeds_extender_across_timestamp_wrap : panicking unit :=
  let t0 := 0 in
  run (rx t0) (
    let ts0 := as_u32 (Z.shiftl 1 32 - 5000) in
    set_hs_anchor t0 ts0;;
    handle_data (t0 + ms 20) (data RISN (as_u32 (ts0 + 20000)));;
    holds_back (t0 + LATENCY + ms 20 - us 1);;
    delivers (t0 + LATENCY + ms 20) RISN).

Definition receiver_out_of_order_reassembly_before_deadline : panicking unit :=
  let t0 := 0 in
  run (rx t0) (
    handle_data t0 (data RISN 0);;
    handle_data (t0 + ms 1) (data (RISN + 2) 2000);;
    handle_data (t0 + ms 3) (data (RISN + 1) 1000);;
    delivers (t0 + LATENCY) RISN;;
    delivers (t0 + LATENCY + ms 1) (RISN + 1);;
    delivers (t0 + LATENCY + ms 2) (RISN + 2);;
    rstat_is rs_pkts_dropped 0;;
    receiver_on_timer (t0 + ms 10);;
    acked (RISN + 3)).

Definition receiver_deadline_passed_skips_hole_with_drop_count : panicking unit :=
  let t0 := 0 in
  run (rx t0) (
    handle_data t0 (data RISN 0);;
    handle_data (t0 + ms 1) (data (RISN + 3) 3000);;
    drain_control;;
    delivers (t0 + LATENCY) RISN;;
    holds_back (t0 + LATENCY + ms 3 - us 1);;
    delivers (t0 + LATENCY + ms 3) (RISN + 3);;
    rstat_is rs_pkts_dropped 2;;
    receiver_on_timer (t0 + ms 400);;
    ctl ← drain_control;
    assert_eq (naks ctl) [];;
    a ← some (acks ctl !! 0%nat);
    assert_eq (ack_last_ack_seq (snd a)) (SeqNumber_new (RISN + 4))).

Definition receiver_belated_packet_discarded : panicking unit :=
  let t0 := 0 in
  run (rx t0) (
    handle_data t0 (data RISN 0);;
    delivers (t0 + LATENCY) RISN;;
    handle_data (t0 + LATENCY + ms 1) (data RISN 0);;
    rstat_is rs_pkts_belated 1;;
    holds_back (t0 + LATENCY + ms 10)).

Definition receiver_duplicate_packet_discarded : panicking unit :=
  let t0 := 0 in
  run (rx t0) (
    handle_data t0 (data RISN 0);;
    handle_data (t0 + ms 1) (data RISN 0);;
    rstat_is rs_pkts_recv 2;;
    rstat_is rs_pkts_belated 0;;
    delivers (t0 + LATENCY) RISN;;
    holds_back (t0 + LATENCY)).

Definition receiver_buffer_overflow_drops_packet_without_loss_entry : panicking unit :=
  let t0 := 0 in
  run (small_rx t0) (
    handle_data t0 (data RISN 0);;
    handle_data t0 (data (RISN + 4) 400);;
    rstat_is rs_pkts_lost 0;;
    no_naks;;
    discrepancy_is false;;
    receiver_on_timer (t0 + ms 10);;
    acked (RISN + 1)).

Definition receiver_overflow_with_empty_buffer_flags_discrepancy : panicking unit :=
  let t0 := 0 in
  run (small_rx t0) (
    handle_data t0 (data RISN 0);;
    delivers (t0 + LATENCY) RISN;;
    discrepancy_is false;;
    handle_data (t0 + ms 100) (data (RISN + 5) 100000);;
    discrepancy_is true;;
    rstat_is rs_pkts_lost 0;;
    no_naks).

Definition receiver_overflow_with_only_hole_slots_flags_discrepancy : panicking unit :=
  let t0 := 0 in
  run (small_rx t0) (
    handle_data t0 (data RISN 0 <| dp_msg_number := MsgNumber_new 7 |>);;
    handle_dropreq (MsgNumber_new 7) (SeqNumber_new RISN) (SeqNumber_new RISN);;
    discrepancy_is false;;
    handle_data (t0 + ms 1) (data (RISN + 4) 1000);;
    discrepancy_is true).

(** ** Loss and NAK *)

Definition receiver_gap_sends_immediate_nak_exactly_once_then_periodic : panicking unit :=
  let t0 := 0 in
  run (rx t0) (
    handle_data t0 (data RISN 0);;
    ctl ← drain_control;
    assert_eq ctl [];;
    handle_data (t0 + ms 1) (data (RISN + 3) 3000);;
    ctl ← drain_control;
    assert_eq ctl [Nak [receiver_range (RISN + 1) (RISN + 2)]];;
    rstat_is rs_pkts_lost 2;;
    handle_data (t0 + ms 2) (data (RISN + 4) 4000);;
    no_naks;;
    got ← for_fold (range 1 46) [] (fun got k =>
      receiver_on_timer (t0 + ms (k * 10));;
      ctl ← drain_control;
      mret (got ++ (pair (k * 10) <$> naks ctl)));
    assert_eq got [(300, [receiver_range (RISN + 1) (RISN + 2)]); (450, [receiver_range (RISN + 1) (RISN + 2)])]).

Definition receiver_recovery_via_retransmission_fills_hole : panicking unit :=
  let t0 := 0 in
  run (rx t0) (
    handle_data t0 (data RISN 0);;
    handle_data (t0 + ms 1) (data (RISN + 2) 2000);;
    ctl ← drain_control;
    assert_eq (naks ctl) [[receiver_range (RISN + 1) (RISN + 1)]];;
    handle_data (t0 + ms 5) (rexmit (RISN + 1) 1000);;
    receiver_on_timer (t0 + ms 10);;
    ctl ← drain_control;
    assert_eq (naks ctl) [];;
    a ← some (acks ctl !! 0%nat);
    assert_eq (acks ctl) [(1, snd a)];;
    assert_eq (ack_last_ack_seq (snd a)) (SeqNumber_new (RISN + 3));;
    delivers (t0 + LATENCY) RISN;;
    holds_back (t0 + LATENCY + ms 1 - us 1);;
    delivers (t0 + LATENCY + ms 1) (RISN + 1);;
    delivers (t0 + LATENCY + ms 2) (RISN + 2);;
    rstat_is rs_pkts_dropped 0;;
    receiver_on_timer (t0 + ms 500);;
    no_naks).

Definition receiver_partial_fill_splits_loss_range : panicking unit :=
  let t0 := 0 in
  run (rx t0) (
    handle_data t0 (data RISN 0);;
    handle_data t0 (data (RISN + 5) 500);;
    drain_control;;
    handle_data (t0 + ms 1) (rexmit (RISN + 3) 300);;
    receiver_on_timer (t0 + ms 300);;
    ctl ← drain_control;
    assert_eq (naks ctl) [[receiver_range (RISN + 1) (RISN + 2); receiver_range (RISN + 4) (RISN + 4)]];;
    a ← some (acks ctl !! 0%nat);
    assert_eq (ack_last_ack_seq (snd a)) (SeqNumber_new (RISN + 1))).

(** 200 holes of one packet each: even offsets received, odd ones missing. *)
Definition feed_holes (t0 : Z) : test Receiver unit :=
  for_each (range 0 201) (fun i => handle_data t0 (data (RISN + 2 * i) (100 * i)));;
  drain_control;;
  mret tt.

Definition receiver_periodic_nak_truncated_to_negotiated_max_payload : panicking unit :=
  let t0 := 0 in
  let periodic :=
    feed_holes t0;;
    receiver_on_timer (t0 + ms 300);;
    ctl ← drain_control;
    some (naks ctl !! 0%nat) in
  '(_, all) ← periodic (rx t0);
  assert_eq (length all) 200%nat;;
  '(_, truncated) ← periodic (Receiver_set_max_payload (rx t0) 576);
  assert_eq (length truncated) 144%nat;;
  assert_eq truncated (take 144 all).

Definition receiver_nak_word_budget_floored_so_one_range_always_fits : panicking unit :=
  let t0 := 0 in
  run (Receiver_set_max_payload (rx t0) 4) (
    handle_data t0 (data RISN 0);;
    handle_data t0 (data (RISN + 3) 300);;
    drain_control;;
    receiver_on_timer (t0 + ms 300);;
    ctl ← drain_control;
    assert_eq (naks ctl) [[receiver_range (RISN + 1) (RISN + 2)]]).

(** ** ACK *)

Definition receiver_no_ack_before_any_data : panicking unit :=
  let t0 := 0 in
  run (rx t0) (
    receiver_on_timer (t0 + ms 10);;
    receiver_on_timer (t0 + ms 20);;
    ctl ← drain_control;
    assert_eq ctl []).

Definition receiver_ack_cadence_and_last_contiguous_plus_one_across_gap : panicking unit :=
  let t0 := 0 in
  run (rx t0) (
    handle_data t0 (data RISN 0);;
    handle_data t0 (data (RISN + 1) 100);;
    handle_data t0 (data (RISN + 4) 400);;
    drain_control;;
    receiver_on_timer (t0 + ms 10);;
    ctl ← drain_control;
    assert_eq (length (acks ctl)) 1%nat;;
    a ← some (acks ctl !! 0%nat);
    assert_eq (fst a) 1;;
    assert_eq (ack_last_ack_seq (snd a)) (SeqNumber_new (RISN + 2));;
    assert_eq (ack_rtt_us (snd a)) (Some Receiver_INITIAL_RTT_US);;
    assert_eq (ack_rtt_var_us (snd a)) (Some Receiver_INITIAL_RTT_VAR_US);;
    assert_eq (ack_avail_buf_pkts (snd a)) (Some (8192 - 2));;
    assert_eq (ack_recv_rate_pkts (snd a)) (Some 0);;
    assert_eq (ack_link_capacity_pkts (snd a)) (Some 0);;
    assert_eq (ack_recv_rate_bytes (snd a)) (Some 0);;
    handle_data (t0 + ms 12) (rexmit (RISN + 2) 200);;
    handle_data (t0 + ms 12) (rexmit (RISN + 3) 300);;
    receiver_on_timer (t0 + ms 20);;
    ctl ← drain_control;
    a ← some (acks ctl !! 0%nat);
    assert_eq (acks ctl) [(2, snd a)];;
    assert_eq (ack_last_ack_seq (snd a)) (SeqNumber_new (RISN + 5));;
    receiver_on_timer (t0 + ms 30);;
    ctl ← drain_control;
    assert_eq ctl [];;
    receiver_on_timer (t0 + ms 330);;
    ctl ← drain_control;
    assert_eq (length (acks ctl)) 1%nat;;
    a ← some (acks ctl !! 0%nat);
    assert_eq (fst a) 3;;
    assert_eq (ack_last_ack_seq (snd a)) (SeqNumber_new (RISN + 5));;
    handle_ackack (t0 + ms 331) 3 331000;;
    receiver_on_timer (t0 + ms 700);;
    ctl ← drain_control;
    assert_eq ctl []).

(** [for i in lo .. hi { r.handle_data(now, data(ISN + i, i * 100)) }] *)
Definition feed (now lo hi : Z) : test Receiver unit :=
  for_each (range lo hi) (fun i => handle_data now (data (RISN + i) (i * 100))).

Definition receiver_light_ack_every_64_packets_between_full_acks : panicking unit :=
  let t0 := 0 in
  run (rx t0) (
    feed t0 0 64;;
    ctl ← drain_control;
    assert_eq ctl [Ack 0 (light_ack (SeqNumber_new (RISN + 64)))];;
    feed (t0 + ms 1) 64 128;;
    ctl ← drain_control;
    a ← some (acks ctl !! 0%nat);
    assert_eq (acks ctl) [(0, snd a)];;
    assert_eq (ack_last_ack_seq (snd a)) (SeqNumber_new (RISN + 128));;
    assert_eq (ack_rtt_us (snd a)) None;;
    receiver_on_timer (t0 + ms 10);;
    drain_control;;
    feed (t0 + ms 11) 128 191;;
    ctl ← drain_control;
    assert_eq ctl [];;
    handle_data (t0 + ms 12) (data (RISN + 191) 19100);;
    ctl ← drain_control;
    assert_eq (length (acks ctl)) 1%nat;;
    a ← some (acks ctl !! 0%nat);
    assert_eq (fst a) 0;;
    assert_eq (ack_last_ack_seq (snd a)) (SeqNumber_new (RISN + 192))).

(** ** ACKACK and RTT *)

(** [assert_eq!(acks(&drain(&mut r, now))[0].0, n)] *)
Definition ack_number_is (n : Z) : test Receiver unit :=
  ctl ← drain_control;
  a ← some (acks ctl !! 0%nat);
  assert_eq (fst a) n.

Definition receiver_ackack_rtt_first_sample_then_smoothed : panicking unit :=
  let t0 := 0 in
  run (rx t0) (
    receiver_rtt_is (Receiver_INITIAL_RTT_US, Receiver_INITIAL_RTT_VAR_US);;
    handle_data t0 (data RISN 0);;
    receiver_on_timer (t0 + ms 10);;
    ack_number_is 1;;
    handle_ackack (t0 + ms 50) 1 50000;;
    receiver_rtt_is (40000, 20000);;
    rstat_is rs_rtt_us 40000;;
    rstat_is rs_rtt_var_us 20000;;
    handle_data (t0 + ms 50) (data (RISN + 1) 50000);;
    receiver_on_timer (t0 + ms 60);;
    ack_number_is 2;;
    handle_ackack (t0 + ms 140) 2 140000;;
    receiver_rtt_is ((7 * 40000 + 80000) / 8, (3 * 20000 + 40000) / 4);;
    receiver_rtt_is (45000, 25000)).

Definition receiver_ackack_unknown_or_consumed_number_ignored : panicking unit :=
  let t0 := 0 in
  run (rx t0) (
    handle_data t0 (data RISN 0);;
    receiver_on_timer (t0 + ms 10);;
    drain_control;;
    handle_ackack (t0 + ms 20) 99 20000;;
    receiver_rtt_is (Receiver_INITIAL_RTT_US, Receiver_INITIAL_RTT_VAR_US);;
    handle_ackack (t0 + ms 50) 1 50000;;
    receiver_rtt_is (40000, 20000);;
    handle_ackack (t0 + ms 90) 1 90000;;
    receiver_rtt_is (40000, 20000)).

(** ** TSBPD drift *)

(** [while r.poll_deliver(t).is_some() {}]: the payloads released. *)
Definition release (t : Z) : test Receiver (list bytes) := drain 64 (poll_deliver t).

(** The last packet of the round, its ACK and the ACKACK of the peer. *)
Definition acked_round (t : Z) (pkt : DataPacket) (ackack_at peer_ts : Z) : test Receiver unit :=
  handle_data t pkt;;
  receiver_on_timer t;;
  ctl ← drain_control;
  a ← some (acks ctl !! 0%nat);
  handle_ackack ackack_at (fst a) peer_ts.

Definition drift_rounds (t0 base_ts lo hi offset_us : Z) : test Receiver unit :=
  for_each (range lo hi) (fun i =>
    let elapsed := 10000 * (i + 1) in
    let t := t0 + us elapsed in
    let peer at_us := as_u32 (base_ts + as_u32 (at_us - offset_us)) in
    acked_round t (data (RISN + i) (peer elapsed)) (t + ms 2) (peer (elapsed + 2000));;
    release t;;
    mret tt).

Definition drain_due (t : Z) : test Receiver (option bytes) := l ← release t; mret (last l).

Definition assert_released_at (deadline byte : Z) : test Receiver unit :=
  before ← drain_due (deadline - us 1);
  assert_ne before (Some [as_u8 byte]);;
  due ← drain_due deadline;
  assert_eq due (Some [as_u8 byte]).

Definition receiver_drift_no_correction_before_batch_completes : panicking unit :=
  let t0 := 0 in
  run (rx t0) (
    set_hs_anchor t0 0;;
    drift_rounds t0 0 0 999 2000;;
    rstat_is rs_tsbpd_drift_us 0;;
    let t_p := t0 + ms 10000 in
    handle_data t_p (data (RISN + 999) (10000000 - 2000));;
    assert_released_at (t_p + LATENCY - us 2000) (RISN + 999)).

Definition receiver_drift_batch_restores_slow_peer_deadlines : panicking unit :=
  let t0 := 0 in
  run (rx t0) (
    set_hs_anchor t0 0;;
    drift_rounds t0 0 0 1000 2000;;
    rstat_is rs_tsbpd_drift_us 2000;;
    let t_p := t0 + ms 10010 in
    handle_data t_p (data (RISN + 1000) (10010000 - 2000));;
    assert_released_at (t_p + LATENCY) (RISN + 1000)).

Definition receiver_drift_negative_correction_applies_to_buffered_packets : panicking unit :=
  let t0 := 0 in
  run (rx t0) (
    set_hs_anchor t0 0;;
    drift_rounds t0 0 0 999 (-3000);;
    let t := t0 + ms 10000 in
    acked_round t (data (RISN + 999) (10000000 + 3000)) (t + ms 2) (as_u32 (10002000 + 3000));;
    rstat_is rs_tsbpd_drift_us (-3000);;
    assert_released_at (t + LATENCY) (RISN + 999)).

Definition receiver_drift_rtt_change_is_not_drift : panicking unit :=
  let t0 := 0 in
  run (rx t0) (
    set_hs_anchor t0 0;;
    for_each (range 0 1000) (fun i =>
      let elapsed := 10000 * (i + 1) in
      let t := t0 + us elapsed in
      let owd_us := if i =? 0 then 1000 else 5000 in
      acked_round t (data (RISN + i) (as_u32 (elapsed - owd_us + 1000))) (t + us (2 * owd_us))
        (as_u32 (elapsed + owd_us + 1000));;
      release t;;
      mret tt);;
    rstat_is rs_tsbpd_drift_us 0).

Definition receiver_drift_sampling_across_timestamp_wrap : panicking unit :=
  let t0 := 0 in
  run (rx t0) (
    let base_ts := U32_MAX - 4999 in
    set_hs_anchor t0 base_ts;;
    drift_rounds t0 base_ts 0 1000 2000;;
    rstat_is rs_tsbpd_drift_us 2000;;
    let t_p := t0 + ms 10010 in
    handle_data t_p (data (RISN + 1000) (as_u32 (base_ts + (10010000 - 2000))));;
    assert_released_at (t_p + LATENCY) (RISN + 1000)).

Definition receiver_drift_ignores_unmatched_ackacks : panicking unit :=
  let t0 := 0 in
  run (rx t0) (
    set_hs_anchor t0 0;;
    drift_rounds t0 0 0 999 2000;;
    for_each [0; 424242] (fun junk => handle_ackack (t0 + ms 9995) junk 0);;
    rstat_is rs_tsbpd_drift_us 0;;
    drift_rounds t0 0 999 1000 2000;;
    rstat_is rs_tsbpd_drift_us 2000).

Definition receiver_drift_correction_reaches_next_deadline : panicking unit :=
  let t0 := 0 in
  run (rx t0) (
    set_hs_anchor t0 0;;
    drift_rounds t0 0 0 999 (-3000);;
    let t := t0 + ms 10000 in
    acked_round t (data (RISN + 999) (10000000 + 3000)) (t + ms 2) (as_u32 (10002000 + 3000));;
    rstat_is rs_tsbpd_drift_us (-3000);;
    let deadline := t + LATENCY in
    let t_w := deadline - ms 5 in
    drain_due t_w;;
    receiver_on_timer t_w;;
    drain_control;;
    d ← gets (fun r => Receiver_next_deadline r t_w);
    assert_eq d (Some deadline)).

(** ** DROPREQ *)

(** [for k in 1 ..= n { .. }]: the timer every 10 ms, no NAK, the ACKs. *)
Definition quiet_ticks (t0 n : Z) : test Receiver (list (Z * AckCif)) :=
  for_fold (range 1 (n + 1)) [] (fun all_acks k =>
    receiver_on_timer (t0 + ms (k * 10));;
    ctl ← drain_control;
    assert_eq (naks ctl) [];;
    mret (all_acks ++ acks ctl)).

Definition receiver_dropreq_purges_loss_list_and_stops_naks : panicking unit :=
  let t0 := 0 in
  run (rx t0) (
    handle_data t0 (data RISN 0);;
    handle_data t0 (data (RISN + 5) 500);;
    ctl ← drain_control;
    assert_eq (naks ctl) [[receiver_range (RISN + 1) (RISN + 4)]];;
    handle_dropreq (MsgNumber_new 0) (SeqNumber_new (RISN + 1)) (SeqNumber_new (RISN + 4));;
    all_acks ← quiet_ticks t0 60;
    a ← some (all_acks !! 0%nat);
    assert_eq (ack_last_ack_seq (snd a)) (SeqNumber_new (RISN + 6))).

Definition receiver_dropreq_covering_next_expected_skips_ahead : panicking unit :=
  let t0 := 0 in
  run (rx t0) (
    handle_data t0 (data RISN 0);;
    handle_dropreq (MsgNumber_new 0) (SeqNumber_new (RISN + 1)) (SeqNumber_new (RISN + 9));;
    receiver_on_timer (t0 + ms 10);;
    acked (RISN + 10)).

Definition receiver_dropreq_with_msg_number_clears_buffered_packet : panicking unit :=
  let t0 := 0 in
  run (rx t0) (
    handle_data t0 (data RISN 0);;
    handle_data t0 (data (RISN + 1) 1000 <| dp_msg_number := MsgNumber_new 7 |>);;
    handle_data t0 (data (RISN + 2) 2000);;
    handle_dropreq (MsgNumber_new 7) (SeqNumber_new (RISN + 1)) (SeqNumber_new (RISN + 1));;
    delivers (t0 + LATENCY) RISN;;
    delivers (t0 + LATENCY + ms 2) (RISN + 2);;
    rstat_is rs_pkts_dropped 1).

(** ** Wrap-around *)

Definition receiver_timestamp_wrap_keeps_delivery_deadlines_correct : panicking unit :=
  let t0 := 0 in
  run (rx t0) (
    let ts0 := as_u32 (Z.shiftl 1 32 - 10000) in
    handle_data t0 (data RISN ts0);;
    let ts1 := as_u32 (ts0 + 20000) in
    let ts2 := as_u32 (ts0 + 40000) in
    assert_eq ts1 10000;;
    assert_eq ts2 30000;;
    handle_data (t0 + ms 20) (data (RISN + 1) ts1);;
    handle_data (t0 + ms 40) (data (RISN + 2) ts2);;
    holds_back (t0 + LATENCY - us 1);;
    delivers (t0 + LATENCY) RISN;;
    holds_back (t0 + LATENCY + ms 20 - us 1);;
    delivers (t0 + LATENCY + ms 20) (RISN + 1);;
    holds_back (t0 + LATENCY + ms 40 - us 1);;
    delivers (t0 + LATENCY + ms 40) (RISN + 2);;
    rstat_is rs_pkts_dropped 0;;
    rstat_is rs_pkts_belated 0).

Definition receiver_seq_wrap_crossing_max_delivers_in_order_and_acks : panicking unit :=
  let t0 := 0 in
  let seqs := zip (range 0 4) [0x7FFFFFFE; 0x7FFFFFFF; 0; 1] in
  run (Receiver_new t0 (receiver_cfg 0x7FFFFFFE)) (
    for_each seqs (fun '(i, s) => handle_data t0 (data s (i * 1000)));;
    no_naks;;
    rstat_is rs_pkts_lost 0;;
    receiver_on_timer (t0 + ms 10);;
    acked 2;;
    for_each seqs (fun '(i, s) => delivers (t0 + LATENCY + ms i) s)).

Definition receiver_gap_across_seq_wrap_naks_wrapped_range : panicking unit :=
  let t0 := 0 in
  run (Receiver_new t0 (receiver_cfg 0x7FFFFFFE)) (
    handle_data t0 (data 0x7FFFFFFE 0);;
    handle_data t0 (data 1 3000);;
    ctl ← drain_control;
    assert_eq (naks ctl) [[receiver_range 0x7FFFFFFF 0]];;
    rstat_is rs_pkts_lost 2;;
    handle_data (t0 + ms 1) (rexmit 0x7FFFFFFF 1000);;
    handle_data (t0 + ms 1) (rexmit 0 2000);;
    receiver_on_timer (t0 + ms 10);;
    acked 2).

(** ** Scheduling *)

Definition receiver_next_deadline_is_min_of_ack_nak_and_tsbpd : panicking unit :=
  let t0 := 0 in
  let deadline_at now d := x ← gets (fun r => Receiver_next_deadline r now); assert_eq x (Some d) in
  run (rx t0) (
    deadline_at t0 (t0 + ms 10);;
    deadline_at (t0 + ms 50) (t0 + ms 50);;
    handle_data t0 (data RISN 0);;
    receiver_on_timer (t0 + ms 115);;
    deadline_at (t0 + ms 115) (t0 + LATENCY);;
    handle_data (t0 + ms 116) (data (RISN + 2) 2000);;
    drain_control;;
    poll_deliver (t0 + LATENCY);;
    deadline_at (t0 + ms 121) (t0 + ms 122);;
    poll_deliver (t0 + ms 122);;
    rstat_is rs_pkts_dropped 1;;
    deadline_at (t0 + ms 122) (t0 + ms 125)).

(** ** Undecryptable packets *)

Definition undec (seq ts_us : Z) : DataPacket := data seq ts_us <| dp_encryption := EncEven |>.

Definition receiver_undecryptable_is_acked_and_skipped_at_delivery : panicking unit :=
  let t0 := 0 in
  run (rx t0) (
    handle_data t0 (data RISN 0);;
    handle_undecryptable (t0 + ms 1) (undec (RISN + 1) 1000);;
    handle_data (t0 + ms 2) (data (RISN + 2) 2000);;
    no_naks;;
    rstat_is rs_pkts_lost 0;;
    receiver_on_timer (t0 + ms 10);;
    acked (RISN + 3);;
    delivers (t0 + LATENCY) RISN;;
    holds_back (t0 + LATENCY + ms 1);;
    delivers (t0 + LATENCY + ms 2) (RISN + 2);;
    undecrypted_is 1;;
    rstat_is rs_pkts_dropped 1;;
    rstat_is rs_pkts_recv 3).

Definition receiver_mixed_decryptable_undecryptable_interleave : panicking unit :=
  let t0 := 0 in
  run (rx t0) (
    for_each (range 0 6) (fun i =>
      if i mod 2 =? 0 then handle_data t0 (data (RISN + i) (i * 1000))
      else handle_undecryptable t0 (undec (RISN + i) (i * 1000)));;
    no_naks;;
    rstat_is rs_pkts_lost 0;;
    undecrypted_is 3;;
    receiver_on_timer (t0 + ms 10);;
    acked (RISN + 6);;
    out ← for_fold (range 0 6) [] (fun out i =>
      p ← poll_deliver (t0 + LATENCY + ms i);
      mret (match p with Some p => out ++ [p] | None => out end));
    assert_eq out [[as_u8 RISN]; [as_u8 (RISN + 2)]; [as_u8 (RISN + 4)]];;
    rstat_is rs_pkts_dropped 3).

Definition receiver_undecrypted_counter_is_monotonic : panicking unit :=
  let t0 := 0 in
  run (rx t0) (
    undecrypted_is 0;;
    handle_undecryptable t0 (undec RISN 0);;
    undecrypted_is 1;;
    handle_undecryptable (t0 + ms 1) (undec RISN 0);;
    undecrypted_is 1;;
    handle_undecryptable (t0 + ms 2) (undec (RISN + 1) 1000);;
    undecrypted_is 2;;
    handle_data (t0 + ms 3) (data (RISN + 2) 2000);;
    undecrypted_is 2).

Definition receiver_undecrypted_ignores_belated_duplicate_and_overflow : panicking unit :=
  let t0 := 0 in
  run (small_rx t0) (
    handle_undecryptable t0 (undec RISN 0);;
    undecrypted_is 1;;
    handle_undecryptable (t0 + ms 1) (undec RISN 0);;
    undecrypted_is 1;;
    handle_undecryptable (t0 + ms 2) (undec (RISN + 7) 7000);;
    undecrypted_is 1;;
    discrepancy_is false;;
    holds_back (t0 + LATENCY + ms 1);;
    rstat_is rs_pkts_dropped 1;;
    handle_undecryptable (t0 + LATENCY + ms 2) (undec RISN 0);;
    undecrypted_is 1;;
    rstat_is rs_pkts_belated 1;;
    rstat_is rs_pkts_recv 4).

Definition receiver_rexmit_arriving_undecryptable_fills_loss_list : panicking unit :=
  let t0 := 0 in
  run (rx t0) (
    handle_data t0 (data RISN 0);;
    handle_data t0 (data (RISN + 2) 2000);;
    ctl ← drain_control;
    assert_eq (naks ctl) [[receiver_range (RISN + 1) (RISN + 1)]];;
    handle_undecryptable (t0 + ms 5) (undec (RISN + 1) 1000 <| dp_retransmitted := true |>);;
    undecrypted_is 1;;
    all_acks ← quiet_ticks t0 60;
    a ← some (all_acks !! 0%nat);
    assert_eq (ack_last_ack_seq (snd a)) (SeqNumber_new (RISN + 3));;
    let t := t0 + ms 700 in
    delivers t RISN;;
    delivers t (RISN + 2);;
    holds_back t;;
    rstat_is rs_pkts_dropped 1).

Definition receiver_gap_revealed_by_undecryptable_is_never_naked : panicking unit :=
  let t0 := 0 in
  run (rx t0) (
    handle_data t0 (data RISN 0);;
    handle_undecryptable (t0 + ms 3) (undec (RISN + 3) 3000);;
    no_naks;;
    rstat_is rs_pkts_lost 0;;
    all_acks ← quiet_ticks t0 45;
    a ← some (all_acks !! 0%nat);
    assert_eq (ack_last_ack_seq (snd a)) (SeqNumber_new (RISN + 4));;
    delivers (t0 + LATENCY) RISN;;
    holds_back (t0 + LATENCY + ms 3);;
    rstat_is rs_pkts_dropped 3;;
    undecrypted_is 1).

Definition receiver_undecryptable_only_stream_drains_without_discrepancy : panicking unit :=
  let t0 := 0 in
  run (small_rx t0) (
    for_each (range 0 16) (fun i =>
      let t := t0 + ms (i * 40) in
      handle_undecryptable t (undec (RISN + i) (i * 40000));;
      holds_back t;;
      discrepancy_is false);;
    undecrypted_is 16;;
    rstat_is rs_pkts_dropped 13;;
    rstat_is rs_pkts_lost 0).

(** ** Oversized payloads *)

Definition receiver_oversized_payload_dropped_without_occupying_slot : panicking unit :=
  let t0 := 0 in
  run (Receiver_set_max_payload (rx t0) 100) (
    handle_data t0 (data RISN 0 <| dp_payload := replicate 101 0 |>);;
    rstat_is rs_pkts_oversized 1;;
    rstat_is rs_pkts_recv 0;;
    ctl ← drain_control;
    assert_eq ctl [];;
    handle_data t0 (data RISN 0);;
    rstat_is rs_pkts_recv 1;;
    p ← poll_deliver (t0 + LATENCY + from_millis 1);
    assert_some p).

Definition receiver_oversized_undecryptable_payload_also_dropped : panicking unit :=
  let t0 := 0 in
  run (Receiver_set_max_payload (rx t0) 100) (
    handle_undecryptable t0 (data RISN 0 <| dp_payload := replicate 200 0 |>);;
    rstat_is rs_pkts_oversized 1;;
    undecrypted_is 0).

(** ** All pass *)

(** ** A stalled source: [core/tsbpd_stall_tests.rs] *)

Definition STALL_US : Z := 45 * 60 * 1000000.

Definition stall_post_stall_packet_held_full_latency : panicking unit :=
  let t0 := 0 in
  let resume := t0 + us STALL_US in
  run (rx t0) (
    handle_data t0 (data RISN 0);;
    delivers (t0 + LATENCY) RISN;;
    handle_data resume (data (RISN + 1) STALL_US);;
    holds_back resume;;
    holds_back (resume + LATENCY - us 1);;
    delivers (resume + LATENCY) (RISN + 1);;
    rstat_is rs_pkts_dropped 0).

Definition stall_post_stall_hole_survives_until_real_deadline : panicking unit :=
  let t0 := 0 in
  let resume := t0 + us STALL_US in
  run (rx t0) (
    handle_data t0 (data RISN 0);;
    delivers (t0 + LATENCY) RISN;;
    handle_data resume (data (RISN + 2) (STALL_US + 1000));;
    ctl ← drain_control;
    nak ← some (head (naks ctl) ≫= head);
    assert_eq nak (receiver_range (RISN + 1) (RISN + 1));;
    holds_back resume;;
    rstat_is rs_pkts_dropped 0;;
    handle_data (resume + ms 20) (rexmit (RISN + 1) STALL_US);;
    holds_back (resume + LATENCY - us 1);;
    delivers (resume + LATENCY) (RISN + 1);;
    holds_back (resume + LATENCY + us 999);;
    delivers (resume + LATENCY + us 1000) (RISN + 2);;
    rstat_is rs_pkts_dropped 0).

Example receiver_tsbpd_tests : Forall passes
  [receiver_in_order_delivery_released_exactly_at_latency; receiver_late_fill_behind_cached_scan_position_still_delivers;
   receiver_hs_anchor_time_base_from_handshake_not_first_data; receiver_hs_anchor_is_set_exactly_once;
   receiver_hs_anchor_seeds_extender_across_timestamp_wrap; receiver_out_of_order_reassembly_before_deadline;
   receiver_deadline_passed_skips_hole_with_drop_count; receiver_belated_packet_discarded;
   receiver_duplicate_packet_discarded; receiver_buffer_overflow_drops_packet_without_loss_entry;
   receiver_overflow_with_empty_buffer_flags_discrepancy; receiver_overflow_with_only_hole_slots_flags_discrepancy].
Proof. run_tests. Qed.

Example receiver_loss_tests : Forall passes
  [receiver_gap_sends_immediate_nak_exactly_once_then_periodic; receiver_recovery_via_retransmission_fills_hole;
   receiver_partial_fill_splits_loss_range; receiver_periodic_nak_truncated_to_negotiated_max_payload;
   receiver_nak_word_budget_floored_so_one_range_always_fits; receiver_dropreq_purges_loss_list_and_stops_naks;
   receiver_dropreq_covering_next_expected_skips_ahead; receiver_dropreq_with_msg_number_clears_buffered_packet].
Proof. run_tests. Qed.

Example receiver_ack_tests : Forall passes
  [receiver_no_ack_before_any_data; receiver_ack_cadence_and_last_contiguous_plus_one_across_gap;
   receiver_light_ack_every_64_packets_between_full_acks; receiver_ackack_rtt_first_sample_then_smoothed;
   receiver_ackack_unknown_or_consumed_number_ignored].
Proof. run_tests. Qed.

Example receiver_drift_tests : Forall passes
  [receiver_drift_no_correction_before_batch_completes; receiver_drift_batch_restores_slow_peer_deadlines;
   receiver_drift_negative_correction_applies_to_buffered_packets; receiver_drift_rtt_change_is_not_drift;
   receiver_drift_sampling_across_timestamp_wrap; receiver_drift_ignores_unmatched_ackacks;
   receiver_drift_correction_reaches_next_deadline].
Proof. run_tests. Qed.

Example receiver_wrap_tests : Forall passes
  [receiver_timestamp_wrap_keeps_delivery_deadlines_correct; receiver_seq_wrap_crossing_max_delivers_in_order_and_acks;
   receiver_gap_across_seq_wrap_naks_wrapped_range; receiver_next_deadline_is_min_of_ack_nak_and_tsbpd].
Proof. run_tests. Qed.

Example receiver_undecryptable_tests : Forall passes
  [receiver_undecryptable_is_acked_and_skipped_at_delivery; receiver_mixed_decryptable_undecryptable_interleave;
   receiver_undecrypted_counter_is_monotonic; receiver_undecrypted_ignores_belated_duplicate_and_overflow;
   receiver_rexmit_arriving_undecryptable_fills_loss_list; receiver_gap_revealed_by_undecryptable_is_never_naked;
   receiver_undecryptable_only_stream_drains_without_discrepancy;
   receiver_oversized_payload_dropped_without_occupying_slot; receiver_oversized_undecryptable_payload_also_dropped].
Proof. run_tests. Qed.

Example receiver_stall_tests : Forall passes
  [stall_post_stall_packet_held_full_latency; stall_post_stall_hole_survives_until_real_deadline].
Proof. run_tests. Qed.
