(* ===== verification/TestHandshake.v ===== *)
(** * Unit tests of the handshake: [core/handshake.rs]

    [Instant::now()] is the instant 0; the ciphers and the cookie's hash are
    the toy ones. *)

From S2P Require Import Prelude Text PacketTypes PacketData PacketHandshake PacketControl Time CryptoKeys CryptoContext Options CoreHandshake Testing TestTime.

#[local] Existing Instance toy_primitives.
#[local] Existing Instance toy_cookie.

(** ** Helpers *)

Definition CALLER_ID : Z := 0x01020304.
Definition ACCEPT_ID : Z := 0x00A1B2C3.
Definition CALLER_ISN : Z := SeqNumber_new 0x12345678.
Definition SECRET : Z := 0xDEADBEEFF00D.

Definition caller_addr : SocketAddrV4 := mkSocketAddrV4 [10; 0; 0; 2] 50000.

Definition listener_addr : SocketAddrV4 := mkSocketAddrV4 [192; 168; 1; 10] 4200.

Definition hs_cif (pkt : Packet) : panicking HandshakeCif :=
  match pkt with
  | Control (mkControlPacket _ _ (Handshake cif)) => Ret cif
  | _ => Panic
  end.

Definition caller (now : Z) (opts : SrtOptions) : CallerHandshake :=
  CallerHandshake_new now listener_addr CALLER_ID CALLER_ISN (Timebase_new now) opts.

Definition listener (now : Z) (opts : SrtOptions) : Listener := Listener_new SECRET (Timebase_new now) opts.

Definition reply_of (action : ListenerAction) : panicking Packet :=
  match action with Reply p => Ret p | _ => Panic end.

Definition rejection_code (action : ListenerAction) : panicking Z :=
  pkt ← reply_of action;
  cif ← hs_cif pkt;
  match hs_handshake_type cif with Rejection code => Ret code | _ => Panic end.

Definition accept_of (action : ListenerAction) : panicking (Packet * Negotiated) :=
  match action with Accept reply negotiated => Ret (reply, negotiated) | _ => Panic end.

Definition km_req_of (cif : HandshakeCif) : panicking bytes :=
  expect (find_map (fun e => match e with ExtKmReq data => Some data | _ => None end) (hs_extensions cif)).

Definition km_rsp_of (cif : HandshakeCif) : panicking bytes :=
  expect (find_map (fun e => match e with ExtKmRsp data => Some data | _ => None end) (hs_extensions cif)).

Definition is_km_req (e : HsExtension) : bool := match e with ExtKmReq _ => true | _ => false end.

Definition is_km_rsp (e : HsExtension) : bool := match e with ExtKmRsp _ => true | _ => false end.

Definition PASSPHRASE : bytes := str "correct horse battery".

Definition WRONG_PASSPHRASE : bytes := str "wrong horse battery".

Definition opts0 : SrtOptions := SrtOptions_default.

Definition secure_opts : SrtOptions := SrtOptions_passphrase opts0 PASSPHRASE.

(** The calls of a caller, and what the tests assert of their results. *)
Definition handshake (now : Z) (cif : HandshakeCif) : test CallerHandshake (result SrtError (option Negotiated)) :=
  fun c => CallerHandshake_handle_handshake c now cif (random 1) (random 2).

(** [assert!(c.handle_handshake(now, cif).expect(..).is_none())] *)
Definition ignores (now : Z) (cif : HandshakeCif) : test CallerHandshake unit :=
  r ← handshake now cif;
  assert (match r with Ok None => true | _ => false end).

Definition establishes (now : Z) (cif : HandshakeCif) : test CallerHandshake Negotiated :=
  r ← handshake now cif;
  match r with Ok (Some neg) => mret neg | _ => mthrow tt end.

Definition rejected (now : Z) (cif : HandshakeCif) (expected : Z) : test CallerHandshake unit :=
  r ← handshake now cif;
  assert (match r with Err (Rejected code) => code =? expected | _ => false end).

Definition unsupported (now : Z) (cif : HandshakeCif) : test CallerHandshake unit :=
  r ← handshake now cif;
  assert (match r with Err EncryptionUnsupported => true | _ => false end).

Definition request (now : Z) : test CallerHandshake Packet :=
  p ← step (fun c => CallerHandshake_poll_transmit c now);
  some p.

Definition caller_silent (now : Z) : test CallerHandshake unit :=
  p ← step (fun c => CallerHandshake_poll_transmit c now);
  assert_none p.

Definition timed_out (now : Z) (b : bool) : test CallerHandshake unit :=
  t ← gets (fun c => CallerHandshake_is_timed_out c now);
  assert_eq t b.

Definition caller_deadline (d : option Z) : test CallerHandshake unit :=
  t ← gets CallerHandshake_next_deadline;
  assert_eq t d.

Definition handle (l : Listener) (now : Z) (cif : HandshakeCif) : panicking ListenerAction :=
  Listener_handle_handshake l now caller_addr cif ACCEPT_ID.

Definition exchange_to_conclusion (caller_opts listener_opts : SrtOptions)
    : panicking (CallerHandshake * Listener * HandshakeCif) :=
  let t0 := 0 in
  let l := listener t0 listener_opts in
  '(c, cif) ← (ind ← request t0;
               ind ← lift (hs_cif ind);
               rsp ← lift (action ← handle l t0 ind; rsp ← reply_of action; hs_cif rsp);
               ignores t0 rsp;;
               conc ← request t0;
               lift (hs_cif conc)) (caller t0 caller_opts);
  Ret (c, l, cif).

(** The four packets of [run_exchange], each with its assertions. *)
Definition run_induction_request (req : Packet) : panicking HandshakeCif :=
  assert_eq (Packet_dst_socket_id req) SocketId_HANDSHAKE;;
  req ← hs_cif req;
  assert_eq (hs_version req) 4;;
  assert_eq (hs_encryption req) 0;;
  assert_eq (hs_extension_field req) 2;;
  assert_eq (hs_handshake_type req) Induction;;
  assert_eq (hs_cookie req) 0;;
  assert_eq (hs_socket_id req) CALLER_ID;;
  assert_eq (hs_initial_seq req) CALLER_ISN;;
  assert_eq (hs_peer_ip req) (HandshakeCif_encode_peer_ip (sa_ip listener_addr));;
  assert_eq (hs_extensions req) [];;
  Ret req.

Definition pbkeylen_advert (len : option KeyLength) : Z :=
  match len with Some len => pbkeylen_bits len | None => 0 end.

Definition run_induction_response (caller_opts listener_opts : SrtOptions) (rsp : Packet) : panicking HandshakeCif :=
  assert_eq (Packet_dst_socket_id rsp) CALLER_ID;;
  rsp ← hs_cif rsp;
  assert_eq (hs_version rsp) 5;;
  assert_eq (hs_extension_field rsp) SRT_MAGIC;;
  assert_eq (hs_encryption rsp) (pbkeylen_advert (so_pbkeylen listener_opts));;
  assert_ne (hs_cookie rsp) 0;;
  assert_eq (hs_handshake_type rsp) Induction;;
  assert_eq (hs_socket_id rsp) CALLER_ID;;
  assert_eq (hs_initial_seq rsp) CALLER_ISN;;
  assert_eq (hs_mss rsp) (so_mss caller_opts);;
  Ret rsp.

Definition run_conclusion_request (caller_opts listener_opts : SrtOptions) (c_cfg : option CryptoConfig)
    (cookie : Z) (req : Packet) : panicking HandshakeCif :=
  let expect_klen : option KeyLength := (fun cfg => default (cc_key_len cfg) (so_pbkeylen listener_opts)) <$> c_cfg in
  assert_eq (Packet_dst_socket_id req) SocketId_HANDSHAKE;;
  req ← hs_cif req;
  assert_eq (hs_version req) 5;;
  let expect_advert := match so_pbkeylen listener_opts with Some len => Some len | None => so_pbkeylen caller_opts end in
  assert_eq (hs_encryption req) (pbkeylen_advert expect_advert);;
  assert_eq (hs_handshake_type req) Conclusion;;
  assert_eq (hs_cookie req) cookie;;
  assert_eq (hs_socket_id req) CALLER_ID;;
  assert_eq (hs_initial_seq req) CALLER_ISN;;
  let expect_ext := HS_EXT_HSREQ in
  let expect_ext := if so_streamid caller_opts then Z.lor expect_ext HS_EXT_CONFIG else expect_ext in
  let expect_ext := if expect_klen then Z.lor expect_ext HS_EXT_KMREQ else expect_ext in
  assert_eq (hs_extension_field req) expect_ext;;
  hsreq ← expect (HandshakeCif_hs_ext req);
  assert_eq (hx_srt_version hsreq) SRT_VERSION;;
  assert_eq (hx_flags hsreq) HsFlags_live_defaults;;
  assert_eq (hx_recv_latency_ms hsreq) (ms_u16 (so_latency caller_opts));;
  assert_eq (hx_send_latency_ms hsreq) (ms_u16 (so_peer_latency caller_opts));;
  assert_eq (HandshakeCif_stream_id req) (so_streamid caller_opts);;
  match expect_klen with
  | Some klen => km ← km_req_of req; assert_eq (length km) (16 + 16 + 8 + KeyLength_bytes klen)%nat
  | None => assert (negb (existsb is_km_req (hs_extensions req)))
  end;;
  Ret req.

Definition run_conclusion_response (listener_opts : SrtOptions) (c_cfg : option CryptoConfig) (rsp : Packet)
    : panicking HandshakeCif :=
  assert_eq (Packet_dst_socket_id rsp) CALLER_ID;;
  rsp ← hs_cif rsp;
  assert_eq (hs_version rsp) 5;;
  assert_eq (hs_handshake_type rsp) Conclusion;;
  assert_eq (hs_encryption rsp) (pbkeylen_advert (so_pbkeylen listener_opts));;
  assert_eq (hs_initial_seq rsp) CALLER_ISN;;
  assert_eq (hs_socket_id rsp) ACCEPT_ID;;
  l_cfg ← unwrap (A:=option CryptoConfig) (Ret (SrtOptions_crypto_config listener_opts));
  let expect_kmrsp := bool_decide (is_Some c_cfg) || bool_decide (is_Some l_cfg) in
  assert_eq (hs_extension_field rsp) (if expect_kmrsp then Z.lor HS_EXT_HSREQ HS_EXT_KMREQ else HS_EXT_HSREQ);;
  assert_eq (existsb is_km_rsp (hs_extensions rsp)) expect_kmrsp;;
  assert_eq (hs_peer_ip rsp) (HandshakeCif_encode_peer_ip (sa_ip caller_addr));;
  assert_none (HandshakeCif_stream_id rsp);;
  Ret rsp.

Definition run_cross_checks (c_neg l_neg : Negotiated) : panicking unit :=
  assert_eq (ng_local_socket_id c_neg) CALLER_ID;;
  assert_eq (ng_peer_socket_id c_neg) ACCEPT_ID;;
  assert_eq (ng_local_socket_id l_neg) ACCEPT_ID;;
  assert_eq (ng_peer_socket_id l_neg) CALLER_ID;;
  for_each [c_neg; l_neg] (fun neg =>
    assert_eq (ng_send_initial_seq neg) CALLER_ISN;;
    assert_eq (ng_recv_initial_seq neg) CALLER_ISN);;
  assert_eq (ng_snd_latency c_neg) (ng_rcv_latency l_neg);;
  assert_eq (ng_rcv_latency c_neg) (ng_snd_latency l_neg);;
  assert_eq (ng_mss c_neg) (ng_mss l_neg);;
  assert_eq (ng_remote c_neg) listener_addr;;
  assert_eq (ng_remote l_neg) caller_addr.

Definition run_exchange (caller_opts listener_opts : SrtOptions) : panicking (Negotiated * Negotiated) :=
  let t0 := 0 in
  let l := listener t0 listener_opts in
  c_cfg ← unwrap (Ret (SrtOptions_crypto_config caller_opts));
  '(_, negs) ← (
    ind_req ← request t0;
    req ← lift (run_induction_request ind_req);
    rsp ← lift (action ← handle l t0 req; reply_of action);
    rsp ← lift (run_induction_response caller_opts listener_opts rsp);
    ignores t0 rsp;;
    conc_req ← request t0;
    req ← lift (run_conclusion_request caller_opts listener_opts c_cfg (hs_cookie rsp) conc_req);
    '(conc_rsp, l_neg) ← lift (action ← handle l t0 req; accept_of action);
    rsp ← lift (run_conclusion_response listener_opts c_cfg conc_rsp);
    c_neg ← establishes t0 rsp;
    caller_silent (t0 + from_secs 1);;
    caller_deadline None;;
    timed_out (t0 + from_secs 60) false;;
    ignores t0 rsp;;
    lift (run_cross_checks c_neg l_neg);;
    mret (c_neg, l_neg)) (caller t0 caller_opts);
  Ret negs.

(** ** The full exchange *)

Definition latencies (neg : Negotiated) (rcv snd : Z) : panicking unit :=
  assert_eq (ng_rcv_latency neg) (ms rcv);;
  assert_eq (ng_snd_latency neg) (ms snd).

Definition hs_full_exchange_defaults : panicking unit :=
  '(c_neg, l_neg) ← run_exchange opts0 opts0;
  latencies c_neg 120 120;;
  latencies l_neg 120 120;;
  assert_eq (ng_mss c_neg) 1500;;
  assert_eq (ng_flow_window c_neg) 8192;;
  assert_eq (ng_flow_window l_neg) 8192;;
  assert_eq (ng_streamid c_neg) None;;
  assert_eq (ng_streamid l_neg) None;;
  assert_none (ng_crypto c_neg);;
  assert_none (ng_crypto l_neg).

Definition hs_latency_caller_higher : panicking unit :=
  '(c_neg, l_neg) ← run_exchange (SrtOptions_latency opts0 (ms 250)) opts0;
  latencies c_neg 250 120;;
  latencies l_neg 120 250.

Definition hs_latency_listener_higher : panicking unit :=
  '(c_neg, l_neg) ← run_exchange opts0 (SrtOptions_latency opts0 (ms 300));
  latencies l_neg 300 120;;
  latencies c_neg 120 300.

Definition hs_latency_peer_proposals_win_by_max : panicking unit :=
  '(c_neg, l_neg) ← run_exchange (SrtOptions_peer_latency opts0 (ms 500)) (SrtOptions_peer_latency opts0 (ms 400));
  latencies l_neg 500 400;;
  latencies c_neg 400 500.

Definition hs_mss_negotiated_to_min : panicking unit :=
  '(c_neg, l_neg) ← run_exchange (opts0 <| so_mss := 1400 |>) (opts0 <| so_mss := 1300 |>);
  assert_eq (ng_mss c_neg) 1300;;
  assert_eq (ng_mss l_neg) 1300;;
  '(c_neg, _) ← run_exchange (opts0 <| so_mss := 1200 |>) opts0;
  assert_eq (ng_mss c_neg) 1200.

Definition hs_streamid_propagates_to_both_sides : panicking unit :=
  '(c_neg, l_neg) ← run_exchange (SrtOptions_streamid opts0 (str "live/stream-01")) opts0;
  assert_eq (ng_streamid c_neg) (Some (str "live/stream-01"));;
  assert_eq (ng_streamid l_neg) (Some (str "live/stream-01")).

Definition valid_conclusion (l : Listener) (now : Z) : HandshakeCif :=
  mkHandshakeCif 5 0 HS_EXT_HSREQ CALLER_ISN 1500 8192 Conclusion CALLER_ID (Listener_cookie l now caller_addr)
    (HandshakeCif_encode_peer_ip (sa_ip listener_addr)) [HsReq (mkHsExtFields SRT_VERSION HsFlags_live_defaults 120 0)].

Definition hs_repeated_conclusion_is_reaccepted : panicking unit :=
  let t0 := 0 in
  let l := listener t0 opts0 in
  let cif := valid_conclusion l t0 in
  negs ← for_fold [tt; tt] [] (fun negs _ =>
    let l2 := listener t0 opts0 in
    action ← handle l2 t0 cif;
    '(reply, neg) ← accept_of action;
    rcif ← hs_cif reply;
    assert_eq (hs_initial_seq rcif) CALLER_ISN;;
    Ret (negs ++ [neg]));
  n0 ← index negs 0;
  n1 ← index negs 1;
  assert_eq (ng_peer_socket_id n0) (ng_peer_socket_id n1);;
  assert_eq (ng_send_initial_seq n0) (ng_send_initial_seq n1).

(** ** The caller's timers *)

Definition hs_induction_retransmits_every_250ms : panicking unit :=
  let t0 := 0 in
  run (caller t0 opts0) (
    first ← request t0;
    assert_eq (Packet_timestamp first) 0;;
    caller_silent t0;;
    caller_silent (t0 + ms 249);;
    caller_deadline (Some (t0 + HS_RETRY_INTERVAL));;
    second ← request (t0 + HS_RETRY_INTERVAL);
    cif1 ← lift (hs_cif first);
    cif2 ← lift (hs_cif second);
    assert_eq (hs_handshake_type cif2) Induction;;
    assert_eq cif2 cif1;;
    assert_eq (Packet_timestamp second) 250000).

Definition COOKIE : Z := 0x5EEDC00C.

Definition caller_in_conclusion_with (t0 : Z) (opts : SrtOptions) : panicking CallerHandshake :=
  let rsp := mkHandshakeCif 5 0 SRT_MAGIC CALLER_ISN 1500 8192 Induction CALLER_ID COOKIE
               (HandshakeCif_encode_peer_ip (sa_ip listener_addr)) [] in
  let t1 := t0 + ms 100 in
  '(c, _) ← (request t0;; ignores t1 rsp) (caller t0 opts);
  Ret c.

Definition caller_in_conclusion (t0 : Z) : panicking CallerHandshake := caller_in_conclusion_with t0 opts0.

Definition hs_conclusion_sent_immediately_then_retransmitted : panicking unit :=
  let t0 := 0 in
  c ← caller_in_conclusion t0;
  let t1 := t0 + ms 100 in
  run c (
    first ← request t1;
    cif1 ← lift (hs_cif first);
    assert_eq (hs_handshake_type cif1) Conclusion;;
    caller_silent (t1 + ms 200);;
    second ← request (t1 + HS_RETRY_INTERVAL);
    cif2 ← lift (hs_cif second);
    assert_eq cif2 cif1;;
    assert (Packet_timestamp first <? Packet_timestamp second)).

Definition hs_connect_timeout_expires : panicking unit :=
  let t0 := 0 in
  run (caller t0 opts0) (
    timed_out t0 false;;
    timed_out (t0 + ms 2999) false;;
    timed_out (t0 + from_secs 3) true;;
    caller_silent (t0 + from_secs 3)).

Definition hs_connect_timeout_is_configurable : panicking unit :=
  let t0 := 0 in
  run (caller t0 (SrtOptions_connect_timeout opts0 (ms 500))) (
    request t0;;
    timed_out (t0 + ms 499) false;;
    timed_out (t0 + ms 500) true).

Definition hs_next_deadline_caps_at_connect_deadline : panicking unit :=
  let t0 := 0 in
  run (caller t0 (SrtOptions_connect_timeout opts0 (ms 100))) (
    request t0;;
    caller_deadline (Some (t0 + ms 100))).

(** ** The caller's failures *)

Definition conclusion_response : HandshakeCif :=
  mkHandshakeCif 5 0 HS_EXT_HSREQ CALLER_ISN 1500 8192 Conclusion ACCEPT_ID COOKIE
    (HandshakeCif_encode_peer_ip (sa_ip caller_addr)) [HsRsp (mkHsExtFields SRT_VERSION HsFlags_live_defaults 120 120)].

(** A test of a caller that waits for the conclusion response. *)
Definition in_conclusion (opts : SrtOptions) (t : test CallerHandshake unit) : panicking unit :=
  c ← caller_in_conclusion_with 0 opts;
  run c t.

Definition hs_caller_maps_rejection_codes : panicking unit :=
  let t0 := 0 in
  in_conclusion opts0 (
    let rsp := conclusion_response <| hs_handshake_type := Rejection REJ_ROGUE |> <| hs_extensions := [] |> in
    rejected t0 rsp REJ_ROGUE;;
    caller_silent (t0 + from_secs 1);;
    caller_deadline None;;
    ignores t0 conclusion_response).

Definition hs_caller_maps_unsecure_to_encryption_unsupported : panicking unit :=
  in_conclusion opts0 (
    unsupported 0 (conclusion_response <| hs_handshake_type := Rejection REJ_UNSECURE |> <| hs_extensions := [] |>)).

Definition hs_caller_rejection_during_induction : panicking unit :=
  let t0 := 0 in
  run (caller t0 opts0) (
    request t0;;
    rejected t0 (conclusion_response <| hs_handshake_type := Rejection REJ_BACKLOG |>) REJ_BACKLOG).

Definition hs_caller_aborts_on_isn_echo_mismatch : panicking unit :=
  let t0 := 0 in
  in_conclusion opts0 (
    rejected t0 (conclusion_response <| hs_initial_seq := SeqNumber_add CALLER_ISN 1 |>) REJ_ROGUE;;
    caller_silent (t0 + from_secs 1)).

(** [conclusion_response] with a KMRSP block. *)
Definition with_km_rsp (data : bytes) : HandshakeCif :=
  conclusion_response <| hs_extensions := hs_extensions conclusion_response ++ [ExtKmRsp data] |>
    <| hs_extension_field := Z.lor HS_EXT_HSREQ HS_EXT_KMREQ |>.

Definition hs_caller_aborts_on_km_in_response : panicking unit :=
  let t0 := 0 in
  in_conclusion opts0 (
    unsupported t0 (with_km_rsp [0; 0; 0; 3]);;
    caller_silent (t0 + HS_RETRY_INTERVAL)).

Definition hs_caller_aborts_on_version_zero_conclusion : panicking unit :=
  in_conclusion opts0 (rejected 0 (conclusion_response <| hs_version := 0 |>) REJ_PEER).

Definition hs_caller_aborts_on_missing_hsrsp : panicking unit :=
  in_conclusion opts0 (
    rejected 0 (conclusion_response <| hs_extensions := [] |> <| hs_extension_field := 0 |>) REJ_ROGUE).

Definition hs_caller_rejects_hsreq_block_as_conclusion_response : panicking unit :=
  let t0 := 0 in
  in_conclusion opts0 (
    let rsp := conclusion_response
      <| hs_extensions := [HsReq (mkHsExtFields SRT_VERSION HsFlags_live_defaults 120 0)] |> in
    rejected t0 rsp REJ_ROGUE;;
    caller_silent (t0 + from_secs 1)).

Definition hs_caller_rejects_hsrsp_without_extension_bit : panicking unit :=
  in_conclusion opts0 (rejected 0 (conclusion_response <| hs_extension_field := 0 |>) REJ_ROGUE).

Definition hs_caller_rejects_hsv4_induction_response : panicking unit :=
  let t0 := 0 in
  run (caller t0 opts0) (
    request t0;;
    rejected t0 (conclusion_response <| hs_version := 4 |> <| hs_extension_field := 2 |>
                   <| hs_handshake_type := Induction |>) REJ_VERSION).

Definition hs_caller_tolerates_missing_magic : panicking unit :=
  let t0 := 0 in
  run (caller t0 opts0) (
    request t0;;
    ignores t0 (conclusion_response <| hs_version := 5 |> <| hs_extension_field := 2 |>
                  <| hs_handshake_type := Induction |> <| hs_cookie := 0x0C00C1E5 |>);;
    conc ← request t0;
    cif ← lift (hs_cif conc);
    assert_eq (hs_handshake_type cif) Conclusion;;
    assert_eq (hs_cookie cif) 0x0C00C1E5).

Definition hs_caller_ignores_stray_types : panicking unit :=
  let t0 := 0 in
  run (caller t0 opts0) (request t0;; ignores t0 conclusion_response);;
  in_conclusion opts0 (
    ignores t0 (conclusion_response <| hs_version := 5 |> <| hs_extension_field := SRT_MAGIC |>
                  <| hs_handshake_type := Induction |>);;
    ignores t0 (conclusion_response <| hs_handshake_type := Waveahand |>)).

(** ** The listener *)

(** The request of an INDUCTION, from a valid conclusion. *)
Definition induction_of (cif : HandshakeCif) : HandshakeCif :=
  cif <| hs_handshake_type := Induction |> <| hs_version := 4 |> <| hs_extension_field := 2 |>
    <| hs_cookie := 0 |> <| hs_extensions := [] |>.

Definition hs_listener_induction_reply_echoes_request : panicking unit :=
  let t0 := 0 in
  let l := listener t0 opts0 in
  let req := induction_of (valid_conclusion l t0) <| hs_mss := 1400 |> <| hs_flow_window := 4096 |> in
  action ← handle l t0 req;
  reply ← reply_of action;
  assert_eq (Packet_dst_socket_id reply) CALLER_ID;;
  cif ← hs_cif reply;
  assert_eq (hs_version cif) 5;;
  assert_eq (hs_extension_field cif) SRT_MAGIC;;
  assert_eq (hs_cookie cif) (Listener_cookie l t0 caller_addr);;
  assert_eq (hs_handshake_type cif) Induction;;
  assert_eq (hs_socket_id cif) CALLER_ID;;
  assert_eq (hs_initial_seq cif) CALLER_ISN;;
  assert_eq (hs_mss cif) 1400;;
  assert_eq (hs_flow_window cif) 4096;;
  assert_eq (hs_peer_ip cif) (hs_peer_ip req).

(** [cif.extensions.push(ext)], with the field's value. *)
Definition with_ext (cif : HandshakeCif) (ext : HsExtension) (field : Z) : HandshakeCif :=
  cif <| hs_extensions := hs_extensions cif ++ [ext] |> <| hs_extension_field := field |>.

(** [assert_eq!(rejection_code(handle(&mut l, now, &cif)), code)] *)
Definition rejects (l : Listener) (now : Z) (cif : HandshakeCif) (code : Z) : panicking unit :=
  action ← handle l now cif;
  c ← rejection_code action;
  assert_eq c code.

Definition accepts (l : Listener) (now : Z) (cif : HandshakeCif) : panicking unit :=
  action ← handle l now cif;
  assert (match action with Accept _ _ => true | _ => false end).

Definition drops (l : Listener) (now : Z) (cif : HandshakeCif) : panicking unit :=
  action ← handle l now cif;
  assert (match action with Drop => true | _ => false end).

(** A test of a listener with default options and a conclusion valid for it. *)
Definition with_listener (f : Listener -> HandshakeCif -> panicking unit) : panicking unit :=
  let l := listener 0 opts0 in
  f l (valid_conclusion l 0).

Definition KM_FIELD : Z := Z.lor HS_EXT_HSREQ HS_EXT_KMREQ.

Definition CONFIG_FIELD : Z := Z.lor HS_EXT_HSREQ HS_EXT_CONFIG.

Definition hs_listener_rejects_km_extension_as_unsecure : panicking unit :=
  with_listener (fun l cif => rejects l 0 (with_ext cif (ExtKmReq (replicate 16 0)) KM_FIELD) REJ_UNSECURE).

Definition hs_listener_ignores_advertised_pbkeylen : panicking unit :=
  with_listener (fun l cif =>
    action ← handle l 0 (cif <| hs_encryption := 2 |>);
    '(reply, _) ← accept_of action;
    rcif ← hs_cif reply;
    assert_eq (hs_handshake_type rcif) Conclusion;;
    assert_eq (hs_encryption rcif) 0).

Definition hs_listener_rejects_hsv4_conclusion : panicking unit :=
  with_listener (fun l cif =>
    rejects l 0 (cif <| hs_version := 4 |> <| hs_extension_field := 2 |> <| hs_extensions := [] |>) REJ_VERSION).

Definition hs_listener_rejection_reply_shape : panicking unit :=
  with_listener (fun l cif =>
    let cif := with_ext cif (ExtKmReq (replicate 16 0)) KM_FIELD in
    action ← handle l 0 cif;
    reply ← reply_of action;
    assert_eq (Packet_dst_socket_id reply) CALLER_ID;;
    rcif ← hs_cif reply;
    assert_eq (hs_handshake_type rcif) (Rejection REJ_UNSECURE);;
    assert_eq (hs_extensions rcif) [];;
    assert_eq (hs_initial_seq rcif) (hs_initial_seq cif);;
    assert_eq (hs_socket_id rcif) (hs_socket_id cif);;
    assert_eq (hs_cookie rcif) (hs_cookie cif)).

Definition hs_listener_drops_waveahand : panicking unit :=
  with_listener (fun l cif =>
    drops l 0 (cif <| hs_handshake_type := Waveahand |>);;
    drops l 0 (cif <| hs_handshake_type := Agreement |>)).

Definition hs_listener_drops_bad_cookie_silently : panicking unit :=
  with_listener (fun l cif => drops l 0 (cif <| hs_cookie := as_u32 (hs_cookie cif + 1) |>)).

Definition hs_listener_drops_invalid_cif_before_cookie_check : panicking unit :=
  with_listener (fun l cif =>
    drops l 0 (cif <| hs_mss := 31 |>);;
    drops l 0 (cif <| hs_flow_window := 1 |>);;
    drops l 0 (cif <| hs_version := 0 |>)).

Definition hs_listener_rejects_ext_field_block_mismatch : panicking unit :=
  with_listener (fun l cif =>
    rejects l 0 (cif <| hs_extensions := [] |>) REJ_ROGUE;;
    rejects l 0 (cif <| hs_extension_field := 0 |>) REJ_ROGUE;;
    rejects l 0 (cif <| hs_extension_field := KM_FIELD |>) REJ_ROGUE;;
    rejects l 0 (with_ext cif (ExtKmReq (replicate 16 0)) (hs_extension_field cif)) REJ_ROGUE).

Definition hs_listener_rejects_stream_mode : panicking unit :=
  with_listener (fun l cif =>
    let flags := Z.lor HsFlags_live_defaults HsFlags_STREAM in
    rejects l 0 (cif <| hs_extensions := [HsReq (mkHsExtFields SRT_VERSION flags 120 0)] |>) REJ_MESSAGEAPI).

Definition hs_listener_rejects_malformed_extension_block : panicking unit :=
  with_listener (fun l cif =>
    rejects l 0 (with_ext cif (Invalid SRT_CMD_SID (replicate 4 0)) (hs_extension_field cif)) REJ_ROGUE).

Definition hs_listener_rejects_old_srt_version : panicking unit :=
  with_listener (fun l cif =>
    rejects l 0 (cif <| hs_extensions := [HsReq (mkHsExtFields 0x00010200 HsFlags_live_defaults 120 0)] |>) REJ_ROGUE).

Definition hs_listener_congestion_live_ok_file_rejected : panicking unit :=
  with_listener (fun l cif =>
    accepts l 0 (with_ext cif (Congestion (str "live")) CONFIG_FIELD);;
    rejects l 0 (with_ext cif (Congestion (str "file")) CONFIG_FIELD) REJ_CONGESTION).

Definition hs_listener_rejects_filter_skips_group : panicking unit :=
  with_listener (fun l cif =>
    rejects l 0 (with_ext cif (Unknown SRT_CMD_FILTER (replicate 8 0)) CONFIG_FIELD) REJ_FILTER;;
    accepts l 0 (with_ext cif (Unknown SRT_CMD_GROUP (replicate 8 0)) CONFIG_FIELD)).

(** ** The cookie *)

Definition hs_cookie_is_deterministic_and_input_sensitive : panicking unit :=
  let t0 := 0 in
  let l := listener t0 opts0 in
  let c1 := Listener_cookie l t0 caller_addr in
  assert_eq c1 (Listener_cookie l t0 caller_addr);;
  let l2 := Listener_new SECRET (Timebase_new t0) opts0 in
  assert_eq c1 (Listener_cookie l2 t0 caller_addr);;
  assert_ne c1 (Listener_cookie l t0 (mkSocketAddrV4 (sa_ip caller_addr) 50001));;
  assert_ne c1 (Listener_cookie l t0 (mkSocketAddrV4 [10; 0; 0; 3] 50000));;
  assert_ne c1 (Listener_cookie l (t0 + from_secs 60) caller_addr);;
  let l3 := Listener_new (SECRET + 1) (Timebase_new t0) opts0 in
  assert_ne c1 (Listener_cookie l3 t0 caller_addr);;
  assert_eq c1 (Listener_cookie l (t0 + from_secs 59) caller_addr).

Definition hs_cookie_accepted_across_minute_boundary : panicking unit :=
  let t0 := 0 in
  with_listener (fun l cif =>
    let cookie := Listener_cookie l (t0 + from_secs 59) caller_addr in
    let cif := cif <| hs_cookie := cookie |> in
    accepts l (t0 + from_secs 61) cif;;
    drops l (t0 + from_secs 121) cif).

Definition hs_cookie_check_direct : panicking unit :=
  let t0 := 0 in
  let l := listener t0 opts0 in
  let cookie := Listener_cookie l t0 caller_addr in
  assert (Listener_cookie_ok l t0 caller_addr cookie);;
  assert (Listener_cookie_ok l (t0 + from_secs 59) caller_addr cookie);;
  assert (Listener_cookie_ok l (t0 + from_secs 61) caller_addr cookie);;
  assert (negb (Listener_cookie_ok l (t0 + from_secs 121) caller_addr cookie));;
  assert (negb (Listener_cookie_ok l t0 caller_addr (as_u32 (cookie + 1))));;
  assert (negb (Listener_cookie_ok l t0 (mkSocketAddrV4 [10; 0; 0; 3] 50000) cookie)).

Definition hs_listener_accept_reply_and_negotiated_consistent : panicking unit :=
  let t0 := 0 in
  let l := listener t0 (SrtOptions_latency opts0 (ms 200) <| so_mss := 1400 |>) in
  let cif := valid_conclusion l t0 in
  action ← handle l t0 cif;
  '(reply, neg) ← accept_of action;
  rcif ← hs_cif reply;
  hsrsp ← expect (HandshakeCif_hs_ext rcif);
  assert_eq (hx_recv_latency_ms hsrsp) 200;;
  assert_eq (hx_send_latency_ms hsrsp) 120;;
  latencies neg 200 120;;
  assert_eq (hs_mss rcif) 1400;;
  assert_eq (ng_mss neg) 1400;;
  assert_eq (ng_local_socket_id neg) ACCEPT_ID;;
  assert_eq (ng_peer_socket_id neg) CALLER_ID;;
  assert_eq (ng_send_initial_seq neg) CALLER_ISN;;
  assert_eq (ng_recv_initial_seq neg) CALLER_ISN;;
  assert_eq (ng_flow_window neg) 8192.

(** ** The key exchange: the enforcement matrix *)

(** The two engines afterwards. *)
Definition crypto_roundtrip (tx rx : Crypto) (n : Z) : panicking (Crypto * Crypto) :=
  let clear := (fun i => Z.lxor i (as_u8 n)) <$> range 0 64 in
  '(tx, buf, flags) ← Crypto_encrypt tx (SeqNumber_new n) clear;
  assert_ne buf clear;;
  let '(rx, r, buf) := Crypto_decrypt rx (SeqNumber_new n) flags buf in
  unwrap (Ret r);;
  assert_eq buf clear;;
  Ret (tx, rx).

Definition hs_matrix_row8_kmx_secures_both_directions : panicking unit :=
  '(c_neg, l_neg) ← run_exchange secure_opts secure_opts;
  c ← expect (ng_crypto c_neg);
  l ← expect (ng_crypto l_neg);
  for_each [c; l] (fun crypto =>
    assert_eq (cr_snd_state crypto) Secured;;
    assert_eq (cr_rcv_state crypto) Secured);;
  '(c, l) ← crypto_roundtrip c l 42;
  '(l, c) ← crypto_roundtrip l c 43;
  assert_none (Crypto_kmreq c).

Definition hs_matrix_row8_kmrsp_echoes_kmreq_bytes : panicking unit :=
  '(c, l, req) ← exchange_to_conclusion secure_opts secure_opts;
  kmreq ← km_req_of req;
  action ← handle l 0 req;
  '(reply, l_neg) ← accept_of action;
  rcif ← hs_cif reply;
  km ← km_rsp_of rcif;
  assert_eq km kmreq;;
  assert_eq (hs_extension_field rcif) KM_FIELD;;
  assert_eq (hs_encryption rcif) 0;;
  assert_some (ng_crypto l_neg);;
  run c (
    c_neg ← establishes 0 rcif;
    assert_some (ng_crypto c_neg)).

(** The listener rejects the request with a code the caller then sees. *)
Definition rejection_reaches (copts lopts : SrtOptions) (code : Z) (t : HandshakeCif -> test CallerHandshake unit)
    : panicking unit :=
  '(c, l, req) ← exchange_to_conclusion copts lopts;
  action ← handle l 0 req;
  reply ← reply_of action;
  rcif ← hs_cif reply;
  assert_eq (hs_handshake_type rcif) (Rejection code);;
  run c (t rcif).

Definition hs_matrix_row2_enforced_listener_without_passphrase_rejects : panicking unit :=
  rejection_reaches secure_opts opts0 REJ_UNSECURE (fun rcif => rejected 0 rcif REJ_UNSECURE).

Definition hs_matrix_rows3_4_nosecret_kmrsp : panicking unit :=
  let t0 := 0 in
  in_conclusion secure_opts (
    rejected t0 (with_km_rsp [3; 0; 0; 0]) REJ_UNSECURE;;
    caller_silent (t0 + HS_RETRY_INTERVAL)).

Definition hs_matrix_row5_enforced_listener_with_passphrase : panicking unit :=
  let l := listener 0 secure_opts in
  rejects l 0 (valid_conclusion l 0) REJ_UNSECURE.

Definition hs_matrix_rows6_7_plain_caller_secured_listener : panicking unit :=
  '(_, _, req) ← exchange_to_conclusion opts0 secure_opts;
  assert (negb (existsb is_km_req (hs_extensions req)));;
  rejection_reaches opts0 secure_opts REJ_UNSECURE (unsupported 0).

Definition hs_matrix_row9_wrong_passphrase_rejected_badsecret : panicking unit :=
  rejection_reaches secure_opts (SrtOptions_passphrase opts0 WRONG_PASSPHRASE) REJ_BADSECRET
    (fun rcif => rejected 0 rcif REJ_BADSECRET).

Definition hs_matrix_rows10_11_badsecret_kmrsp : panicking unit :=
  let t0 := 0 in
  in_conclusion secure_opts (
    rejected t0 (with_km_rsp [4; 0; 0; 0]) REJ_UNSECURE;;
    caller_silent (t0 + HS_RETRY_INTERVAL)).

(** ** The key exchange: details *)

Definition hs_conclusion_kmreq_shape_and_retransmission : panicking unit :=
  '(c, _, req) ← exchange_to_conclusion secure_opts opts0;
  assert_eq (hs_extension_field req) KM_FIELD;;
  assert_eq (hs_encryption req) 0;;
  km ← km_req_of req;
  assert_eq (length km) 56%nat;;
  assert_eq (km !! 0%nat) (Some 0x12);;
  assert_eq (slice km 1 3) (Ret [0x20; 0x29]);;
  assert_eq (km !! 3%nat) (Some 0x01);;
  run c (
    retry ← request (0 + HS_RETRY_INTERVAL);
    km' ← lift (cif ← hs_cif retry; km_req_of cif);
    assert_eq km' km).

Definition hs_caller_with_passphrase_requires_kmrsp : panicking unit :=
  in_conclusion secure_opts (rejected 0 conclusion_response REJ_UNSECURE).

(** [data[at] ^= with] *)
Definition xor_at (at_ : nat) (with_ : Z) (data : bytes) : bytes := alter (fun b => Z.lxor b with_) at_ data.

Definition hs_caller_kmrsp_echo_mismatch_aborts : panicking unit :=
  '(c, l, req) ← exchange_to_conclusion secure_opts secure_opts;
  action ← handle l 0 req;
  '(reply, _) ← accept_of action;
  rcif ← hs_cif reply;
  let corrupt e := match e with ExtKmRsp data => ExtKmRsp (xor_at 20 0x01 data) | e => e end in
  run c (rejected 0 (rcif <| hs_extensions := corrupt <$> hs_extensions rcif |>) REJ_UNSECURE).

Definition hs_listener_kmreq_failure_reject_codes : panicking unit :=
  let l := listener 0 secure_opts in
  rejects l 0 (with_ext (valid_conclusion l 0) (ExtKmReq (replicate 16 0x12)) KM_FIELD) REJ_BADSECRET;;
  '(_, l, req) ← exchange_to_conclusion secure_opts secure_opts;
  let corrupt e := match e with ExtKmReq data => ExtKmReq (xor_at 1 0xFF data) | e => e end in
  rejects l 0 (req <| hs_extensions := corrupt <$> hs_extensions req |>) REJ_UNSECURE.

Definition hs_repeated_conclusion_kmx_is_reanswered_identically : panicking unit :=
  '(_, l, req) ← exchange_to_conclusion secure_opts secure_opts;
  action1 ← handle l 0 req;
  '(r1, n1) ← accept_of action1;
  action2 ← handle l 0 req;
  '(r2, n2) ← accept_of action2;
  km1 ← (cif ← hs_cif r1; km_rsp_of cif);
  km2 ← (cif ← hs_cif r2; km_rsp_of cif);
  assert_eq km1 km2;;
  a ← expect (ng_crypto n1);
  b ← expect (ng_crypto n2);
  crypto_roundtrip a b 7;;
  Ret tt.

(** ** The key length *)

Definition hs_listener_advertises_configured_pbkeylen_in_induction : panicking unit :=
  let l := listener 0 (SrtOptions_pbkeylen secure_opts Aes192) in
  action ← handle l 0 (induction_of (valid_conclusion l 0));
  reply ← reply_of action;
  cif ← hs_cif reply;
  assert_eq (hs_encryption cif) 3.

(** The advert and the key length byte of the caller's conclusion. *)
Definition concludes_with (req : HandshakeCif) (advert klen : Z) : panicking unit :=
  assert_eq (hs_encryption req) advert;;
  km ← km_req_of req;
  assert_eq (km !! 15%nat) (Some klen).

Definition hs_caller_adopts_advertised_pbkeylen : panicking unit :=
  '(_, _, req) ← exchange_to_conclusion secure_opts (SrtOptions_pbkeylen secure_opts Aes256);
  concludes_with req 4 8.

Definition hs_caller_pbkeylen_peer_wins_on_conflict : panicking unit :=
  '(_, _, req) ← exchange_to_conclusion (SrtOptions_pbkeylen secure_opts Aes256) (SrtOptions_pbkeylen secure_opts Aes128);
  concludes_with req 2 4.

Definition hs_caller_keeps_own_pbkeylen_on_zero_advert : panicking unit :=
  '(_, _, req) ← exchange_to_conclusion (SrtOptions_pbkeylen secure_opts Aes192) secure_opts;
  concludes_with req 3 6.

(** An induction response with an advert. *)
Definition induction_response (advert : Z) : HandshakeCif :=
  conclusion_response <| hs_version := 5 |> <| hs_encryption := advert |> <| hs_extension_field := SRT_MAGIC |>
    <| hs_handshake_type := Induction |> <| hs_cookie := 0x0C00C1E5 |> <| hs_extensions := [] |>.

Definition hs_caller_ignores_junk_pbkeylen_advert : panicking unit :=
  let t0 := 0 in
  run (caller t0 secure_opts) (
    request t0;;
    ignores t0 (induction_response 5);;
    conc ← request t0;
    lift (cif ← hs_cif conc; concludes_with cif 0 4)).

Definition hs_conclusion_advert_is_raw_pbkeylen_not_resolved : panicking unit :=
  '(_, l, req) ← exchange_to_conclusion secure_opts secure_opts;
  concludes_with req 0 4;;
  action ← handle l 0 req;
  '(reply, l_neg) ← accept_of action;
  cif ← hs_cif reply;
  assert_eq (hs_encryption cif) 0;;
  assert_some (ng_crypto l_neg).

Definition hs_plain_caller_echoes_adopted_pbkeylen_advert : panicking unit :=
  let t0 := 0 in
  run (caller t0 opts0) (
    request t0;;
    ignores t0 (induction_response 3);;
    conc ← request t0;
    cif ← lift (hs_cif conc);
    assert_eq (hs_encryption cif) 3;;
    assert (negb (existsb is_km_req (hs_extensions cif)))).

Definition hs_listener_conclusion_advert_is_raw_option_when_set : panicking unit :=
  let l := listener 0 (SrtOptions_pbkeylen secure_opts Aes192) in
  cfg ← unwrap (Ret (SrtOptions_crypto_config secure_opts));
  cfg ← expect cfg;
  initiator ← Crypto_new_initiator cfg (random 1) (random 2);
  km ← expect (Crypto_kmreq initiator);
  action ← handle l 0 (with_ext (valid_conclusion l 0) (ExtKmReq km) KM_FIELD);
  '(reply, l_neg) ← accept_of action;
  cif ← hs_cif reply;
  assert_eq (hs_encryption cif) 3;;
  assert_some (ng_crypto l_neg).

Definition hs_listener_adopts_kmreq_key_length : panicking unit :=
  '(c, l, req) ← exchange_to_conclusion (SrtOptions_pbkeylen secure_opts Aes256) secure_opts;
  km ← km_req_of req;
  assert_eq (km !! 15%nat) (Some 8);;
  action ← handle l 0 req;
  '(reply, l_neg) ← accept_of action;
  rcif ← hs_cif reply;
  assert_eq (hs_encryption rcif) 0;;
  l_crypto ← expect (ng_crypto l_neg);
  '(_, c_neg) ← establishes 0 rcif c;
  c_crypto ← expect (ng_crypto c_neg);
  '(c_crypto, l_crypto) ← crypto_roundtrip c_crypto l_crypto 11;
  crypto_roundtrip l_crypto c_crypto 12;;
  Ret tt.

Definition hs_invalid_crypto_options_fail_closed : panicking unit :=
  let t0 := 0 in
  let bad := SrtOptions_passphrase opts0 (str "short") in
  run (caller t0 bad) (caller_silent t0;; caller_deadline None);;
  let l := listener t0 bad in
  rejects l t0 (valid_conclusion l t0) REJ_UNSECURE.

(** All the tests of [core/handshake.rs] pass. *)
Example handshake_core_tests : Forall passes
  [hs_full_exchange_defaults; hs_latency_caller_higher;
   hs_latency_listener_higher; hs_latency_peer_proposals_win_by_max;
   hs_mss_negotiated_to_min; hs_streamid_propagates_to_both_sides;
   hs_repeated_conclusion_is_reaccepted; hs_induction_retransmits_every_250ms;
   hs_conclusion_sent_immediately_then_retransmitted; hs_connect_timeout_expires;
   hs_connect_timeout_is_configurable; hs_next_deadline_caps_at_connect_deadline;
   hs_caller_maps_rejection_codes; hs_caller_maps_unsecure_to_encryption_unsupported;
   hs_caller_rejection_during_induction; hs_caller_aborts_on_isn_echo_mismatch;
   hs_caller_aborts_on_km_in_response; hs_caller_aborts_on_version_zero_conclusion;
   hs_caller_aborts_on_missing_hsrsp; hs_caller_rejects_hsreq_block_as_conclusion_response;
   hs_caller_rejects_hsrsp_without_extension_bit; hs_caller_rejects_hsv4_induction_response;
   hs_caller_tolerates_missing_magic; hs_caller_ignores_stray_types;
   hs_listener_induction_reply_echoes_request; hs_listener_rejects_km_extension_as_unsecure;
   hs_listener_ignores_advertised_pbkeylen; hs_listener_rejects_hsv4_conclusion;
   hs_listener_rejection_reply_shape; hs_listener_drops_waveahand;
   hs_listener_drops_bad_cookie_silently; hs_listener_drops_invalid_cif_before_cookie_check;
   hs_listener_rejects_ext_field_block_mismatch; hs_listener_rejects_stream_mode;
   hs_listener_rejects_malformed_extension_block; hs_listener_rejects_old_srt_version;
   hs_listener_congestion_live_ok_file_rejected; hs_listener_rejects_filter_skips_group;
   hs_cookie_is_deterministic_and_input_sensitive; hs_cookie_accepted_across_minute_boundary;
   hs_cookie_check_direct; hs_listener_accept_reply_and_negotiated_consistent;
   hs_matrix_row8_kmx_secures_both_directions; hs_matrix_row8_kmrsp_echoes_kmreq_bytes;
   hs_matrix_row2_enforced_listener_without_passphrase_rejects; hs_matrix_rows3_4_nosecret_kmrsp;
   hs_matrix_row5_enforced_listener_with_passphrase; hs_matrix_rows6_7_plain_caller_secured_listener;
   hs_matrix_row9_wrong_passphrase_rejected_badsecret; hs_matrix_rows10_11_badsecret_kmrsp;
   hs_conclusion_kmreq_shape_and_retransmission; hs_caller_with_passphrase_requires_kmrsp;
   hs_caller_kmrsp_echo_mismatch_aborts; hs_listener_kmreq_failure_reject_codes;
   hs_repeated_conclusion_kmx_is_reanswered_identically; hs_listener_advertises_configured_pbkeylen_in_induction;
   hs_caller_adopts_advertised_pbkeylen; hs_caller_pbkeylen_peer_wins_on_conflict;
   hs_caller_keeps_own_pbkeylen_on_zero_advert; hs_caller_ignores_junk_pbkeylen_advert;
   hs_conclusion_advert_is_raw_pbkeylen_not_resolved; hs_plain_caller_echoes_adopted_pbkeylen_advert;
   hs_listener_conclusion_advert_is_raw_option_when_set; hs_listener_adopts_kmreq_key_length;
   hs_invalid_crypto_options_fail_closed].
Proof. run_tests. Qed.
