(* ===== verification/TestConnection.v ===== *)
(** * Unit tests of the connection: [core/mod.rs]

    [Instant::now()] is the instant 0; the ciphers and the cookie's hash are
    the toy ones.  The loops of the tests that follow the advertised deadlines
    carry fuel and panic without it. *)

From S2P Require Import Prelude Text PacketTypes PacketData PacketHandshake PacketControl Time CryptoKeys CryptoContext Options CoreHandshake Sender Receiver Connection Testing TestTime TestHandshake.

#[local] Existing Instance toy_primitives.
#[local] Existing Instance toy_cookie.

#[export] Instance ConnState_eq_dec : EqDecision ConnState.
Proof. solve_decision. Defined.

(** ** Helpers *)

Definition conn_ISN : Z := SeqNumber_new 1000.

Definition conn_caller (now : Z) (opts : SrtOptions) : Connection :=
  Connection_connect now listener_addr CALLER_ID conn_ISN opts.

Definition control_to (peer : Z) (control_type : ControlType) : Packet := Control (mkControlPacket 0 peer control_type).

Definition data_packet (seq dst : Z) (payload : bytes) : DataPacket :=
  mkDataPacket (SeqNumber_new seq) Only false EncNone false (MsgNumber_new 1) 0 dst payload.

Definition test_rng : Rng := mkRng (random 1) (random 2) (random 3).

(** The calls of one connection. *)
Definition conn_handle_packet (now : Z) (p : Packet) : test Connection unit :=
  act (fun c => Connection_handle_packet c now p test_rng).

Definition conn_handle_timer (now : Z) : test Connection unit := act (fun c => Connection_handle_timer c now).

Definition conn_poll_transmit (now : Z) : test Connection (option Packet) := fun c => Connection_poll_transmit c now.

Definition conn_poll_deliver (now : Z) : test Connection (option bytes) := fun c => Connection_poll_deliver c now.

(** [c.send(now, payload).unwrap()] *)
Definition conn_send (now : Z) (payload : bytes) : test Connection unit :=
  r ← call (fun c => Connection_send c now payload);
  lift (unwrap (Ret r)).

Definition conn_close (now : Z) : test Connection unit := modify (fun c => Connection_close c now).

Definition state_is (st : ConnState) : test Connection unit :=
  s ← gets Connection_get_state;
  assert_eq s st.

Definition closed_by (reason : CloseReason) : test Connection unit := state_is (ConnClosed reason).

Definition conn_stat_is (f : Stats -> Z) (n : Z) : test Connection unit :=
  st ← gets Connection_stats;
  assert_eq (f st) n.

Definition conn_delivers (now : Z) (payload : option bytes) : test Connection unit :=
  p ← conn_poll_deliver now;
  assert_eq p payload.

Definition conn_drain (now : Z) : test Connection (list Packet) := drain 512 (conn_poll_transmit now).

(** [c.poll_transmit(now).unwrap()] *)
Definition conn_transmit (now : Z) : test Connection Packet :=
  p ← conn_poll_transmit now;
  some p.

Definition control_of (p : Packet) : option ControlType :=
  match p with Control ctrl => Some (cp_control_type ctrl) | Data _ => None end.

Definition sends (ct : ControlType) (pkts : list Packet) : bool :=
  existsb (fun p => bool_decide (control_of p = Some ct)) pkts.

Definition is_km_rsp_packet (p : Packet) : bool :=
  match control_of p with Some (KmRsp _) => true | _ => false end.

Definition data_of (p : Packet) : option DataPacket := match p with Data d => Some d | Control _ => None end.

(** A caller and the listener's answers up to the conclusion response: what
    the tests write out. *)
Definition conn_conclusion (l : Listener) (t0 : Z) : test Connection (Packet * Negotiated) :=
  ind ← conn_transmit t0;
  rsp ← lift (cif ← hs_cif ind; action ← handle l t0 cif; reply_of action);
  conn_handle_packet t0 rsp;;
  conc ← conn_transmit t0;
  lift (cif ← hs_cif conc; action ← handle l t0 cif; accept_of action).

Definition conn_listener (t0 : Z) (lopts : SrtOptions) : Listener := Listener_new 7 (Timebase_new t0) lopts.

(** The caller and the accepted connection, the state of the tests of a pair. *)
Abbreviation conn_pair := (Connection * Connection)%type.

Definition establish_pair (t0 : Z) (copts lopts : SrtOptions) : panicking conn_pair :=
  let l := conn_listener t0 lopts in
  '(c, (reply, negotiated)) ← (
    ind_req ← conn_transmit t0;
    assert_eq (Packet_dst_socket_id ind_req) SocketId_HANDSHAKE;;
    ind_rsp ← lift (cif ← hs_cif ind_req; action ← handle l t0 cif; reply_of action);
    conn_handle_packet t0 ind_rsp;;
    state_is ConnConnecting;;
    conc_req ← conn_transmit t0;
    lift (cif ← hs_cif conc_req; action ← handle l t0 cif; accept_of action)) (conn_caller t0 copts);
  let accepted := Connection_accepted t0 negotiated reply lopts in
  '(c, _) ← (conn_handle_packet t0 reply;; state_is ConnEstablished) c;
  assert_eq (Connection_get_state accepted) ConnEstablished;;
  Ret (c, accepted).

Definition on_c {A} (t : test Connection A) : test conn_pair A := on_fst t.

Definition on_a {A} (t : test Connection A) : test conn_pair A := on_snd t.

(** A test of an established pair, with or without what is queued first. *)
Definition with_fresh_pair (copts lopts : SrtOptions) (t : test conn_pair unit) : panicking unit :=
  p ← establish_pair 0 copts lopts;
  run p t.

Definition with_pair (copts lopts : SrtOptions) (t : test conn_pair unit) : panicking unit :=
  with_fresh_pair copts lopts (on_c (conn_drain 0);; on_a (conn_drain 0);; t).

(** A test of the caller of a pair, drained. *)
Definition with_caller (copts : SrtOptions) (t : test Connection unit) : panicking unit :=
  with_pair copts opts0 (on_c t).

(** [for p in drain(c, at) { a.handle_packet(arrival, p) }] *)
Definition relay (at_ arrival : Z) : test conn_pair unit :=
  pkts ← on_c (conn_drain at_);
  on_a (for_each pkts (conn_handle_packet arrival)).

Definition KEEPALIVE_EVERY : Z := ms 500.

(** The instant of the last event, and everything transmitted. *)
Fixpoint pump_loop (fuel : nat) (dst now next_ka until_ : Z) (sent : list Packet) : test Connection (Z * list Packet) :=
  match fuel with
  | O => mthrow tt
  | S fuel =>
      st ← gets Connection_get_state;
      if negb (bool_decide (st = ConnEstablished)) then mret (now, sent) else
      deadline ← gets (fun c => Connection_next_deadline c now);
      deadline ← some deadline;
      let next := Z.max (Z.min deadline next_ka) (now + ms 1) in
      if until_ <? next then mret (now, sent) else
      next_ka ← (if next_ka <=? next
                 then conn_handle_packet next (control_to dst KeepAlive);; mret (next_ka + KEEPALIVE_EVERY)
                 else mret next_ka);
      (if deadline <=? next then conn_handle_timer next else mret tt);;
      more ← conn_drain next;
      drain 64 (conn_poll_deliver next);;
      pump_loop fuel dst next next_ka until_ (sent ++ more)
  end.

Definition pump_with_keepalives (dst from until_ : Z) : test Connection (Z * list Packet) :=
  pump_loop (Z.to_nat 5000) dst from (from + KEEPALIVE_EVERY) until_ [].

(** [while c.state() == Established && now < cap { now = c.next_deadline(now).expect(..).max(now + MS);
    c.handle_timer(now); drain(c, now) }], the last instant. *)
Fixpoint run_timers (fuel : nat) (now cap : Z) : test Connection Z :=
  match fuel with
  | O => mthrow tt
  | S fuel =>
      st ← gets Connection_get_state;
      if bool_decide (st = ConnEstablished) && (now <? cap) then
        d ← gets (fun c => Connection_next_deadline c now);
        d ← some d;
        let now := Z.max d (now + ms 1) in
        conn_handle_timer now;;
        conn_drain now;;
        run_timers fuel now cap
      else mret now
  end.

Definition between (d lo hi : Z) : test Connection unit := assert ((lo <=? d) && (d <? hi)).

(** ** Buffers, the time base, establishment *)

Definition conn_recv_buffer_scales_with_negotiated_latency : panicking unit :=
  let scaled opts latency := Z.of_nat (scaled_recv_buffer opts latency) in
  let opts := opts0 in
  assert_eq (so_latency opts, Z.of_nat (so_recv_buffer_pkts opts)) (ms 120, 8192);;
  assert_eq (scaled opts (ms 120)) 8192;;
  assert_eq (scaled opts (ms 20)) 8192;;
  assert_eq (scaled opts (ms 4000)) 273067;;
  assert_eq (scaled opts (ms 65535)) (8192 * 64);;
  let opts := opts <| so_latency := ms 1 |> <| so_recv_buffer_pkts := Z.to_nat (2 ^ 15) |> in
  assert_eq (scaled opts (ms 65000)) (2 ^ 20);;
  let opts := opts <| so_recv_buffer_pkts := Z.to_nat (3 * 2 ^ 20) |> in
  assert_eq (scaled opts (ms 65000)) (3 * 2 ^ 20);;
  let opts := opts <| so_recv_buffer_pkts := Z.to_nat 8192 |> <| so_latency := 0 |> in
  assert_eq (scaled opts (ms 10)) (8192 * 10).

Definition conn_sequence_discrepancy_breaks_connection : panicking unit :=
  let t0 := 0 in
  with_pair opts0 (opts0 <| so_recv_buffer_pkts := 32%nat |>) (on_a (
    conn_handle_packet t0 (Data (data_packet (SeqNumber_add conn_ISN 1000) ACCEPT_ID (replicate 16 7)));;
    closed_by SequenceDiscrepancy;;
    pkts ← conn_drain t0;
    assert (sends Shutdown pkts))).

Definition conn_oversized_data_packet_dropped : panicking unit :=
  let t0 := 0 in
  with_fresh_pair opts0 opts0 (on_a (
    conn_drain t0;;
    conn_handle_packet t0 (Data (data_packet conn_ISN ACCEPT_ID (replicate 2000 0)));;
    conn_delivers (t0 + ms 200) None;;
    conn_stat_is st_pkts_recv_oversized 1;;
    conn_stat_is st_pkts_recv 0;;
    state_is ConnEstablished)).

Definition conn_tsbpd_anchor_from_handshake_not_first_data : panicking unit :=
  let t0 := 0 in
  with_fresh_pair opts0 opts0 (
    on_a (conn_drain t0);;
    on_a (conn_send t0 (str "payload"));;
    pkts ← on_a (conn_drain t0);
    d ← some (find_map data_of pkts);
    on_c (conn_handle_packet (t0 + ms 50) (Data d));;
    on_c (conn_delivers (t0 + ms 120 - ms 5) None);;
    on_c (conn_delivers (t0 + ms 120 + ms 5) (Some (str "payload")))).

Definition conn_connect_queues_induction_immediately : panicking unit :=
  let t0 := 0 in
  run (conn_caller t0 opts0) (
    state_is ConnConnecting;;
    remote ← gets cn_remote;
    assert_eq remote listener_addr;;
    pkt ← conn_transmit t0;
    cif ← lift (hs_cif pkt);
    assert_eq (hs_handshake_type cif) Induction;;
    assert_eq (Packet_dst_socket_id pkt) SocketId_HANDSHAKE;;
    none ← conn_poll_transmit t0;
    assert_none none;;
    d ← gets (fun c => Connection_next_deadline c t0);
    assert_eq d (Some (t0 + ms 250))).

Definition conn_handshake_establishes_and_peer_id_is_stamped : panicking unit :=
  let t0 := 0 in
  with_fresh_pair opts0 opts0 (
    pkts ← on_a (conn_drain t0);
    assert_eq (length pkts) 1%nat;;
    reply ← some (pkts !! 0%nat);
    cif ← lift (hs_cif reply);
    assert_eq (hs_handshake_type cif) Conclusion;;
    assert_eq (Packet_dst_socket_id reply) CALLER_ID;;
    on_c (conn_send t0 (str "hello"));;
    pkts ← on_c (conn_drain t0);
    assert_eq (length pkts) 1%nat;;
    d ← some (pkts !! 0%nat ≫= data_of);
    assert_eq (dp_dst_socket_id d) ACCEPT_ID;;
    assert_eq (dp_seq d) conn_ISN;;
    assert_eq (dp_payload d) (str "hello")).

Definition conn_send_while_connecting_buffers_until_established : panicking unit :=
  let t0 := 0 in
  let l := conn_listener t0 opts0 in
  '(_, ind) ← conn_transmit t0 (conn_caller t0 opts0);
  rsp ← (cif ← hs_cif ind; action ← handle l t0 cif; reply_of action);
  run (conn_caller t0 opts0) (
    conn_send t0 (str "early-1");;
    conn_send t0 (str "early-2");;
    r ← call (fun c => Connection_send c t0 (replicate 1457 0));
    assert (match r with Err (PayloadTooLarge n) => (n =? 1457)%nat | _ => false end);;
    conn_transmit t0;;
    none ← conn_poll_transmit t0;
    assert_none none;;
    conn_handle_packet t0 rsp;;
    conc ← conn_transmit t0;
    '(reply, _) ← lift (cif ← hs_cif conc; action ← handle l t0 cif; accept_of action);
    conn_handle_packet t0 reply;;
    state_is ConnEstablished;;
    pkts ← conn_drain t0;
    assert_eq (dp_payload <$> omap data_of pkts) [str "early-1"; str "early-2"]).

Definition conn_early_data_is_buffered_and_fed_to_receiver : panicking unit :=
  let t0 := 0 in
  let t1 := t0 + ms 1 in
  run (conn_caller t0 opts0) (
    '(reply, _) ← conn_conclusion (conn_listener t0 opts0) t0;
    conn_handle_packet t1 (Data (data_packet conn_ISN CALLER_ID (replicate 8 42)));;
    state_is ConnConnecting;;
    conn_delivers (t1 + from_secs 1) None;;
    conn_handle_packet (t0 + ms 2) reply;;
    state_is ConnEstablished;;
    conn_delivers (t1 + ms 119) None;;
    conn_delivers (t1 + ms 121) (Some (replicate 8 42))).

Definition conn_duplicate_conclusion_replays_stored_reply : panicking unit :=
  let t0 := 0 in
  let t1 := t0 + ms 250 in
  '(c, (reply, negotiated)) ← conn_conclusion (conn_listener t0 opts0) t0 (conn_caller t0 opts0);
  run (c, Connection_accepted t0 negotiated reply opts0) (
    first ← on_a (conn_drain t0);
    assert_eq (length first) 1%nat;;
    retrans ← on_c (conn_transmit t1);
    rcif ← lift (hs_cif retrans);
    assert_eq (hs_handshake_type rcif) Conclusion;;
    on_a (conn_handle_packet t1 retrans);;
    replay ← on_a (conn_drain t1);
    assert_eq (length replay) 1%nat;;
    p0 ← some (first !! 0%nat);
    p1 ← some (replay !! 0%nat);
    cif0 ← lift (hs_cif p0);
    cif1 ← lift (hs_cif p1);
    assert_eq cif1 cif0;;
    on_c (conn_handle_packet t1 p1);;
    on_c (state_is ConnEstablished)).

(** ** Timers *)

Definition conn_keepalive_after_one_second_send_idle : panicking unit :=
  let t0 := 0 in
  let t1 := t0 + ms 999 in
  let t2 := t0 + ms 1001 in
  with_caller opts0 (
    conn_handle_timer t1;;
    pkts ← conn_drain t1;
    assert (negb (sends KeepAlive pkts));;
    d ← gets (fun c => Connection_next_deadline c t2);
    d ← some d;
    assert (d <=? t2);;
    conn_handle_timer t2;;
    pkts ← conn_drain t2;
    assert (sends KeepAlive pkts);;
    conn_handle_timer t2;;
    pkts ← conn_drain t2;
    assert (negb (sends KeepAlive pkts))).

(** Silence until the connection breaks, within an interval of time. *)
Definition breaks_in_silence (copts : SrtOptions) (cap : Z) (reason : CloseReason) (lo hi : Z) : panicking unit :=
  let t0 := 0 in
  with_caller copts (
    now ← run_timers (Z.to_nat 5000) t0 (t0 + cap);
    closed_by reason;;
    between (now - t0) lo hi).

Definition conn_peer_idle_timeout_closes_connection : panicking unit :=
  breaks_in_silence opts0 (from_secs 8) PeerIdle (from_secs 5) (from_secs 6).

(** [while let Some(d) = c.next_deadline(t) { if d > stop { break } .. }] *)
Fixpoint timers_until (fuel : nat) (t stop : Z) : test Connection unit :=
  match fuel with
  | O => mthrow tt
  | S fuel =>
      d ← gets (fun c => Connection_next_deadline c t);
      match d with
      | None => mret tt
      | Some d =>
          if stop <? d then mret tt else
          let t := Z.max d (t + ms 1) in
          conn_handle_timer t;;
          conn_drain t;;
          timers_until fuel t stop
      end
  end.

Definition conn_any_packet_refreshes_liveness : panicking unit :=
  let t0 := 0 in
  let unknown := [0xFF; 0xFF; 0x00; 0x00] ++ replicate 12 0 in
  with_caller opts0 (
    for_fold [tt; tt; tt] t0 (fun now _ =>
      let now := now + from_secs 4 in
      act (fun c => Connection_handle_datagram c now unknown test_rng);;
      timers_until (Z.to_nat 5000) now (now + from_secs 4);;
      mret now);;
    state_is ConnEstablished).

Definition conn_data_idle_fires_despite_keepalives : panicking unit :=
  let t0 := 0 in
  with_fresh_pair opts0 (SrtOptions_data_idle_timeout opts0 (from_secs 2)) (on_a (
    conn_drain t0;;
    '(now, sent) ← pump_with_keepalives ACCEPT_ID t0 (t0 + from_secs 4);
    closed_by DataIdle;;
    between (now - t0) (from_secs 2) (ms 2500);;
    assert (sends Shutdown sent))).

Definition conn_data_packet_resets_data_idle_window : panicking unit :=
  let t0 := 0 in
  with_caller (SrtOptions_data_idle_timeout opts0 (from_secs 2)) (
    '(data_at, _) ← pump_with_keepalives CALLER_ID t0 (t0 + ms 1500);
    state_is ConnEstablished;;
    conn_handle_packet data_at (Data (data_packet conn_ISN CALLER_ID (replicate 16 7)));;
    '(now, _) ← pump_with_keepalives CALLER_ID data_at (t0 + from_secs 3);
    state_is ConnEstablished;;
    '(end_, _) ← pump_with_keepalives CALLER_ID now (t0 + from_secs 4);
    closed_by DataIdle;;
    between (end_ - data_at) (from_secs 2) (ms 2500)).

Definition conn_data_idle_none_never_fires : panicking unit :=
  let t0 := 0 in
  with_caller opts0 (
    pump_with_keepalives CALLER_ID t0 (t0 + from_secs 12);;
    state_is ConnEstablished).

Definition conn_data_idle_shorter_than_peer_idle_wins : panicking unit :=
  breaks_in_silence (SrtOptions_data_idle_timeout opts0 (from_secs 1)) (from_secs 3) DataIdle (from_secs 1) (ms 1100).

Definition conn_peer_idle_fires_first_when_shorter : panicking unit :=
  breaks_in_silence (SrtOptions_data_idle_timeout opts0 (from_secs 10)) (from_secs 12) PeerIdle (from_secs 5) (from_secs 6).

Definition conn_data_idle_window_starts_at_establishment : panicking unit :=
  let t0 := 0 in
  let established_at := t0 + from_secs 2 in
  run (conn_caller t0 (SrtOptions_data_idle_timeout opts0 (from_secs 1))) (
    '(reply, _) ← conn_conclusion (conn_listener t0 opts0) t0;
    conn_handle_packet established_at reply;;
    state_is ConnEstablished;;
    conn_drain established_at;;
    '(now, _) ← pump_with_keepalives CALLER_ID established_at (established_at + ms 900);
    state_is ConnEstablished;;
    '(end_, _) ← pump_with_keepalives CALLER_ID now (established_at + from_secs 2);
    closed_by DataIdle;;
    between (end_ - established_at) (from_secs 1) (ms 1100)).

Definition conn_next_deadline_advertises_data_idle_expiry : panicking unit :=
  let t0 := 0 in
  let window := ms 5 in
  with_caller (SrtOptions_data_idle_timeout opts0 window) (
    d ← gets (fun c => Connection_next_deadline c t0);
    assert_eq d (Some (t0 + window));;
    conn_handle_timer (t0 + window);;
    closed_by DataIdle).

(** ** Closing *)

Definition conn_peer_shutdown_closes_without_reply : panicking unit :=
  let t1 := 0 + ms 1 in
  with_caller opts0 (
    conn_handle_packet t1 (control_to CALLER_ID Shutdown);;
    closed_by CloseShutdown;;
    pkts ← conn_drain t1;
    assert_eq pkts [];;
    r ← call (fun c => Connection_send c t1 (str "x"));
    assert (match r with Err (Closed CloseShutdown) => true | _ => false end)).

Definition conn_local_close_sends_shutdown_once : panicking unit :=
  let t0 := 0 in
  with_fresh_pair opts0 opts0 (
    on_c (conn_drain t0);;
    on_c (conn_close (t0 + ms 1));;
    on_c (closed_by CloseLocal);;
    pkts ← on_c (conn_drain (t0 + ms 1));
    assert_eq (length pkts) 1%nat;;
    p ← some (pkts !! 0%nat);
    assert_eq (control_of p) (Some Shutdown);;
    assert_eq (Packet_dst_socket_id p) ACCEPT_ID;;
    on_c (conn_close (t0 + ms 2));;
    more ← on_c (conn_drain (t0 + ms 2));
    assert_eq more [];;
    on_a (conn_drain t0);;
    on_a (conn_handle_packet (t0 + ms 2) p);;
    on_a (closed_by CloseShutdown)).

Definition conn_received_data_still_drains_after_peer_shutdown : panicking unit :=
  let t0 := 0 in
  with_pair opts0 opts0 (
    on_c (conn_send t0 (str "last words"));;
    relay t0 (t0 + ms 1);;
    on_c (conn_close (t0 + ms 1));;
    relay (t0 + ms 1) (t0 + ms 2);;
    on_a (closed_by CloseShutdown);;
    on_a (conn_delivers (t0 + ms 125) (Some (str "last words")))).

Definition conn_handle_datagram_delivers_payload_zero_copy : panicking unit :=
  let t0 := 0 in
  with_caller opts0 (
    let wire := DataPacket_encode (data_packet conn_ISN CALLER_ID (str "owned path")) [] in
    act (fun c => Connection_handle_datagram c (t0 + ms 1) wire test_rng);;
    state_is ConnEstablished;;
    conn_delivers (t0 + ms 125) (Some (str "owned path"))).

(** ** What the peer may send *)

Definition conn_encrypted_data_without_context_is_undecryptable : panicking unit :=
  let t0 := 0 in
  let due := t0 + ms 125 in
  with_caller opts0 (
    let pkt := data_packet conn_ISN CALLER_ID (replicate 4 0xEE) <| dp_encryption := EncEven |> in
    conn_handle_packet (t0 + ms 1) (Data pkt);;
    state_is ConnEstablished;;
    conn_stat_is st_undecrypted_pkts 1;;
    pkts ← conn_drain (t0 + ms 1);
    assert (negb (sends Shutdown pkts));;
    conn_handle_packet (t0 + ms 2) (Data (data_packet conn_ISN CALLER_ID (replicate 4 7)));;
    conn_handle_packet (t0 + ms 2) (Data (data_packet (SeqNumber_add conn_ISN 1) CALLER_ID (replicate 4 8)));;
    conn_delivers due (Some (replicate 4 8));;
    conn_delivers due None;;
    conn_stat_is st_undecrypted_pkts 1;;
    conn_stat_is st_pkts_recv_dropped 1).

Definition conn_encrypted_data_while_connecting : panicking unit :=
  let t0 := 0 in
  let t1 := t0 + ms 1 in
  let t2 := t0 + ms 2 in
  run (conn_caller t0 opts0) (
    '(reply, _) ← conn_conclusion (conn_listener t0 opts0) t0;
    conn_handle_packet t1 (Data (data_packet conn_ISN CALLER_ID (replicate 8 0xEE) <| dp_encryption := EncBoth |>));;
    state_is ConnConnecting;;
    pkts ← conn_drain t1;
    assert (negb (sends Shutdown pkts));;
    conn_handle_packet t2 reply;;
    state_is ConnEstablished;;
    conn_stat_is st_undecrypted_pkts 1;;
    conn_delivers (t2 + from_secs 1) None).

Definition conn_ack_for_unsent_data_breaks_connection : panicking unit :=
  let t1 := 0 + ms 1 in
  with_caller opts0 (
    let cif := mkAckCif (SeqNumber_add conn_ISN 100) (Some 100000) (Some 50000) (Some 8192) (Some 0) (Some 0) (Some 0) in
    conn_handle_packet t1 (control_to CALLER_ID (Ack 1 cif));;
    closed_by CloseLocal).

Definition conn_nak_for_unsent_data_breaks_connection : panicking unit :=
  with_caller opts0 (
    conn_handle_packet (0 + ms 1) (control_to CALLER_ID (Nak [mkLossRange conn_ISN (SeqNumber_add conn_ISN 5)]));;
    closed_by CloseLocal).

Definition conn_full_ack_gets_ackack_reply : panicking unit :=
  let t0 := 0 in
  let t_ack := t0 + ms 11 in
  with_pair opts0 opts0 (
    on_c (conn_send t0 (replicate 10 1));;
    relay t0 (t0 + ms 1);;
    on_a (conn_handle_timer t_ack);;
    acks ← on_a (conn_drain t_ack);
    assert (existsb (fun p => match control_of p with Some (Ack 1 _) => true | _ => false end) acks);;
    on_c (for_each acks (conn_handle_packet (t_ack + ms 1)));;
    replies ← on_c (conn_drain (t_ack + ms 1));
    assert (sends (AckAck 1) replies)).

Definition conn_packets_for_other_sockets_are_dropped : panicking unit :=
  with_caller opts0 (
    conn_handle_packet (0 + ms 1) (Data (data_packet conn_ISN 0xDEAD (replicate 4 1)));;
    conn_stat_is st_pkts_recv 0).

Definition conn_connect_timeout_closes : panicking unit :=
  let t0 := 0 in
  let t3 := t0 + from_secs 3 in
  run (conn_caller t0 opts0) (
    conn_transmit t0;;
    conn_handle_timer (t0 + ms 2999);;
    state_is ConnConnecting;;
    conn_handle_timer t3;;
    closed_by CloseConnectTimeout;;
    p ← conn_poll_transmit t3;
    assert_none p;;
    d ← gets (fun c => Connection_next_deadline c t3);
    assert_eq d None).

Definition conn_handshake_rejection_closes_with_reason : panicking unit :=
  let t0 := 0 in
  run (conn_caller t0 opts0) (
    ind ← conn_transmit t0;
    cif ← lift (hs_cif ind);
    let rejection := cif <| hs_handshake_type := Rejection REJ_BACKLOG |> in
    conn_handle_packet t0 (control_to CALLER_ID (Handshake rejection));;
    closed_by (CloseRejected REJ_BACKLOG)).

Definition conn_stats_merge_sender_and_receiver : panicking unit :=
  let t0 := 0 in
  with_pair opts0 opts0 (
    on_c (conn_send t0 (replicate 100 7));;
    on_c (conn_send t0 (replicate 100 8));;
    relay t0 (t0 + ms 1);;
    on_c (conn_stat_is st_pkts_sent 2);;
    on_c (conn_stat_is st_bytes_sent 200);;
    on_c (conn_stat_is st_pkts_recv 0);;
    on_a (conn_stat_is st_pkts_recv 2);;
    on_a (conn_stat_is st_bytes_recv 200);;
    on_a (conn_stat_is st_rtt_us 100000);;
    on_a (conn_close (t0 + ms 2));;
    on_a (conn_stat_is st_pkts_recv 2)).

Definition conn_next_deadline_covers_keepalive_and_ack_ticks : panicking unit :=
  let t0 := 0 in
  let t1 := t0 + from_secs 1 in
  with_caller opts0 (
    d ← gets (fun c => Connection_next_deadline c t0);
    assert_eq d (Some (t0 + ms 10));;
    conn_handle_timer t1;;
    d ← gets (fun c => Connection_next_deadline c t1);
    assert_eq d (Some t1);;
    conn_drain t1;;
    mret tt).

Definition conn_transmission_control_before_establishment_is_dropped : panicking unit :=
  let t0 := 0 in
  run (conn_caller t0 opts0) (
    conn_poll_transmit t0;;
    conn_handle_packet t0 (control_to CALLER_ID (Ack 1 (mkAckCif conn_ISN None None None None None None)));;
    state_is ConnConnecting).

Definition conn_streamid_visible_on_both_sides : panicking unit :=
  '(c, a) ← establish_pair 0 (SrtOptions_streamid opts0 (str "live/cam-7")) opts0;
  assert_eq (cn_streamid c) (Some (str "live/cam-7"));;
  assert_eq (cn_streamid a) (Some (str "live/cam-7")).

(** ** Encryption *)

Definition crypto_opts (refresh : option (Z * Z)) : SrtOptions :=
  opts0 <| so_passphrase := Some PASSPHRASE |> <| so_km_refresh_rate := fst <$> refresh |>
    <| so_km_preannounce := snd <$> refresh |>.

(** [format!("packet {n:04}")] *)
Definition msg (n : Z) : bytes :=
  let digits := decimal n in
  str "packet " ++ replicate (4 - length digits) 48 ++ digits.

(** The packets of the caller in one round, with what the test records of them. *)
Definition relay_encrypted (now : Z) (drop_kmreq : bool) (rec : list EncryptionFlags * list bytes) (p : Packet)
    : test conn_pair (list EncryptionFlags * list bytes) :=
  let '(flags, kmreqs) := rec in
  match p with
  | Data d =>
      let n := dp_seq d - conn_ISN + 1 in
      assert_ne (dp_payload d) (msg n);;
      on_a (conn_handle_packet now p);;
      mret (flags ++ [dp_encryption d], kmreqs)
  | Control (mkControlPacket _ _ (KmReq blob)) =>
      (if drop_kmreq then mret tt else on_a (conn_handle_packet now p));;
      mret (flags, kmreqs ++ [blob])
  | _ => on_a (conn_handle_packet now p);; mret rec
  end.

Definition pump_round (t0 : Z) (drop_kmreq : bool) (rec : list EncryptionFlags * list bytes * list bytes) (n : Z)
    : test conn_pair (list EncryptionFlags * list bytes * list bytes) :=
  let '(sent, kmrsps) := rec in
  let now := t0 + ms 12 * n in
  on_c (conn_send now (msg n));;
  pkts ← on_c (conn_drain now);
  sent ← for_fold pkts sent (relay_encrypted now drop_kmreq);
  on_a (conn_handle_timer now);;
  pkts ← on_a (conn_drain now);
  on_c (for_each pkts (conn_handle_packet now));;
  on_c (conn_handle_timer now);;
  mret (sent, kmrsps ++ omap (fun p => match control_of p with Some (KmRsp blob) => Some blob | _ => None end) pkts).

Definition pump_encrypted (t0 rounds : Z) (drop_kmreq : bool)
    : test conn_pair (list EncryptionFlags * list bytes * list bytes) :=
  for_fold (range 1 (rounds + 1)) (([], []), []) (pump_round t0 drop_kmreq).

(** A payload from one end to the other, as ciphertext under the even key. *)
Definition sends_encrypted (t0 : Z) (clear : bytes) : test Connection DataPacket :=
  conn_send t0 clear;;
  pkts ← conn_drain t0;
  d ← some (find_map data_of pkts);
  assert_eq (dp_encryption d) EncEven;;
  assert_ne (dp_payload d) clear;;
  mret d.

Definition conn_encrypted_pair_delivers_cleartext_both_directions : panicking unit :=
  let t0 := 0 in
  let due := t0 + ms 125 in
  with_pair (crypto_opts None) (crypto_opts None) (
    d ← on_c (sends_encrypted t0 (str "attack at dawn"));
    on_a (conn_handle_packet (t0 + ms 1) (Data d));;
    on_a (conn_delivers due (Some (str "attack at dawn")));;
    d ← on_a (sends_encrypted t0 (str "hold position"));
    on_c (conn_handle_packet (t0 + ms 1) (Data d));;
    on_c (conn_delivers due (Some (str "hold position")));;
    on_c (conn_stat_is st_undecrypted_pkts 0);;
    on_a (conn_stat_is st_undecrypted_pkts 0);;
    on_c (conn_stat_is st_km_refreshes 0)).

Definition conn_km_refresh_cycle_over_connection : panicking unit :=
  let t0 := 0 in
  with_pair (crypto_opts (Some (16, 4))) (crypto_opts None) (
    '(flags, kmreqs, kmrsps) ← pump_encrypted t0 24 false;
    assert_eq (length kmreqs) 1%nat;;
    kmreq ← some (kmreqs !! 0%nat);
    assert_eq (length kmreq) 72%nat;;
    assert (bool_decide (kmreq ∈ kmrsps));;
    assert_eq (length flags) 24%nat;;
    for_each (zip (range 0 24) flags) (fun '(i, kk) => assert_eq kk (if i <? 16 then EncEven else EncOdd));;
    on_c (conn_stat_is st_km_refreshes 1);;
    on_a (conn_stat_is st_km_refreshes 0);;
    delivered ← on_a (drain 64 (conn_poll_deliver (t0 + from_secs 2)));
    assert_eq (length delivered) 24%nat;;
    for_each (zip (range 0 24) delivered) (fun '(i, p) => assert_eq p (msg (i + 1)));;
    on_a (conn_stat_is st_undecrypted_pkts 0)).

Definition conn_lost_refresh_kmreq_leaves_new_key_undecryptable : panicking unit :=
  let t0 := 0 in
  with_pair (crypto_opts (Some (16, 4))) (crypto_opts None) (
    '(flags, kmreqs, kmrsps) ← pump_encrypted t0 24 true;
    assert_ne kmreqs [];;
    assert_eq kmrsps [];;
    for_each (drop 16 flags) (fun kk => assert_eq kk EncOdd);;
    on_c (state_is ConnEstablished);;
    on_a (state_is ConnEstablished);;
    on_a (conn_stat_is st_undecrypted_pkts 8);;
    delivered ← on_a (drain 64 (conn_poll_deliver (t0 + from_secs 2)));
    assert_eq (length delivered) 16%nat).

Definition silent_on_kmreq (payload : bytes) : test Connection unit :=
  let t1 := 0 + ms 1 in
  conn_handle_packet t1 (control_to CALLER_ID (KmReq payload));;
  state_is ConnEstablished;;
  pkts ← conn_drain t1;
  assert (negb (existsb is_km_rsp_packet pkts)).

Definition conn_endpoint_is_silent_on_bad_instream_kmreq : panicking unit :=
  for_each [replicate 20 0xAB; replicate 10 0] (fun payload =>
    with_pair (crypto_opts None) (crypto_opts None) (on_c (silent_on_kmreq payload))).

Definition conn_instream_kmreq_on_unencrypted_endpoint : panicking unit :=
  with_caller opts0 (silent_on_kmreq (replicate 20 0xAB)).

(** All the tests of [core/mod.rs] pass. *)
Example connection_tests : Forall passes
  [conn_recv_buffer_scales_with_negotiated_latency; conn_sequence_discrepancy_breaks_connection;
   conn_oversized_data_packet_dropped; conn_tsbpd_anchor_from_handshake_not_first_data;
   conn_connect_queues_induction_immediately; conn_handshake_establishes_and_peer_id_is_stamped;
   conn_send_while_connecting_buffers_until_established; conn_early_data_is_buffered_and_fed_to_receiver;
   conn_duplicate_conclusion_replays_stored_reply; conn_keepalive_after_one_second_send_idle;
   conn_peer_idle_timeout_closes_connection; conn_any_packet_refreshes_liveness;
   conn_data_idle_fires_despite_keepalives; conn_data_packet_resets_data_idle_window;
   conn_data_idle_none_never_fires; conn_data_idle_shorter_than_peer_idle_wins;
   conn_peer_idle_fires_first_when_shorter; conn_data_idle_window_starts_at_establishment;
   conn_next_deadline_advertises_data_idle_expiry; conn_peer_shutdown_closes_without_reply;
   conn_local_close_sends_shutdown_once; conn_received_data_still_drains_after_peer_shutdown;
   conn_handle_datagram_delivers_payload_zero_copy; conn_encrypted_data_without_context_is_undecryptable;
   conn_encrypted_data_while_connecting; conn_ack_for_unsent_data_breaks_connection;
   conn_nak_for_unsent_data_breaks_connection; conn_full_ack_gets_ackack_reply;
   conn_packets_for_other_sockets_are_dropped; conn_connect_timeout_closes;
   conn_handshake_rejection_closes_with_reason; conn_stats_merge_sender_and_receiver;
   conn_next_deadline_covers_keepalive_and_ack_ticks; conn_transmission_control_before_establishment_is_dropped;
   conn_streamid_visible_on_both_sides; conn_encrypted_pair_delivers_cleartext_both_directions;
   conn_km_refresh_cycle_over_connection; conn_lost_refresh_kmreq_leaves_new_key_undecryptable;
   conn_endpoint_is_silent_on_bad_instream_kmreq; conn_instream_kmreq_on_unencrypted_endpoint].
Proof. run_tests. Qed.
