(* ===== verification/TestOptions.v ===== *)
(** * Unit tests of the options and errors: [options.rs], [error.rs] *)

From S2P Require Import Prelude Text CryptoKeys CryptoContext Options Display Testing.

#[export] Instance Bandwidth_eq_dec : EqDecision Bandwidth.
Proof. solve_decision. Defined.

Definition keyed : SrtOptions := SrtOptions_passphrase SrtOptions_default (str "0123456789").

Definition crypto_config (opts : SrtOptions) : panicking CryptoConfig :=
  cfg ← unwrap (Ret (SrtOptions_crypto_config opts));
  expect cfg.

Definition options_km_defaults_resolve_per_spec : panicking unit :=
  let zeroes := keyed <| so_km_refresh_rate := Some 0 |> <| so_km_preannounce := Some 0 |> in
  for_each [keyed; zeroes] (fun opts =>
    cfg ← crypto_config opts;
    assert_eq (cc_km_refresh_rate cfg) 0x01000000;;
    assert_eq (cc_km_preannounce cfg) 0x10000).

Definition options_explicit_refresh_rate_force_sets_default_preannounce : panicking unit :=
  let opts := keyed <| so_km_refresh_rate := Some 0x100000 |> in
  cfg ← crypto_config opts;
  assert_eq (cc_km_refresh_rate cfg) 0x100000;;
  assert_eq (cc_km_preannounce cfg) ((0x100000 - 1) / 2);;
  cfg ← crypto_config (opts <| so_km_preannounce := Some 1000 |>);
  assert_eq (cc_km_preannounce cfg) 1000.

(** The variant marked [#[default]]. *)
Definition Bandwidth_default : Bandwidth := Unlimited.

Definition options_default_bandwidth_is_unlimited : panicking unit :=
  assert_eq (so_bandwidth SrtOptions_default) Unlimited;;
  assert_eq Bandwidth_default Unlimited;;
  assert_eq Bandwidth_DEFAULT_OVERHEAD_PCT 25.

Definition bandwidth_ok (b : Bandwidth) : panicking unit :=
  assert (match Bandwidth_validate b with Ok _ => true | Err _ => false end).

Definition bandwidth_invalid (b : Bandwidth) : panicking unit :=
  assert (match Bandwidth_validate b with Err (InvalidBandwidth _) => true | _ => false end).

Definition options_bandwidth_validate_rejects_zero_rates : panicking unit :=
  bandwidth_ok Unlimited;;
  bandwidth_ok (Max 1);;
  bandwidth_invalid (Max 0);;
  bandwidth_invalid (Input 0 25);;
  bandwidth_ok (Estimated 0 25).

Definition options_bandwidth_validate_overhead_pct_range : panicking unit :=
  for_each [5; 25; 100] (fun pct => bandwidth_ok (Input 1 pct);; bandwidth_ok (Estimated 1 pct));;
  for_each [0; 4; 101; 255] (fun pct => bandwidth_invalid (Input 1 pct);; bandwidth_invalid (Estimated 1 pct)).

Definition options_km_refresh_rate_rejects_seqno_wrap_range : panicking unit :=
  for_each [0x80000000; 2 ^ 32 - 1] (fun rr =>
    assert (match SrtOptions_crypto_config (keyed <| so_km_refresh_rate := Some rr |>) with
            | Err (InvalidKmParameters _) => true
            | _ => false
            end));;
  cfg ← crypto_config (keyed <| so_km_refresh_rate := Some 0x7FFFFFFF |>);
  assert_eq (cc_km_refresh_rate cfg) 0x7FFFFFFF;;
  assert_eq (cc_km_preannounce cfg) 0x3FFFFFFF.

(** [str::contains] *)
Fixpoint contains (text pat : bytes) : bool :=
  bool_decide (take (length pat) text = pat) || match text with [] => false | _ :: text => contains text pat end.

Definition to_string (e : SrtError) : bytes := SrtError_fmt (fun _ => []) e.

Definition error_encryption_mismatch_display_distinguishes_classes : panicking unit :=
  let unsecure := to_string EncryptionUnsupported in
  let badsecret := to_string WrongPassphrase in
  assert (contains unsecure (str "encryption mismatch"));;
  assert (contains badsecret (str "wrong passphrase"));;
  assert_ne unsecure badsecret.

(** All the tests of [options.rs] and [error.rs] above pass. *)
Example options_tests : Forall passes
  [options_km_defaults_resolve_per_spec; options_explicit_refresh_rate_force_sets_default_preannounce;
   options_default_bandwidth_is_unlimited; options_bandwidth_validate_rejects_zero_rates;
   options_bandwidth_validate_overhead_pct_range; options_km_refresh_rate_rejects_seqno_wrap_range;
   error_encryption_mismatch_display_distinguishes_classes].
Proof. run_tests. Qed.
