(* ===== verification/TestCrypto.v ===== *)
(** * Unit tests of the key material messages and of the crypto engine:
    [crypto/km.rs], [crypto/context.rs]

    [Instant::now()] is the instant 0.  The primitives are toy ones, with an
    integrity block that covers the whole wrapped key, as AES key wrap has;
    the tests that compare with published vectors are not translated. *)

From S2P Require Import Prelude Text PacketTypes PacketData CryptoKeys CryptoContext Testing TestTime.

(** ** Primitives for the tests *)

Definition checksum (kek p : bytes) : bytes :=
  to_be 8 (foldl (fun h b => (h * 257 + b + 1) mod (2 ^ 61 - 1)) 7 (kek ++ p)).

Definition checked_primitives : CryptoPrimitives := {|
  pbkdf2_hmac_sha1 := fun pw salt it n => take n (pw ++ salt ++ replicate n 0);
  kw_wrap := fun kek p => Some (checksum kek p ++ p);
  kw_unwrap := fun kek w =>
    if bool_decide (take 8 w = checksum kek (drop 8 w)) && (8 <=? length w)%nat then Some (drop 8 w) else None;
  ctr128be_keystream := fun key iv n => take n (iv ++ key ++ replicate n 0xC3)
|}.

(** They are primitives the theorems speak of. *)
Lemma checked_laws : @CryptoLaws checked_primitives.
Proof.
  assert (forall kek p, length (checksum kek p) = 8%nat) as H8 by (intros; apply length_to_be).
  constructor.
  - intros pw salt it n. cbn. rewrite length_take, !length_app, length_replicate. lia.
  - intros kek p _ _ _. exists (checksum kek p ++ p). cbn -[checksum].
    split_and!; [done | rewrite length_app, H8; lia |].
    rewrite take_app_length', drop_app_length' by done.
    rewrite bool_decide_true by done. rewrite length_app, H8. done.
  - intros kek w p. cbn [kw_unwrap checked_primitives]. case_if; [|done]. to_prop. intros [= <-].
    rewrite length_drop. lia.
  - intros key iv n. cbn. rewrite length_take, !length_app, length_replicate. lia.
Qed.

#[local] Existing Instance checked_primitives.

#[export] Instance bad_km_eq_dec : EqDecision bad_km.
Proof. solve_decision. Defined.

#[export] Instance unsupported_km_eq_dec : EqDecision unsupported_km.
Proof. solve_decision. Defined.

#[export] Instance CryptoError_eq_dec : EqDecision CryptoError.
Proof. solve_decision. Defined.

#[export] Instance KmKeys_eq_dec : EqDecision KmKeys.
Proof. solve_decision. Defined.

#[export] Instance KmMessage_eq_dec : EqDecision KmMessage.
Proof. solve_decision. Defined.

#[export] Instance KmResponse_eq_dec : EqDecision KmResponse.
Proof. solve_decision. Defined.

#[export] Instance KmReqOutcome_eq_dec : EqDecision KmReqOutcome.
Proof. solve_decision. Defined.

#[export] Instance KmRspOutcome_eq_dec : EqDecision KmRspOutcome.
Proof. solve_decision. Defined.

(** ** [crypto/km.rs] *)

Definition km_SALT : bytes := range 0xA0 0xB0.

Definition km_sample (keys : KmKeys) (key_len : KeyLength) : KmMessage :=
  let wrapped_len := (WRAP_ICV_LEN + KmKeys_count keys * KeyLength_bytes key_len)%nat in
  mkKmMessage keys key_len km_SALT ((fun i => 0x30 + i) <$> range 0 (Z.of_nat wrapped_len)).

Definition km_valid : bytes := KmMessage_encode (km_sample KmEven Aes128).

Definition km_encode_aes128_even_byte_exact : panicking unit :=
  let expected := [0x12; 0x20; 0x29; 0x01; 0x00; 0x00; 0x00; 0x00; 0x02; 0x00; 0x02; 0x00; 0x00; 0x00; 0x04; 0x04]
                  ++ km_SALT ++ range 0x30 0x48 in
  let out := KmMessage_encode (km_sample KmEven Aes128) in
  assert_eq (length out) 56%nat;;
  assert_eq out expected.

Definition km_encode_kk_bits_on_the_wire : panicking unit :=
  for_each [(KmEven, 0x01); (KmOdd, 0x02); (KmBoth, 0x03)] (fun '(keys, kk) =>
    assert_eq (KmMessage_encode (km_sample keys Aes128) !! 3%nat) (Some kk)).

Definition km_encode_dual_key_length_math : panicking unit :=
  let msg := km_sample KmBoth Aes256 in
  let out := KmMessage_encode msg in
  assert_eq (length out) 104%nat;;
  assert_eq (out !! 3%nat) (Some 0x03);;
  assert_eq (out !! 15%nat) (Some 0x08);;
  assert_eq (drop 32 out) (km_wrapped msg).

Definition km_encoded_lengths_match_spec_table : panicking unit :=
  for_each [(KmEven, Aes128, 56%nat); (KmEven, Aes192, 64%nat); (KmEven, Aes256, 72%nat);
            (KmBoth, Aes128, 72%nat); (KmBoth, Aes192, 88%nat); (KmBoth, Aes256, 104%nat)]
    (fun '(keys, key_len, expected) =>
      let out := KmMessage_encode (km_sample keys key_len) in
      assert_eq (length out) expected;;
      assert_eq (length out mod 4)%nat 0%nat).

Definition km_parse_encode_roundtrip_all_combos : panicking unit :=
  for_each [KmEven; KmOdd; KmBoth] (fun keys =>
  for_each [Aes128; Aes192; Aes256] (fun key_len =>
    let msg := km_sample keys key_len in
    parsed ← unwrap (KmMessage_parse (KmMessage_encode msg));
    assert_eq parsed msg)).

(** [let mut buf = valid(); buf[i] = v; ..] is rejected with an error. *)
Definition rejects_patched (patches : list (nat * Z)) (e : CryptoError) : panicking unit :=
  let buf := foldl (fun buf '(i, v) => <[ i := v ]> buf) km_valid patches in
  assert_eq (KmMessage_parse buf) (perr e).

Definition km_parse_rejects_short_input : panicking unit :=
  for_each [0; 1; 4; 15; 16]%nat (fun len =>
    assert_eq (KmMessage_parse (take len km_valid)) (perr (BadKmMessage KmNotLongerThanHeader))).

Definition km_parse_rejects_zero_key_length : panicking unit :=
  rejects_patched [(15%nat, 0)] (BadKmMessage KmKeyLengthZero).

Definition km_parse_rejects_bad_version_nibble : panicking unit :=
  for_each [0x22; 0x92] (fun byte0 => rejects_patched [(0%nat, byte0)] (Unsupported VersionNot1)).

Definition km_parse_rejects_non_km_payload_type : panicking unit :=
  rejects_patched [(0%nat, 0x11)] (BadKmMessage PayloadTypeNotKm).

Definition km_parse_rejects_bad_signature : panicking unit :=
  for_each [(1%nat, 0x21); (2%nat, 0x28)] (fun p => rejects_patched [p] (BadKmMessage BadSignature)).

Definition km_parse_rejects_bad_stream_encapsulation : panicking unit :=
  rejects_patched [(10%nat, 1)] (Unsupported SeNotTssrt).

Definition km_parse_rejects_kk_zero : panicking unit :=
  rejects_patched [(3%nat, 0x00)] (BadKmMessage KmCarriesNoKey).

Definition km_parse_rejects_overlong_salt : panicking unit :=
  rejects_patched [(14%nat, 5)] (BadKmMessage SaltLongerThan16).

Definition km_parse_rejects_short_salt : panicking unit :=
  rejects_patched [(14%nat, 3)] (Unsupported SaltShorterThan16).

Definition km_parse_rejects_bad_sek_length : panicking unit :=
  for_each [1; 5; 7; 9] (fun klen4 => rejects_patched [(15%nat, klen4)] (BadKmMessage SekLengthInvalid)).

Definition km_parse_rejects_total_length_mismatch : panicking unit :=
  let err := BadKmMessage KmLengthMismatch in
  assert_eq (KmMessage_parse (take (length km_valid - 1) km_valid)) (perr err);;
  assert_eq (KmMessage_parse (km_valid ++ [0])) (perr err);;
  rejects_patched [(3%nat, 0x03)] err;;
  rejects_patched [(15%nat, 8)] err;;
  assert_eq (KmMessage_parse (take 64 (KmMessage_encode (km_sample KmBoth Aes192)))) (perr err).

Definition km_parse_rejects_bad_cipher_and_auth : panicking unit :=
  rejects_patched [(8%nat, 1)] (Unsupported CipherNotAesCtr);;
  rejects_patched [(9%nat, 1)] (Unsupported AuthNotNone).

Definition km_parse_ignores_unchecked_fields : panicking unit :=
  let patches := [(4%nat, 0xDE); (5%nat, 0xAD); (6%nat, 0xBE); (7%nat, 0xEF); (11%nat, 0xFF);
                  (12%nat, 0xFF); (13%nat, 0xFF); (3%nat, 0xFD)] in
  let buf := foldl (fun buf '(i, v) => <[ i := v ]> buf) km_valid patches in
  parsed ← unwrap (KmMessage_parse buf);
  assert_eq parsed (km_sample KmEven Aes128).

Definition km_parse_validation_order_matches_libsrt : panicking unit :=
  rejects_patched [(1%nat, 0xAA); (8%nat, 9)] (BadKmMessage BadSignature);;
  assert_eq (KmMessage_parse (<[ 8%nat := 9 ]> km_valid ++ [0])) (perr (BadKmMessage KmLengthMismatch)).

Definition km_kmrsp_parse : panicking unit :=
  assert_eq (KmResponse_parse [4; 0; 0; 0]) (Ok (Status (Some BadSecret)));;
  assert_eq (KmResponse_parse [0; 0; 0; 4]) (Ok (Status None));;
  assert_eq (KmResponse_parse [5; 0; 0; 0]) (Ok (Status None));;
  assert_eq (KmResponse_parse km_valid) (Ok (Echo km_valid));;
  for_each (seq 0 4) (fun len =>
    assert_eq (KmResponse_parse (take len km_valid)) (Err (BadKmMessage KmrspShorterThanWord))).

(** ** [crypto/context.rs]: helpers *)

Definition engine_config (key_len : KeyLength) : CryptoConfig :=
  mkCryptoConfig (str "correct horse battery") key_len 0x01000000 0x10000.

Definition refresh_config : CryptoConfig :=
  engine_config Aes128 <| cc_km_refresh_rate := 16 |> <| cc_km_preannounce := 4 |>.

Definition initiator (cfg : CryptoConfig) : panicking Crypto := Crypto_new_initiator cfg (random 1) (random 2).

Definition engine_kmreq (c : Crypto) : panicking bytes := expect (Crypto_kmreq c).

(** Caller and listener. *)
Abbreviation engines := (Crypto * Crypto)%type.

Definition handle_kmrsp (payload : bytes) : test Crypto KmRspOutcome := step (fun c => Crypto_handle_kmrsp c payload).

Definition handle_kmreq (payload : bytes) : test Crypto KmReqOutcome := fun c => Crypto_handle_kmreq c payload.

(** Each key refresh draws other bytes. *)
Definition on_ack (now srtt_us : Z) : test Crypto (option bytes) := fun c =>
  Crypto_on_ack c now srtt_us (random (3 + cr_key_switches c)).

Definition encrypt (n : Z) (buf : bytes) : test Crypto (bytes * EncryptionFlags) := fun c =>
  '(c, buf, flags) ← Crypto_encrypt c (SeqNumber_new n) buf;
  Ret (c, (buf, flags)).

Definition decrypt (n : Z) (kk : EncryptionFlags) (buf : bytes) : test Crypto (result CryptoError unit * bytes) :=
  fun c => let '(c, r, buf) := Crypto_decrypt c (SeqNumber_new n) kk buf in Ret (c, (r, buf)).

(** The packet decrypts to a payload; or it is dropped, its bytes untouched. *)
Definition decrypts_to (n : Z) (kk : EncryptionFlags) (buf clear : bytes) : test Crypto unit :=
  r ← decrypt n kk buf;
  assert_eq r (Ok tt, clear).

Definition no_key (n : Z) (kk : EncryptionFlags) (buf : bytes) : test Crypto unit :=
  r ← decrypt n kk buf;
  assert_eq r (Err NoKey, buf).

Definition states_are (snd rcv : KmState) : test Crypto unit :=
  c ← gets id;
  assert_eq (cr_snd_state c) snd;;
  assert_eq (cr_rcv_state c) rcv.

Definition nothing_owed (now srtt_us : Z) : test Crypto unit :=
  r ← on_ack now srtt_us;
  assert_eq r None.

Definition owes (now srtt_us : Z) (blob : bytes) : test Crypto unit :=
  r ← on_ack now srtt_us;
  assert_eq r (Some blob).

Definition installs (km : bytes) : test Crypto unit :=
  r ← handle_kmreq km;
  assert_eq r Installed.

Definition fails_with (km : bytes) (st : KmState) : test Crypto unit :=
  r ← handle_kmreq km;
  assert_eq r (KmReqFailed st).

Definition confirms (km : bytes) : test Crypto unit :=
  r ← handle_kmrsp km;
  assert_eq r Confirmed.

Definition kmx_pair_with (icfg rcfg : CryptoConfig) : panicking engines :=
  i ← initiator icfg;
  kmreq ← engine_kmreq i;
  r ← unwrap (Crypto_new_responder rcfg kmreq);
  '(i, _) ← confirms kmreq i;
  Ret (i, r).

Definition kmx_pair (key_len : KeyLength) : panicking engines := kmx_pair_with (engine_config key_len) (engine_config key_len).

(** The caller encrypts, the listener decrypts. *)
Definition roundtrip (n : Z) : test engines EncryptionFlags :=
  let clear := (fun i => Z.lxor (as_u8 (i * 31)) (as_u8 n)) <$> range 0 100 in
  '(buf, flags) ← on_fst (encrypt n clear);
  assert_ne buf clear;;
  on_snd (decrypts_to n flags buf clear);;
  mret flags.

(** The other direction. *)
Definition swapped {A} (t : test engines A) : test engines A := fun '(c, l) =>
  '((l, c), a) ← t (l, c);
  Ret ((c, l), a).

Definition engine_drive (lo hi now : Z) (expected : EncryptionFlags) : test engines (list (Z * bytes)) :=
  for_fold (range lo (hi + 1)) [] (fun kms n =>
    flags ← roundtrip n;
    assert_eq flags expected;;
    blob ← on_fst (on_ack now 100000);
    mret (match blob with Some blob => kms ++ [(n, blob)] | None => kms end)).

(** A test of a caller that refreshes early and its listener. *)
Definition with_refresh (t : test engines unit) : panicking unit :=
  p ← kmx_pair_with refresh_config (engine_config Aes128);
  run p t.

Definition with_engines (key_len : KeyLength) (t : test engines unit) : panicking unit :=
  p ← kmx_pair key_len;
  run p t.

Definition with_initiator (t : test Crypto unit) : panicking unit :=
  i ← initiator (engine_config Aes128);
  run i t.

(** The KM message announced within the first twelve packets. *)
Definition announced (t0 : Z) : test engines bytes :=
  kms ← engine_drive 1 12 t0 EncEven;
  '(_, km) ← some (last kms);
  mret km.

Definition refreshed : test engines unit :=
  let t0 := 0 in
  km ← announced t0;
  on_snd (installs km);;
  on_fst (confirms km);;
  engine_drive 13 16 t0 EncEven;;
  engine_drive 17 17 t0 EncOdd;;
  mret tt.

Definition with_refreshed (t : test engines unit) : panicking unit := with_refresh (refreshed;; t).

(** ** Oversized messages *)

Definition malicious_km (n : nat) : bytes :=
  let hdr := [0x12; 0x20; 0x29; 0x01; 0x00; 0x00; 0x00; 0x00; 0x02; 0x00; 0x02; 0x00; 0x00; 0x00; 0x04; 0x04] in
  take n hdr ++ replicate (n - 16) 0xAA.

Definition CVE_LENGTHS : list nat := Z.to_nat <$>
  [0; 1; 4; 7; 15; 16; 17; 31; 32; 55; 56; 57; 63; 72; 88; 103;
   104; 105; 107; 108; 128; 256; 1024; 4096; 65536; 65537; 2 ^ 20].

(** A call that panics makes the test panic. *)
Definition engine_cve_2026_55869_km_ingest_never_panics_or_overflows : panicking unit :=
  '(_, responder) ← kmx_pair Aes128;
  i ← initiator (engine_config Aes128);
  for_fold CVE_LENGTHS (responder, i) (fun '(responder, i) n =>
    let buf := malicious_km n in
    KmMessage_parse buf;;
    Crypto_new_responder (engine_config Aes128) buf;;
    '(responder, outcome) ← Crypto_handle_kmreq responder buf;
    assert (match outcome with KmReqFailed _ => true | _ => false end);;
    let '(i, _) := Crypto_handle_kmrsp i buf in
    Ret (responder, i));;
  Ret tt.

Definition is_err {E A} (r : result E A) : bool := match r with Err _ => true | Ok _ => false end.

Definition engine_cve_2026_55869_oversized_kmreq_is_rejected : panicking unit :=
  for_each CVE_LENGTHS (fun n =>
    let buf := malicious_km n in
    parse ← KmMessage_parse buf;
    assert_eq (is_err parse) (negb (n =? 56)%nat);;
    r ← Crypto_new_responder (engine_config Aes128) buf;
    assert (is_err r)).

Definition engine_cve_2026_55869_valid_kmreq_still_accepted : panicking unit :=
  i ← initiator (engine_config Aes128);
  kmreq ← engine_kmreq i;
  assert_eq (length kmreq) 56%nat;;
  unwrap (Crypto_new_responder (engine_config Aes128) kmreq);;
  Ret tt.

(** ** The key exchange *)

Definition engine_kmx_secures_both_directions_all_key_lengths : panicking unit :=
  for_each [Aes128; Aes192; Aes256] (fun key_len =>
    with_engines key_len (
      on_fst (states_are Secured Secured);;
      on_snd (states_are Secured Secured);;
      km ← on_fst (gets Crypto_kmreq);
      assert_none km;;
      f ← roundtrip 42;
      assert_eq f EncEven;;
      f ← swapped (roundtrip 43);
      assert_eq f EncEven)).

Definition engine_initiator_states_before_confirmation : panicking unit :=
  with_initiator (states_are Securing Unsecured).

Definition engine_initial_kmreq_is_even_single_key : panicking unit :=
  i ← initiator (engine_config Aes128);
  blob ← engine_kmreq i;
  assert_eq (length blob) 56%nat;;
  msg ← unwrap (KmMessage_parse blob);
  assert_eq (km_keys msg) KmEven;;
  assert_eq (km_key_len msg) Aes128.

(** [for n in lo .. { encrypt(n); if let Some(blob) = on_ack { break } }], at most [fuel] packets. *)
Fixpoint until_announced (fuel : nat) (n : Z) : test Crypto (option bytes) :=
  match fuel with
  | O => mret None
  | S fuel =>
      encrypt n (replicate 32 0);;
      blob ← on_ack 0 100000;
      match blob with Some blob => mret (Some blob) | None => until_announced fuel (n + 1) end
  end.

Definition engine_responder_adopts_kmreq_key_length : panicking unit :=
  p ← kmx_pair_with (engine_config Aes256) refresh_config;
  run p (
    len ← on_snd (gets (fun c => cc_key_len (cr_cfg c)));
    assert_eq len Aes256;;
    swapped (roundtrip 7);;
    km ← on_snd (until_announced 16 0);
    km ← some km;
    msg ← lift (unwrap (KmMessage_parse km));
    assert_eq (km_keys msg) KmBoth;;
    assert_eq (km_key_len msg) Aes256).

Definition engine_wrong_passphrase_is_bad_secret : panicking unit :=
  i ← initiator (engine_config Aes128);
  kmreq ← engine_kmreq i;
  let cfg := engine_config Aes128 <| cc_passphrase := str "wrong passphrase" |> in
  err ← unwrap_err (Crypto_new_responder cfg kmreq);
  assert_eq err BadSecret.

(** [*buf.last_mut().unwrap() ^= 0x01] *)
Definition flip_last (buf : bytes) : bytes := alter (fun b => Z.lxor b 0x01) (length buf - 1)%nat buf.

Definition engine_responder_failure_state_mapping : panicking unit :=
  i ← initiator (engine_config Aes128);
  kmreq ← engine_kmreq i;
  for_each [(take 16 kmreq, BadSecret); (<[ 15%nat := 0 ]> kmreq, BadSecret); (<[ 1%nat := 0xAA ]> kmreq, NoSecret);
            (<[ 8%nat := 1 ]> kmreq, NoSecret); (flip_last kmreq, BadSecret)] (fun '(buf, expected) =>
    err ← unwrap_err (Crypto_new_responder (engine_config Aes128) buf);
    assert_eq err expected).

(** ** The data path *)

Definition engine_decrypt_none_is_rejected_on_encrypted_link : panicking unit :=
  with_engines Aes128 (on_snd (no_key 9 EncNone (str "plaintext stays"))).

Definition engine_decrypt_missing_slot_is_no_key : panicking unit :=
  with_engines Aes128 (
    on_snd (no_key 9 EncOdd (replicate 16 0xA5));;
    on_snd (no_key 9 EncBoth (replicate 16 0xA5))).

Definition engine_decrypt_gated_until_rcv_secured : panicking unit :=
  with_initiator (
    r ← handle_kmrsp [4; 0; 0; 0];
    assert_eq r (KmRspFailed BadSecret);;
    rx ← gets (fun c => slot_get (cr_rx c) EVEN);
    assert_some rx;;
    no_key 1 EncEven (replicate 24 0x5A)).

Definition engine_decrypt_unsecured_flips_to_securing_and_recovers : panicking unit :=
  caller ← initiator (engine_config Aes128);
  kmreq ← engine_kmreq caller;
  listener ← unwrap (Crypto_new_responder (engine_config Aes128) kmreq);
  let clear := str "too early" in
  run (caller, listener) (
    '(ct, flags) ← on_snd (encrypt 5 clear);
    on_fst (no_key 5 flags ct);;
    st ← on_fst (gets cr_rcv_state);
    assert_eq st Securing;;
    on_fst (no_key 5 flags ct);;
    on_fst (no_key 6 EncNone (str "cleartext"));;
    on_fst (confirms kmreq);;
    on_fst (decrypts_to 5 flags ct clear)).

Definition engine_decrypt_both_selects_odd_slot : panicking unit :=
  with_refreshed (
    let clear := str "odd-slot payload" in
    '(buf, flags) ← on_fst (encrypt 900 clear);
    assert_eq flags EncOdd;;
    on_snd (decrypts_to 900 EncBoth buf clear)).

(** ** The refresh *)

(** The first cycle: announced at packet 12, switched after packet 16, the
    old key retired after packet 21; the ciphertext of packet 12. *)
Definition refresh_first_cycle (t0 : Z) (clear : bytes) : test engines unit :=
  kms ← engine_drive 1 11 t0 EncEven;
  assert_eq kms [];;
  '(even_ct, flags) ← on_fst (encrypt 12 clear);
  assert_eq flags EncEven;;
  km ← on_fst (on_ack t0 100000);
  km ← some km;
  msg ← lift (unwrap (KmMessage_parse km));
  assert_eq (km_keys msg) KmBoth;;
  salt ← on_fst (gets cr_salt);
  assert_eq (km_salt msg) salt;;
  on_snd (installs km);;
  st ← on_snd (gets cr_rcv_state);
  assert_eq st Secured;;
  on_fst (confirms km);;
  owed ← on_fst (gets Crypto_kmreq);
  assert_none owed;;
  on_snd (decrypts_to 12 EncEven even_ct clear);;
  engine_drive 13 16 t0 EncEven;;
  engine_drive 17 20 t0 EncOdd;;
  on_snd (decrypts_to 12 EncEven even_ct clear);;
  tx ← on_fst (gets cr_tx);
  assert_eq (tk_pkt_cnt <$> slot_get tx ODD) (Some 4);;
  assert_some (slot_get tx EVEN);;
  engine_drive 21 21 t0 EncOdd;;
  tx ← on_fst (gets cr_tx);
  assert_none (slot_get tx EVEN);;
  rx ← on_snd (gets cr_rx);
  assert_some (slot_get rx EVEN).

Definition refresh_second_cycle (t0 : Z) (clear : bytes) : test engines unit :=
  kms ← engine_drive 22 29 t0 EncOdd;
  assert_eq (length kms) 1%nat;;
  '(n, km2) ← some (kms !! 0%nat);
  assert_eq n 29;;
  msg2 ← lift (unwrap (KmMessage_parse km2));
  assert_eq (km_keys msg2) KmBoth;;
  salt ← on_fst (gets cr_salt);
  assert_eq (km_salt msg2) salt;;
  on_snd (installs km2);;
  on_fst (confirms km2);;
  engine_drive 30 32 t0 EncOdd;;
  '(odd_ct, flags) ← on_fst (encrypt 33 clear);
  assert_eq flags EncOdd;;
  on_fst (nothing_owed t0 100000);;
  engine_drive 34 38 t0 EncEven;;
  on_snd (decrypts_to 33 EncOdd odd_ct clear).

Definition engine_refresh_cycle_end_to_end : panicking unit :=
  let clear := str "replayed dual-window packet" in
  with_refresh (refresh_first_cycle 0 clear;; refresh_second_cycle 0 clear).

Definition engine_switch_waits_for_preannounced_key : panicking unit :=
  let t0 := 0 in
  with_refresh (
    for_each (range 1 31) (fun n => f ← roundtrip n; assert_eq f EncEven);;
    km ← on_fst (on_ack t0 100000);
    km ← some km;
    msg ← lift (unwrap (KmMessage_parse km));
    assert_eq (km_keys msg) KmBoth;;
    f ← roundtrip 31;
    assert_eq f EncEven;;
    on_snd (installs km);;
    on_fst (nothing_owed t0 100000);;
    f ← roundtrip 32;
    assert_eq f EncOdd).

Definition engine_midstream_kmreq_applies_to_rx_only : panicking unit :=
  with_refreshed (
    c ← on_fst (gets id);
    assert (match cr_active c with ODD => true | EVEN => false end);;
    l ← on_snd (gets id);
    assert_none (slot_get (cr_tx l) ODD);;
    assert (match cr_active l with EVEN => true | ODD => false end);;
    f ← swapped (roundtrip 500);
    assert_eq f EncEven;;
    on_snd (states_are Secured Secured)).

Definition engine_duplicate_kmreq_is_reechoed : panicking unit :=
  with_refresh (
    km ← announced 0;
    on_snd (installs km;; installs km);;
    roundtrip 600;;
    mret tt).

Definition engine_midstream_kmreq_failure_mapping : panicking unit :=
  with_refresh (
    km ← announced 0;
    on_snd (fails_with (take 10 km) BadSecret);;
    on_snd (states_are Secured BadSecret);;
    on_snd (fails_with (<[ 10%nat := 1 ]> km) NoSecret);;
    on_snd (states_are NoSecret NoSecret);;
    on_snd (fails_with (flip_last km) BadSecret);;
    '(buf, flags) ← on_fst (encrypt 700 (replicate 24 0x5A));
    on_snd (no_key 700 flags buf);;
    on_snd (installs km);;
    st ← on_snd (gets cr_rcv_state);
    assert_eq st Secured;;
    roundtrip 701;;
    mret tt).

Definition engine_midstream_wrong_secret_is_bad_secret : panicking unit :=
  let cfg := engine_config Aes128 <| cc_passphrase := str "a different secret" |> in
  '(_, b) ← kmx_pair_with cfg cfg;
  with_refresh (
    km ← announced 0;
    lift (run b (
      fails_with km BadSecret;;
      states_are BadSecret BadSecret))).

(** ** Retries *)

Definition engine_retry_pacing_and_exhaustion : panicking unit :=
  let t0 := 0 in
  let srtt := 100000 in
  let pace := ms 150 in
  with_refresh (
    km ← announced t0;
    owed ← on_fst (gets Crypto_kmreq);
    assert_eq owed (Some km);;
    on_fst (nothing_owed t0 srtt);;
    on_fst (nothing_owed (t0 + pace - ms 1) srtt);;
    for_each (range 1 (KM_MAX_RETRY + 1)) (fun retry => on_fst (owes (t0 + pace * retry) srtt km));;
    let now := t0 + pace * (KM_MAX_RETRY + 1) in
    on_fst (nothing_owed now srtt);;
    on_fst (nothing_owed (now + pace * 100) srtt);;
    for_each (range 13 17) (fun n => f ← roundtrip n; assert_eq f EncEven);;
    on_fst (on_ack now srtt);;
    '(buf, flags) ← on_fst (encrypt 17 (replicate 24 0x5A));
    assert_eq flags EncOdd;;
    on_snd (no_key 17 EncOdd buf)).

Definition engine_unconfirmed_initial_kmreq_is_resent_on_ack : panicking unit :=
  let t0 := 0 in
  with_initiator (
    kmreq ← gets Crypto_kmreq;
    kmreq ← some kmreq;
    owes t0 100000 kmreq;;
    nothing_owed t0 100000;;
    owes (t0 + ms 150) 100000 kmreq).

Definition engine_responder_never_resends_adopted_kmreq : panicking unit :=
  let t0 := 0 in
  with_engines Aes128 (on_snd (
    km ← gets Crypto_kmreq;
    assert_some km;;
    for_each (range 0 5) (fun i => nothing_owed (t0 + ms (200 * i)) 100000))).

(** ** Responses *)

Definition engine_kmrsp_echo_mismatch_is_ignored : panicking unit :=
  with_initiator (
    kmreq ← gets Crypto_kmreq;
    kmreq ← some kmreq;
    r ← handle_kmrsp (alter (fun b => Z.lxor b 0x01) 20%nat kmreq);
    assert_eq r Ignored;;
    states_are Securing Unsecured;;
    owed ← gets Crypto_kmreq;
    assert_some owed;;
    blob ← on_ack 0 100000;
    assert_some blob).

Definition engine_kmrsp_without_outstanding_is_ignored : panicking unit :=
  stray ← Crypto_new_initiator (engine_config Aes128) (random 8) (random 9);
  blob ← engine_kmreq stray;
  with_engines Aes128 (on_fst (
    r ← handle_kmrsp blob;
    assert_eq r Ignored;;
    st ← gets cr_snd_state;
    assert_eq st Secured)).

Definition engine_kmrsp_malformed_is_ignored : panicking unit :=
  with_initiator (
    for_each [0; 1; 3; 5]%nat (fun len =>
      r ← handle_kmrsp (replicate len 0);
      assert_eq r Ignored);;
    st ← gets cr_snd_state;
    assert_eq st Securing).

Definition engine_kmrsp_status_state_table : panicking unit :=
  for_each [([4; 0; 0; 0], BadSecret, BadSecret, BadSecret); ([3; 0; 0; 0], NoSecret, NoSecret, Unsecured);
            ([0; 0; 0; 0], Unsecured, Unsecured, NoSecret); ([1; 0; 0; 0], NoSecret, NoSecret, NoSecret);
            ([0; 0; 0; 4], NoSecret, NoSecret, NoSecret)] (fun '(wire, outcome, snd, rcv) =>
    with_initiator (
      r ← handle_kmrsp wire;
      assert_eq r (KmRspFailed outcome);;
      states_are snd rcv;;
      nothing_owed 0 100000)).

Definition engine_kmrsp_unsecured_gates_on_ack_entirely : panicking unit :=
  with_refresh (
    r ← on_fst (handle_kmrsp [0; 0; 0; 0]);
    assert_eq r (KmRspFailed Unsecured);;
    for_each (range 1 21) (fun n =>
      roundtrip n;;
      on_fst (nothing_owed 0 100000))).

(** All the tests of [crypto/km.rs] and [crypto/context.rs] pass. *)
Example crypto_tests : Forall passes
  [km_encode_aes128_even_byte_exact; km_encode_kk_bits_on_the_wire;
   km_encode_dual_key_length_math; km_encoded_lengths_match_spec_table;
   km_parse_encode_roundtrip_all_combos; km_parse_rejects_short_input;
   km_parse_rejects_zero_key_length; km_parse_rejects_bad_version_nibble;
   km_parse_rejects_non_km_payload_type; km_parse_rejects_bad_signature;
   km_parse_rejects_bad_stream_encapsulation; km_parse_rejects_kk_zero;
   km_parse_rejects_overlong_salt; km_parse_rejects_short_salt;
   km_parse_rejects_bad_sek_length; km_parse_rejects_total_length_mismatch;
   km_parse_rejects_bad_cipher_and_auth; km_parse_ignores_unchecked_fields;
   km_parse_validation_order_matches_libsrt; km_kmrsp_parse;
   engine_cve_2026_55869_km_ingest_never_panics_or_overflows; engine_cve_2026_55869_oversized_kmreq_is_rejected;
   engine_cve_2026_55869_valid_kmreq_still_accepted; engine_kmx_secures_both_directions_all_key_lengths;
   engine_initiator_states_before_confirmation; engine_initial_kmreq_is_even_single_key;
   engine_responder_adopts_kmreq_key_length; engine_wrong_passphrase_is_bad_secret;
   engine_responder_failure_state_mapping; engine_decrypt_none_is_rejected_on_encrypted_link;
   engine_decrypt_missing_slot_is_no_key; engine_decrypt_gated_until_rcv_secured;
   engine_decrypt_unsecured_flips_to_securing_and_recovers; engine_decrypt_both_selects_odd_slot;
   engine_refresh_cycle_end_to_end; engine_switch_waits_for_preannounced_key;
   engine_midstream_kmreq_applies_to_rx_only; engine_duplicate_kmreq_is_reechoed;
   engine_midstream_kmreq_failure_mapping; engine_midstream_wrong_secret_is_bad_secret;
   engine_retry_pacing_and_exhaustion; engine_unconfirmed_initial_kmreq_is_resent_on_ack;
   engine_responder_never_resends_adopted_kmreq; engine_kmrsp_echo_mismatch_is_ignored;
   engine_kmrsp_without_outstanding_is_ignored; engine_kmrsp_malformed_is_ignored;
   engine_kmrsp_status_state_table; engine_kmrsp_unsecured_gates_on_ack_entirely].
Proof. run_tests. Qed.
